(* ===== verification/_CoqProject ===== *)
-Q . S2P
Prelude.v
JsString.v
Binary64.v
JsNumber.v
JsInteger.v
JsDate.v
Uri.v
Async.v
I18n.v
Traffic.v
Types.v
Json.v
JsDecimal.v
Encode.v
Latency.v
Format.v
Api.v
NodeAssets.v
Components.v
Session.v
Monitor.v
Overview.v
LatencyView.v
NodeView.v
ShareView.v
Clone.v
AdminForms.v
AdminBackups.v
AdminNodes.v
AdminSettings.v
AdminSecurity.v
AdminProbes.v
AdminRules.v
AdminNotifications.v
AdminLatency.v
AdminOverview.v
AdminThemes.v
TimeSeriesChart.v
Html.v
Mutex.v
Updates.v
Decode.v
PartsTemplate.v
OverviewTemplate.v
NodeTemplate.v
LatencyTemplate.v
AdminSettingsTemplate.v
AdminBackupsTemplate.v
AdminProbesTemplate.v
AdminRulesTemplate.v
AdminOverviewTemplate.v
ShareTemplate.v
SessionTemplate.v
AdminLatencyTemplate.v
AdminNodesTemplate.v
AdminNotificationsTemplate.v
AdminSecurityTemplate.v
AdminThemesTemplate.v
Wire.v
Link.v
EndToEnd.v
