(* ===== verification/Prelude.v ===== *)
(** * Hostpin web client: verification library

    A model of Hostpin's web client (web/src: Vue components in TypeScript) and
    the theorems that make it correct.  Definitions follow the source function by
    function and keep its names; a name that Rocq reserves gets an underscore.

    ** The program and the files

    The client is a single-page application.  [main.ts] mounts it; [router.ts]
    lets a visitor reach a page after asking the session store
    ([stores/session.ts]); the public pages show nodes, their history and the
    latency between them from the monitor store ([stores/monitor.ts]) and their
    own requests; the administration pages edit what the server keeps.  All
    requests go through [api.ts]; texts and figures through [i18n.ts],
    [format.ts], [traffic.ts], [latency.ts] and [nodeAssets.ts].

    - The language.  [JsString]: UTF-16 strings as lists of code units.
      [Binary64]: values and rounding of IEEE 754 numbers, over the Standard
      Library's [spec_float].  [JsNumber], [JsInteger], [JsDecimal]: Number and
      Math, safe integers, and the decimal text of integers.  [JsDate]: Date,
      with the host's calendar and time zone as parameters.  [Uri]:
      encodeURIComponent and back.  [Json]: JSON.stringify, JSON.parse and
      Number(string).  These model ECMA-262, not code of the repository.
    - [Async]: handlers.  A handler is a tree of reads and writes of a
      component's state and of awaited calls; [exec] runs one against an
      environment that answers its calls, [step] interleaves any number of them
      at their awaits, and [rely_guarantee] is the rule for invariants under
      every interleaving.  Thrown values are [exn].
    - Libraries of the client.  [I18n] (i18n.ts), [Traffic] (traffic.ts,
      TrafficUsageBar.vue), [Types] (types.ts), [Latency] (latency.ts), [Format]
      (format.ts), [Api] (api.ts), [NodeAssets] (nodeAssets.ts, NodeFlag.vue,
      SystemLogo.vue), [Components] (App, MetricBar, NodeCard, PublicHeader),
      [TimeSeriesChart].
    - Stores, router and pages.  [Session] (stores/session.ts, router.ts,
      LoginView, SetupView, AdminView), [Monitor] (stores/monitor.ts and the mount
      hooks of OverviewView), [Overview] (the figures of OverviewView),
      [LatencyView], [NodeView], [ShareView].
    - Administration (components/admin).  [AdminForms]: the idioms the forms
      share; then one file per page: [AdminBackups], [AdminNodes],
      [AdminSettings], [AdminSecurity], [AdminProbes], [AdminRules],
      [AdminNotifications], [AdminLatency], [AdminOverview] (with the audit log),
      [AdminThemes].
    - [Encode] and [Wire]: the JSON of the records that are sent, and the method,
      path and body of every call the components make, so that their theorems
      meet those of [Api].
    - [Clone] (clone.ts): objects with identity, and why the edited copy of a
      record can be taken for a value in all the files above.
    - Templates. [Html]: a template is a function of the component's state to a
      tree of elements that carry the handlers of their events; [acts] and
      [offered] are what the user can start on it (a disabled control starts
      nothing), [shown] and [elements] what it shows, [renders] that no
      expression of it throws, [ui_reachable] a page run through its template.
      [Updates]: the fields that inputs write. [Mutex]: a rule for flags that
      let one operation run at a time during a visit of the page. Then the
      markup: [PartsTemplate] (MetricBar, TrafficUsageBar, NodeFlag, SystemLogo,
      TimeSeriesChart, NodeCard, LanguageSwitch, PublicHeader),
      [OverviewTemplate], [NodeTemplate], [LatencyTemplate], [ShareTemplate],
      [SessionTemplate] (LoginView, SetupView, AdminView), and
      [AdminSettingsTemplate], [AdminBackupsTemplate], [AdminProbesTemplate],
      [AdminRulesTemplate], [AdminOverviewTemplate] (with the audit log),
      [AdminLatencyTemplate], [AdminNodesTemplate],
      [AdminNotificationsTemplate], [AdminSecurityTemplate],
      [AdminThemesTemplate]. A tag, an attribute and an event keep their names;
      [v-if] is a conditional, [v-for] a map with the elements' keys.
    - Composition.  [Decode]: bodies read at the types of types.ts, as an
      interface ([Decodes]) between who writes a record and who reads it.
      [Link]: the calls of a handler replaced by programs of the callee.
      [EndToEnd]: pages, the session store, [Api] and [Wire] together, from a
      click to the text of the request and from the response to the page.

    In a component's file the refs of the script are the fields of a record
    ([page], [view], [form]), its API calls the constructors of [Req] with the
    type of each answer in [Resp], its computed values functions of the record,
    and its handlers programs of [Async] with the source's guards, early returns,
    try, catch and finally.  A segment between two awaits is atomic, as in
    JavaScript.  The answer of [confirm] is an argument of the handler.

    A handler meets its server in one of two ways.  [Async.exec] answers each
    request by a function of the request, which is enough where a handler makes
    each call once.  [Async.exec_in] runs it against a server with a state of its
    own, which may answer the same request differently each time, and records the
    calls in order with the final states ([trace]); the theorems of [Api], [Wire],
    [EndToEnd] and of the wait for a reload are about it.  The state of a handler
    of [Api] is the page's cookies: a response may replace them
    ([Api.cookies_after]), as the sign-in does.

    A visit: the router creates a page's refs anew whenever it enters the page
    ([Session.enter_login], [Session.enter_setup], and the first states [init],
    [start] and [empty_form] of the other pages).  [reachable] and [ui_reachable]
    are one visit; a handler that an earlier visit left waiting goes on with refs
    no page shows, and where it still changes a store it is part of that store's
    own runs ([Monitor.disconnect_undone_by_load]).

    ** What is proved

    - Safety of the session: [Session.beforeEach_protects] (no administration
      page without a login the server confirmed), [session_invariant],
      [Api.csrf_token_sent], and over all components together
      [Wire.requests_protected] (every request goes to the API on the page's own
      host, every writing one carries the token).
    - Concurrency: [Monitor.monitor_resources] (one socket and one timer of each
      kind under any interleaving), [LatencyView.history_matches_selection] (a
      late answer never shows under another selection),
      [AdminSettings.plaintext_belongs] (a PIN's plaintext is kept with its own
      PIN only), [TimeSeriesChart.chart_shows_props] (the chart follows its
      properties and gives back what it registered).
    - Through the markup: what a control can start and what the user sees.
      [AdminSettingsTemplate.plaintext_shown_for_its_pin];
      [LatencyTemplate.only_measured_paths]; [OverviewTemplate.overview_lists]
      (the list shows exactly the nodes that pass the filter);
      [AdminRulesTemplate.drawer_has_lists] (the drawer never reads a list that is
      not there); [AdminSecurityTemplate.security_page_renders] (the page is shown
      exactly when every date on it can be formatted); and that one operation runs
      at a time where a flag disables its controls:
      [AdminBackupsTemplate.one_transfer_at_a_time],
      [SessionTemplate.one_sign_in_at_a_time],
      [AdminNodesTemplate.one_write_at_a_time],
      [AdminLatencyTemplate.one_save_at_a_time],
      [AdminProbesTemplate.one_carrier_save_at_a_time].
    - The whole: [EndToEnd.page_over_http_equivalent] (a handler over the API
      client is the handler against a server described on its own, exchange by
      exchange), and with it [EndToEnd.probe_saved_end_to_end],
      [EndToEnd.probe_refused_end_to_end], [EndToEnd.settings_saved_end_to_end];
      [Clone.clone_detaches] (a copy reads as its original, and neither sees what
      is done to the other).
    - Editors: opening and saving at once sends back what was there
      ([AdminNodes.edit_save_unchanged], [AdminThemes.theme_edit_save],
      [AdminRules.rule_edit_save], [AdminNotifications.channel_edit_save]), with
      the outcome of success and of every failure ([AdminNodes.save_outcome],
      [AdminProbes.probe_save_outcome]); a saved record is [AdminForms.placed] in
      its list; bodies are read back as the values sent ([Wire.bodies_read_back]).
    - Arithmetic on binary64 numbers: exact values and bounds of utilisations,
      latency summaries, durations, sizes, ages and rates of success
      ([Traffic], [Latency], [Format], [AdminLatency.successRate_exact]);
      [Latency.summarizeLatencyWindow_refines] relates the one-pass summary to its
      definition by sums.
    - Round trips of locale, cookies, selectors and texts; termination of the
      wait for the server's reload ([AdminBackups.waitForReload_terminates]).
    - Defects of the source, as theorems that exhibit the behaviour:
      [Monitor.disconnect_undone_by_load], [AdminNodes.stale_config_saved],
      [AdminLatency.previous_config_saved],
      [AdminSettings.stale_poll_wipes_plaintext],
      [AdminSecurity.share_expiry_shifted], [LatencyView.latency_timer_leaks],
      [NodeView.NodeView_stale_history], [NodeView.NodeView_leaks],
      [Format.rate_below_one_undefined], [Session.admin_section_prototype],
      [Traffic.correction_units_lose_bytes],
      [OverviewTemplate.overview_retry_useless],
      [NodeTemplate.failed_window_looks_current],
      [AdminLatencyTemplate.previous_config_sent],
      [AdminNotificationsTemplate.kept_secret_is_required],
      [AdminProbesTemplate.task_created_twice],
      [AdminThemesTemplate.two_installs_at_once].

    Each theorem with hypotheses is followed by a [_witness] that applies it to
    concrete values.

    ** Bounds and fuel

    Integer results hold for magnitudes below 2^53, where binary64 is exact, and
    say so.  [Json.value] takes the length of its text as fuel for nesting, which
    the nesting of a value never exceeds ([Json.depth_length]); [toString]
    searches at most 18 significant digits and [dec] has one digit of fuel per
    bit, and for integers below 10^15 the result is proved to be the decimal
    notation ([JsDecimal.toString_of_Z]).  [decode_go] takes the length of its
    input.  The wait for a reload is the source's own loop of 120 attempts.
    [Clone.clone_value] has one unit of fuel per object of the heap, each of which
    is entered once ([Clone.clone_value_succeeds]).

    ** Parameters

    Math.log, the Unicode case tables, the calendar and formatter of the host,
    the resolution of URLs, localStorage (any access may throw), Vue's toRaw,
    and every answer of the server. What the code relies on of them is stated as
    laws ([MathLogLaws], [UnicodeLaws], and hypotheses of single theorems about
    the host's clock), and each is met by a concrete function.

    ** Not modelled

    - The server and the agent (Go): the client sees them through the API, whose
      answers are arbitrary here.
    - Styles, and what the browser does with a tree: layout, focus, and its own
      validation of forms. The fields of numbers hold numbers: v-model.number
      writes the text itself, the empty one included, when it is no number, and
      such a text is not modelled. A part with a state of its own is a place in
      the tree of its page and has its own tree.
    - The generated bundle (internal/webui/dist), build files, and main.ts, which
      only hands the parts to Vue.
    - echarts, Vue's scheduler and the DOM beyond what the components register
      with them; two writes in one segment are one update.  A text given to a
      template is shown as it is. *)

From stdpp Require Export base tactics list option numbers gmap.
From Stdlib Require Export ZArith Lia.

(** ** Automation shared by the components *)

Create HintDb hostpin.

(** Case analysis on the first [if] or [match] of the goal, keeping the
    equation. *)
Ltac break :=
  match goal with
  | |- context [if ?b then _ else _] => destruct b eqn:?
  | |- context [match ?x with _ => _ end] => destruct x eqn:?
  end.

(** The same in the hypotheses. *)
Ltac break_in H :=
  match type of H with
  | context [if ?b then _ else _] => destruct b eqn:?
  | context [match ?x with _ => _ end] => destruct x eqn:?
  end.

(** Powers of two: split an exponent, or compare two powers. *)
Lemma pow2_pos n : (0 <= n -> 0 < 2 ^ n)%Z.
Proof. intros. apply Z.pow_pos_nonneg; lia. Qed.

Lemma pow2_split a b : (0 <= a -> 0 <= b -> 2 ^ (a + b) = 2 ^ a * 2 ^ b)%Z.
Proof. intros. apply Z.pow_add_r; lia. Qed.

Lemma pow2_le a b : (a <= b -> 2 ^ a <= 2 ^ b)%Z.
Proof. intros. apply Z.pow_le_mono_r; lia. Qed.

Lemma pow2_lt a b : (0 <= b -> a < b -> 2 ^ a < 2 ^ b)%Z.
Proof. intros. apply Z.pow_lt_mono_r; lia. Qed.

Lemma pow2_lt_inv a b : (0 <= a -> 2 ^ a < 2 ^ b -> a < b)%Z.
Proof.
  intros Ha H. destruct (Z.lt_ge_cases a b) as [|Hge]; [done|].
  pose proof (pow2_le b a Hge). lia.
Qed.

(** Change of the reference exponent from [a] to [b]. *)
Lemma pow2_rebase a b c : (b <= a -> 0 <= b + c -> 2 ^ (a + c) = 2 ^ (a - b) * 2 ^ (b + c))%Z.
Proof. intros. rewrite <- pow2_split by lia. f_equal. lia. Qed.
