(* ===== verification/JsString.v ===== *)
(** * JsString: JavaScript strings

    A JavaScript string is a sequence of UTF-16 code units.  Literals are
    written [js "..."]: the UTF-8 bytes of the source literal are decoded and
    re-encoded as UTF-16.  The methods below follow ECMA-262 (String.prototype);
    case conversion depends on the Unicode database and is a parameter with
    its ASCII behaviour as laws. *)

From Stdlib Require Import Strings.String Strings.Ascii.
From S2P Require Import Prelude.

Open Scope N_scope.

(** A string as a list of code units. *)
Abbreviation jsstr := (list N).

(** ** Literals *)

Fixpoint bytes_of_string (s : String.string) : list N :=
  match s with
  | EmptyString => []
  | String c s' => N_of_ascii c :: bytes_of_string s'
  end.

(** Code points of well-formed UTF-8 (source literals are well formed). *)
Fixpoint utf8_decode (b : list N) : list N :=
  match b with
  | [] => []
  | b0 :: t0 =>
      if b0 <? 128 then b0 :: utf8_decode t0
      else match t0 with
           | [] => []
           | b1 :: t1 =>
               if b0 <? 224 then (b0 - 192) * 64 + (b1 - 128) :: utf8_decode t1
               else match t1 with
                    | [] => []
                    | b2 :: t2 =>
                        if b0 <? 240 then (b0 - 224) * 4096 + (b1 - 128) * 64 + (b2 - 128) :: utf8_decode t2
                        else match t2 with
                             | [] => []
                             | b3 :: t3 =>
                                 (b0 - 240) * 262144 + (b1 - 128) * 4096 + (b2 - 128) * 64 + (b3 - 128)
                                   :: utf8_decode t3
                             end
                    end
           end
  end.

(** UTF-16 encoding of a code point. *)
Definition utf16_encode (c : N) : jsstr :=
  if c <? 65536 then [c]
  else let v := c - 65536 in [55296 + v / 1024; 56320 + v mod 1024].

Definition js (s : String.string) : jsstr := utf8_decode (bytes_of_string s) ≫= utf16_encode.
Arguments js s%_string : simpl never.

(** ** White space and trimming *)

(** WhiteSpace and LineTerminator code units of ECMA-262. *)
Definition isSpace (c : N) : bool :=
  ((9 <=? c) && (c <=? 13)) || (c =? 32) || (c =? 160) || (c =? 5760)
  || ((8192 <=? c) && (c <=? 8202)) || (c =? 8232) || (c =? 8233) || (c =? 8239)
  || (c =? 8287) || (c =? 12288) || (c =? 65279).

Fixpoint trimStart (s : jsstr) : jsstr :=
  match s with
  | c :: s' => if isSpace c then trimStart s' else s
  | [] => []
  end.

Definition trimEnd (s : jsstr) : jsstr := rev (trimStart (rev s)).
Definition trim (s : jsstr) : jsstr := trimEnd (trimStart s).

(** ** Searching *)

Fixpoint startsWith (s p : jsstr) : bool :=
  match p, s with
  | [], _ => true
  | a :: p', b :: s' => (a =? b) && startsWith s' p'
  | _ :: _, [] => false
  end.

Fixpoint includes (s p : jsstr) : bool :=
  startsWith s p || match s with [] => false | _ :: s' => includes s' p end.

(** [indexOf], with [None] for [-1]. *)
Fixpoint indexOf (s p : jsstr) : option nat :=
  if startsWith s p then Some O
  else match s with [] => None | _ :: s' => S <$> indexOf s' p end.

(** [replace(p, r)] with a string pattern: the first occurrence. *)
Fixpoint replaceFirst (s p r : jsstr) : jsstr :=
  if startsWith s p then (r ++ drop (length p) s)%list
  else match s with [] => [] | c :: s' => c :: replaceFirst s' p r end.

(** [split(sep)] for a non-empty separator; [skip] counts the units of a
    matched separator still to be dropped. *)
Fixpoint split_go (sep s : jsstr) (skip : nat) (acc : jsstr) : list jsstr :=
  match s with
  | [] => [rev acc]
  | c :: s' =>
      match skip with
      | S k => split_go sep s' k acc
      | O => if startsWith s sep then rev acc :: split_go sep s' (pred (length sep)) []
             else split_go sep s' O (c :: acc)
      end
  end.

Definition split (s sep : jsstr) : list jsstr := split_go sep s O [].

Fixpoint join (l : list jsstr) (sep : jsstr) : jsstr :=
  match l with
  | [] => []
  | [s] => s
  | s :: l' => (s ++ sep ++ join l' sep)%list
  end.

(** [slice(a, b)] with non-negative bounds, and [slice(a)]. *)
Definition slice (s : jsstr) (a b : nat) : jsstr := take (b - a) (drop a s).

(** String equality and truthiness. *)
Definition streq (a b : jsstr) : bool := bool_decide (a = b).
Definition truthy (s : jsstr) : bool := match s with [] => false | _ => true end.

(** [a || b] on an optional string, and [a ?? b]. *)
Definition or_else (a : option jsstr) (b : jsstr) : jsstr :=
  match a with Some (c :: s) => c :: s | _ => b end.
Definition nullish {A} (a : option A) (b : A) : A := default b a.

(** The default order of [Array.prototype.sort]: by code units. *)
Fixpoint str_leb (a b : jsstr) : bool :=
  match a, b with
  | [], _ => true
  | _ :: _, [] => false
  | x :: a', y :: b' => if x <? y then true else if y <? x then false else str_leb a' b'
  end.

(** ** Case conversion *)

Definition ascii_unit (c : N) : bool := c <? 128.
Definition is_ascii (s : jsstr) : bool := forallb ascii_unit s.
Definition ascii_lower (c : N) : N := if (65 <=? c) && (c <=? 90) then c + 32 else c.
Definition ascii_upper (c : N) : N := if (97 <=? c) && (c <=? 122) then c - 32 else c.

(** [toLowerCase] and [toUpperCase] use the Unicode default case conversion;
    the tables are data of the host. *)
Class Unicode := {
  toLowerCase : jsstr -> jsstr;
  toUpperCase : jsstr -> jsstr;
}.

(** What Unicode fixes for ASCII strings. *)
Class UnicodeLaws (U : Unicode) : Prop := {
  lower_ascii s : is_ascii s = true -> toLowerCase s = map ascii_lower s;
  upper_ascii s : is_ascii s = true -> toUpperCase s = map ascii_upper s;
}.

(** A host whose tables cover ASCII and the sharp s (whose upper case is two
    letters); it inhabits the interface. *)
Definition small_unicode : Unicode := {|
  toLowerCase := map ascii_lower;
  toUpperCase s := s ≫= (fun c => if c =? 223 then [83; 83] else [ascii_upper c]);
|}.

(** ** Lemmas *)

Lemma small_unicode_laws : UnicodeLaws small_unicode.
Proof.
  split; [done|]. intros s Hs. cbn. induction s as [|c s IH]; [done|].
  cbn in *. apply andb_true_iff in Hs as [Hc Hs]. rewrite IH by done. unfold ascii_unit in Hc.
  destruct (N.eqb_spec c 223); [subst; done|done].
Qed.

Lemma streq_eq a b : streq a b = true <-> a = b.
Proof. apply bool_decide_eq_true. Qed.

Lemma streq_refl a : streq a a = true.
Proof. by apply streq_eq. Qed.

#[export] Hint Resolve streq_refl : hostpin.

Lemma startsWith_spec p : forall s, startsWith s p = true <-> exists t, s = (p ++ t)%list.
Proof.
  induction p as [|a p IH]; intros s; [split; [by exists s|by destruct s]|].
  destruct s as [|b s]; cbn.
  - split; [done|]. by intros [t ?].
  - rewrite andb_true_iff, N.eqb_eq, IH. split.
    + intros [-> [t ->]]. by exists t.
    + intros [t [= -> ->]]. eauto.
Qed.

Lemma includes_spec p : forall s, includes s p = true <-> exists a b, s = (a ++ p ++ b)%list.
Proof.
  induction s as [|c s IH]; cbn [includes]; rewrite orb_true_iff, startsWith_spec.
  - split.
    + intros [[t Ht]|]; [|done]. by exists [], t.
    + intros (a & b & H). left. symmetry in H. apply app_nil in H as [-> H]. by exists b.
  - rewrite IH. split.
    + intros [[t Ht]|(a & b & ->)]; [by exists [], t|by exists (c :: a), b].
    + intros ([|x a] & b & H); [left; by exists b|]. right.
      injection H as -> ->. eauto.
Qed.

Lemma trimStart_app s : exists w, s = (w ++ trimStart s)%list /\ Forall (fun c => isSpace c = true) w.
Proof.
  induction s as [|c s (w & IH & Hw)]; [by exists []|]. cbn. destruct (isSpace c) eqn:E.
  - exists (c :: w). split; [cbn; congruence|by constructor].
  - by exists [].
Qed.

Lemma trimStart_head c s t : trimStart s = c :: t -> isSpace c = false.
Proof.
  induction s as [|a s IH]; [done|]. cbn. destruct (isSpace a) eqn:E; [done|]. by intros [= -> _].
Qed.

Lemma trimStart_id s : (forall c t, s = c :: t -> isSpace c = false) -> trimStart s = s.
Proof. destruct s as [|c s]; [done|]. intros H. cbn. by rewrite (H c s eq_refl). Qed.

(** [trim] removes a prefix and a suffix of white space and nothing else. *)
Lemma trim_app s : exists w v, s = (w ++ trim s ++ v)%list /\
  Forall (fun c => isSpace c = true) w /\ Forall (fun c => isSpace c = true) v.
Proof.
  destruct (trimStart_app s) as (w & Hs & Hw).
  destruct (trimStart_app (rev (trimStart s))) as (v & Hv & Hvs).
  exists w, (rev v). unfold trim, trimEnd. split_and!; [|done|by apply Forall_rev].
  rewrite <- rev_app_distr, <- Hv, rev_involutive. done.
Qed.

(** The units of a trimmed string that are not white space are kept. *)
Lemma trim_ends s : match trim s with [] => True | c :: _ => isSpace c = false end /\
  match rev (trim s) with [] => True | c :: _ => isSpace c = false end.
Proof.
  unfold trim, trimEnd. rewrite rev_involutive. split.
  - destruct (trimStart_app (rev (trimStart s))) as (v & Hv & Hvs).
    apply (f_equal (@rev N)) in Hv. rewrite rev_app_distr, rev_involutive in Hv.
    destruct (rev (trimStart (rev (trimStart s)))) as [|c t] eqn:E; [done|].
    eapply trimStart_head. exact Hv.
  - destruct (trimStart (rev (trimStart s))) eqn:E; [done|]. by eapply trimStart_head.
Qed.

Lemma trim_fixed s : match s with [] => True | c :: _ => isSpace c = false end ->
  match rev s with [] => True | c :: _ => isSpace c = false end -> trim s = s.
Proof.
  intros H1 H2. unfold trim, trimEnd.
  rewrite (trimStart_id s) by (by intros c t ->).
  rewrite trimStart_id by (by intros c t E; rewrite E in H2). apply rev_involutive.
Qed.

Lemma trim_idem s : trim (trim s) = trim s.
Proof. apply trim_fixed; apply trim_ends. Qed.
