(* ===== verification/Binary64.v ===== *)
(** * Binary64: rounding of IEEE 754 double precision numbers

    A JavaScript [Number] is a binary64 value.  The Standard Library's
    [SpecFloat] gives an executable, axiom-free specification of its
    arithmetic; this file instantiates it at 53 bits and proves what the
    components use: the operations return valid (canonical) values, and
    rounding never crosses a representable number ("sandwich" lemmas), so a
    representable exact result is the result. *)

From Stdlib Require Export SpecFloat.
From S2P Require Import Prelude.

Open Scope Z_scope.

Arguments SpecFloat.iter_pos {A} f n x.

(** The exponent function of binary64 and canonical mantissa/exponent pairs. *)
Abbreviation fexp64 := (fexp 53 1024).
Definition canonical (m : positive) (e : Z) : Prop := fexp64 (Zdigits2 (Zpos m) + e) = e.

(** ** Number of binary digits *)

Lemma digits2_pos_bound p : 2 ^ (Zpos (digits2_pos p) - 1) <= Zpos p < 2 ^ Zpos (digits2_pos p).
Proof.
  induction p as [p IH|p IH|]; simpl digits2_pos; [| |lia].
  all: rewrite Pos2Z.inj_succ; set (d := Zpos (digits2_pos p)) in *.
  all: replace (Z.succ d - 1) with ((d - 1) + 1) by lia.
  all: replace (Z.succ d) with (d + 1) by lia.
  all: rewrite !pow2_split by lia; change (2 ^ 1) with 2; lia.
Qed.

Lemma Zdigits2_bound m : 0 < m -> 2 ^ (Zdigits2 m - 1) <= m < 2 ^ Zdigits2 m.
Proof. destruct m; intros; try lia. apply digits2_pos_bound. Qed.

Lemma Zdigits2_pos m : 0 < m -> 0 < Zdigits2 m.
Proof. destruct m; simpl; lia. Qed.

Lemma Zdigits2_unique m d : 0 < d -> 2 ^ (d - 1) <= m < 2 ^ d -> Zdigits2 m = d.
Proof.
  intros Hd Hm. assert (0 < m) by (pose proof (pow2_pos (d - 1)); lia).
  pose proof (Zdigits2_bound m ltac:(lia)) as Hb. pose proof (Zdigits2_pos m ltac:(lia)).
  assert (Zdigits2 m - 1 < d) by (apply pow2_lt_inv; lia).
  assert (d - 1 < Zdigits2 m) by (apply pow2_lt_inv; lia). lia.
Qed.

Lemma Zdigits2_le m d : 0 < m -> 0 <= d -> m < 2 ^ d -> Zdigits2 m <= d.
Proof.
  intros Hm Hd Hlt. pose proof (Zdigits2_bound m Hm). pose proof (Zdigits2_pos m Hm).
  assert (Zdigits2 m - 1 < d); [apply pow2_lt_inv; lia|lia].
Qed.

Lemma Zdigits2_shiftl m n : 0 < m -> 0 <= n -> Zdigits2 (m * 2 ^ n) = Zdigits2 m + n.
Proof.
  intros Hm Hn. pose proof (Zdigits2_bound m Hm). pose proof (Zdigits2_pos m Hm).
  pose proof (pow2_pos n Hn). apply Zdigits2_unique; [lia|].
  replace (Zdigits2 m + n - 1) with ((Zdigits2 m - 1) + n) by lia.
  rewrite !pow2_split by lia. nia.
Qed.

Lemma fexp_eq e : fexp64 e = Z.max (e - 53) (-1074).
Proof. reflexivity. Qed.

(** ** The shift with guard and sticky bits *)

(** [1] when the truncated bits of a shift record are not all zero. *)
Definition rest (r : shr_record) : Z := if shr_r r || shr_s r then 1 else 0.

Definition loc_rest (l : location) : Z := match l with loc_Exact => 0 | _ => 1 end.

(** Ceiling division by a power of two. *)
Definition cdiv2 (a n : Z) : Z := - ((- a) / 2 ^ n).

Lemma cdiv2_le a n b : 0 <= n -> a <= b * 2 ^ n -> cdiv2 a n <= b.
Proof.
  intros Hn H. unfold cdiv2. pose proof (pow2_pos n Hn).
  assert (- b <= (- a) / 2 ^ n); [|lia]. apply Z.div_le_lower_bound; lia.
Qed.

Lemma shr_1_spec r : 0 <= shr_m r ->
  shr_m (shr_1 r) = shr_m r / 2 /\
  shr_m (shr_1 r) + rest (shr_1 r) = cdiv2 (shr_m r + rest r) 1.
Proof.
  destruct r as [m rr ss]. unfold cdiv2, rest. change (2 ^ 1) with 2. cbn [shr_m shr_r shr_s].
  intros Hm.
  assert (Hcd : forall a b, - (b + b) - a = - (b + b + a)) by (intros; lia).
  destruct m as [|[p|p|]|p]; try lia; destruct rr, ss; cbn [shr_1 shr_m shr_r shr_s orb];
    split; try reflexivity;
    try (rewrite ?(Pos2Z.inj_xI p), ?(Pos2Z.inj_xO p)); Z.to_euclidean_division_equations; lia.
Qed.

Lemma cdiv2_cdiv2 a n k : 0 <= n -> 0 <= k -> cdiv2 (cdiv2 a n) k = cdiv2 a (n + k).
Proof.
  intros. unfold cdiv2. rewrite Z.opp_involutive, pow2_split by lia.
  rewrite Z.div_div; [done| |]; pose proof (pow2_pos n); pose proof (pow2_pos k); lia.
Qed.

Lemma shr_1_iter p : forall r, 0 <= shr_m r ->
  shr_m (SpecFloat.iter_pos shr_1 p r) = shr_m r / 2 ^ Zpos p /\
  shr_m (SpecFloat.iter_pos shr_1 p r) + rest (SpecFloat.iter_pos shr_1 p r) = cdiv2 (shr_m r + rest r) (Zpos p).
Proof.
  assert (Hnn : forall m n, 0 <= m -> 0 <= n -> 0 <= m / 2 ^ n).
  { intros m n Hm Hn. apply Z.div_pos; [lia|]. by apply pow2_pos. }
  assert (Hdd : forall m a b, 0 <= a -> 0 <= b -> m / 2 ^ a / 2 ^ b = m / 2 ^ (a + b)).
  { intros m a b Ha Hb. by rewrite pow2_split, Z.div_div by lia. }
  induction p as [p IH|p IH|]; intros r Hr; cbn [SpecFloat.iter_pos].
  - destruct (shr_1_spec r Hr) as [H1 H1'].
    assert (N1 : 0 <= shr_m (shr_1 r)) by (rewrite H1; apply (Hnn _ 1); lia).
    destruct (IH _ N1) as [H2 H2'].
    assert (N2 : 0 <= shr_m (SpecFloat.iter_pos shr_1 p (shr_1 r))) by (rewrite H2; apply Hnn; lia).
    destruct (IH _ N2) as [H3 H3'].
    split; [rewrite H3, H2, H1|rewrite H3', H2', H1'].
    + change (shr_m r / 2) with (shr_m r / 2 ^ 1). rewrite !Hdd by lia. do 2 f_equal; lia.
    + rewrite !cdiv2_cdiv2 by lia. f_equal; lia.
  - destruct (IH _ Hr) as [H2 H2'].
    assert (N2 : 0 <= shr_m (SpecFloat.iter_pos shr_1 p r)) by (rewrite H2; apply Hnn; lia).
    destruct (IH _ N2) as [H3 H3'].
    split; [rewrite H3, H2, !Hdd by lia|rewrite H3', H2', !cdiv2_cdiv2 by lia].
    + do 2 f_equal; lia.
    + f_equal; lia.
  - apply shr_1_spec, Hr.
Qed.

Lemma rest_loc l : loc_of_shr_record (shr_record_of_loc 0 l) = l.
Proof. by destruct l as [|[]]. Qed.

(** Rounding to nearest even picks the floor or the ceiling. *)
Lemma round_nearest_even_bound r :
  shr_m r <= round_nearest_even (shr_m r) (loc_of_shr_record r) <= shr_m r + rest r.
Proof. destruct r as [m [] []]; cbn; unfold rest; cbn; try destruct (Z.even m); lia. Qed.

Lemma shr_record_of_loc_m m l : shr_m (shr_record_of_loc m l) = m.
Proof. by destruct l as [|[]]. Qed.

Lemma shr_record_of_loc_rest m l : rest (shr_record_of_loc m l) = loc_rest l.
Proof. by destruct l as [|[]]. Qed.

(** The shift of [shr_fexp], for a non-negative distance. *)
Lemma shr_fexp_spec m e l :
  0 <= m -> e <= fexp64 (Zdigits2 m + e) ->
  let n := fexp64 (Zdigits2 m + e) - e in
  snd (shr_fexp 53 1024 m e l) = e + n /\
  shr_m (fst (shr_fexp 53 1024 m e l)) = m / 2 ^ n /\
  shr_m (fst (shr_fexp 53 1024 m e l)) + rest (fst (shr_fexp 53 1024 m e l))
    = cdiv2 (m + loc_rest l) n.
Proof.
  intros Hm He n. unfold shr_fexp. fold n. unfold shr.
  destruct n as [|p|p] eqn:Hn; [| |lia]; cbn [fst snd].
  - rewrite shr_record_of_loc_m, shr_record_of_loc_rest. change (2 ^ 0) with 1.
    unfold cdiv2. change (2 ^ 0) with 1. rewrite !Z.div_1_r. lia.
  - pose proof (shr_1_iter p (shr_record_of_loc m l)) as H.
    rewrite shr_record_of_loc_m, shr_record_of_loc_rest in H.
    destruct (H Hm). by repeat split.
Qed.

(** No shift when the mantissa already fits. *)
Lemma shr_fexp_id m e :
  0 <= m -> fexp64 (Zdigits2 m + e) <= e -> shr_fexp 53 1024 m e loc_Exact = (shr_record_of_loc m loc_Exact, e).
Proof. intros Hm He. unfold shr_fexp, shr. by destruct (_ - _) eqn:E; [|lia|]. Qed.

(** ** Rounding *)

(** Validity of a binary64 value, as a proposition. *)
Definition valid (x : spec_float) : Prop :=
  match x with S754_finite _ m e => canonical m e /\ e <= 971 | _ => True end.

(** The value that [binary_round_aux] returns for a mantissa and an exponent
    that are already canonical. *)
Definition pack (s : bool) (m : Z) (e : Z) (x : spec_float) : Prop :=
  (m = 0 /\ x = S754_zero s) \/
  exists p e', canonical p e' /\ e <= e' /\ Zpos p * 2 ^ (e' - e) = m /\
    x = (if e' <=? 971 then S754_finite s p e' else S754_infinity s).

Lemma pow2_53_digits : Zdigits2 (2 ^ 53) = 54.
Proof. reflexivity. Qed.

(** Normalisation of a rounded mantissa: the second shift of
    [binary_round_aux] only acts on [2 ^ 53]. *)
Lemma normalize_spec s m e :
  0 <= m <= 2 ^ 53 -> -1074 <= e -> (e = -1074 \/ 2 ^ 52 <= m) ->
  pack s m e
    (let '(mrs, e') := shr_fexp 53 1024 m e loc_Exact in
     match shr_m mrs with
     | Z0 => S754_zero s
     | Zpos p => if e' <=? 1024 - 53 then S754_finite s p e' else S754_infinity s
     | _ => S754_nan
     end).
Proof.
  intros Hm He Hn. change (1024 - 53) with 971.
  destruct (Z.eq_dec m (2 ^ 53)) as [->|Hne].
  - right. exists (2 ^ 52)%positive, (e + 1).
    assert (Hd : fexp64 (Zdigits2 (2 ^ 53) + e) - e = 1)
      by (rewrite pow2_53_digits, fexp_eq; lia).
    split_and!; [|lia| |].
    + unfold canonical. rewrite fexp_eq. change (Zdigits2 (Z.pos (2 ^ 52))) with 53. lia.
    + by replace (e + 1 - e) with 1 by lia.
    + unfold shr_fexp. rewrite Hd. reflexivity.
  - rewrite shr_fexp_id; cbn [shr_record_of_loc shr_m]; [|lia|].
    + destruct m as [|p|p]; [by left| |lia]. right. exists p, e.
      split_and!; [|lia| |done].
      * unfold canonical. rewrite fexp_eq.
        pose proof (Zdigits2_le (Z.pos p) 53 ltac:(lia) ltac:(lia) ltac:(lia)).
        destruct Hn as [->|Hn]; [lia|].
        rewrite (Zdigits2_unique (Z.pos p) 53); lia.
      * rewrite Z.sub_diag. lia.
    + rewrite fexp_eq. destruct (Z.eq_dec m 0) as [->|]; [cbn; lia|].
      pose proof (Zdigits2_le m 53 ltac:(lia) ltac:(lia) ltac:(lia)). lia.
Qed.

(** The result of rounding lies between the floor and the ceiling of the exact
    value on the target exponent, and it is valid. *)
Lemma binary_round_aux_spec s mx ex lx :
  let e1 := fexp64 (Zdigits2 mx + ex) in
  0 <= mx -> ex <= e1 -> (mx = 0 -> ex <= -1074) ->
  exists m, mx / 2 ^ (e1 - ex) <= m <= cdiv2 (mx + loc_rest lx) (e1 - ex) /\
    pack s m e1 (binary_round_aux 53 1024 s mx ex lx).
Proof.
  intros e1 Hm He H0. unfold binary_round_aux.
  destruct (shr_fexp_spec mx ex lx Hm He) as (E1 & E2 & E3). fold e1 in E1, E2, E3.
  destruct (shr_fexp 53 1024 mx ex lx) as [mrs e']; cbn [fst snd] in *.
  assert (e' = e1) as -> by lia.
  pose proof (round_nearest_even_bound mrs) as Hr.
  set (m := round_nearest_even _ _) in *. clearbody m.
  rewrite E3, E2 in Hr. exists m. split; [done|].
  assert (Hfl : 0 <= mx / 2 ^ (e1 - ex)) by (apply Z.div_pos; [lia|apply pow2_pos; lia]).
  assert (Hup : cdiv2 (mx + loc_rest lx) (e1 - ex) <= 2 ^ 53).
  { apply cdiv2_le; [lia|]. rewrite <- pow2_split by lia.
    assert (loc_rest lx <= 1) by (by destruct lx as [|[]]).
    destruct (Z.eq_dec mx 0) as [->|]; [pose proof (pow2_pos (53 + (e1 - ex))); lia|].
    pose proof (Zdigits2_bound mx ltac:(lia)).
    assert (2 ^ Zdigits2 mx <= 2 ^ (53 + (e1 - ex))); [|lia].
    apply pow2_le. subst e1. rewrite fexp_eq. lia. }
  apply normalize_spec; [lia|subst e1; rewrite fexp_eq; lia|].
  destruct (Z.eq_dec mx 0) as [->|Hnz]; [left; subst e1; rewrite fexp_eq; cbn; lia|].
  destruct (Z.eq_dec e1 (-1074)) as [->|Hne]; [by left|right].
  pose proof (Zdigits2_bound mx ltac:(lia)).
  assert (2 ^ 52 <= mx / 2 ^ (e1 - ex)); [|lia].
  assert (e1 = Zdigits2 mx + ex - 53) by (subst e1; rewrite fexp_eq in *; lia).
  apply Z.div_le_lower_bound; [apply pow2_pos; lia|].
  rewrite Z.mul_comm, <- pow2_split by lia.
  replace (52 + (e1 - ex)) with (Zdigits2 mx - 1) by lia. lia.
Qed.

(** ** Scaled integer values

    Every finite binary64 number is an integer multiple of [2 ^ -1074]; [ival]
    is that integer.  Order, sums and bounds become facts about [Z]. *)

Definition mval (m : positive) (e : Z) : Z := Zpos m * 2 ^ (e + 1074).

Definition ival (x : spec_float) : Z :=
  match x with
  | S754_finite s m e => if s then - mval m e else mval m e
  | _ => 0
  end.

Definition is_finite (x : spec_float) : bool :=
  match x with S754_zero _ | S754_finite _ _ _ => true | _ => false end.

(** The sign bit, with [None] for NaN. *)
Definition sign (x : spec_float) : option bool :=
  match x with
  | S754_zero s | S754_infinity s | S754_finite s _ _ => Some s
  | S754_nan => None
  end.

Lemma canonical_emin m e : canonical m e -> -1074 <= e.
Proof. unfold canonical. rewrite fexp_eq. lia. Qed.

Lemma mval_pos m e : canonical m e -> 0 < mval m e.
Proof.
  intros H%canonical_emin. unfold mval. pose proof (pow2_pos (e + 1074)). lia.
Qed.

Lemma canonical_lt m1 e1 m2 e2 :
  canonical m1 e1 -> canonical m2 e2 -> e1 < e2 -> mval m1 e1 < mval m2 e2.
Proof.
  intros H1 H2 Hlt. pose proof (canonical_emin _ _ H1). unfold canonical in *.
  rewrite fexp_eq in *. set (d1 := Zdigits2 (Z.pos m1)) in *. set (d2 := Zdigits2 (Z.pos m2)) in *.
  pose proof (Zdigits2_bound (Z.pos m1) ltac:(lia)) as B1.
  pose proof (Zdigits2_bound (Z.pos m2) ltac:(lia)) as B2. fold d1 in B1. fold d2 in B2.
  assert (d2 = 53) by lia. assert (d1 <= 53) by lia.
  assert (2 ^ d1 <= 2 ^ 53) by (apply pow2_le; lia).
  unfold mval. rewrite (pow2_rebase e2 e1 1074) by lia. pose proof (pow2_pos (e1 + 1074) ltac:(lia)).
  assert (2 ^ 1 <= 2 ^ (e2 - e1)) by (apply pow2_le; lia).
  replace (d2 - 1) with 52 in B2 by lia. change (2 ^ 1) with 2 in *.
  rewrite Z.mul_assoc. apply Zmult_lt_compat_r; [lia|].
  assert (2 ^ 53 = 2 ^ 52 * 2) by reflexivity. nia.
Qed.

Lemma canonical_inj m1 e1 m2 e2 :
  canonical m1 e1 -> canonical m2 e2 -> mval m1 e1 = mval m2 e2 -> m1 = m2 /\ e1 = e2.
Proof.
  intros H1 H2 Heq.
  assert (e1 = e2) as ->.
  { destruct (Z.lt_trichotomy e1 e2) as [Hl|[He|Hl]]; [|done|];
      [pose proof (canonical_lt _ _ _ _ H1 H2 Hl)|pose proof (canonical_lt _ _ _ _ H2 H1 Hl)]; lia. }
  split; [|done]. unfold mval in Heq. pose proof (pow2_pos (e2 + 1074)).
  pose proof (canonical_emin _ _ H2). nia.
Qed.

(** Comparison of positive canonical pairs is comparison of their values. *)
Lemma canonical_compare m1 e1 m2 e2 :
  canonical m1 e1 -> canonical m2 e2 ->
  match e1 ?= e2 with Lt => Lt | Gt => Gt | Eq => Pos.compare_cont Eq m1 m2 end
  = (mval m1 e1 ?= mval m2 e2).
Proof.
  intros H1 H2. symmetry. destruct (Z.compare_spec e1 e2) as [->|Hl|Hl].
  - unfold mval. pose proof (pow2_pos (e2 + 1074)). pose proof (canonical_emin _ _ H2).
    rewrite <- Zmult_compare_compat_r by lia. reflexivity.
  - apply Z.compare_lt_iff, canonical_lt; done.
  - apply Z.compare_gt_iff, canonical_lt; done.
Qed.

Lemma SFcompare_ival x y :
  valid x -> valid y -> is_finite x = true -> is_finite y = true ->
  SFcompare x y = Some (ival x ?= ival y).
Proof.
  destruct x as [sx| | |sx mx ex], y as [sy| | |sy my ey]; cbn [SFcompare ival is_finite valid];
    try done.
  - intros _ [H _] _ _. pose proof (mval_pos _ _ H).
    f_equal. destruct sy; symmetry; [apply Z.compare_gt_iff|apply Z.compare_lt_iff]; lia.
  - intros [H _] _ _ _. pose proof (mval_pos _ _ H).
    f_equal. destruct sx; symmetry; [apply Z.compare_lt_iff|apply Z.compare_gt_iff]; lia.
  - intros [H1 _] [H2 _] _ _. pose proof (mval_pos _ _ H1). pose proof (mval_pos _ _ H2).
    pose proof (canonical_compare _ _ _ _ H1 H2) as Hc. f_equal.
    destruct sx, sy.
    + rewrite Z.compare_opp, (Z.compare_antisym (mval mx ex)), <- Hc.
      by destruct (ex ?= ey).
    + symmetry. apply Z.compare_lt_iff. lia.
    + symmetry. apply Z.compare_gt_iff. lia.
    + done.
Qed.

Lemma SFleb_ival x y :
  valid x -> valid y -> is_finite x = true -> is_finite y = true ->
  SFleb x y = (ival x <=? ival y).
Proof. intros. unfold SFleb, Z.leb. rewrite SFcompare_ival by done. by destruct (_ ?= _). Qed.

Lemma SFltb_ival x y :
  valid x -> valid y -> is_finite x = true -> is_finite y = true ->
  SFltb x y = (ival x <? ival y).
Proof. intros. unfold SFltb, Z.ltb. rewrite SFcompare_ival by done. by destruct (_ ?= _). Qed.

(** Two finite valid numbers of the same sign and value are equal. *)
Lemma ival_inj x y :
  valid x -> valid y -> is_finite x = true -> is_finite y = true ->
  sign x = sign y -> ival x = ival y -> x = y.
Proof.
  destruct x as [sx| | |sx mx ex], y as [sy| | |sy my ey]; cbn; try done.
  - by intros _ _ _ _ [= ->] _.
  - intros _ [H _] _ _ _. pose proof (mval_pos _ _ H). destruct sy; lia.
  - intros [H _] _ _ _ _. pose proof (mval_pos _ _ H). destruct sx; lia.
  - intros [H1 _] [H2 _] _ _ [= ->] Hi.
    destruct (canonical_inj mx ex my ey) as [-> ->]; try done. destruct sy; lia.
Qed.

(** ** Sandwich lemmas *)

Section Sandwich.
Context (s : bool) (mx ex : Z) (lx : location).
Context (Hmx : 0 <= mx) (Hex : ex <= fexp64 (Zdigits2 mx + ex)) (H0 : mx = 0 -> ex <= -1074).

Lemma round_valid :
  valid (binary_round_aux 53 1024 s mx ex lx) /\ sign (binary_round_aux 53 1024 s mx ex lx) = Some s.
Proof.
  destruct (binary_round_aux_spec s mx ex lx) as (m & _ & [[_ ->]|(p & e' & Hc & _ & _ & ->)]);
    try done.
  destruct (Z.leb_spec e' 971); by cbn.
Qed.

Context (M : positive) (E k : Z) (HM : canonical M E) (HE : E <= 971) (Hk1 : k <= ex) (Hk2 : k <= E).

Lemma round_upper :
  (mx + loc_rest lx) * 2 ^ (ex - k) <= Zpos M * 2 ^ (E - k) ->
  is_finite (binary_round_aux 53 1024 s mx ex lx) = true /\
  Z.abs (ival (binary_round_aux 53 1024 s mx ex lx)) <= mval M E.
Proof.
  intros Hle. pose proof (mval_pos _ _ HM). pose proof (canonical_emin _ _ HM).
  set (e1 := fexp64 (Zdigits2 mx + ex)) in *.
  assert (He1 : e1 <= E).
  { subst e1. unfold canonical in HM. rewrite fexp_eq in *.
    destruct (Z.eq_dec mx 0) as [->|]; [cbn; lia|].
    pose proof (Zdigits2_bound mx ltac:(lia)). pose proof (Zdigits2_pos mx ltac:(lia)).
    pose proof (Zdigits2_bound (Z.pos M) ltac:(lia)). set (D := Zdigits2 (Z.pos M)) in *.
    set (d := Zdigits2 mx) in *. assert (0 <= loc_rest lx) by (by destruct lx as [|[]]).
    pose proof (pow2_pos (ex - k) ltac:(lia)). pose proof (pow2_pos (E - k) ltac:(lia)).
    assert (2 ^ (d - 1 + (ex - k)) < 2 ^ (D + (E - k))).
    { pose proof (Zdigits2_pos (Z.pos M) ltac:(lia)). rewrite !pow2_split by lia.
      apply (Z.le_lt_trans _ (mx * 2 ^ (ex - k))); [apply Zmult_le_compat_r; lia|]. nia. }
    enough (d - 1 + (ex - k) < D + (E - k)) by lia. apply pow2_lt_inv; [lia|done]. }
  destruct (binary_round_aux_spec s mx ex lx) as (m & Hm & Hp); try done. fold e1 in Hm, Hp.
  assert (HmM : m <= Zpos M * 2 ^ (E - e1)).
  { etransitivity; [apply Hm|]. apply cdiv2_le; [lia|].
    pose proof (pow2_pos (ex - k) ltac:(lia)).
    apply (Zmult_le_reg_r _ _ (2 ^ (ex - k))); [lia|]. rewrite <- !Z.mul_assoc, <- !pow2_split by lia.
    by replace (E - e1 + (e1 - ex + (ex - k))) with (E - k) by lia. }
  assert (He1m : -1074 <= e1) by (subst e1; rewrite fexp_eq; lia).
  destruct Hp as [[_ ->]|(p & e' & Hc & Hee & Hpm & ->)]; [cbn; lia|].
  assert (Hle' : mval p e' <= mval M E).
  { unfold mval. rewrite (pow2_rebase e' e1 1074), (pow2_rebase E e1 1074), !Z.mul_assoc by lia. pose proof (pow2_pos (e1 + 1074) ltac:(lia)). nia. }
  assert (e' <= E).
  { destruct (Z.lt_ge_cases E e') as [Hlt|]; [|lia].
    pose proof (canonical_lt _ _ _ _ HM Hc Hlt). lia. }
  pose proof (mval_pos _ _ Hc). destruct (Z.leb_spec e' 971); [|lia]. cbn. destruct s; lia.
Qed.

Lemma round_lower :
  Zpos M * 2 ^ (E - k) <= mx * 2 ^ (ex - k) ->
  binary_round_aux 53 1024 s mx ex lx = S754_infinity s \/
  (is_finite (binary_round_aux 53 1024 s mx ex lx) = true /\
   mval M E <= Z.abs (ival (binary_round_aux 53 1024 s mx ex lx))).
Proof.
  intros Hle. pose proof (mval_pos _ _ HM). pose proof (canonical_emin _ _ HM).
  pose proof (pow2_pos (ex - k) ltac:(lia)). pose proof (pow2_pos (E - k) ltac:(lia)).
  destruct (Z.eq_dec mx 0) as [Hz|Hnz]; [exfalso; nia|].
  set (e1 := fexp64 (Zdigits2 mx + ex)) in *.
  assert (He1m : -1074 <= e1) by (subst e1; rewrite fexp_eq; lia).
  destruct (binary_round_aux_spec s mx ex lx) as (m & Hm & Hp); try done. fold e1 in Hm, Hp.
  assert (HmM : mval M E <= m * 2 ^ (e1 + 1074)).
  { destruct (Z.le_gt_cases e1 E) as [He1|He1].
    - assert (Zpos M * 2 ^ (E - e1) <= mx / 2 ^ (e1 - ex)) as HH.
      { apply Z.div_le_lower_bound; [apply pow2_pos; lia|].
        apply (Zmult_le_reg_r _ _ (2 ^ (ex - k))); [lia|].
        rewrite (Z.mul_comm (2 ^ (e1 - ex))), <- !Z.mul_assoc, <- !pow2_split by lia.
        by replace (E - e1 + (e1 - ex + (ex - k))) with (E - k) by lia. }
      unfold mval. rewrite (pow2_rebase E e1 1074), Z.mul_assoc by lia. pose proof (pow2_pos (e1 + 1074) ltac:(lia)). nia.
    - pose proof (Zdigits2_bound mx ltac:(lia)). pose proof (Zdigits2_bound (Z.pos M) ltac:(lia)).
      set (d := Zdigits2 mx) in *. set (D := Zdigits2 (Z.pos M)) in *.
      assert (He1' : e1 = d + ex - 53) by (subst e1; rewrite fexp_eq in *; lia).
      assert (D + E - 53 <= E) by (unfold canonical in HM; fold D in HM; rewrite fexp_eq in HM; lia).
      assert (2 ^ 52 <= mx / 2 ^ (e1 - ex)) as HH.
      { apply Z.div_le_lower_bound; [apply pow2_pos; lia|].
        rewrite Z.mul_comm, <- pow2_split by lia. replace (52 + (e1 - ex)) with (d - 1) by lia. lia. }
      assert (2 ^ D <= 2 ^ 53) by (apply pow2_le; lia).
      unfold mval. rewrite (pow2_rebase e1 E 1074) by lia. pose proof (pow2_pos (E + 1074) ltac:(lia)).
      assert (2 ^ 1 <= 2 ^ (e1 - E)) by (apply pow2_le; lia). change (2 ^ 1) with 2 in *.
      assert (2 ^ 53 = 2 ^ 52 * 2) by reflexivity.
      rewrite Z.mul_assoc. apply Zmult_le_compat_r; [|lia]. nia. }
  destruct Hp as [[-> ->]|(p & e' & Hc & Hee & Hpm & ->)]; [lia|].
  destruct (Z.leb_spec e' 971); [right|by left]. split; [done|].
  assert (mval p e' = m * 2 ^ (e1 + 1074)) as Heq.
  { unfold mval. rewrite (pow2_rebase e' e1 1074), Z.mul_assoc by lia. congruence. }
  pose proof (mval_pos _ _ Hc). cbn. destruct s; lia.
Qed.

End Sandwich.

(** ** Bounds of rounded magnitudes

    [between s a b x]: [x] has sign [s], it is valid, and its magnitude lies in
    [[a, b]] whenever these are magnitudes of valid numbers. *)

Definition is_mag (z : Z) : Prop := exists m e, canonical m e /\ e <= 971 /\ z = mval m e.

Definition rounds (s : bool) (below : Z -> Prop) (above : Z -> Prop) (x : spec_float) : Prop :=
  valid x /\ sign x = Some s /\
  (forall b, is_mag b -> above b -> is_finite x = true /\ Z.abs (ival x) <= b) /\
  (forall a, is_mag a -> below a -> is_finite x = true -> a <= Z.abs (ival x)).

Lemma round_lower_fin s mx ex lx M E k :
  0 <= mx -> ex <= fexp64 (Zdigits2 mx + ex) -> (mx = 0 -> ex <= -1074) ->
  canonical M E -> E <= 971 -> k <= ex -> k <= E ->
  Zpos M * 2 ^ (E - k) <= mx * 2 ^ (ex - k) ->
  is_finite (binary_round_aux 53 1024 s mx ex lx) = true ->
  mval M E <= Z.abs (ival (binary_round_aux 53 1024 s mx ex lx)).
Proof. intros. destruct (round_lower s mx ex lx) with M E k as [Hi|[]]; try done. by rewrite Hi in *. Qed.

(** *** Multiplication *)

Lemma mul_digits m1 e1 m2 e2 :
  canonical m1 e1 -> canonical m2 e2 -> let m := Zpos (m1 * m2) in
  e1 + e2 <= fexp64 (Zdigits2 m + (e1 + e2)).
Proof.
  intros H1 H2 m. unfold canonical in *. rewrite fexp_eq in *.
  pose proof (Zdigits2_bound (Z.pos m1) ltac:(lia)) as B1.
  pose proof (Zdigits2_bound (Z.pos m2) ltac:(lia)) as B2.
  pose proof (Zdigits2_bound m ltac:(lia)) as B. pose proof (Zdigits2_pos m ltac:(lia)).
  pose proof (Zdigits2_pos (Z.pos m1) ltac:(lia)). pose proof (Zdigits2_pos (Z.pos m2) ltac:(lia)).
  set (d1 := Zdigits2 (Z.pos m1)) in *. set (d2 := Zdigits2 (Z.pos m2)) in *.
  set (d := Zdigits2 m) in *.
  assert (d1 - 1 + (d2 - 1) < d).
  { apply pow2_lt_inv; [lia|]. rewrite pow2_split by lia. subst m. rewrite Pos2Z.inj_mul in B. nia. }
  lia.
Qed.

Lemma SFmul_rounds sx m1 e1 sy m2 e2 :
  canonical m1 e1 -> canonical m2 e2 ->
  rounds (xorb sx sy) (fun a => a * 2 ^ 1074 <= mval m1 e1 * mval m2 e2)
    (fun b => mval m1 e1 * mval m2 e2 <= b * 2 ^ 1074)
    (SFmul 53 1024 (S754_finite sx m1 e1) (S754_finite sy m2 e2)).
Proof.
  intros H1 H2. pose proof (mul_digits _ _ _ _ H1 H2) as Hd.
  pose proof (canonical_emin _ _ H1). pose proof (canonical_emin _ _ H2).
  cbn [SFmul]. set (m := (m1 * m2)%positive) in *.
  assert (Hv : mval m1 e1 * mval m2 e2 = Zpos m * 2 ^ (e1 + e2 + 2148)).
  { unfold mval, m. replace (e1 + e2 + 2148) with ((e1 + 1074) + (e2 + 1074)) by lia.
    rewrite (pow2_split (e1 + 1074)), Pos2Z.inj_mul by lia. lia. }
  assert (Hr : forall M E, canonical M E -> mval M E * 2 ^ 1074 = Zpos M * 2 ^ (E + 2148)).
  { intros M E HM%canonical_emin. unfold mval. rewrite <- Z.mul_assoc, <- pow2_split by lia.
    do 2 f_equal. lia. }
  split_and!.
  - by apply round_valid.
  - by apply round_valid.
  - intros b (M & E & HM & HE & ->) Hb. pose proof (canonical_emin _ _ HM).
    apply (round_upper _ _ _ _) with (k := -2148); try done; [lia..|].
    rewrite Hv, Hr in Hb by done. cbn [loc_rest]. rewrite Z.add_0_r.
    by replace (e1 + e2 - -2148) with (e1 + e2 + 2148) by lia; replace (E - -2148) with (E + 2148) by lia.
  - intros a (M & E & HM & HE & ->) Hb. pose proof (canonical_emin _ _ HM).
    apply (round_lower_fin _ _ _ _) with (k := -2148); try done; [lia..|].
    rewrite Hv, Hr in Hb by done.
    by replace (e1 + e2 - -2148) with (e1 + e2 + 2148) by lia; replace (E - -2148) with (E + 2148) by lia.
Qed.

(** *** Division *)

Section Division.
Context (m1 : positive) (e1 : Z) (m2 : positive) (e2 : Z).
Context (H1 : -1074 <= e1) (H2 : -1074 <= e2).

Let d1 := Zdigits2 (Zpos m1).
Let d2 := Zdigits2 (Zpos m2).
Let t := d1 + e1 - (d2 + e2).
Let e' := Z.min (fexp64 t) (e1 - e2).
Let sh := e1 - e2 - e'.
Let q := (Zpos m1 * 2 ^ sh) / Zpos m2.
Let r := (Zpos m1 * 2 ^ sh) mod Zpos m2.

Lemma SFdiv_core_eq :
  SFdiv_core_binary 53 1024 (Zpos m1) e1 (Zpos m2) e2 = (q, e', new_location (Zpos m2) r).
Proof.
  unfold SFdiv_core_binary. fold d1 d2. fold t. fold e'. fold sh.
  assert (0 <= sh) by lia.
  assert (match sh with 0 => Z.pos m1 | Z.pos _ => Z.shiftl (Z.pos m1) sh | Z.neg _ => 0 end
          = Zpos m1 * 2 ^ sh) as ->.
  { destruct sh eqn:E; [by cbn; lia| |lia]. rewrite Z.shiftl_mul_pow2 by lia. done. }
  unfold q, r, Z.div, Z.modulo. by destruct (Z.div_eucl _ _).
Qed.

Lemma div_bounds_aux :
  0 <= q /\ e' <= fexp64 (Zdigits2 q + e') /\ (q = 0 -> e' <= -1074) /\
  Zpos m1 * 2 ^ sh = q * Zpos m2 + r /\ 0 <= r < Zpos m2 /\ 0 <= sh /\ -2148 <= e' + e2 /\
  (fexp64 t = t - 53 -> 2 ^ 52 <= q).
Proof.
  pose proof (Zdigits2_bound (Z.pos m1) ltac:(lia)) as B1.
  pose proof (Zdigits2_bound (Z.pos m2) ltac:(lia)) as B2. fold d1 in B1. fold d2 in B2.
  pose proof (Zdigits2_pos (Z.pos m1) ltac:(lia)) as P1.
  pose proof (Zdigits2_pos (Z.pos m2) ltac:(lia)) as P2. fold d1 in P1. fold d2 in P2.
  assert (Hsh : 0 <= sh) by (unfold sh, e'; lia).
  pose proof (Z.div_mod (Zpos m1 * 2 ^ sh) (Zpos m2) ltac:(lia)) as Hqr.
  pose proof (Z.mod_pos_bound (Zpos m1 * 2 ^ sh) (Zpos m2) ltac:(lia)) as Hrb.
  fold q in Hqr. fold r in Hqr, Hrb.
  assert (Hq : 0 <= q) by (apply Z.div_pos; [pose proof (pow2_pos sh); lia|lia]).
  assert (Hbig : forall n, 0 <= n -> n + d2 <= d1 - 1 + sh -> 2 ^ n <= q).
  { intros n Hn Hle. apply Z.div_le_lower_bound; [lia|].
    apply (Z.le_trans _ (2 ^ d2 * 2 ^ n)); [apply Zmult_le_compat_r; [lia|pose proof (pow2_pos n); lia]|].
    rewrite <- pow2_split by lia.
    apply (Z.le_trans _ (2 ^ (d1 - 1 + sh))); [apply pow2_le; lia|].
    rewrite pow2_split by lia. apply Zmult_le_compat_r; [lia|pose proof (pow2_pos sh); lia]. }
  assert (Hft : fexp64 t = Z.max (t - 53) (-1074)) by apply fexp_eq.
  assert (He't : e' <= fexp64 t) by (unfold e'; lia).
  assert (Hqz : fexp64 t = t - 53 -> 2 ^ 52 <= q).
  { intros Ht. apply Hbig; [lia|]. unfold sh, e', t in *. lia. }
  split_and!; try done; try lia.
  destruct (Z.eq_dec q 0) as [Hz|Hz].
  - rewrite Hz. cbn [Zdigits2]. rewrite fexp_eq.
    destruct (Z.eq_dec (fexp64 t) (t - 53)) as [Ht|Ht]; [specialize (Hqz Ht); lia|lia].
  - pose proof (Zdigits2_bound q ltac:(lia)). pose proof (Zdigits2_pos q ltac:(lia)).
    assert (d1 + sh - d2 <= Zdigits2 q).
    { destruct (Z.le_gt_cases (d1 + sh - d2) (Zdigits2 q)) as [|Hgt]; [done|].
      pose proof (Hbig (Zdigits2 q) ltac:(lia) ltac:(lia)). lia. }
    transitivity (fexp64 t); [done|]. rewrite !fexp_eq. unfold t, sh in *. lia.
Qed.

Lemma new_location_rest : loc_rest (new_location (Zpos m2) r) = if r =? 0 then 0 else 1.
Proof.
  unfold new_location, new_location_even, new_location_odd.
  by destruct (Z.even _), (r =? 0).
Qed.

Lemma div_scale M E : canonical M E -> e' <= E ->
  (Zpos m1 * 2 ^ sh <= Zpos M * 2 ^ (E - e') * Zpos m2 <-> mval m1 e1 * 2 ^ 1074 <= mval M E * mval m2 e2)
  /\ (Zpos M * 2 ^ (E - e') * Zpos m2 <= Zpos m1 * 2 ^ sh <-> mval M E * mval m2 e2 <= mval m1 e1 * 2 ^ 1074).
Proof.
  intros HM HE. destruct div_bounds_aux as (_ & _ & _ & _ & _ & Hsh & He & _).
  pose proof (canonical_emin _ _ HM).
  set (c := 2 ^ (e' + e2 + 2148)). assert (0 < c) by (apply pow2_pos; lia).
  assert (mval m1 e1 * 2 ^ 1074 = Zpos m1 * 2 ^ sh * c) as ->.
  { unfold mval, c. rewrite <- !Z.mul_assoc, <- !pow2_split by lia. do 2 f_equal. unfold sh. lia. }
  assert (mval M E * mval m2 e2 = Zpos M * 2 ^ (E - e') * Zpos m2 * c) as ->.
  { unfold mval, c.
    replace (2 ^ (e' + e2 + 2148)) with (2 ^ (e' + e2 + 2148)) by done.
    transitivity (Zpos M * Zpos m2 * (2 ^ (E + 1074) * 2 ^ (e2 + 1074))); [lia|].
    transitivity (Zpos M * Zpos m2 * (2 ^ (E - e') * 2 ^ (e' + e2 + 2148))); [|lia].
    f_equal. rewrite <- !pow2_split by lia. f_equal. lia. }
  split; apply Z.mul_le_mono_pos_r; lia.
Qed.

Lemma div_exp_le M E : canonical M E -> mval m1 e1 * 2 ^ 1074 <= mval M E * mval m2 e2 -> e' <= E.
Proof.
  intros HM Hle.
  pose proof (canonical_emin _ _ HM) as HEm. unfold canonical in HM. rewrite fexp_eq in HM.
  pose proof (Zdigits2_bound (Z.pos m1) ltac:(lia)) as B1.
  pose proof (Zdigits2_bound (Z.pos m2) ltac:(lia)) as B2. fold d1 in B1. fold d2 in B2.
  pose proof (Zdigits2_bound (Z.pos M) ltac:(lia)) as B3. set (D := Zdigits2 (Z.pos M)) in *.
  pose proof (Zdigits2_pos (Z.pos m1) ltac:(lia)) as P1. pose proof (Zdigits2_pos (Z.pos M) ltac:(lia)) as P3.
  pose proof (Zdigits2_pos (Z.pos m2) ltac:(lia)) as P2. fold d1 in P1. fold d2 in P2. fold D in P3.
  assert (2 ^ (d1 - 1 + (e1 + 2148)) < 2 ^ (D + d2 + (E + e2 + 2148))) as Hlt.
  { apply (Z.le_lt_trans _ (mval m1 e1 * 2 ^ 1074)).
    - unfold mval. rewrite <- Z.mul_assoc, <- pow2_split by lia.
      replace (e1 + 1074 + 1074) with (e1 + 2148) by lia. rewrite pow2_split by lia.
      apply Zmult_le_compat_r; [lia|]. pose proof (pow2_pos (e1 + 2148)). lia.
    - apply (Z.le_lt_trans _ _ _ Hle). unfold mval.
      apply (Z.lt_le_trans _ (2 ^ D * 2 ^ d2 * (2 ^ (E + 1074) * 2 ^ (e2 + 1074)))).
      + pose proof (pow2_pos (E + 1074) ltac:(lia)). pose proof (pow2_pos (e2 + 1074) ltac:(lia)).
        replace (Z.pos M * 2 ^ (E + 1074) * (Z.pos m2 * 2 ^ (e2 + 1074)))
          with (Zpos M * Zpos m2 * (2 ^ (E + 1074) * 2 ^ (e2 + 1074))) by lia.
        apply Zmult_lt_compat_r; nia.
      + rewrite <- !pow2_split by lia. apply pow2_le. lia. }
  apply pow2_lt_inv in Hlt; [|lia].
  assert (t <= D + E) by (unfold t; lia). unfold e'. rewrite fexp_eq. lia.
Qed.

Lemma SFdiv_rounds sx sy :
  rounds (xorb sx sy) (fun a => a * mval m2 e2 <= mval m1 e1 * 2 ^ 1074)
    (fun b => mval m1 e1 * 2 ^ 1074 <= b * mval m2 e2)
    (SFdiv 53 1024 (S754_finite sx m1 e1) (S754_finite sy m2 e2)).
Proof.
  cbn [SFdiv]. rewrite SFdiv_core_eq.
  destruct div_bounds_aux as (Hq & Hd & Hz & Hqr & Hr & Hsh & He & Hbig).
  split_and!; [by apply round_valid..| |].
  - intros b (M & E & HM & HE & ->) Hb. pose proof (div_exp_le _ _ HM Hb) as HeE.
    apply (round_upper _ _ _ _) with (k := e'); try done.
    rewrite new_location_rest, Z.sub_diag, Z.mul_1_r.
    apply (div_scale _ _ HM HeE) in Hb. destruct (Z.eqb_spec r 0); nia.
  - intros a (M & E & HM & HE & ->) Hb. destruct (Z.le_gt_cases e' E) as [HeE|HeE].
    + apply (round_lower_fin _ _ _ _) with (k := e'); try done.
      rewrite Z.sub_diag, Z.mul_1_r. apply (div_scale _ _ HM HeE) in Hb. nia.
    + apply (round_lower_fin _ _ _ _) with (k := E); try done; [lia|].
      pose proof (canonical_emin _ _ HM). rewrite Z.sub_diag, Z.mul_1_r.
      assert (2 ^ 52 <= q) by (apply Hbig; unfold e' in *; rewrite fexp_eq in *; lia).
      pose proof (Zdigits2_bound (Z.pos M) ltac:(lia)). pose proof (Zdigits2_pos (Z.pos M) ltac:(lia)).
      unfold canonical in HM. rewrite fexp_eq in HM.
      assert (2 ^ Zdigits2 (Z.pos M) <= 2 ^ 53) by (apply pow2_le; lia).
      assert (2 ^ 1 <= 2 ^ (e' - E)) by (apply pow2_le; lia).
      change (2 ^ 1) with 2 in *. assert (2 ^ 53 = 2 ^ 52 * 2) by reflexivity. nia.
Qed.

End Division.

(** *** Normalisation, addition and subtraction *)

Lemma Pos_iter_xO d m : Zpos (Pos.iter xO m d) = Zpos m * 2 ^ Zpos d.
Proof.
  induction d using Pos.peano_ind; [cbn; lia|].
  rewrite Pos.iter_succ, Pos2Z.inj_succ, Z.pow_succ_r by lia. lia.
Qed.

Lemma shl_align_spec m e e' : let '(mz, ez) := shl_align m e e' in
  ez = Z.min e e' /\ Zpos mz = Zpos m * 2 ^ (e - ez).
Proof.
  unfold shl_align. destruct (e' - e) as [|d|d] eqn:E.
  - split; [lia|]. rewrite Z.sub_diag. lia.
  - split; [lia|]. rewrite Z.sub_diag. lia.
  - split; [lia|]. rewrite Pos_iter_xO. do 2 f_equal. lia.
Qed.

Lemma binary_round_rounds s m e : -1074 <= e ->
  rounds s (fun a => a <= Zpos m * 2 ^ (e + 1074)) (fun b => Zpos m * 2 ^ (e + 1074) <= b)
    (binary_round 53 1024 s m e).
Proof.
  intros He. unfold binary_round.
  pose proof (shl_align_spec m e (fexp64 (Zdigits2 (Zpos m) + e))) as H.
  change (Z.pos (digits2_pos m)) with (Zdigits2 (Zpos m)).
  destruct (shl_align _ _ _) as [mz ez]. destruct H as [Hez Hmz].
  assert (Hd : Zdigits2 (Zpos mz) + ez = Zdigits2 (Zpos m) + e).
  { rewrite Hmz, Zdigits2_shiftl by lia. lia. }
  assert (Hezm : -1074 <= ez) by (rewrite fexp_eq in Hez; lia).
  assert (Hfe : ez <= fexp64 (Zdigits2 (Zpos mz) + ez)) by (rewrite Hd; lia).
  assert (Hv : Zpos m * 2 ^ (e + 1074) = Zpos mz * 2 ^ (ez - -1074)).
  { rewrite Hmz, <- Z.mul_assoc, <- pow2_split by lia. do 2 f_equal. lia. }
  split_and!; [by apply round_valid..| |].
  - intros b (M & E & HM & HE & ->) Hb. pose proof (canonical_emin _ _ HM).
    apply (round_upper _ _ _ _) with (k := -1074); try done.
    cbn [loc_rest]. rewrite Z.add_0_r, <- Hv. replace (E - -1074) with (E + 1074) by lia. done.
  - intros a (M & E & HM & HE & ->) Ha. pose proof (canonical_emin _ _ HM).
    apply (round_lower_fin _ _ _ _) with (k := -1074); try done.
    rewrite <- Hv. replace (E - -1074) with (E + 1074) by lia. done.
Qed.

(** A number whose sign and magnitude are controlled lies between any two
    valid numbers that enclose the exact value. *)
Definition encl (z : Z) (x : spec_float) : Prop :=
  valid x /\ x <> S754_nan /\
  forall A B, valid A -> valid B -> is_finite A = true -> is_finite B = true ->
    ival A <= z <= ival B -> is_finite x = true /\ ival A <= ival x <= ival B.

Lemma is_mag_abs x : valid x -> is_finite x = true -> ival x <> 0 -> is_mag (Z.abs (ival x)).
Proof.
  destruct x as [| | |s m e]; cbn; try done. intros [Hc He] _ _. exists m, e.
  pose proof (mval_pos _ _ Hc). destruct s; split_and!; try done; lia.
Qed.

Lemma sign_ival x s : sign x = Some s -> valid x -> if s then ival x <= 0 else 0 <= ival x.
Proof.
  destruct x as [| | |s' m e]; cbn; intros [= ->]; try (destruct s; lia).
  intros [Hc _]. pose proof (mval_pos _ _ Hc). destruct s; lia.
Qed.

Lemma rounds_encl s z x :
  rounds s (fun a => a <= Z.abs z) (fun b => Z.abs z <= b) x ->
  z <> 0 -> s = (z <? 0) -> encl z x.
Proof.
  intros (Hv & Hs & Hup & Hlo) Hz ->. split_and!; [done|by intros ->|].
  intros A B HA HB FA FB Hle. pose proof (sign_ival _ _ Hs Hv) as Hsi.
  destruct (Z.ltb_spec z 0) as [Hneg|Hpos].
  - assert (HAm : is_mag (Z.abs (ival A))) by (apply is_mag_abs; try done; lia).
    destruct (Hup _ HAm ltac:(lia)) as [Hf Hb]. split; [done|].
    destruct (Z.le_gt_cases 0 (ival B)); [lia|].
    assert (HBm : is_mag (Z.abs (ival B))) by (apply is_mag_abs; try done; lia).
    pose proof (Hlo _ HBm ltac:(lia) Hf). lia.
  - assert (HBm : is_mag (Z.abs (ival B))) by (apply is_mag_abs; try done; lia).
    destruct (Hup _ HBm ltac:(lia)) as [Hf Hb]. split; [done|].
    destruct (Z.le_gt_cases (ival A) 0); [lia|].
    assert (HAm : is_mag (Z.abs (ival A))) by (apply is_mag_abs; try done; lia).
    pose proof (Hlo _ HAm ltac:(lia) Hf). lia.
Qed.

Lemma encl_zero s : encl 0 (S754_zero s).
Proof. split_and!; try done. Qed.

Lemma binary_normalize_encl z e s :
  -1074 <= e -> encl (z * 2 ^ (e + 1074)) (binary_normalize 53 1024 z e s).
Proof.
  intros He. pose proof (pow2_pos (e + 1074) ltac:(lia)).
  destruct z as [|m|m]; cbn [binary_normalize]; [apply encl_zero| |].
  - pose proof (binary_round_rounds false m e He) as Hr.
    apply (rounds_encl false); [|lia|symmetry; apply Z.ltb_ge; lia].
    replace (Z.abs _) with (Zpos m * 2 ^ (e + 1074)) by lia. done.
  - pose proof (binary_round_rounds true m e He) as Hr.
    apply (rounds_encl true); [|lia|symmetry; apply Z.ltb_lt; lia].
    replace (Z.abs _) with (Zpos m * 2 ^ (e + 1074)) by lia. done.
Qed.

Lemma encl_self x : valid x -> is_finite x = true -> encl (ival x) x.
Proof. intros Hv Hf. split_and!; try done. by intros ->. Qed.

Lemma SFadd_encl x y :
  valid x -> valid y -> is_finite x = true -> is_finite y = true ->
  encl (ival x + ival y) (SFadd 53 1024 x y).
Proof.
  destruct x as [sx| | |sx m1 e1], y as [sy| | |sy m2 e2]; cbn [is_finite]; try done; intros Hx Hy _ _.
  - cbn. destruct sx, sy; apply encl_zero.
  - cbn [ival]. rewrite Z.add_0_r. by apply encl_self.
  - destruct Hx as [H1 _], Hy as [H2 _].
    pose proof (canonical_emin _ _ H1). pose proof (canonical_emin _ _ H2).
    cbn [SFadd]. set (ez := Z.min e1 e2).
    pose proof (shl_align_spec m1 e1 ez) as S1. pose proof (shl_align_spec m2 e2 ez) as S2.
    destruct (shl_align m1 e1 ez) as [a1 b1], (shl_align m2 e2 ez) as [a2 b2]. cbn [fst].
    destruct S1 as [Hb1 Ha1], S2 as [Hb2 Ha2]. assert (b1 = ez) as -> by lia. assert (b2 = ez) as -> by lia.
    assert (E1 : mval m1 e1 = Zpos a1 * 2 ^ (ez + 1074)).
    { unfold mval. rewrite Ha1, (pow2_rebase e1 ez 1074) by lia. lia. }
    assert (E2 : mval m2 e2 = Zpos a2 * 2 ^ (ez + 1074)).
    { unfold mval. rewrite Ha2, (pow2_rebase e2 ez 1074) by lia. lia. }
    replace (ival (S754_finite sx m1 e1) + ival (S754_finite sy m2 e2))
      with ((cond_Zopp sx (Z.pos a1) + cond_Zopp sy (Z.pos a2)) * 2 ^ (ez + 1074)).
    + apply binary_normalize_encl. lia.
    + unfold cond_Zopp. cbn [ival]. rewrite E1, E2. destruct sx, sy; lia.
Qed.

Lemma SFsub_opp x y : SFsub 53 1024 x y = SFadd 53 1024 x (SFopp y).
Proof.
  destruct x as [[]|[]| |sx m1 e1], y as [[]|[]| |sy m2 e2]; try done.
  cbn [SFsub SFadd SFopp]. destruct sy; cbn [negb cond_Zopp]; f_equal; lia.
Qed.

Lemma valid_opp x : valid (SFopp x) <-> valid x.
Proof. by destruct x. Qed.

Lemma ival_opp x : ival (SFopp x) = - ival x.
Proof. destruct x as [| | |[]]; cbn; lia. Qed.

Lemma is_finite_opp x : is_finite (SFopp x) = is_finite x.
Proof. by destruct x. Qed.

Lemma SFsub_encl x y :
  valid x -> valid y -> is_finite x = true -> is_finite y = true ->
  encl (ival x - ival y) (SFsub 53 1024 x y).
Proof.
  intros. rewrite SFsub_opp. unfold Z.sub. rewrite <- ival_opp.
  apply SFadd_encl; rewrite ?valid_opp, ?is_finite_opp; done.
Qed.

(** An exact result that is representable is returned. *)
Lemma encl_exact z x B :
  encl z x -> valid B -> is_finite B = true -> ival B = z -> is_finite x = true /\ ival x = z.
Proof. intros (_ & _ & H) HB FB Hz. destruct (H B B) as [Hf ?]; try done; [lia|]. split; [done|lia]. Qed.

(** ** Integers *)

(** Multiples of a power of two with at most 53 significant bits are
    representable. *)
Lemma repr_exists n e : 0 < n < 2 ^ 53 -> -1074 <= e <= 971 -> exists m e',
  canonical m e' /\ e' <= 971 /\ mval m e' = n * 2 ^ (e + 1074).
Proof.
  intros Hn He. pose proof (Zdigits2_pos n ltac:(lia)).
  pose proof (Zdigits2_le n 53 ltac:(lia) ltac:(lia) ltac:(lia)). set (d := Zdigits2 n) in *.
  set (sh := Z.min (53 - d) (e + 1074)).
  destruct (n * 2 ^ sh) as [|m|m] eqn:Em; try (pose proof (pow2_pos sh ltac:(lia)); lia).
  exists m, (e - sh). split_and!; [|lia|].
  - unfold canonical. rewrite <- Em, Zdigits2_shiftl, fexp_eq by lia. fold d. lia.
  - unfold mval. rewrite <- Em, <- Z.mul_assoc, <- pow2_split by lia. do 2 f_equal. lia.
Qed.

Lemma repr_signed n e : Z.abs n < 2 ^ 53 -> -1074 <= e <= 971 -> exists x,
  valid x /\ is_finite x = true /\ ival x = n * 2 ^ (e + 1074).
Proof.
  intros Hn He. destruct (Z.eq_dec n 0) as [->|]; [by exists (S754_zero false)|].
  destruct (repr_exists (Z.abs n) e ltac:(lia) He) as (m & e' & Hc & He' & Hv).
  exists (S754_finite (n <? 0) m e'). split_and!; [done..|]. cbn. rewrite Hv.
  destruct (Z.ltb_spec n 0); lia.
Qed.
