(* ===== verification/JsNumber.v ===== *)
(** * JsNumber: JavaScript numbers

    A [Number] is a binary64 value ([spec_float] with 53 bits).  This file
    defines the operators and the [Math]/[Number] functions the client uses, as
    ECMA-262 specifies them, with the lemmas the components share: [of_Z] is
    exact on safe integers, clamping, rounding to integers, sums and quotients.

    [Math.log] is implementation-approximated in ECMA-262 and is a parameter
    ([MathLog]); [**] is only used with the base 1024 and is computed exactly. *)

From Stdlib Require Import Strings.String.
From S2P Require Import Prelude JsString Binary64.

Open Scope Z_scope.

Abbreviation num := spec_float.

#[export] Instance num_eq_dec : EqDecision num.
Proof. solve_decision. Defined.

(** ** Constants and conversions *)

Definition NaN : num := S754_nan.
Definition Infinity : num := S754_infinity false.
Definition of_Z (n : Z) : num := binary_normalize 53 1024 n 0 false.
Definition of_nat (n : nat) : num := of_Z (Z.of_nat n).

Declare Scope num_scope.
Delimit Scope num_scope with num.
Notation "# n" := (of_Z n) (at level 1, format "# n") : num_scope.
Open Scope num_scope.

Definition MAX_SAFE_INTEGER : Z := 2 ^ 53 - 1.

(** The correctly rounded quotient of two integers ([q > 0]): decimal literals
    and [Number(string)]. *)
Definition of_frac (p : Z) (q : positive) : num :=
  match p with
  | Z0 => S754_zero false
  | Zpos m => let '(mz, ez, lz) := SFdiv_core_binary 53 1024 (Zpos m) 0 (Zpos q) 0 in
              binary_round_aux 53 1024 false mz ez lz
  | Zneg m => let '(mz, ez, lz) := SFdiv_core_binary 53 1024 (Zpos m) 0 (Zpos q) 0 in
              binary_round_aux 53 1024 true mz ez lz
  end.

(** ** Operators *)

Definition add : num -> num -> num := SFadd 53 1024.
Definition sub : num -> num -> num := SFsub 53 1024.
Definition mul : num -> num -> num := SFmul 53 1024.
Definition div : num -> num -> num := SFdiv 53 1024.
Definition ltb (x y : num) : bool := SFltb x y.
Definition leb (x y : num) : bool := SFleb x y.
Definition gtb (x y : num) : bool := SFltb y x.
Definition geb (x y : num) : bool := SFleb y x.
(** [x === y] on numbers. *)
Definition eqb (x y : num) : bool := SFeqb x y.

Notation "x + y" := (add x y) : num_scope.
Notation "x - y" := (sub x y) : num_scope.
Notation "x * y" := (mul x y) : num_scope.
Notation "x / y" := (div x y) : num_scope.
Notation "x <? y" := (ltb x y) : num_scope.
Notation "x <=? y" := (leb x y) : num_scope.
Notation "x >? y" := (gtb x y) : num_scope.
Notation "x >=? y" := (geb x y) : num_scope.

(** [x % y]: the remainder has the sign of the dividend and is exact. *)
Definition rem (x y : num) : num :=
  match x, y with
  | S754_nan, _ | _, S754_nan | S754_infinity _, _ | _, S754_zero _ => S754_nan
  | _, S754_infinity _ => x
  | S754_zero _, _ => x
  | S754_finite sx mx ex, S754_finite _ my ey =>
      let k := Z.min ex ey in
      let r := ((Zpos mx * 2 ^ (ex - k)) mod (Zpos my * 2 ^ (ey - k)))%Z in
      if Z.eqb r 0 then S754_zero sx
      else binary_normalize 53 1024 (if sx then - r else r)%Z k false
  end.

(** ** Number.* and Math.* *)

Definition isFinite (x : num) : bool := is_finite x.
Definition isNaN (x : num) : bool := match x with S754_nan => true | _ => false end.

Definition is_neg_zero (x : num) : bool := match x with S754_zero true => true | _ => false end.

Definition max (x y : num) : num :=
  if isNaN x || isNaN y then NaN
  else if x <? y then y else if y <? x then x else if is_neg_zero x then y else x.

Definition min (x y : num) : num :=
  if isNaN x || isNaN y then NaN
  else if x <? y then x else if y <? x then y else if is_neg_zero y then y else x.

(** [Math.max(x, ...l)]. *)
Definition max_list (x : num) (l : list num) : num := fold_left max l x.

(** The integer [floor((2 * x + half) / 2)] for [half = 0] (floor) or [1]
    (round half up), on a finite value with a negative exponent. *)
Definition signed (s : bool) (m : positive) : Z := if s then Zneg m else Zpos m.

Definition integral (s : bool) (n : Z) : num := if Z.eqb n 0 then S754_zero s else of_Z n.

Definition floor (x : num) : num :=
  match x with
  | S754_finite s m e =>
      if Z.leb 0 e then x else integral s (signed s m / 2 ^ (- e))%Z
  | _ => x
  end.

Definition ceil (x : num) : num :=
  match x with
  | S754_finite s m e =>
      if Z.leb 0 e then x else integral s (- (- signed s m / 2 ^ (- e)))%Z
  | _ => x
  end.

Definition round (x : num) : num :=
  match x with
  | S754_finite s m e =>
      if Z.leb 0 e then x else integral s ((2 * signed s m + 2 ^ (- e)) / 2 ^ (1 - e))%Z
  | _ => x
  end.

(** The integer a finite integral number denotes. *)
Definition to_Z (x : num) : option Z :=
  match x with
  | S754_zero _ => Some 0
  | S754_finite s m e =>
      if Z.leb 0 e then Some (signed s m * 2 ^ e)%Z
      else if Z.eqb (Zpos m mod 2 ^ (- e)) 0 then Some (signed s m / 2 ^ (- e))%Z else None
  | _ => None
  end.

Definition isInteger (x : num) : bool := match to_Z x with Some _ => true | None => false end.

Definition isSafeInteger (x : num) : bool :=
  match to_Z x with Some n => Z.leb (Z.abs n) MAX_SAFE_INTEGER | None => false end.

(** [1024 ** x], exact for an integral exponent and IEEE for infinities. *)
Definition pow1024 (x : num) : num :=
  match x with
  | S754_nan => NaN
  | S754_infinity true => S754_zero false
  | S754_infinity false => Infinity
  | _ => match to_Z x with
         | Some n => SFldexp 53 1024 (of_Z 1) (10 * n)
         | None => NaN
         end
  end.

(** [Math.log] is left to the host. *)
Class MathLog := log : num -> num.

(** ** Conversion to strings *)

(** Decimal digits of a non-negative integer, most significant first. *)
Fixpoint dec_digits_go (fuel : nat) (n : Z) (acc : jsstr) : jsstr :=
  match fuel with
  | O => acc
  | S f => let acc' := (48 + Z.to_N (n mod 10))%N :: acc in
           if Z.ltb n 10 then acc' else dec_digits_go f (n / 10)%Z acc'
  end.

Definition dec (n : Z) : jsstr := dec_digits_go (Z.to_nat (Z.log2 n) + 1) n [].

Definition zeros (n : nat) : jsstr := replicate n 48%N.

(** A finite number as a quotient of two non-negative integers (magnitude). *)
Definition frac_of (m : positive) (e : Z) : Z * Z :=
  if Z.leb 0 e then (Zpos m * 2 ^ e, 1)%Z else (Zpos m, 2 ^ (- e))%Z.

(** Number::toString: the shortest decimal that rounds to the number.
    [shortest fuel k ...] tries [k] significant digits. *)
Fixpoint shortest (fuel : nat) (k : Z) (x : num) (p q n : Z) : Z * Z :=
  (* the two candidates s * 10 ^ (n - k) around p / q *)
  let '(a, b) := if Z.leb k n then (p, q * 10 ^ (n - k))%Z else (p * 10 ^ (k - n), q)%Z in
  let s0 := (a / b)%Z in
  let fits s := (if Z.leb k n then bool_decide (of_Z (s * 10 ^ (n - k)) = x)
                 else bool_decide (of_frac s (Z.to_pos (10 ^ (k - n))) = x)) in
  let near := if Z.ltb (2 * (a mod b)) b || (Z.eqb (2 * (a mod b)) b && Z.even s0) then s0 else (s0 + 1)%Z in
  let far := if Z.eqb near s0 then (s0 + 1)%Z else s0 in
  if fits near then (near, k)
  else if fits far then (far, k)
  else match fuel with O => (near, k) | S f => shortest f (k + 1) x p q n end.

(** The exponent [n] with [10 ^ (n - 1) <= p / q < 10 ^ n], searched from the
    binary logarithm. *)
Fixpoint dec_exp (fuel : nat) (p q n : Z) : Z :=
  let below := if Z.leb 0 n then Z.ltb p (q * 10 ^ n) else Z.ltb (p * 10 ^ (- n)) q in
  match fuel with
  | O => n
  | S f => if below then n else dec_exp f p q (n + 1)
  end.

Fixpoint strip_zeros (fuel : nat) (s k : Z) : Z * Z :=
  match fuel with
  | O => (s, k)
  | S f => if Z.eqb (s mod 10) 0 && Z.ltb 0 s then strip_zeros f (s / 10) (k - 1) else (s, k)
  end.

Definition toString (x : num) : jsstr :=
  match x with
  | S754_nan => js "NaN"
  | S754_zero _ => js "0"
  | S754_infinity s => ((if s then js "-" else []) ++ js "Infinity")%list
  | S754_finite s m e =>
      let '(p, q) := frac_of m e in
      let n0 := dec_exp 400 p q ((Z.log2 p - Z.log2 q) * 30102 / 100000 - 1)%Z in
      let '(s0, k0) := shortest 17 1 (S754_finite false m e) p q n0 in
      let n := if Z.leb (10 ^ k0) s0 then (n0 + 1)%Z else n0 in
      let '(d, k) := strip_zeros 20 s0 (if Z.leb (10 ^ k0) s0 then (k0 + 1)%Z else k0) in
      let ds := dec d in
      let body :=
        if Z.leb k n && Z.leb n 21 then (ds ++ zeros (Z.to_nat (n - k)))%list
        else if Z.ltb 0 n && Z.leb n 21 then (take (Z.to_nat n) ds ++ js "." ++ drop (Z.to_nat n) ds)%list
        else if Z.ltb (-6) n && Z.leb n 0 then (js "0." ++ zeros (Z.to_nat (- n)) ++ ds)%list
        else let ex := (n - 1)%Z in
             let es := ((if Z.ltb ex 0 then js "-" else js "+") ++ dec (Z.abs ex))%list in
             (take 1 ds ++ (if Z.eqb k 1 then [] else js "." ++ drop 1 ds) ++ js "e" ++ es)%list in
      ((if s then js "-" else []) ++ body)%list
  end.

(** The integer [n] of [toFixed]: nearest to [x * 10 ^ f], ties upwards, on the
    magnitude [m * 2 ^ e]. *)
Definition fixed_int (m : positive) (e f : Z) : Z :=
  let '(p, q) := frac_of m e in ((2 * p * 10 ^ f + q) / (2 * q))%Z.

Definition fixed_string (n : Z) (f : nat) : jsstr :=
  let d := dec n in
  match f with
  | O => d
  | _ => let d' := (zeros (S f - length d) ++ d)%list in
         let i := (length d' - f)%nat in (take i d' ++ js "." ++ drop i d')%list
  end.

(** [x.toFixed(f)]; magnitudes of [10 ^ 21] and more use [toString]. *)
Definition toFixed (x : num) (f : nat) : jsstr :=
  match x with
  | S754_zero _ => fixed_string 0 f
  | S754_finite s m e =>
      let '(p, q) := frac_of m e in
      if Z.leb (10 ^ 21 * q) p then toString x
      else ((if s then js "-" else []) ++ fixed_string (fixed_int m e (Z.of_nat f)) f)%list
  | _ => toString x
  end.

(** [Number(x.toFixed(f))]: the decimal that [toFixed] prints, rounded back. *)
Definition toFixed_number (x : num) (f : nat) : num :=
  match x with
  | S754_zero _ => S754_zero false
  | S754_finite s m e =>
      let '(p, q) := frac_of m e in
      if Z.leb (10 ^ 21 * q) p then x
      else let n := fixed_int m e (Z.of_nat f) in
           if Z.eqb n 0 then S754_zero s
           else of_frac (if s then - n else n)%Z (Z.to_pos (10 ^ Z.of_nat f))
  | _ => x
  end.

(** ** Lemmas: integers *)

(** [of_Z] is exact up to 53 bits. *)
Lemma of_Z_spec n : Z.abs n < 2 ^ 53 ->
  valid (#n) /\ is_finite (#n) = true /\ ival (#n) = (n * 2 ^ 1074)%Z.
Proof.
  intros Hn. destruct (repr_signed n 0 Hn ltac:(lia)) as (B & HB & FB & VB).
  pose proof (binary_normalize_encl n 0 false ltac:(lia)) as He.
  destruct (encl_exact _ _ _ He HB FB VB) as [Hf Hi].
  split_and!; [by destruct He as [? _]|done|done].
Qed.

Lemma of_Z_valid n : Z.abs n < 2 ^ 53 -> valid (#n).
Proof. apply of_Z_spec. Qed.

Lemma of_Z_finite n : Z.abs n < 2 ^ 53 -> is_finite (#n) = true.
Proof. apply of_Z_spec. Qed.

Lemma of_Z_ival n : Z.abs n < 2 ^ 53 -> ival (#n) = (n * 2 ^ 1074)%Z.
Proof. apply of_Z_spec. Qed.

#[export] Hint Resolve of_Z_valid of_Z_finite : hostpin.
(** The side condition of the previous lemmas. *)
#[export] Hint Extern 1 (Z.lt (Z.abs _) _) => lia : hostpin.

Lemma of_Z_sign n : Z.abs n < 2 ^ 53 -> sign (#n) = Some (Z.ltb n 0).
Proof.
  intros Hn. destruct (of_Z_spec n Hn) as (Hv & Hf & Hi).
  destruct n as [|p|p]; [done| |];
    [pose proof (binary_round_rounds false p 0 ltac:(lia)) as (_ & Hs & _)
    |pose proof (binary_round_rounds true p 0 ltac:(lia)) as (_ & Hs & _)]; exact Hs.
Qed.

(** A finite valid number that denotes a small integer is that integer (up to
    the sign of zero). *)
Lemma ival_of_Z x n : valid x -> is_finite x = true -> Z.abs n < 2 ^ 53 -> n <> 0 ->
  ival x = (n * 2 ^ 1074)%Z -> x = #n.
Proof.
  intros Hv Hf Hn Hnz Hi. destruct (of_Z_spec n Hn) as (Hv' & Hf' & Hi').
  apply ival_inj; [done..| |congruence].
  rewrite of_Z_sign by done. destruct x as [s| | |s m e]; cbn in *; try done; [lia|].
  destruct Hv as [Hc _]. pose proof (mval_pos _ _ Hc). f_equal.
  destruct s, (Z.ltb_spec n 0); try done; lia.
Qed.

Lemma leb_of_Z a b : Z.abs a < 2 ^ 53 -> Z.abs b < 2 ^ 53 -> (#a <=? #b) = Z.leb a b.
Proof.
  intros. unfold leb. rewrite SFleb_ival, !of_Z_ival by auto with hostpin.
  apply Bool.eq_iff_eq_true. rewrite !Z.leb_le. split; lia.
Qed.

Lemma ltb_of_Z a b : Z.abs a < 2 ^ 53 -> Z.abs b < 2 ^ 53 -> (#a <? #b) = Z.ltb a b.
Proof.
  intros. unfold ltb. rewrite SFltb_ival, !of_Z_ival by auto with hostpin.
  apply Bool.eq_iff_eq_true. rewrite !Z.ltb_lt. split; lia.
Qed.

(** ** Lemmas: order, [max] and [min] *)

Lemma ltb_leb x y : (x <? y) = true -> (x <=? y) = true.
Proof. unfold ltb, leb, SFltb, SFleb. by destruct (SFcompare x y) as [[]|]. Qed.

Lemma SFcompare_antisym x y : SFcompare y x = CompOpp <$> SFcompare x y.
Proof.
  destruct x as [sx|sx| |sx mx ex], y as [sy|sy| |sy my ey]; cbn; try done;
    try (by destruct sx); try (by destruct sy); try (by destruct sx, sy).
  rewrite (Z.compare_antisym ex ey).
  change (Pos.compare_cont Eq) with Pos.compare. rewrite (Pos.compare_antisym mx my).
  destruct sx, sy, (ex ?= ey)%Z, (mx ?= my)%positive; done.
Qed.

Lemma ltb_asym x y : (x <? y) = true -> (y <? x) = false.
Proof.
  unfold ltb, SFltb. rewrite (SFcompare_antisym x y).
  by destruct (SFcompare x y) as [[]|].
Qed.

Lemma leb_refl x : isNaN x = false -> (x <=? x) = true.
Proof.
  unfold leb, SFleb. destruct x as [| | |s m e]; cbn; try done; [by destruct s|].
  intros _. rewrite Z.compare_refl.
  change (Pos.compare_cont Eq m m) with (Pos.compare m m). rewrite Pos.compare_refl. by destruct s.
Qed.

(** [Math.min(hi, Math.max(0, x))] for a positive integer [hi]. *)
Lemma clamp_cases hi x : 0 < hi < 2 ^ 53 -> isNaN x = false ->
  let r := min (#hi) (max (#0) x) in
  r = #0 \/ r = #hi \/ (r = x /\ (#0 <? x) = true /\ (x <? #hi) = true).
Proof.
  intros Hhi Hx r. subst r.
  assert (H0 : isNaN (#hi) = false).
  { pose proof (of_Z_finite hi ltac:(lia)). by destruct (#hi). }
  assert (Hm : max (#0) x = x /\ (#0 <? x) = true \/ max (#0) x = #0).
  { unfold max. rewrite Hx. cbn [isNaN orb of_Z binary_normalize].
    destruct (ltb _ x) eqn:E; [by left|]. right. by destruct (x <? _). }
  destruct Hm as [[-> Hlt]| ->].
  - unfold min. rewrite Hx, H0. cbn [orb]. destruct (#hi <? x); [by right; left|].
    destruct (x <? #hi) eqn:E; [by right; right|]. destruct (is_neg_zero x) eqn:Ez; [|by right; left].
    by destruct x as [[]| | |].
  - left. unfold min. rewrite H0. cbn [isNaN orb of_Z binary_normalize].
    assert (H1 : (#hi <? #0) = false) by (rewrite ltb_of_Z by lia; apply Z.ltb_ge; lia).
    assert (H2 : (#0 <? #hi) = true) by (rewrite ltb_of_Z by lia; apply Z.ltb_lt; lia).
    cbn [of_Z binary_normalize] in H1, H2. by rewrite H1, H2.
Qed.

Lemma clamp_range hi x : 0 < hi < 2 ^ 53 -> isNaN x = false ->
  (#0 <=? min (#hi) (max (#0) x)) = true /\ (min (#hi) (max (#0) x) <=? #hi) = true.
Proof.
  intros Hhi Hx. destruct (clamp_cases hi x Hhi Hx) as [-> | [-> | (-> & H1 & H2)]].
  - rewrite !leb_of_Z by lia. rewrite !Z.leb_le. lia.
  - rewrite !leb_of_Z by lia. rewrite !Z.leb_le. lia.
  - split; by apply ltb_leb.
Qed.

(** A value inside the range is unchanged. *)
Lemma clamp_id hi x : 0 < hi < 2 ^ 53 -> (#0 <? x) = true -> (x <? #hi) = true ->
  min (#hi) (max (#0) x) = x.
Proof.
  intros Hhi H1 H2.
  assert (Hx : isNaN x = false) by (destruct x; try done; by destruct hi).
  assert (H0 : isNaN (#hi) = false).
  { pose proof (of_Z_finite hi ltac:(lia)). by destruct (#hi). }
  assert (Hm : max (#0) x = x).
  { unfold max. rewrite Hx. cbn [isNaN orb of_Z binary_normalize].
    cbn [of_Z binary_normalize] in H1. by rewrite H1. }
  rewrite Hm. unfold min. rewrite Hx, H0. cbn [orb].
  assert (Hn : (#hi <? x) = false) by (by apply ltb_asym).
  by rewrite Hn, H2.
Qed.

Lemma clamp_nan hi : min (#hi) (max (#0) NaN) = NaN.
Proof. unfold min. cbn. by rewrite orb_true_r. Qed.

(** ** Lemmas: validity and signs of sums, products and quotients *)

Lemma rounds_valid s P Q x : rounds s P Q x -> valid x /\ sign x = Some s.
Proof. by intros (? & ? & _). Qed.

Lemma add_valid x y : valid x -> valid y -> valid (x + y).
Proof.
  intros Hx Hy. unfold add.
  destruct (is_finite x) eqn:Fx, (is_finite y) eqn:Fy.
  - by apply SFadd_encl.
  - destruct x as [[]|[]| |], y as [[]|[]| |]; done.
  - destruct x as [[]|[]| |], y as [[]|[]| |]; done.
  - destruct x as [[]|[]| |], y as [[]|[]| |]; done.
Qed.

Lemma sub_valid x y : valid x -> valid y -> valid (x - y).
Proof. intros. unfold sub. rewrite SFsub_opp. apply add_valid; [done|by apply valid_opp]. Qed.

Lemma mul_valid x y : valid x -> valid y -> valid (x * y).
Proof.
  destruct x as [| | |sx m1 e1], y as [| | |sy m2 e2]; try done.
  intros [H1 _] [H2 _]. by eapply rounds_valid, SFmul_rounds.
Qed.

Lemma div_valid x y : valid x -> valid y -> valid (x / y).
Proof.
  destruct x as [| | |sx m1 e1], y as [| | |sy m2 e2]; try done.
  intros [H1%canonical_emin L1] [H2%canonical_emin L2]. by eapply rounds_valid, SFdiv_rounds.
Qed.

#[export] Hint Resolve add_valid sub_valid mul_valid div_valid : hostpin.

(** [x >= 0] in JavaScript. *)
Definition nonneg (x : num) : bool := x >=? #0.

Lemma nonneg_cases x : nonneg x = true <-> (exists s, x = S754_zero s) \/ sign x = Some false.
Proof.
  unfold nonneg, geb. cbn. destruct x as [s|[]| |[] m e]; cbn; split; try done; eauto;
    try (by intros [[? ?]|?]).
Qed.

Lemma nonneg_not_nan x : nonneg x = true -> isNaN x = false.
Proof. by destruct x. Qed.

Lemma nonneg_ival x : valid x -> is_finite x = true -> nonneg x = true <-> 0 <= ival x.
Proof.
  intros Hv Hf. unfold nonneg, geb. rewrite SFleb_ival by done. by rewrite Z.leb_le.
Qed.

Lemma pos_ival x : valid x -> is_finite x = true -> (#0 <? x) = true <-> 0 < ival x.
Proof.
  intros Hv Hf. unfold ltb. rewrite SFltb_ival by done. by rewrite Z.ltb_lt.
Qed.

Lemma add_nonneg x y : valid x -> valid y -> nonneg x = true -> nonneg y = true -> nonneg (x + y) = true.
Proof.
  intros Hx Hy Nx Ny. destruct (is_finite x) eqn:Fx; [|destruct x as [|[]| |], y as [|[]| |]; done].
  destruct (is_finite y) eqn:Fy; [|destruct x as [|[]| |[]], y as [|[]| |[]]; done].
  destruct (SFadd_encl x y Hx Hy Fx Fy) as (Hv & Hn & Hb).
  apply nonneg_ival in Nx; [|done..]. apply nonneg_ival in Ny; [|done..].
  fold add in Hv, Hn, Hb. change (SFadd 53 1024 x y) with (x + y) in *.
  destruct x as [sx| | |sx m1 e1], y as [sy| | |sy m2 e2]; try done.
  - by destruct sx, sy.
  - by apply nonneg_ival.
  - by apply nonneg_ival.
  - destruct sx; [cbn in Nx; destruct Hx as [Hx _]; pose proof (mval_pos _ _ Hx); lia|].
    destruct sy; [cbn in Ny; destruct Hy as [Hy _]; pose proof (mval_pos _ _ Hy); lia|].
    apply nonneg_cases. right. destruct Hx as [H1 _], Hy as [H2 _].
    pose proof (canonical_emin _ _ H1). pose proof (canonical_emin _ _ H2).
    unfold add. cbn [SFadd cond_Zopp]. set (ez := Z.min e1 e2).
    destruct (Z.pos (fst (shl_align m1 e1 ez)) + Z.pos (fst (shl_align m2 e2 ez)))%Z as [|p|p] eqn:E; try lia.
    cbn [binary_normalize]. by eapply rounds_valid, binary_round_rounds; lia.
Qed.

Lemma div_nonneg x y :
  valid x -> valid y -> is_finite y = true -> nonneg x = true -> (#0 <? y) = true -> nonneg (x / y) = true.
Proof.
  destruct x as [sx|[]| |sx m1 e1], y as [sy| | |[] m2 e2]; try done.
  intros [H1 L1] [H2 L2] _ Nx _. destruct sx; [done|]. apply nonneg_cases. right.
  eapply rounds_valid. apply (SFdiv_rounds m1 e1 m2 e2 (canonical_emin _ _ H1) (canonical_emin _ _ H2) false false).
Qed.

Lemma mul_nonneg x y :
  valid x -> valid y -> is_finite y = true -> nonneg x = true -> (#0 <? y) = true -> nonneg (x * y) = true.
Proof.
  destruct x as [sx|[]| |sx m1 e1], y as [sy| | |[] m2 e2]; try done.
  intros [H1 L1] [H2 L2] _ Nx _. destruct sx; [done|]. apply nonneg_cases. right.
  eapply rounds_valid. by apply (SFmul_rounds false m1 e1 false m2 e2).
Qed.

(** Enclosures of products and quotients. *)
Lemma mag_nonzero x : valid x -> is_finite x = true -> 0 < ival x -> is_mag (ival x).
Proof. intros Hv Hf Hp. pose proof (is_mag_abs x Hv Hf ltac:(lia)) as H. by rewrite Z.abs_eq in H by lia. Qed.

Lemma rounds_between s P Q x A B :
  rounds s P Q x -> valid A -> valid B -> is_finite A = true -> is_finite B = true ->
  (s = false -> (ival A <= 0 \/ P (ival A)) /\ 0 < ival B /\ Q (ival B)) ->
  (s = true -> (0 <= ival B \/ P (- ival B)%Z) /\ ival A < 0 /\ Q (- ival A)%Z) ->
  is_finite x = true /\ ival A <= ival x <= ival B.
Proof.
  intros (Hv & Hs & Hup & Hlo) HA HB FA FB Hpos Hneg. pose proof (sign_ival _ _ Hs Hv) as Hsi.
  assert (HM : forall C, valid C -> is_finite C = true -> ival C <> 0 -> is_mag (Z.abs (ival C)))
    by (intros; by apply is_mag_abs).
  destruct s.
  - destruct (Hneg eq_refl) as (Hl & Hn & Hu). pose proof (HM A HA FA ltac:(lia)) as MA.
    replace (Z.abs (ival A)) with (- ival A)%Z in MA by lia.
    destruct (Hup _ MA Hu) as [Hf Hb]. split; [done|].
    destruct (Z.le_gt_cases 0 (ival B)) as [|Hlt]; [lia|].
    destruct Hl as [?|Hl]; [lia|]. pose proof (HM B HB FB ltac:(lia)) as MB.
    replace (Z.abs (ival B)) with (- ival B)%Z in MB by lia. pose proof (Hlo _ MB Hl Hf). lia.
  - destruct (Hpos eq_refl) as (Hl & Hn & Hu).
    destruct (Hup _ (mag_nonzero _ HB FB Hn) Hu) as [Hf Hb]. split; [done|].
    destruct (Z.le_gt_cases (ival A) 0) as [|Hlt]; [lia|].
    destruct Hl as [?|Hl]; [lia|]. pose proof (Hlo _ (mag_nonzero _ HA FA Hlt) Hl Hf). lia.
Qed.

Lemma div_bounds x y A B :
  valid x -> valid y -> valid A -> valid B ->
  is_finite x = true -> is_finite y = true -> is_finite A = true -> is_finite B = true ->
  0 < ival y -> (ival A * ival y <= ival x * 2 ^ 1074 <= ival B * ival y)%Z ->
  is_finite (x / y) = true /\ ival A <= ival (x / y) <= ival B.
Proof.
  intros Hx Hy HA HB Fx Fy FA FB Hpos Hb.
  destruct y as [sy| | |sy m2 e2]; try done. destruct Hy as [H2 L2].
  pose proof (mval_pos _ _ H2). destruct sy; [cbn in Hpos; lia|].
  change (ival (S754_finite false m2 e2)) with (mval m2 e2) in *.
  assert (0 < 2 ^ 1074)%Z by (by apply pow2_pos).
  destruct x as [sx| | |sx m1 e1]; try done.
  - split; [done|]. cbn [ival] in *. change (ival (S754_zero sx / _)) with 0. nia.
  - destruct Hx as [H1 L1]. pose proof (mval_pos _ _ H1).
    apply (rounds_between _ _ _ _ A B (SFdiv_rounds m1 e1 m2 e2 (canonical_emin _ _ H1) (canonical_emin _ _ H2) sx false)); try done.
    + destruct sx; [done|]. intros _. cbn [ival] in Hb. split_and!; [right; lia|nia|lia].
    + destruct sx; [|done]. intros _. cbn [ival] in Hb. split_and!; [right; nia|nia|nia].
Qed.

Lemma mul_bounds x y A B :
  valid x -> valid y -> valid A -> valid B ->
  is_finite x = true -> is_finite y = true -> is_finite A = true -> is_finite B = true ->
  0 < ival y -> (ival A * 2 ^ 1074 <= ival x * ival y <= ival B * 2 ^ 1074)%Z ->
  is_finite (x * y) = true /\ ival A <= ival (x * y) <= ival B.
Proof.
  intros Hx Hy HA HB Fx Fy FA FB Hpos Hb.
  destruct y as [sy| | |sy m2 e2]; try done. destruct Hy as [H2 L2].
  pose proof (mval_pos _ _ H2). destruct sy; [cbn in Hpos; lia|].
  change (ival (S754_finite false m2 e2)) with (mval m2 e2) in *.
  assert (0 < 2 ^ 1074)%Z by (by apply pow2_pos).
  destruct x as [sx| | |sx m1 e1]; try done.
  - split; [done|]. cbn [ival] in *. change (ival (S754_zero sx * _)) with 0. nia.
  - destruct Hx as [H1 L1]. pose proof (mval_pos _ _ H1).
    apply (rounds_between _ _ _ _ A B (SFmul_rounds sx m1 e1 false m2 e2 H1 H2)); try done.
    + destruct sx; [done|]. intros _. cbn [ival] in Hb. split_and!; [right; lia|nia|lia].
    + destruct sx; [|done]. intros _. cbn [ival] in Hb. split_and!; [right; nia|nia|nia].
Qed.

Lemma add_bounds x y A B :
  valid x -> valid y -> valid A -> valid B ->
  is_finite x = true -> is_finite y = true -> is_finite A = true -> is_finite B = true ->
  (ival A <= ival x + ival y <= ival B)%Z ->
  is_finite (x + y) = true /\ ival A <= ival (x + y) <= ival B.
Proof. intros. by apply SFadd_encl. Qed.

Lemma sub_bounds x y A B :
  valid x -> valid y -> valid A -> valid B ->
  is_finite x = true -> is_finite y = true -> is_finite A = true -> is_finite B = true ->
  (ival A <= ival x - ival y <= ival B)%Z ->
  is_finite (x - y) = true /\ ival A <= ival (x - y) <= ival B.
Proof. intros. by apply SFsub_encl. Qed.

(** ** Lemmas: rounding to integers *)

Lemma canonical_mantissa_lt m e : canonical m e -> Zpos m < 2 ^ 53.
Proof.
  unfold canonical. rewrite fexp_eq. intros H.
  pose proof (Zdigits2_bound (Zpos m) ltac:(lia)). pose proof (Zdigits2_pos (Zpos m) ltac:(lia)).
  assert (2 ^ Zdigits2 (Zpos m) <= 2 ^ 53); [apply pow2_le|]; lia.
Qed.

Lemma integral_spec s n : Z.abs n < 2 ^ 53 ->
  valid (integral s n) /\ is_finite (integral s n) = true /\ ival (integral s n) = (n * 2 ^ 1074)%Z.
Proof.
  intros Hn. unfold integral. destruct (Z.eqb_spec n 0) as [->|]; [done|by apply of_Z_spec].
Qed.

(** The value of a finite number with a negative exponent, scaled. *)
Lemma ival_neg_exp s m e : canonical m e -> e < 0 ->
  (ival (S754_finite s m e) * 2 ^ (- e) = signed s m * 2 ^ 1074)%Z.
Proof.
  intros Hc He. pose proof (canonical_emin _ _ Hc). cbn [ival]. unfold mval, signed.
  assert (2 ^ (e + 1074) * 2 ^ (- e) = 2 ^ 1074)%Z by (rewrite <- pow2_split by lia; f_equal; lia).
  destruct s; rewrite ?Pos2Z.opp_pos in *; nia.
Qed.

Lemma ival_nonneg_exp s m e : 0 <= e ->
  (ival (S754_finite s m e) = signed s m * 2 ^ e * 2 ^ 1074)%Z.
Proof.
  intros He. cbn [ival]. unfold mval, signed. rewrite pow2_split by lia. destruct s; lia.
Qed.

(** [floor], [ceil] and [round] share one scheme: [f] is the integer function
    applied to the mantissa, [g] its value on the scaled integer. *)
Lemma to_integer_spec (op : num -> num) (f : Z -> Z -> Z) (g : Z -> Z) x :
  (forall s m e, op (S754_finite s m e)
     = if Z.leb 0 e then S754_finite s m e else integral s (f (signed s m) (- e))) ->
  (forall s, op (S754_zero s) = S754_zero s) ->
  (forall v k, 0 < k -> Z.abs v < 2 ^ 53 -> Z.abs (f v k) < 2 ^ 53) ->
  (forall v k a, 0 < k -> (a * 2 ^ k = v * 2 ^ 1074)%Z -> f v k = g a) ->
  (forall n, g (n * 2 ^ 1074) = n)%Z ->
  valid x -> is_finite x = true ->
  valid (op x) /\ is_finite (op x) = true /\ ival (op x) = (g (ival x) * 2 ^ 1074)%Z.
Proof.
  intros Hop Hz Hb Hfg Hg Hv Hf. destruct x as [s| | |s m e]; try done.
  - rewrite Hz. split_and!; [done..|]. change (ival (S754_zero s)) with (0 * 2 ^ 1074)%Z. by rewrite Hg.
  - rewrite Hop. destruct Hv as [Hc He]. destruct (Z.leb_spec 0 e).
    + split_and!; [done..|]. rewrite ival_nonneg_exp by done. by rewrite Hg.
    + pose proof (canonical_mantissa_lt _ _ Hc).
      rewrite <- (Hfg (signed s m) (- e)); [|lia|by apply ival_neg_exp].
      apply integral_spec, Hb; [lia|]. unfold signed. destruct s; lia.
Qed.

Lemma div_pow2_abs v k : 0 < k -> Z.abs v < 2 ^ 53 -> Z.abs (v / 2 ^ k) < 2 ^ 53.
Proof.
  intros Hk Hv. assert (2 ^ 1 <= 2 ^ k) by (apply pow2_le; lia). change (2 ^ 1)%Z with 2 in *.
  assert (- 2 ^ 52 <= v / 2 ^ k) by (apply Z.div_le_lower_bound; nia).
  assert (v / 2 ^ k < 2 ^ 52 + 1) by (apply Z.div_lt_upper_bound; nia). lia.
Qed.

(** Two fractions that are equal have the same floor. *)
Lemma div_cross a b c d : 0 < b -> 0 < d -> (a * d = c * b)%Z -> (a / b = c / d)%Z.
Proof.
  intros Hb Hd H. rewrite <- (Z.div_mul_cancel_r a b d), <- (Z.div_mul_cancel_r c d b) by lia.
  f_equal; lia.
Qed.

Lemma floor_spec x : valid x -> is_finite x = true ->
  valid (floor x) /\ is_finite (floor x) = true /\ ival (floor x) = (ival x / 2 ^ 1074 * 2 ^ 1074)%Z.
Proof.
  assert (0 < 2 ^ 1074) by (by apply pow2_pos).
  apply (to_integer_spec floor (fun v k => v / 2 ^ k) (fun a => a / 2 ^ 1074))%Z; try done.
  - apply div_pow2_abs.
  - intros v k a Hk Ha. pose proof (pow2_pos k ltac:(lia)). apply div_cross; lia.
  - intros n. apply Z.div_mul. lia.
Qed.

Lemma ceil_spec x : valid x -> is_finite x = true ->
  valid (ceil x) /\ is_finite (ceil x) = true /\ ival (ceil x) = (- (- ival x / 2 ^ 1074) * 2 ^ 1074)%Z.
Proof.
  assert (0 < 2 ^ 1074) by (by apply pow2_pos).
  apply (to_integer_spec ceil (fun v k => - (- v / 2 ^ k)) (fun a => - (- a / 2 ^ 1074)))%Z; try done.
  - intros v k Hk Hv. pose proof (div_pow2_abs (- v) k Hk). lia.
  - intros v k a Hk Ha. pose proof (pow2_pos k ltac:(lia)). f_equal. apply div_cross; lia.
  - intros n. rewrite <- Z.mul_opp_l, Z.div_mul; lia.
Qed.

Lemma round_spec x : valid x -> is_finite x = true ->
  valid (round x) /\ is_finite (round x) = true /\
  ival (round x) = ((2 * ival x + 2 ^ 1074) / 2 ^ 1075 * 2 ^ 1074)%Z.
Proof.
  assert (0 < 2 ^ 1074) by (by apply pow2_pos).
  assert (H2 : (2 ^ 1075 = 2 * 2 ^ 1074)%Z) by (by rewrite <- Z.pow_succ_r by lia).
  apply (to_integer_spec round (fun v k => (2 * v + 2 ^ k) / 2 ^ (1 + k))
           (fun a => (2 * a + 2 ^ 1074) / 2 ^ 1075))%Z; try done.
  - intros v k Hk Hv. rewrite pow2_split by lia. change (2 ^ 1)%Z with 2.
    assert (2 ^ 1 <= 2 ^ k) by (apply pow2_le; lia). change (2 ^ 1)%Z with 2 in *.
    assert (- 2 ^ 52 <= (2 * v + 2 ^ k) / (2 * 2 ^ k)) by (apply Z.div_le_lower_bound; nia).
    assert ((2 * v + 2 ^ k) / (2 * 2 ^ k) < 2 ^ 52 + 1) by (apply Z.div_lt_upper_bound; nia). lia.
  - intros v k a Hk Ha. pose proof (pow2_pos k ltac:(lia)). rewrite H2, pow2_split by lia.
    change (2 ^ 1)%Z with 2. apply div_cross; lia.
  - intros n. rewrite H2. symmetry. apply (Z.div_unique_pos _ _ _ (2 ^ 1074)); lia.
Qed.

Lemma to_Z_spec x n : valid x -> to_Z x = Some n -> is_finite x = true /\ ival x = (n * 2 ^ 1074)%Z.
Proof.
  destruct x as [s| | |s m e]; cbn [to_Z]; try done; [by intros _ [= <-]|].
  intros [Hc _]. destruct (Z.leb_spec 0 e) as [He|He].
  - intros [= <-]. split; [done|by apply ival_nonneg_exp].
  - pose proof (pow2_pos (- e) ltac:(lia)).
    destruct (Z.eqb_spec (Zpos m mod 2 ^ (- e)) 0) as [Hm|]; [|done]. intros [= <-]. split; [done|].
    pose proof (ival_neg_exp s m e Hc He) as Hi.
    assert (Hd : (signed s m = signed s m / 2 ^ (- e) * 2 ^ (- e))%Z).
    { apply Z_div_exact_full_2 in Hm; [|lia]. unfold signed. destruct s.
      - rewrite <- Pos2Z.opp_pos. rewrite Hm, <- Z.mul_opp_r, (Z.mul_comm (2 ^ (- e))), Z.div_mul; lia.
      - rewrite Hm at 2. rewrite (Z.mul_comm (2 ^ (- e))), Z.div_mul; lia. }
    apply (Z.mul_cancel_r _ _ (2 ^ (- e))%Z); [lia|]. rewrite Hi, Hd at 1. lia.
Qed.

Lemma to_Z_complete x n : valid x -> is_finite x = true -> ival x = (n * 2 ^ 1074)%Z -> to_Z x = Some n.
Proof.
  assert (0 < 2 ^ 1074) by (by apply pow2_pos).
  destruct x as [s| | |s m e]; cbn [to_Z]; try done; [intros; f_equal; cbn in *; lia|].
  intros [Hc _] _ Hi. destruct (Z.leb_spec 0 e) as [He|He].
  - rewrite ival_nonneg_exp in Hi by done. f_equal. nia.
  - pose proof (pow2_pos (- e) ltac:(lia)). pose proof (ival_neg_exp s m e Hc He) as Hv.
    assert (Hs : (signed s m = n * 2 ^ (- e))%Z) by nia.
    assert (Hm : (Zpos m mod 2 ^ (- e) = 0)%Z).
    { unfold signed in Hs. destruct s.
      - replace (Zpos m) with ((- n) * 2 ^ (- e))%Z by lia. apply Z.mod_mul. lia.
      - rewrite Hs. apply Z.mod_mul. lia. }
    rewrite Hm, Z.eqb_refl, Hs, Z.div_mul by lia. done.
Qed.

Lemma to_Z_of_Z n : Z.abs n < 2 ^ 53 -> to_Z (#n) = Some n.
Proof. intros. apply to_Z_complete; auto with hostpin. by apply of_Z_ival. Qed.

Lemma isSafeInteger_of_Z n : Z.abs n < 2 ^ 53 -> isSafeInteger (#n) = true.
Proof. intros. unfold isSafeInteger, MAX_SAFE_INTEGER. rewrite to_Z_of_Z by done. apply Z.leb_le. lia. Qed.

(** A safe integer is [#n], or the negative zero. *)
Lemma isSafeInteger_inv x : valid x -> isSafeInteger x = true ->
  exists n, Z.abs n <= MAX_SAFE_INTEGER /\ is_finite x = true /\ ival x = (n * 2 ^ 1074)%Z /\
    (x = #n \/ x = S754_zero true).
Proof.
  unfold isSafeInteger. intros Hv. destruct (to_Z x) as [n|] eqn:E; [|done]. intros Hn%Z.leb_le.
  destruct (to_Z_spec x n Hv E) as [Hf Hi]. exists n. split_and!; [done..|].
  destruct (Z.eq_dec n 0) as [->|Hnz].
  - destruct x as [[]| | |s m e]; try done; [by right|by left|].
    exfalso. destruct Hv as [Hc _]. pose proof (mval_pos _ _ Hc). cbn in Hi. destruct s; lia.
  - left. apply ival_of_Z; try done. unfold MAX_SAFE_INTEGER in Hn. lia.
Qed.

(** Rounding functions fix integers. *)
Lemma round_of_Z n : Z.abs n < 2 ^ 53 -> round (#n) = #n.
Proof.
  intros Hn. destruct (Z.eq_dec n 0) as [->|Hnz]; [done|].
  destruct (round_spec (#n)) as (Hv & Hf & Hi); auto with hostpin.
  apply ival_of_Z; try done. rewrite Hi, of_Z_ival by done. f_equal.
  assert (0 < 2 ^ 1074) by (by apply pow2_pos).
  replace (2 ^ 1075)%Z with (2 * 2 ^ 1074)%Z by (by rewrite <- Z.pow_succ_r by lia).
  symmetry. apply (Z.div_unique_pos _ _ _ (2 ^ 1074)); lia.
Qed.

(** Exact sums and differences of integers. *)
Lemma add_of_Z a b : Z.abs a < 2 ^ 53 -> Z.abs b < 2 ^ 53 -> Z.abs (a + b) < 2 ^ 53 ->
  is_finite (#a + #b) = true /\ ival (#a + #b) = ((a + b) * 2 ^ 1074)%Z.
Proof.
  intros Ha Hb Hab.
  destruct (add_bounds (#a) (#b) (#(a + b)) (#(a + b))) as [Hf Hi]; auto with hostpin.
  - rewrite !of_Z_ival by done. lia.
  - split; [done|]. rewrite of_Z_ival in Hi by done. lia.
Qed.

Lemma sub_of_Z a b : Z.abs a < 2 ^ 53 -> Z.abs b < 2 ^ 53 -> Z.abs (a - b) < 2 ^ 53 ->
  is_finite (#a - #b) = true /\ ival (#a - #b) = ((a - b) * 2 ^ 1074)%Z.
Proof.
  intros Ha Hb Hab.
  destruct (sub_bounds (#a) (#b) (#(a - b)) (#(a - b))) as [Hf Hi]; auto with hostpin.
  - rewrite !of_Z_ival by done. lia.
  - split; [done|]. rewrite of_Z_ival in Hi by done. lia.
Qed.

(** ** Lemmas: lower bounds, also when the result overflows *)

Lemma leb_ival_iff x y : valid x -> valid y -> is_finite x = true -> is_finite y = true ->
  (x <=? y) = true <-> (ival x <= ival y)%Z.
Proof. intros. unfold leb. rewrite SFleb_ival by done. apply Z.leb_le. Qed.

Lemma ltb_ival_iff x y : valid x -> valid y -> is_finite x = true -> is_finite y = true ->
  (x <? y) = true <-> (ival x < ival y)%Z.
Proof. intros. unfold ltb. rewrite SFltb_ival by done. apply Z.ltb_lt. Qed.

Lemma rounds_lower s P Q x A :
  rounds s P Q x -> s = false -> valid A -> is_finite A = true ->
  (0 < ival A -> P (ival A))%Z -> (A <=? x) = true.
Proof.
  intros (Hv & Hs & _ & Hlo) -> HA FA HP. pose proof (sign_ival _ _ Hs Hv : 0 <= ival x) as Hsi.
  destruct (is_finite x) eqn:Fx.
  - apply leb_ival_iff; [done..|]. destruct (Z.le_gt_cases (ival A) 0); [lia|].
    pose proof (Hlo _ (mag_nonzero _ HA FA ltac:(lia)) (HP ltac:(lia)) eq_refl). lia.
  - destruct x as [|[]| |]; try done. by destruct A as [| | |[]].
Qed.

Lemma div_lower x y A :
  valid x -> valid y -> valid A -> is_finite x = true -> is_finite y = true -> is_finite A = true ->
  (0 <= ival x)%Z -> (0 < ival y)%Z -> (ival A * ival y <= ival x * 2 ^ 1074)%Z -> (A <=? x / y) = true.
Proof.
  intros Hx Hy HA Fx Fy FA H0 Hpos Hb.
  destruct y as [sy| | |sy m2 e2]; try done. destruct Hy as [H2 L2]. pose proof (mval_pos _ _ H2).
  destruct sy; [cbn in Hpos; lia|]. change (ival (S754_finite false m2 e2)) with (mval m2 e2) in *.
  destruct x as [sx| | |sx m1 e1]; try done.
  - apply leb_ival_iff; try done. cbn [ival] in Hb. rewrite Z.mul_0_l in Hb.
    change (ival (S754_zero sx / _)) with 0.
    destruct (Z.le_gt_cases (ival A) 0); [done|]. nia.
  - destruct Hx as [H1 L1]. pose proof (mval_pos _ _ H1). destruct sx; [cbn in H0; lia|].
    eapply (rounds_lower _ _ _ _ A (SFdiv_rounds m1 e1 m2 e2 (canonical_emin _ _ H1) (canonical_emin _ _ H2) false false));
      try done.
Qed.

Lemma mul_lower x y A :
  valid x -> valid y -> valid A -> is_finite x = true -> is_finite y = true -> is_finite A = true ->
  (0 <= ival x)%Z -> (0 < ival y)%Z -> (ival A * 2 ^ 1074 <= ival x * ival y)%Z -> (A <=? x * y) = true.
Proof.
  intros Hx Hy HA Fx Fy FA H0 Hpos Hb.
  destruct y as [sy| | |sy m2 e2]; try done. destruct Hy as [H2 L2]. pose proof (mval_pos _ _ H2).
  destruct sy; [cbn in Hpos; lia|]. change (ival (S754_finite false m2 e2)) with (mval m2 e2) in *.
  destruct x as [sx| | |sx m1 e1]; try done.
  - apply leb_ival_iff; try done. cbn [ival] in Hb. change (ival (S754_zero sx * _)) with 0.
    assert (0 < 2 ^ 1074) by (by apply pow2_pos). nia.
  - destruct Hx as [H1 L1]. pose proof (mval_pos _ _ H1). destruct sx; [cbn in H0; lia|].
    eapply (rounds_lower _ _ _ _ A (SFmul_rounds false m1 e1 false m2 e2 H1 H2)); try done.
Qed.

(** Comparison equal means the same number, up to the sign of zero. *)
Lemma SFcompare_eq_inv x y : SFcompare x y = Some Eq ->
  x = y \/ exists a b, x = S754_zero a /\ y = S754_zero b.
Proof.
  destruct x as [a|a| |sx mx ex], y as [b|b| |sy my ey]; cbn; try done; eauto;
    try (by destruct a); try (by destruct b); try (by destruct sx); try (by destruct sy).
  - destruct a, b; try done; by left.
  - intros [= H]. left. change (Pos.compare_cont Eq) with Pos.compare in H.
    destruct sx, sy; try done; destruct (Z.compare_spec ex ey) as [->|?|?]; try done;
      destruct (Pos.compare_spec mx my) as [->|?|?]; done.
Qed.

(** The other argument order of the clamp. *)
Lemma clamp_comm hi x : 0 < hi < 2 ^ 53 ->
  min (max x (#0)) (#hi) = min (#hi) (max (#0) x).
Proof.
  intros Hhi.
  assert (Hm : max x (#0) = max (#0) x).
  { unfold max. destruct (isNaN x) eqn:Hn; [by destruct x|].
    change (isNaN (#0)) with false. cbn [orb].
    destruct (x <? #0) eqn:E1; [by rewrite (ltb_asym _ _ E1)|].
    destruct (#0 <? x) eqn:E2; [done|]. change (is_neg_zero (#0)) with false. cbn.
    destruct x as [[]|[]| |[] m e]; done. }
  rewrite Hm. set (y := max (#0) x). unfold min.
  assert (Hh : isNaN (#hi) = false) by (pose proof (of_Z_finite hi ltac:(lia)); by destruct (#hi)).
  rewrite Hh. destruct (isNaN y) eqn:Hn; [done|]. cbn [orb].
  destruct (y <? #hi) eqn:E1; [by rewrite (ltb_asym _ _ E1)|].
  destruct (#hi <? y) eqn:E2; [done|].
  assert (Hne : is_neg_zero (#hi) = false).
  { pose proof (of_Z_sign hi ltac:(lia)) as Hs. destruct (#hi) as [[]| | |]; try done.
    cbn in Hs. destruct (Z.ltb_spec hi 0); [lia|done]. }
  rewrite Hne. unfold ltb, SFltb in E1, E2. rewrite (SFcompare_antisym y) in E2.
  destruct (SFcompare y (#hi)) as [[]|] eqn:Ec; try done.
  - destruct (SFcompare_eq_inv _ _ Ec) as [->|(a & b & -> & Hb)]; [by rewrite Hne|].
    pose proof (of_Z_ival hi ltac:(lia)) as Hi. rewrite Hb in Hi. cbn in Hi. lia.
  - destruct y, (#hi); try done; by destruct s, s0.
Qed.

(** [max] of non-negative finite values. *)
Lemma max_0_pos x : (#0 <? x) = true -> max (#0) x = x.
Proof. intros H. unfold max. destruct x; try done; cbn [isNaN]; by rewrite H. Qed.

Lemma max_0_nonpos x : isNaN x = false -> (#0 <? x) = false -> max (#0) x = #0.
Proof. intros Hn H. unfold max. rewrite Hn, H. cbn. by destruct (x <? _). Qed.

(** ** Lemmas: decimal fractions *)

Lemma of_frac_rounds m q :
  rounds false (fun a => a * Zpos q <= Zpos m * 2 ^ 1074)%Z (fun b => Zpos m * 2 ^ 1074 <= b * Zpos q)%Z
    (of_frac (Zpos m) q).
Proof.
  pose proof (SFdiv_rounds m 0 q 0 ltac:(lia) ltac:(lia) false false) as (Hv & Hs & Hup & Hlo).
  assert (0 < 2 ^ 1074) by (by apply pow2_pos). unfold mval in *. rewrite Z.add_0_l in *.
  cbn [SFdiv xorb] in *. change (of_frac (Zpos m) q) with
    (let '(mz, ez, lz) := SFdiv_core_binary 53 1024 (Z.pos m) 0 (Z.pos q) 0 in
     binary_round_aux 53 1024 false mz ez lz).
  split_and!; try done.
  - intros b Hb Hle. apply Hup; [done|]. nia.
  - intros a Ha Hle. apply Hlo; [done|]. nia.
Qed.

Lemma of_frac_exact m q B : valid B -> is_finite B = true -> (0 < ival B)%Z ->
  (ival B * Zpos q = Zpos m * 2 ^ 1074)%Z -> of_frac (Zpos m) q = B.
Proof.
  intros HB FB Hp Heq. pose proof (of_frac_rounds m q) as Hr.
  destruct (rounds_between _ _ _ _ B B Hr) as [Hf Hi]; try done.
  { intros _. split_and!; [right|..]; lia. }
  apply ival_inj; try done; [by apply Hr| |lia].
  destruct Hr as (_ & -> & _). destruct B as [| | |s m' e']; try done. cbn in Hp.
  destruct HB as [Hc _]. pose proof (mval_pos _ _ Hc). by destruct s; [lia|].
Qed.

Lemma leb_not_ltb x y : (x <=? y) = true -> (y <? x) = false.
Proof.
  unfold leb, ltb, SFleb, SFltb. rewrite (SFcompare_antisym x y). by destruct (SFcompare x y) as [[]|].
Qed.

(** A value at or above the upper bound is clamped to it. *)
Lemma clamp_top hi x : 0 < hi < 2 ^ 53 -> (#hi <=? x) = true -> min (#hi) (max (#0) x) = #hi.
Proof.
  intros Hhi Hle. pose proof (of_Z_finite hi ltac:(lia)) as Hf. pose proof (of_Z_sign hi ltac:(lia)) as Hs.
  pose proof (of_Z_ival hi ltac:(lia)) as Hi.
  destruct (Z.ltb_spec hi 0) as [|_]; [lia|]. destruct (#hi) as [| | |[] m e] eqn:E; try done; [cbn in Hi; lia|].
  assert (Hn : isNaN x = false) by (by destruct x).
  assert (Hp : (#0 <? x) = true) by (by destruct x as [|[]| |[]]).
  rewrite max_0_pos by done. unfold min. rewrite Hn. cbn [isNaN orb].
  destruct (S754_finite false m e <? x); [done|]. rewrite (leb_not_ltb _ _ Hle).
  by destruct x as [[]| | |].
Qed.

(** [round] keeps the positive sign. *)
Lemma round_sign x : sign x = Some false -> sign (round x) = Some false.
Proof.
  destruct x as [s| | |s m e]; try done. cbn [sign]. intros [= ->]. cbn [round].
  destruct (Z.leb_spec 0 e); [done|]. unfold integral. pose proof (pow2_pos (- e) ltac:(lia)).
  assert (0 <= (2 * signed false m + 2 ^ (- e)) / 2 ^ (1 - e))%Z.
  { apply Z.div_pos; [cbn; lia|apply pow2_pos; lia]. }
  destruct (Z.eqb_spec ((2 * signed false m + 2 ^ (- e)) / 2 ^ (1 - e))%Z 0); [done|].
  destruct ((2 * signed false m + 2 ^ (- e)) / 2 ^ (1 - e))%Z as [|p|p]; [lia| |lia].
  by eapply rounds_valid, binary_round_rounds.
Qed.

Lemma max_valid x y : valid x -> valid y -> valid (max x y).
Proof. intros. unfold max. by repeat case_match. Qed.

Lemma min_valid x y : valid x -> valid y -> valid (min x y).
Proof. intros. unfold min. by repeat case_match. Qed.

#[export] Hint Resolve max_valid min_valid : hostpin.

(** ** Lemmas: [toFixed] *)

Lemma frac_of_spec m e : canonical m e ->
  let '(p, q) := frac_of m e in (0 < p /\ 0 < q /\ mval m e * q = p * 2 ^ 1074)%Z.
Proof.
  intros Hc%canonical_emin. unfold frac_of, mval. destruct (Z.leb_spec 0 e).
  - pose proof (pow2_pos e ltac:(lia)). rewrite pow2_split by lia. lia.
  - pose proof (pow2_pos (- e) ltac:(lia)). split_and!; [lia..|].
    rewrite <- Z.mul_assoc, <- pow2_split by lia. do 2 f_equal. lia.
Qed.

(** Printing a positive safe integer without decimals and reading it back. *)
Lemma toFixed_number_of_Z n : 0 < n < 2 ^ 53 -> toFixed_number (#n) 0 = #n.
Proof.
  intros Hn. destruct (of_Z_spec n ltac:(lia)) as (Hv & Hf & Hi). pose proof (of_Z_sign n ltac:(lia)) as Hs.
  assert (Hlt : Z.ltb n 0 = false) by (apply Z.ltb_ge; lia). rewrite Hlt in Hs.
  destruct (#n) as [s| | |s m e] eqn:E; try done; [cbn in Hi; lia|].
  injection Hs as ->. destruct Hv as [Hc Hle]. pose proof (frac_of_spec m e Hc) as Hfr.
  unfold toFixed_number, fixed_int. destruct (frac_of m e) as [p q]. destruct Hfr as (Hp & Hq & Hpq).
  assert (0 < 2 ^ 1074) by (by apply pow2_pos). cbn [ival] in Hi.
  assert (Hpn : (p = n * q)%Z) by nia. change (Z.of_nat 0) with 0. change (10 ^ 0)%Z with 1%Z.
  destruct (Z.leb_spec (10 ^ 21 * q) p); [nia|].
  assert (Hk : ((2 * p * 1 + q) / (2 * q) = n)%Z).
  { symmetry. apply (Z.div_unique_pos _ _ _ q); lia. }
  rewrite Hk. destruct (Z.eqb_spec n 0); [lia|]. destruct n as [|k|k]; try lia.
  apply of_frac_exact; try done; cbn [ival]; lia.
Qed.

(** ** Equality of numbers is symmetric, and equal numbers equal the same ones *)

Lemma eqb_class a b c : eqb a b = true -> eqb a c = eqb b c.
Proof.
  unfold eqb, SFeqb. intros H.
  enough (a = b \/ exists s s', a = S754_zero s /\ b = S754_zero s') as [->|(s & s' & -> & ->)]; [done|by destruct c|].
  destruct a as [s|s| |s m e], b as [s'|s'| |s' m' e']; cbn in *; try (destruct s, s'); try done; eauto 10.
  - left. destruct (Z.compare_spec e e') as [->| |]; try done.
    destruct (Pos.compare_cont Eq m m') eqn:Em; try done. apply Pos.compare_eq in Em. by subst.
  - left. destruct (Z.compare_spec e e') as [->| |]; try done.
    destruct (Pos.compare_cont Eq m m') eqn:Em; try done. apply Pos.compare_eq in Em. by subst.
Qed.

Lemma eqb_comm a b : eqb a b = eqb b a.
Proof.
  unfold eqb. destruct (SFeqb a b) eqn:E.
  - pose proof (eqb_class a b a E) as H. unfold eqb in H. rewrite <- H.
    destruct a as [| | |s m e]; cbn in *; try done; [by destruct s|].
    unfold SFeqb. cbn. rewrite Z.compare_refl, Pos.compare_cont_refl. by destruct s.
  - destruct (SFeqb b a) eqn:E'; [|done]. pose proof (eqb_class b a b E') as H. unfold eqb in H. rewrite E in H. rewrite <- H.
    destruct b as [| | |s m e]; cbn in *; try done; [by destruct s|].
    unfold SFeqb. cbn. rewrite Z.compare_refl, Pos.compare_cont_refl. by destruct s.
Qed.
