(* ===== verification/JsInteger.v ===== *)
(** * JsInteger: integer division in binary64

    The source computes quotients and remainders of integers with [Math.floor],
    [Math.round], [/] and [%].  The lemmas give the range in which the rounded
    quotient cannot cross an integer (or a half), so that the result is the
    integer one. *)

From S2P Require Import Prelude JsString Binary64 JsNumber.

Open Scope Z_scope.
Open Scope num_scope.

(** A positive number is determined by its value, zero included. *)
Lemma of_Z_unique x n : valid x -> is_finite x = true -> sign x = Some false -> 0 <= n < 2 ^ 53 ->
  ival x = (n * 2 ^ 1074)%Z -> x = #n.
Proof.
  intros Hv Hf Hs Hn Hi. apply ival_inj; auto with hostpin.
  - rewrite of_Z_sign by lia. rewrite Hs. f_equal. symmetry. apply Z.ltb_ge. lia.
  - by rewrite of_Z_ival by lia.
Qed.

Lemma of_Z_pos_sign n : 0 <= n < 2 ^ 53 -> sign (#n) = Some false.
Proof. intros. rewrite of_Z_sign by lia. f_equal. apply Z.ltb_ge. lia. Qed.

Lemma div_sign x y : valid x -> valid y -> is_finite x = true -> is_finite y = true -> ival y <> 0 ->
  sign x = Some false -> sign y = Some false -> sign (x / y) = Some false.
Proof.
  destruct x as [sx| | |sx m1 e1], y as [sy| | |sy m2 e2]; cbn [is_finite sign ival]; try done;
    intros Hx Hy _ _ _ [= ->] [= ->]; [done|]. destruct Hx as [H1 L1], Hy as [H2 L2].
  pose proof (canonical_emin _ _ H1). pose proof (canonical_emin _ _ H2).
  by eapply (rounds_valid false), (SFdiv_rounds m1 e1 m2 e2).
Qed.

Lemma floor_sign x : sign x = Some false -> sign (floor x) = Some false.
Proof.
  destruct x as [s| | |s m e]; try done. cbn [sign]. intros [= ->]. cbn [floor].
  destruct (Z.leb_spec 0 e); [done|]. unfold integral. pose proof (pow2_pos (- e) ltac:(lia)).
  assert (0 <= signed false m / 2 ^ (- e))%Z by (apply Z.div_pos; cbn; lia).
  destruct (Z.eqb_spec (signed false m / 2 ^ (- e)) 0); [done|].
  destruct (signed false m / 2 ^ (- e))%Z as [|p|p]; [lia| |lia].
  by eapply rounds_valid, binary_round_rounds.
Qed.

(** A quotient of integers lies between two representable numbers that enclose
    the exact one. *)
Lemma div_between n d a b k : 0 <= n < 2 ^ 53 -> 0 < d < 2 ^ 53 -> 0 <= k <= 1000 ->
  Z.abs a < 2 ^ 53 -> Z.abs b < 2 ^ 53 -> (a * d <= n * 2 ^ k <= b * d)%Z ->
  let x := #n / #d in
  valid x /\ is_finite x = true /\ sign x = Some false /\
  (a * 2 ^ (1074 - k) <= ival x <= b * 2 ^ (1074 - k))%Z.
Proof.
  intros Hn Hd Hk Ha Hb Hab x. assert (0 < 2 ^ 1074)%Z by (by apply pow2_pos).
  destruct (repr_signed a (- k) Ha ltac:(lia)) as (A & VA & FA & IA).
  destruct (repr_signed b (- k) Hb ltac:(lia)) as (B & VB & FB & IB).
  replace (- k + 1074)%Z with (1074 - k)%Z in IA, IB by lia.
  assert (Hs : (2 ^ 1074 = 2 ^ (1074 - k) * 2 ^ k)%Z) by (rewrite <- pow2_split by lia; f_equal; lia).
  pose proof (pow2_pos (1074 - k) ltac:(lia)). pose proof (pow2_pos k ltac:(lia)).
  destruct (div_bounds (#n) (#d) A B) as [Hf Hi]; auto with hostpin.
  - rewrite of_Z_ival by lia. nia.
  - rewrite !of_Z_ival, IA, IB by lia. set (p := (2 ^ (1074 - k))%Z) in *. set (q := (2 ^ 1074)%Z) in *.
    replace (n * q * q)%Z with (n * 2 ^ k * (p * q))%Z by (rewrite Hs; lia).
    replace (a * p * (d * q))%Z with (a * d * (p * q))%Z by lia.
    replace (b * p * (d * q))%Z with (b * d * (p * q))%Z by lia.
    assert (0 < p * q)%Z by nia. split; apply Z.mul_le_mono_nonneg_r; lia.
  - rewrite IA, IB in Hi. fold x in Hf, Hi. split_and!; [unfold x; auto with hostpin|done| |lia..].
    apply div_sign; auto with hostpin; try (apply of_Z_pos_sign; lia).
    rewrite of_Z_ival by lia. nia.
Qed.

(** [Math.floor(n / d)] is the integer quotient as long as [(n / d + 1) * 2 ^ k]
    fits in 53 bits for a power of two [2 ^ k] not below [d]. *)
Lemma floor_div n d k : 0 <= n < 2 ^ 53 -> 0 <= k <= 1000 -> 0 < d < 2 ^ 53 -> d <= 2 ^ k ->
  (n / d + 1) * 2 ^ k <= 2 ^ 53 -> floor (#n / #d) = #(n / d).
Proof.
  intros Hn Hk Hd Hdk Hq. set (q := (n / d)%Z) in *.
  pose proof (Z.div_mod n d ltac:(lia)) as Hdm. pose proof (Z.mod_pos_bound n d ltac:(lia)). fold q in Hdm.
  assert (0 <= q) by (apply Z.div_pos; lia). assert (0 < 2 ^ 1074)%Z by (by apply pow2_pos).
  destruct (div_between n d (q * 2 ^ k) ((q + 1) * 2 ^ k - 1) k) as (Hv & Hf & Hs & Hi); try done; try nia.
  set (x := #n / #d) in *. destruct (floor_spec x Hv Hf) as (Hvf & Hff & Hif).
  apply of_Z_unique; try done; [by apply floor_sign|nia|]. rewrite Hif. f_equal. symmetry.
  pose proof (pow2_pos (1074 - k) ltac:(lia)).
  assert (Hp : (2 ^ 1074 = 2 ^ k * 2 ^ (1074 - k))%Z) by (rewrite <- pow2_split by lia; f_equal; lia).
  apply (Z.div_unique_pos _ _ _ (ival x - q * 2 ^ 1074)); [|lia]. rewrite Hp. nia.
Qed.

(** [Math.ceil(n / d)] is the quotient rounded up, in the same range. *)
Lemma ceil_div n d k : 0 < n < 2 ^ 53 -> 0 <= k <= 1000 -> 0 < d < 2 ^ 53 -> d <= 2 ^ k ->
  (n + d - 1) / d * 2 ^ k < 2 ^ 53 -> ceil (#n / #d) = #((n + d - 1) / d).
Proof.
  intros Hn Hk Hd Hdk Hq. set (q := ((n + d - 1) / d)%Z) in *.
  pose proof (Z.div_mod (n + d - 1) d ltac:(lia)) as Hdm. pose proof (Z.mod_pos_bound (n + d - 1) d ltac:(lia)). fold q in Hdm.
  assert (1 <= q) by (apply Z.div_le_lower_bound; lia). assert (0 < 2 ^ 1074)%Z by (by apply pow2_pos).
  destruct (div_between n d ((q - 1) * 2 ^ k + 1) (q * 2 ^ k) k) as (Hv & Hf & Hs & Hi); try done; try nia.
  set (x := #n / #d) in *. destruct (ceil_spec x Hv Hf) as (Hvf & Hff & Hif).
  apply ival_of_Z; try done; [nia|lia|]. rewrite Hif. f_equal.
  pose proof (pow2_pos (1074 - k) ltac:(lia)).
  assert (Hp : (2 ^ 1074 = 2 ^ k * 2 ^ (1074 - k))%Z) by (rewrite <- pow2_split by lia; f_equal; lia).
  rewrite <- (Z.div_unique_pos (- ival x) (2 ^ 1074) (- q) (q * 2 ^ 1074 - ival x)); [lia| |lia]. rewrite Hp. nia.
Qed.

(** [Math.round(n / d)] is the nearest integer, halves upwards, in the same
    range. *)
Lemma round_div n d k : 0 <= n < 2 ^ 53 -> 0 <= k <= 900 -> 0 < d < 2 ^ 53 -> d <= 2 ^ k ->
  (2 * ((2 * n + d) / (2 * d)) + 1) * 2 ^ k < 2 ^ 53 -> round (#n / #d) = #((2 * n + d) / (2 * d)).
Proof.
  intros Hn Hk Hd Hdk Hq. set (q := ((2 * n + d) / (2 * d))%Z) in *.
  pose proof (Z.div_mod (2 * n + d) (2 * d) ltac:(lia)) as Hdm.
  pose proof (Z.mod_pos_bound (2 * n + d) (2 * d) ltac:(lia)). fold q in Hdm.
  assert (0 <= q) by (apply Z.div_pos; lia). assert (0 < 2 ^ 1074)%Z by (by apply pow2_pos).
  pose proof (pow2_pos k ltac:(lia)). assert (Hk1 : (2 ^ (k + 1) = 2 * 2 ^ k)%Z) by (rewrite pow2_split by lia; lia).
  destruct (div_between n d ((2 * q - 1) * 2 ^ k) ((2 * q + 1) * 2 ^ k - 1) (k + 1)) as (Hv & Hf & Hs & Hi);
    [done|done|lia|set (P := (2 ^ k)%Z) in *; nia|set (P := (2 ^ k)%Z) in *; nia| |].
  { rewrite Hk1. set (P := (2 ^ k)%Z) in *. set (r := ((2 * n + d) mod (2 * d))%Z) in *. clearbody P q r. split; nia. }
  set (x := #n / #d) in *. destruct (round_spec x Hv Hf) as (Hvf & Hff & Hif).
  apply of_Z_unique; try done; [by apply round_sign|nia|]. rewrite Hif. f_equal. symmetry.
  pose proof (pow2_pos (1074 - (k + 1)) ltac:(lia)).
  assert (Hp : (2 ^ 1074 = 2 ^ (k + 1) * 2 ^ (1074 - (k + 1)))%Z) by (rewrite <- pow2_split by lia; f_equal; lia).
  assert (Hp' : (2 ^ 1075 = 2 * 2 ^ 1074)%Z) by (by rewrite <- Z.pow_succ_r by lia).
  apply (Z.div_unique_pos _ _ _ (2 * ival x + 2 ^ 1074 - q * 2 ^ 1075)); [|lia]. rewrite Hp', Hp, Hk1. nia.
Qed.

(** [a % b] on integers. *)
Lemma rem_of_Z a b : 0 <= a < 2 ^ 53 -> 0 < b < 2 ^ 53 -> rem (#a) (#b) = #(a mod b).
Proof.
  intros Ha Hb. pose proof (Z.mod_pos_bound a b ltac:(lia)) as Hm.
  destruct (of_Z_spec a) as (Va & Fa & Ia); [lia|]. destruct (of_Z_spec b) as (Vb & Fb & Ib); [lia|].
  pose proof (of_Z_pos_sign a Ha) as Sa. pose proof (of_Z_pos_sign b ltac:(lia)) as Sb.
  assert (0 < 2 ^ 1074)%Z by (by apply pow2_pos).
  destruct (#b) as [sb| | |sb mb eb] eqn:Eb; try done; [cbn in Ib; nia|].
  destruct (Z.eq_dec a 0) as [->|Ha0]; [done|].
  destruct (#a) as [sa| | |sa ma ea] eqn:Ea; try done; [cbn in Ia; nia|].
  cbn in Sa, Sb. injection Sa as ->. injection Sb as ->. cbn [ival] in Ia, Ib.
  destruct Va as [Ca _], Vb as [Cb _]. pose proof (canonical_emin _ _ Ca). pose proof (canonical_emin _ _ Cb).
  cbn [rem]. set (k := Z.min ea eb). set (r := (_ mod _)%Z).
  assert (Hr : (r * 2 ^ (k + 1074) = a mod b * 2 ^ 1074)%Z).
  { pose proof (pow2_pos (k + 1074) ltac:(lia)). unfold r.
    rewrite <- Zmult_mod_distr_r, <- (Zmult_mod_distr_r a b (2 ^ 1074)). f_equal.
    - rewrite <- Ia. unfold mval. rewrite (pow2_rebase ea k 1074) by lia. lia.
    - rewrite <- Ib. unfold mval. rewrite (pow2_rebase eb k 1074) by lia. lia. }
  pose proof (pow2_pos (k + 1074) ltac:(lia)). destruct (Z.eqb_spec r 0) as [->|Hr0].
  - assert (a mod b = 0)%Z as -> by nia. done.
  - destruct (binary_normalize_encl r k false ltac:(lia)) as (Hv & _ & He).
    destruct (He (#(a mod b)) (#(a mod b))) as [Hf Hi]; auto with hostpin; [rewrite of_Z_ival by lia; lia|].
    rewrite of_Z_ival in Hi by lia. apply ival_of_Z; try done; [lia|nia|lia].
Qed.

(** The share [k / n * 100] stays within a percentage, rounding included. *)
Lemma ratio_percent k n : 0 <= k <= n -> 0 < n < 2 ^ 53 ->
  let x := #k / #n * #100 in (#0 <=? x) = true /\ (x <=? #100) = true.
Proof.
  intros Hk Hn x. assert (0 < 2 ^ 1074)%Z by (by apply pow2_pos).
  destruct (div_bounds (#k) (#n) (#0) (#1)) as [Fq Iq]; auto with hostpin;
    [rewrite of_Z_ival by lia; nia|rewrite !of_Z_ival by lia; nia|]. rewrite !of_Z_ival in Iq by lia.
  assert (Vq : valid (#k / #n)) by (apply div_valid; auto with hostpin).
  destruct (mul_bounds (#k / #n) (#100) (#0) (#100)) as [Fx Ix]; auto with hostpin;
    [rewrite !of_Z_ival by lia; nia|]. fold x in Fx, Ix.
  assert (Vx : valid x) by (apply mul_valid; auto with hostpin).
  rewrite !leb_ival_iff by auto with hostpin. done.
Qed.
