(* ===== verification/JsDate.v ===== *)
(** * JsDate: the parts of ECMAScript's Date the client uses

    A time value is a number of milliseconds since 1970 (NaN for an invalid
    date).  [parse] is [new Date(string).getTime()]: the Date Time String Format
    of the standard, with what the standard leaves to the implementation (other
    formats, the local time zone) as parameters. *)

From Stdlib Require Import Strings.String.
From S2P Require Import Prelude JsString Binary64 JsNumber.

Open Scope Z_scope.

Definition msPerDay : Z := 86400000.

(** What the host decides: the offset of a local time value in milliseconds
    (LocalTZA) and the strings outside the standard format. *)
Class DateHost := {
  localTZA : Z -> Z;
  parse_other : jsstr -> num;
}.

(** ** The proleptic Gregorian calendar

    Years are counted from March so that the leap day comes last; an era is 400
    years, 146 097 days. *)

Definition days_from_civil (y m d : Z) : Z :=
  let y' := if m <=? 2 then y - 1 else y in
  let era := y' / 400 in
  let yoe := y' mod 400 in
  let doy := (153 * ((m + 9) mod 12) + 2) / 5 + d - 1 in
  let doe := yoe * 365 + yoe / 4 - yoe / 100 + doy in
  era * 146097 + doe - 719468.

Definition civil_from_days (z : Z) : Z * Z * Z :=
  let z' := z + 719468 in
  let era := z' / 146097 in
  let doe := z' mod 146097 in
  let yoe := (doe - doe / 1460 + doe / 36524 - doe / 146096) / 365 in
  let doy := doe - (365 * yoe + yoe / 4 - yoe / 100) in
  let mp := (5 * doy + 2) / 153 in
  let d := doy - (153 * mp + 2) / 5 + 1 in
  let m := if mp <? 10 then mp + 3 else mp - 9 in
  let y := yoe + era * 400 in
  ((if m <=? 2 then y + 1 else y), m, d).

(** A date of the calendar: it is the one its day number stands for. *)
Definition valid_civil (y m d : Z) : bool :=
  (1 <=? m) && (m <=? 12) && (1 <=? d) && bool_decide (civil_from_days (days_from_civil y m d) = (y, m, d)).

(** ** Reading *)

Definition digit (c : N) : option Z :=
  if ((48 <=? c) && (c <=? 57))%N then Some (Z.of_N c - 48) else None.

Fixpoint digits (n : nat) (s : jsstr) (acc : Z) : option (Z * jsstr) :=
  match n, s with
  | O, _ => Some (acc, s)
  | S n', c :: s' => v ← digit c; digits n' s' (10 * acc + v)
  | S _, [] => None
  end.

Definition expect (c : N) (s : jsstr) : option jsstr :=
  match s with b :: s' => if (b =? c)%N then Some s' else None | [] => None end.

(** The time of day in milliseconds: [HH:mm], [HH:mm:ss] or [HH:mm:ss.sss]. *)
Definition read_time (s : jsstr) : option (Z * jsstr) :=
  '(h, s) ← digits 2 s 0; s ← expect 58 s; '(mi, s) ← digits 2 s 0;
  if negb ((h <=? 23) && (mi <=? 59)) then None else
  match expect 58 s with
  | None => Some ((h * 60 + mi) * 60000, s)
  | Some s => '(sec, s) ← digits 2 s 0;
      if negb (sec <=? 59) then None else
      match expect 46 s with
      | None => Some ((h * 60 + mi) * 60000 + sec * 1000, s)
      | Some s => '(ms, s) ← digits 3 s 0; Some ((h * 60 + mi) * 60000 + sec * 1000 + ms, s)
      end
  end.

(** [Z], [+HH:mm] or [-HH:mm] at the end of the string; nothing is local time. *)
Definition read_zone `{DateHost} (s : jsstr) (t : Z) : option Z :=
  match s with
  | [] => Some (t - localTZA t)
  | c :: s' =>
      if (c =? 90)%N then match s' with [] => Some t | _ => None end
      else if (c =? 43)%N || (c =? 45)%N then
        '(h, s) ← digits 2 s' 0; s ← expect 58 s; '(mi, s) ← digits 2 s 0;
        match s with
        | [] => if (h <=? 23) && (mi <=? 59)
                then let o := (h * 60 + mi) * 60000 in Some (if (c =? 43)%N then t - o else t + o)
                else None
        | _ => None
        end
      else None
  end.

(** The standard format with a four-digit year; a date alone is UTC. *)
Definition parseISO `{DateHost} (s : jsstr) : option Z :=
  '(y, s) ← digits 4 s 0; s ← expect 45 s; '(m, s) ← digits 2 s 0; s ← expect 45 s;
  '(d, s) ← digits 2 s 0;
  if negb (valid_civil y m d) then None else
  let t := days_from_civil y m d * msPerDay in
  match s with
  | [] => Some t
  | _ => s ← expect 84 s; '(time, s) ← read_time s; read_zone s (t + time)
  end.

Definition parse `{DateHost} (s : jsstr) : num :=
  match parseISO s with Some t => of_Z t | None => parse_other s end.

(** ** Writing *)

Fixpoint pad (n : nat) (v : Z) : jsstr :=
  match n with
  | O => []
  | S n' => (pad n' (v / 10) ++ [48 + Z.to_N (v mod 10)]%N)%list
  end.

(** [toISOString] of a valid time value: a year outside 0..9999 has a sign and
    six digits. *)
Definition toISOString (t : Z) : jsstr :=
  let '(y, m, d) := civil_from_days (t / msPerDay) in
  let ms := t mod msPerDay in
  let year := if (0 <=? y) && (y <=? 9999) then pad 4 y
              else ((if y <? 0 then [45%N] else [43%N]) ++ pad 6 (Z.abs y))%list in
  (year ++ 45%N :: pad 2 m ++ 45%N :: pad 2 d ++ 84%N :: pad 2 (ms / 3600000) ++ 58%N ::
   pad 2 (ms / 60000 mod 60) ++ 58%N :: pad 2 (ms / 1000 mod 60) ++ 46%N :: pad 3 (ms mod 1000) ++ [90%N])%list.

(** [date.toISOString()] of a time value that is a number: [None] is the
    RangeError for an invalid date or one beyond the range of time values. *)
Definition Date_toISOString (t : num) : option jsstr :=
  match to_Z t with
  | Some n => if Z.abs n <=? 8640000000000000 then Some (toISOString n) else None
  | None => None
  end.

(** ** The calendar is a bijection *)

Fixpoint all_below (n : nat) (p : Z -> bool) (from : Z) : bool :=
  match n with O => true | S n' => p from && all_below n' p (from + 1) end.

Lemma all_below_spec p n : forall from, all_below n p from = true ->
  forall i, from <= i < from + Z.of_nat n -> p i = true.
Proof.
  induction n as [|n IH]; intros from H i Hi; [lia|]. cbn in H. apply andb_true_iff in H as [H0 H].
  destruct (Z.eq_dec i from) as [->|]; [done|]. apply (IH (from + 1)); [done|lia].
Qed.

(** The year of a day of an era: the formula is monotone, so it is enough to
    look at the first and the last day of each of the 400 years. *)
Definition year_days (yoe : Z) : Z := 365 * yoe + yoe / 4 - yoe / 100.
Definition year_num (doe : Z) : Z := doe - doe / 1460 + doe / 36524 - doe / 146096.

Lemma year_num_step a : 0 <= a -> year_num a <= year_num (a + 1).
Proof. unfold year_num. intros. Z.to_euclidean_division_equations. lia. Qed.

Lemma year_num_mono a b : 0 <= a <= b -> year_num a <= year_num b.
Proof.
  intros [Ha Hb]. revert b Hb. apply Zlt_lower_bound_ind. intros b IH Hb.
  destruct (Z.eq_dec a b) as [->|]; [lia|]. pose proof (IH (b - 1) ltac:(lia)).
  pose proof (year_num_step (b - 1) ltac:(lia)). replace (b - 1 + 1) with b in * by lia. lia.
Qed.

Definition year_ok (yoe : Z) : bool :=
  let last := if yoe =? 399 then 146096 else year_days (yoe + 1) - 1 in
  (365 * yoe <=? year_num (year_days yoe)) && (year_num last <? 365 * (yoe + 1))
  && (last - year_days yoe <=? 365).

Lemma years_ok : all_below 400 year_ok 0 = true.
Proof. vm_compute. reflexivity. Qed.

(** The year found for a day contains the day. *)
Lemma year_of_day doe : 0 <= doe < 146097 ->
  let yoe := year_num doe / 365 in 0 <= yoe < 400 /\ 0 <= doe - year_days yoe <= 365.
Proof.
  intros Hd yoe. assert (H0 : 0 <= year_num doe) by (apply (year_num_mono 0); lia).
  assert (H1 : year_num doe <= year_num 146096) by (apply year_num_mono; lia).
  change (year_num 146096) with 145999 in H1. pose proof (Z.div_mod (year_num doe) 365 ltac:(lia)) as Hdm.
  pose proof (Z.mod_pos_bound (year_num doe) 365 ltac:(lia)). fold yoe in Hdm.
  assert (Hy : 0 <= yoe < 400) by lia. split; [done|].
  pose proof (all_below_spec _ _ _ years_ok yoe ltac:(lia)) as Hok. unfold year_ok in Hok.
  rewrite !andb_true_iff, !Z.leb_le, Z.ltb_lt in Hok. destruct Hok as [[Hlo Hhi] Hlen].
  assert (Hd0 : forall y, 0 <= y -> 0 <= year_days y) by (intros; unfold year_days; Z.to_euclidean_division_equations; lia).
  assert (year_days yoe <= doe).
  { destruct (Z.le_gt_cases (year_days yoe) doe) as [|Hgt]; [done|]. exfalso.
    destruct (Z.eq_dec yoe 0) as [E|]; [rewrite E in Hgt; change (year_days 0) with 0 in Hgt; lia|].
    pose proof (all_below_spec _ _ _ years_ok (yoe - 1) ltac:(lia)) as Hp. unfold year_ok in Hp.
    rewrite !andb_true_iff, !Z.leb_le, Z.ltb_lt in Hp. destruct Hp as [[_ Hp] _].
    destruct (Z.eqb_spec (yoe - 1) 399); [lia|]. replace (yoe - 1 + 1) with yoe in Hp by lia.
    pose proof (year_num_mono doe (year_days yoe - 1) ltac:(lia)). lia. }
  destruct (Z.eqb_spec yoe 399) as [E|]; [lia|].
  destruct (Z.le_gt_cases doe (year_days (yoe + 1) - 1)); [lia|]. exfalso.
  pose proof (all_below_spec _ _ _ years_ok (yoe + 1) ltac:(lia)) as Hn. unfold year_ok in Hn.
  rewrite !andb_true_iff, !Z.leb_le, Z.ltb_lt in Hn. destruct Hn as [[Hn _] _].
  pose proof (year_num_mono (year_days (yoe + 1)) doe ltac:(pose proof (Hd0 (yoe + 1)); lia)). lia.
Qed.

(** The month and day of a day of the year. *)
Definition month_ok (doy : Z) : bool :=
  let mp := (5 * doy + 2) / 153 in
  let d := doy - (153 * mp + 2) / 5 + 1 in
  let m := if mp <? 10 then mp + 3 else mp - 9 in
  (1 <=? m) && (m <=? 12) && (1 <=? d) && (d <=? 31) && ((m + 9) mod 12 =? mp).

Lemma months_ok : all_below 366 month_ok 0 = true.
Proof. vm_compute. reflexivity. Qed.

Lemma civil_days z : let '(y, m, d) := civil_from_days z in
  days_from_civil y m d = z /\ 1 <= m <= 12 /\ 1 <= d <= 31.
Proof.
  unfold civil_from_days. set (era := (z + 719468) / 146097). set (doe := (z + 719468) mod 146097).
  fold (year_num doe). set (yoe := year_num doe / 365). fold (year_days yoe).
  set (doy := doe - year_days yoe). set (mp := (5 * doy + 2) / 153).
  set (m := if mp <? 10 then mp + 3 else mp - 9).
  assert (Hd : 0 <= doe < 146097) by (apply Z.mod_pos_bound; lia).
  destruct (year_of_day doe Hd) as [Hy Hr]. fold yoe in Hy, Hr. fold doy in Hr.
  pose proof (all_below_spec _ _ _ months_ok doy ltac:(lia)) as Hok. unfold month_ok in Hok. fold mp in Hok. fold m in Hok.
  rewrite !andb_true_iff, !Z.leb_le, Z.eqb_eq in Hok. destruct Hok as [Hm12 Hmp].
  split; [|lia]. unfold days_from_civil.
  replace (if m <=? 2 then (if m <=? 2 then yoe + era * 400 + 1 else yoe + era * 400) - 1
           else (if m <=? 2 then yoe + era * 400 + 1 else yoe + era * 400))
    with (yoe + era * 400) by (destruct (m <=? 2); lia).
  rewrite Z.div_add, Z.mod_add, Z.div_small, Z.mod_small, Hmp by lia.
  pose proof (Z.div_mod (z + 719468) 146097 ltac:(lia)) as E. fold era in E. fold doe in E.
  unfold doy, year_days in *. lia.
Qed.

(** ** Round trip of the format *)

Lemma pad_2 v : 0 <= v < 100 -> pad 2 v = [48 + Z.to_N (v / 10 mod 10); 48 + Z.to_N (v mod 10)]%N.
Proof. done. Qed.

Lemma digit_of v : 0 <= v <= 9 -> digit (48 + Z.to_N v) = Some v.
Proof.
  intros H. unfold digit. destruct (N.leb_spec 48 (48 + Z.to_N v)), (N.leb_spec (48 + Z.to_N v) 57); try lia.
  cbn. f_equal. lia.
Qed.

Lemma digits_pad n : forall v acc s, 0 <= v < 10 ^ Z.of_nat n ->
  digits n (pad n v ++ s) acc = Some (acc * 10 ^ Z.of_nat n + v, s).
Proof.
  assert (Hsnoc : forall n s' acc a c, digits n s' acc = Some (a, [c]) ->
    forall t v, digit c = Some v -> digits (S n) (s' ++ t) acc = Some (10 * a + v, t)).
  { clear. induction n as [|n IH]; intros s' acc a c.
    - cbn. intros [= -> ->] t v Hv. cbn. by rewrite Hv.
    - destruct s' as [|b s']; [done|]. cbn [digits]. destruct (digit b) as [w|] eqn:Eb; [|done].
      cbn [mbind option_bind]. intros H t v Hv. change ((b :: s') ++ t)%list with (b :: (s' ++ t)%list).
      cbn [digits]. rewrite Eb. cbn [mbind option_bind]. by eapply IH. }
  induction n as [|n IH]; intros v acc s Hv.
  - cbn in *. assert (v = 0) as -> by lia. do 2 f_equal. lia.
  - cbn [pad]. rewrite Nat2Z.inj_succ, Z.pow_succ_r in * by lia.
    assert (0 <= v / 10 < 10 ^ Z.of_nat n) by (split; [apply Z.div_pos|apply Z.div_lt_upper_bound]; lia).
    pose proof (Z.mod_pos_bound v 10 ltac:(lia)). pose proof (Z.div_mod v 10 ltac:(lia)).
    rewrite (Hsnoc n (pad n (v / 10) ++ [48 + Z.to_N (v mod 10)]%N)%list acc
               (acc * 10 ^ Z.of_nat n + v / 10) (48 + Z.to_N (v mod 10))%N (IH (v / 10) acc [48 + Z.to_N (v mod 10)]%N ltac:(lia)) s (v mod 10)).
    + do 2 f_equal. lia.
    + apply digit_of. lia.
Qed.

(** The time of day in its fields. *)
Lemma time_fields ms : 0 <= ms < msPerDay ->
  (ms / 3600000 * 60 + ms / 60000 mod 60) * 60000 + ms / 1000 mod 60 * 1000 + ms mod 1000 = ms /\
  0 <= ms / 3600000 <= 23 /\ 0 <= ms / 60000 mod 60 <= 59 /\ 0 <= ms / 1000 mod 60 <= 59 /\ 0 <= ms mod 1000 < 1000.
Proof. unfold msPerDay. intros. Z.to_euclidean_division_equations. lia. Qed.

Lemma digits_pad0 n v s : 0 <= v < 10 ^ Z.of_nat n -> digits n (pad n v ++ s) 0 = Some (v, s).
Proof. intros. by rewrite digits_pad. Qed.

Lemma expect_same c s : expect c (c :: s) = Some s.
Proof. cbn. by rewrite N.eqb_refl. Qed.

Lemma leb_true a b : a <= b -> (a <=? b) = true.
Proof. apply Z.leb_le. Qed.

(** Read the next field written by [pad] or the next separator. *)
Ltac read_field :=
  first [rewrite digits_pad0 by (cbn; lia) | rewrite expect_same | rewrite leb_true by lia];
  cbn [mbind option_bind andb negb].

Lemma read_time_pad h mi sec ms s : 0 <= h <= 23 -> 0 <= mi <= 59 -> 0 <= sec <= 59 -> 0 <= ms < 1000 ->
  read_time (pad 2 h ++ 58%N :: pad 2 mi ++ 58%N :: pad 2 sec ++ 46%N :: pad 3 ms ++ s)%list
  = Some ((h * 60 + mi) * 60000 + sec * 1000 + ms, s).
Proof. intros. unfold read_time. repeat read_field. done. Qed.

(** The years of the four-digit format. *)
Lemma year_range z : days_from_civil 0 1 1 <= z < days_from_civil 10000 1 1 ->
  0 <= (civil_from_days z).1.1 <= 9999.
Proof.
  change (days_from_civil 0 1 1) with (-719528). change (days_from_civil 10000 1 1) with 2932897.
  intros Hz. unfold civil_from_days. set (era := (z + 719468) / 146097). set (doe := (z + 719468) mod 146097).
  fold (year_num doe). set (yoe := year_num doe / 365). fold (year_days yoe).
  assert (Hd : 0 <= doe < 146097) by (apply Z.mod_pos_bound; lia).
  pose proof (Z.div_mod (z + 719468) 146097 ltac:(lia)) as E. fold era in E. fold doe in E.
  destruct (year_of_day doe Hd) as [Hy Hr]. fold yoe in Hy, Hr.
  set (mp := (5 * (doe - year_days yoe) + 2) / 153).
  assert (Hedge : 146037 <= doe -> yoe = 399 /\ (mp <? 10) = false).
  { intros He. assert (Hyoe : yoe = 399).
    { pose proof (year_num_mono 146037 doe ltac:(lia)). pose proof (year_num_mono doe 146096 ltac:(lia)).
      change (year_num 146037) with 145940 in *. change (year_num 146096) with 145999 in *.
      symmetry. apply (Z.div_unique_pos _ _ _ (year_num doe - 365 * 399)); lia. }
    split; [done|]. apply Z.ltb_ge. unfold mp. rewrite Hyoe. change (year_days 399) with 145731.
    apply Z.div_le_lower_bound; lia. }
  assert (Hedge' : yoe = 399 -> doe < 146037 -> (mp <? 10) = true).
  { intros Hyoe He. apply Z.ltb_lt. unfold mp. rewrite Hyoe. change (year_days 399) with 145731.
    apply Z.div_lt_upper_bound; lia. }
  assert (Hmp : 0 <= mp < 12) by (unfold mp; split; [apply Z.div_pos|apply Z.div_lt_upper_bound]; lia).
  cbn [fst]. destruct (Z.le_gt_cases 146037 doe) as [Hge|Hlt].
  - destruct (Hedge Hge) as [Hyo ->]. destruct (Z.leb_spec (mp - 9) 2); lia.
  - destruct (mp <? 10) eqn:Emp.
    + apply Z.ltb_lt in Emp. destruct (Z.leb_spec (mp + 3) 2); lia.
    + assert (yoe <> 399) by (intros Hc; specialize (Hedge' Hc Hlt); congruence).
      destruct (Z.leb_spec (mp - 9) 2); lia.
Qed.

Definition four_digit_year (t : Z) : Prop :=
  days_from_civil 0 1 1 * msPerDay <= t < days_from_civil 10000 1 1 * msPerDay.

(** [new Date(t).toISOString()] parses back to [t] for the years 0 to 9999. *)
Lemma parseISO_toISOString `{DateHost} t : four_digit_year t -> parseISO (toISOString t) = Some t.
Proof.
  intros Ht. unfold toISOString. pose proof (civil_days (t / msPerDay)) as Hc.
  pose proof (Z.div_mod t msPerDay ltac:(done)) as Hdm. pose proof (Z.mod_pos_bound t msPerDay ltac:(done)) as Hms.
  assert (Hy : 0 <= (civil_from_days (t / msPerDay)).1.1 <= 9999).
  { apply year_range. unfold four_digit_year, msPerDay in *. split; [apply Z.div_le_lower_bound|apply Z.div_lt_upper_bound]; lia. }
  destruct (civil_from_days (t / msPerDay)) as [[y m] d] eqn:E. cbn [fst] in Hy. destruct Hc as (Hdays & Hm & Hd).
  rewrite !leb_true by lia. cbn [andb]. set (ms := t mod msPerDay) in *.
  destruct (time_fields ms ltac:(lia)) as (Hsum & Hh & Hmi & Hs & Hz).
  assert (Hv : valid_civil y m d = true).
  { unfold valid_civil. rewrite !leb_true by lia. apply bool_decide_eq_true. by rewrite Hdays, E. }
  unfold parseISO. do 5 read_field. rewrite Hv, Hdays. cbn [negb].
  rewrite expect_same. cbn [mbind option_bind].
  rewrite read_time_pad by lia. cbn [mbind option_bind read_zone]. f_equal. lia.
Qed.

(** Without the [Z] the same digits are a local time. *)
Lemma read_time_minutes h mi s : 0 <= h <= 23 -> 0 <= mi <= 59 ->
  expect 58 s = None ->
  read_time (pad 2 h ++ 58%N :: pad 2 mi ++ s)%list = Some ((h * 60 + mi) * 60000, s).
Proof. intros ? ? Hs. unfold read_time. repeat read_field. by rewrite Hs. Qed.

(** The date and time to the minute, [toISOString().slice(0, 16)], is read as
    local time: the time value to the minute, less the local offset. *)
Lemma parseISO_slice16 `{DateHost} t : four_digit_year t ->
  let t' := t - t mod 60000 in
  parseISO (slice (toISOString t) 0 16) = Some (t' - localTZA t').
Proof.
  intros Ht t'. unfold toISOString. pose proof (civil_days (t / msPerDay)) as Hc.
  pose proof (Z.div_mod t msPerDay ltac:(done)) as Hdm. pose proof (Z.mod_pos_bound t msPerDay ltac:(done)) as Hms.
  assert (Hy : 0 <= (civil_from_days (t / msPerDay)).1.1 <= 9999).
  { apply year_range. unfold four_digit_year, msPerDay in *. split; [apply Z.div_le_lower_bound|apply Z.div_lt_upper_bound]; lia. }
  destruct (civil_from_days (t / msPerDay)) as [[y m] d] eqn:E. cbn [fst] in Hy. destruct Hc as (Hdays & Hm & Hd).
  rewrite !leb_true by lia. cbn [andb]. set (ms := t mod msPerDay) in *.
  destruct (time_fields ms ltac:(lia)) as (Hsum & Hh & Hmi & Hs & Hz).
  assert (Hv : valid_civil y m d = true).
  { unfold valid_civil. rewrite !leb_true by lia. apply bool_decide_eq_true. by rewrite Hdays, E. }
  assert (Hsl : forall tail, slice (pad 4 y ++ 45%N :: pad 2 m ++ 45%N :: pad 2 d ++ 84%N :: pad 2 (ms / 3600000) ++ 58%N ::
    pad 2 (ms / 60000 mod 60) ++ tail)%list 0 16
    = (pad 4 y ++ 45%N :: pad 2 m ++ 45%N :: pad 2 d ++ 84%N :: pad 2 (ms / 3600000) ++ 58%N :: pad 2 (ms / 60000 mod 60) ++ [])%list)
    by done.
  rewrite Hsl. unfold parseISO. do 5 read_field. rewrite Hv, Hdays. cbn [negb].
  rewrite expect_same. cbn [mbind option_bind].
  rewrite read_time_minutes by (lia || done). cbn [mbind option_bind read_zone].
  assert (Ht' : t' = t / msPerDay * msPerDay + (ms / 3600000 * 60 + ms / 60000 mod 60) * 60000).
  { unfold t'. assert (t mod 60000 = ms mod 60000).
    { rewrite Hdm, Z.add_comm. unfold msPerDay. replace (86400000 * (t / 86400000)) with (t / 86400000 * 1440 * 60000) by lia.
      by rewrite Z.mod_add by lia. }
    rewrite H0. clear - Hdm Hms. unfold msPerDay in *. Z.to_euclidean_division_equations. lia. }
  by rewrite Ht'.
Qed.

(** The date, [toISOString().slice(0, 10)], completed to midnight UTC is the
    beginning of the day. *)
Lemma parseISO_midnight `{DateHost} t : four_digit_year t ->
  parseISO (slice (toISOString t) 0 10 ++ js "T00:00:00Z")%list = Some (t - t mod msPerDay).
Proof.
  intros Ht. unfold toISOString. pose proof (civil_days (t / msPerDay)) as Hc.
  pose proof (Z.div_mod t msPerDay ltac:(done)) as Hdm.
  assert (Hy : 0 <= (civil_from_days (t / msPerDay)).1.1 <= 9999).
  { apply year_range. unfold four_digit_year, msPerDay in *. split; [apply Z.div_le_lower_bound|apply Z.div_lt_upper_bound]; lia. }
  destruct (civil_from_days (t / msPerDay)) as [[y m] d] eqn:E. cbn [fst] in Hy. destruct Hc as (Hdays & Hm & Hd).
  rewrite !leb_true by lia. cbn [andb].
  assert (Hv : valid_civil y m d = true).
  { unfold valid_civil. rewrite !leb_true by lia. apply bool_decide_eq_true. by rewrite Hdays, E. }
  assert (Hsl : forall tail, (slice (pad 4 y ++ 45%N :: pad 2 m ++ 45%N :: pad 2 d ++ tail) 0 10 ++ js "T00:00:00Z")%list
    = (pad 4 y ++ 45%N :: pad 2 m ++ 45%N :: pad 2 d ++ js "T00:00:00Z")%list) by done.
  rewrite Hsl. unfold parseISO. do 5 read_field. rewrite Hv, Hdays. cbn [negb].
  change (js "T00:00:00Z") with (84%N :: js "00:00:00Z"). rewrite expect_same. cbn [mbind option_bind].
  change (read_time (js "00:00:00Z")) with (Some (0, [90%N])). cbn [mbind option_bind read_zone]. f_equal. lia.
Qed.
