(* ===== verification/Uri.v ===== *)
(** * Uri: encodeURIComponent and decodeURIComponent

    The ECMAScript functions on UTF-16 strings: percent-encoding of the UTF-8
    bytes of every code point outside the unreserved set; [None] is a thrown
    URIError (a lone surrogate, a malformed escape). *)

From Stdlib Require Import Strings.String.
From S2P Require Import Prelude JsString.

Open Scope N_scope.

(** Letters, digits and [-_.!~*'()]. *)
Definition unreserved (c : N) : bool :=
  ((65 <=? c) && (c <=? 90)) || ((97 <=? c) && (c <=? 122)) || ((48 <=? c) && (c <=? 57))
  || (c =? 45) || (c =? 95) || (c =? 46) || (c =? 33) || (c =? 126) || (c =? 42) || (c =? 39)
  || (c =? 40) || (c =? 41).

Definition utf8_encode (c : N) : list N :=
  if c <? 128 then [c]
  else if c <? 2048 then [192 + c / 64; 128 + c mod 64]
  else if c <? 65536 then [224 + c / 4096; 128 + c / 64 mod 64; 128 + c mod 64]
  else [240 + c / 262144; 128 + c / 4096 mod 64; 128 + c / 64 mod 64; 128 + c mod 64].

Definition hex (d : N) : N := if d <? 10 then 48 + d else 55 + d.
Definition pct (b : N) : jsstr := [37; hex (b / 16); hex (b mod 16)].

Definition high_surrogate (c : N) : bool := (55296 <=? c) && (c <=? 56319).
Definition low_surrogate (c : N) : bool := (56320 <=? c) && (c <=? 57343).

Fixpoint encodeURIComponent (s : jsstr) : option jsstr :=
  match s with
  | [] => Some []
  | c :: s' =>
      if unreserved c then (cons c) <$> encodeURIComponent s'
      else if low_surrogate c then None
      else if high_surrogate c then
        match s' with
        | d :: s'' => if low_surrogate d
                      then app (utf8_encode ((c - 55296) * 1024 + (d - 56320) + 65536) ≫= pct) <$> encodeURIComponent s''
                      else None
        | [] => None
        end
      else app (utf8_encode c ≫= pct) <$> encodeURIComponent s'
  end.

Definition unhex (c : N) : option N :=
  if (48 <=? c) && (c <=? 57) then Some (c - 48)
  else if (65 <=? c) && (c <=? 70) then Some (c - 55)
  else if (97 <=? c) && (c <=? 102) then Some (c - 87) else None.

(** One escape, [%XX]. *)
Definition read_byte (s : jsstr) : option (N * jsstr) :=
  match s with
  | 37 :: h :: l :: s' => a ← unhex h; b ← unhex l; Some (a * 16 + b, s')
  | _ => None
  end.

(** One continuation byte of a UTF-8 sequence: its six bits. *)
Definition read_cont (s : jsstr) : option (N * jsstr) :=
  '(b, s) ← read_byte s; if (128 <=? b) && (b <=? 191) then Some (b - 128, s) else None.

(** The code point of one escape sequence: no overlong forms, no surrogates,
    nothing above U+10FFFF. *)
Definition read_point (s : jsstr) : option (N * jsstr) :=
  '(b, s) ← read_byte s;
  if b <? 128 then Some (b, s)
  else if (194 <=? b) && (b <=? 223) then
    '(c1, s) ← read_cont s; Some ((b - 192) * 64 + c1, s)
  else if (224 <=? b) && (b <=? 239) then
    '(c1, s) ← read_cont s; '(c2, s) ← read_cont s;
    let p := (b - 224) * 4096 + c1 * 64 + c2 in
    if (p <? 2048) || ((55296 <=? p) && (p <=? 57343)) then None else Some (p, s)
  else if (240 <=? b) && (b <=? 244) then
    '(c1, s) ← read_cont s; '(c2, s) ← read_cont s; '(c3, s) ← read_cont s;
    let p := (b - 240) * 262144 + c1 * 4096 + c2 * 64 + c3 in
    if (p <? 65536) || (1114111 <? p) then None else Some (p, s)
  else None.

(** Every step consumes a code unit, so the length of the string is enough
    fuel. *)
Fixpoint decode_go (fuel : nat) (s : jsstr) : option jsstr :=
  match fuel, s with
  | _, [] => Some []
  | O, _ => None
  | S f, c :: s' =>
      if c =? 37 then '(p, r) ← read_point s; app (utf16_encode p) <$> decode_go f r
      else (cons c) <$> decode_go f s'
  end.

Definition decodeURIComponent (s : jsstr) : option jsstr := decode_go (length s) s.

(** ** Round trip *)

Lemma unhex_hex d : d < 16 -> unhex (hex d) = Some d.
Proof.
  intros H. unfold hex, unhex. destruct (N.ltb_spec d 10).
  - replace ((48 <=? 48 + d) && (48 + d <=? 57)) with true
      by (symmetry; apply andb_true_iff; rewrite !N.leb_le; lia). f_equal. lia.
  - replace ((48 <=? 55 + d) && (55 + d <=? 57)) with false
      by (symmetry; apply andb_false_iff; rewrite !N.leb_gt; lia).
    replace ((65 <=? 55 + d) && (55 + d <=? 70)) with true
      by (symmetry; apply andb_true_iff; rewrite !N.leb_le; lia). f_equal. lia.
Qed.

Lemma read_byte_pct b s : b < 256 -> read_byte (pct b ++ s)%list = Some (b, s).
Proof.
  intros H. unfold pct. cbn [app read_byte].
  rewrite !unhex_hex by (first [apply N.Div0.div_lt_upper_bound|apply N.mod_lt]; lia).
  cbn [mbind option_bind]. do 2 f_equal. pose proof (N.div_mod b 16 ltac:(lia)). lia.
Qed.

Lemma between_true a b c : a <= b <= c -> (a <=? b) && (b <=? c) = true.
Proof. intros. apply andb_true_iff. rewrite !N.leb_le. lia. Qed.

Lemma between_false a b c : b < a \/ c < b -> (a <=? b) && (b <=? c) = false.
Proof. intros. apply andb_false_iff. rewrite !N.leb_gt. lia. Qed.

Lemma read_cont_pct x s : x < 64 -> read_cont (pct (128 + x) ++ s)%list = Some (x, s).
Proof.
  intros. unfold read_cont. rewrite read_byte_pct by lia. cbn [mbind option_bind].
  rewrite between_true by lia. do 2 f_equal. lia.
Qed.

Lemma div64 c : exists q r, c / 64 = q /\ c mod 64 = r /\ c = 64 * q + r /\ r < 64.
Proof.
  exists (c / 64), (c mod 64). split_and!; [done..|apply N.div_mod; lia|apply N.mod_lt; lia].
Qed.

Lemma div_4096 c : c / 4096 = c / 64 / 64.
Proof. by rewrite N.Div0.div_div. Qed.

Lemma div_262144 c : c / 262144 = c / 64 / 64 / 64.
Proof. by rewrite !N.Div0.div_div. Qed.

Ltac read_next :=
  first [rewrite read_cont_pct by lia | rewrite between_true by lia
        | rewrite between_false by lia];
  cbn [mbind option_bind].

(** A code point other than a surrogate is read back. *)
Lemma read_point_encode c s : c <= 1114111 -> c < 55296 \/ 57343 < c ->
  read_point ((utf8_encode c ≫= pct) ++ s)%list = Some (c, s).
Proof.
  intros Hc Hs. unfold utf8_encode, read_point.
  destruct (N.ltb_spec c 128); [|destruct (N.ltb_spec c 2048); [|destruct (N.ltb_spec c 65536)]];
    cbn [mbind list_bind]; rewrite ?app_nil_r, <- ?app_assoc.
  - rewrite read_byte_pct by lia. cbn [mbind option_bind]. by destruct (N.ltb_spec c 128); [|lia].
  - destruct (div64 c) as (h & r & -> & -> & E & Hr). rewrite read_byte_pct by lia. cbn [mbind option_bind].
    destruct (N.ltb_spec (192 + h) 128); [lia|]. repeat read_next. do 2 f_equal. lia.
  - rewrite (div_4096 c). destruct (div64 c) as (q & r & -> & -> & E & Hr).
    destruct (div64 q) as (h & r2 & -> & -> & E2 & Hr2).
    rewrite read_byte_pct by lia. cbn [mbind option_bind]. destruct (N.ltb_spec (224 + h) 128); [lia|].
    repeat read_next. replace ((224 + h - 224) * 4096 + r2 * 64 + r) with c by lia.
    destruct (N.ltb_spec c 2048); [lia|]. done.
  - rewrite (div_262144 c), (div_4096 c). destruct (div64 c) as (q & r & -> & -> & E & Hr).
    destruct (div64 q) as (q2 & r2 & -> & -> & E2 & Hr2). destruct (div64 q2) as (h & r3 & -> & -> & E3 & Hr3).
    rewrite read_byte_pct by lia. cbn [mbind option_bind]. destruct (N.ltb_spec (240 + h) 128); [lia|].
    repeat read_next. replace ((240 + h - 240) * 262144 + r3 * 4096 + r2 * 64 + r) with c by lia.
    destruct (N.ltb_spec c 65536), (N.ltb_spec 1114111 c); try lia. done.
Qed.

Lemma decode_go_mono f : forall s r, decode_go f s = Some r -> forall g, (f <= g)%nat -> decode_go g s = Some r.
Proof.
  induction f as [|f IH]; intros [|c s] r H g Hg; [by destruct g|done|by destruct g|].
  destruct g as [|g]; [lia|]. cbn [decode_go] in *. destruct (c =? 37).
  - destruct (read_point (c :: s)) as [[p t]|]; cbn [mbind option_bind] in *; [|done].
    destruct (decode_go f t) eqn:E; [|done]. rewrite (IH _ _ E g) by lia. done.
  - destruct (decode_go f s) eqn:E; [|done]. rewrite (IH _ _ E g) by lia. done.
Qed.

Lemma pct_bytes c : exists b t, (utf8_encode c ≫= pct) = 37 :: b :: t.
Proof. unfold utf8_encode. repeat break; cbn; eauto. Qed.

Lemma decode_step c s r f : c <= 1114111 -> c < 55296 \/ 57343 < c -> decode_go f s = Some r ->
  decode_go (S f) ((utf8_encode c ≫= pct) ++ s)%list = Some (utf16_encode c ++ r)%list.
Proof.
  intros H1 H2 H. pose proof (read_point_encode c s H1 H2) as Hr.
  destruct (pct_bytes c) as (b & t & E). rewrite E in *. cbn [app] in *.
  cbn [decode_go]. rewrite Hr. cbn [mbind option_bind]. by rewrite H.
Qed.

Lemma unreserved_not_pct c : unreserved c = true -> (c =? 37) = false.
Proof. intros H. apply N.eqb_neq. intros ->. done. Qed.

Lemma surrogate_pair c d : high_surrogate c = true -> low_surrogate d = true ->
  let p := (c - 55296) * 1024 + (d - 56320) + 65536 in
  65536 <= p <= 1114111 /\ utf16_encode p = [c; d].
Proof.
  intros Hc Hd p. unfold high_surrogate, low_surrogate in Hc, Hd.
  rewrite andb_true_iff, !N.leb_le in Hc, Hd.
  assert (65536 <= p <= 1114111) by lia. split; [done|]. unfold utf16_encode. destruct (N.ltb_spec p 65536); [lia|].
  replace (p - 65536) with ((d - 56320) + (c - 55296) * 1024) by lia.
  rewrite N.div_add, N.Div0.mod_add, N.div_small, N.mod_small by lia. f_equal; [lia|]. f_equal. lia.
Qed.

(** A string of 16-bit units. *)
Definition utf16 (s : jsstr) : bool := forallb (fun c => c <? 65536) s.

Lemma decode_encode_go n : forall s e, (length s <= n)%nat -> utf16 s = true -> encodeURIComponent s = Some e ->
  decode_go n e = Some s.
Proof.
  induction n as [|n IH]; intros [|c s] e Hn Hu H; cbn in Hn; try lia; try (by injection H as <-).
  cbn in Hu. apply andb_true_iff in Hu as [Hc Hu]. apply N.ltb_lt in Hc. cbn [encodeURIComponent] in H.
  destruct (unreserved c) eqn:Ec.
  { destruct (encodeURIComponent s) as [r|] eqn:E; [|done]. injection H as <-.
    cbn. rewrite (unreserved_not_pct c Ec). by rewrite (IH s r) by (done || lia). }
  destruct (low_surrogate c) eqn:El; [done|]. destruct (high_surrogate c) eqn:Eh.
  - destruct s as [|d s]; [done|]. destruct (low_surrogate d) eqn:Ed; [|done].
    destruct (encodeURIComponent s) as [r|] eqn:E; [|done]. injection H as <-.
    cbn in Hu, Hn. apply andb_true_iff in Hu as [_ Hu].
    destruct (surrogate_pair c d Eh Ed) as [Hp Hq]. rewrite (decode_step _ r s n); [by rewrite Hq|lia|lia|].
    by apply IH; [lia|..].
  - destruct (encodeURIComponent s) as [r|] eqn:E; [|done]. injection H as <-.
    unfold high_surrogate, low_surrogate in *. rewrite andb_false_iff, !N.leb_gt in Eh, El.
    rewrite (decode_step c r s n); [|lia..|by apply IH; [lia|..]].
    unfold utf16_encode. by destruct (N.ltb_spec c 65536); [|lia].
Qed.

Lemma encode_length s : forall e, encodeURIComponent s = Some e -> (length s <= length e)%nat.
Proof.
  assert (H1 : forall n s e, (length s <= n)%nat -> encodeURIComponent s = Some e -> (length s <= length e)%nat).
  { clear s. induction n as [|n IH]; intros [|c s] e Hn H; cbn in *; try lia.
    destruct (unreserved c).
    { destruct (encodeURIComponent s) as [r|] eqn:E; [|done]. injection H as <-. cbn.
      pose proof (IH s r ltac:(lia) E). lia. }
    assert (Hl : forall p, (2 <= length (utf8_encode p ≫= pct))%nat).
    { intros p. destruct (pct_bytes p) as (b & t & ->). cbn. lia. }
    destruct (low_surrogate c); [done|]. destruct (high_surrogate c).
    - destruct s as [|d s]; [done|]. destruct (low_surrogate d); [|done].
      destruct (encodeURIComponent s) as [r|] eqn:E; [|done]. injection H as <-. cbn in *.
      pose proof (IH s r ltac:(lia) E). rewrite length_app.
      pose proof (Hl ((c - 55296) * 1024 + (d - 56320) + 65536)). lia.
    - destruct (encodeURIComponent s) as [r|] eqn:E; [|done]. injection H as <-.
      pose proof (IH s r ltac:(lia) E). rewrite length_app. pose proof (Hl c). lia. }
  intros e. by apply (H1 (length s)).
Qed.

(** [decodeURIComponent(encodeURIComponent(s)) === s]. *)
Lemma decode_encode s e : utf16 s = true -> encodeURIComponent s = Some e -> decodeURIComponent e = Some s.
Proof.
  intros Hu H. unfold decodeURIComponent. eapply decode_go_mono; [by apply (decode_encode_go (length s))|].
  by apply encode_length.
Qed.

(** What [encodeURIComponent] produces: unreserved characters and escapes. *)
Definition safe_char (c : N) : bool := unreserved c || (c =? 37).

Lemma hex_safe d : d < 16 -> safe_char (hex d) = true.
Proof.
  intros H. unfold hex, safe_char, unreserved. destruct (N.ltb_spec d 10).
  - rewrite (between_true 48 (48 + d) 57) by lia. by rewrite !orb_true_r.
  - by rewrite (between_true 65 (55 + d) 90) by lia.
Qed.

Lemma pct_safe b : b < 256 -> forallb safe_char (pct b) = true.
Proof.
  intros H. cbn. rewrite !hex_safe; [done|apply N.mod_lt; lia|apply N.Div0.div_lt_upper_bound; lia].
Qed.

Lemma utf8_bytes c : c <= 1114111 -> Forall (fun b => b < 256) (utf8_encode c).
Proof.
  intros Hc. unfold utf8_encode. repeat break; repeat constructor;
    repeat match goal with H : (_ <? _) = true |- _ => apply N.ltb_lt in H end; try lia;
    try (match goal with |- context [?x mod 64] => pose proof (N.mod_lt x 64 ltac:(lia)) end; lia);
    match goal with |- _ + ?x / ?y < _ => pose proof (N.Div0.div_lt_upper_bound x y) end.
  - assert (c / 64 < 32) by (apply N.Div0.div_lt_upper_bound; lia). lia.
  - assert (c / 4096 < 16) by (apply N.Div0.div_lt_upper_bound; lia). lia.
  - assert (c / 262144 < 5) by (apply N.Div0.div_lt_upper_bound; lia). lia.
Qed.

Lemma forallb_bind {A B} (f : A -> list B) p l :
  Forall (fun a => forallb p (f a) = true) l -> forallb p (l ≫= f) = true.
Proof. induction 1 as [|a l Ha Hl IH]; [done|]. cbn. by rewrite forallb_app, Ha. Qed.

Lemma point_safe c : c <= 1114111 -> forallb safe_char (utf8_encode c ≫= pct) = true.
Proof. intros H. apply forallb_bind. eapply Forall_impl; [by apply utf8_bytes|]. intros. by apply pct_safe. Qed.

Lemma encode_safe_go n : forall s e, (length s <= n)%nat -> utf16 s = true -> encodeURIComponent s = Some e ->
  forallb safe_char e = true.
Proof.
  induction n as [|n IH]; intros [|c s] e Hn Hu H; cbn in Hn; try lia; try (by injection H as <-).
  cbn in Hu. apply andb_true_iff in Hu as [Hc Hu]. apply N.ltb_lt in Hc. cbn [encodeURIComponent] in H.
  destruct (unreserved c) eqn:Ec.
  { destruct (encodeURIComponent s) as [r|] eqn:E; [|done]. injection H as <-. cbn.
    rewrite (IH s r) by (done || lia). unfold safe_char. by rewrite Ec. }
  destruct (low_surrogate c) eqn:El; [done|]. destruct (high_surrogate c) eqn:Eh.
  - destruct s as [|d s]; [done|]. destruct (low_surrogate d) eqn:Ed; [|done].
    destruct (encodeURIComponent s) as [r|] eqn:E; [|done]. injection H as <-.
    cbn in Hu, Hn. apply andb_true_iff in Hu as [_ Hu].
    destruct (surrogate_pair c d Eh Ed) as [Hp _]. rewrite forallb_app, point_safe by lia.
    apply (IH s r); [lia|done..].
  - destruct (encodeURIComponent s) as [r|] eqn:E; [|done]. injection H as <-.
    rewrite forallb_app, point_safe by lia. apply (IH s r); [lia|done..].
Qed.

Lemma encode_safe s e : utf16 s = true -> encodeURIComponent s = Some e -> forallb safe_char e = true.
Proof. by apply (encode_safe_go (length s)). Qed.
