(* ===== verification/Async.v ===== *)
(** * Async: event handlers and their interleaving

    JavaScript runs one handler at a time up to its next [await]; other handlers
    run before it resumes.  A handler is a [prog]: a tree of reads and writes of
    the component's state and of awaited calls, whose answers come from outside
    (the server, a timer, the router).  [exec] runs a handler against an
    environment that answers every call at once and records the calls; [exec_in]
    runs it against a server with a state of its own, whose answers depend on all
    that was asked before, and leaves a [trace]; [step] runs
    handlers concurrently, and [rely_guarantee] is the rule for invariants that
    hold under every interleaving. *)

From S2P Require Import Prelude JsString Binary64 JsNumber.

(** Values that are thrown: [APIError], other instances of [Error], anything
    else. *)
Inductive exn :=
| APIError (status : num) (code message : jsstr)
| OtherError (message : jsstr)
| NotAnError.

(** [reason instanceof Error ? reason.message : fallback]. *)
Definition reason_message (reason : exn) (fallback : jsstr) : jsstr :=
  match reason with
  | APIError _ _ m | OtherError m => m
  | NotAnError => fallback
  end.

(** [Promise.all] of calls: it answers with all the answers or with an error. *)
Inductive call (Req : Type) :=
| One (r : Req)
| All2 (a b : call Req).
Arguments One {_}.
Arguments All2 {_}.

Fixpoint answer {Req} (Resp : Req -> Type) (c : call Req) : Type :=
  match c with
  | One r => Resp r
  | All2 a b => (answer Resp a * answer Resp b)%type
  end.

Section Prog.
Context {S Req : Type} {Resp : Req -> Type}.

Inductive prog (A : Type) :=
| Ret (a : A)
| Throw (e : exn)
| Get (k : S -> prog A)
| Put (s : S) (k : prog A)
| Await (c : call Req) (k : answer Resp c + exn -> prog A).

Arguments Ret {_}.
Arguments Throw {_}.
Arguments Get {_}.
Arguments Put {_}.
Arguments Await {_}.

Fixpoint bind {A B} (p : prog A) (f : A -> prog B) : prog B :=
  match p with
  | Ret a => f a
  | Throw e => Throw e
  | Get k => Get (fun s => bind (k s) f)
  | Put s k => Put s (bind k f)
  | Await c k => Await c (fun r => bind (k r) f)
  end.

(** [try { p } catch (e) { h(e) }]. *)
Fixpoint try_catch {A} (p : prog A) (h : exn -> prog A) : prog A :=
  match p with
  | Ret a => Ret a
  | Throw e => h e
  | Get k => Get (fun s => try_catch (k s) h)
  | Put s k => Put s (try_catch k h)
  | Await c k => Await c (fun r => try_catch (k r) h)
  end.

(** [try { p } finally { f }]: [f] runs on both ways out. *)
Fixpoint finally {A} (p : prog A) (f : prog unit) : prog A :=
  match p with
  | Ret a => bind f (fun _ => Ret a)
  | Throw e => bind f (fun _ => Throw e)
  | Get k => Get (fun s => finally (k s) f)
  | Put s k => Put s (finally k f)
  | Await c k => Await c (fun r => finally (k r) f)
  end.

(** [await call]: a rejected promise throws. *)
Definition await (c : call Req) : prog (answer Resp c) :=
  Await c (fun r => match r with inl a => Ret a | inr e => Throw e end).

Definition get : prog S := Get Ret.
Definition put (s : S) : prog unit := Put s (Ret tt).
Definition modify (f : S -> S) : prog unit := Get (fun s => Put (f s) (Ret tt)).

(** [if (c) return; rest]. *)
Definition unless (c : bool) (rest : prog unit) : prog unit := if c then Ret tt else rest.

(** ** Running a handler alone *)

(** The answer of an environment to a call. *)
Fixpoint ask (env : forall r, Resp r + exn) (c : call Req) : answer Resp c + exn :=
  match c with
  | One r => env r
  | All2 a b =>
      match ask env a, ask env b with
      | inl x, inl y => inl (x, y)
      | inr e, _ => inr e
      | _, inr e => inr e
      end
  end.

Record outcome (A : Type) := Outcome { calls : list (call Req); final : S; result : A + exn }.
Arguments Outcome {_}.
Arguments calls {_}.
Arguments final {_}.
Arguments result {_}.

Fixpoint exec {A} (env : forall r, Resp r + exn) (p : prog A) (s : S) : outcome A :=
  match p with
  | Ret a => Outcome [] s (inl a)
  | Throw e => Outcome [] s (inr e)
  | Get k => exec env (k s) s
  | Put s' k => exec env k s'
  | Await c k => let o := exec env (k (ask env c)) s in Outcome (c :: calls o) (final o) (result o)
  end.

(** ** Interleaving *)

(** A handler waiting for the answer to a call. *)
Record task := Suspended { waits_for : call Req; resume : answer Resp waits_for + exn -> prog unit }.

(** Runs up to the next [await] or to the end. *)
Fixpoint advance (p : prog unit) (s : S) : S * option task :=
  match p with
  | Ret _ | Throw _ => (s, None)
  | Get k => advance (k s) s
  | Put s' k => advance k s'
  | Await c k => (s, Some (Suspended c k))
  end.

Record config := Config { store : S; tasks : list task }.

Definition spawn (p : prog unit) (c : config) : config :=
  let '(s, t) := advance p (store c) in Config s (tasks c ++ option_list t).

(** A handler of the component starts, or a waiting one resumes with any
    answer.  An exception that leaves a handler ends it. *)
Inductive step (handlers : prog unit -> Prop) : config -> config -> Prop :=
| Starts p c : handlers p -> step handlers c (spawn p c)
| Resumes before t after s res :
    step handlers (Config s (before ++ t :: after)) (spawn (resume t res) (Config s (before ++ after))).

Definition reachable (handlers : prog unit -> Prop) (s0 : S) : config -> Prop :=
  rtc (step handlers) (Config s0 []).

(** The waiting task number [i] is answered by an environment. *)
Definition answer_at (env : forall r, Resp r + exn) (i : nat) (c : config) : config :=
  match tasks c !! i with
  | Some t => spawn (resume t (ask env (waits_for t))) (Config (store c) (delete i (tasks c)))
  | None => c
  end.

Lemma answer_at_step handlers env i c : is_Some (tasks c !! i) -> step handlers c (answer_at env i c).
Proof.
  destruct c as [s ts]. intros [t Ht]. cbn in Ht. unfold answer_at. cbn. rewrite Ht, delete_take_drop.
  rewrite <- (take_drop_middle ts i t Ht) at 1. apply Resumes.
Qed.

(** ** Rely-guarantee *)

Section RelyGuarantee.
(** An invariant of the states between handlers' segments and a preorder that
    every segment stays in. *)
Context (I : S -> Prop) (R : relation S) `{!PreOrder R}.

(** From the state [s0] at its last resumption and the current state [s], the
    program re-establishes [I] and stays in [R] at every [await], if the others
    do the same meanwhile, and ends with [Q] of its result, the state at its last
    resumption and its final state. *)
Fixpoint holds {A} (p : prog A) (Q : A + exn -> S -> S -> Prop) (s0 s : S) : Prop :=
  match p with
  | Ret a => Q (inl a) s0 s
  | Throw e => Q (inr e) s0 s
  | Get k => holds (k s) Q s0 s
  | Put s' k => holds k Q s0 s'
  | Await c k => I s /\ R s0 s /\ forall res s', I s' -> R s s' -> holds (k res) Q s' s'
  end.

Definition kept {A} (r : A) (s0 s : S) : Prop := I s /\ R s0 s.

Definition keeps {A} (p : prog A) (s0 s : S) : Prop := holds p kept s0 s.

Lemma holds_mono {A} (p : prog A) (Q Q' : A + exn -> S -> S -> Prop) :
  (forall r s0 s, Q r s0 s -> Q' r s0 s) -> forall s0 s, holds p Q s0 s -> holds p Q' s0 s.
Proof.
  intros HQ. induction p as [a|e|k IH|s1 k IH|c k IH]; intros s0 s; cbn; auto.
  intros (HI & HR & H). split_and!; auto.
Qed.

Lemma holds_bind {A B} (p : prog A) (f : A -> prog B) Q : forall s0 s,
  holds p (fun r s0 s => match r with inl a => holds (f a) Q s0 s | inr e => Q (inr e) s0 s end) s0 s ->
  holds (bind p f) Q s0 s.
Proof.
  induction p as [a|e|k IH|s1 k IH|c k IH]; intros s0 s; cbn; auto.
  intros (HI & HR & H). split_and!; auto.
Qed.

Lemma holds_try_catch {A} (p : prog A) h Q : forall s0 s,
  holds p (fun r s0 s => match r with inl a => Q (inl a) s0 s | inr e => holds (h e) Q s0 s end) s0 s ->
  holds (try_catch p h) Q s0 s.
Proof.
  induction p as [a|e|k IH|s1 k IH|c k IH]; intros s0 s; cbn; auto.
  intros (HI & HR & H). split_and!; auto.
Qed.

Lemma holds_finally {A} (p : prog A) f Q : forall s0 s,
  holds p (fun r s0 s => holds f (fun r' s0 s => Q (match r' with inl _ => r | inr e => inr e end) s0 s) s0 s) s0 s ->
  holds (finally p f) Q s0 s.
Proof.
  induction p as [a|e|k IH|s1 k IH|c k IH]; intros s0 s; cbn; auto.
  - intros H. apply holds_bind. eapply holds_mono; [|done]. by intros [u|e].
  - intros H. apply holds_bind. eapply holds_mono; [|done]. by intros [u|e'].
  - intros (HI & HR & H). split_and!; auto.
Qed.

(** Programs each of whose writes keeps [I] and [R]: closed under the
    constructs of the language. *)
Definition good {A} (p : prog A) : Prop := forall s0 s, I s -> R s0 s -> keeps p s0 s.

Lemma good_ret {A} (a : A) : good (Ret a).
Proof. done. Qed.

Lemma good_throw {A} e : good (Throw e : prog A).
Proof. done. Qed.

Lemma good_await c : good (await c).
Proof. intros s0 s HI HR. cbn. split_and!; [done..|]. by intros [a|e] s' HI' HR'. Qed.

Lemma good_get : good get.
Proof. done. Qed.

(** What is read satisfies the invariant. *)
Lemma good_read {A} (k : S -> prog A) : (forall s, I s -> good (k s)) -> good (bind get k).
Proof. intros Hk s0 s HI HR. by apply Hk. Qed.

Lemma good_modify f : (forall s, I s -> I (f s) /\ R s (f s)) -> good (modify f).
Proof. intros Hf s0 s HI HR. destruct (Hf s HI). split; [done|]. by transitivity s. Qed.

Lemma good_bind {A B} (p : prog A) (f : A -> prog B) : good p -> (forall a, good (f a)) -> good (bind p f).
Proof.
  intros Hp Hf s0 s HI HR. apply holds_bind. eapply holds_mono; [|by apply Hp].
  intros [a|e] s1 s2 [HI' HR']; [by apply Hf|done].
Qed.

Lemma good_try_catch {A} (p : prog A) h : good p -> (forall e, good (h e)) -> good (try_catch p h).
Proof.
  intros Hp Hh s0 s HI HR. apply holds_try_catch. eapply holds_mono; [|by apply Hp].
  intros [a|e] s1 s2 [HI' HR']; [done|by apply Hh].
Qed.

Lemma good_finally {A} (p : prog A) f : good p -> good f -> good (finally p f).
Proof.
  intros Hp Hf s0 s HI HR. apply holds_finally. eapply holds_mono; [|by apply Hp].
  intros r s1 s2 [HI' HR']. eapply holds_mono; [|by apply Hf]. done.
Qed.

Lemma good_keeps (p : prog unit) : good p -> forall s, I s -> keeps p s s.
Proof. intros Hp s HI. by apply Hp. Qed.

Definition task_keeps (s : S) (t : task) : Prop :=
  forall res s', I s' -> R s s' -> keeps (resume t res) s' s'.

Lemma task_keeps_mono s s' t : R s s' -> task_keeps s t -> task_keeps s' t.
Proof. intros HR H res s'' HI HR'. apply H; [done|by transitivity s']. Qed.

Lemma advance_keeps p : forall s0 s, keeps p s0 s ->
  let '(s', t) := advance p s in I s' /\ R s0 s' /\ Forall (task_keeps s') (option_list t).
Proof.
  induction p as [a|e|k IH|s1 k IH|c k IH]; intros s0 s H; cbn in *.
  - destruct H. by split_and!.
  - destruct H. by split_and!.
  - by apply IH.
  - by apply IH.
  - destruct H as (HI & HR & H). split_and!; try done. constructor; [|constructor]. done.
Qed.

Definition config_keeps (c : config) : Prop := I (store c) /\ Forall (task_keeps (store c)) (tasks c).

Lemma spawn_keeps p c : config_keeps c -> keeps p (store c) (store c) ->
  config_keeps (spawn p c) /\ R (store c) (store (spawn p c)).
Proof.
  intros [HI Ht] Hp. unfold spawn. pose proof (advance_keeps p _ _ Hp) as Ha.
  destruct (advance p (store c)) as [s' t]. destruct Ha as (HI' & HR & Ht'). cbn. split; [|done].
  split; [done|]. apply Forall_app. split; [|done].
  eapply Forall_impl; [done|]. intros t' Hm. by eapply task_keeps_mono.
Qed.

Lemma step_keeps handlers c c' :
  (forall p, handlers p -> forall s, I s -> keeps p s s) ->
  step handlers c c' -> config_keeps c -> config_keeps c' /\ R (store c) (store c').
Proof.
  intros Hh Hs Hc. destruct Hs as [p c Hp|before t after s res].
  - apply spawn_keeps; [done|]. apply Hh; [done|]. by destruct Hc.
  - destruct Hc as [HI Ht]. cbn in *. apply Forall_app in Ht as [Hb Ht]. inversion_clear Ht as [|? ? Hk Ha].
    apply (spawn_keeps (resume t res) (Config s (before ++ after))).
    + split; [done|]. by apply Forall_app.
    + by apply Hk.
Qed.

(** Handlers that keep [I] and [R] keep them under every interleaving. *)
Lemma rely_guarantee handlers s0 c :
  (forall p, handlers p -> forall s, I s -> keeps p s s) -> I s0 ->
  reachable handlers s0 c -> I (store c) /\ R s0 (store c).
Proof.
  intros Hh H0 Hr. enough (config_keeps c /\ R s0 (store c)) as [[HI _] HR] by done.
  unfold reachable in Hr. remember (Config s0 []) as c0 eqn:E.
  assert (Hc0 : config_keeps c0) by (subst; split; [done|constructor]).
  assert (HR0 : R s0 (store c0)) by (subst; done). clear E H0.
  induction Hr as [c|c0 c1 c2 Hs Hr IH]; [done|].
  destruct (step_keeps handlers c0 c1 Hh Hs Hc0) as [Hc1 HR1]. apply IH; [done|by etransitivity].
Qed.

End RelyGuarantee.
End Prog.

Arguments prog : clear implicits.
Arguments Ret {_ _ _ _}.
Arguments Throw {_ _ _ _}.
Arguments Get {_ _ _ _}.
Arguments Put {_ _ _ _}.
Arguments Await {_ _ _ _}.
Arguments config : clear implicits.
Arguments task : clear implicits.
Arguments outcome : clear implicits.
Arguments Outcome {_ _ _}.
Arguments calls {_ _ _}.
Arguments final {_ _ _}.
Arguments result {_ _ _}.

Arguments bind {S Req Resp A B} & p f.
Arguments try_catch {S Req Resp A} & p h.
Arguments finally {S Req Resp A} & p f.

(** [const x = await p; k] and [await p; k]. *)
Declare Scope async_scope.
Delimit Scope async_scope with async.
Notation "'let!' x ':=' p 'in' k" := (bind p (fun x => k))
  (at level 10, x pattern, p at level 100, k at level 200) : async_scope.
Notation "'do!' p ';' k" := (bind p (fun _ => k))
  (at level 10, p at level 100, k at level 200) : async_scope.

(** ** Proving that a handler is good, construct by construct *)

Create HintDb good_db.

Ltac good_step :=
  cbv beta zeta;
  match goal with
  | |- good _ _ (bind _ _) => apply good_bind; [|intros ?]
  | |- good _ _ (try_catch _ _) => apply good_try_catch; [|intros ?]
  | |- good _ _ (finally _ _) => apply good_finally
  | |- good _ _ (Ret _) => apply good_ret
  | |- good _ _ (Throw _) => apply good_throw
  | |- good _ _ get => apply good_get
  | |- good _ _ (await ?c) => exact (good_await _ _ c)
  | |- good _ _ (unless ?b _) => unfold unless; destruct b
  | |- good _ _ (match ?x with _ => _ end) => destruct x
  | |- good _ _ _ => solve [eauto with good_db]
  end.

Ltac good_prog := repeat good_step.

(** ** Running composed programs *)

Lemma exec_bind {S Req} {Resp : Req -> Type} {A B} env (p : prog S Req Resp A) (f : A -> prog S Req Resp B) : forall s,
  exec env (bind p f) s
  = let o := exec env p s in
    match result o with
    | inl a => let o' := exec env (f a) (final o) in Outcome (calls o ++ calls o') (final o') (result o')
    | inr e => Outcome (calls o) (final o) (inr e)
    end.
Proof.
  induction p as [a|e|k IH|s1 k IH|c k IH]; intros s; cbn; auto.
  - by destruct (exec env (f a) s).
  - rewrite IH. cbn. by destruct (result (exec env (k (ask env c)) s)).
Qed.

Lemma exec_try_catch {S Req} {Resp : Req -> Type} {A} env (p : prog S Req Resp A) h : forall s,
  exec env (try_catch p h) s
  = let o := exec env p s in
    match result o with
    | inl a => o
    | inr e => let o' := exec env (h e) (final o) in Outcome (calls o ++ calls o') (final o') (result o')
    end.
Proof.
  induction p as [a|e|k IH|s1 k IH|c k IH]; intros s; cbn; auto.
  - by destruct (exec env (h e) s).
  - rewrite IH. cbn. destruct (result (exec env (k (ask env c)) s)) eqn:E; cbn; by rewrite ?E.
Qed.

Lemma exec_finally {S Req} {Resp : Req -> Type} {A} env (p : prog S Req Resp A) f : forall s,
  exec env (finally p f) s
  = let o := exec env p s in
    let o' := exec env f (final o) in
    Outcome (calls o ++ calls o') (final o')
      (match result o' with inl _ => result o | inr e => inr e end).
Proof.
  induction p as [a|e|k IH|s1 k IH|c k IH]; intros s; cbn [finally]; try (cbn; by rewrite ?IH).
  - rewrite exec_bind. cbn. destruct (exec env f s) as [cs fs [u|e]]; cbn; by rewrite ?app_nil_r.
  - rewrite exec_bind. cbn. destruct (exec env f s) as [cs fs [u|e']]; cbn; by rewrite ?app_nil_r.
Qed.

(** ** Running against a server that changes

    [exec] answers a call always alike.  Here the others have a state of their
    own, of type [W], and every answer may change it: a server that is restarted,
    a list that grows, a script of answers. *)

Section World.
Context {S Req : Type} {Resp : Req -> Type} {W : Type}.
Context (respond : forall r, W -> (Resp r + exn) * W).

(** Both promises of an [All2] are answered, the first one first. *)
Fixpoint ask_in (c : call Req) (w : W) : (answer Resp c + exn) * W :=
  match c with
  | One r => respond r w
  | All2 a b =>
      let x := ask_in a w in
      let y := ask_in b x.2 in
      (match x.1, y.1 with
       | inl x, inl y => inl (x, y)
       | inr e, _ => inr e
       | _, inr e => inr e
       end, y.2)
  end.

Record trace (A : Type) := Trace { asked : list (call Req); end_state : S; end_world : W; got : A + exn }.
Arguments Trace {_}.
Arguments asked {_}.
Arguments end_state {_}.
Arguments end_world {_}.
Arguments got {_}.

Fixpoint exec_in {A} (p : prog S Req Resp A) (s : S) (w : W) : trace A :=
  match p with
  | Ret a => Trace [] s w (inl a)
  | Throw e => Trace [] s w (inr e)
  | Get k => exec_in (k s) s w
  | Put s' k => exec_in k s' w
  | Await c k =>
      let a := ask_in c w in
      let o := exec_in (k a.1) s a.2 in Trace (c :: asked o) (end_state o) (end_world o) (got o)
  end.

Lemma exec_in_bind {A B} (p : prog S Req Resp A) (f : A -> prog S Req Resp B) : forall s w,
  exec_in (bind p f) s w
  = let o := exec_in p s w in
    match got o with
    | inl a => let o' := exec_in (f a) (end_state o) (end_world o) in
               Trace (asked o ++ asked o') (end_state o') (end_world o') (got o')
    | inr e => Trace (asked o) (end_state o) (end_world o) (inr e)
    end.
Proof.
  induction p as [a|e|k IH|s1 k IH|c k IH]; intros s w; cbn; auto.
  - by destruct (exec_in (f a) s w).
  - rewrite IH. cbn. by destruct (got (exec_in (k (ask_in c w).1) s (ask_in c w).2)).
Qed.

Lemma exec_in_try_catch {A} (p : prog S Req Resp A) h : forall s w,
  exec_in (try_catch p h) s w
  = let o := exec_in p s w in
    match got o with
    | inl a => o
    | inr e => let o' := exec_in (h e) (end_state o) (end_world o) in
               Trace (asked o ++ asked o') (end_state o') (end_world o') (got o')
    end.
Proof.
  induction p as [a|e|k IH|s1 k IH|c k IH]; intros s w; cbn; auto.
  - by destruct (exec_in (h e) s w).
  - rewrite IH. cbn. destruct (got (exec_in (k (ask_in c w).1) s (ask_in c w).2)) eqn:E; cbn; by rewrite ?E.
Qed.

Lemma exec_in_finally {A} (p : prog S Req Resp A) f : forall s w,
  exec_in (finally p f) s w
  = let o := exec_in p s w in
    let o' := exec_in f (end_state o) (end_world o) in
    Trace (asked o ++ asked o') (end_state o') (end_world o')
      (match got o' with inl _ => got o | inr e => inr e end).
Proof.
  induction p as [a|e|k IH|s1 k IH|c k IH]; intros s w; cbn [finally]; try (cbn; by rewrite ?IH).
  - rewrite exec_in_bind. cbn. destruct (exec_in f s w) as [cs fs fw [u|e]]; cbn; by rewrite ?app_nil_r.
  - rewrite exec_in_bind. cbn. destruct (exec_in f s w) as [cs fs fw [u|e']]; cbn; by rewrite ?app_nil_r.
Qed.

(** As long as a run makes one call at most, its server might as well answer
    always alike. *)
Lemma exec_in_silent {A} (p : prog S Req Resp A) w0 : forall s w,
  calls (exec (fun r => (respond r w0).1) p s) = [] ->
  exec_in p s w = let o := exec (fun r => (respond r w0).1) p s in Trace [] (final o) w (result o).
Proof. induction p as [a|e|k IH|s1 k IH|c k IH]; intros s w; cbn; auto; discriminate. Qed.

Lemma exec_in_one {A} (p : prog S Req Resp A) r w : forall s,
  calls (exec (fun r => (respond r w).1) p s) = [One r] ->
  exec_in p s w = let o := exec (fun r => (respond r w).1) p s in Trace [One r] (final o) (respond r w).2 (result o).
Proof.
  induction p as [a|e|k IH|s1 k IH|c k IH]; intros s; cbn; auto; try discriminate.
  intros [= -> Hc]. cbn [ask_in ask] in *. by rewrite (exec_in_silent _ w _ _ Hc).
Qed.

End World.

Arguments trace : clear implicits.
Arguments Trace {_ _ _ _}.
Arguments asked {_ _ _ _}.
Arguments end_state {_ _ _ _}.
Arguments end_world {_ _ _ _}.
Arguments got {_ _ _ _}.

(** [exec] is the case of a server without a state. *)
Lemma exec_in_constant {S Req} {Resp : Req -> Type} {W A} (env : forall r, Resp r + exn) (p : prog S Req Resp A) (w : W) : forall s,
  exec_in (fun r w => (env r, w)) p s w = let o := exec env p s in Trace (calls o) (final o) w (result o).
Proof.
  assert (Ha : forall c, ask_in (fun r w => (env r, w)) c w = (ask env c, w)).
  { intros c. induction c as [r|a IHa b IHb]; [done|]. cbn. rewrite IHa. cbn. by rewrite IHb. }
  induction p as [a|e|k IH|s1 k IH|c k IH]; intros s; cbn; auto. rewrite Ha. cbn. by rewrite IH.
Qed.
