(* ===== verification/I18n.v ===== *)
(** * I18n: locale selection (web/src/i18n.ts)

    The module keeps one locale for the page.  It is initialised from the
    stored preference or the browser languages, follows the browser until the
    user chooses explicitly, and is mirrored on the document element.  The host
    (localStorage, navigator, document, window) is part of the state, because
    each of them may be missing and storage may throw. *)

From Stdlib Require Import Strings.String.
From S2P Require Import Prelude JsString.

(** ** Data *)

Inductive AppLocale := zh_CN | en_US.

#[export] Instance AppLocale_eq_dec : EqDecision AppLocale.
Proof. solve_decision. Defined.

(** The string a locale is at run time. *)
Definition locale_str (l : AppLocale) : jsstr :=
  match l with zh_CN => js "zh-CN" | en_US => js "en-US" end.

Definition localePreferenceKey : jsstr := js "hostpin-locale-preference".
Definition legacyLocaleKey : jsstr := js "hostpin-locale".

(** [localStorage]: present or not, its two methods present or not, reads
    and writes that may throw, and the items. *)
Record Storage := mkStorage {
  st_has_get : bool;
  st_has_set : bool;
  st_get_ok : bool;
  st_set_ok : gmap jsstr jsstr -> jsstr -> jsstr -> bool;
  st_items : gmap jsstr jsstr;
}.

(** [navigator]: [languages] is [None] when it is not an array. *)
Record Navigator := mkNavigator {
  nav_languages : option (list jsstr);
  nav_language : option jsstr;
}.

(** The attributes [lang] and [data-locale] of the document element. *)
Record DocElement := mkDoc { doc_lang : jsstr; doc_data_locale : jsstr }.

(** The page: host objects ([None] when [typeof x === 'undefined']) and the
    module's variables. *)
Record Page := mkPage {
  storage : option Storage;
  navigator : option Navigator;
  document : option DocElement;
  window_events : bool;            (* window.addEventListener is a function *)
  listening : bool;                (* languagechange listener registered *)
  hasExplicitPreference : bool;
  locale : AppLocale;
}.

Definition with_storage (p : Page) (s : option Storage) : Page :=
  mkPage s (navigator p) (document p) (window_events p) (listening p) (hasExplicitPreference p) (locale p).
Definition with_navigator (p : Page) (n : option Navigator) : Page :=
  mkPage (storage p) n (document p) (window_events p) (listening p) (hasExplicitPreference p) (locale p).
Definition with_document (p : Page) (d : option DocElement) : Page :=
  mkPage (storage p) (navigator p) d (window_events p) (listening p) (hasExplicitPreference p) (locale p).
Definition with_listening (p : Page) (b : bool) : Page :=
  mkPage (storage p) (navigator p) (document p) (window_events p) b (hasExplicitPreference p) (locale p).
Definition with_explicit (p : Page) (b : bool) : Page :=
  mkPage (storage p) (navigator p) (document p) (window_events p) (listening p) b (locale p).
Definition with_locale (p : Page) (l : AppLocale) : Page :=
  mkPage (storage p) (navigator p) (document p) (window_events p) (listening p) (hasExplicitPreference p) l.

Section I18n.
Context `{U : Unicode}.

(** ** Detection *)

Definition supportedLocale (value : option jsstr) : option AppLocale :=
  match (fun v => toLowerCase (replaceFirst (trim v) (js "_") (js "-"))) <$> value with
  | None | Some [] => None
  | Some normalized =>
      if streq normalized (js "zh") || startsWith normalized (js "zh-") then Some zh_CN
      else if streq normalized (js "en") || startsWith normalized (js "en-") then Some en_US
      else None
  end.

(** [localStorage.getItem], [None] when the call throws. *)
Definition getItem (s : Storage) (key : jsstr) : option (option jsstr) :=
  if st_get_ok s then Some (st_items s !! key) else None.

Definition storedLocalePreference (s : option Storage) : option AppLocale :=
  match s with
  | None => None
  | Some st =>
      if negb (st_has_get st) then None
      else match getItem st localePreferenceKey with
           | Some v => supportedLocale v
           | None => None
           end
  end.

Definition browserLanguages (n : option Navigator) : list jsstr :=
  match n with
  | None => []
  | Some nav =>
      match nav_languages nav with
      | Some ((_ :: _) as l) => l
      | _ => match nav_language nav with
             | Some ((_ :: _) as l) => [l]
             | _ => []
             end
      end
  end.

Fixpoint detectBrowserLocale (languages : list jsstr) : AppLocale :=
  match languages with
  | [] => en_US
  | language :: rest =>
      match supportedLocale (Some language) with
      | Some detected => detected
      | None => detectBrowserLocale rest
      end
  end.

Definition resolveInitialLocale (stored : option jsstr) (languages : list jsstr) : AppLocale :=
  nullish (supportedLocale stored) (detectBrowserLocale languages).

(** ** Effects *)

(** [localStorage.setItem], [None] when the call throws. *)
Definition setItem (s : Storage) (key value : jsstr) : option Storage :=
  if st_set_ok s (st_items s) key value
  then Some (mkStorage (st_has_get s) (st_has_set s) (st_get_ok s) (st_set_ok s) (<[key := value]> (st_items s)))
  else None.

(** Both keys are written in order; an exception keeps what was written. *)
Definition persistLocalePreference (s : option Storage) (value : AppLocale) : option Storage :=
  match s with
  | Some st =>
      if st_has_set st then
        match setItem st localePreferenceKey (locale_str value) with
        | None => s
        | Some st1 =>
            match setItem st1 legacyLocaleKey (locale_str value) with
            | None => Some st1
            | Some st2 => Some st2
            end
        end
      else s
  | None => None
  end.

Definition applyLocale (d : option DocElement) (value : AppLocale) : option DocElement :=
  (fun _ => mkDoc (locale_str value) (locale_str value)) <$> d.

(** Evaluation of the module (lines 55-66): the stored preference, else the
    browser's languages. *)
Definition init (s : option Storage) (n : option Navigator) (d : option DocElement) (w : bool) : Page :=
  let storedLocale := storedLocalePreference s in
  let l := nullish storedLocale (detectBrowserLocale (browserLanguages n)) in
  mkPage s n (applyLocale d l) w false (bool_decide (storedLocale <> None)) l.

Definition setLocale (value : AppLocale) (p : Page) : Page :=
  let p1 := with_explicit p true in
  let p2 := with_locale p1 value in
  let p3 := with_storage p2 (persistLocalePreference (storage p2) value) in
  with_document p3 (applyLocale (document p3) value).

Definition syncLocaleWithBrowser (p : Page) : Page :=
  if hasExplicitPreference p then p
  else let p1 := with_locale p (detectBrowserLocale (browserLanguages (navigator p))) in
       with_document p1 (applyLocale (document p1) (locale p1)).

(** The returned disposer is [stop]: it removes the listener when one was
    added. *)
Definition watchBrowserLocale (p : Page) : Page :=
  let p1 := syncLocaleWithBrowser p in
  if window_events p1 then with_listening p1 true else p1.

Definition stopWatching (p : Page) : Page := with_listening p false.

(** [useLocale().text] and [localeCode()]. *)
Definition isChinese (p : Page) : bool := bool_decide (locale p = zh_CN).
Definition text (l : AppLocale) (chinese english : jsstr) : jsstr :=
  if bool_decide (l = zh_CN) then chinese else english.
Definition localeCode (p : Page) : AppLocale := locale p.

(** ** The page as a transition system

    The user's choice, a change of the browser's languages (which reaches the
    module when it listens), and the mounting and unmounting of the
    application ([App.vue]). *)
Inductive event :=
| Choose (value : AppLocale)
| BrowserChanges (n : option Navigator)
| Mount
| Unmount.

Definition step (e : event) (p : Page) : Page :=
  match e with
  | Choose v => setLocale v p
  | BrowserChanges n =>
      let p1 := with_navigator p n in
      if listening p1 then syncLocaleWithBrowser p1 else p1
  | Mount => watchBrowserLocale p
  | Unmount => stopWatching p
  end.

Definition run (es : list event) (p : Page) : Page := fold_left (fun q e => step e q) es p.

(** ** Invariant: the document mirrors the locale *)

Definition mirrored (p : Page) : Prop :=
  forall d, document p = Some d -> doc_lang d = locale_str (locale p) /\ doc_data_locale d = locale_str (locale p).

Lemma applyLocale_mirrors d l d' :
  applyLocale d l = Some d' -> doc_lang d' = locale_str l /\ doc_data_locale d' = locale_str l.
Proof. unfold applyLocale. destruct d; [|done]. by intros [= <-]. Qed.

Lemma init_mirrored s n d w : mirrored (init s n d w).
Proof. intros d' H. by apply applyLocale_mirrors in H. Qed.

Lemma sync_mirrored p : mirrored p -> mirrored (syncLocaleWithBrowser p).
Proof.
  intros Hp. unfold syncLocaleWithBrowser. destruct (hasExplicitPreference p); [done|].
  intros d' H. by apply applyLocale_mirrors in H.
Qed.

Lemma step_mirrored e p : mirrored p -> mirrored (step e p).
Proof.
  intros Hp. destruct e as [v|n| |]; cbn [step].
  - intros d' H. by apply applyLocale_mirrors in H.
  - destruct (listening _); [by apply sync_mirrored|done].
  - unfold watchBrowserLocale. destruct (window_events _); apply sync_mirrored in Hp; done.
  - done.
Qed.

Lemma run_mirrored es : forall p, mirrored p -> mirrored (run es p).
Proof. induction es as [|e es IH]; [done|]. intros p Hp. by apply IH, step_mirrored. Qed.

(** ** Explicit preference *)

Definition choices (es : list event) : list AppLocale :=
  omap (fun e => match e with Choose v => Some v | _ => None end) es.

Lemma step_explicit e p : hasExplicitPreference p = true ->
  hasExplicitPreference (step e p) = true /\
  locale (step e p) = match e with Choose v => v | _ => locale p end.
Proof.
  intros Hp. destruct e as [v|n| |]; cbn; [done| | |done].
  - destruct (listening p); [|done]. unfold syncLocaleWithBrowser. cbn. by rewrite Hp.
  - unfold watchBrowserLocale, syncLocaleWithBrowser. rewrite Hp. by destruct (window_events p).
Qed.

Lemma run_explicit es : forall p, hasExplicitPreference p = true ->
  locale (run es p) = default (locale p) (last (choices es)) /\ hasExplicitPreference (run es p) = true.
Proof.
  induction es as [|e es IH]; [done|]. intros p Hp. cbn [run fold_left].
  destruct (step_explicit e p Hp) as [H1 H2]. destruct (IH _ H1) as [IH1 IH2]. split; [|done].
  fold (run es (step e p)). rewrite IH1, H2.
  destruct e as [v|n| |]; cbn [choices omap list_omap]; try done.
  fold (choices es). destruct (choices es) as [|c cs]; [done|].
  rewrite last_cons_cons. destruct (last (c :: cs)) eqn:E; [done|]. by apply last_None in E.
Qed.

(** ** Round trip through storage *)

Context {UL : UnicodeLaws U}.

Lemma supportedLocale_str l : supportedLocale (Some (locale_str l)) = Some l.
Proof.
  unfold supportedLocale. cbn [fmap option_fmap option_map].
  rewrite lower_ascii by (by destruct l). by destruct l.
Qed.

Lemma locale_keys_ne : legacyLocaleKey <> localePreferenceKey.
Proof. intros H. vm_compute in H. discriminate. Qed.

(** A write that the storage accepts is read back, whatever happens to the
    second (legacy) key. *)
Lemma persist_stored st v :
  st_has_get st = true -> st_get_ok st = true -> st_has_set st = true ->
  st_set_ok st (st_items st) localePreferenceKey (locale_str v) = true ->
  storedLocalePreference (persistLocalePreference (Some st) v) = Some v.
Proof.
  intros Hg Hgo Hs Hso. unfold persistLocalePreference, setItem. rewrite Hs, Hso. cbn [st_set_ok st_items].
  destruct (st_set_ok st _ legacyLocaleKey _); unfold storedLocalePreference, getItem;
    cbn [st_has_get st_get_ok st_items]; rewrite Hg, Hgo; cbn [negb].
  - rewrite lookup_insert_ne by apply locale_keys_ne. rewrite lookup_insert_eq. apply supportedLocale_str.
  - rewrite lookup_insert_eq. apply supportedLocale_str.
Qed.

(** ** Following the browser *)

Definition passive (e : event) : bool :=
  match e with Choose _ | Unmount => false | _ => true end.

Lemma step_passive e p : passive e = true ->
  hasExplicitPreference p = false -> listening p = true ->
  hasExplicitPreference (step e p) = false /\ listening (step e p) = true.
Proof.
  intros He Hp Hl. destruct e as [v|n| |]; try done; cbn.
  - rewrite Hl. unfold syncLocaleWithBrowser. cbn. by rewrite Hp.
  - unfold watchBrowserLocale, syncLocaleWithBrowser. rewrite Hp. cbn. by destruct (window_events p).
Qed.

Lemma run_passive es : forall p, forallb passive es = true ->
  hasExplicitPreference p = false -> listening p = true ->
  hasExplicitPreference (run es p) = false /\ listening (run es p) = true.
Proof.
  induction es as [|e es IH]; [done|]. intros p [He Hes]%andb_true_iff Hp Hl.
  destruct (step_passive e p He Hp Hl). by apply IH.
Qed.

Lemma run_snoc es e p : run (es ++ [e]) p = step e (run es p).
Proof. unfold run. by rewrite fold_left_app. Qed.

(** ** Properties *)

(** C35: once the user has chosen a language, no change of the browser's
    languages, mounting or unmounting alters it: the page shows the last
    language chosen. *)
Theorem explicit_choice_sticks p v es :
  locale (run es (setLocale v p)) = default v (last (choices es)).
Proof. by destruct (run_explicit es (setLocale v p) eq_refl) as [-> _]. Qed.

(** After any sequence of events from module evaluation on, the [lang] and
    [data-locale] attributes of the document are the current locale. *)
Theorem document_mirrors_locale s n d w es : mirrored (run es (init s n d w)).
Proof. apply run_mirrored, init_mirrored. Qed.

(** A language that the storage accepted is restored by the next page load,
    whatever the browser's languages, and counts as an explicit choice. *)
Theorem locale_survives_reload p v st n d w :
  storage p = Some st -> st_has_get st = true -> st_get_ok st = true -> st_has_set st = true ->
  st_set_ok st (st_items st) localePreferenceKey (locale_str v) = true ->
  let q := init (storage (setLocale v p)) n d w in
  locale q = v /\ hasExplicitPreference q = true.
Proof.
  intros Hst Hg Hgo Hs Hso q. subst q. unfold init. cbn [storage setLocale with_document with_storage].
  cbn [storage with_locale with_explicit]. rewrite Hst, persist_stored by done. done.
Qed.

(** Without a stored preference the page follows the browser: after
    mounting, a change of the browser's languages selects the first supported
    one (English when none is), however many changes came before. *)
Theorem unset_locale_follows_browser s n0 d es n :
  storedLocalePreference s = None -> forallb passive es = true ->
  locale (run (Mount :: es ++ [BrowserChanges n]) (init s n0 d true))
  = nullish (head (omap (fun l => supportedLocale (Some l)) (browserLanguages n))) en_US.
Proof.
  intros Hs Hes. change (Mount :: es ++ [BrowserChanges n]) with ((Mount :: es) ++ [BrowserChanges n]).
  rewrite run_snoc. cbn [run fold_left step]. set (p := watchBrowserLocale _).
  assert (Hp : hasExplicitPreference p = false /\ listening p = true).
  { subst p. unfold watchBrowserLocale, syncLocaleWithBrowser, init. rewrite Hs. done. }
  destruct Hp as [Hp Hl]. destruct (run_passive es p Hes Hp Hl) as [He Hl'].
  fold (run es p). cbn [listening with_navigator]. rewrite Hl'. unfold syncLocaleWithBrowser.
  cbn [hasExplicitPreference with_navigator]. rewrite He.
  cbn [locale with_document with_locale with_navigator navigator].
  induction (browserLanguages n) as [|l ls IH]; [done|].
  cbn [detectBrowserLocale omap list_omap]. destruct (supportedLocale (Some l)); done.
Qed.

End I18n.

(** Witnesses: a page with working storage, and one without. *)
Definition sample_storage : Storage := mkStorage true true true (fun _ _ _ => true) ∅.

Lemma locale_survives_reload_witness :
  locale (@init small_unicode (storage (setLocale zh_CN
            (@init small_unicode (Some sample_storage) None None true)))
            (Some (mkNavigator (Some [js "en-US"]) None)) None true) = zh_CN.
Proof.
  apply (@locale_survives_reload small_unicode small_unicode_laws
           (@init small_unicode (Some sample_storage) None None true) zh_CN sample_storage
           (Some (mkNavigator (Some [js "en-US"]) None)) None true); reflexivity.
Defined.

Lemma unset_locale_follows_browser_witness :
  locale (@run small_unicode (Mount :: [BrowserChanges None] ++
            [BrowserChanges (Some (mkNavigator (Some [js "fr-FR"; js "zh-TW"; js "en"]) None))])
            (@init small_unicode None None None true)) = zh_CN.
Proof.
  exact (@unset_locale_follows_browser small_unicode None None None [BrowserChanges None]
           (Some (mkNavigator (Some [js "fr-FR"; js "zh-TW"; js "en"]) None)) eq_refl eq_refl).
Defined.
