(* ===== verification/Traffic.v ===== *)
(** * Traffic: quota arithmetic (web/src/traffic.ts, components/TrafficUsageBar.vue)

    Byte counters, billing modes, utilisation and the conversion between bytes
    and the units an administrator edits.  All arithmetic is binary64. *)

From Stdlib Require Import Strings.String.
From S2P Require Import Prelude JsString Binary64 JsNumber I18n.

Open Scope Z_scope.
Open Scope num_scope.

(** ** Units *)

Inductive TrafficMode := Mode_sum | Mode_max | Mode_up | Mode_down.

Inductive TrafficCorrectionUnit := B | KiB | MiB | GiB | TiB.

#[export] Instance TrafficCorrectionUnit_eq_dec : EqDecision TrafficCorrectionUnit.
Proof. solve_decision. Defined.

(** [1024 ** k] bytes. *)
Definition unit_exp (u : TrafficCorrectionUnit) : Z :=
  match u with B => 0 | KiB => 1 | MiB => 2 | GiB => 3 | TiB => 4 end.

Definition trafficCorrectionUnits (u : TrafficCorrectionUnit) : num := pow1024 (#(unit_exp u)).

Definition maximumTrafficLimitGiB : num := floor (#MAX_SAFE_INTEGER / trafficCorrectionUnits GiB).

(** ** Counters and usage *)

Definition counter (value : option num) : num :=
  match value with
  | Some v => if isFinite v then max (#0) v else #0
  | None => #0
  end.

(** [switch (mode)]: only the three named modes are special. *)
Definition parse_mode (mode : option jsstr) : TrafficMode :=
  match mode with
  | Some m => if streq m (js "max") then Mode_max
              else if streq m (js "up") then Mode_up
              else if streq m (js "down") then Mode_down
              else Mode_sum
  | None => Mode_sum
  end.

Definition trafficUsage (rxBytes txBytes : option num) (mode : option jsstr) : num :=
  let rx := counter rxBytes in
  let tx := counter txBytes in
  match parse_mode mode with
  | Mode_max => max rx tx
  | Mode_up => tx
  | Mode_down => rx
  | Mode_sum => rx + tx
  end.

Definition trafficUtilization (usedBytes : num) (limitBytes : option num) : num :=
  let limit := counter limitBytes in
  if eqb limit (#0) then #0
  else min (max (counter (Some usedBytes) / limit * #100) (#0)) (#100).

(** ** Conversions *)

Definition trafficBytesFrom (value : num) (u : TrafficCorrectionUnit) : num :=
  let bytes := round (value * trafficCorrectionUnits u) in
  if isFinite bytes && (value >=? #0) && isSafeInteger bytes then bytes else NaN.

Definition trafficValueInUnit (bytes : num) (u : TrafficCorrectionUnit) : num :=
  let value := counter (Some bytes) / trafficCorrectionUnits u in
  toFixed_number value (if bool_decide (u = B) then 0%nat else 3%nat).

Definition trafficLimitInGiB (bytes : option num) : num :=
  counter bytes / trafficCorrectionUnits GiB.

Definition trafficLimitBytesFromGiB (value : num) : num := trafficBytesFrom value GiB.

Definition suggestedTrafficUnit (values : list num) : TrafficCorrectionUnit :=
  let maximum := max_list (#0) (map (fun v => counter (Some v)) values) in
  if maximum >=? trafficCorrectionUnits TiB then TiB
  else if maximum >=? trafficCorrectionUnits GiB then GiB
  else if maximum >=? trafficCorrectionUnits MiB then MiB
  else if maximum >=? trafficCorrectionUnits KiB then KiB
  else B.

(** ** The usage bar *)

Module UsageBar.

Record props := mkProps {
  trafficLimit : num;
  trafficMode : option jsstr;
  monthlyRxBytes : option num;
  monthlyTxBytes : option num;
}.

Inductive state_ := unavailable | unlimited | metered.
Inductive tone_ := critical | warning | normal.

#[export] Instance state_eq_dec : EqDecision state_.
Proof. solve_decision. Defined.
#[export] Instance tone_eq_dec : EqDecision tone_.
Proof. solve_decision. Defined.

Section Bar.
(** [Intl.NumberFormat(locale, { maximumFractionDigits: 2 }).format]. *)
Context (formatNumber : AppLocale -> num -> jsstr) (locale : AppLocale) (p : props).

Definition quota : num := if isFinite (trafficLimit p) then max (#0) (trafficLimit p) else #0.

Definition finite_opt (v : option num) : bool := match v with Some n => isFinite n | None => false end.

Definition hasUsage : bool := finite_opt (monthlyRxBytes p) && finite_opt (monthlyTxBytes p).

Definition used : num := trafficUsage (monthlyRxBytes p) (monthlyTxBytes p) (trafficMode p).

Definition usedPercent : num := trafficUtilization used (Some quota).

Definition state : state_ :=
  if negb hasUsage then unavailable else if quota <=? #0 then unlimited else metered.

Definition tone : tone_ :=
  if usedPercent >=? #100 then critical else if usedPercent >=? #85 then warning else normal.

Definition roundedPercent : num := round usedPercent.

Definition usedLabel : jsstr :=
  let value := used / trafficCorrectionUnits GiB in
  if (value >? #0) && (value <? of_frac 1 100) then js "<0.01 GiB"
  else (formatNumber locale value ++ js " GiB")%list.

Definition ariaValueText : jsstr :=
  text locale (js "本月已用 " ++ usedLabel ++ js "，配额的 " ++ toString roundedPercent ++ js "%")%list
    (usedLabel ++ js " used this month, " ++ toString roundedPercent ++ js "% of quota")%list.

(** The figures of the heading: a label and the text after it. *)
Definition heading : jsstr * jsstr :=
  match state with
  | metered => (usedLabel, (toString roundedPercent ++ js "%")%list)
  | unlimited => (usedLabel, text locale (js "不限量") (js "Unlimited"))
  | unavailable => (text locale (js "暂无数据") (js "No data"), [])
  end.

(** The width of the meter; the bar is a meter only in the metered state. *)
Definition meter : option (num * jsstr) :=
  match state with
  | metered => Some (roundedPercent, (toString usedPercent ++ js "%")%list)
  | _ => None
  end.

End Bar.
End UsageBar.

(** ** Lemmas: units and counters *)

Lemma unit_value u : trafficCorrectionUnits u = #(1024 ^ unit_exp u).
Proof. by destruct u. Qed.

Lemma unit_range u : 0 < 1024 ^ unit_exp u < 2 ^ 53.
Proof. by destruct u. Qed.

(** A unit is a positive number and a power of two. *)
Lemma unit_spec u : valid (trafficCorrectionUnits u) /\ is_finite (trafficCorrectionUnits u) = true /\
  (ival (trafficCorrectionUnits u) = 1024 ^ unit_exp u * 2 ^ 1074)%Z.
Proof. rewrite unit_value. pose proof (unit_range u). apply of_Z_spec. lia. Qed.

Definition valid_opt (v : option num) : Prop := match v with Some x => valid x | None => True end.

Lemma counter_cases v :
  counter v = #0 \/ exists x, v = Some x /\ counter v = x /\ is_finite x = true /\ (#0 <? x) = true.
Proof.
  destruct v as [x|]; [|by left]. cbn [counter]. unfold isFinite. destruct (is_finite x) eqn:E; [|by left].
  destruct (#0 <? x) eqn:Hp.
  - right. exists x. by rewrite max_0_pos.
  - left. apply max_0_nonpos; [by destruct x|done].
Qed.

Lemma counter_spec v : valid_opt v ->
  valid (counter v) /\ is_finite (counter v) = true /\ 0 <= ival (counter v) /\ sign (counter v) = Some false.
Proof.
  intros Hv. destruct (counter_cases v) as [-> | (x & -> & -> & Hf & Hp)]; [done|].
  pose proof (proj1 (pos_ival x Hv Hf) Hp). split_and!; [done..|lia|].
  destruct x as [[]| | |[] m e]; try done.
Qed.

Lemma counter_id n : 0 <= n < 2 ^ 53 -> counter (Some (#n)) = #n.
Proof.
  intros Hn. cbn [counter]. unfold isFinite. rewrite of_Z_finite by lia.
  destruct (Z.eq_dec n 0) as [->|]; [done|]. apply max_0_pos.
  rewrite ltb_of_Z by lia. apply Z.ltb_lt. lia.
Qed.

(** ** Lemmas: exact scaling by a unit *)

Lemma nonneg_pos_zero x : valid x -> is_finite x = true -> 0 <= ival x ->
  (ival x = 0 /\ exists s, x = S754_zero s) \/ (0 < ival x /\ sign x = Some false).
Proof.
  destruct x as [s| | |s m e]; try done; [left; eauto|].
  intros [Hc _] _. pose proof (mval_pos _ _ Hc). cbn. destruct s; [lia|]. by right.
Qed.

(** Dividing a safe integer by a unit loses nothing: the quotient is the exact
    rational. *)
Lemma div_unit n u : 0 <= n < 2 ^ 53 ->
  let x := #n / trafficCorrectionUnits u in
  valid x /\ is_finite x = true /\ (ival x * 1024 ^ unit_exp u = n * 2 ^ 1074)%Z.
Proof.
  intros Hn x. destruct (unit_spec u) as (Hv & Hf & Hi). pose proof (unit_range u).
  split; [subst x; apply div_valid; auto with hostpin|].
  set (k := (10 * unit_exp u)%Z).
  assert (Hk : (1024 ^ unit_exp u = 2 ^ k)%Z) by (by destruct u).
  assert (0 <= k <= 40) by (by destruct u).
  destruct (repr_signed n (- k)) as (A & HA & FA & VA); [lia..|].
  assert (HAk : (ival A * 2 ^ k = n * 2 ^ 1074)%Z).
  { rewrite VA, <- Z.mul_assoc, <- pow2_split by lia. do 2 f_equal. lia. }
  assert (0 < 2 ^ 1074)%Z by (by apply pow2_pos). pose proof (pow2_pos k ltac:(lia)).
  destruct (div_bounds (#n) (trafficCorrectionUnits u) A A) as [Hfx Hix];
    auto with hostpin; [rewrite Hi; nia| |].
  - rewrite Hi, of_Z_ival, Hk by lia. nia.
  - fold x in Hfx, Hix. split; [done|]. rewrite Hk. nia.
Qed.

(** Multiplying back gives the integer. *)
Lemma mul_unit x n u : 0 <= n < 2 ^ 53 -> valid x -> is_finite x = true ->
  (ival x * 1024 ^ unit_exp u = n * 2 ^ 1074)%Z ->
  valid (x * trafficCorrectionUnits u) /\ is_finite (x * trafficCorrectionUnits u) = true /\
  ival (x * trafficCorrectionUnits u) = (n * 2 ^ 1074)%Z.
Proof.
  intros Hn Hvx Hfx Hx. destruct (unit_spec u) as (Hv & Hf & Hi). pose proof (unit_range u).
  assert (0 < 2 ^ 1074)%Z by (by apply pow2_pos).
  destruct (mul_bounds x (trafficCorrectionUnits u) (#n) (#n)) as [Hfr Hir];
    auto with hostpin; [rewrite Hi; nia| |].
  - rewrite Hi, of_Z_ival by lia. nia.
  - rewrite of_Z_ival in Hir by lia. split_and!; [auto with hostpin|done|lia].
Qed.

Lemma round_integral x n : valid x -> is_finite x = true -> ival x = (n * 2 ^ 1074)%Z ->
  ival (round x) = (n * 2 ^ 1074)%Z.
Proof.
  intros Hv Hf Hi. destruct (round_spec x Hv Hf) as (_ & _ & ->). rewrite Hi. f_equal.
  assert (0 < 2 ^ 1074)%Z by (by apply pow2_pos).
  replace (2 ^ 1075)%Z with (2 * 2 ^ 1074)%Z by (by rewrite <- Z.pow_succ_r by lia).
  symmetry. apply (Z.div_unique_pos _ _ _ (2 ^ 1074)); lia.
Qed.

(** [trafficBytesFrom] on a value that denotes [n] bytes exactly. *)
Lemma trafficBytesFrom_exact x n u : 0 < n < 2 ^ 53 -> valid x -> is_finite x = true ->
  (ival x * 1024 ^ unit_exp u = n * 2 ^ 1074)%Z -> trafficBytesFrom x u = #n.
Proof.
  intros Hn Hv Hf Hx. pose proof (unit_range u). assert (0 < 2 ^ 1074)%Z by (by apply pow2_pos).
  destruct (mul_unit x n u ltac:(lia) Hv Hf Hx) as (Hvm & Hfm & Him).
  unfold trafficBytesFrom. set (b := round _).
  assert (Hb : b = #n).
  { destruct (round_spec _ Hvm Hfm) as (Hvb & Hfb & _). apply ival_of_Z; try done; [lia..|].
    by apply round_integral. }
  rewrite Hb. unfold isFinite. rewrite of_Z_finite, isSafeInteger_of_Z by lia.
  assert (Hnn : (x >=? #0) = true) by (apply (nonneg_ival x Hv Hf); nia).
  by rewrite Hnn.
Qed.

(** ** Properties *)

(** The quotient that [trafficUtilization] clamps. *)
Lemma utilization_quotient c l : valid c -> valid l -> is_finite c = true -> is_finite l = true ->
  0 <= ival c -> 0 < ival l ->
  valid (c / l * #100) /\ nonneg (c / l * #100) = true /\ eqb l (#0) = false.
Proof.
  intros Vc Vl Fc Fl Nc Pl. assert (Hlp : (#0 <? l) = true) by (by apply pos_ival).
  assert (Vd : valid (c / l)) by auto with hostpin.
  assert (Nd : nonneg (c / l) = true) by (apply div_nonneg; try done; by apply nonneg_ival).
  split_and!; [by apply mul_valid|by apply mul_nonneg|].
  unfold eqb, SFeqb. unfold ltb, SFltb in Hlp. rewrite (SFcompare_antisym (#0) l).
  by destruct (SFcompare (#0) l) as [[]|].
Qed.

Lemma trafficUtilization_spec_range used limit : valid used -> valid_opt limit ->
  let r := trafficUtilization used limit in
  valid r /\ (#0 <=? r) = true /\ (r <=? #100) = true /\ sign r = Some false.
Proof.
  intros Hu Hl r. subst r. unfold trafficUtilization.
  destruct (counter_spec limit Hl) as (Vl & Fl & Nl & Sl).
  destruct (counter_spec (Some used) Hu) as (Vu & Fu & Nu & Su).
  set (l := counter limit) in *. set (c := counter (Some used)) in *.
  destruct (nonneg_pos_zero l Vl Fl Nl) as [[Hz [s ->]]|[Hpos _]]; [by destruct s|].
  destruct (utilization_quotient c l) as (Vm & Nm & Hne); try done.
  rewrite Hne, clamp_comm by lia. set (q := c / l * #100) in *.
  split; [|split; [|split]]; [|by apply clamp_range; [|apply nonneg_not_nan]..|].
  - by destruct (clamp_cases 100 q ltac:(lia) (nonneg_not_nan _ Nm)) as [-> | [-> | (-> & _)]].
  - destruct (clamp_cases 100 q ltac:(lia) (nonneg_not_nan _ Nm)) as [-> | [-> | (-> & Hp & _)]]; try done.
    by destruct q as [|[]| |[]].
Qed.



(** The billing modes on exact byte counts. *)
Definition billed (rx tx : Z) (mode : TrafficMode) : Z :=
  match mode with
  | Mode_sum => (rx + tx)%Z
  | Mode_max => Z.max rx tx
  | Mode_up => tx
  | Mode_down => rx
  end.

Lemma max_of_Z a b : 0 <= a < 2 ^ 53 -> 0 <= b < 2 ^ 53 -> max (#a) (#b) = #(Z.max a b).
Proof.
  intros Ha Hb. unfold max.
  assert (Hn : forall n, 0 <= n < 2 ^ 53 -> isNaN (#n) = false).
  { intros n Hn. pose proof (of_Z_finite n ltac:(lia)). by destruct (#n). }
  assert (Hz : forall n, 0 <= n < 2 ^ 53 -> is_neg_zero (#n) = false).
  { intros n Hz. pose proof (of_Z_sign n ltac:(lia)) as Hs. destruct (Z.ltb_spec n 0); [lia|].
    by destruct (#n) as [[]| | |]. }
  rewrite !Hn, !ltb_of_Z, Hz by lia. cbn [orb].
  destruct (Z.ltb_spec a b), (Z.ltb_spec b a); try lia; f_equal; lia.
Qed.

(** On non-negative counters whose sum is a safe integer, the usage is
    exactly the billed number of bytes of the selected mode. *)
Theorem trafficUsage_exact rx tx mode :
  0 <= rx -> 0 <= tx -> rx + tx < 2 ^ 53 ->
  trafficUsage (Some (#rx)) (Some (#tx)) mode = #(billed rx tx (parse_mode mode)).
Proof.
  intros Hr Ht Hs. unfold trafficUsage. rewrite !counter_id by lia.
  destruct (parse_mode mode); cbn [billed]; [|by apply max_of_Z; lia|done..].
  destruct (Z.eq_dec (rx + tx) 0) as [H0|H0]; [by assert (rx = 0 /\ tx = 0) as [-> ->] by lia|].
  destruct (add_of_Z rx tx) as [Hf Hi]; [lia..|].
  apply ival_of_Z; try done; [|lia]. apply add_valid; apply of_Z_valid; lia.
Qed.

Lemma trafficUsage_exact_witness :
  trafficUsage (Some (#600)) (Some (#300)) (Some (js "max")) = #600.
Proof. apply (trafficUsage_exact 600 300 (Some (js "max"))); lia. Defined.

Lemma limit_kept n : 0 <= n <= MAX_SAFE_INTEGER ->
  trafficLimitBytesFromGiB (trafficLimitInGiB (Some (#n))) = #n.
Proof.
  unfold MAX_SAFE_INTEGER. intros Hn. unfold trafficLimitBytesFromGiB, trafficLimitInGiB.
  rewrite counter_id by lia. destruct (Z.eq_dec n 0) as [->|]; [done|].
  destruct (div_unit n GiB ltac:(lia)) as (Hv & Hf & Hi). apply trafficBytesFrom_exact; try done. lia.
Qed.

(** A stored quota survives the editor: converting any byte count of a safe
    integer to GiB and back gives the same byte count. *)
Theorem trafficLimit_roundtrip n : 0 <= n <= MAX_SAFE_INTEGER ->
  trafficLimitBytesFromGiB (trafficLimitInGiB (Some (#n))) = #n.
Proof. apply limit_kept. Qed.

Lemma trafficLimit_roundtrip_witness :
  trafficLimitBytesFromGiB (trafficLimitInGiB (Some (#123456789))) = #123456789.
Proof. apply (trafficLimit_roundtrip 123456789). unfold MAX_SAFE_INTEGER. lia. Defined.

(** Multiplying an integer by a unit is exact even beyond the safe range. *)
Lemma mul_unit_big g u : 0 < g < 2 ^ 53 ->
  valid (#g * trafficCorrectionUnits u) /\ is_finite (#g * trafficCorrectionUnits u) = true /\
  ival (#g * trafficCorrectionUnits u) = (g * 1024 ^ unit_exp u * 2 ^ 1074)%Z.
Proof.
  intros Hg. destruct (unit_spec u) as (Hv & Hf & Hi). pose proof (unit_range u).
  set (k := (10 * unit_exp u)%Z).
  assert (Hk : (1024 ^ unit_exp u = 2 ^ k)%Z) by (by destruct u).
  assert (0 <= k <= 40) by (by destruct u).
  destruct (repr_signed g k) as (A & HA & FA & VA); [lia..|].
  assert (HAk : (ival A = g * 2 ^ k * 2 ^ 1074)%Z) by (rewrite VA, pow2_split by lia; lia).
  assert (0 < 2 ^ 1074)%Z by (by apply pow2_pos). pose proof (pow2_pos k ltac:(lia)).
  destruct (mul_bounds (#g) (trafficCorrectionUnits u) A A) as [Hfr Hir];
    auto with hostpin; [rewrite Hi; nia| |].
  - rewrite Hi, of_Z_ival, Hk, HAk by lia. nia.
  - rewrite Hk. split_and!; [apply mul_valid; [apply of_Z_valid; lia|done]|done|lia].
Qed.

(** For every whole number of GiB the quota is accepted exactly up to the
    advertised maximum and is NaN (rejected by the editor) for any other safe
    integer, negative ones included. *)
Theorem trafficLimitBytesFromGiB_whole g : Z.abs g < 2 ^ 53 ->
  trafficLimitBytesFromGiB (#g)
  = if Z.leb 0 g && (#g <=? maximumTrafficLimitGiB) then #(g * 1024 ^ 3) else NaN.
Proof.
  intros Hg. change maximumTrafficLimitGiB with (#8388607). rewrite leb_of_Z by lia.
  unfold trafficLimitBytesFromGiB, trafficBytesFrom. change (1024 ^ 3)%Z with (1024 ^ unit_exp GiB)%Z.
  assert (Hge : (#g >=? #0) = Z.leb 0 g) by (unfold geb; apply (leb_of_Z 0 g); lia).
  rewrite Hge. destruct (Z.leb_spec 0 g) as [Hp|Hp]; [|by rewrite andb_false_r].
  destruct (Z.eq_dec g 0) as [->|Hnz]; [done|].
  destruct (mul_unit_big g GiB ltac:(lia)) as (Hv & Hf & Hi).
  destruct (round_spec _ Hv Hf) as (Hvr & Hfr & _).
  pose proof (round_integral _ _ Hv Hf Hi) as Hir. set (b := round _) in *.
  unfold isFinite. rewrite Hfr. cbn [andb]. unfold isSafeInteger.
  rewrite (to_Z_complete _ _ Hvr Hfr Hir). change (1024 ^ unit_exp GiB)%Z with 1073741824%Z in *.
  unfold MAX_SAFE_INTEGER. destruct (Z.leb_spec g 8388607), (Z.leb_spec (Z.abs (g * 1073741824)) (2 ^ 53 - 1));
    try lia; [|done]. apply ival_of_Z; try done; lia.
Qed.

Lemma trafficLimitBytesFromGiB_whole_witness :
  trafficLimitBytesFromGiB (#8388608) = NaN /\ trafficLimitBytesFromGiB (#1000) = #1073741824000.
Proof.
  split; [rewrite (trafficLimitBytesFromGiB_whole 8388608) by lia
         |rewrite (trafficLimitBytesFromGiB_whole 1000) by lia]; vm_compute; reflexivity.
Defined.

Lemma max_list_of_Z ns : forall a, 0 <= a < 2 ^ 53 -> Forall (fun n => 0 <= n < 2 ^ 53) ns ->
  max_list (#a) (map (fun v => counter (Some v)) (map of_Z ns)) = #(fold_left Z.max ns a)
  /\ 0 <= fold_left Z.max ns a < 2 ^ 53.
Proof.
  induction ns as [|n ns IH]; intros a Ha Hns; [done|]. inversion_clear Hns as [|? ? Hn Hns'].
  unfold max_list. cbn [map fold_left]. rewrite counter_id, max_of_Z by done. apply IH; [lia|done].
Qed.

(** For safe byte counts the suggested unit is the largest one that does not
    exceed the greatest count (bytes when even a KiB does). *)
Theorem suggestedTrafficUnit_largest ns : Forall (fun n => 0 <= n < 2 ^ 53) ns ->
  let m := fold_left Z.max ns 0 in
  let u := suggestedTrafficUnit (map of_Z ns) in
  (u = B \/ 1024 ^ unit_exp u <= m) /\ (u = TiB \/ m < 1024 ^ (unit_exp u + 1)).
Proof.
  intros Hns m u. subst u. unfold suggestedTrafficUnit.
  destruct (max_list_of_Z ns 0 ltac:(lia) Hns) as [-> Hm]. fold m. fold m in Hm.
  unfold geb. rewrite !unit_value. fold leb. change SFleb with leb.
  rewrite !leb_of_Z by (cbn; lia). cbn [unit_exp].
  destruct (Z.leb_spec (1024 ^ 4) m); [split; [by right|by left]|].
  destruct (Z.leb_spec (1024 ^ 3) m); [by split; right|].
  destruct (Z.leb_spec (1024 ^ 2) m); [by split; right|].
  destruct (Z.leb_spec (1024 ^ 1) m); [by split; right|]. split; [by left|by right].
Qed.

Lemma suggestedTrafficUnit_largest_witness :
  let u := suggestedTrafficUnit (map of_Z [500; (8 * 1024 ^ 2)%Z]) in
  u = MiB /\ (u = TiB \/ (8 * 1024 ^ 2 < 1024 ^ (unit_exp u + 1))%Z).
Proof.
  split; [reflexivity|].
  apply (suggestedTrafficUnit_largest [500; (8 * 1024 ^ 2)%Z]). repeat constructor; lia.
Defined.

(** ** The meter of the usage bar *)

Lemma of_Z_leb_inv x hi : valid x -> 0 <= hi < 2 ^ 53 ->
  (#0 <=? x) = true -> (x <=? #hi) = true -> is_finite x = true /\ 0 <= ival x <= hi * 2 ^ 1074.
Proof.
  intros Hv Hhi H0 H1. pose proof (of_Z_finite hi ltac:(lia)) as Fh.
  assert (Hf : is_finite x = true).
  { destruct x as [|[]| |]; try done. by destruct (#hi) as [| | |[]]. }
  apply leb_ival_iff in H0, H1; try done; [|apply of_Z_valid; lia].
  rewrite of_Z_ival in H1 by lia. done.
Qed.

Lemma round_range x hi : valid x -> 0 <= hi < 2 ^ 53 -> sign x = Some false ->
  is_finite x = true -> ival x <= hi * 2 ^ 1074 -> exists k, 0 <= k <= hi /\ round x = #k.
Proof.
  intros Hv Hhi Hs Hf Hi. pose proof (sign_ival _ _ Hs Hv : 0 <= ival x) as H0.
  destruct (round_spec x Hv Hf) as (Hvr & Hfr & Hir). assert (0 < 2 ^ 1074)%Z by (by apply pow2_pos).
  assert (E : (2 ^ 1075 = 2 * 2 ^ 1074)%Z) by (by rewrite <- Z.pow_succ_r by lia).
  set (k := ((2 * ival x + 2 ^ 1074) / 2 ^ 1075)%Z) in *.
  assert (0 <= k) by (apply Z.div_pos; lia).
  assert (k < hi + 1) by (apply Z.div_lt_upper_bound; lia).
  exists k. split; [lia|]. apply ival_inj; try done; [apply of_Z_valid; lia|apply of_Z_finite; lia| |].
  - rewrite round_sign, of_Z_sign by (done || lia). by destruct (Z.ltb_spec k 0); [lia|].
  - by rewrite Hir, of_Z_ival by lia.
Qed.

Lemma trafficUsage_valid rx tx mode : valid_opt rx -> valid_opt tx -> valid (trafficUsage rx tx mode).
Proof.
  intros Hr Ht. destruct (counter_spec rx Hr) as (Vr & _). destruct (counter_spec tx Ht) as (Vt & _).
  unfold trafficUsage. destruct (parse_mode mode); auto with hostpin.
Qed.

Lemma trafficUtilization_cases used limit : valid used -> valid_opt limit ->
  let r := trafficUtilization used limit in
  valid r /\ is_finite r = true /\ sign r = Some false /\ ival r <= 100 * 2 ^ 1074.
Proof.
  intros Hu Hl r. destruct (trafficUtilization_spec_range used limit Hu Hl) as (Hv & H0 & H1 & Hs).
  destruct (of_Z_leb_inv r 100 Hv ltac:(lia) H0 H1). split_and!; try done. lia.
Qed.

Definition valid_props (p : UsageBar.props) : Prop :=
  valid (UsageBar.trafficLimit p) /\ valid_opt (UsageBar.monthlyRxBytes p) /\ valid_opt (UsageBar.monthlyTxBytes p).

(** The bar is an ARIA meter exactly when usage is known and a positive
    quota is set, and then its value is a whole number of percent in [0, 100]. *)
Theorem meter_in_range p : valid_props p ->
  match UsageBar.meter p with
  | Some (value, _) => exists k, 0 <= k <= 100 /\ value = #k
  | None => UsageBar.hasUsage p = false \/ (UsageBar.quota p <=? #0) = true
  end.
Proof.
  intros (Hl & Hr & Ht). unfold UsageBar.meter, UsageBar.state.
  destruct (UsageBar.hasUsage p); [|by left]. destruct (UsageBar.quota p <=? #0) eqn:E; [by right|].
  cbn [negb]. assert (Hq : valid (UsageBar.quota p)).
  { unfold UsageBar.quota. change (valid (counter (Some (UsageBar.trafficLimit p)))).
    by apply (counter_spec (Some _)). }
  destruct (trafficUtilization_cases (UsageBar.used p) (Some (UsageBar.quota p))) as (Hv & Hf & Hs & Hi);
    [by apply trafficUsage_valid|done|]. by apply round_range.
Qed.

Definition sample_props : UsageBar.props :=
  UsageBar.mkProps (#1000) (Some (js "sum")) (Some (#600)) (Some (#300)).

Lemma meter_in_range_witness : UsageBar.meter sample_props = Some (#90, js "90%")
  /\ exists k, 0 <= k <= 100 /\ #90 = #k.
Proof.
  split; [vm_compute; reflexivity|].
  assert (H : valid_props sample_props) by (split; [|split]; by apply of_Z_valid).
  exact (meter_in_range sample_props H).
Defined.

Lemma div_one n : 0 < n < 2 ^ 53 -> #n / trafficCorrectionUnits B = #n.
Proof.
  intros Hn. destruct (div_unit n B ltac:(lia)) as (Hv & Hf & Hi). change (1024 ^ unit_exp B)%Z with 1%Z in Hi.
  apply ival_of_Z; try done; lia.
Qed.

(** A correction edited in bytes is exact: any safe byte count shown in the
    unit B is sent back unchanged. *)
Theorem correction_bytes_roundtrip n : 0 <= n <= MAX_SAFE_INTEGER ->
  trafficBytesFrom (trafficValueInUnit (#n) B) B = #n.
Proof.
  unfold MAX_SAFE_INTEGER. intros Hn. destruct (Z.eq_dec n 0) as [->|]; [done|].
  unfold trafficValueInUnit. rewrite counter_id, div_one by lia.
  rewrite bool_decide_eq_true_2, toFixed_number_of_Z by (done || lia).
  apply trafficBytesFrom_exact; [lia|apply of_Z_valid; lia|apply of_Z_finite; lia|].
  rewrite of_Z_ival by lia. change (1024 ^ unit_exp B)%Z with 1%Z. lia.
Qed.

Lemma correction_bytes_roundtrip_witness :
  trafficBytesFrom (trafficValueInUnit (#9007199254740991) B) B = #9007199254740991.
Proof. apply (correction_bytes_roundtrip 9007199254740991). unfold MAX_SAFE_INTEGER. lia. Defined.

(** A correction edited in a larger unit is not exact: three decimals of a
    GiB cannot express a single byte, so 1 byte becomes 0 and the 1 536 bytes
    shown in GiB are sent back as 0. *)
Theorem correction_units_lose_bytes :
  trafficBytesFrom (trafficValueInUnit (#1) GiB) GiB = #0 /\
  trafficBytesFrom (trafficValueInUnit (#1536) GiB) GiB = #0 /\
  trafficBytesFrom (trafficValueInUnit (#1073742000) GiB) GiB = #1073741824.
Proof. vm_compute. split_and!; reflexivity. Qed.
