(* ===== verification/Types.v ===== *)
(** * Types: the data the server sends (web/src/types.ts)

    One Module per TypeScript interface, with the interface's fields under
    their own names: [string] is [jsstr], [number] is [num], [x?: T] is
    [option T], [T[]] is [list T], a string record is an association list in
    property order.  Unions of literals are inductive types.  [unknown] is a
    JSON value. *)

From Stdlib Require Import Strings.String.
From S2P Require Import Prelude JsString Binary64 JsNumber.

(** JSON values; object members keep their order. *)
Inductive json :=
| JNull
| JBool (b : bool)
| JNum (n : num)
| JStr (s : jsstr)
| JArr (l : list json)
| JObj (m : list (jsstr * json)).

Module SiteSettings.
Record t := mk {
  name : jsstr; description : jsstr; private : bool; enrollment_enabled : bool;
  enrollment_pin_weak : bool; theme : jsstr; record_enabled : bool;
  raw_retention_hours : num; five_minute_retention_hours : num; hourly_retention_hours : num;
  geoip_enabled : bool; geoip_provider : jsstr; custom_head : option jsstr; custom_body : option jsstr;
  theme_market_sources : option (list jsstr);
}.
End SiteSettings.

Module TemporaryEnrollmentPIN.
Inductive status_ := active | used | expired | revoked.
#[export] Instance status_eq_dec : EqDecision status_.
Proof. solve_decision. Defined.
Record t := mk {
  id : jsstr; pin : option jsstr; status : status_; created_at : jsstr; expires_at : jsstr;
  used_at : option jsstr; revoked_at : option jsstr;
}.
End TemporaryEnrollmentPIN.

Inductive node_role := monitor | probe.
#[export] Instance node_role_eq_dec : EqDecision node_role.
Proof. solve_decision. Defined.

Module PublicNode.
Record t := mk {
  id : jsstr; role : node_role; latency_enabled : bool; name : jsstr; group : option jsstr;
  region : option jsstr; country_code : option jsstr; latitude : option num; longitude : option num;
  tags : list jsstr; public_remark : option jsstr; hidden : bool; weight : num; price : num;
  currency : jsstr; billing_cycle_days : num; expires_at : option jsstr; auto_renewal : bool;
  traffic_limit : num; traffic_limit_type : jsstr; traffic_reset_day : num; os : option jsstr;
  arch : option jsstr; cpu_name : option jsstr; cpu_cores : option num; virtualization : option jsstr;
  kernel_version : option jsstr; created_at : jsstr; updated_at : jsstr; last_seen_at : option jsstr;
  online : bool;
}.
(** [node.online = b]. *)
Definition set_online (n : t) (b : bool) : t :=
  mk (id n) (role n) (latency_enabled n) (name n) (group n) (region n) (country_code n) (latitude n)
    (longitude n) (tags n) (public_remark n) (hidden n) (weight n) (price n) (currency n)
    (billing_cycle_days n) (expires_at n) (auto_renewal n) (traffic_limit n) (traffic_limit_type n)
    (traffic_reset_day n) (os n) (arch n) (cpu_name n) (cpu_cores n) (virtualization n)
    (kernel_version n) (created_at n) (updated_at n) (last_seen_at n) b.
End PublicNode.

(** [AdminNode extends PublicNode]. *)
Module AdminNode.
Record t := mk {
  base : PublicNode.t; hostname : option jsstr; private_remark : option jsstr;
  agent_version : option jsstr; ipv4 : option jsstr; ipv6 : option jsstr;
}.
End AdminNode.

Module TrafficCorrectionStatus.
Record t := mk {
  available : bool; active : bool; period_start : jsstr; sample_received_at : option jsstr;
  raw_rx_bytes : num; raw_tx_bytes : num; rx_bytes : num; tx_bytes : num;
  rx_adjustment : num; tx_adjustment : num; updated_at : option jsstr;
}.
End TrafficCorrectionStatus.

Module AgentConfig.
Record t := mk {
  collect_interval_seconds : num; persist_interval_seconds : num;
  include_nics : option (list jsstr); exclude_nics : option (list jsstr);
  include_mountpoints : option (list jsstr); enable_gpu : bool; auto_update : bool;
  probe_concurrency : num; config_version : num;
}.
End AgentConfig.

Module DiskMetric.
Record t := mk {
  mountpoint : jsstr; filesystem : option jsstr; total : num; used : num;
  read_bps : option num; write_bps : option num; read_iops : option num; write_iops : option num;
}.
End DiskMetric.

Module NetworkMetric.
Record t := mk { interface : jsstr; rx_bps : num; tx_bps : num; rx_bytes : num; tx_bytes : num }.
End NetworkMetric.

Module GPUMetric.
Record t := mk {
  index : num; name : jsstr; utilization : num; memory_total : option num;
  memory_used : option num; temperature : option num;
}.
End GPUMetric.

Module MetricSample.
Record t := mk {
  node_id : option jsstr; sequence : num; collected_at : jsstr; received_at : option jsstr;
  boot_id : option jsstr; clock_offset_ms : option num; cpu : num; load1 : num; load5 : num;
  load15 : num; memory_total : num; memory_used : num; swap_total : num; swap_used : num;
  disk_total : num; disk_used : num; net_rx_bps : num; net_tx_bps : num; net_rx_bytes : num;
  net_tx_bytes : num; monthly_rx_bytes : option num; monthly_tx_bytes : option num;
  tcp_connections : num; udp_connections : num; processes : num; temperature : option num;
  uptime_seconds : num; disks : option (list DiskMetric.t); networks : option (list NetworkMetric.t);
  gpus : option (list GPUMetric.t); message : option jsstr;
}.
End MetricSample.

Module NodeSnapshot.
Record t := mk { node : PublicNode.t; metric : option MetricSample.t }.
(** [item.node.online = b] and [item.metric = m]. *)
Definition set_online (s : t) (b : bool) : t := mk (PublicNode.set_online (node s) b) (metric s).
Definition set_metric (s : t) (m : MetricSample.t) : t := mk (node s) (Some m).
Definition id (s : t) : jsstr := PublicNode.id (node s).
Definition online (s : t) : bool := PublicNode.online (node s).
End NodeSnapshot.

Module ProbeTask.
Inductive type_ := icmp | tcp | http | dns.
Inductive purpose_ := custom | latency | carrier_telecom | carrier_unicom | carrier_mobile.
#[export] Instance type_eq_dec : EqDecision type_.
Proof. solve_decision. Defined.
#[export] Instance purpose_eq_dec : EqDecision purpose_.
Proof. solve_decision. Defined.
(** The string of a purpose. *)
Definition purpose_str (p : purpose_) : jsstr :=
  match p with
  | custom => js "custom" | latency => js "latency"
  | carrier_telecom => js "carrier.telecom" | carrier_unicom => js "carrier.unicom"
  | carrier_mobile => js "carrier.mobile"
  end.

Record t := mk {
  id : num; name : jsstr; type : type_; target : jsstr; interval_seconds : num;
  timeout_seconds : num; expected_status : option num; expected_value : option jsstr;
  node_ids : option (list jsstr); purpose : option purpose_; run_on : option node_role;
  target_node_id : option jsstr; public : bool; samples : num; enabled : bool;
  created_at : option jsstr; updated_at : option jsstr;
}.
End ProbeTask.

Module ProbeResult.
Record t := mk {
  node_id : option jsstr; task_id : num; collected_at : jsstr; received_at : option jsstr;
  success : bool; latency_ms : num; loss_percent : num; status_code : option num;
  value : option jsstr; error : option jsstr;
}.
End ProbeResult.

Module PublicProbeSnapshot.
Record t := mk { task : ProbeTask.t; results : list ProbeResult.t }.
End PublicProbeSnapshot.

Module LatencyProbeNode.
Record t := mk {
  id : jsstr; name : jsstr; region : option jsstr; country_code : option jsstr; tags : list jsstr;
  os : option jsstr; arch : option jsstr; last_seen_at : option jsstr; online : bool;
}.
End LatencyProbeNode.

Module LatencyTarget.
Inductive type_ := icmp | tcp.
Record t := mk {
  task_id : num; node : PublicNode.t; type : type_; interval_seconds : num; samples : num;
}.
End LatencyTarget.

Module LatencyResult.
Record t := mk {
  probe_node_id : jsstr; target_node_id : jsstr; task_id : num; collected_at : jsstr;
  received_at : jsstr; success : bool; latency_ms : num; loss_percent : num; error : option jsstr;
}.
End LatencyResult.

Module LatencyWindowSummary.
Record t := mk {
  average_latency_ms : num; average_loss_percent : num; sample_count : num; success_count : num;
}.
End LatencyWindowSummary.

Module LatencyOverview.
Record t := mk {
  probe_nodes : list LatencyProbeNode.t; targets : list LatencyTarget.t;
  latest : list LatencyResult.t; offline_after_ms : num;
}.
End LatencyOverview.

Module AlertScope.
Record t := mk {
  groups : option (list jsstr); node_ids : option (list jsstr); excluded_node_ids : option (list jsstr);
}.
End AlertScope.

Module AlertRule.
Inductive severity_ := info | warning | critical.
Record t := mk {
  id : num; name : jsstr; metric : jsstr; operator : jsstr; threshold : num;
  recovery_threshold : num; duration_seconds : num; cooldown_seconds : num;
  severity : severity_; scope : AlertScope.t; enabled : bool;
  created_at : option jsstr; updated_at : option jsstr;
}.
End AlertRule.

Module AlertEvent.
Inductive status_ := firing | resolved.
#[export] Instance status_eq_dec : EqDecision status_.
Proof. solve_decision. Defined.
Record t := mk {
  event_id : jsstr; type : jsstr; status : status_; severity : jsstr; occurred_at : jsstr;
  node : PublicNode.t; metric : jsstr; value : num; threshold : num; link : jsstr; message : jsstr;
}.
End AlertEvent.

Module NotificationChannel.
Inductive type_ := smtp | telegram | bark | webhook.
#[export] Instance type_eq_dec : EqDecision type_.
Proof. solve_decision. Defined.
Record t := mk {
  id : num; name : jsstr; type : type_; config : option (list (jsstr * json)); enabled : bool;
  created_at : option jsstr; updated_at : option jsstr;
}.
End NotificationChannel.

(** [string | Record<string, string>]. *)
Inductive localizable := LStr (s : jsstr) | LMap (m : list (jsstr * jsstr)).

Module ThemeManifest.
Inductive config_type := managed | raw | redirect.
#[export] Instance config_type_eq_dec : EqDecision config_type.
Proof. solve_decision. Defined.
Record configuration_ := mkConfiguration {
  type : option config_type; icon : option jsstr; config_name : option json; data : option json;
}.
Record t := mk {
  name : localizable; short : jsstr; description : option localizable; version : option jsstr;
  author : option localizable; url : option jsstr; preview : option jsstr;
  configuration : option configuration_;
}.
End ThemeManifest.

Module Theme.
Record t := mk {
  manifest : ThemeManifest.t; settings : list (jsstr * json); source_url : option jsstr;
  checksum : jsstr; installed_at : jsstr; updated_at : jsstr;
}.
End Theme.

Module AuditEntry.
Record t := mk {
  id : num; actor : jsstr; action : jsstr; target : jsstr; detail : jsstr; occurred_at : jsstr;
}.
End AuditEntry.

(** Settings of a site, for examples. *)
Definition a_site : SiteSettings.t :=
  SiteSettings.mk (js "Hostpin") [] false true false (js "default") true (#24) (#720) (#8760) false [] None None
    (Some [js "https://a.example/themes.json"; js "https://b.example/themes.json"]).
