(* ===== verification/Json.v ===== *)
(** * Json: JSON.stringify, JSON.parse and Number(string)

    The texts of ECMA-404 on UTF-16 strings: [stringify] prints as the standard
    does (lone surrogates escaped), [parse] reads with the grammar of the
    standard and gives [None] for a SyntaxError.  A number is read to the nearest
    binary64 number.  Objects keep the order of their members; of two members
    with one name the later value counts. *)

From Stdlib Require Import Strings.String.
From S2P Require Import Prelude JsString Binary64 JsNumber Types.

Open Scope Z_scope.

(** ** Objects *)

Definition object := list (jsstr * json).

(** [o.key], and [o.key = v]: a new member comes last. *)
Definition member (key : jsstr) (o : object) : option json := snd <$> List.find (fun kv => streq kv.1 key) o.

Fixpoint assign (key : jsstr) (v : json) (o : object) : object :=
  match o with
  | [] => [(key, v)]
  | (k, w) :: o' => if streq k key then (k, v) :: o' else (k, w) :: assign key v o'
  end.

Lemma member_assign key v o : member key (assign key v o) = Some v.
Proof.
  unfold member. induction o as [|[k w] o IH]; cbn; [by rewrite streq_refl|]. destruct (streq k key) eqn:E; cbn; by rewrite E.
Qed.

Lemma assign_assign key v w o : assign key v (assign key w o) = assign key v o.
Proof.
  induction o as [|[k u] o IH]; cbn; [by rewrite streq_refl|]. destruct (streq k key) eqn:E; cbn; rewrite E; [done|by rewrite IH].
Qed.

Lemma assign_same key v o : member key o = Some v -> assign key v o = o.
Proof.
  unfold member. induction o as [|[k u] o IH]; cbn; [done|]. destruct (streq k key) eqn:E; cbn; [by intros [= ->]|].
  intros H. by rewrite IH.
Qed.

Lemma member_assign_ne key key' v o : key <> key' -> member key (assign key' v o) = member key o.
Proof.
  intros Hne. unfold member. induction o as [|[k w] o IH]; cbn.
  - destruct (streq key' key) eqn:E; [by apply streq_eq in E|done].
  - destruct (streq k key') eqn:E; cbn; [|destruct (streq k key); [done|exact IH]].
    apply streq_eq in E as ->. destruct (streq key' key) eqn:E; [by apply streq_eq in E|done].
Qed.

(** ** Decimal literals *)

Definition is_digit (c : N) : bool := (48 <=? c)%N && (c <=? 57)%N.

(** The longest prefix of units that satisfy [f], and the rest. *)
Fixpoint span (f : N -> bool) (s : jsstr) : jsstr * jsstr :=
  match s with
  | c :: s' => if f c then let '(a, b) := span f s' in (c :: a, b) else ([], s)
  | [] => ([], [])
  end.

(** The integer that decimal digits stand for. *)
Definition nat_of_digits (s : jsstr) : Z := fold_left (fun n c => 10 * n + (Z.of_N c - 48)) s 0.

(** [d * 10 ^ e], rounded to the nearest number. *)
Definition scaled (neg : bool) (d e : Z) : num :=
  if d =? 0 then S754_zero neg
  else let d := if neg then - d else d in
       if 0 <=? e then of_Z (d * 10 ^ e) else of_frac d (Z.to_pos (10 ^ (- e))).

(** The exponent part at the end of a literal: nothing is 0. *)
Definition exponent (s : jsstr) : option Z :=
  match s with
  | [] => Some 0
  | c :: s' =>
      if (c =? 101)%N || (c =? 69)%N then
        let '(neg, ds) := match s' with
                          | x :: r => if (x =? 45)%N then (true, r) else if (x =? 43)%N then (false, r) else (false, s')
                          | [] => (false, [])
                          end in
        if truthy ds && forallb is_digit ds then Some (if neg then - nat_of_digits ds else nat_of_digits ds) else None
      else None
  end.

(** The fraction: [None] when there is no point. *)
Definition fraction (s : jsstr) : option jsstr * jsstr :=
  match s with
  | c :: s' => if (c =? 46)%N then let '(fs, r) := span is_digit s' in (Some fs, r) else (None, s)
  | [] => (None, [])
  end.

(** A number of JSON: no leading zero, digits on both sides of a point. *)
Definition decimal (s : jsstr) : option num :=
  let '(neg, s) := match s with c :: s' => if (c =? 45)%N then (true, s') else (false, s) | [] => (false, s) end in
  let '(ints, s) := span is_digit s in
  let '(frac, s) := fraction s in
  let lead := match ints with [] => false | [_] => true | c :: _ => negb (c =? 48)%N end in
  let fs := nullish frac [] in
  if lead && match frac with Some [] => false | _ => true end
  then e ← exponent s; Some (scaled neg (nat_of_digits (ints ++ fs)) (e - Z.of_nat (length fs)))
  else None.

(** ** Number(string) *)

Fixpoint digits_in (base : Z) (s : jsstr) (acc : Z) : option Z :=
  match s with
  | [] => Some acc
  | c :: s' =>
      let c := Z.of_N c in
      let d := if (48 <=? c) && (c <=? 57) then c - 48
               else if (97 <=? c) && (c <=? 122) then c - 87
               else if (65 <=? c) && (c <=? 90) then c - 55 else base in
      if d <? base then digits_in base s' (base * acc + d) else None
  end.

(** A decimal literal of StringToNumber: a sign, leading zeros and a point at
    either end are allowed; there is at least one digit. *)
Definition str_decimal (s : jsstr) : option num :=
  let '(neg, s) := match s with
                   | c :: s' => if (c =? 45)%N then (true, s') else if (c =? 43)%N then (false, s') else (false, s)
                   | [] => (false, s)
                   end in
  if streq s (js "Infinity") then Some (S754_infinity neg)
  else
    let '(ints, s) := span is_digit s in
    let '(frac, s) := fraction s in
    let fs := nullish frac [] in
    if truthy (ints ++ fs)%list
    then e ← exponent s; Some (scaled neg (nat_of_digits (ints ++ fs)) (e - Z.of_nat (length fs)))
    else None.

Definition Number (s : jsstr) : num :=
  match trim s with
  | [] => S754_zero false
  | c :: b :: d :: ds =>
      let radix := if negb (c =? 48)%N then 0 else if (b =? 120)%N || (b =? 88)%N then 16
                   else if (b =? 111)%N || (b =? 79)%N then 8 else if (b =? 98)%N || (b =? 66)%N then 2 else 0 in
      if 0 <? radix then nullish (of_Z <$> digits_in radix (d :: ds) 0) NaN
      else nullish (str_decimal (c :: b :: d :: ds)) NaN
  | t => nullish (str_decimal t) NaN
  end.

(** ** Strings *)

Definition hex_digit (n : N) : N := (if n <? 10 then 48 + n else 87 + n)%N.
Definition unicode_escape (c : N) : jsstr :=
  [92; 117; hex_digit (c / 4096 mod 16); hex_digit (c / 256 mod 16); hex_digit (c / 16 mod 16); hex_digit (c mod 16)]%N.

Definition is_high (c : N) : bool := ((55296 <=? c) && (c <=? 56319))%N.
Definition is_low (c : N) : bool := ((56320 <=? c) && (c <=? 57343))%N.

(** The letter of a two-unit escape. *)
Definition short_escape (c : N) : option N :=
  if (c =? 8)%N then Some 98%N else if (c =? 9)%N then Some 116%N else if (c =? 10)%N then Some 110%N
  else if (c =? 12)%N then Some 102%N else if (c =? 13)%N then Some 114%N
  else if (c =? 34)%N then Some 34%N else if (c =? 92)%N then Some 92%N else None.

(** [paired] tells that the unit before is the first of a surrogate pair. *)
Fixpoint escape (paired : bool) (s : jsstr) : jsstr :=
  match s with
  | [] => []
  | c :: s' =>
      let next_low := match s' with d :: _ => is_low d | [] => false end in
      match short_escape c with
      | Some e => 92%N :: e :: escape false s'
      | None =>
          if (c <? 32)%N || (is_high c && negb next_low) || (is_low c && negb paired)
          then (unicode_escape c ++ escape false s')%list
          else c :: escape (is_high c) s'
      end
  end.

Definition quote (s : jsstr) : jsstr := (34%N :: escape false s ++ [34%N])%list.

Definition hex_value (c : N) : option N :=
  (if (48 <=? c) && (c <=? 57) then Some (c - 48)
   else if (97 <=? c) && (c <=? 102) then Some (c - 87)
   else if (65 <=? c) && (c <=? 70) then Some (c - 55) else None)%N.

Definition hex4 (a b c d : N) : option N :=
  a ← hex_value a; b ← hex_value b; c ← hex_value c; d ← hex_value d; Some (a * 4096 + b * 256 + c * 16 + d)%N.

Definition unescape (e : N) : option N :=
  (if (e =? 34) || (e =? 92) || (e =? 47) then Some e
   else if e =? 98 then Some 8 else if e =? 102 then Some 12 else if e =? 110 then Some 10
   else if e =? 114 then Some 13 else if e =? 116 then Some 9 else None)%N.

(** A string after its opening quote: its units and what follows it. *)
Fixpoint unquote (s : jsstr) : option (jsstr * jsstr) :=
  match s with
  | [] => None
  | c :: s' =>
      if (c =? 34)%N then Some ([], s')
      else if (c =? 92)%N then
        match s' with
        | e :: s'' =>
            if (e =? 117)%N then
              match s'' with
              | h1 :: h2 :: h3 :: h4 :: t => u ← hex4 h1 h2 h3 h4; '(r, t) ← unquote t; Some (u :: r, t)
              | _ => None
              end
            else u ← unescape e; '(r, t) ← unquote s''; Some (u :: r, t)
        | [] => None
        end
      else if (c <? 32)%N then None
      else '(r, t) ← unquote s'; Some (c :: r, t)
  end.

(** ** Values *)

Fixpoint stringify (v : json) : jsstr :=
  match v with
  | JNull => js "null"
  | JBool b => if b then js "true" else js "false"
  | JNum n => if isFinite n then toString n else js "null"
  | JStr s => quote s
  | JArr l => (91%N :: join (map stringify l) [44%N] ++ [93%N])%list
  | JObj m => (123%N :: join (map (fun kv => (quote kv.1 ++ 58%N :: stringify kv.2)%list) m) [44%N] ++ [125%N])%list
  end.

Definition is_ws (c : N) : bool := ((c =? 32) || (c =? 9) || (c =? 10) || (c =? 13))%N.

Fixpoint skip_ws (s : jsstr) : jsstr :=
  match s with c :: s' => if is_ws c then skip_ws s' else s | [] => [] end.

Definition literal (p s : jsstr) : option jsstr := if startsWith s p then Some (drop (length p) s) else None.

(** The units numbers are made of; after a number, none of them can follow. *)
Definition number_unit (c : N) : bool :=
  is_digit c || ((c =? 43) || (c =? 45) || (c =? 46) || (c =? 69) || (c =? 101))%N.

Section Lists.
Context (value : jsstr -> option (json * jsstr)).

(** The elements of an array that is not empty, to its closing bracket. *)
Fixpoint elements (n : nat) (s : jsstr) : option (list json * jsstr) :=
  match n with
  | O => None
  | S n' =>
      '(v, s) ← value (skip_ws s);
      match skip_ws s with
      | c :: s => if (c =? 93)%N then Some ([v], s)
                  else if (c =? 44)%N then '(l, s) ← elements n' s; Some (v :: l, s) else None
      | [] => None
      end
  end.

Fixpoint members (n : nat) (s : jsstr) : option (object * jsstr) :=
  match n with
  | O => None
  | S n' =>
      match skip_ws s with
      | q :: s =>
          if negb (q =? 34)%N then None else
          '(k, s) ← unquote s;
          match skip_ws s with
          | c :: s =>
              if negb (c =? 58)%N then None else
              '(v, s) ← value (skip_ws s);
              match skip_ws s with
              | d :: s => if (d =? 125)%N then Some ([(k, v)], s)
                          else if (d =? 44)%N then '(m, s) ← members n' s; Some ((k, v) :: m, s) else None
              | [] => None
              end
          | [] => None
          end
      | [] => None
      end
  end.

End Lists.

Definition object_of (m : object) : object := fold_left (fun o kv => assign kv.1 kv.2 o) m [].

(** A value at the beginning of a text; [fuel] bounds the nesting. *)
Fixpoint value (fuel : nat) (s : jsstr) : option (json * jsstr) :=
  match fuel with
  | O => None
  | S f =>
      match s with
      | [] => None
      | c :: s' =>
          if (c =? 34)%N then '(u, t) ← unquote s'; Some (JStr u, t)
          else if (c =? 91)%N then
            match skip_ws s' with
            | d :: t => if (d =? 93)%N then Some (JArr [], t)
                        else '(l, t) ← elements (value f) (length s') s'; Some (JArr l, t)
            | [] => None
            end
          else if (c =? 123)%N then
            match skip_ws s' with
            | d :: t => if (d =? 125)%N then Some (JObj [], t)
                        else '(m, t) ← members (value f) (length s') s'; Some (JObj (object_of m), t)
            | [] => None
            end
          else if number_unit c then
            let '(token, t) := span number_unit s in n ← decimal token; Some (JNum n, t)
          else match literal (js "null") s with
               | Some t => Some (JNull, t)
               | None => match literal (js "true") s with
                         | Some t => Some (JBool true, t)
                         | None => t ← literal (js "false") s; Some (JBool false, t)
                         end
               end
      end
  end.

Definition parse (s : jsstr) : option json :=
  '(v, t) ← value (S (length s)) (skip_ws s);
  match skip_ws t with [] => Some v | _ => None end.

(** ** Strings are read back *)

Lemma hex_value_digit n : (n < 16)%N -> hex_value (hex_digit n) = Some n.
Proof.
  intros Hn. assert (Hall : forallb (fun k => bool_decide (hex_value (hex_digit (N.of_nat k)) = Some (N.of_nat k))) (seq 0 16) = true)
    by (vm_compute; reflexivity).
  rewrite forallb_forall in Hall. specialize (Hall (N.to_nat n)). rewrite N2Nat.id in Hall.
  apply (bool_decide_eq_true_1 _), Hall, in_seq. lia.
Qed.

Lemma unquote_unicode c t : (c < 65536)%N ->
  unquote (unicode_escape c ++ t)%list = ('(r, t) ← unquote t; Some (c :: r, t)).
Proof.
  intros Hc. unfold unicode_escape. cbn [app unquote N.eqb Pos.eqb]. unfold hex4.
  assert (H : forall n, (n mod 16 < 16)%N) by (intros; apply N.mod_lt; lia).
  rewrite !hex_value_digit by apply H. cbn [mbind option_bind].
  assert (E : (c / 4096 mod 16 * 4096 + c / 256 mod 16 * 256 + c / 16 mod 16 * 16 + c mod 16 = c)%N)
    by (zify; Z.to_euclidean_division_equations; lia).
  by rewrite E.
Qed.

Lemma short_escape_spec c : match short_escape c with
  | Some e => (e =? 117)%N = false /\ unescape e = Some c
  | None => (c =? 34)%N = false /\ (c =? 92)%N = false
  end.
Proof.
  unfold short_escape.
  repeat (match goal with |- context [(c =? ?k)%N] => destruct (N.eqb_spec c k) as [->|]; [by split|] end).
  by split.
Qed.

Lemma unquote_escape s : forall p t, unquote (escape p s ++ 34%N :: t)%list = Some (s, t).
Proof.
  induction s as [|c s IH]; intros p t; [done|]. cbn [escape]. pose proof (short_escape_spec c) as Hc.
  destruct (short_escape c) as [e|].
  - destruct Hc as [He Hu]. cbn [app unquote N.eqb Pos.eqb]. rewrite He, Hu. cbn [mbind option_bind]. by rewrite IH.
  - destruct Hc as [H34 H92]. set (n := match s with [] => false | _ => _ end).
    destruct ((c <? 32)%N || (is_high c && negb n) || (is_low c && negb p)) eqn:E.
    + rewrite <- app_assoc, unquote_unicode; [by rewrite IH|].
      unfold is_high, is_low in E. rewrite !orb_true_iff, !andb_true_iff, !N.ltb_lt, !N.leb_le in E. lia.
    + cbn [app unquote]. rewrite H34, H92. rewrite !orb_false_iff in E. destruct E as [[-> _] _]. by rewrite IH.
Qed.

(** ** Values are read back *)

(** Numbers whose text is a JSON literal that is read back to them. *)
Definition num_ok (n : num) : bool :=
  isFinite n && truthy (toString n) && forallb number_unit (toString n) && bool_decide (decimal (toString n) = Some n).

Fixpoint distinct (l : list jsstr) : bool :=
  match l with [] => true | x :: l' => forallb (fun y => negb (streq x y)) l' && distinct l' end.

(** Values that have a text: no infinite or NaN number (printed as null) and no
    object with two members of one name. *)
Fixpoint json_ok (v : json) : bool :=
  match v with
  | JNum n => num_ok n
  | JArr l => forallb json_ok l
  | JObj m => distinct (map fst m) && forallb (fun kv => json_ok kv.2) m
  | _ => true
  end.

Fixpoint depth (v : json) : nat :=
  match v with
  | JArr l => S (fold_right Nat.max O (map depth l))
  | JObj m => S (fold_right Nat.max O (map (fun kv => depth kv.2) m))
  | _ => O
  end.

(** Induction through the lists inside values. *)
Lemma json_ind' (P : json -> Prop) :
  P JNull -> (forall b, P (JBool b)) -> (forall n, P (JNum n)) -> (forall s, P (JStr s)) ->
  (forall l, Forall P l -> P (JArr l)) -> (forall m, Forall (fun kv => P kv.2) m -> P (JObj m)) -> forall v, P v.
Proof.
  intros H1 H2 H3 H4 H5 H6. fix IH 1. intros [|b|n|s|l|m]; [done|auto..| |].
  - apply H5. induction l as [|v l IHl]; constructor; [apply IH|apply IHl].
  - apply H6. induction m as [|[k v] m IHm]; constructor; [apply IH|apply IHm].
Qed.

(** What can follow a value inside a text. *)
Definition stops (t : jsstr) : Prop := match t with [] => True | c :: _ => number_unit c = false end.

Lemma span_all f s t : forallb f s = true -> match t with [] => True | c :: _ => f c = false end -> span f (s ++ t)%list = (s, t).
Proof.
  intros Hs Ht. induction s as [|c s IH]; cbn in *.
  - destruct t as [|c t]; [done|]. cbn. by rewrite Ht.
  - apply andb_true_iff in Hs as [Hc Hs]. by rewrite Hc, IH.
Qed.

(** The first unit of a value's text: never white space, a closing bracket or a
    separator. *)
Definition opens (c : N) : bool :=
  ((c =? 34) || (c =? 91) || (c =? 123) || (c =? 110) || (c =? 116) || (c =? 102))%N || number_unit c.

Lemma stringify_opens v : json_ok v = true -> exists c s, stringify v = c :: s /\ opens c = true.
Proof.
  destruct v as [|[]|n|s|l|m]; cbn; eauto.
  unfold num_ok. rewrite !andb_true_iff. intros [[[-> Ht] Hf] _]. destruct (toString n) as [|c s]; [done|].
  cbn in Hf. apply andb_true_iff in Hf as [Hc _]. exists c, s. split; [done|]. unfold opens. by rewrite Hc, orb_true_r.
Qed.

Lemma opens_spec c : opens c = true -> is_ws c = false /\ (c =? 93)%N = false /\ (c =? 125)%N = false.
Proof.
  unfold opens, is_ws, number_unit, is_digit.
  rewrite !orb_true_iff, !andb_true_iff, !N.eqb_eq, !N.leb_le, !orb_false_iff, !N.eqb_neq. lia.
Qed.

Lemma skip_opens c s : opens c = true -> skip_ws (c :: s) = c :: s.
Proof. intros Hc. cbn. by destruct (opens_spec c Hc) as (-> & _). Qed.

Lemma skip_stringify v t : json_ok v = true -> skip_ws (stringify v ++ t)%list = (stringify v ++ t)%list.
Proof. intros Hv. destruct (stringify_opens v Hv) as (c & s & -> & Hc). by apply skip_opens. Qed.

Lemma join_cons x y l sep : join (x :: y :: l) sep = (x ++ sep ++ join (y :: l) sep)%list.
Proof. done. Qed.

(** A parser that reads back the texts of some values reads back their list. *)
Lemma elements_join p l : forall n t, l <> [] -> (length l <= n)%nat ->
  Forall (fun v => json_ok v = true /\ forall t, stops t -> p (stringify v ++ t)%list = Some (v, t)) l ->
  elements p n (join (map stringify l) [44%N] ++ 93%N :: t)%list = Some (l, t).
Proof.
  induction l as [|v l IH]; intros n t Hne Hn Hl; [done|]. inversion_clear Hl as [|? ? [Hv Hp] Hl'].
  destruct n as [|n]; cbn in Hn; [lia|]. cbn [elements map]. destruct l as [|w l].
  - cbn [map join]. rewrite skip_stringify, Hp by done. done.
  - cbn [map]. rewrite join_cons, <- !app_assoc. rewrite skip_stringify, Hp by done. cbn -[elements join].
    change (stringify w :: map stringify l) with (map stringify (w :: l)). rewrite (IH n t); [done|done|cbn in *; lia|done].
Qed.

Lemma members_join p m : forall n t, m <> [] -> (length m <= n)%nat ->
  Forall (fun kv => json_ok kv.2 = true /\ forall t, stops t -> p (stringify kv.2 ++ t)%list = Some (kv.2, t)) m ->
  members p n (join (map (fun kv => (quote kv.1 ++ 58%N :: stringify kv.2)%list) m) [44%N] ++ 125%N :: t)%list = Some (m, t).
Proof.
  induction m as [|[k v] m IH]; intros n t Hne Hn Hl; [done|]. inversion_clear Hl as [|? ? [Hv Hp] Hl']. cbn [fst snd] in *.
  assert (Hm : forall n t, members p (S n) ((quote k ++ 58%N :: stringify v) ++ t)%list =
    '(v, s) ← p (stringify v ++ t)%list;
    match skip_ws s with
    | d :: s => if (d =? 125)%N then Some ([(k, v)], s)
                else if (d =? 44)%N then '(m, s) ← members p n s; Some ((k, v) :: m, s) else None
    | [] => None
    end).
  { intros n0 t0. unfold quote. cbn [members app skip_ws is_ws N.eqb Pos.eqb orb negb]. rewrite <- !app_assoc. cbn [app].
    rewrite unquote_escape. cbn [mbind option_bind skip_ws is_ws N.eqb Pos.eqb orb negb]. by rewrite skip_stringify. }
  destruct n as [|n]; cbn in Hn; [lia|]. cbn [map fst snd]. destruct m as [|w m].
  - cbn [map join]. rewrite Hm, Hp by done. done.
  - cbn [map]. rewrite join_cons, <- app_assoc, Hm, Hp by done. cbn -[members join quote].
    change (_ :: map _ m) with (map (fun kv => (quote kv.1 ++ 58%N :: stringify kv.2)%list) (w :: m)). rewrite (IH n t); [done|done|cbn in *; lia|done].
Qed.

Lemma assign_fresh k v o : forallb (fun y => negb (streq k y)) (map fst o) = true -> assign k v o = (o ++ [(k, v)])%list.
Proof.
  induction o as [|[j w] o IH]; [done|]. cbn. rewrite andb_true_iff, negb_true_iff. intros [Hj Ho].
  assert (Hs : streq j k = false).
  { apply not_true_iff_false. intros E. apply streq_eq in E as ->. by rewrite streq_refl in Hj. }
  by rewrite Hs, IH.
Qed.

Lemma object_of_distinct m : distinct (map fst m) = true -> object_of m = m.
Proof.
  intros Hm. unfold object_of.
  enough (H : forall o, forallb (fun kv => forallb (fun y => negb (streq kv.1 y)) (map fst o)) m = true ->
    fold_left (fun o kv => assign kv.1 kv.2 o) m o = (o ++ m)%list).
  { apply (H []). clear. by induction m. }
  induction m as [|[k v] m IH]; intros o Ho; cbn in *; [by rewrite app_nil_r|].
  apply andb_true_iff in Hm as [Hk Hm]. apply andb_true_iff in Ho as [Hf Ho].
  rewrite assign_fresh, (IH Hm), <- app_assoc; [done| |done].
  clear IH. apply forallb_forall. intros [j w] Hj. cbn. rewrite map_app, forallb_app. cbn. rewrite andb_true_r. apply andb_true_iff. split.
  - rewrite forallb_forall in Ho. exact (Ho (j, w) Hj).
  - rewrite forallb_forall in Hk. specialize (Hk j (in_map fst _ _ Hj)). apply negb_true_iff in Hk. apply negb_true_iff.
    apply not_true_iff_false. intros E. apply streq_eq in E as ->. by rewrite streq_refl in Hk.
Qed.

Lemma join_length {A} (f : A -> jsstr) l sep t : (forall x, x ∈ l -> f x <> []) ->
  (length l <= length (join (map f l) sep ++ t))%nat.
Proof.
  intros Hf. rewrite length_app. induction l as [|x l IH]; [cbn; lia|].
  assert (length (f x) <> O) by (pose proof (Hf x ltac:(set_solver)); by destruct (f x)).
  destruct l as [|y l]; [cbn; lia|]. cbn [map]. rewrite join_cons, !length_app. cbn [map length] in *.
  specialize (IH ltac:(set_solver)). lia.
Qed.

Lemma depth_in (v : json) l : v ∈ l -> (depth v <= fold_right Nat.max O (map depth l))%nat.
Proof. induction l as [|w l IH]; [set_solver|]. rewrite elem_of_cons. cbn. intros [->|H]; [lia|specialize (IH H); lia]. Qed.

Lemma value_stringify v : json_ok v = true -> forall f t, (depth v < f)%nat -> stops t ->
  value f (stringify v ++ t)%list = Some (v, t).
Proof.
  induction v as [| b | n | s | l IH | m IH] using json_ind'; intros Hv f t Hf Ht; (destruct f as [|f]; [lia|]).
  - by destruct t.
  - by destruct b, t.
  - cbn in Hv. unfold num_ok in Hv. rewrite !andb_true_iff in Hv. destruct Hv as [[[Hfin Htr] Hu] Hd].
    apply bool_decide_eq_true in Hd. cbn [stringify]. rewrite Hfin. destruct (toString n) as [|c s] eqn:E; [done|].
    pose proof Hu as Hc. cbn in Hc. apply andb_true_iff in Hc as [Hc _]. cbn [app value].
    assert (Hne : (c =? 34)%N = false /\ (c =? 91)%N = false /\ (c =? 123)%N = false).
    { unfold number_unit, is_digit in Hc. rewrite !orb_true_iff, !andb_true_iff, !N.eqb_eq, !N.leb_le in Hc.
      rewrite !N.eqb_neq. lia. }
    destruct Hne as (-> & -> & ->). rewrite Hc. change (c :: s ++ t)%list with ((c :: s) ++ t)%list.
    rewrite span_all by done. by rewrite Hd.
  - cbn [stringify quote app value N.eqb Pos.eqb]. rewrite <- app_assoc. cbn [app]. by rewrite unquote_escape.
  - cbn [stringify app value N.eqb Pos.eqb]. rewrite <- app_assoc. cbn [app]. cbn in Hv.
    destruct l as [|v l]; [done|]. cbn [map].
    assert (Hs : exists d r, (join (stringify v :: map stringify l) [44%N] ++ 93%N :: t)%list = d :: r /\ opens d = true).
    { destruct (stringify_opens v) as (d & r & Hd & Ho); [cbn in Hv; by apply andb_true_iff in Hv as []|].
      exists d. destruct (map stringify l) as [|y ys]; [cbn; rewrite Hd; by eexists|].
      rewrite join_cons, Hd. cbn [app]. by eexists. }
    destruct Hs as (d & r & Hd & Ho). rewrite Hd. rewrite (skip_opens d r Ho). destruct (opens_spec d Ho) as (_ & -> & _).
    rewrite <- Hd. change (stringify v :: map stringify l) with (map stringify (v :: l)).
    rewrite elements_join; [done|done|apply (join_length stringify)|].
    + intros x Hx. rewrite forallb_forall in Hv. destruct (stringify_opens x (Hv x ltac:(by apply list_elem_of_In))) as (? & ? & -> & _). done.
    + apply Forall_forall. intros x Hx. rewrite forallb_forall in Hv. pose proof (Hv x ltac:(by apply list_elem_of_In)) as Hxo.
      split; [done|]. intros t' Ht'. rewrite Forall_forall in IH. apply IH; try done.
      pose proof (depth_in x (v :: l) Hx). cbn in *. lia.
  - cbn [stringify app value N.eqb Pos.eqb]. rewrite <- app_assoc. cbn [app]. cbn in Hv. apply andb_true_iff in Hv as [Hdis Hv].
    destruct m as [|kv m]; [done|]. set (g := fun kv : jsstr * json => _).
    assert (Hs : exists r, (join (map g (kv :: m)) [44%N] ++ 125%N :: t)%list = 34%N :: r).
    { cbn [map]. destruct (map g m); [by eexists|]. rewrite join_cons. by eexists. }
    destruct Hs as (r & Hd). rewrite Hd. cbn [skip_ws is_ws N.eqb Pos.eqb orb]. rewrite <- Hd. unfold g.
    rewrite members_join; [|done|by apply join_length|].
    + cbn [mbind option_bind]. by rewrite object_of_distinct.
    + apply Forall_forall. intros x Hx. rewrite forallb_forall in Hv. pose proof (Hv x ltac:(by apply list_elem_of_In)) as Hxo.
      split; [done|]. intros t' Ht'. rewrite Forall_forall in IH. apply IH; try done.
      assert (depth x.2 <= fold_right Nat.max 0 (map (fun kv => depth kv.2) (kv :: m)))%nat; [|cbn in *; lia].
      pose proof (depth_in x.2 (map snd (kv :: m))) as Hdi. rewrite map_map in Hdi. apply Hdi.
      apply list_elem_of_In, in_map. by apply list_elem_of_In.
Qed.

Lemma join_item {A} (f : A -> jsstr) l sep x : x ∈ l -> (length (f x) <= length (join (map f l) sep))%nat.
Proof.
  induction l as [|y l IH]; [set_solver|]. rewrite elem_of_cons. intros H. destruct l as [|z l].
  - destruct H as [->|H]; [done|set_solver].
  - cbn [map]. rewrite join_cons, !length_app. destruct H as [->|H]; [lia|]. specialize (IH H). cbn [map] in IH. lia.
Qed.

Lemma fold_right_max l n : Forall (fun d => (d <= n)%nat) l -> (fold_right Nat.max O l <= n)%nat.
Proof. induction 1 as [|d l Hd Hl IH]; cbn; lia. Qed.

Lemma depth_length v : (depth v <= length (stringify v))%nat.
Proof.
  induction v as [| b | n | s | l IH | m IH] using json_ind'; try (cbn; lia).
  - cbn. rewrite length_app. cbn. enough (fold_right Nat.max 0 (map depth l) <= length (join (map stringify l) [44%N]))%nat by lia.
    apply fold_right_max. apply Forall_forall. intros d Hd. apply list_elem_of_In, in_map_iff in Hd as (x & <- & Hx).
    apply list_elem_of_In in Hx. rewrite Forall_forall in IH. specialize (IH x Hx).
    pose proof (join_item stringify l [44%N] x Hx). lia.
  - cbn. rewrite length_app. cbn. set (g := fun kv : jsstr * json => (quote kv.1 ++ 58%N :: stringify kv.2)%list).
    enough (fold_right Nat.max 0 (map (fun kv => depth kv.2) m) <= length (join (map g m) [44%N]))%nat by (unfold g in *; cbn in *; lia).
    apply fold_right_max. apply Forall_forall. intros d Hd. apply list_elem_of_In, in_map_iff in Hd as (x & <- & Hx).
    apply list_elem_of_In in Hx. rewrite Forall_forall in IH. specialize (IH x Hx).
    pose proof (join_item g m [44%N] x Hx) as Hj. unfold g in Hj at 1. rewrite length_app in Hj. cbn in Hj. lia.
Qed.

(** A text that [stringify] printed is read back to the value. *)
Lemma parse_text v : json_ok v = true -> parse (stringify v) = Some v.
Proof.
  intros Hv. unfold parse. rewrite <- (app_nil_r (stringify v)) at 2. rewrite skip_stringify by done.
  rewrite value_stringify; [done|done| |done]. pose proof (depth_length v). lia.
Qed.
