(* ===== verification/JsDecimal.v ===== *)
(** * JsDecimal: the decimal text of integers

    [toString] of an integer below 10^15 in magnitude is its decimal notation;
    the general rule (the shortest decimal that rounds to the number) is a
    search, which stops at the notation without its trailing zeros. *)

From Stdlib Require Import Strings.String.
From S2P Require Import Prelude JsString Binary64 JsNumber JsInteger Json.

Open Scope Z_scope.

(** ** Digits *)

Lemma digits_go_app f : forall n acc, dec_digits_go f n acc = (dec_digits_go f n [] ++ acc)%list.
Proof.
  induction f as [|f IH]; intros n acc; [done|]. cbn [dec_digits_go]. destruct (n <? 10); [done|].
  rewrite (IH _ (_ :: acc)), (IH _ [_]), <- app_assoc. done.
Qed.

(** More fuel than needed changes nothing. *)
Lemma digits_go_fuel f : forall f' n, 0 <= n < 2 ^ Z.of_nat f -> (f <= f')%nat ->
  forall acc, dec_digits_go f' n acc = dec_digits_go f n acc \/ f = O.
Proof.
  induction f as [|f IH]; intros f' n Hn Hf acc; [by right|]. left. destruct f' as [|f']; [lia|]. cbn [dec_digits_go].
  destruct (Z.ltb_spec n 10); [done|]. rewrite Nat2Z.inj_succ, Z.pow_succ_r in Hn by lia.
  destruct (IH f' (n / 10) ltac:(split; [apply Z.div_pos|apply Z.div_lt_upper_bound]; lia) ltac:(lia) ((48 + Z.to_N (n mod 10))%N :: acc))
    as [Hgo|Hf0]; [exact Hgo|]. rewrite Hf0 in Hn. cbn in Hn. lia.
Qed.

Lemma dec_small n : 0 <= n < 10 -> dec n = [(48 + Z.to_N n)%N].
Proof.
  intros Hn. unfold dec. rewrite Nat.add_1_r. cbn [dec_digits_go]. rewrite Z.mod_small by lia.
  by destruct (Z.ltb_spec n 10); [|lia].
Qed.

Lemma dec_step n : 10 <= n -> dec n = (dec (n / 10) ++ [(48 + Z.to_N (n mod 10))%N])%list.
Proof.
  intros Hn. unfold dec at 1. rewrite Nat.add_1_r. cbn [dec_digits_go]. destruct (Z.ltb_spec n 10); [lia|].
  rewrite digits_go_app. f_equal. unfold dec.
  assert (H1 : 1 <= n / 10) by (apply Z.div_le_lower_bound; lia).
  pose proof (Z.log2_spec (n / 10) ltac:(lia)) as Hl. pose proof (Z.log2_nonneg (n / 10)).
  assert (Z.log2 (n / 10) < Z.log2 n).
  { apply Z.log2_lt_pow2; [lia|]. pose proof (Z.log2_spec n ltac:(lia)) as Hl'. rewrite Z.pow_succ_r in Hl' by apply Z.log2_nonneg.
    apply Z.div_lt_upper_bound; lia. }
  destruct (digits_go_fuel (Z.to_nat (Z.log2 (n / 10)) + 1) (Z.to_nat (Z.log2 n)) (n / 10)) with (acc := @nil N) as [|]; try done; [|lia|lia].
  split; [lia|]. rewrite Nat2Z.inj_add, Z2Nat.id by done. replace (Z.of_nat 1) with 1 by done.
  rewrite Z.add_1_r. lia.
Qed.

(** Induction on the number of digits. *)
Lemma digit_ind (P : Z -> Prop) : (forall n, 0 <= n < 10 -> P n) -> (forall n, 10 <= n -> P (n / 10) -> P n) -> forall n, 0 <= n -> P n.
Proof.
  intros H1 H2. apply (well_founded_induction (Z.lt_wf 0) (fun n => 0 <= n -> P n)). intros n IH Hn.
  destruct (Z.lt_ge_cases n 10); [by apply H1|]. apply H2; [done|]. apply IH; [|apply Z.div_pos; lia].
  split; [apply Z.div_pos; lia|apply Z.div_lt; lia].
Qed.

Lemma dec_times_ten n : 0 < n -> dec (n * 10) = (dec n ++ [48%N])%list.
Proof. intros Hn. rewrite dec_step by lia. rewrite Z.div_mul, Z.mod_mul by lia. done. Qed.

Lemma dec_zeros n j : 0 < n -> dec (n * 10 ^ Z.of_nat j) = (dec n ++ zeros j)%list.
Proof.
  intros Hn. unfold zeros. induction j as [|j IH]; [by rewrite Z.mul_1_r, app_nil_r|].
  rewrite Nat2Z.inj_succ, Z.pow_succ_r by lia. replace (n * (10 * 10 ^ Z.of_nat j)) with (n * 10 ^ Z.of_nat j * 10) by lia.
  rewrite dec_times_ten, IH by (pose proof (Z.pow_pos_nonneg 10 (Z.of_nat j)); nia).
  rewrite <- app_assoc. f_equal. by rewrite <- replicate_cons_app.
Qed.

(** ** The search of [toString] on integers *)

(** The number of digits. *)
Lemma digit_count k : 0 < k -> exists N, 1 <= N /\ 10 ^ (N - 1) <= k < 10 ^ N.
Proof.
  intros Hk. enough (H : forall k, 0 <= k -> 0 < k -> exists N, 1 <= N /\ 10 ^ (N - 1) <= k < 10 ^ N) by (apply H; lia).
  apply (digit_ind (fun k => 0 < k -> exists N, 1 <= N /\ 10 ^ (N - 1) <= k < 10 ^ N)).
  - intros n Hn Hp. exists 1. cbn. lia.
  - intros n Hn IH _. destruct IH as (N & HN & Hb); [apply Z.div_str_pos; lia|].
    exists (Z.succ N). split; [lia|]. replace (Z.succ N - 1) with (Z.succ (N - 1)) by lia. rewrite !Z.pow_succ_r by lia.
    pose proof (Z.div_mod n 10 ltac:(lia)). pose proof (Z.mod_pos_bound n 10 ltac:(lia)). lia.
Qed.

Lemma dec_exp_int f : forall k q N n, 0 < k -> 0 < q -> 1 <= N -> 10 ^ (N - 1) <= k < 10 ^ N -> -1 <= n <= N ->
  N - n < Z.of_nat f -> dec_exp f (k * q) q n = N.
Proof.
  induction f as [|f IH]; intros k q N n Hk Hq HN Hb Hn Hf; [lia|]. cbn [dec_exp].
  assert (Hbelow : (if 0 <=? n then k * q <? q * 10 ^ n else k * q * 10 ^ (- n) <? q) = (N <=? n)).
  { destruct (Z.leb_spec 0 n).
    - destruct (Z.leb_spec N n).
      + apply Z.ltb_lt. assert (10 ^ N <= 10 ^ n) by (apply Z.pow_le_mono_r; lia). nia.
      + apply Z.ltb_ge. assert (10 ^ n <= 10 ^ (N - 1)) by (apply Z.pow_le_mono_r; lia). nia.
    - assert (n = -1) as -> by lia. destruct (Z.leb_spec N (-1)); [lia|]. apply Z.ltb_ge. change (10 ^ (- (-1))) with 10. nia. }
  rewrite Hbelow. destruct (Z.leb_spec N n); [lia|]. apply IH; try done; lia.
Qed.

(** The first guess at the exponent is not too large. *)
Definition guess_ok (L : Z) : bool :=
  let n := L * 30102 / 100000 - 1 in (-1 <=? n) && ((n <? 0) || (10 ^ n <=? 2 ^ L)).

Lemma guesses : forallb guess_ok (map Z.of_nat (seq 0 53)) = true.
Proof. vm_compute. reflexivity. Qed.

Lemma guess_le k N : 0 < k < 2 ^ 53 -> 1 <= N -> k < 10 ^ N -> -1 <= Z.log2 k * 30102 / 100000 - 1 <= N.
Proof.
  intros Hk HN Hb. pose proof (Z.log2_spec k ltac:(lia)) as Hl. pose proof (Z.log2_nonneg k).
  assert (Z.log2 k < 53) by (apply Z.log2_lt_pow2; lia).
  pose proof guesses as Hg. rewrite forallb_forall in Hg. specialize (Hg (Z.log2 k)).
  assert (HL : guess_ok (Z.log2 k) = true).
  { apply Hg, in_map_iff. exists (Z.to_nat (Z.log2 k)). split; [lia|]. apply in_seq. lia. }
  unfold guess_ok in HL. rewrite andb_true_iff, orb_true_iff, !Z.leb_le, Z.ltb_lt in HL. destruct HL as [H1 [H2|H2]]; [lia|].
  split; [done|]. set (n := _ - 1) in *. destruct (Z.le_gt_cases n N); [done|exfalso].
  assert (10 ^ N <= 10 ^ n) by (apply Z.pow_le_mono_r; lia). lia.
Qed.

Lemma of_Z_eq a b : 0 <= a < 2 ^ 53 -> 0 <= b < 2 ^ 53 -> #a = #b -> a = b.
Proof.
  intros Ha Hb H. apply (f_equal ival) in H. rewrite !of_Z_ival in H by lia. assert (0 < 2 ^ 1074) by (by apply pow2_pos). nia.
Qed.

(** A number of significant digits stands for an integer of [N] digits. *)
Definition stands_for (k N : Z) (r : Z * Z) : Prop := r.2 <= N /\ r.1 * 10 ^ (N - r.2) = k.

Lemma shortest_int f : forall d k q N, 0 < k -> 0 < q -> 1 <= N <= 15 -> k < 10 ^ N -> 1 <= d <= N -> N - d < Z.of_nat f ->
  let r := shortest f d (#k) (k * q) q N in 1 <= r.2 /\ stands_for k N r.
Proof.
  induction f as [|f IH]; intros d k q N Hk Hq HN Hb Hd Hf; [lia|]. cbn [shortest].
  destruct (Z.leb_spec d N); [|lia]. set (P := 10 ^ (N - d)). assert (HP : 0 < P) by (apply Z.pow_pos_nonneg; lia).
  assert (E15 : 10 ^ N <= 10 ^ 15) by (apply Z.pow_le_mono_r; lia).
  assert (HPN : P * 10 ^ d = 10 ^ N) by (unfold P; rewrite <- Z.pow_add_r by lia; f_equal; lia).
  rewrite (Z.mul_comm q P), Z.div_mul_cancel_r, Z.mul_mod_distr_r by lia.
  pose proof (Z.div_mod k P ltac:(lia)) as Hdm. pose proof (Z.mod_pos_bound k P HP) as Hm.
  assert (Hs : 0 <= k / P < 10 ^ d) by (split; [apply Z.div_pos; lia|apply Z.div_lt_upper_bound; [lia|rewrite HPN; lia]]).
  set (s0 := k / P) in *.
  assert (Hfit : forall s, s = s0 \/ s = s0 + 1 -> bool_decide (#(s * P) = #k) = bool_decide (s * P = k)).
  { intros s Hsv. apply bool_decide_ext. split; [|congruence]. apply of_Z_eq; [|lia]. split; [nia|]. nia. }
  destruct (Z.eq_dec (k mod P) 0) as [Hz|Hz].
  - rewrite Hz, Z.mul_0_l, Z.mul_0_r. destruct (Z.ltb_spec 0 (P * q)); [|nia]. cbn [orb].
    rewrite Hfit, bool_decide_eq_true_2 by (lia || by left). split; [cbn; lia|split; cbn; [lia|]]. fold P. lia.
  - set (near := if _ || _ then s0 else s0 + 1). set (far := if near =? s0 then s0 + 1 else s0).
    assert (Hnf : (near = s0 \/ near = s0 + 1) /\ (far = s0 \/ far = s0 + 1)).
    { unfold far, near. destruct (_ || _); destruct (_ =? _); auto. }
    destruct Hnf as [Hn1 Hf1]. rewrite !Hfit by done.
    rewrite !bool_decide_eq_false_2 by (intros Hc; destruct Hn1 as [E|E], Hf1 as [E'|E']; rewrite ?E, ?E' in Hc; nia).
    apply IH; try done; [|lia]. split; [lia|]. destruct (Z.eq_dec d N) as [->|]; [|lia]. exfalso. apply Hz.
    unfold P. rewrite Z.sub_diag. apply Z.mod_1_r.
Qed.

Lemma strip_stands f : forall k N r, stands_for k N r -> stands_for k N (strip_zeros f r.1 r.2).
Proof.
  induction f as [|f IH]; intros k N [s d] [Hd Hs]; [by split|]. cbn [strip_zeros fst snd] in *.
  destruct (Z.eqb_spec (s mod 10) 0) as [Hz|]; [|by split]. cbn [andb]. destruct (Z.ltb_spec 0 s); [|by split].
  apply (IH k N (s / 10, d - 1)). split; cbn [fst snd]; [lia|]. replace (N - (d - 1)) with (Z.succ (N - d)) by lia.
  rewrite Z.pow_succ_r by lia. pose proof (Z.div_mod s 10 ltac:(lia)). nia.
Qed.

(** ** Numbers are their digits *)

(** A non-zero integer as a finite number: sign, magnitude and fraction. *)
Lemma of_Z_frac k : k <> 0 -> Z.abs k < 2 ^ 53 -> exists m e, #k = S754_finite (k <? 0) m e /\ #(Z.abs k) = S754_finite false m e /\
  exists j, 0 <= j /\ (frac_of m e).2 = 2 ^ j /\ (frac_of m e).1 = Z.abs k * 2 ^ j.
Proof.
  intros Hk Hb. destruct (of_Z_spec k Hb) as (Hv & Hf & Hi). pose proof (of_Z_sign k Hb) as Hs.
  destruct (#k) as [s| | |s m e] eqn:E; cbn in Hf; try done; [cbn in Hi; lia|]. cbn in Hs. injection Hs as ->.
  exists m, e. split; [done|]. cbn in Hv. destruct Hv as [Hc He]. pose proof (mval_pos m e Hc) as Hm.
  assert (Hma : mval m e = Z.abs k * 2 ^ 1074) by (cbn in Hi; destruct (Z.ltb_spec k 0); lia).
  split; [symmetry; apply ival_of_Z; cbn; try done; lia|].
  unfold mval in Hma. pose proof (canonical_emin _ _ Hc). unfold frac_of. destruct (Z.leb_spec 0 e).
  - exists 0. cbn [fst snd]. split_and!; [done|done|]. rewrite Z.pow_add_r in Hma by lia. rewrite Z.mul_1_r.
    assert (0 < 2 ^ 1074) by (by apply pow2_pos). nia.
  - exists (- e). cbn [fst snd]. split_and!; [lia|done|]. replace 1074 with (e + 1074 + - e) in Hma at 2 by lia.
    rewrite (Z.pow_add_r 2 (e + 1074)) in Hma by lia. assert (0 < 2 ^ (e + 1074)) by (apply pow2_pos; lia). nia.
Qed.

(** [String(k)] is the decimal notation of an integer. *)
Lemma toString_of_Z k : Z.abs k < 10 ^ 15 -> toString (#k) = ((if k <? 0 then js "-" else []) ++ dec (Z.abs k))%list.
Proof.
  intros Hb. destruct (Z.eq_dec k 0) as [->|Hk]; [done|].
  destruct (of_Z_frac k Hk ltac:(lia)) as (m & e & -> & Habs & j & Hj & Hq & Hp). cbn [toString].
  destruct (frac_of m e) as [p q]. cbn [fst snd] in *. subst p q.
  destruct (digit_count (Z.abs k) ltac:(lia)) as (N & HN & Hd).
  assert (Hq : 0 < 2 ^ j) by (by apply pow2_pos).
  assert (HN15 : N <= 15).
  { destruct (Z.le_gt_cases N 15); [done|]. assert (10 ^ 15 <= 10 ^ (N - 1)) by (apply Z.pow_le_mono_r; lia). lia. }
  rewrite Z.log2_mul_pow2, Z.log2_pow2 by lia. replace (j + Z.log2 (Z.abs k) - j) with (Z.log2 (Z.abs k)) by lia.
  pose proof (guess_le (Z.abs k) N ltac:(lia) HN ltac:(lia)) as Hg.
  rewrite (dec_exp_int 400 _ _ N) by lia. rewrite <- Habs.
  pose proof (shortest_int 17 1 (Z.abs k) (2 ^ j) N ltac:(lia) Hq ltac:(lia) ltac:(lia) ltac:(lia) ltac:(lia)) as Hs.
  destruct (shortest _ _ _ _ _ _) as [s0 k0]. destruct Hs as (Hk1 & Hk0 & Hs0). cbn [fst snd] in *.
  assert (Hlt : s0 < 10 ^ k0).
  { assert (10 ^ N = 10 ^ (N - k0) * 10 ^ k0) by (rewrite <- Z.pow_add_r by lia; f_equal; lia).
    assert (0 < 10 ^ (N - k0)) by (apply Z.pow_pos_nonneg; lia). nia. }
  destruct (Z.leb_spec (10 ^ k0) s0); [lia|]. pose proof (strip_stands 20 (Z.abs k) N (s0, k0) (conj Hk0 Hs0)) as Hst.
  cbn [fst snd] in Hst. destruct (strip_zeros 20 s0 k0) as [d k1]. destruct Hst as [Hk1' Hd1]. cbn [fst snd] in *.
  destruct (Z.leb_spec k1 N); [|lia]. destruct (Z.leb_spec N 21); [|lia]. cbn [andb]. f_equal.
  rewrite <- dec_zeros, Z2Nat.id, Hd1 by nia. done.
Qed.

(** ** Integers are read back *)

Lemma digit_char n : 0 <= n < 10 -> is_digit (48 + Z.to_N n)%N = true /\ Z.of_N (48 + Z.to_N n)%N - 48 = n.
Proof. intros Hn. unfold is_digit. rewrite andb_true_iff, !N.leb_le. lia. Qed.

Lemma nat_of_digits_snoc s c : nat_of_digits (s ++ [c])%list = 10 * nat_of_digits s + (Z.of_N c - 48).
Proof. unfold nat_of_digits. by rewrite fold_left_app. Qed.

(** The decimal notation: digits, the first of which is not 0 but for 0
    itself, that stand for the integer. *)
Lemma dec_spec n : 0 <= n -> forallb is_digit (dec n) = true /\ nat_of_digits (dec n) = n /\
  exists c s, dec n = c :: s /\ (10 <= n -> s <> []) /\ (0 < n -> (c =? 48)%N = false).
Proof.
  revert n. apply digit_ind; intros n Hn.
  - rewrite dec_small by done. destruct (digit_char n Hn) as [Hd Hv]. cbn [forallb]. rewrite Hd. split_and!; [done| |].
    + cbn. lia.
    + eexists _, []. split_and!; [done|lia|]. rewrite N.eqb_neq. lia.
  - intros (IHd & IHn & c & s & IHs & _ & IHc). rewrite dec_step by done.
    pose proof (Z.mod_pos_bound n 10 ltac:(lia)) as Hm. destruct (digit_char (n mod 10) Hm) as [Hd Hv].
    rewrite forallb_app, IHd, nat_of_digits_snoc, IHn, Hv. cbn [forallb]. rewrite Hd. split_and!; [done|pose proof (Z.div_mod n 10 ltac:(lia)); lia|].
    rewrite IHs. exists c, (s ++ [(48 + Z.to_N (n mod 10))%N])%list. split_and!; [done|intros _; by destruct s|].
    intros _. apply IHc, Z.div_str_pos. lia.
Qed.

Lemma digit_unit s : forallb is_digit s = true -> forallb number_unit s = true.
Proof. rewrite !forallb_forall. intros H c Hc. unfold number_unit. by rewrite (H c Hc). Qed.

(** A signed decimal notation, read as a number. *)
Lemma decimal_dec (neg : bool) n : 0 < n ->
  decimal ((if neg then js "-" else []) ++ dec n)%list = Some (#(if neg then - n else n)).
Proof.
  intros Hn. destruct (dec_spec n ltac:(lia)) as (Hd & Hv & c & s & Hs & Hl & Hc).
  pose proof Hd as Hd0. rewrite Hs in Hd0. cbn in Hd0. apply andb_true_iff in Hd0 as [Hdc _].
  assert (H45 : (c =? 45)%N = false) by (unfold is_digit in Hdc; rewrite andb_true_iff, !N.leb_le in Hdc; apply N.eqb_neq; lia).
  assert (Hsp : span is_digit (dec n) = (dec n, [])) by (rewrite <- (app_nil_r (dec n)) at 1; by apply span_all).
  unfold decimal.
  assert (Hsign : (match ((if neg then js "-" else []) ++ dec n)%list with c :: s' => if (c =? 45)%N then (true, s') else (false, c :: s') | [] => (false, []) end)
    = (neg, dec n)) by (destruct neg; [done|]; rewrite Hs; cbn [app]; by rewrite H45).
  assert (Hsign' : (match ((if neg then js "-" else []) ++ dec n)%list with c :: s' => if (c =? 45)%N then (true, s') else (false, ((if neg then js "-" else []) ++ dec n)%list) | [] => (false, ((if neg then js "-" else []) ++ dec n)%list) end)
    = (neg, dec n)) by (rewrite <- Hsign; by destruct ((if neg then js "-" else []) ++ dec n)%list).
  rewrite Hsign', Hsp. cbn [fraction nullish]. rewrite app_nil_r, Hv.
  assert (Hlead : match dec n with [] => false | [_] => true | c :: _ => negb (c =? 48)%N end = true).
  { rewrite Hs. destruct s; [done|]. by rewrite Hc. }
  rewrite Hlead. cbn [andb exponent mbind option_bind length]. unfold scaled. destruct (Z.eqb_spec n 0); [lia|].
  change (0 - Z.of_nat 0) with 0. cbn [Z.leb Z.compare]. rewrite Z.mul_1_r. done.
Qed.

(** Integers below 10^15 are read back from their text. *)
Lemma num_ok_of_Z k : Z.abs k < 10 ^ 15 -> num_ok (#k) = true.
Proof.
  intros Hk. destruct (Z.eq_dec k 0) as [->|Hk0]; [vm_compute; reflexivity|].
  unfold num_ok, isFinite. rewrite of_Z_finite, toString_of_Z by lia.
  destruct (dec_spec (Z.abs k) ltac:(lia)) as (Hd & _ & c & s & Hs & _).
  rewrite forallb_app, (digit_unit (dec (Z.abs k))) by done.
  rewrite !andb_true_iff. split_and!; [done| |by destruct (k <? 0)|done|].
  - rewrite Hs. by destruct (k <? 0).
  - apply bool_decide_eq_true. rewrite decimal_dec by lia. do 2 f_equal. destruct (Z.ltb_spec k 0); lia.
Qed.

(** ** Number(String(k)) *)

Lemma number_unit_space c : number_unit c = true -> isSpace c = false.
Proof.
  unfold number_unit, is_digit, isSpace.
  rewrite !orb_true_iff, !andb_true_iff, !N.eqb_eq, !N.leb_le, !orb_false_iff, !andb_false_iff, !N.eqb_neq, !N.leb_gt. lia.
Qed.

Lemma trim_number s : forallb number_unit s = true -> trim s = s.
Proof.
  rewrite forallb_forall. intros H. apply trim_fixed.
  - destruct s as [|c s]; [done|]. apply number_unit_space, H. by left.
  - destruct (rev s) as [|c r] eqn:E; [done|]. apply number_unit_space, H. apply in_rev. rewrite E. by left.
Qed.

Lemma str_decimal_dec (neg : bool) n : 0 < n ->
  str_decimal ((if neg then js "-" else []) ++ dec n)%list = Some (#(if neg then - n else n)).
Proof.
  intros Hn. destruct (dec_spec n ltac:(lia)) as (Hd & Hv & c & s & Hs & Hl & Hc).
  pose proof Hd as Hdc. rewrite Hs in Hdc. cbn in Hdc. apply andb_true_iff in Hdc as [Hdc _].
  unfold is_digit in Hdc. rewrite andb_true_iff, !N.leb_le in Hdc.
  assert (Hsp : span is_digit (dec n) = (dec n, [])) by (rewrite <- (app_nil_r (dec n)) at 1; by apply span_all).
  assert (Hinf : streq (dec n) (js "Infinity") = false).
  { apply not_true_iff_false. intros E%streq_eq. rewrite Hs in E. injection E as E _. cbn in E. lia. }
  assert (Htr : truthy (dec n) = true) by (by rewrite Hs).
  assert (Hcore : (let '(ints, s) := span is_digit (dec n) in let '(frac, s) := fraction s in let fs := nullish frac [] in
    if truthy (ints ++ fs)%list then e ← exponent s; Some (scaled neg (nat_of_digits (ints ++ fs)) (e - Z.of_nat (length fs))) else None)
    = Some (#(if neg then - n else n))).
  { rewrite Hsp. cbn [fraction nullish]. rewrite app_nil_r, Hv, Htr. cbn [exponent mbind option_bind length]. unfold scaled.
    destruct (Z.eqb_spec n 0); [lia|]. change (0 - Z.of_nat 0) with 0. cbn [Z.leb Z.compare]. by rewrite Z.mul_1_r. }
  unfold str_decimal. destruct neg.
  - change (js "-" ++ dec n)%list with (45%N :: dec n). cbn [N.eqb Pos.eqb]. by rewrite Hinf.
  - cbn [app]. rewrite Hs at 1. destruct (N.eqb_spec c 45); [lia|]. destruct (N.eqb_spec c 43); [lia|]. by rewrite Hinf.
Qed.

Lemma Number_of_Z k : Z.abs k < 10 ^ 15 -> Number (toString (#k)) = #k.
Proof.
  intros Hk. destruct (Z.eq_dec k 0) as [->|Hk0]; [vm_compute; reflexivity|]. rewrite toString_of_Z by done.
  destruct (dec_spec (Z.abs k) ltac:(lia)) as (Hd & _ & c & s & Hs & _ & Hc). specialize (Hc ltac:(lia)).
  pose proof (str_decimal_dec (k <? 0) (Z.abs k) ltac:(lia)) as Hn. set (t := (_ ++ _)%list) in *.
  assert (Ht : trim t = t).
  { apply trim_number. unfold t. rewrite forallb_app, (digit_unit (dec (Z.abs k))) by done. by destruct (k <? 0). }
  assert (Hhead : exists d r, t = d :: r /\ (d =? 48)%N = false).
  { unfold t. rewrite Hs. destruct (k <? 0); [by eexists _, _|]. by exists c, s. }
  destruct Hhead as (d & r & Hr & Hd48). unfold Number. rewrite Ht. rewrite Hr in *.
  assert (E : (if k <? 0 then - Z.abs k else Z.abs k) = k) by (destruct (Z.ltb_spec k 0); lia). rewrite E in Hn.
  destruct r as [|b [|x r]]; [by rewrite Hn..|]. rewrite Hd48. cbn [negb]. change (0 <? 0) with false. by rewrite Hn.
Qed.
