(* ===== verification/Encode.v ===== *)
(** * Encode: the JSON of the records the client sends

    [JSON.stringify] of an object of an interface of types.ts: its members, those
    that are undefined left out.  Members come in the order of the interface; an
    object that came from the server keeps the order of its text, which makes no
    difference to a reader of JSON. *)

From Stdlib Require Import Strings.String.
From S2P Require Import Prelude JsString Binary64 JsNumber Types Json.

(** ** Objects *)

(** An object literal; [None] is undefined. *)
Definition obj (l : list (string * option json)) : json := JObj (omap (fun kv => v ← kv.2; Some (js kv.1, v)) l).

Definition str (s : jsstr) : option json := Some (JStr s).
Definition number (n : num) : option json := Some (JNum n).
Definition bool_ (b : bool) : option json := Some (JBool b).
Definition strings (l : list jsstr) : option json := Some (JArr (map JStr l)).

Class Encode (A : Type) := encode : A -> json.

(** ** The interfaces *)

Definition type_str (t : ProbeTask.type_) : jsstr :=
  match t with ProbeTask.icmp => js "icmp" | ProbeTask.tcp => js "tcp" | ProbeTask.http => js "http" | ProbeTask.dns => js "dns" end.
Definition role_str (r : node_role) : jsstr := match r with monitor => js "monitor" | probe => js "probe" end.

Definition severity_str (s : AlertRule.severity_) : jsstr :=
  match s with AlertRule.info => js "info" | AlertRule.warning => js "warning" | AlertRule.critical => js "critical" end.

Definition channel_str (t : NotificationChannel.type_) : jsstr :=
  match t with
  | NotificationChannel.smtp => js "smtp" | NotificationChannel.telegram => js "telegram"
  | NotificationChannel.bark => js "bark" | NotificationChannel.webhook => js "webhook"
  end.

#[export] Instance encode_SiteSettings : Encode SiteSettings.t := fun s =>
  obj [("name", str (SiteSettings.name s)); ("description", str (SiteSettings.description s));
       ("private", bool_ (SiteSettings.private s)); ("enrollment_enabled", bool_ (SiteSettings.enrollment_enabled s));
       ("enrollment_pin_weak", bool_ (SiteSettings.enrollment_pin_weak s)); ("theme", str (SiteSettings.theme s));
       ("record_enabled", bool_ (SiteSettings.record_enabled s));
       ("raw_retention_hours", number (SiteSettings.raw_retention_hours s));
       ("five_minute_retention_hours", number (SiteSettings.five_minute_retention_hours s));
       ("hourly_retention_hours", number (SiteSettings.hourly_retention_hours s));
       ("geoip_enabled", bool_ (SiteSettings.geoip_enabled s)); ("geoip_provider", str (SiteSettings.geoip_provider s));
       ("custom_head", SiteSettings.custom_head s ≫= str); ("custom_body", SiteSettings.custom_body s ≫= str);
       ("theme_market_sources", SiteSettings.theme_market_sources s ≫= strings)]%string.

#[export] Instance encode_AdminNode : Encode AdminNode.t := fun a => let n := AdminNode.base a in
  obj [("id", str (PublicNode.id n)); ("role", str (role_str (PublicNode.role n))); ("latency_enabled", bool_ (PublicNode.latency_enabled n));
       ("name", str (PublicNode.name n)); ("group", PublicNode.group n ≫= str); ("region", PublicNode.region n ≫= str);
       ("country_code", PublicNode.country_code n ≫= str); ("latitude", PublicNode.latitude n ≫= number);
       ("longitude", PublicNode.longitude n ≫= number); ("tags", strings (PublicNode.tags n));
       ("public_remark", PublicNode.public_remark n ≫= str); ("hidden", bool_ (PublicNode.hidden n)); ("weight", number (PublicNode.weight n));
       ("price", number (PublicNode.price n)); ("currency", str (PublicNode.currency n));
       ("billing_cycle_days", number (PublicNode.billing_cycle_days n)); ("expires_at", PublicNode.expires_at n ≫= str);
       ("auto_renewal", bool_ (PublicNode.auto_renewal n)); ("traffic_limit", number (PublicNode.traffic_limit n));
       ("traffic_limit_type", str (PublicNode.traffic_limit_type n)); ("traffic_reset_day", number (PublicNode.traffic_reset_day n));
       ("os", PublicNode.os n ≫= str); ("arch", PublicNode.arch n ≫= str); ("cpu_name", PublicNode.cpu_name n ≫= str);
       ("cpu_cores", PublicNode.cpu_cores n ≫= number); ("virtualization", PublicNode.virtualization n ≫= str);
       ("kernel_version", PublicNode.kernel_version n ≫= str); ("created_at", str (PublicNode.created_at n));
       ("updated_at", str (PublicNode.updated_at n)); ("last_seen_at", PublicNode.last_seen_at n ≫= str); ("online", bool_ (PublicNode.online n));
       ("hostname", AdminNode.hostname a ≫= str); ("private_remark", AdminNode.private_remark a ≫= str);
       ("agent_version", AdminNode.agent_version a ≫= str); ("ipv4", AdminNode.ipv4 a ≫= str); ("ipv6", AdminNode.ipv6 a ≫= str)]%string.

#[export] Instance encode_AgentConfig : Encode AgentConfig.t := fun c =>
  obj [("collect_interval_seconds", number (AgentConfig.collect_interval_seconds c));
       ("persist_interval_seconds", number (AgentConfig.persist_interval_seconds c));
       ("include_nics", AgentConfig.include_nics c ≫= strings); ("exclude_nics", AgentConfig.exclude_nics c ≫= strings);
       ("include_mountpoints", AgentConfig.include_mountpoints c ≫= strings); ("enable_gpu", bool_ (AgentConfig.enable_gpu c));
       ("auto_update", bool_ (AgentConfig.auto_update c)); ("probe_concurrency", number (AgentConfig.probe_concurrency c));
       ("config_version", number (AgentConfig.config_version c))]%string.

#[export] Instance encode_ProbeTask : Encode ProbeTask.t := fun t =>
  obj [("id", number (ProbeTask.id t)); ("name", str (ProbeTask.name t)); ("type", str (type_str (ProbeTask.type t)));
       ("target", str (ProbeTask.target t)); ("interval_seconds", number (ProbeTask.interval_seconds t));
       ("timeout_seconds", number (ProbeTask.timeout_seconds t)); ("expected_status", ProbeTask.expected_status t ≫= number);
       ("expected_value", ProbeTask.expected_value t ≫= str); ("node_ids", ProbeTask.node_ids t ≫= strings);
       ("purpose", ProbeTask.purpose t ≫= fun p => str (ProbeTask.purpose_str p)); ("run_on", ProbeTask.run_on t ≫= fun r => str (role_str r));
       ("target_node_id", ProbeTask.target_node_id t ≫= str); ("public", bool_ (ProbeTask.public t)); ("samples", number (ProbeTask.samples t));
       ("enabled", bool_ (ProbeTask.enabled t)); ("created_at", ProbeTask.created_at t ≫= str); ("updated_at", ProbeTask.updated_at t ≫= str)]%string.

#[export] Instance encode_AlertScope : Encode AlertScope.t := fun s =>
  obj [("groups", AlertScope.groups s ≫= strings); ("node_ids", AlertScope.node_ids s ≫= strings);
       ("excluded_node_ids", AlertScope.excluded_node_ids s ≫= strings)]%string.

#[export] Instance encode_AlertRule : Encode AlertRule.t := fun r =>
  obj [("id", number (AlertRule.id r)); ("name", str (AlertRule.name r)); ("metric", str (AlertRule.metric r));
       ("operator", str (AlertRule.operator r)); ("threshold", number (AlertRule.threshold r));
       ("recovery_threshold", number (AlertRule.recovery_threshold r)); ("duration_seconds", number (AlertRule.duration_seconds r));
       ("cooldown_seconds", number (AlertRule.cooldown_seconds r)); ("severity", str (severity_str (AlertRule.severity r)));
       ("scope", Some (encode (AlertRule.scope r))); ("enabled", bool_ (AlertRule.enabled r));
       ("created_at", AlertRule.created_at r ≫= str); ("updated_at", AlertRule.updated_at r ≫= str)]%string.

#[export] Instance encode_NotificationChannel : Encode NotificationChannel.t := fun c =>
  obj [("id", number (NotificationChannel.id c)); ("name", str (NotificationChannel.name c));
       ("type", str (channel_str (NotificationChannel.type c))); ("config", JObj <$> NotificationChannel.config c);
       ("enabled", bool_ (NotificationChannel.enabled c)); ("created_at", NotificationChannel.created_at c ≫= str);
       ("updated_at", NotificationChannel.updated_at c ≫= str)]%string.

(** ** Names and numbers inside a value *)

(** No object has two members of one name. *)
Fixpoint objects_ok (v : json) : bool :=
  match v with
  | JArr l => forallb objects_ok l
  | JObj m => distinct (map fst m) && forallb (fun kv => objects_ok kv.2) m
  | _ => true
  end.

Fixpoint numbers (v : json) : list num :=
  match v with
  | JNum n => [n]
  | JArr l => flat_map numbers l
  | JObj m => flat_map (fun kv => numbers kv.2) m
  | _ => []
  end.

Lemma forall_flat_map {A B} (P : B -> Prop) (f : A -> list B) l x : Forall P (flat_map f l) -> x ∈ l -> Forall P (f x).
Proof.
  intros H Hx. apply Forall_forall. intros y Hy. rewrite Forall_forall in H. apply H.
  apply list_elem_of_In, in_flat_map. exists x. by rewrite <- !list_elem_of_In.
Qed.

(** Names and numbers are all there is to a value having a text. *)
Lemma json_ok_parts v : objects_ok v = true -> Forall (fun n => num_ok n = true) (numbers v) -> json_ok v = true.
Proof.
  induction v as [| b | n | s | l IH | m IH] using json_ind'; intros Ho Hn; try done.
  - cbn in Hn. by inversion_clear Hn.
  - cbn in *. apply forallb_forall. intros x Hx. rewrite forallb_forall in Ho. rewrite Forall_forall in IH.
    pose proof (proj2 (list_elem_of_In _ _) Hx) as Hx'. apply IH; [done|by apply Ho|by apply (forall_flat_map _ numbers l)].
  - cbn in *. apply andb_true_iff in Ho as [Hd Ho]. rewrite Hd. cbn. apply forallb_forall. intros x Hx.
    rewrite forallb_forall in Ho. rewrite Forall_forall in IH. pose proof (proj2 (list_elem_of_In _ _) Hx) as Hx'.
    apply IH; [done|by apply Ho|by apply (forall_flat_map _ (fun kv => numbers kv.2) m)].
Qed.

(** A value that may be undefined. *)
Definition opt_ok (o : option json) : Prop := match o with Some v => objects_ok v = true | None => True end.

(** A literal with distinct names and values that have a text has one. *)
Lemma obj_ok l : distinct (map (fun kv => js kv.1) l) = true ->
  Forall (fun kv => opt_ok kv.2) l -> objects_ok (obj l) = true.
Proof.
  intros Hd Hl. unfold obj. cbn [objects_ok]. apply andb_true_iff. split.
  - induction l as [|[k o] l IH]; [done|]. cbn in Hd. apply andb_true_iff in Hd as [Hk Hd]. inversion_clear Hl as [|? ? _ Hl'].
    specialize (IH Hd Hl'). destruct o as [v|]; [|exact IH]. cbn. rewrite IH, andb_true_r. apply forallb_forall. intros y Hy.
    rewrite forallb_forall in Hk. apply Hk. apply in_map_iff in Hy as ([k' v'] & <- & Hin).
    apply list_elem_of_In, list_elem_of_omap in Hin as ([k'' o] & Hin & Ho). destruct o; [|done]. injection Ho as <- <-.
    apply in_map_iff. exists (k'', Some j). by rewrite <- list_elem_of_In.
  - induction Hl as [|[k o] l Ho Hl IH]; [done|]. cbn in Hd. apply andb_true_iff in Hd as [_ Hd]. specialize (IH Hd).
    destruct o as [v|]; [|exact IH]. cbn in *. by rewrite Ho, IH.
Qed.

(** ** The records have distinct names *)

Lemma opt_bind {A} (f : A -> option json) o : (forall x, opt_ok (f x)) -> opt_ok (o ≫= f).
Proof. intros Hf. destruct o; [apply Hf|done]. Qed.

Lemma strings_ok l : opt_ok (strings l).
Proof. cbn. by induction l. Qed.

Create HintDb encode.
#[export] Hint Resolve opt_bind strings_ok : encode.
#[export] Hint Extern 1 (opt_ok (str _)) => reflexivity : encode.
#[export] Hint Extern 1 (opt_ok (number _)) => reflexivity : encode.
#[export] Hint Extern 1 (opt_ok (bool_ _)) => reflexivity : encode.

(** The literals: names are compared, values are looked up. *)
Ltac encoded :=
  apply obj_ok; [vm_compute; reflexivity|]; repeat (apply List.Forall_cons || apply List.Forall_nil);
  cbn [fst snd]; auto with encode.

Lemma SiteSettings_ok (s : SiteSettings.t) : objects_ok (encode s) = true.
Proof. encoded. Qed.

Lemma AdminNode_ok (n : AdminNode.t) : objects_ok (encode n) = true.
Proof. encoded. Qed.

Lemma AgentConfig_ok (c : AgentConfig.t) : objects_ok (encode c) = true.
Proof. encoded. Qed.

Lemma ProbeTask_ok (t : ProbeTask.t) : objects_ok (encode t) = true.
Proof. encoded. Qed.

Lemma AlertScope_ok (s : AlertScope.t) : objects_ok (encode s) = true.
Proof. encoded. Qed.

Lemma AlertRule_ok (r : AlertRule.t) : objects_ok (encode r) = true.
Proof. encoded. apply AlertScope_ok. Qed.

(** A channel's configuration is an object of its own. *)
Lemma NotificationChannel_ok (c : NotificationChannel.t) : opt_ok (JObj <$> NotificationChannel.config c) -> objects_ok (encode c) = true.
Proof. intros Hc. encoded. Qed.

#[export] Hint Resolve SiteSettings_ok AdminNode_ok AgentConfig_ok ProbeTask_ok AlertRule_ok : encode.
