(* ===== verification/Latency.v ===== *)
(** * Latency: latency samples and their window summary (web/src/latency.ts)

    The chart value of a sample and the summary of a window of samples, with
    the loop of the source as a fold over its four local variables. *)

From S2P Require Import Prelude JsString Binary64 JsNumber Types.

Open Scope Z_scope.
Open Scope num_scope.

Definition FAILED_LATENCY_MS : num := #999.

(** [Pick<LatencyResult, 'success' | 'latency_ms' | 'loss_percent'>]. *)
Record LatencySample := mkSample { success : bool; latency_ms : num; loss_percent : num }.

Definition sample_of (r : LatencyResult.t) : LatencySample :=
  mkSample (LatencyResult.success r) (LatencyResult.latency_ms r) (LatencyResult.loss_percent r).

(** The condition [latencyChartValue] and [summarizeLatencyWindow] share. *)
Definition usable (s : LatencySample) : bool :=
  success s && isFinite (latency_ms s) && (latency_ms s >=? #0).

Definition latencyChartValue (s : LatencySample) : num :=
  if usable s then latency_ms s else FAILED_LATENCY_MS.

(** The local variables of the loop. *)
Record window := mkWindow { latencyTotal : num; successCount : num; lossTotal : num; lossCount : num }.

(** One turn of the loop: the two [if] statements in order. *)
Definition window_step (w : window) (s : LatencySample) : window :=
  let w1 := if usable s
            then mkWindow (latencyTotal w + latency_ms s) (successCount w + #1) (lossTotal w) (lossCount w)
            else w in
  if isFinite (loss_percent s)
  then mkWindow (latencyTotal w1) (successCount w1)
         (lossTotal w1 + min (#100) (max (#0) (loss_percent s))) (lossCount w1 + #1)
  else w1.

Definition summarizeLatencyWindow (samples : list LatencySample) : LatencyWindowSummary.t :=
  let w := fold_left window_step samples (mkWindow (#0) (#0) (#0) (#0)) in
  LatencyWindowSummary.mk
    (if successCount w >? #0 then latencyTotal w / successCount w
     else if of_nat (length samples) >? #0 then FAILED_LATENCY_MS else #0)
    (if lossCount w >? #0 then lossTotal w / lossCount w else #0)
    (of_nat (length samples)) (successCount w).

(** ** The reference: averages over the samples that count *)

Definition total (l : list num) : num := fold_left add l (#0).

Definition mean (l : list num) (none : num) : num :=
  match l with [] => none | _ => total l / of_nat (length l) end.

(** The latencies and the losses that take part, in order. *)
Definition latencies (samples : list LatencySample) : list num :=
  latency_ms <$> filter (fun s => usable s = true) samples.
Definition losses (samples : list LatencySample) : list num :=
  (fun s => min (#100) (max (#0) (loss_percent s))) <$>
    filter (fun s => isFinite (loss_percent s) = true) samples.

Definition window_summary (samples : list LatencySample) : LatencyWindowSummary.t :=
  LatencyWindowSummary.mk
    (mean (latencies samples) (match samples with [] => #0 | _ => FAILED_LATENCY_MS end))
    (mean (losses samples) (#0)) (of_nat (length samples)) (of_nat (length (latencies samples))).

(** ** Lemmas *)

(** [count++] on a count in range. *)
Lemma count_succ n : (Z.of_nat n < 2 ^ 53 - 1)%Z -> of_nat n + #1 = of_nat (S n).
Proof.
  intros Hn. unfold of_nat. destruct (add_of_Z (Z.of_nat n) 1) as [Hf Hi]; [lia..|].
  replace (Z.of_nat (S n)) with (Z.of_nat n + 1)%Z by lia.
  apply ival_of_Z; try done; [|lia..]. apply add_valid; apply of_Z_valid; lia.
Qed.

Lemma count_pos n : (Z.of_nat n < 2 ^ 53)%Z -> (of_nat n >? #0) = negb (Nat.eqb n 0).
Proof.
  intros Hn. unfold gtb, of_nat. change SFltb with ltb. rewrite ltb_of_Z by lia.
  destruct n; [done|]. by apply Z.ltb_lt.
Qed.

Lemma latencies_app l s : latencies (l ++ [s]) = (latencies l ++ if usable s then [latency_ms s] else [])%list.
Proof.
  unfold latencies. rewrite filter_app, fmap_app. f_equal. unfold filter, list_filter.
  destruct (usable s) eqn:E; by case_decide.
Qed.

Lemma losses_app l s : losses (l ++ [s])
  = (losses l ++ if isFinite (loss_percent s) then [min (#100) (max (#0) (loss_percent s))] else [])%list.
Proof.
  unfold losses. rewrite filter_app, fmap_app. f_equal. unfold filter, list_filter.
  destruct (isFinite (loss_percent s)) eqn:E; by case_decide.
Qed.

Lemma total_snoc l x : total (l ++ [x]) = total l + x.
Proof. unfold total. by rewrite fold_left_app. Qed.

Lemma latencies_length l : (length (latencies l) <= length l)%nat.
Proof. unfold latencies. rewrite length_fmap. apply length_filter. Qed.

Lemma losses_length l : (length (losses l) <= length l)%nat.
Proof. unfold losses. rewrite length_fmap. apply length_filter. Qed.

(** The invariant of the loop: its variables are the totals and counts of the
    samples read so far. *)
Lemma window_fold l : (Z.of_nat (length l) < 2 ^ 53)%Z ->
  fold_left window_step l (mkWindow (#0) (#0) (#0) (#0))
  = mkWindow (total (latencies l)) (of_nat (length (latencies l)))
      (total (losses l)) (of_nat (length (losses l))).
Proof.
  induction l as [|s l IH] using rev_ind; [done|]. rewrite length_app. cbn [length]. intros Hl.
  pose proof (latencies_length l). pose proof (losses_length l).
  rewrite fold_left_app, IH by lia. cbn [fold_left]. rewrite latencies_app, losses_app.
  unfold window_step. cbn [latencyTotal successCount lossTotal lossCount].
  destruct (usable s), (isFinite (loss_percent s)); cbn [latencyTotal successCount lossTotal lossCount];
    rewrite ?app_nil_r, ?length_app, ?total_snoc, ?count_succ by lia;
    cbn [length]; rewrite ?Nat.add_1_r; done.
Qed.

(** ** Properties *)

Lemma summarize_reference samples : (Z.of_nat (length samples) < 2 ^ 53)%Z ->
  summarizeLatencyWindow samples = window_summary samples.
Proof.
  intros Hl. unfold summarizeLatencyWindow, window_summary. rewrite window_fold by done.
  cbn [latencyTotal successCount lossTotal lossCount].
  pose proof (latencies_length samples). pose proof (losses_length samples).
  rewrite !count_pos by lia. unfold mean.
  destruct (latencies samples), (losses samples), samples; done.
Qed.

(** C18: for any window shorter than 2^53 samples the loop computes exactly the
    reference: the latency average is taken over the successful samples with a
    finite non-negative latency, the loss average over the samples with a
    finite loss clamped to [0, 100]; 999 ms stands for a non-empty window
    without a usable latency and 0 for an empty one. *)
Theorem summarizeLatencyWindow_refines samples : (Z.of_nat (length samples) < 2 ^ 53)%Z ->
  summarizeLatencyWindow samples = window_summary samples.
Proof. apply summarize_reference. Qed.

Definition sample_window : list LatencySample :=
  [mkSample true (#10) (#0); mkSample false (#0) (#100); mkSample true (#20) (#250); mkSample true NaN NaN].

Lemma summarizeLatencyWindow_refines_witness :
  summarizeLatencyWindow sample_window
  = LatencyWindowSummary.mk (#15) (#200 / #3) (#4) (#2).
Proof. rewrite (summarizeLatencyWindow_refines sample_window) by (cbn; lia). vm_compute. reflexivity. Defined.

(** A sum of [n] values between 0 and 100 is between 0 and [100 n], rounding
    included. *)
Lemma total_range l : (Z.of_nat (length l) * 100 < 2 ^ 53)%Z ->
  Forall (fun x => valid x /\ is_finite x = true /\ 0 <= ival x <= 100 * 2 ^ 1074)%Z l ->
  valid (total l) /\ is_finite (total l) = true /\
  (0 <= ival (total l) <= Z.of_nat (length l) * 100 * 2 ^ 1074)%Z.
Proof.
  induction l as [|x l IH] using rev_ind; [done|]. rewrite length_app, Forall_app. cbn [length].
  intros Hl [Hx (Hv & Hf & Hi)%Forall_singleton]. destruct IH as (Vt & Ft & It); [lia|done|].
  rewrite total_snoc. split; [by apply add_valid|]. set (n := Z.of_nat (length l)) in *.
  assert (Hn : Z.abs ((n + 1) * 100) < 2 ^ 53) by lia.
  destruct (add_bounds (total l) x (#0) (#((n + 1) * 100))) as [Hfr Hir];
    auto with hostpin; try (rewrite !of_Z_ival by lia; lia).
  rewrite (of_Z_ival 0), of_Z_ival in Hir by lia. split; [done|]. lia.
Qed.

Definition valid_sample (s : LatencySample) : Prop := valid (latency_ms s) /\ valid (loss_percent s).

Lemma losses_range l : Forall valid_sample l ->
  Forall (fun x => valid x /\ is_finite x = true /\ 0 <= ival x <= 100 * 2 ^ 1074)%Z (losses l).
Proof.
  intros Hl. apply Forall_fmap, Forall_forall. intros s [Hf Hs]%list_elem_of_filter.
  destruct (proj1 (Forall_forall _ _) Hl s Hs) as [_ Hv]. unfold compose; cbv beta.
  assert (HN : isNaN (loss_percent s) = false) by (by destruct (loss_percent s)).
  destruct (clamp_cases 100 (loss_percent s) ltac:(lia) HN) as [-> | [-> | (-> & H1 & H2)]]; [done|done|].
  apply pos_ival in H1; [|done..]. apply ltb_ival_iff in H2; try done. rewrite of_Z_ival in H2 by lia.
  split_and!; try done; lia.
Qed.

Lemma mean_nonempty l none : l <> [] -> mean l none = total l / of_nat (length l).
Proof. by destruct l. Qed.

Lemma mean_range l none : (Z.of_nat (length l) * 100 < 2 ^ 53)%Z ->
  Forall (fun x => valid x /\ is_finite x = true /\ 0 <= ival x <= 100 * 2 ^ 1074)%Z l ->
  (#0 <=? none) = true -> (none <=? #100) = true ->
  (#0 <=? mean l none) = true /\ (mean l none <=? #100) = true.
Proof.
  intros Hl Hr H0 H1. destruct (decide (l = [])) as [->|Hne]; [done|]. rewrite mean_nonempty by done.
  destruct (total_range _ Hl Hr) as (Vt & Ft & It). unfold of_nat. set (n := Z.of_nat (length l)) in *.
  assert (0 < n)%Z by (destruct l; [done|cbn in n; lia]). assert (0 < 2 ^ 1074)%Z by (by apply pow2_pos).
  destruct (div_bounds (total l) (#n) (#0) (#100)) as [Hf Hi];
    auto with hostpin; [rewrite of_Z_ival by lia; nia|rewrite !of_Z_ival by lia; nia|].
  assert (valid (total l / #n)) by auto with hostpin.
  rewrite !leb_ival_iff by auto with hostpin. done.
Qed.

Lemma nonneg_total l : Forall (fun x => valid x /\ nonneg x = true) l -> valid (total l) /\ nonneg (total l) = true.
Proof.
  induction l as [|x l IH] using rev_ind; [done|]. rewrite Forall_app, Forall_singleton, total_snoc.
  intros [Hl [Hv Hn]]. destruct (IH Hl). split; [by apply add_valid|by apply add_nonneg].
Qed.

(** C19: whatever the samples (also NaN, infinite or negative values), for a
    window of fewer than 2^46 samples the loss average is a number in [0, 100],
    the latency average is a non-negative number, never NaN, and no more
    successes are reported than samples. *)
Theorem summarizeLatencyWindow_bounds samples :
  (Z.of_nat (length samples) < 2 ^ 46)%Z -> Forall valid_sample samples ->
  let r := summarizeLatencyWindow samples in
  (#0 <=? LatencyWindowSummary.average_loss_percent r) = true /\
  (LatencyWindowSummary.average_loss_percent r <=? #100) = true /\
  (#0 <=? LatencyWindowSummary.average_latency_ms r) = true /\
  (LatencyWindowSummary.success_count r <=? LatencyWindowSummary.sample_count r) = true.
Proof.
  intros Hl Hv r. subst r. rewrite summarize_reference by lia.
  pose proof (latencies_length samples). pose proof (losses_length samples).
  cbn [window_summary LatencyWindowSummary.average_loss_percent LatencyWindowSummary.average_latency_ms
       LatencyWindowSummary.success_count LatencyWindowSummary.sample_count].
  destruct (mean_range (losses samples) (#0)) as [Hlo Hhi]; [lia|by apply losses_range|done..|].
  split_and!; [done..| |].
  - assert (Hn : Forall (fun x => valid x /\ nonneg x = true) (latencies samples)).
    { apply Forall_fmap, Forall_forall. intros s [Hu Hs]%list_elem_of_filter.
      destruct (proj1 (Forall_forall _ _) Hv s Hs). split; [done|].
      unfold usable in Hu. by apply andb_true_iff in Hu as [_ Hu]. }
    destruct (nonneg_total _ Hn). unfold mean. destruct (latencies samples) as [|x l] eqn:E; [by destruct samples|].
    assert (Hp : (0 < Z.of_nat (length (x :: l)) < 2 ^ 53)%Z) by (cbn [length] in *; lia).
    apply div_nonneg; auto with hostpin; [apply of_Z_valid; lia|apply of_Z_finite; lia|].
    unfold of_nat. rewrite ltb_of_Z by lia. apply Z.ltb_lt. lia.
  - unfold of_nat. rewrite leb_of_Z by lia. apply Z.leb_le. lia.
Qed.

Lemma summarizeLatencyWindow_bounds_witness :
  (LatencyWindowSummary.average_loss_percent (summarizeLatencyWindow sample_window) <=? #100) = true.
Proof.
  apply (summarizeLatencyWindow_bounds sample_window); [cbn; lia|].
  repeat (apply Forall_cons; split; [by split; try apply of_Z_valid|]). apply Forall_nil_2.
Defined.

(** Every point of a latency chart is a finite non-negative number, and a
    sample that failed is drawn at 999 ms. *)
Theorem latencyChartValue_plottable s :
  isFinite (latencyChartValue s) = true /\ (latencyChartValue s >=? #0) = true /\
  (success s = false -> latencyChartValue s = FAILED_LATENCY_MS).
Proof.
  unfold latencyChartValue, usable. destruct (success s); [|done].
  destruct (isFinite (latency_ms s)) eqn:E; [|done]. destruct (latency_ms s >=? #0) eqn:H; [|done].
  cbn [andb]. by rewrite E, H.
Qed.
