(* ===== verification/Format.v ===== *)
(** * Format: numbers, times and localized strings for display (web/src/format.ts)

    [Math.log] is a parameter (the standard leaves its value to the
    implementation), with the facts about it the code relies on as the class
    [MathLogLaws].  The current time, [Date.now()], is an argument. *)

From Stdlib Require Import Strings.String.
From S2P Require Import Prelude JsString Binary64 JsNumber JsInteger JsDate I18n Types.

Open Scope Z_scope.
Open Scope num_scope.

(** ** Sizes and rates *)

Definition units : list jsstr := [js "B"; js "KiB"; js "MiB"; js "GiB"; js "TiB"; js "PiB"].

(** [`${units[index]}`]: an index outside the array is printed as undefined. *)
Definition unit_at (index : num) : jsstr :=
  match to_Z index with
  | Some k => if Z.leb 0 k then default (js "undefined") (units !! Z.to_nat k) else js "undefined"
  | None => js "undefined"
  end.

Definition bytes `{MathLog} (value : option num) (precision : nat) : jsstr :=
  let value := nullish value (#0) in
  if negb (isFinite value) || (value <=? #0) then js "0 B"
  else
    let index := min (floor (log value / log (#1024))) (of_nat (length units) - #1) in
    (toFixed (value / pow1024 index) (if eqb index (#0) then 0%nat else precision)
       ++ js " " ++ unit_at index)%list.

Definition rate `{MathLog} (value : option num) : jsstr := (bytes value 1 ++ js "/s")%list.

(** ** Percentages *)

Definition percent (used total : option num) : num :=
  let used := nullish used (#0) in
  let total := nullish total (#0) in
  if total >? #0 then min (#100) (max (#0) (used / total * #100)) else #0.

(** ** Durations *)

Definition duration (l : AppLocale) (seconds : option num) : jsstr :=
  let seconds := nullish seconds (#0) in
  let days := floor (seconds / #86400) in
  let hours := floor (rem seconds (#86400) / #3600) in
  let minutes := floor (rem seconds (#3600) / #60) in
  if bool_decide (l = zh_CN) then
    if days >? #0 then (toString days ++ js "天 " ++ toString hours ++ js "小时")%list
    else if hours >? #0 then (toString hours ++ js "小时 " ++ toString minutes ++ js "分钟")%list
    else (toString minutes ++ js "分钟")%list
  else if days >? #0 then (toString days ++ js "d " ++ toString hours ++ js "h")%list
  else if hours >? #0 then (toString hours ++ js "h " ++ toString minutes ++ js "m")%list
  else (toString minutes ++ js "m")%list.

(** ** Times *)

Definition relativeTime `{DateHost} (l : AppLocale) (now : num) (value : option jsstr) : jsstr :=
  let chinese := bool_decide (l = zh_CN) in
  match value with
  | None | Some [] => if chinese then js "从未" else js "never"
  | Some v =>
      let seconds := max (#0) (round ((now - parse v) / #1000)) in
      if chinese then
        if seconds <? #10 then js "刚刚"
        else if seconds <? #60 then (toString seconds ++ js " 秒前")%list
        else if seconds <? #3600 then (toString (floor (seconds / #60)) ++ js " 分钟前")%list
        else if seconds <? #86400 then (toString (floor (seconds / #3600)) ++ js " 小时前")%list
        else (toString (floor (seconds / #86400)) ++ js " 天前")%list
      else
        if seconds <? #10 then js "now"
        else if seconds <? #60 then (toString seconds ++ js "s ago")%list
        else if seconds <? #3600 then (toString (floor (seconds / #60)) ++ js "m ago")%list
        else if seconds <? #86400 then (toString (floor (seconds / #3600)) ++ js "h ago")%list
        else (toString (floor (seconds / #86400)) ++ js "d ago")%list
  end.

(** [dateTime]: formatting an invalid date throws a RangeError ([None]). *)
Definition dateTime `{DateHost} (formatDate : AppLocale -> num -> jsstr) (l : AppLocale)
    (value : option jsstr) : option jsstr :=
  match value with
  | None | Some [] => Some (js "—")
  | Some v => let t := parse v in if isNaN t then None else Some (formatDate l t)
  end.

(** ** Localized strings *)

(** [value[key]] on a string record. *)
Fixpoint member (key : jsstr) (m : list (jsstr * jsstr)) : option jsstr :=
  match m with
  | [] => None
  | (k, v) :: m' => if streq k key then Some v else member key m'
  end.

Definition coalesce {A} (a b : option A) : option A := match a with Some _ => a | None => b end.

Definition localized (l : AppLocale) (value : option localizable) : jsstr :=
  match value with
  | None | Some (LStr []) => []
  | Some (LStr s) => s
  | Some (LMap m) =>
      let language := locale_str l in
      nullish (coalesce (member language m)
        (coalesce (member (nullish (head (split language (js "-"))) []) m)
          (coalesce (member (js "en") m) (head (snd <$> m))))) []
  end.

(** ** What the code relies on of [Math.log] *)

Definition minus_eps : num := S754_finite true 4503599627370496 (-105).

(** [Math.log] is a number, non-negative from 1 on, negative below 1 (the
    greatest number below 1 is 1 - 2^-53, so the logarithm is at most -2^-53),
    of magnitude at most 1024; ln 1024 is between 6 and 7. *)
Class MathLogLaws (L : MathLog) : Prop := {
  log_valid x : valid x -> valid (log x);
  log_ge_one x : valid x -> is_finite x = true -> (#1 <=? x) = true ->
    (#0 <=? log x) = true /\ (log x <=? #1024) = true;
  log_lt_one x : valid x -> (#0 <? x) = true -> (x <? #1) = true ->
    (#(-1024) <=? log x) = true /\ (log x <=? minus_eps) = true;
  log_1024 : (#6 <=? log (#1024)) = true /\ (log (#1024) <=? #7) = true;
}.

(** A function with these properties. *)
Definition step_log : MathLog := fun x =>
  if isNaN x then NaN else if x <? #1 then #(-1) else if x <? #512 then #1 else #7.

Lemma step_log_laws : MathLogLaws step_log.
Proof.
  split.
  - intros x Hx. unfold log, step_log. repeat break; by vm_compute.
  - intros x Hx Hf H1. unfold log, step_log. assert (Hlt : (x <? #1) = false) by (by apply leb_not_ltb).
    assert (HN : isNaN x = false) by (by destruct x). rewrite Hlt, HN. break; done.
  - intros x Hx H0 H1. unfold log, step_log. assert (HN : isNaN x = false) by (by destruct x).
    by rewrite H1, HN.
  - done.
Qed.

(** ** Lemmas *)

Lemma log_1024_range `{L : MathLog} `{!MathLogLaws L} :
  valid (log (#1024)) /\ is_finite (log (#1024)) = true /\ 6 * 2 ^ 1074 <= ival (log (#1024)) <= 7 * 2 ^ 1074.
Proof.
  destruct log_1024 as [H6 H7]. assert (Hv : valid (log (#1024))) by (by apply log_valid, of_Z_valid).
  assert (Hf : is_finite (log (#1024)) = true) by (by destruct (log (#1024)) as [|[]| |]).
  apply leb_ival_iff in H6, H7; try done; by apply of_Z_valid.
Qed.

(** The exponent the code computes: a negative integer below 1 and a
    non-negative one from 1 on. *)
Lemma between_finite x a b : Z.abs a < 2 ^ 53 -> valid b -> is_finite b = true ->
  valid x -> (#a <=? x) = true -> (x <=? b) = true -> is_finite x = true /\ a * 2 ^ 1074 <= ival x <= ival b.
Proof.
  intros Ha Hb Fb Hv H0 H1. pose proof (of_Z_finite a Ha) as Fa.
  assert (Hf : is_finite x = true).
  { destruct x as [|[]| |]; try done; [by destruct (#a) as [| | |[]]|by destruct b as [| | |[]]]. }
  apply leb_ival_iff in H0, H1; try done; [|by apply of_Z_valid]. by rewrite of_Z_ival in H0.
Qed.

Lemma exponent_nonneg `{L : MathLog} `{!MathLogLaws L} x :
  valid x -> is_finite x = true -> (#1 <=? x) = true ->
  exists k, 0 <= k /\ let q := floor (log x / log (#1024)) in
    valid q /\ is_finite q = true /\ ival q = (k * 2 ^ 1074)%Z.
Proof.
  intros Hv Hf H1. destruct (log_ge_one x Hv Hf H1) as [L0 L1]. destruct log_1024_range as (Vy & Fy & Iy).
  assert (Vx : valid (log x)) by (by apply log_valid).
  destruct (between_finite (log x) 0 (#1024)) as [Fx Ix]; auto with hostpin.
  rewrite of_Z_ival in Ix by lia. assert (0 < 2 ^ 1074)%Z by (by apply pow2_pos).
  destruct (div_bounds (log x) (log (#1024)) (#0) (#1024)) as [Fq Iq]; auto with hostpin; [nia|rewrite !of_Z_ival by lia; nia|].
  rewrite !of_Z_ival in Iq by lia. destruct (floor_spec (log x / log (#1024))) as (Vf & Ff & If); auto with hostpin.
  exists (ival (log x / log (#1024))%num / 2 ^ 1074)%Z. split; [apply Z.div_pos; lia|done].
Qed.

Lemma exponent_neg `{L : MathLog} `{!MathLogLaws L} x :
  valid x -> (#0 <? x) = true -> (x <? #1) = true ->
  exists k, k < 0 /\ let q := floor (log x / log (#1024)) in
    valid q /\ is_finite q = true /\ ival q = (k * 2 ^ 1074)%Z.
Proof.
  intros Hv H0 H1. destruct (log_lt_one x Hv H0 H1) as [L0 L1]. destruct log_1024_range as (Vy & Fy & Iy).
  assert (Vx : valid (log x)) by (by apply log_valid).
  destruct (between_finite (log x) (-1024) minus_eps) as [Fx Ix]; auto with hostpin; [done|].
  destruct (repr_signed (-1) (-57)) as (B & VB & FB & IB); [lia..|].
  assert (HE : ival minus_eps = (- 2 ^ 1021)%Z) by (vm_compute; reflexivity). rewrite HE in Ix.
  change (-57 + 1074)%Z with 1017%Z in IB. assert (0 < 2 ^ 1017)%Z by (by apply pow2_pos).
  assert (E1 : (2 ^ 1021 = 16 * 2 ^ 1017)%Z) by exact (pow2_split 4 1017 ltac:(lia) ltac:(lia)).
  assert (E2 : (2 ^ 1074 = 2 ^ 57 * 2 ^ 1017)%Z) by exact (pow2_split 57 1017 ltac:(lia) ltac:(lia)).
  destruct (div_bounds (log x) (log (#1024)) (#(-1024)) B) as [Fq Iq]; auto with hostpin;
    [nia|rewrite !of_Z_ival by lia; rewrite IB; split; nia|].
  destruct (floor_spec (log x / log (#1024))) as (Vf & Ff & If); auto with hostpin.
  exists (ival (log x / log (#1024))%num / 2 ^ 1074)%Z. split; [|done]. apply Z.div_lt_upper_bound; nia.
Qed.

(** [Math.min(index, 5)] of an integer. *)
Lemma min_five q k : valid q -> is_finite q = true -> ival q = (k * 2 ^ 1074)%Z ->
  to_Z (min q (#5)) = Some (Z.min k 5).
Proof.
  intros Hv Hf Hi. assert (0 < 2 ^ 1074)%Z by (by apply pow2_pos).
  assert (HN : isNaN q = false) by (by destruct q).
  unfold min. change (isNaN (#5)) with false. change (is_neg_zero (#5)) with false. rewrite HN. cbn [orb].
  destruct (q <? #5) eqn:E1; [|destruct (#5 <? q) eqn:E2].
  - apply ltb_ival_iff in E1; auto with hostpin. rewrite of_Z_ival in E1 by lia.
    rewrite (to_Z_complete q k) by done. f_equal. nia.
  - apply ltb_ival_iff in E2; auto with hostpin. rewrite of_Z_ival in E2 by lia. rewrite to_Z_of_Z by lia. f_equal. nia.
  - assert (Hk : k = 5).
    { apply not_true_iff_false in E1, E2. rewrite ltb_ival_iff, of_Z_ival in E1, E2 by auto with hostpin. nia. }
    subst k. rewrite to_Z_complete with (n := 5); auto.
Qed.

Lemma pow1024_to_Z x k : to_Z x = Some k -> pow1024 x = SFldexp 53 1024 (#1) (10 * k).
Proof. intros H. unfold pow1024. destruct x; try done; by rewrite H. Qed.

Lemma eqb_zero_to_Z x k : valid x -> to_Z x = Some k -> eqb x (#0) = Z.eqb k 0.
Proof.
  intros Hv H. destruct (to_Z_spec x k Hv H) as [Hf Hi]. assert (0 < 2 ^ 1074)%Z by (by apply pow2_pos).
  destruct x as [s| | |s m e]; try done; [cbn in H; injection H as <-; by destruct s|].
  symmetry. destruct Hv as [Hc _]. pose proof (mval_pos _ _ Hc).
  destruct s; cbn [ival] in Hi; apply Z.eqb_neq; nia.
Qed.

(** The size of a value the guard lets through, from the exponent. *)
Lemma bytes_eq `{L : MathLog} v p k : (v <=? #0) = false -> is_finite v = true ->
  let q := floor (log v / log (#1024)) in
  valid q -> is_finite q = true -> ival q = (k * 2 ^ 1074)%Z ->
  bytes (Some v) p
  = (toFixed (v / SFldexp 53 1024 (#1) (10 * Z.min k 5)) (if Z.eqb (Z.min k 5) 0 then 0%nat else p) ++ js " " ++
     if Z.leb 0 k then default (js "undefined") (units !! Z.to_nat (Z.min k 5)) else js "undefined")%list.
Proof.
  intros H0 Hf q Vq Fq Iq. unfold bytes. change (nullish (Some v) (#0)) with v. cbv zeta. unfold isFinite. rewrite Hf, H0. cbn [negb orb].
  fold q. change (of_nat (length units) - #1) with (#5).
  pose proof (min_five q k Vq Fq Iq) as Hm. assert (Vm : valid (min q (#5))) by auto with hostpin.
  unfold unit_at. rewrite (pow1024_to_Z _ _ Hm), (eqb_zero_to_Z _ _ Vm Hm), Hm.
  by destruct (Z.leb_spec 0 k), (Z.leb_spec 0 (Z.min k 5)); try lia.
Qed.

Lemma div_not_nan x y : valid x -> valid y -> isNaN x = false -> (#0 <? y) = true ->
  is_finite x = true \/ is_finite y = true -> isNaN (x / y) = false.
Proof.
  destruct x as [sx|sx| |sx m e], y as [sy|[]| |[] m' e']; try done; intros Hx Hy _ _ Hfin; [by destruct Hfin|].
  destruct Hx as [H1%canonical_emin _], Hy as [H2%canonical_emin _].
  destruct (rounds_valid _ _ _ _ (SFdiv_rounds m e m' e' H1 H2 sx false)) as [_ Hr].
  unfold div. by destruct (SFdiv _ _ _ _).
Qed.

Lemma mul_not_nan x y : valid x -> valid y -> isNaN x = false -> is_finite y = true -> (#0 <? y) = true ->
  isNaN (x * y) = false.
Proof.
  destruct x as [sx|sx| |sx m e], y as [sy| | |[] m' e']; try done. intros [H1 _] [H2 _] _ _ _.
  destruct (rounds_valid _ _ _ _ (SFmul_rounds sx m e false m' e' H1 H2)) as [_ Hr].
  unfold mul. by destruct (SFmul _ _ _ _).
Qed.

(** ** Properties *)

Lemma pow1024_unit k : 0 <= k <= 5 -> pow1024 (#k) = #(1024 ^ k).
Proof.
  intros Hk. assert (Hc : k = 0 \/ k = 1 \/ k = 2 \/ k = 3 \/ k = 4 \/ k = 5) by lia.
  destruct Hc as [-> | [-> | [-> | [-> | [-> | ->]]]]]; vm_compute; reflexivity.
Qed.

(** C36: from one byte on, a size is printed in the unit that the whole part of its
    logarithm to the base 1024 (as the host computes it) numbers: bytes for 0, KiB
    for 1 and so on, PiB for 5 and everything above.  The number printed is the
    size divided by 1024 to that power, without decimals in bytes and with the
    requested number of decimals in the larger units.  What is not positive, or
    not finite, is printed as 0 B. *)
Theorem bytes_in_unit `{L : MathLog} `{!MathLogLaws L} v p : valid v ->
  (is_finite v = false \/ (v <=? #0) = true -> bytes (Some v) p = js "0 B") /\
  (is_finite v = true -> (#1 <=? v) = true ->
   exists k, 0 <= k /\ to_Z (floor (log v / log (#1024))) = Some k /\
     let j := Z.min k 5 in
     bytes (Some v) p
     = (toFixed (v / #(1024 ^ j)) (if Z.eqb j 0 then 0%nat else p) ++ js " " ++
        match j with 0 => js "B" | 1 => js "KiB" | 2 => js "MiB" | 3 => js "GiB" | 4 => js "TiB" | _ => js "PiB" end)%list).
Proof.
  intros Hv. split.
  - intros [H|H]; unfold bytes; change (nullish (Some v) (#0)) with v; cbv zeta; unfold isFinite; rewrite H; [done|]. by rewrite orb_true_r.
  - intros Hf H1. destruct (exponent_nonneg v Hv Hf H1) as (k & Hk & Vq & Fq & Iq).
    assert (H0 : (v <=? #0) = false).
    { apply not_true_iff_false. rewrite leb_ival_iff by auto with hostpin. apply leb_ival_iff in H1; auto with hostpin.
      rewrite of_Z_ival in * by lia. assert (0 < 2 ^ 1074)%Z by (by apply pow2_pos). lia. }
    exists k. split; [done|]. split; [by apply to_Z_complete|]. cbn zeta. rewrite (bytes_eq v p k H0 Hf Vq Fq Iq). set (j := Z.min k 5).
    assert (Hj : 0 <= j <= 5) by lia. rewrite (proj2 (Z.leb_le 0 k) Hk).
    rewrite <- (pow1024_to_Z (#j) j) by (apply to_Z_of_Z; lia). rewrite pow1024_unit by done. do 2 f_equal.
    assert (Hc : j = 0 \/ j = 1 \/ j = 2 \/ j = 3 \/ j = 4 \/ j = 5) by lia. by destruct Hc as [-> | [-> | [-> | [-> | [-> | ->]]]]].
Qed.

Lemma bytes_in_unit_witness : @bytes step_log (Some (#3000)) 1 = js "2.9 KiB".
Proof.
  destruct (proj2 (bytes_in_unit (MathLogLaws0 := step_log_laws) (#3000) 1 ltac:(apply of_Z_valid; reflexivity)) eq_refl eq_refl)
    as (k & _ & Hk & H).
  assert (E : k = 1) by (vm_compute in Hk; by injection Hk as <-). subst k. rewrite H. vm_compute. reflexivity.
Defined.

(** A positive rate below one byte per second is printed with the unit
    "undefined": the logarithm is negative, so the index is, and the lookup in
    the list of units fails. *)
Theorem rate_below_one_undefined `{L : MathLog} `{!MathLogLaws L} v :
  valid v -> (#0 <? v) = true -> (v <? #1) = true ->
  exists digits, rate (Some v) = (digits ++ js " undefined/s")%list.
Proof.
  intros Hv H0 H1. destruct (exponent_neg v Hv H0 H1) as (k & Hk & Vq & Fq & Iq).
  assert (Hf : is_finite v = true) by (by destruct v as [|[]| |]).
  assert (Hn : (v <=? #0) = false).
  { apply not_true_iff_false. rewrite leb_ival_iff by auto with hostpin. apply pos_ival in H0; [|done..]. cbn. lia. }
  unfold rate. rewrite (bytes_eq v 1 k Hn Hf Vq Fq Iq). destruct (Z.leb_spec 0 k); [lia|].
  eexists. rewrite <- app_assoc. reflexivity.
Qed.

Lemma rate_below_one_undefined_witness :
  @rate step_log (Some (of_frac 1 2)) = js "512.0 undefined/s" /\
  exists digits, @rate step_log (Some (of_frac 1 2)) = (digits ++ js " undefined/s")%list.
Proof.
  split; [vm_compute; reflexivity|].
  apply (rate_below_one_undefined (MathLogLaws0 := step_log_laws) (of_frac 1 2));
    [split; vm_compute; congruence | reflexivity | reflexivity].
Defined.

(** A resource percentage is a number in [0, 100] for every pair of counters
    other than NaN (missing and negative ones included), unless both are
    infinite; without a positive total it is 0. *)
Theorem percent_range used total :
  let u := nullish used (#0) in let t := nullish total (#0) in
  valid u -> valid t -> isNaN u = false -> is_finite u = true \/ is_finite t = true ->
  (#0 <=? percent used total) = true /\ (percent used total <=? #100) = true /\
  ((t >? #0) = false -> percent used total = #0).
Proof.
  intros u t Hu Ht HN Hfin. unfold percent. fold u t. destruct (t >? #0) eqn:E; [|done].
  assert (Hq : isNaN (u / t * #100) = false) by (apply mul_not_nan; auto with hostpin; by apply div_not_nan).
  destruct (clamp_range 100 (u / t * #100) ltac:(lia) Hq). done.
Qed.

Lemma percent_range_witness : (percent (Some (#925)) (Some (#1000)) <=? #100) = true.
Proof. apply (percent_range (Some (#925)) (Some (#1000))); try (by apply of_Z_valid); [reflexivity|by left]. Defined.

(** ** Durations and relative times on integers *)

(** Days, hours and minutes of a whole number of seconds. *)
Definition duration_label (l : AppLocale) (n : Z) : jsstr :=
  let days := (n / 86400)%Z in
  let hours := (n mod 86400 / 3600)%Z in
  let minutes := (n mod 3600 / 60)%Z in
  if Z.ltb 0 days then
    (toString (#days) ++ text l (js "天 ") (js "d ") ++ toString (#hours) ++ text l (js "小时") (js "h"))%list
  else if Z.ltb 0 hours then
    (toString (#hours) ++ text l (js "小时 ") (js "h ") ++ toString (#minutes) ++ text l (js "分钟") (js "m"))%list
  else (toString (#minutes) ++ text l (js "分钟") (js "m"))%list.

Lemma gtb_zero n : 0 <= n < 2 ^ 53 -> (#n >? #0) = Z.ltb 0 n.
Proof. intros. unfold gtb. change SFltb with ltb. rewrite ltb_of_Z by lia. done. Qed.

(** For a whole number of seconds (up to 2^45, a million years) a duration
    shows the exact days and hours, or hours and minutes, or minutes, of the
    number, in the language of the page. *)
Theorem duration_exact l n : 0 <= n < 2 ^ 45 -> duration l (Some (#n)) = duration_label l n.
Proof.
  intros Hn. unfold duration. change (nullish (Some (#n)) (#0)) with (#n). cbv zeta.
  pose proof (Z.mod_pos_bound n 86400 ltac:(lia)). pose proof (Z.mod_pos_bound n 3600 ltac:(lia)).
  assert (Hd : 0 <= n / 86400 < 2 ^ 29) by (split; [apply Z.div_pos|apply Z.div_lt_upper_bound]; lia).
  assert (Hh : 0 <= n mod 86400 / 3600 < 24) by (split; [apply Z.div_pos|apply Z.div_lt_upper_bound]; lia).
  assert (Hm : 0 <= n mod 3600 / 60 < 60) by (split; [apply Z.div_pos|apply Z.div_lt_upper_bound]; lia).
  rewrite !rem_of_Z, (floor_div n 86400 17), (floor_div (n mod 86400) 3600 12), (floor_div (n mod 3600) 60 6) by lia.
  rewrite !gtb_zero by lia. unfold duration_label, text. case_bool_decide; repeat break; done.
Qed.

Lemma duration_exact_witness : duration en_US (Some (#90061)) = js "1d 1h".
Proof. rewrite (duration_exact en_US 90061) by lia. vm_compute. reflexivity. Defined.

(** The label of an age in whole seconds. *)
Definition age_label (l : AppLocale) (s : Z) : jsstr :=
  if Z.ltb s 10 then text l (js "刚刚") (js "now")
  else if Z.ltb s 60 then (toString (#s) ++ text l (js " 秒前") (js "s ago"))%list
  else if Z.ltb s 3600 then (toString (#(s / 60)) ++ text l (js " 分钟前") (js "m ago"))%list
  else if Z.ltb s 86400 then (toString (#(s / 3600)) ++ text l (js " 小时前") (js "h ago"))%list
  else (toString (#(s / 86400)) ++ text l (js " 天前") (js "d ago"))%list.

(** The seconds between two instants: half seconds round up, the future is 0. *)
Lemma age_seconds a b : 0 <= a < 2 ^ 44 -> 0 <= b < 2 ^ 44 ->
  max (#0) (round ((#a - #b) / #1000)) = #(Z.max 0 ((a - b + 500) / 1000)).
Proof.
  intros Ha Hb. destruct (sub_of_Z a b) as [Hf Hi]; [lia..|]. assert (0 < 2 ^ 1074)%Z by (by apply pow2_pos).
  assert (Hv : valid (#a - #b)) by (apply sub_valid; auto with hostpin).
  destruct (Z.lt_trichotomy (a - b) 0) as [Hneg|[Hz|Hpos]].
  - destruct (div_bounds (#a - #b) (#1000) (#(a - b)) (#0)) as [Fq Iq]; auto with hostpin;
      [rewrite Hi, !of_Z_ival by lia; nia|].
    destruct (round_spec ((#a - #b) / #1000)) as (Vr & Fr & Ir); auto with hostpin.
    rewrite (of_Z_ival 0) in Iq by lia. assert ((a - b + 500) / 1000 < 1)%Z by (apply Z.div_lt_upper_bound; lia).
    replace (Z.max 0 ((a - b + 500) / 1000)) with 0%Z by lia.
    apply max_0_nonpos; [by destruct (round _)|]. apply not_true_iff_false. rewrite pos_ival by done.
    assert (E : (2 ^ 1075 = 2 * 2 ^ 1074)%Z) by (by rewrite <- Z.pow_succ_r by lia).
    assert ((2 * ival ((#a - #b) / #1000)%num + 2 ^ 1074) / 2 ^ 1075 < 1)%Z by (apply Z.div_lt_upper_bound; lia). nia.
  - rewrite Hz in *. replace (Z.max 0 ((0 + 500) / 1000)) with 0%Z by done.
    assert (Hs : exists s, #a - #b = S754_zero s).
    { destruct (#a - #b) as [s| | |s m e]; try done; [by eexists|]. destruct Hv as [Hc _].
      pose proof (mval_pos _ _ Hc). destruct s; cbn [ival] in Hi; lia. }
    destruct Hs as [s ->]. by destruct s.
  - rewrite (ival_of_Z (#a - #b) (a - b)) by (done || lia).
    assert (E : ((2 * (a - b) + 1000) / (2 * 1000) = (a - b + 500) / 1000)%Z).
    { replace (2 * (a - b) + 1000)%Z with ((a - b + 500) * 2)%Z by lia.
      replace (2 * 1000)%Z with (1000 * 2)%Z by lia. apply Z.div_mul_cancel_r; lia. }
    assert (Hq : 0 <= (a - b + 500) / 1000 < 2 ^ 35) by (split; [apply Z.div_pos|apply Z.div_lt_upper_bound]; lia).
    rewrite (round_div (a - b) 1000 10) by (rewrite ?E; lia). rewrite E.
    replace (Z.max 0 ((a - b + 500) / 1000)) with ((a - b + 500) / 1000)%Z by lia.
    destruct (Z.eq_dec ((a - b + 500) / 1000) 0) as [->|]; [done|]. apply max_0_pos.
    rewrite ltb_of_Z by lia. apply Z.ltb_lt. lia.
Qed.

(** The age of a parsed timestamp (instants up to the year 2527) is the
    difference to the clock rounded to seconds, shown in the largest of
    seconds, minutes, hours and days that fits; an instant in the future is
    "now", never a negative age. *)
Theorem relativeTime_age `{DateHost} l v a b :
  truthy v = true -> parse v = #b -> 0 <= a < 2 ^ 44 -> 0 <= b < 2 ^ 44 ->
  relativeTime l (#a) (Some v) = age_label l (Z.max 0 ((a - b + 500) / 1000)).
Proof.
  intros Hv Hp Ha Hb. destruct v as [|c v]; [done|]. unfold relativeTime. rewrite Hp, age_seconds by done.
  set (s := Z.max 0 ((a - b + 500) / 1000)).
  assert (Hs : 0 <= s < 2 ^ 35).
  { unfold s. assert ((a - b + 500) / 1000 < 2 ^ 35)%Z by (apply Z.div_lt_upper_bound; lia). lia. }
  assert (Hd : 0 <= s / 86400 < 2 ^ 35) by (split; [apply Z.div_pos|apply Z.div_lt_upper_bound]; lia).
  assert (Hh : 0 <= s / 3600 < 2 ^ 35) by (split; [apply Z.div_pos|apply Z.div_lt_upper_bound]; lia).
  assert (Hm : 0 <= s / 60 < 2 ^ 35) by (split; [apply Z.div_pos|apply Z.div_lt_upper_bound]; lia).
  rewrite !ltb_of_Z, (floor_div s 86400 17), (floor_div s 3600 12), (floor_div s 60 6) by lia.
  unfold age_label, text. case_bool_decide; repeat break; done.
Qed.

(** A host whose local time is UTC and that reads nothing but the standard
    format. *)
Definition utc_host : DateHost := {| localTZA _ := 0%Z; parse_other _ := NaN |}.

Lemma relativeTime_age_witness :
  @relativeTime utc_host en_US (#1787529600000) (Some (js "2026-08-23T22:00:00Z")) = js "2h ago".
Proof.
  rewrite (@relativeTime_age utc_host en_US (js "2026-08-23T22:00:00Z") 1787529600000 1787522400000);
    [vm_compute; reflexivity | reflexivity | vm_compute; reflexivity | lia | lia].
Defined.

(** A localized string is looked up under the page's locale, then its
    language, then English; only when none of these is present does the first
    entry stand in, and an absent value or an empty record is empty. *)
Theorem localized_fallback l m :
  (forall s, member (locale_str l) m = Some s -> localized l (Some (LMap m)) = s) /\
  (member (locale_str l) m = None ->
   forall s, member (match l with zh_CN => js "zh" | en_US => js "en" end) m = Some s ->
   localized l (Some (LMap m)) = s) /\
  (member (locale_str l) m = None -> member (js "zh") m = None ->
   forall s, member (js "en") m = Some s -> localized l (Some (LMap m)) = s) /\
  (member (locale_str l) m = None -> member (js "zh") m = None -> member (js "en") m = None ->
   localized l (Some (LMap m)) = match m with [] => [] | (_, s) :: _ => s end).
Proof.
  unfold localized.
  assert (Hl : nullish (head (split (locale_str l) (js "-"))) [] = match l with zh_CN => js "zh" | en_US => js "en" end)
    by (by destruct l).
  rewrite Hl. split_and!.
  - by intros s ->.
  - by intros -> s ->.
  - intros -> Hzh s Hen. destruct l; [by rewrite Hzh, Hen|by rewrite Hen].
  - intros -> Hzh Hen. assert (H1 : member (match l with zh_CN => js "zh" | en_US => js "en" end) m = None) by (by destruct l).
    rewrite H1, Hen. by destruct m as [|[]].
Qed.
