(* ===== verification/Api.v ===== *)
(** * Api: requests to the server (web/src/api.ts)

    [checkedResponse], [api] and [apiDownload] as programs over three awaited
    calls ([fetch], [response.json()], [response.blob()]) whose state is the
    page's cookie string; the cookie reader, the header rules, the error mapping
    and the parsing of Content-Disposition are functions.  [socketURL] is given
    for the absolute paths the client uses. *)

From Stdlib Require Import Strings.String.
From S2P Require Import Prelude JsString Binary64 JsNumber Uri Async Types.

(** ** The cookie *)

(** [cookie(name)] on the value of [document.cookie]; [None] is a URIError. *)
Definition cookie (document_cookie name : jsstr) : option jsstr :=
  let prefix := (name ++ js "=")%list in
  match List.find (fun part => startsWith part prefix) (split document_cookie (js "; ")) with
  | Some (c :: value) => decodeURIComponent (drop (length prefix) (c :: value))
  | _ => Some []
  end.

(** ** Headers: names are compared without case *)

Definition headers := list (jsstr * jsstr).

Definition header_key (name : jsstr) : jsstr := map ascii_lower name.

Definition header_get (name : jsstr) (h : headers) : option jsstr :=
  snd <$> List.find (fun kv => streq (kv.1) (header_key name)) h.

Definition header_set (name value : jsstr) (h : headers) : headers :=
  ((header_key name, value) :: filter (fun kv => kv.1 <> header_key name) h)%list.

(** [new Headers(init)]: repeated names are combined. *)
Definition newHeaders (init : list (jsstr * jsstr)) : headers :=
  fold_left (fun h '(n, v) =>
    match header_get n h with
    | Some old => header_set n (old ++ js ", " ++ v)%list h
    | None => (h ++ [(header_key n, v)])%list
    end) init [].

(** ** Requests and responses *)

Inductive form_value := FormText (s : jsstr) | FormFile (blob : N).

Inductive body_ := TextBody (s : jsstr) | FormData (fields : list (jsstr * form_value)).

Record RequestInit := mkInit { method : option jsstr; init_headers : list (jsstr * jsstr); body : option body_ }.

Definition no_options : RequestInit := mkInit None [] None.
Definition post (b : option body_) : RequestInit := mkInit (Some (js "POST")) [] b.

(** The argument of [fetch]; [credentials] is always same-origin. *)
Record request := mkRequest {
  path : jsstr; req_method : option jsstr; req_headers : headers; req_body : option body_; credentials : jsstr;
}.

(** [cookies_after] is what [document.cookie] reads once the browser has stored
    the cookies of the response: [None] when the response sets none. *)
Record response := mkResponse { status : Z; resp_headers : headers; cookies_after : option jsstr }.

Definition ok (r : response) : bool := Z.leb 200 (status r) && Z.leb (status r) 299.

Inductive Req := Fetch (r : request) | ReadJson (r : response) | ReadBlob (r : response).

Definition Resp (r : Req) : Type :=
  match r with Fetch _ => response | ReadJson _ => json | ReadBlob _ => N end.

(** The page: the string [document.cookie] reads. *)
Definition page := jsstr.
Definition M := prog page Req Resp.
Open Scope async_scope.

(** The cookies of a response are stored before the page sees the response. *)
Definition fetch (r : request) : M response :=
  let! resp := await (One (Fetch r)) in
  do! modify (nullish (cookies_after resp));
  Ret resp.
Definition read_json (r : response) : M json := await (One (ReadJson r)).
Definition read_blob (r : response) : M N := await (One (ReadBlob r)).

(** ** Error payloads *)

Fixpoint json_str (j : json) : jsstr :=
  match j with
  | JNull => js "null"
  | JBool b => if b then js "true" else js "false"
  | JNum n => toString n
  | JStr s => s
  | JArr l => join (map (fun x => match x with JNull => [] | _ => json_str x end) l) (js ",")
  | JObj _ => js "[object Object]"
  end.

(** [j.key] on a value that is not null. *)
Definition field (key : jsstr) (j : json) : option json :=
  match j with
  | JObj m => snd <$> List.find (fun kv => streq (kv.1) key) m
  | _ => None
  end.

(** [payload.error?.key ?? fallback]. *)
Definition error_field (key : jsstr) (payload : json) (fallback : jsstr) : jsstr :=
  match field (js "error") payload with
  | None | Some JNull => fallback
  | Some e => match field key e with
              | None | Some JNull => fallback
              | Some v => json_str v
              end
  end.

(** The error for a payload; reading a property of [null] is a TypeError. *)
Definition api_error (status : Z) (payload : json) : exn :=
  match payload with
  | JNull => OtherError (js "Cannot read properties of null (reading 'error')")
  | _ => APIError (of_Z status)
           (error_field (js "code") payload (js "http_error"))
           (error_field (js "message") payload
              (js "Request failed with HTTP " ++ toString (of_Z status))%list)
  end.

(** ** checkedResponse, api, apiDownload *)

Definition body_truthy (b : option body_) : bool :=
  match b with Some (TextBody []) | None => false | Some _ => true end.
Definition is_form (b : option body_) : bool := match b with Some (FormData _) => true | _ => false end.

Definition default_content_type (options : RequestInit) (h : headers) : headers :=
  if body_truthy (body options) && negb (is_form (body options))
     && negb (bool_decide (is_Some (header_get (js "Content-Type") h)))
  then header_set (js "Content-Type") (js "application/json") h else h.

Section Api.
Context `{Unicode}.

Definition method_of (options : RequestInit) : jsstr := toUpperCase (nullish (method options) (js "GET")).

Definition reads_only (m : jsstr) : bool :=
  streq m (js "GET") || streq m (js "HEAD") || streq m (js "OPTIONS").

(** [const csrf = cookie('hostpin_csrf'); if (csrf) headers.set(...)]. *)
Definition csrf_header (h : headers) : M headers :=
  let! doc := get in
  match cookie doc (js "hostpin_csrf") with
  | None => Throw (OtherError (js "URI malformed"))
  | Some csrf => Ret (if truthy csrf then header_set (js "X-CSRF-Token") csrf h else h)
  end.

Definition checkedResponse (p : jsstr) (options : RequestInit) : M response :=
  let h := default_content_type options (newHeaders (init_headers options)) in
  let! h := (if negb (reads_only (method_of options)) then csrf_header h else Ret h) in
  let! response := fetch (mkRequest p (method options) h (body options) (js "same-origin")) in
  if negb (ok response) then
    let! payload := try_catch (read_json response) (fun _ => Ret (JObj [])) in
    Throw (api_error (status response) payload)
  else Ret response.

(** [None] is [undefined]. *)
Definition api (p : jsstr) (options : RequestInit) : M (option json) :=
  let! response := checkedResponse p options in
  if Z.eqb (status response) 204 then Ret None
  else let! j := read_json response in Ret (Some j).

(** ** Content-Disposition *)

Fixpoint ci_startsWith (s p : jsstr) : bool :=
  match p, s with
  | [], _ => true
  | a :: p', b :: s' => N.eqb (ascii_lower a) (ascii_lower b) && ci_startsWith s' p'
  | _ :: _, [] => false
  end.

Fixpoint take_while (f : N -> bool) (s : jsstr) : jsstr :=
  match s with c :: s' => if f c then c :: take_while f s' else [] | [] => [] end.

(** The extended parameter of RFC 5987: the value after [filename*=UTF-8''] up
    to a semicolon, at the first place where it is not empty. *)
Fixpoint encoded_filename (s : jsstr) : option jsstr :=
  let here := if ci_startsWith s (js "filename*=UTF-8''")
              then match take_while (fun c => negb (N.eqb c 59)) (drop 17 s) with [] => None | v => Some v end
              else None in
  match here, s with
  | Some v, _ => Some v
  | None, _ :: s' => encoded_filename s'
  | None, [] => None
  end.

(** The plain parameter: the value after [filename=] and an optional double
    quote (code 34), up to a double quote or a semicolon. *)
Fixpoint plain_filename (s : jsstr) : option jsstr :=
  let here := if ci_startsWith s (js "filename=")
              then let t := drop 9 s in
                   let t := match t with 34%N :: t' => t' | _ => t end in
                   match take_while (fun c => negb (N.eqb c 34 || N.eqb c 59)) t with [] => None | v => Some v end
              else None in
  match here, s with
  | Some v, _ => Some v
  | None, _ :: s' => plain_filename s'
  | None, [] => None
  end.

Definition fallback_filename : jsstr := js "hostpin-backup.hostpin-backup".

(** The [try] keeps the fallback when decoding throws. *)
Definition download_filename (disposition : jsstr) : jsstr :=
  match encoded_filename disposition with
  | Some e => nullish (decodeURIComponent e) fallback_filename
  | None => nullish (plain_filename disposition) fallback_filename
  end.

Definition apiDownload (p : jsstr) (options : RequestInit) : M (N * jsstr) :=
  let! response := checkedResponse p options in
  let disposition := nullish (header_get (js "Content-Disposition") (resp_headers response)) [] in
  let filename := download_filename disposition in
  let! blob := read_blob response in
  Ret (blob, filename).

End Api.

Record enveloped (T : Type) := mkData { data : T }.
Arguments mkData {T} _.
Arguments data {T} _.

Definition unwrap {T} (value : enveloped T) : T := data value.

(** ** socketURL on an absolute path *)

Record Location := mkLocation { protocol : jsstr; host : jsstr }.

Definition socketURL (l : Location) (p : jsstr) : jsstr :=
  ((if streq (protocol l) (js "https:") then js "wss:" else js "ws:") ++ js "//" ++ host l ++ p)%list.

(** ** Lemmas *)

Lemma header_get_set_same n v h : header_get n (header_set n v h) = Some v.
Proof. unfold header_get, header_set. cbn. by rewrite streq_refl. Qed.

Lemma header_get_set_other n m v h : header_key n <> header_key m ->
  header_get n (header_set m v h) = header_get n h.
Proof.
  intros Hne. unfold header_get, header_set, headers in *. cbn [List.find fst].
  destruct (streq (header_key m) (header_key n)) eqn:E; [by apply streq_eq in E|]. f_equal.
  induction h as [|[k x] h IH]; [done|]. rewrite filter_cons. cbn [List.find fst].
  case_decide as Hk; cbn [List.find fst].
  - destruct (streq k (header_key n)); [done|]. apply IH.
  - destruct (streq k (header_key n)) eqn:Ek; [|apply IH]. apply streq_eq in Ek. congruence.
Qed.

Lemma content_type_csrf options h :
  header_get (js "X-CSRF-Token") (default_content_type options h) = header_get (js "X-CSRF-Token") h.
Proof. unfold default_content_type. break; [|done]. by apply header_get_set_other. Qed.

(** ** Properties: requests *)

(** The request a call sends, if the cookie can be read. *)
Definition sent `{Unicode} (doc p : jsstr) (options : RequestInit) : option request :=
  let h := default_content_type options (newHeaders (init_headers options)) in
  let build h := mkRequest p (method options) h (body options) (js "same-origin") in
  if reads_only (method_of options) then Some (build h)
  else v ← cookie doc (js "hostpin_csrf");
       Some (build (if truthy v then header_set (js "X-CSRF-Token") v h else h)).

Lemma sent_parts `{Unicode} doc p options q : sent doc p options = Some q ->
  path q = p /\ req_method q = method options /\ req_body q = body options /\ credentials q = js "same-origin".
Proof.
  unfold sent. destruct (reads_only (method_of options)); [by intros [= <-]|].
  destruct (cookie doc (js "hostpin_csrf")); [|done]. by intros [= <-].
Qed.

Section Requests.
Context `{Unicode} {W : Type} (respond : forall r : Req, W -> (Resp r + exn) * W).

Lemma exec_checkedResponse doc p options w :
  exec_in respond (checkedResponse p options) doc w
  = match sent doc p options with
    | None => Trace [] doc w (inr (OtherError (js "URI malformed")))
    | Some q =>
        let x := respond (Fetch q) w in
        match x.1 with
        | inr e => Trace [One (Fetch q)] doc x.2 (inr e)
        | inl resp =>
            let doc' := nullish (cookies_after resp) doc in
            if ok resp then Trace [One (Fetch q)] doc' x.2 (inl resp)
            else let y := respond (ReadJson resp) x.2 in
                 Trace [One (Fetch q); One (ReadJson resp)] doc' y.2
                   (inr (api_error (status resp) (match y.1 with inl j => j | inr _ => JObj [] end)))
        end
    end.
Proof.
  unfold sent, checkedResponse, csrf_header. destruct (reads_only (method_of options)); cbn [negb].
  - cbn. destruct (respond (Fetch _) w) as [[resp|e] w1]; [|done]. cbn. destruct (ok resp); [done|]. cbn.
    by destruct (respond (ReadJson resp) w1) as [[j|e] w2].
  - cbn. destruct (cookie doc (js "hostpin_csrf")) as [v|]; [|done]. cbn.
    destruct (respond (Fetch _) w) as [[resp|e] w1]; [|done]. cbn. destruct (ok resp); [done|]. cbn.
    by destruct (respond (ReadJson resp) w1) as [[j|e] w2].
Qed.

(** What follows the request: the body is read unless the status is 204. *)
Lemma exec_api doc p options w :
  exec_in respond (api p options) doc w
  = match sent doc p options with
    | None => Trace [] doc w (inr (OtherError (js "URI malformed")))
    | Some q =>
        let x := respond (Fetch q) w in
        match x.1 with
        | inr e => Trace [One (Fetch q)] doc x.2 (inr e)
        | inl resp =>
            let doc' := nullish (cookies_after resp) doc in
            if Z.eqb (status resp) 204 then Trace [One (Fetch q)] doc' x.2 (inl None)
            else let y := respond (ReadJson resp) x.2 in
                 Trace [One (Fetch q); One (ReadJson resp)] doc' y.2
                   (if ok resp then match y.1 with inl j => inl (Some j) | inr e => inr e end
                    else inr (api_error (status resp) (match y.1 with inl j => j | inr _ => JObj [] end)))
        end
    end.
Proof.
  unfold api. rewrite exec_in_bind, exec_checkedResponse. destruct (sent doc p options) as [q|]; [|done]. cbn zeta.
  destruct (respond (Fetch q) w) as [[resp|e] w1]; [|done]. cbn [fst snd].
  destruct (Z.eqb_spec (status resp) 204) as [Hs|Hs].
  - assert (Hok : ok resp = true) by (unfold ok; by rewrite Hs). rewrite Hok. cbn. by rewrite (proj2 (Z.eqb_eq _ _) Hs).
  - destruct (ok resp); cbn; rewrite ?(proj2 (Z.eqb_neq _ _) Hs); cbn; [|done]. by destruct (respond (ReadJson resp) w1) as [[j|e] w2].
Qed.

Lemma api_asked doc p options w q : sent doc p options = Some q ->
  asked (exec_in respond (api p options) doc w) = [One (Fetch q)] \/
  exists resp, asked (exec_in respond (api p options) doc w) = [One (Fetch q); One (ReadJson resp)].
Proof.
  intros Hs. rewrite exec_api, Hs. cbn zeta. destruct (respond (Fetch q) w) as [[resp|e] w1]; cbn; [|by left].
  destruct (Z.eqb (status resp) 204); cbn; eauto.
Qed.

Lemma api_unsent doc p options w : sent doc p options = None ->
  exec_in respond (api p options) doc w = Trace [] doc w (inr (OtherError (js "URI malformed"))).
Proof. intros Hs. by rewrite exec_api, Hs. Qed.

(** C5: one request and no other goes to the server, to the given path with the
    given method and body and same-origin credentials; with a method other than
    GET, HEAD or OPTIONS, in any case, it carries the CSRF cookie, decoded, in
    X-CSRF-Token whenever that cookie is set; a reading request carries no token
    of its own.  When a writing request finds a cookie that cannot be decoded,
    nothing at all is sent and the call throws.  [api] and [apiDownload] send
    nothing beyond that. *)
Theorem csrf_token_sent doc p options w :
  let o := exec_in respond (checkedResponse p options) doc w in
  let own := header_get (js "X-CSRF-Token") (newHeaders (init_headers options)) in
  let reading := bool_decide (toUpperCase (nullish (method options) (js "GET")) ∈ [js "GET"; js "HEAD"; js "OPTIONS"]) in
  match (if reading then Some own
         else token ← cookie doc (js "hostpin_csrf"); Some (match token with [] => own | _ => Some token end)) with
  | None =>
      o = Trace [] doc w (inr (OtherError (js "URI malformed"))) /\
      asked (exec_in respond (api p options) doc w) = [] /\ asked (exec_in respond (apiDownload p options) doc w) = []
  | Some token =>
      exists q, path q = p /\ credentials q = js "same-origin" /\ req_method q = method options /\ req_body q = body options /\
        header_get (js "X-CSRF-Token") (req_headers q) = token /\
        (asked o = [One (Fetch q)] \/ exists resp, asked o = [One (Fetch q); One (ReadJson resp)]) /\
        (asked (exec_in respond (api p options) doc w) = [One (Fetch q)] \/
         exists resp, asked (exec_in respond (api p options) doc w) = [One (Fetch q); One (ReadJson resp)]) /\
        (asked (exec_in respond (apiDownload p options) doc w) = asked o \/
         exists resp, asked (exec_in respond (apiDownload p options) doc w) = asked o ++ [One (ReadBlob resp)])
  end.
Proof.
  cbn zeta. rewrite exec_checkedResponse. unfold apiDownload. rewrite exec_in_bind, exec_checkedResponse.
  assert (Hm : bool_decide (toUpperCase (nullish (method options) (js "GET")) ∈ [js "GET"; js "HEAD"; js "OPTIONS"])
               = reads_only (method_of options)).
  { unfold reads_only, method_of. apply eq_true_iff_eq. rewrite bool_decide_eq_true, !orb_true_iff, !streq_eq, !elem_of_cons, elem_of_nil. tauto. }
  rewrite Hm. destruct (sent doc p options) as [q|] eqn:Hs; cycle 1.
  { unfold sent in Hs. destruct (reads_only (method_of options)) eqn:Hr; [done|].
    destruct (cookie doc (js "hostpin_csrf")) eqn:Hd; [done|]. split_and!; [done| |done]. rewrite api_unsent; [done|].
    unfold sent. by rewrite Hr, Hd. }
  destruct (sent_parts _ _ _ _ Hs) as (Hp & Hq & Hb & Hc).
  assert (Ht : (if reads_only (method_of options) then Some (header_get (js "X-CSRF-Token") (newHeaders (init_headers options)))
                else token ← cookie doc (js "hostpin_csrf");
                     Some (match token with [] => header_get (js "X-CSRF-Token") (newHeaders (init_headers options)) | _ => Some token end))
               = Some (header_get (js "X-CSRF-Token") (req_headers q))).
  { unfold sent in Hs. destruct (reads_only (method_of options)); [injection Hs as <-; by rewrite <- content_type_csrf with (options := options)|].
    destruct (cookie doc (js "hostpin_csrf")) as [[|c v]|]; [..|done]; injection Hs as <-; cbn -[js header_get header_set];
      [by rewrite content_type_csrf|by rewrite header_get_set_same]. }
  rewrite Ht. exists q. split_and!; try done; cbn [asked got end_state end_world].
  - destruct (respond (Fetch q) w) as [[resp|e] w1]; cbn; [|by left]. destruct (ok resp); cbn; eauto.
  - by apply api_asked.
  - destruct (respond (Fetch q) w) as [[resp|e] w1]; cbn; [|by left]. destruct (ok resp); cbn; eauto.
    right. exists resp. by destruct (respond (ReadBlob resp) w1) as [[b|e] w2].
Qed.

(** [payload.error.key], when every step of the path is there. *)
Definition in_error (key : string) (payload : json) : option json := field (js "error") payload ≫= field (js key).

Lemma error_field_given key payload fallback v : in_error key payload = Some (JStr v) -> error_field (js key) payload fallback = v.
Proof.
  unfold in_error, error_field. destruct (field (js "error") payload) as [e|]; [|done]. cbn [mbind option_bind].
  intros Hv. rewrite Hv. by destruct e.
Qed.

Lemma error_field_missing key payload fallback : in_error key payload = None \/ in_error key payload = Some JNull ->
  error_field (js key) payload fallback = fallback.
Proof.
  unfold in_error, error_field. destruct (field (js "error") payload) as [e|]; [|done]. cbn [mbind option_bind].
  intros [Hv|Hv]; rewrite Hv; by destruct e.
Qed.

(** The error of a payload that is not null. *)
Lemma api_error_parts st payload : payload <> JNull ->
  exists code message, api_error st payload = APIError (of_Z st) code message /\
    (forall c, in_error "code" payload = Some (JStr c) -> code = c) /\
    (in_error "code" payload = None \/ in_error "code" payload = Some JNull -> code = js "http_error") /\
    (forall m, in_error "message" payload = Some (JStr m) -> message = m) /\
    (in_error "message" payload = None \/ in_error "message" payload = Some JNull ->
     message = (js "Request failed with HTTP " ++ toString (of_Z st))%list).
Proof.
  intros Hn. exists (error_field (js "code") payload (js "http_error")),
    (error_field (js "message") payload (js "Request failed with HTTP " ++ toString (of_Z st))%list).
  split; [by destruct payload|]. split_and!; intros; first [by apply error_field_given|by apply error_field_missing].
Qed.

(** C27: an HTTP error never looks like data: for every response outside 200-299,
    [api] reads the body once and throws an APIError with the response's status.
    Its code and message are those of the member error of the payload, whatever
    other members payload and error have; a code that is absent or null is
    http_error, a message that is absent or null names the status, and a body
    that cannot be read as JSON has neither.  Only a payload that is null itself
    gives another error (a TypeError).  The cookies are those that the response
    leaves. *)
Theorem api_failure_is_APIError doc p options w q resp w1 :
  sent doc p options = Some q -> respond (Fetch q) w = (inl resp, w1) -> ok resp = false ->
  let o := exec_in respond (api p options) doc w in
  let payload : json := match (respond (ReadJson resp) w1).1 with inl j => j | inr _ => JObj [] end in
  asked o = [One (Fetch q); One (ReadJson resp)] /\ end_state o = nullish (cookies_after resp) doc /\
  (payload = JNull -> exists m, got o = inr (OtherError m)) /\
  (payload <> JNull -> exists code message, got o = inr (APIError (of_Z (status resp)) code message) /\
     (forall c, in_error "code" payload = Some (JStr c) -> code = c) /\
     (in_error "code" payload = None \/ in_error "code" payload = Some JNull -> code = js "http_error") /\
     (forall m, in_error "message" payload = Some (JStr m) -> message = m) /\
     (in_error "message" payload = None \/ in_error "message" payload = Some JNull ->
      message = (js "Request failed with HTTP " ++ toString (of_Z (status resp)))%list)).
Proof.
  intros Hs Hf Hok. cbn zeta. rewrite exec_api, Hs. cbn zeta. rewrite Hf. cbn [fst snd].
  destruct (Z.eqb_spec (status resp) 204) as [H4|_]; [unfold ok in Hok; by rewrite H4 in Hok|]. rewrite Hok.
  cbn [asked end_state got]. split_and!; [done..| |].
  - intros Hp. rewrite Hp. by eexists.
  - intros Hn. destruct (api_error_parts (status resp) _ Hn) as (code & message & -> & Hm). by exists code, message.
Qed.

End Requests.

(** An environment for examples: one response to every request, one body. *)
Definition replies (resp : response) (j : json + exn) (r : Req) (w : unit) : (Resp r + exn) * unit :=
  (match r return Resp r + exn with
   | Fetch _ => inl resp
   | ReadJson _ => j
   | ReadBlob _ => inl 0%N
   end, w).

(** An error of the server as it writes it: an envelope whose data is null. *)
Definition refusal_body (code message : string) : json :=
  JObj [(js "data", JNull); (js "error", JObj [(js "code", JStr (js code)); (js "message", JStr (js message))])].

Definition forbidden : json := refusal_body "csrf" "Bad token".

Lemma api_failure_is_APIError_witness :
  got (exec_in (replies (mkResponse 403 [] None) (inl forbidden)) (@api small_unicode (js "/x") no_options) [] tt)
  = inr (APIError (of_Z 403) (js "csrf") (js "Bad token")).
Proof.
  destruct (@api_failure_is_APIError small_unicode unit (replies (mkResponse 403 [] None) (inl forbidden)) [] (js "/x") no_options tt
    (mkRequest (js "/x") None [] None (js "same-origin")) (mkResponse 403 [] None) tt) as (_ & _ & _ & H);
    [reflexivity | reflexivity | reflexivity |].
  destruct H as (c & m & Hr & Hc & _ & Hm & _); [discriminate|].
  specialize (Hc _ eq_refl). specialize (Hm _ eq_refl). subst c m. exact Hr.
Defined.

(** ** Properties: the cookie and the file name *)

Definition no_semicolon (s : jsstr) : bool := forallb (fun c => negb (N.eqb c 59)) s.

Lemma split_last w : forall acc, no_semicolon w = true -> split_go (js "; ") w 0 acc = [(rev acc ++ w)%list].
Proof.
  induction w as [|c w IH]; intros acc Hw; [by rewrite app_nil_r|]. cbn in Hw.
  apply andb_true_iff in Hw as [Hc Hw]. cbn [split_go].
  assert (Hs : startsWith (c :: w) (js "; ") = false).
  { change (js "; ") with [59%N; 32%N]. cbn [startsWith]. rewrite N.eqb_sym. by destruct (N.eqb c 59). }
  rewrite Hs, IH by done. cbn [rev]. by rewrite <- app_assoc.
Qed.

Lemma split_word w s : forall acc, no_semicolon w = true ->
  split_go (js "; ") (w ++ js "; " ++ s)%list 0 acc = ((rev acc ++ w) :: split s (js "; "))%list.
Proof.
  induction w as [|c w IH]; intros acc Hw; [rewrite app_nil_r; by destruct s|]. cbn in Hw.
  apply andb_true_iff in Hw as [Hc Hw]. cbn [split_go app].
  assert (Hs : startsWith (c :: w ++ js "; " ++ s)%list (js "; ") = false).
  { change (js "; ") with [59%N; 32%N]. cbn [startsWith]. rewrite N.eqb_sym. by destruct (N.eqb c 59). }
  rewrite Hs, IH by done. cbn [rev]. by rewrite <- app_assoc.
Qed.

Lemma split_join parts : parts <> [] -> Forall (fun p => no_semicolon p = true) parts ->
  split (join parts (js "; ")) (js "; ") = parts.
Proof.
  induction parts as [|p [|q parts] IH]; [done| |]; intros _ Hp; apply Forall_cons in Hp as [Hp Hr].
  - cbn [join]. unfold split. by rewrite split_last.
  - change (join (p :: q :: parts) (js "; ")) with (p ++ js "; " ++ join (q :: parts) (js "; "))%list.
    unfold split. rewrite split_word by done. by rewrite IH.
Qed.

Lemma startsWith_app p s : startsWith (p ++ s)%list p = true.
Proof. apply startsWith_spec. eauto. Qed.

Lemma safe_no_semicolon e : forallb safe_char e = true -> no_semicolon e = true.
Proof.
  unfold no_semicolon. rewrite !forallb_forall. intros H c Hc. specialize (H c Hc).
  destruct (N.eqb_spec c 59) as [->|]; done.
Qed.

Lemma no_semicolon_app a b : no_semicolon (a ++ b)%list = no_semicolon a && no_semicolon b.
Proof. apply forallb_app. Qed.

(** C39: The token the server stored with encodeURIComponent is read back
    unchanged wherever its pair stands in the cookie string, as long as no
    earlier pair has the same name. *)
Theorem cookie_roundtrip name v e before after :
  utf16 v = true -> encodeURIComponent v = Some e -> no_semicolon name = true ->
  Forall (fun p => no_semicolon p = true) (before ++ after) ->
  Forall (fun p => startsWith p (name ++ js "=") = false) before ->
  cookie (join (before ++ [name ++ js "=" ++ e] ++ after)%list (js "; ")) name = Some v.
Proof.
  intros Hu He Hn Hp Hb. unfold cookie. apply Forall_app in Hp as [Hp1 Hp2].
  assert (Hse : no_semicolon e = true) by (eapply safe_no_semicolon, encode_safe; done).
  rewrite split_join; [|by destruct before|].
  2: { rewrite !Forall_app, Forall_singleton. split_and!; try done. by rewrite !no_semicolon_app, Hn, Hse. }
  assert (Hf : forall l, Forall (fun p => startsWith p (name ++ js "=") = false) l ->
    List.find (fun part => startsWith part (name ++ js "=")) (l ++ [name ++ js "=" ++ e] ++ after)%list
    = Some (name ++ js "=" ++ e)%list).
  { induction 1 as [|p l Hl _ IH]; cbn [List.find app].
    - by rewrite (app_assoc name), startsWith_app.
    - by rewrite Hl. }
  rewrite (Hf _ Hb). destruct (name ++ js "=" ++ e)%list as [|c t] eqn:E; [by destruct name|].
  rewrite <- E, app_assoc, drop_app_length. by apply decode_encode.
Qed.

Lemma cookie_roundtrip_witness :
  cookie (join [js "hostpin_session=a"; js "hostpin_csrf=%2Fx%E4%B8%AD"; js "z=1"] (js "; ")) (js "hostpin_csrf")
  = Some (js "/x中").
Proof.
  apply (cookie_roundtrip (js "hostpin_csrf") (js "/x中") (js "%2Fx%E4%B8%AD") [js "hostpin_session=a"] [js "z=1"]);
    [reflexivity | reflexivity | reflexivity | repeat constructor | repeat constructor].
Defined.

Lemma decode_nonempty f : forall c s r, decode_go f (c :: s) = Some r -> r <> [].
Proof.
  destruct f as [|f]; intros c s r; [done|]. cbn [decode_go]. destruct (N.eqb c 37).
  - destruct (read_point (c :: s)) as [[p t]|]; [|done]. cbn [mbind option_bind].
    destruct (decode_go f t); [|done]. intros [= <-]. unfold utf16_encode. by break.
  - destruct (decode_go f s); [|done]. by intros [= <-].
Qed.

Lemma encoded_filename_nonempty s v : encoded_filename s = Some v -> v <> [].
Proof.
  induction s as [|c s IH]; cbn [encoded_filename]; [done|].
  destruct (ci_startsWith (c :: s) _); [|done]. by destruct (take_while _ _); [|intros [= <-]].
Qed.

Lemma plain_filename_nonempty s v : plain_filename s = Some v -> v <> [].
Proof.
  induction s as [|c s IH]; cbn [plain_filename]; [done|].
  destruct (ci_startsWith (c :: s) _); [|done]. by destruct (take_while _ _); [|intros [= <-]].
Qed.

(** Whatever the Content-Disposition header says, a download has a non-empty
    file name. *)
Theorem download_filename_nonempty disposition : download_filename disposition <> [].
Proof.
  unfold download_filename. destruct (encoded_filename disposition) as [e|] eqn:Ee.
  - apply encoded_filename_nonempty in Ee. unfold decodeURIComponent.
    destruct e as [|c e]; [done|]. destruct (decode_go _ (c :: e)) eqn:Ed; [|done]. by eapply decode_nonempty.
  - destruct (plain_filename disposition) eqn:Ep; [|done]. by apply plain_filename_nonempty in Ep.
Qed.

Lemma take_while_all f s : forallb f s = true -> take_while f s = s.
Proof. induction s as [|c s IH]; [done|]. cbn. intros [-> H]%andb_true_iff. by rewrite IH. Qed.

(** A file name sent in the extended form (RFC 5987, as the server writes
    names outside ASCII) is recovered exactly. *)
Theorem download_filename_roundtrip name e :
  name <> [] -> utf16 name = true -> encodeURIComponent name = Some e ->
  download_filename (js "attachment; filename*=utf-8''" ++ e)%list = name.
Proof.
  intros Hne Hu He. unfold download_filename.
  assert (Hs : no_semicolon e = true) by (eapply safe_no_semicolon, encode_safe; done).
  pose proof (encode_length name e He) as Hl. destruct e as [|c e]; [destruct name; [done|cbn in Hl; lia]|].
  assert (Hf : encoded_filename (js "attachment; filename*=utf-8''" ++ c :: e)%list = Some (c :: e)).
  { change (js "attachment; filename*=utf-8''" ++ c :: e)%list
      with (js "attachment; " ++ (js "filename*=utf-8''" ++ c :: e))%list.
    change (encoded_filename (js "attachment; " ++ (js "filename*=utf-8''" ++ c :: e))%list)
      with (encoded_filename (js "filename*=utf-8''" ++ c :: e)%list).
    assert (Ht : take_while (fun c => negb (N.eqb c 59)) (c :: e) = c :: e) by (by apply take_while_all).
    change (encoded_filename (js "filename*=utf-8''" ++ c :: e)%list)
      with (match (match take_while (fun c => negb (N.eqb c 59)) (c :: e) with [] => None | v => Some v end) with
            | Some v => Some v
            | None => encoded_filename (js "ilename*=utf-8''" ++ c :: e)%list
            end).
    by rewrite Ht. }
  rewrite Hf. by rewrite (decode_encode name (c :: e)).
Qed.

Lemma download_filename_roundtrip_witness :
  download_filename (js "attachment; filename*=utf-8''" ++ js "a%20b.hostpin-backup")%list = js "a b.hostpin-backup".
Proof.
  apply (download_filename_roundtrip (js "a b.hostpin-backup") (js "a%20b.hostpin-backup"));
    [discriminate | reflexivity | reflexivity].
Defined.
