(* ===== verification/NodeAssets.v ===== *)
(** * NodeAssets: flag and logo files of a node (web/src/nodeAssets.ts,
    components/NodeFlag.vue, components/SystemLogo.vue)

    Case conversion is that of the host ([Unicode]); the theorems on the result
    hold for any case tables. *)

From Stdlib Require Import Strings.String.
From S2P Require Import Prelude JsString.

Record systemLogo := mkLogo { terms : list jsstr; asset : jsstr }.

Definition systemLogos : list systemLogo := [
  mkLogo [js "alibaba"; js "anolis"] (js "os-alibaba.svg");
  mkLogo [js "alma"] (js "os-alma.svg");
  mkLogo [js "alpine"] (js "os-alpine.webp");
  mkLogo [js "armbian"] (js "os-armbian.png");
  mkLogo [js "arch"] (js "os-arch.svg");
  mkLogo [js "centos"] (js "os-centos.svg");
  mkLogo [js "debian"] (js "os-debian.svg");
  mkLogo [js "fedora"] (js "os-fedora.svg");
  mkLogo [js "gentoo"] (js "os-gentoo.svg");
  mkLogo [js "istore"] (js "os-istore.png");
  mkLogo [js "kali"] (js "os-kail.svg");
  mkLogo [js "macos"; js "mac os"; js "darwin"] (js "os-macos.svg");
  mkLogo [js "manjaro"] (js "os-manjaro-.svg");
  mkLogo [js "mint"] (js "os-mint.svg");
  mkLogo [js "nixos"; js "nix os"] (js "os-nix.svg");
  mkLogo [js "opencloudos"; js "opencloud"] (js "os-opencloud.svg");
  mkLogo [js "opensuse"; js "suse"] (js "os-opensuse.svg");
  mkLogo [js "openwrt"] (js "os-openwrt.svg");
  mkLogo [js "oracle linux"; js "oracle"] (js "os-oracle.svg");
  mkLogo [js "proxmox"] (js "os-proxmox.ico");
  mkLogo [js "red hat"; js "redhat"; js "rhel"] (js "os-redhat.svg");
  mkLogo [js "rocky"] (js "os-rocky.svg");
  mkLogo [js "synology"] (js "os-synology.ico");
  mkLogo [js "ubuntu"] (js "os-ubuntu.svg");
  mkLogo [js "windows"] (js "os-windows.svg");
  mkLogo [js "freebsd"] (js "os-freebsd.svg");
  mkLogo [js "linux"] (js "linux.svg")].

(** [/^[A-Z]{2}$/.test(code)]. *)
Definition two_capitals (code : jsstr) : bool :=
  match code with
  | [a; b] => ((65 <=? a) && (a <=? 90) && (65 <=? b) && (b <=? 90))%N
  | _ => false
  end.

Definition matches (normalized : jsstr) (item : systemLogo) : bool :=
  existsb (fun term => includes normalized term) (terms item).

Section Assets.
Context `{U : Unicode}.

Definition countryFlagSource (value : option jsstr) : jsstr :=
  let code := nullish ((fun v => toUpperCase (trim v)) <$> value) [] in
  if two_capitals code then (js "/assets/flags/" ++ code ++ js ".svg?v=flag-icons-v1")%list else [].

Definition systemLogoSource (value : option jsstr) : jsstr :=
  let normalized := nullish ((fun v => toLowerCase (trim v)) <$> value) [] in
  let found := List.find (matches normalized) systemLogos in
  (js "/assets/logo/" ++ nullish (asset <$> found) (js "os-unknown.svg") ++ js "?v=cf-monitor-v1")%list.

(** The image of the components: the flag is left out without a source. *)
Definition NodeFlag_src (countryCode : option jsstr) : option jsstr :=
  let flag := countryFlagSource countryCode in if truthy flag then Some flag else None.

Definition SystemLogo_src (os : option jsstr) : jsstr := systemLogoSource os.

End Assets.

(** ** Properties *)

(** The flag image of any country code, also one chosen by an attacker, is
    either absent or a file of the flags directory whose name is exactly two
    capital ASCII letters, whatever the case tables of the host. *)
Theorem NodeFlag_src_safe `{Unicode} countryCode src : NodeFlag_src countryCode = Some src ->
  exists a b, (65 <= a <= 90)%N /\ (65 <= b <= 90)%N /\
    src = (js "/assets/flags/" ++ [a; b] ++ js ".svg?v=flag-icons-v1")%list.
Proof.
  unfold NodeFlag_src, countryFlagSource. set (code := nullish _ _). destruct (two_capitals code) eqn:E; [|done].
  destruct code as [|a [|b [|c code]]]; try done. cbn in E. rewrite !andb_true_iff, !N.leb_le in E.
  intros Hs. exists a, b. split_and!; try lia. by injection Hs.
Qed.

Lemma NodeFlag_src_safe_witness :
  exists a b, (65 <= a <= 90)%N /\ (65 <= b <= 90)%N /\
    js "/assets/flags/DE.svg?v=flag-icons-v1" = (js "/assets/flags/" ++ [a; b] ++ js ".svg?v=flag-icons-v1")%list.
Proof.
  apply (@NodeFlag_src_safe small_unicode (Some (js " de "))). vm_compute. reflexivity.
Defined.

(** The rule of [find]: the first entry that matches. *)
Lemma find_first {A} (f : A -> bool) l x : List.find f l = Some x <->
  exists before after, l = (before ++ x :: after)%list /\ f x = true /\ Forall (fun y => f y = false) before.
Proof.
  induction l as [|y l IH]; cbn.
  - split; [done|]. by intros ([] & ? & ? & _).
  - destruct (f y) eqn:E.
    + split.
      * intros [= ->]. exists [], l. split_and!; try done; constructor.
      * intros (before & after & Hl & Hx & Hb). destruct before as [|z before]; cbn in Hl; injection Hl as <- Hl; [done|].
        inversion_clear Hb. congruence.
    + rewrite IH. split.
      * intros (before & after & -> & Hx & Hb). exists (y :: before), after. split_and!; try done. by constructor.
      * intros (before & after & Hl & Hx & Hb). destruct before as [|z before]; cbn in Hl; injection Hl as <- Hl; [congruence|].
        inversion_clear Hb. exists before, after. done.
Qed.

Lemma find_none {A} (f : A -> bool) l : List.find f l = None <-> Forall (fun y => f y = false) l.
Proof.
  induction l as [|y l IH]; cbn; [done|]. destruct (f y) eqn:E.
  - split; [done|]. intros Hf. inversion_clear Hf. congruence.
  - rewrite IH. split; [by constructor|]. by inversion 1.
Qed.

(** The logo is the one of the first entry of the table with a term that
    occurs in the system's name, so that a distribution named together with
    Linux gets its own logo; a name without any known term gets the unknown
    one. *)
Theorem systemLogoSource_first_match `{Unicode} value :
  let normalized := nullish ((fun v => toLowerCase (trim v)) <$> value) [] in
  let file a := (js "/assets/logo/" ++ a ++ js "?v=cf-monitor-v1")%list in
  (exists before item after term,
     systemLogos = (before ++ item :: after)%list /\ systemLogoSource value = file (asset item) /\
     term ∈ terms item /\ (exists u v, normalized = (u ++ term ++ v)%list) /\
     Forall (fun other => Forall (fun t => includes normalized t = false) (terms other)) before)
  \/ (systemLogoSource value = file (js "os-unknown.svg") /\
      Forall (fun other => Forall (fun t => includes normalized t = false) (terms other)) systemLogos).
Proof.
  intros normalized file. unfold systemLogoSource. fold normalized.
  assert (Hm : forall item, matches normalized item = false <-> Forall (fun t => includes normalized t = false) (terms item)).
  { intros item. unfold matches. induction (terms item) as [|t ts IH]; cbn; [done|].
    rewrite orb_false_iff, IH. split; [intros []; by constructor|by inversion 1]. }
  destruct (List.find (matches normalized) systemLogos) as [item|] eqn:E.
  - left. apply find_first in E as (before & after & Hl & Hx & Hb).
    unfold matches in Hx. apply existsb_exists in Hx as (term & Hin & Hinc).
    exists before, item, after, term. split_and!; [done|done|by apply list_elem_of_In|by apply includes_spec|].
    eapply Forall_impl; [done|]. intros y. by rewrite Hm.
  - right. split; [done|]. apply find_none in E. eapply Forall_impl; [done|]. intros y. by rewrite Hm.
Qed.
