(* ===== verification/Components.v ===== *)
(** * Components: small components of the public pages
    (components/MetricBar.vue, NodeCard.vue, PublicHeader.vue, App.vue)

    The metric bar, the figures of a node card, and the appearance setting that
    the header cycles and the application restores. *)

From Stdlib Require Import Strings.String.
From S2P Require Import Prelude JsString Binary64 JsNumber JsDate I18n Traffic Types Format NodeAssets.

Open Scope Z_scope.
Open Scope num_scope.

(** ** MetricBar.vue *)

Module MetricBar.

Inductive tone_ := critical_ | warning_ | normal_.

Record props := mkProps { label : jsstr; value : num; detail : jsstr; warn : num; critical : num }.

(** [withDefaults]. *)
Definition with_defaults (label : jsstr) (value : num) (detail : option jsstr) (warn critical : option num) : props :=
  mkProps label value (nullish detail []) (nullish warn (#75)) (nullish critical (#90)).

Definition normalized (p : props) : num :=
  min (#100) (max (#0) (if isFinite (value p) then value p else #0)).

Definition tone (p : props) : tone_ :=
  if normalized p >=? critical p then critical_ else if normalized p >=? warn p then warning_ else normal_.

(** The figure and the width of the track. *)
Definition figure (p : props) : jsstr := (toFixed (normalized p) 1 ++ js "%")%list.
Definition width (p : props) : jsstr := (toString (normalized p) ++ js "%")%list.

End MetricBar.

(** ** NodeCard.vue *)

Module NodeCard.

(** [metric?.f]. *)
Definition of_metric {A} (s : NodeSnapshot.t) (f : MetricSample.t -> A) : option A := f <$> NodeSnapshot.metric s.

Definition memory (s : NodeSnapshot.t) : num :=
  percent (of_metric s MetricSample.memory_used) (of_metric s MetricSample.memory_total).
Definition disk (s : NodeSnapshot.t) : num :=
  percent (of_metric s MetricSample.disk_used) (of_metric s MetricSample.disk_total).

(** The three bars and the usage bar of the card. *)
Definition cpu_bar (s : NodeSnapshot.t) : MetricBar.props :=
  MetricBar.with_defaults (js "CPU") (nullish (of_metric s MetricSample.cpu) (#0)) None None None.

Definition pair_of_sizes `{MathLog} (used total : num) : jsstr :=
  (bytes (Some used) 1 ++ js " / " ++ bytes (Some total) 1)%list.

Definition memory_bar `{MathLog} (l : AppLocale) (s : NodeSnapshot.t) : MetricBar.props :=
  MetricBar.with_defaults (text l (js "内存") (js "MEM")) (memory s)
    (Some (nullish (of_metric s (fun m => pair_of_sizes (MetricSample.memory_used m) (MetricSample.memory_total m))) []))
    None None.

Definition disk_bar `{MathLog} (l : AppLocale) (s : NodeSnapshot.t) : MetricBar.props :=
  MetricBar.with_defaults (text l (js "磁盘") (js "DISK")) (disk s)
    (Some (nullish (of_metric s (fun m => pair_of_sizes (MetricSample.disk_used m) (MetricSample.disk_total m))) []))
    None None.

Definition usage_bar (s : NodeSnapshot.t) : UsageBar.props :=
  let node := NodeSnapshot.node s in
  UsageBar.mkProps (PublicNode.traffic_limit node) (Some (PublicNode.traffic_limit_type node))
    (of_metric s MetricSample.monthly_rx_bytes ≫= id) (of_metric s MetricSample.monthly_tx_bytes ≫= id).

(** [to || `/nodes/${node.id}`]. *)
Definition target (to : option jsstr) (s : NodeSnapshot.t) : jsstr :=
  or_else to (js "/nodes/" ++ NodeSnapshot.id s)%list.

Definition place (l : AppLocale) (s : NodeSnapshot.t) : jsstr :=
  or_else (PublicNode.region (NodeSnapshot.node s))
    (or_else (PublicNode.country_code (NodeSnapshot.node s)) (text l (js "未设置地区") (js "No location"))).

Definition cpu_number (s : NodeSnapshot.t) : jsstr :=
  nullish (of_metric s (fun m => toFixed (MetricSample.cpu m) 0)) (js "—").

(** [metric?.received_at || node.last_seen_at]. *)
Definition last_report (s : NodeSnapshot.t) : option jsstr :=
  match of_metric s MetricSample.received_at ≫= id with
  | Some (c :: t) => Some (c :: t)
  | _ => PublicNode.last_seen_at (NodeSnapshot.node s)
  end.

Definition footer `{DateHost} (l : AppLocale) (now : num) (s : NodeSnapshot.t) : jsstr :=
  if NodeSnapshot.online s then text l (js "运行正常") (js "Healthy")
  else (text l (js "最后上报") (js "Last report") ++ js " " ++ relativeTime l now (last_report s))%list.

End NodeCard.

(** ** The appearance: PublicHeader.vue and App.vue *)

Module Appearance.

(** [localStorage.appearance] (its writes may throw), the attribute
    [data-appearance] and the header's ref. *)
Record state := mk { stored : option jsstr; writable : bool; dataset : jsstr; appearance : jsstr }.

Definition values : list jsstr := [js "system"; js "dark"; js "light"].

Fixpoint index_of (x : jsstr) (l : list jsstr) : option nat :=
  match l with
  | [] => None
  | y :: l' => if streq y x then Some O else S <$> index_of x l'
  end.

(** [values[(values.indexOf(a) + 1) % values.length] ?? 'system']. *)
Definition next (a : jsstr) : jsstr :=
  let i := match index_of a values with Some i => (S i mod length values)%nat | None => O end in
  nullish (values !! i) (js "system").

(** [None] when [setItem] throws: the ref has changed already. *)
Definition cycleAppearance (s : state) : state :=
  let s1 := mk (stored s) (writable s) (dataset s) (next (appearance s)) in
  if writable s1 then mk (Some (appearance s1)) true (appearance s1) (appearance s1) else s1.

(** App.vue's [onMounted] and the header's initial ref. *)
Definition restore (stored : option jsstr) (writable : bool) : state :=
  let saved := nullish stored (js "system") in mk stored writable saved saved.

End Appearance.

(** ** Properties *)

(** The value shown by a metric bar is a number in [0, 100] for every input,
    NaN and infinities included, and the tone is critical exactly from the
    critical threshold on, given thresholds in order. *)
Theorem MetricBar_in_range p : valid (MetricBar.value p) ->
  (#0 <=? MetricBar.normalized p) = true /\ (MetricBar.normalized p <=? #100) = true /\
  (MetricBar.tone p = MetricBar.critical_ <-> (MetricBar.normalized p >=? MetricBar.critical p) = true) /\
  (MetricBar.tone p = MetricBar.normal_ ->
   (MetricBar.normalized p >=? MetricBar.warn p) = false /\ (MetricBar.normalized p >=? MetricBar.critical p) = false).
Proof.
  intros Hv. assert (HN : isNaN (if isFinite (MetricBar.value p) then MetricBar.value p else #0) = false).
  { destruct (isFinite (MetricBar.value p)) eqn:E; [|done]. by destruct (MetricBar.value p). }
  destruct (clamp_range 100 _ ltac:(lia) HN) as [H0 H1]. split_and!; [done|done| |]; unfold MetricBar.tone.
  - destruct (MetricBar.normalized p >=? MetricBar.critical p); [done|].
    by destruct (MetricBar.normalized p >=? MetricBar.warn p).
  - destruct (MetricBar.normalized p >=? MetricBar.critical p); [done|].
    by destruct (MetricBar.normalized p >=? MetricBar.warn p).
Qed.

Lemma MetricBar_in_range_witness :
  (MetricBar.normalized (MetricBar.with_defaults [] (#130) None None None) <=? #100) = true.
Proof.
  destruct (MetricBar_in_range (MetricBar.with_defaults [] (#130) None None None) (of_Z_valid 130 eq_refl)) as (_ & H & _).
  exact H.
Defined.

(** The appearance button goes round the three settings: from any stored
    value it reaches a setting after one click, three clicks on a setting give
    it back, and with a writable store the setting on the page, the stored one
    and the one a reload restores are the same. *)
Theorem cycleAppearance_cycles s :
  Appearance.next (Appearance.appearance s) ∈ Appearance.values /\
  (Appearance.appearance s ∈ Appearance.values ->
   Appearance.next (Appearance.next (Appearance.next (Appearance.appearance s))) = Appearance.appearance s) /\
  (Appearance.writable s = true ->
   let s' := Appearance.cycleAppearance s in
   Appearance.dataset s' = Appearance.appearance s' /\
   Appearance.restore (Appearance.stored s') true = s').
Proof.
  set (a := Appearance.appearance s). split_and!.
  - unfold Appearance.next. cbn [Appearance.index_of Appearance.values].
    destruct (streq (js "system") a), (streq (js "dark") a), (streq (js "light") a); cbn; set_solver.
  - intros Ha. unfold Appearance.values in Ha. rewrite !elem_of_cons in Ha.
    destruct Ha as [-> | [-> | [-> | Ha]]]; [vm_compute; reflexivity..|]. by apply not_elem_of_nil in Ha.
  - intros Hw. unfold Appearance.cycleAppearance. cbn. by rewrite Hw.
Qed.
