(* ===== verification/Session.v ===== *)
(** * Session: the session store, the router guard and the sign-in pages
    (web/src/stores/session.ts, router.ts, views/LoginView.vue, SetupView.vue,
    AdminView.vue)

    One machine: its state is the store, the two forms and the current location;
    its calls are the endpoints the code uses and [router.push].  The actions
    [refresh], [login] and [logout], the guard [beforeEach] and the submit
    handlers are programs of [Async]. *)

From Stdlib Require Import Strings.String.
From S2P Require Import Prelude JsString Binary64 JsNumber Async I18n Types.

Open Scope async_scope.

(** ** State *)

Module Session.
Record t := mk {
  initialized : bool; setupComplete : bool; loggedIn : bool; username : jsstr;
  site : option SiteSettings.t; version : jsstr;
}.
Definition init : t := mk false false false [] None [].
End Session.

Module SessionResponse.
Record t := mk {
  setup_complete : bool; logged_in : bool; username : option jsstr;
  two_factor_enabled : option bool; csrf_token : option jsstr;
}.
End SessionResponse.

Module SiteResponse.
Record t := mk {
  setup_complete : bool; authenticated : bool; settings : SiteSettings.t; version : jsstr; commit : jsstr; protocol : num;
}.
End SiteResponse.

(** The refs of LoginView.vue and SetupView.vue. *)
Record LoginForm := mkLogin { l_username : jsstr; l_password : jsstr; l_totp : jsstr; l_busy : bool; l_error : jsstr }.

Record SetupForm := mkSetup {
  s_username : jsstr; s_password : jsstr; s_confirmation : jsstr; s_pin : jsstr; s_siteName : jsstr;
  s_description : jsstr; s_busy : bool; s_error : jsstr;
}.

(** [route.query.next] is a string, absent, or repeated. *)
Inductive query_value := QString (s : jsstr) | QAbsent | QMany (l : list jsstr).

Record app := mkApp { session : Session.t; login_form : LoginForm; setup_form : SetupForm; location : jsstr; next : query_value }.

Definition with_session (s : app) (x : Session.t) : app := mkApp x (login_form s) (setup_form s) (location s) (next s).
Definition with_login (s : app) (x : LoginForm) : app := mkApp (session s) x (setup_form s) (location s) (next s).
Definition with_setup (s : app) (x : SetupForm) : app := mkApp (session s) (login_form s) x (location s) (next s).

Definition login_status (busy : bool) (error : jsstr) (s : app) : app :=
  let f := login_form s in with_login s (mkLogin (l_username f) (l_password f) (l_totp f) busy error).
Definition setup_status (busy : bool) (error : jsstr) (s : app) : app :=
  let f := setup_form s in
  with_setup s (mkSetup (s_username f) (s_password f) (s_confirmation f) (s_pin f) (s_siteName f) (s_description f) busy error).

(** The forms are those of the current visit of their pages: entering a page
    creates its refs anew.  (A handler that an earlier visit left waiting goes on
    with refs that no page shows; it is no part of the visits below.) *)
Definition new_login : LoginForm := mkLogin (js "admin") [] [] false [].
Definition new_setup : SetupForm := mkSetup (js "admin") [] [] [] (js "Hostpin") [] false [].

Definition enter_login (query_next : query_value) (s : app) : app := mkApp (session s) new_login (setup_form s) (js "/login") query_next.
Definition enter_setup (s : app) : app := mkApp (session s) (login_form s) new_setup (js "/setup") QAbsent.

(** ** Calls *)

Inductive Req :=
| GetMe                                             (* GET /api/v1/auth/me *)
| GetSite                                           (* GET /api/v1/public/site *)
| PostLogin (username password totp_code : jsstr)   (* POST /api/v1/auth/login *)
| PostLogout                                        (* POST /api/v1/auth/logout *)
| PostSetup (username password enrollment_pin site_name site_description : jsstr) (* POST /api/v1/setup *)
| Push (path : jsstr).                              (* router.push *)

Definition Resp (r : Req) : Type :=
  match r with
  | GetMe => SessionResponse.t
  | GetSite => SiteResponse.t
  | _ => unit
  end.

Definition M := prog app Req Resp.
Definition Env := forall r : Req, (Resp r + exn)%type.
Definition send (r : Req) : M (Resp r) := await (One r).

(** ** stores/session.ts *)

Definition refreshed (session : SessionResponse.t) (site : SiteResponse.t) : Session.t :=
  Session.mk true (SessionResponse.setup_complete session) (SessionResponse.logged_in session)
    (nullish (SessionResponse.username session) []) (Some (SiteResponse.settings site)) (SiteResponse.version site).

Definition refresh : M unit :=
  let! both := (await (All2 (One GetMe) (One GetSite)) : M (SessionResponse.t * SiteResponse.t)) in
  modify (fun s => with_session s (refreshed both.1 both.2)).

Definition login (username password totpCode : jsstr) : M unit :=
  do! send (PostLogin username password totpCode);
  refresh.

Definition logged_out (s : Session.t) : Session.t :=
  Session.mk (Session.initialized s) (Session.setupComplete s) false [] (Session.site s) (Session.version s).

Definition logout : M unit :=
  do! send PostLogout;
  modify (fun s => with_session s (logged_out (session s))).

(** ** router.ts *)

Inductive route_name := overview | latency | node | share | shared_node | login_ | setup | admin.

#[export] Instance route_name_eq_dec : EqDecision route_name.
Proof. solve_decision. Defined.

Record route := mkRoute { name : route_name; fullPath : jsstr }.

(** [to.meta.admin]: set on the admin route alone. *)
Definition meta_admin (r : route) : bool := bool_decide (name r = admin).

(** The value the guard returns: [true] or a location. *)
Inductive navigation := Allow | Redirect (to : route_name) (query_next : option jsstr).

(** The conditions after the refresh, in order. *)
Definition decide_route (s : Session.t) (to : route) : navigation :=
  if Session.initialized s && negb (Session.setupComplete s) && negb (bool_decide (name to = setup))
  then Redirect setup None
  else if Session.initialized s && Session.setupComplete s && bool_decide (name to = setup)
  then Redirect overview None
  else if meta_admin to && negb (Session.loggedIn s) then Redirect login_ (Some (fullPath to))
  else if bool_decide (name to = login_) && Session.loggedIn s then Redirect admin None
  else Allow.

Definition beforeEach (to : route) : M navigation :=
  let! s := get in
  do! (if negb (Session.initialized (session s)) then try_catch refresh (fun _ => Ret tt) else Ret tt);
  let! s := get in
  Ret (decide_route (session s) to).

(** ** LoginView.vue *)

Definition login_target (n : query_value) : jsstr := match n with QString s => s | _ => js "/admin" end.

Definition LoginView_submit (l : AppLocale) : M unit :=
  do! modify (login_status true []);
  finally
    (try_catch
       (let! s := get in
        do! login (l_username (login_form s)) (l_password (login_form s)) (l_totp (login_form s));
        let! s := get in
        send (Push (login_target (next s))))
       (fun reason =>
          modify (fun s => login_status (l_busy (login_form s))
            (reason_message reason (text l (js "登录失败，请检查账号信息。") (js "Login failed. Check your credentials."))) s)))
    (modify (fun s => login_status false (l_error (login_form s)) s)).

(** ** SetupView.vue *)

Definition passwordValid (f : SetupForm) : bool :=
  Nat.leb 12 (length (s_password f)) && streq (s_password f) (s_confirmation f).
Definition pinValid (f : SetupForm) : bool := Nat.leb 6 (length (s_pin f)).

Definition SetupView_submit (l : AppLocale) : M unit :=
  let! s := get in
  let f := setup_form s in
  unless (negb (passwordValid f) || negb (pinValid f))
    (do! modify (setup_status true []);
     finally
       (try_catch
          (do! send (PostSetup (s_username f) (s_password f) (s_pin f) (s_siteName f) (s_description f));
           do! refresh;
           send (Push (js "/admin")))
          (fun reason =>
             modify (fun s => setup_status (s_busy (setup_form s))
               (reason_message reason (text l (js "初始化失败，请重试。") (js "Setup failed. Please try again."))) s)))
       (modify (fun s => setup_status false (s_error (setup_form s)) s))).

(** ** AdminView.vue *)

Definition AdminView_logout : M unit :=
  do! logout;
  send (Push (js "/")).

Inductive admin_view :=
| AdminOverview | AdminNodes | AdminLatency | AdminRules | AdminProbes | AdminNotifications
| AdminThemes | AdminSettings | AdminBackups | AdminSecurity | AdminAudit.

Definition views : list (jsstr * admin_view) := [
  (js "overview", AdminOverview); (js "nodes", AdminNodes); (js "latency", AdminLatency);
  (js "alerts", AdminRules); (js "probes", AdminProbes); (js "notifications", AdminNotifications);
  (js "themes", AdminThemes); (js "settings", AdminSettings); (js "backups", AdminBackups);
  (js "security", AdminSecurity); (js "audit", AdminAudit)].

(** The names an object literal inherits from [Object.prototype]. *)
Definition prototype_names : list jsstr := [
  js "constructor"; js "__defineGetter__"; js "__defineSetter__"; js "hasOwnProperty"; js "__lookupGetter__";
  js "__lookupSetter__"; js "isPrototypeOf"; js "propertyIsEnumerable"; js "toString"; js "valueOf";
  js "__proto__"; js "toLocaleString"].

(** [views[section] ?? AdminOverview]: a component, or an inherited member. *)
Inductive rendered := View (v : admin_view) | Inherited (member : jsstr).

#[export] Instance admin_view_eq_dec : EqDecision admin_view.
Proof. solve_decision. Defined.
#[export] Instance rendered_eq_dec : EqDecision rendered.
Proof. solve_decision. Defined.

(** [String(route.params.section || 'overview')]. *)
Definition section_of (param : option jsstr) : jsstr := or_else param (js "overview").

Definition own (section : jsstr) : option admin_view :=
  snd <$> List.find (fun kv => streq (kv.1) section) views.

Definition current (section : jsstr) : rendered :=
  match own section with
  | Some v => View v
  | None => if bool_decide (section ∈ prototype_names) then Inherited section else View AdminOverview
  end.

(** Key, label and icon of the entries of the side bar. *)
Definition nav (l : AppLocale) : list (jsstr * jsstr * jsstr) := [
  (js "overview", text l (js "概览") (js "Overview"), js "⌁"); (js "nodes", text l (js "节点") (js "Nodes"), js "▦");
  (js "latency", text l (js "延迟节点") (js "Latency nodes"), js "⌁");
  (js "alerts", text l (js "告警规则") (js "Alert rules"), js "△");
  (js "probes", text l (js "服务探测") (js "Service probes"), js "⌁");
  (js "notifications", text l (js "通知渠道") (js "Notifications"), js "◇");
  (js "themes", text l (js "主题") (js "Themes"), js "◐"); (js "settings", text l (js "站点设置") (js "Site settings"), js "⚙");
  (js "backups", text l (js "备份与恢复") (js "Backup & restore"), js "⇄");
  (js "security", text l (js "访问安全") (js "Access security"), js "⌾");
  (js "audit", text l (js "审计日志") (js "Audit log"), js "≡")].

Definition currentLabel (l : AppLocale) (section : jsstr) : jsstr :=
  nullish ((fun kv => kv.1.2) <$> List.find (fun kv => streq (kv.1.1) section) (nav l)) (text l (js "概览") (js "Overview")).

(** ** Lemmas *)

(** The answer to the two calls of [refresh]. *)
Definition both_answers (env : Env) : (SessionResponse.t * SiteResponse.t) + exn :=
  ask env (All2 (One GetMe) (One GetSite)).

Lemma exec_refresh (env : Env) s :
  exec env refresh s
  = match both_answers env with
    | inl both => Outcome [All2 (One GetMe) (One GetSite)] (with_session s (refreshed both.1 both.2)) (inl tt)
    | inr e => Outcome [All2 (One GetMe) (One GetSite)] s (inr e)
    end.
Proof. cbn. unfold both_answers. cbn. by destruct (env GetMe), (env GetSite). Qed.

(** The session after the guard's attempt to initialise it. *)
Definition settled (env : Env) (s : app) : app :=
  if Session.initialized (session s) then s
  else match both_answers env with inl both => with_session s (refreshed both.1 both.2) | inr _ => s end.

Lemma exec_beforeEach (env : Env) to s :
  final (exec env (beforeEach to) s) = settled env s /\
  result (exec env (beforeEach to) s) = inl (decide_route (session (settled env s)) to).
Proof.
  unfold beforeEach. rewrite exec_bind. cbn [exec get result final calls]. rewrite exec_bind. unfold settled.
  destruct (Session.initialized (session s)); cbn [negb]; [done|].
  rewrite exec_try_catch, exec_refresh. by destruct (both_answers env).
Qed.

(** ** Properties: the guard *)

(** C1: the guard always decides, whatever the server answers or fails to
    answer, and it lets a navigation pass only if: an admin page is entered
    with a logged-in session; an initialised, unconfigured site shows the setup
    page only; a configured site does not show the setup page; the login page is
    not shown to a logged-in user. *)
Theorem beforeEach_protects (env : Env) to s :
  let s' := session (final (exec env (beforeEach to) s)) in
  exists nav, result (exec env (beforeEach to) s) = inl nav /\
    (nav = Allow ->
      (name to = admin -> Session.loggedIn s' = true) /\
      (Session.initialized s' = true -> (name to = setup <-> Session.setupComplete s' = false)) /\
      (name to = login_ -> Session.loggedIn s' = false)).
Proof.
  destruct (exec_beforeEach env to s) as [-> ->]. set (s' := session (settled env s)).
  eexists. split; [reflexivity|]. unfold decide_route, meta_admin.
  destruct to as [n p]; cbn; destruct (Session.initialized s'), (Session.setupComplete s'), (Session.loggedIn s'), n; done.
Qed.

(** The route a redirect leads to; only the path of the admin page is kept. *)
Definition redirect_route (r : route_name) : route := mkRoute r [].

(** Redirects settle at once: against a server that keeps answering the
    same, the navigation a redirect leads to is let through, so there is no
    redirect loop from any page in any state. *)
Theorem beforeEach_settles (env : Env) to s r q path :
  result (exec env (beforeEach to) s) = inl (Redirect r q) ->
  result (exec env (beforeEach (mkRoute r path)) (final (exec env (beforeEach to) s))) = inl Allow.
Proof.
  destruct (exec_beforeEach env to s) as [-> ->].
  destruct (exec_beforeEach env (mkRoute r path) (settled env s)) as [_ ->].
  assert (Hs : settled env (settled env s) = settled env s).
  { unfold settled. destruct (Session.initialized (session s)) eqn:E; [by rewrite E|].
    destruct (both_answers env); [done|]. by rewrite E. }
  rewrite Hs. set (s' := session (settled env s)). unfold decide_route, meta_admin.
  destruct to as [n p]; cbn; destruct (Session.initialized s'), (Session.setupComplete s'), (Session.loggedIn s'), n;
    cbn; intros [= <- _]; done.
Qed.

(** A server that refuses every call. *)
Definition down : Env := fun _ => inr (OtherError (js "Failed to fetch")).

Definition start : app := mkApp Session.init new_login new_setup [] QAbsent.

Lemma beforeEach_settles_witness :
  result (exec down (beforeEach (mkRoute login_ [])) (final (exec down (beforeEach (mkRoute admin (js "/admin"))) start)))
  = inl Allow.
Proof.
  apply (beforeEach_settles down (mkRoute admin (js "/admin")) start login_ (Some (js "/admin")) []). reflexivity.
Defined.

(** ** Properties: the pages *)

(** What signing in amounts to: the first error of the login request, of the
    refresh and of the navigation. *)
Definition sign_in (env : Env) (f : LoginForm) (target : jsstr) : option exn :=
  match env (PostLogin (l_username f) (l_password f) (l_totp f)) with
  | inr e => Some e
  | inl _ => match both_answers env with
             | inr e => Some e
             | inl _ => match env (Push target) with inr e => Some e | inl _ => None end
             end
  end.

(** Submitting the login form always ends with the form idle again; the
    error line is empty after a sign-in that worked and shows the reason
    otherwise, the session is refreshed from the server exactly when the login
    request and the two reads succeeded, and the page that asked for the login
    is opened last. *)
Theorem LoginView_submit_outcome (env : Env) l s :
  let f := login_form s in
  let o := exec env (LoginView_submit l) s in
  result o = inl tt /\
  l_busy (login_form (final o)) = false /\
  l_error (login_form (final o))
    = match sign_in env f (login_target (next s)) with
      | None => []
      | Some e => reason_message e (text l (js "登录失败，请检查账号信息。") (js "Login failed. Check your credentials."))
      end /\
  session (final o) = match env (PostLogin (l_username f) (l_password f) (l_totp f)), both_answers env with
                      | inl _, inl both => refreshed both.1 both.2
                      | _, _ => session s
                      end /\
  (sign_in env f (login_target (next s)) = None -> last (calls o) = Some (One (Push (login_target (next s))))).
Proof.
  cbn zeta. unfold LoginView_submit, sign_in, both_answers. cbn.
  destruct (env (PostLogin _ _ _)) as [u|e]; cbn; [|done].
  destruct (env GetMe) as [me|e], (env GetSite) as [site|e']; cbn; try done.
  destruct (env (Push _)) as [[]|e]; cbn; done.
Qed.

(** The setup form sends nothing unless the password has at least 12
    characters and equals its confirmation and the PIN has at least 6; what it
    sends first is the account with exactly that password and PIN, and the form
    is idle afterwards. *)
Theorem SetupView_submit_validates (env : Env) l s :
  let f := setup_form s in
  let o := exec env (SetupView_submit l) s in
  result o = inl tt /\
  match calls o with
  | [] => final o = s /\ passwordValid f && pinValid f = false
  | c :: _ =>
      c = One (PostSetup (s_username f) (s_password f) (s_pin f) (s_siteName f) (s_description f)) /\
      (12 <= length (s_password f))%nat /\ s_password f = s_confirmation f /\ (6 <= length (s_pin f))%nat /\
      s_busy (setup_form (final o)) = false
  end.
Proof.
  cbn zeta. set (f := setup_form s). unfold SetupView_submit. cbn [bind get exec]. fold f.
  destruct (passwordValid f) eqn:Ep; [|done]. destruct (pinValid f) eqn:En; [|done]. cbn.
  unfold passwordValid in Ep. apply andb_true_iff in Ep as [Hlen Heq]. apply streq_eq in Heq.
  apply Nat.leb_le in Hlen, En.
  destruct (env (PostSetup _ _ _ _ _)) as [u|e]; cbn; [|done].
  destruct (env GetMe) as [me|e], (env GetSite) as [site|e']; cbn; try done.
  destruct (env (Push _)) as [[]|e]; cbn; done.
Qed.

(** [login], [refresh] and [logout] change the session only when the server
    has answered: a failed request leaves it as it was, and a successful logout
    clears the login and the user name and keeps the rest. *)
Theorem session_actions (env : Env) s u p t :
  (forall e, result (exec env refresh s) = inr e -> final (exec env refresh s) = s) /\
  (forall e, result (exec env (login u p t) s) = inr e -> final (exec env (login u p t) s) = s) /\
  (result (exec env refresh s) = inl tt -> exists me site, env GetMe = inl me /\ env GetSite = inl site /\
     session (final (exec env refresh s)) = refreshed me site) /\
  match result (exec env logout s) with
  | inl _ => session (final (exec env logout s)) = logged_out (session s) /\
             Session.loggedIn (session (final (exec env logout s))) = false
  | inr _ => final (exec env logout s) = s
  end.
Proof.
  split_and!.
  - intros e. rewrite exec_refresh. by destruct (both_answers env).
  - intros e. unfold login. rewrite exec_bind. cbn. destruct (env (PostLogin u p t)); cbn; [|done].
    destruct (env GetMe), (env GetSite); done.
  - cbn. destruct (env GetMe) as [me|], (env GetSite) as [site|]; try done. intros _. by exists me, site.
  - cbn. by destruct (env PostLogout).
Qed.

(** ** Properties: interleaving *)

(** The handlers of the pages: any of them may start at any time. *)
Inductive handler : M unit -> Prop :=
| H_refresh : handler refresh
| H_login u p t : handler (login u p t)
| H_logout : handler logout
| H_guard to : handler (bind (beforeEach to) (fun _ => Ret tt))
| H_LoginView l : handler (LoginView_submit l)
| H_SetupView l : handler (SetupView_submit l)
| H_AdminView : handler AdminView_logout.

(** An initialised session knows the site. *)
Definition session_wf (s : app) : Prop :=
  Session.initialized (session s) = true -> Session.site (session s) <> None.

(** Initialisation is for good. *)
Definition session_le (s s' : app) : Prop :=
  Session.initialized (session s) = true -> Session.initialized (session s') = true.

#[export] Instance session_le_preorder : PreOrder session_le.
Proof. split; [by intros s H|]. intros a b c H1 H2 H. auto. Qed.

Lemma good_form f : (forall s, session (f s) = session s) -> good session_wf session_le (modify f : M unit).
Proof. intros Hf. apply good_modify; [apply _|]. intros s Hs. unfold session_wf, session_le. by rewrite Hf. Qed.

Lemma good_send r : good session_wf session_le (send r).
Proof. exact (good_await session_wf session_le (One r)). Qed.

Lemma good_refresh : good session_wf session_le refresh.
Proof.
  apply good_bind; [exact (good_await session_wf session_le _)|]. intros both. apply good_modify; [apply _|].
  intros s _. by unfold session_wf, session_le.
Qed.

Lemma good_login u p t : good session_wf session_le (login u p t).
Proof. apply good_bind; [apply good_send|]. intros _. apply good_refresh. Qed.

Lemma good_logout : good session_wf session_le logout.
Proof.
  apply good_bind; [apply good_send|]. intros _. apply good_modify; [apply _|].
  intros s Hs. by unfold session_wf, session_le.
Qed.

#[local] Hint Resolve good_form good_refresh good_login good_logout : good_db.
#[local] Hint Extern 0 (good _ _ (send _)) => exact (good_send _) : good_db.

Lemma handler_good p : handler p -> good session_wf session_le p.
Proof.
  destruct 1; [auto with good_db..| | | |].
  - unfold beforeEach. good_prog.
  - unfold LoginView_submit. good_prog.
  - unfold SetupView_submit. good_prog.
  - unfold AdminView_logout. good_prog.
Qed.

(** C17: under every interleaving of page loads, sign-ins, sign-outs and
    navigations, an initialised session always has its site settings, and it
    never becomes uninitialised again. *)
Theorem session_invariant s0 c : session_wf s0 -> reachable handler s0 c ->
  session_wf (store c) /\ session_le s0 (store c).
Proof.
  intros H0 Hr. apply (rely_guarantee session_wf session_le handler s0 c); [|done..].
  intros p Hp. apply good_keeps; [apply _|by apply handler_good].
Qed.

(** A server with a site and an administrator. *)
Definition signed_in : Env := fun r =>
  match r with
  | GetMe => inl (SessionResponse.mk true true (Some (js "root")) None None)
  | GetSite => inl (SiteResponse.mk true true a_site (js "1.0") [] (#1))
  | PostLogin _ _ _ | PostLogout | PostSetup _ _ _ _ _ | Push _ => inl tt
  end.

(** A refresh that is answered and, before its answer, a sign-out: the session is
    initialised, with its site. *)
Lemma session_invariant_witness :
  let c := answer_at signed_in 0 (answer_at signed_in 0 (spawn logout (spawn refresh (Config start [])))) in
  Session.initialized (session (store c)) = true /\ Session.loggedIn (session (store c)) = false /\ Session.site (session (store c)) <> None.
Proof.
  intros c. split; [vm_compute; reflexivity|]. split; [vm_compute; reflexivity|].
  refine (proj1 (session_invariant start c _ _) _); [unfold session_wf; discriminate| |vm_compute; reflexivity].
  eapply rtc_l; [apply Starts; exact H_refresh|]. eapply rtc_l; [apply Starts; exact H_logout|].
  eapply rtc_l; [apply (answer_at_step _ signed_in 0), lookup_lt_is_Some_2, Nat.ltb_lt; vm_compute; reflexivity|].
  eapply rtc_l; [apply (answer_at_step _ signed_in 0), lookup_lt_is_Some_2, Nat.ltb_lt; vm_compute; reflexivity|apply rtc_refl].
Defined.

(** ** Properties: the admin page *)

(** Every entry of the side bar opens the view of its own name under its own
    label, and any other section shows the overview, in both languages. *)
Theorem admin_nav_consistent l :
  Forall (fun '(key, label, _) => (exists v, own key = Some v /\ current key = View v) /\ currentLabel l key = label) (nav l) /\
  NoDup (map (fun v => current v.1) views) /\
  (forall section, section ∉ map fst views -> section ∉ prototype_names ->
     current section = View AdminOverview /\ currentLabel l section = text l (js "概览") (js "Overview")).
Proof.
  split_and!.
  - destruct l; repeat constructor; eauto.
  - apply (bool_decide_unpack _). vm_compute. exact Logic.I.
  - intros section Hv Hp.
    assert (Ho : own section = None).
    { unfold own. destruct (List.find _ views) as [[k v]|] eqn:E; [|done]. apply find_some in E as [Hin Hk].
      apply streq_eq in Hk. cbn in Hk. subst. exfalso. apply Hv. apply list_elem_of_In. by apply (in_map fst) in Hin. }
    unfold current, currentLabel. rewrite Ho, bool_decide_eq_false_2 by done. split; [done|].
    destruct (List.find _ (nav l)) as [[[k lab] ic]|] eqn:E; [|done]. apply find_some in E as [Hin Hk].
    apply streq_eq in Hk. cbn in Hk. subst k. exfalso. apply Hv. apply list_elem_of_In.
    apply (in_map (fun kv => kv.1.1)) in Hin. by destruct l.
Qed.

(** A section named like a member of Object.prototype is not such a section:
    the lookup in the table of views finds the inherited member, and it is
    rendered in place of a view. *)
Theorem admin_section_prototype :
  current (section_of (Some (js "constructor"))) = Inherited (js "constructor") /\
  Forall (fun n => current n = Inherited n) prototype_names.
Proof. split; [vm_compute; reflexivity|]. repeat constructor. Qed.
