(* ===== verification/Monitor.v ===== *)
(** * Monitor: the live telemetry store (web/src/stores/monitor.ts) and the
    overview page that drives it (views/OverviewView.vue)

    The store's fields and, beside them, the host resources it uses: WebSockets,
    timeouts and intervals are numbered in order of creation, with the sets of
    those that can still fire.  The actions are programs of [Async]; the page,
    the sockets and the timers start them as events. *)

From Stdlib Require Import Strings.String.
From stdpp Require Import sorting.
From S2P Require Import Prelude JsString Binary64 JsNumber JsDate Async I18n Types Format.

Open Scope Z_scope.
Open Scope num_scope.
Open Scope async_scope.

(** ** State *)

Record store := mkStore {
  nodes : list NodeSnapshot.t;
  probes : list ProbeTask.t;
  loading : bool;
  lastUpdate : option num;
  socket : option nat;
  reconnectTimer : nat;
  presenceTimer : nat;
  offlineAfterMS : num;
}.

(** What the browser holds: the next number, the clock, the sockets that deliver
    messages, those whose close event is to come, the pending timeouts and the
    running intervals. *)
Record host := mkHost {
  fresh : nat;
  now : num;
  open_sockets : gset nat;
  closing_sockets : gset nat;
  timeouts : gset nat;
  intervals : gset nat;
}.

Record state := mkState { st : store; hs : host; overview_error : jsstr }.

Definition init_store : store := mkStore [] [] false None None 0 0 (#90000).

(** Assignments to the fields. *)
Definition set_store (f : store -> store) (s : state) : state := mkState (f (st s)) (hs s) (overview_error s).
Definition set_host (f : host -> host) (s : state) : state := mkState (st s) (f (hs s)) (overview_error s).

Definition set_nodes (x : list NodeSnapshot.t) (s : store) : store :=
  mkStore x (probes s) (loading s) (lastUpdate s) (socket s) (reconnectTimer s) (presenceTimer s) (offlineAfterMS s).
Definition set_probes (x : list ProbeTask.t) (s : store) : store :=
  mkStore (nodes s) x (loading s) (lastUpdate s) (socket s) (reconnectTimer s) (presenceTimer s) (offlineAfterMS s).
Definition set_loading (x : bool) (s : store) : store :=
  mkStore (nodes s) (probes s) x (lastUpdate s) (socket s) (reconnectTimer s) (presenceTimer s) (offlineAfterMS s).
Definition set_lastUpdate (x : option num) (s : store) : store :=
  mkStore (nodes s) (probes s) (loading s) x (socket s) (reconnectTimer s) (presenceTimer s) (offlineAfterMS s).
Definition set_socket (x : option nat) (s : store) : store :=
  mkStore (nodes s) (probes s) (loading s) (lastUpdate s) x (reconnectTimer s) (presenceTimer s) (offlineAfterMS s).
Definition set_reconnectTimer (x : nat) (s : store) : store :=
  mkStore (nodes s) (probes s) (loading s) (lastUpdate s) (socket s) x (presenceTimer s) (offlineAfterMS s).
Definition set_presenceTimer (x : nat) (s : store) : store :=
  mkStore (nodes s) (probes s) (loading s) (lastUpdate s) (socket s) (reconnectTimer s) x (offlineAfterMS s).
Definition set_offlineAfterMS (x : num) (s : store) : store :=
  mkStore (nodes s) (probes s) (loading s) (lastUpdate s) (socket s) (reconnectTimer s) (presenceTimer s) x.

(** ** Calls *)

Inductive Req :=
| GetNodes    (* GET /api/v1/public/nodes *)
| GetProbes.  (* GET /api/v1/public/probes *)

Definition Resp (r : Req) : Type :=
  match r with GetNodes => list NodeSnapshot.t | GetProbes => list ProbeTask.t end.

Definition M := prog state Req Resp.

(** ** The host's functions *)

Definition clearTimeout (id : nat) : host -> host := fun h =>
  mkHost (fresh h) (now h) (open_sockets h) (closing_sockets h) (timeouts h ∖ {[id]}) (intervals h).
Definition clearInterval (id : nat) : host -> host := fun h =>
  mkHost (fresh h) (now h) (open_sockets h) (closing_sockets h) (timeouts h) (intervals h ∖ {[id]}).
(** [socket.close()]: no message is delivered any more, the close event is. *)
Definition close (id : nat) : host -> host := fun h =>
  mkHost (fresh h) (now h) (open_sockets h ∖ {[id]}) ({[id]} ∪ closing_sockets h) (timeouts h) (intervals h).

(** Creation: the result is the number [S fresh], never 0. *)
Definition newWebSocket (h : host) : nat * host :=
  let id := S (fresh h) in
  (id, mkHost id (now h) ({[id]} ∪ open_sockets h) (closing_sockets h) (timeouts h) (intervals h)).
Definition setTimeout (h : host) : nat * host :=
  let id := S (fresh h) in
  (id, mkHost id (now h) (open_sockets h) (closing_sockets h) ({[id]} ∪ timeouts h) (intervals h)).
Definition setInterval (h : host) : nat * host :=
  let id := S (fresh h) in
  (id, mkHost id (now h) (open_sockets h) (closing_sockets h) (timeouts h) ({[id]} ∪ intervals h)).

(** ** Samples and presence *)

Section Presence.
Context `{DateHost}.

(** [new Date(sample.received_at ?? sample.collected_at).getTime()]. *)
Definition received (m : MetricSample.t) : num :=
  parse (nullish (MetricSample.received_at m) (MetricSample.collected_at m)).

Definition is_online (t : num) (m : MetricSample.t) (threshold : num) : bool := t - received m <? threshold.

(** [nodes.find(...)] returns the object in the array: it is updated in place. *)
Fixpoint update_first (id : jsstr) (f : NodeSnapshot.t -> NodeSnapshot.t) (l : list NodeSnapshot.t) : list NodeSnapshot.t :=
  match l with
  | [] => []
  | x :: l' => if streq (NodeSnapshot.id x) id then f x :: l' else x :: update_first id f l'
  end.

Definition applySample (nodeID : jsstr) (sample : MetricSample.t) (s : state) : state :=
  set_store (fun c => set_nodes (update_first nodeID (fun target =>
    NodeSnapshot.set_online (NodeSnapshot.set_metric target sample)
      (is_online (now (hs s)) sample (offlineAfterMS c))) (nodes c)) c) s.

Definition presence (t threshold : num) (target : NodeSnapshot.t) : NodeSnapshot.t :=
  match NodeSnapshot.metric target with
  | None => NodeSnapshot.set_online target false
  | Some m => NodeSnapshot.set_online target (is_online t m threshold)
  end.

Definition refreshPresence (s : state) : state :=
  set_store (fun c => set_nodes (map (presence (now (hs s)) (offlineAfterMS c)) (nodes c)) c) s.

(** ** Messages *)

Record message := mkMessage {
  type : jsstr; node_id : option jsstr; sample : option MetricSample.t;
  samples : option (list (jsstr * MetricSample.t)); offline_after_ms : option num;
}.

(** [message.offline_after_ms && message.offline_after_ms >= 10_000]. *)
Definition new_threshold (m : message) : option num :=
  match offline_after_ms m with
  | Some t => if negb (eqb t (#0)) && negb (isNaN t) && (t >=? #10000) then Some t else None
  | None => None
  end.

Definition on_message (m : message) (s : state) : state :=
  let s1 :=
    match (if streq (type m) (js "snapshot") then samples m else None) with
    | Some all =>
        let s0 := match new_threshold m with Some t => set_store (set_offlineAfterMS t) s | None => s end in
        fold_left (fun acc '(id, x) => applySample id x acc) all s0
    | None =>
        match node_id m, sample m with
        | Some (c :: id), Some x => if streq (type m) (js "sample") then applySample (c :: id) x s else s
        | _, _ => s
        end
    end in
  set_store (set_lastUpdate (Some (now (hs s1)))) s1.

(** ** Actions *)

Definition load : M unit :=
  do! modify (set_store (set_loading true));
  finally
    (let! both := (await (All2 (One GetNodes) (One GetProbes)) : M (list NodeSnapshot.t * list ProbeTask.t)) in
     modify (fun s => set_store (fun c => set_lastUpdate (Some (now (hs s))) (set_probes both.2 (set_nodes both.1 c))) s))
    (modify (set_store (set_loading false))).

Definition disconnect_ (s : state) : state :=
  let s1 := set_host (clearTimeout (reconnectTimer (st s))) s in
  let s2 := set_host (clearInterval (presenceTimer (st s1))) s1 in
  match socket (st s2) with
  | Some old => set_host (close old) (set_store (set_socket None) s2)
  | None => s2
  end.

Definition connect_ (s : state) : state :=
  let s1 := disconnect_ s in
  let '(id, h) := newWebSocket (hs s1) in
  let s2 := set_store (set_socket (Some id)) (set_host (fun _ => h) s1) in
  let '(timer, h) := setInterval (hs s2) in
  set_store (set_presenceTimer timer) (set_host (fun _ => h) s2).

Definition connect : M unit := modify connect_.
Definition disconnect : M unit := modify disconnect_.

(** ** Events *)

(** [socket.onmessage]; [None] is data that is not JSON: [JSON.parse] throws. *)
Definition onmessage (id : nat) (data : option message) : M unit :=
  let! s := get in
  unless (negb (bool_decide (id ∈ open_sockets (hs s))))
    (match data with
     | None => Throw (OtherError (js "Unexpected token"))
     | Some m => modify (on_message m)
     end).

Definition closed (id : nat) : host -> host := fun h =>
  mkHost (fresh h) (now h) (open_sockets h ∖ {[id]}) (closing_sockets h ∖ {[id]}) (timeouts h) (intervals h).

(** [socket.onclose], for a socket whose close event has not come yet. *)
Definition onclose_ (id : nat) (s : state) : state :=
  let s0 := set_host (closed id) s in
  if bool_decide (socket (st s0) = Some id) then
    let s1 := set_store (fun c => set_nodes [] (set_socket None c)) s0 in
    let '(timer, h) := setTimeout (hs s1) in
    set_store (set_reconnectTimer timer) (set_host (fun _ => h) s1)
  else s0.

Definition onclose (id : nat) : M unit :=
  let! s := get in
  unless (negb (bool_decide (id ∈ open_sockets (hs s) ∪ closing_sockets (hs s)))) (modify (onclose_ id)).

(** The body of the reconnection timeout. *)
Definition reconnection : M unit :=
  do! try_catch load (fun _ => modify (set_store (set_nodes [])));
  let! s := get in
  match socket (st s) with None => connect | Some _ => Ret tt end.

(** The reconnection timeout: it runs once. *)
Definition reconnect (id : nat) : M unit :=
  let! s := get in
  unless (negb (bool_decide (id ∈ timeouts (hs s))))
    (do! modify (set_host (clearTimeout id));
     reconnection).

Definition presence_tick (id : nat) : M unit :=
  let! s := get in
  unless (negb (bool_decide (id ∈ intervals (hs s)))) (modify refreshPresence).

Definition clock_moves (t : num) : M unit := modify (set_host (fun h =>
  mkHost (fresh h) t (open_sockets h) (closing_sockets h) (timeouts h) (intervals h))).

(** OverviewView.vue: mounting and unmounting. *)
Definition set_error (e : jsstr) (s : state) : state := mkState (st s) (hs s) e.

Definition overview_mounted (l : AppLocale) : M unit :=
  try_catch
    (do! load; connect)
    (fun reason => modify (set_error (reason_message reason (text l (js "无法加载监控数据。") (js "Could not load telemetry."))))).

Definition overview_unmounted : M unit := disconnect.

Inductive event : M unit -> Prop :=
| E_mounted l : event (overview_mounted l)
| E_unmounted : event overview_unmounted
| E_message id data : event (onmessage id data)
| E_close id : event (onclose id)
| E_reconnect id : event (reconnect id)
| E_presence id : event (presence_tick id)
| E_retry : event load                             (* the button of the error notice *)
| E_clock t : event (clock_moves t).

End Presence.

Definition start (t : num) : state := mkState init_store (mkHost 0 t ∅ ∅ ∅ ∅) [].

(** ** Getters *)

Definition onlineCount (s : store) : nat := length (filter (fun x => NodeSnapshot.online x = true) (nodes s)).

(** [Set] keeps the first occurrence of each value. *)
Fixpoint unique (l : list jsstr) : list jsstr :=
  match l with
  | [] => []
  | x :: l' => x :: filter (fun y => y <> x) (unique l')
  end.

(** [Array.prototype.sort] without a comparison: by code units. *)
Definition str_le (a b : jsstr) : Prop := str_leb a b = true.
#[export] Instance str_le_dec a b : Decision (str_le a b).
Proof. unfold str_le. apply _. Defined.

Definition groups (s : store) : list jsstr :=
  merge_sort str_le (unique (omap (fun x => match PublicNode.group (NodeSnapshot.node x) with
                                            | Some (c :: g) => Some (c :: g)
                                            | _ => None
                                            end) (nodes s))).

(** ** Properties: resources under every interleaving *)

(** At most one socket delivers messages, one presence interval runs and one
    reconnection is due, each of them the one the store remembers; nothing is
    due while a socket is in use; the offline threshold is at least 10 s. *)
Definition resources_ok (s : state) : Prop :=
  open_sockets (hs s) ⊆ match socket (st s) with Some id => {[id]} | None => ∅ end /\
  intervals (hs s) ⊆ {[presenceTimer (st s)]} /\
  timeouts (hs s) ⊆ {[reconnectTimer (st s)]} /\
  (socket (st s) <> None -> timeouts (hs s) = ∅) /\
  (#10000 <=? offlineAfterMS (st s)) = true.

(** Numbers are never used again. *)
Definition fresh_le (s s' : state) : Prop := (fresh (hs s) <= fresh (hs s'))%nat.

#[export] Instance fresh_le_preorder : PreOrder fresh_le.
Proof. split; unfold fresh_le; [intros s; lia|intros a b c; lia]. Qed.

Lemma disconnect_released s : resources_ok s ->
  let s' := disconnect_ s in
  socket (st s') = None /\ open_sockets (hs s') = ∅ /\ intervals (hs s') = ∅ /\ timeouts (hs s') = ∅ /\
  offlineAfterMS (st s') = offlineAfterMS (st s) /\ fresh (hs s') = fresh (hs s).
Proof.
  intros (Ho & Hi & Ht & Hs & Hth). unfold disconnect_. cbn.
  destruct (socket (st s)) as [id|] eqn:E; cbn; split_and!; try done; set_solver.
Qed.

Lemma connect_ok s : resources_ok s -> resources_ok (connect_ s) /\ fresh_le s (connect_ s).
Proof.
  intros H. destruct (disconnect_released s H) as (H1 & H2 & H3 & H4 & H5 & H6). destruct H as (_ & _ & _ & _ & Hth).
  unfold connect_, resources_ok, fresh_le. cbn. rewrite H2, H3, H4, H5. split_and!; try set_solver. lia.
Qed.

Lemma disconnect_ok s : resources_ok s -> resources_ok (disconnect_ s) /\ fresh_le s (disconnect_ s).
Proof.
  intros H. destruct (disconnect_released s H) as (H1 & H2 & H3 & H4 & H5 & H6). destruct H as (_ & _ & _ & _ & Hth).
  unfold resources_ok, fresh_le. rewrite H1, H2, H3, H4, H5, H6. split_and!; set_solver.
Qed.

Lemma onclose_ok id s : resources_ok s -> resources_ok (onclose_ id s) /\ fresh_le s (onclose_ id s).
Proof.
  intros (Ho & Hi & Ht & Hs & Hth). unfold onclose_, resources_ok, fresh_le.
  cbn -[union difference singleton]. case_bool_decide as E; cbn -[union difference singleton].
  - rewrite E in Ho. assert (Ht0 : timeouts (hs s) = ∅) by (apply Hs; congruence).
    rewrite Ht0. split_and!; try set_solver.
  - split_and!; try done. set_solver.
Qed.

(** Writes of the store that leave the resources alone. *)
Definition harmless (f : state -> state) : Prop := forall s,
  hs (f s) = hs s /\ socket (st (f s)) = socket (st s) /\ reconnectTimer (st (f s)) = reconnectTimer (st s) /\
  presenceTimer (st (f s)) = presenceTimer (st s) /\
  ((#10000 <=? offlineAfterMS (st s)) = true -> (#10000 <=? offlineAfterMS (st (f s))) = true).

Lemma harmless_ok f s : harmless f -> resources_ok s -> resources_ok (f s) /\ fresh_le s (f s).
Proof.
  intros Hf (Ho & Hi & Ht & Hs & Hth). destruct (Hf s) as (E1 & E2 & E3 & E4 & E5).
  unfold resources_ok, fresh_le. rewrite E1, E2, E3, E4. split_and!; auto.
Qed.

Section Events.
Context `{DateHost}.

Lemma applySample_harmless id x : harmless (applySample id x).
Proof. by intros s. Qed.

Lemma on_message_harmless m : harmless (on_message m).
Proof.
  assert (Hfold : forall l s, let s' := fold_left (fun acc '(id, x) => applySample id x acc) l s in
    hs s' = hs s /\ socket (st s') = socket (st s) /\ reconnectTimer (st s') = reconnectTimer (st s) /\
    presenceTimer (st s') = presenceTimer (st s) /\ offlineAfterMS (st s') = offlineAfterMS (st s)).
  { induction l as [|[id x] l IH]; intros s; [done|]. cbn. destruct (IH (applySample id x s)) as (? & ? & ? & ? & ?). done. }
  intros s. unfold on_message. destruct (if streq _ _ then samples m else None) as [l|]; cbn.
  - unfold new_threshold. destruct (offline_after_ms m) as [t|].
    + destruct (negb (eqb t (#0)) && negb (isNaN t) && (t >=? #10000)) eqn:E.
      * destruct (Hfold l (set_store (set_offlineAfterMS t) s)) as (-> & -> & -> & -> & ->).
        split_and!; try done. intros _. cbn. by apply andb_true_iff in E as [_ E].
      * destruct (Hfold l s) as (-> & -> & -> & -> & ->). done.
    + destruct (Hfold l s) as (-> & -> & -> & -> & ->). done.
  - destruct (node_id m) as [[|c id]|], (sample m) as [x|]; try done. destruct (streq _ _); done.
Qed.

Lemma good_modify_harmless f : harmless f -> good resources_ok fresh_le (modify f : M unit).
Proof. intros Hf. apply good_modify; [apply _|]. intros s. by apply harmless_ok. Qed.

Lemma good_load : good resources_ok fresh_le load.
Proof. unfold load. good_prog; try (by apply good_modify_harmless). Qed.

Lemma good_connect : good resources_ok fresh_le connect.
Proof. apply good_modify; [apply _|]. apply connect_ok. Qed.

Lemma good_disconnect : good resources_ok fresh_le disconnect.
Proof. apply good_modify; [apply _|]. apply disconnect_ok. Qed.

#[local] Hint Resolve good_load good_connect good_disconnect : good_db.
#[local] Hint Extern 1 (good _ _ (modify _)) => by apply good_modify_harmless : good_db.

Lemma event_good p : event p -> good resources_ok fresh_le p.
Proof.
  destruct 1.
  - unfold overview_mounted. good_prog.
  - unfold overview_unmounted. good_prog.
  - unfold onmessage. good_prog. apply good_modify_harmless, on_message_harmless.
  - unfold onclose. good_prog. apply good_modify; [apply _|]. apply onclose_ok.
  - unfold reconnect, reconnection. good_prog. apply good_modify; [apply _|].
    intros s (Ho & Hi & Ht & Hs & Hth). unfold resources_ok, fresh_le. cbn. split_and!; try done; set_solver.
  - unfold presence_tick. good_prog.
  - apply good_load.
  - apply good_modify; [apply _|]. intros s Hs. by unfold resources_ok, fresh_le.
Qed.

Lemma reachable_ok t c : reachable event (start t) c -> resources_ok (Async.store c).
Proof.
  intros Hr. apply (rely_guarantee resources_ok fresh_le event (start t) c); [| |done].
  - intros p Hp. apply good_keeps; [apply _|by apply event_good].
  - unfold resources_ok. cbn. set_solver.
Qed.

(** C3: under every interleaving of mounting and unmounting the page, messages,
    close events, reconnections, presence ticks and slow or failing loads, the
    store never has two live sockets, two presence timers or two pending
    reconnections, no reconnection is pending while it is connected, and the
    offline threshold never falls below 10 seconds. *)
Theorem monitor_resources t c : reachable event (start t) c -> resources_ok (Async.store c).
Proof.
  apply reachable_ok.
Qed.

(** When no load is in flight, leaving the page releases everything: no
    socket delivers messages, no timer and no reconnection is left, so that no
    event but a new mount or a load, whose button is gone with the page, changes
    the list of nodes. *)
Theorem disconnect_releases s : resources_ok s ->
  let s' := disconnect_ s in
  socket (st s') = None /\ open_sockets (hs s') = ∅ /\ intervals (hs s') = ∅ /\ timeouts (hs s') = ∅ /\
  (forall p, event p -> (exists l, p = overview_mounted l) \/ p = load \/
     nodes (st (Async.store (spawn p (Config s' [])))) = nodes (st s') /\ tasks (spawn p (Config s' [])) = []).
Proof.
  intros Hs s'. destruct (disconnect_released s Hs) as (H1 & H2 & H3 & H4 & _ & _). fold s' in H1, H2, H3, H4.
  split_and!; try done. clearbody s'. intros p Hp. destruct Hp as [l| |id data|id|id|id| |t]; [left; eauto|..]; try (by right; left); right; right;
    unfold spawn; cbn -[disconnect_ refreshPresence onclose_ on_message].
  - split; [|done]. unfold disconnect_. cbn. rewrite H1. done.
  - rewrite H2. done.
  - rewrite H2. destruct (bool_decide (id ∈ ∅ ∪ closing_sockets (hs s'))); cbn -[onclose_]; [|done].
    unfold onclose_. cbn. rewrite H1. done.
  - rewrite H4. done.
  - rewrite H3. done.
  - done.
Qed.
End Events.

(** ** Properties: a load in flight *)

Definition served (ns : list NodeSnapshot.t) (ps : list ProbeTask.t) : forall r, Resp r + exn := fun r =>
  match r with GetNodes => inl ns | GetProbes => inl ps end.

(** The page is connected: a live socket and a running presence timer. *)
Definition connected (s : state) : Prop :=
  exists id, socket (st s) = Some id /\ id ∈ open_sockets (hs s) /\ presenceTimer (st s) ∈ intervals (hs s).
Definition released (s : state) : Prop :=
  socket (st s) = None /\ open_sockets (hs s) = ∅ /\ intervals (hs s) = ∅ /\ timeouts (hs s) = ∅.

Section LateLoad.
Context `{DateHost}.

(** The task a handler leaves: it does not depend on the state. *)
Definition waiting (p : M unit) : option (task state Req Resp) := (advance p (start (#0))).2.

(** A load in flight, with what follows it. *)
Inductive loading_task (t : task state Req Resp) : Prop :=
| By_mount l : waiting (overview_mounted l) = Some t -> loading_task t
| By_reconnection : waiting reconnection = Some t -> loading_task t
| By_retry : waiting load = Some t -> loading_task t.

Lemma event_leaves p s : event p -> match (advance p s).2 with Some t => loading_task t | None => True end.
Proof.
  destruct 1; cbn.
  - by eapply By_mount.
  - done.
  - unfold onmessage. cbn. case_bool_decide; [|done]. by destruct data.
  - unfold onclose. cbn. by case_bool_decide.
  - unfold reconnect. cbn -[reconnection]. case_bool_decide; [|done]. by apply By_reconnection.
  - unfold presence_tick. cbn. by case_bool_decide.
  - by apply By_retry.
  - done.
Qed.

(** The load's answer is the last thing a handler waits for. *)
Lemma loading_ends t : loading_task t -> forall res s, (advance (resume t res) s).2 = None.
Proof.
  intros [l [= <-]|[= <-]|[= <-]]; intros [[ns ps]|e] s; try done; cbn; by destruct (socket (st s)).
Qed.

Lemma tasks_loading handlers c c' : (forall p, handlers p -> event p) -> Forall loading_task (tasks c) ->
  rtc (Async.step handlers) c c' -> Forall loading_task (tasks c').
Proof.
  intros Hh Hc Hr. induction Hr as [c|c c1 c2 Hs Hr IH]; [done|]. apply IH. clear IH Hr. destruct Hs as [p [s ts] Hp|before t after s res].
  - pose proof (event_leaves p s (Hh p Hp)) as Hl. unfold spawn. cbn. destruct (advance p s) as [s' [t|]]; cbn in *; [|by rewrite app_nil_r].
    apply Forall_app. split; [done|]. by constructor.
  - cbn in Hc. apply Forall_app in Hc as [Hb Ht]. inversion_clear Ht as [|? ? Hk Ha]. unfold spawn. cbn.
    pose proof (loading_ends t Hk res s) as Hl. destruct (advance (resume t res) s) as [s' t']. cbn in *. subst. rewrite app_nil_r. by apply Forall_app.
Qed.

(** The presence timer of the store is running. *)
Definition ticking (s : state) : Prop := presenceTimer (st s) ∈ intervals (hs s).

Lemma connect_ticking s : ticking (connect_ s).
Proof. unfold ticking, connect_. cbn. set_solver. Qed.

(** Every segment but an unmounting keeps it running. *)
Lemma event_ticking p s : event p -> p <> overview_unmounted -> ticking s -> ticking (advance p s).1.
Proof.
  intros Hp Hn Hs. destruct Hp; cbn; try done.
  - unfold onmessage. cbn. case_bool_decide; [|done]. destruct data as [m|]; [|done]. cbn. unfold ticking.
    destruct (on_message_harmless m s) as (-> & _ & _ & -> & _). exact Hs.
  - unfold onclose. cbn. case_bool_decide; [|done]. cbn. unfold ticking, onclose_. cbn. by case_bool_decide.
  - unfold reconnect. cbn -[reconnection]. by case_bool_decide.
  - unfold presence_tick. cbn. by case_bool_decide.
Qed.

Lemma loading_ticking t res s : loading_task t -> ticking s -> ticking (advance (resume t res) s).1.
Proof.
  intros [l [= <-]|[= <-]|[= <-]] Hs; destruct res as [[ns ps]|e]; cbn -[connect_]; try done; try apply connect_ticking;
    destruct (socket (st s)); cbn -[connect_]; try done; apply connect_ticking.
Qed.

Lemma ticking_forever c c' : Forall loading_task (tasks c) -> ticking (Async.store c) ->
  rtc (Async.step (fun p => event p /\ p <> overview_unmounted)) c c' -> ticking (Async.store c').
Proof.
  intros Ht Hc Hr. induction Hr as [c|c c1 c2 Hs Hr IH]; [done|]. apply IH.
  - eapply (tasks_loading (fun p => event p /\ p <> overview_unmounted)); [by intros p [Hp _]|exact Ht|by apply rtc_once].
  - clear IH Hr. destruct Hs as [p [s ts] [Hp Hn]|before t after s res].
    + pose proof (event_ticking p s Hp Hn Hc) as Hk. unfold spawn. cbn. by destruct (advance p s).
    + cbn in Ht. apply Forall_app in Ht as [_ Ht]. inversion_clear Ht as [|? ? Hl _].
      pose proof (loading_ticking t res s Hl Hc) as Hk. unfold spawn. cbn. by destruct (advance (resume t res) s).
Qed.

(** C40: a load that is in flight when the page is left reconnects the store behind
    the user's back.  In every reachable state in which the load of a mounting or
    of a reconnection is awaited, unmounting releases every socket and timer, but
    the answer of that load, whatever nodes and probes it brings, then opens a
    socket and starts a presence timer; and from there on, through any further
    events and answers, the store keeps a presence timer running as long as no
    page that shows it is unmounted. *)
Theorem disconnect_undone_by_load t0 c i t ns ps :
  reachable event (start t0) c -> tasks c !! i = Some t ->
  (exists l, waiting (overview_mounted l) = Some t) \/ waiting reconnection = Some t ->
  let left := spawn overview_unmounted c in
  let late := answer_at (served ns ps) i left in
  released (Async.store left) /\ Async.step event left late /\ connected (Async.store late) /\
  (forall c', rtc (Async.step (fun p => event p /\ p <> overview_unmounted)) late c' ->
     presenceTimer (st (Async.store c')) ∈ intervals (hs (Async.store c'))).
Proof.
  intros Hr Hi Ht left late. pose proof (reachable_ok t0 c Hr) as Hok. destruct c as [s ts]. cbn in Hi, Hok.
  assert (Hall : Forall loading_task ts) by (apply (tasks_loading event (Config (start t0) []) (Config s ts)); [done|constructor|exact Hr]).
  assert (Hleft : left = Config (disconnect_ s) ts) by (unfold left, spawn; cbn -[disconnect_]; by rewrite app_nil_r).
  destruct (disconnect_released s Hok) as (H1 & H2 & H3 & H4 & _ & _).
  assert (Hd : loading_task t) by (destruct Ht as [[l Hl]|Hl]; by econstructor).
  pose proof (loading_ends t Hd (ask (served ns ps) (waits_for t)) (disconnect_ s)) as Hend.
  assert (Hlate : late = Config (advance (resume t (ask (served ns ps) (waits_for t))) (disconnect_ s)).1 (delete i ts)).
  { unfold late. rewrite Hleft. unfold answer_at. cbn [tasks]. rewrite Hi. unfold spawn. cbn [Async.store tasks].
    destruct (advance (resume t _) (disconnect_ s)) as [s' t']. cbn in Hend. subst t'. cbn. by rewrite app_nil_r. }
  assert (Hc : connected (Async.store late)).
  { rewrite Hlate. cbn [Async.store]. revert H1. generalize (disconnect_ s). intros s1 H1.
    destruct Ht as [[l [= <-]]|[= <-]]; cbn -[connect_]; rewrite ?H1; cbn -[connect_];
      (eexists; split; [reflexivity|split; [unfold connect_; cbn; set_solver|apply connect_ticking]]). }
  split_and!; [by rewrite Hleft| |exact Hc|].
  - apply answer_at_step. rewrite Hleft. eauto.
  - intros c' Hc'. apply (ticking_forever late c'); [|by destruct Hc as (id & _ & _ & Hk)|exact Hc'].
    rewrite Hlate. cbn [tasks]. by apply Forall_delete.
Qed.

End LateLoad.

Lemma disconnect_undone_by_load_witness :
  let mounted := @spawn _ _ Resp (overview_mounted en_US) (Config (start (of_Z 0)) []) in
  connected (Async.store (answer_at (served [] []) 0 (spawn overview_unmounted mounted))).
Proof.
  intros mounted. destruct (@disconnect_undone_by_load utc_host (of_Z 0) mounted 0 _ [] []
    ltac:(eapply rtc_l; [apply Starts, (@E_mounted utc_host en_US)|apply rtc_refl]) eq_refl ltac:(left; exists en_US; reflexivity)) as (_ & _ & H & _).
  exact H.
Defined.

Lemma monitor_resources_witness :
  let c := answer_at (served [] []) 0 (@spawn _ _ Resp (overview_mounted en_US) (Config (start (of_Z 0)) [])) in
  resources_ok (Async.store c) /\ connected (Async.store c).
Proof.
  split.
  - apply (@monitor_resources utc_host (of_Z 0)).
    eapply rtc_l; [apply Starts, (@E_mounted utc_host en_US)|].
    eapply rtc_l; [apply (answer_at_step _ (served [] []) 0); eexists; reflexivity | apply rtc_refl].
  - exists 1%nat. split_and!; [reflexivity|apply (bool_decide_unpack _); vm_compute; exact Logic.I..].
Defined.

Lemma disconnect_releases_witness :
  let s := connect_ (start (of_Z 0)) in
  socket (st s) = Some 1%nat /\ open_sockets (hs (disconnect_ s)) = ∅.
Proof.
  split; [reflexivity|]. apply (@disconnect_releases utc_host (connect_ (start (of_Z 0)))).
  split_and!; [..|intros _; reflexivity|reflexivity]; apply (bool_decide_unpack _); vm_compute; exact Logic.I.
Defined.

(** ** Properties: presence and groups *)

Lemma update_first_lookup id f l i n : l !! i = Some n ->
  update_first id f l !! i = Some n \/ (NodeSnapshot.id n = id /\ update_first id f l !! i = Some (f n)).
Proof.
  revert i. induction l as [|x l IH]; intros i H; [done|]. cbn. destruct (streq (NodeSnapshot.id x) id) eqn:E.
  - destruct i; cbn in *; [|by left]. injection H as ->. right. by apply streq_eq in E.
  - destruct i; cbn in *; [by left|by apply IH].
Qed.

Lemma update_first_hit id f l i n : NoDup (map NodeSnapshot.id l) -> l !! i = Some n -> NodeSnapshot.id n = id ->
  update_first id f l !! i = Some (f n).
Proof.
  revert i. induction l as [|x l IH]; intros i Hnd H Hid; [done|]. cbn. cbn in Hnd. apply NoDup_cons in Hnd as [Hx Hnd].
  destruct (streq (NodeSnapshot.id x) id) eqn:E.
  - apply streq_eq in E. destruct i; cbn in *; [by injection H as ->|]. exfalso. apply Hx.
    rewrite E, <- Hid. by eapply (list_elem_of_fmap_2 NodeSnapshot.id), list_elem_of_lookup_2.
  - destruct i; cbn in *; [|by apply IH]. injection H as ->. rewrite Hid, streq_refl in E. done.
Qed.

Lemma set_online_id n b : NodeSnapshot.id (NodeSnapshot.set_online n b) = NodeSnapshot.id n.
Proof. done. Qed.

(** The comparison of [is_online], on whole milliseconds and on times that cannot
    be read. *)
Lemma is_online_spec `{DateHost} t m threshold :
  (received m = NaN -> is_online t m threshold = false) /\
  (forall a b T, 0 <= a < 2 ^ 52 -> 0 <= b < 2 ^ 52 -> 0 <= T < 2 ^ 52 ->
     t = #a -> received m = #b -> threshold = #T -> is_online t m threshold = Z.ltb (a - b) T).
Proof.
  unfold is_online. split.
  - intros ->. by destruct t as [|[]| |].
  - intros a b T Ha Hb HT -> -> ->. destruct (sub_of_Z a b) as [Hf Hi]; [lia..|].
    apply Bool.eq_iff_eq_true. rewrite ltb_ival_iff by (try apply sub_valid; auto with hostpin).
    rewrite Hi, of_Z_ival, Z.ltb_lt by lia. assert (0 < 2 ^ 1074)%Z by (by apply pow2_pos). nia.
Qed.

(** C32: a sample changes exactly the node it is for: with distinct ids, that node
    gets the sample as its metric and is online exactly when the sample is younger
    than the threshold: the clock less the time of receipt (of collection, when
    there is none) is below it, on whole milliseconds the difference of the two,
    while a time that cannot be read means offline; everything else of that node,
    every other node, the order and the ids stay as they are, and a sample for an
    unknown node changes nothing. *)
Theorem applySample_exact `{DateHost} id x s : NoDup (map NodeSnapshot.id (nodes (st s))) ->
  let s' := applySample id x s in
  let time := parse (match MetricSample.received_at x with Some at_ => at_ | None => MetricSample.collected_at x end) in
  map NodeSnapshot.id (nodes (st s')) = map NodeSnapshot.id (nodes (st s)) /\
  (forall i n, nodes (st s) !! i = Some n ->
     exists n', nodes (st s') !! i = Some n' /\
       (NodeSnapshot.id n <> id -> n' = n) /\
       (NodeSnapshot.id n = id -> NodeSnapshot.metric n' = Some x /\
          NodeSnapshot.set_online (NodeSnapshot.set_metric n x) (NodeSnapshot.online n') = n' /\
          NodeSnapshot.online n' = (now (hs s) - time <? offlineAfterMS (st s)) /\
          (time = NaN -> NodeSnapshot.online n' = false) /\
          (forall a b T, 0 <= a < 2 ^ 52 -> 0 <= b < 2 ^ 52 -> 0 <= T < 2 ^ 52 ->
             now (hs s) = #a -> time = #b -> offlineAfterMS (st s) = #T -> NodeSnapshot.online n' = Z.ltb (a - b) T))) /\
  (id ∉ map NodeSnapshot.id (nodes (st s)) -> nodes (st s') = nodes (st s)).
Proof.
  intros Hnd s'. unfold s', applySample. cbn zeta. cbn [st set_store set_nodes nodes].
  destruct (is_online_spec (now (hs s)) x (offlineAfterMS (st s))) as [Hna Hz].
  set (f := fun target => _). split_and!.
  - clear Hna Hz. induction (nodes (st s)) as [|n l IH]; [done|]. cbn in *. apply NoDup_cons in Hnd as [_ Hnd].
    destruct (streq (NodeSnapshot.id n) id); [done|]. cbn. by rewrite IH.
  - intros i n Hn. destruct (decide (NodeSnapshot.id n = id)) as [Hid|Hid].
    + exists (f n). split; [by apply update_first_hit|]. split; [done|]. intros _. by split_and!.
    + destruct (update_first_lookup id f _ i n Hn) as [Hu|[? _]]; [|done]. exists n. by split.
  - intros Hni. clear Hnd Hna Hz. induction (nodes (st s)) as [|n l IH]; [done|]. cbn in *.
    rewrite elem_of_cons in Hni. destruct (streq (NodeSnapshot.id n) id) eqn:E.
    + apply streq_eq in E. exfalso. apply Hni. by left.
    + f_equal. apply IH. intros ?. apply Hni. by right.
Qed.

(** The presence timer sets every node's status from its own last sample:
    a node without a sample is offline, one whose sample is (in whole
    milliseconds) younger than the threshold is online and any other, also one
    with an unreadable time, is offline; samples, ids and order are untouched,
    and a second tick at the same time changes nothing. *)
Theorem refreshPresence_exact `{DateHost} s :
  (forall i n, nodes (st s) !! i = Some n ->
     exists n', nodes (st (refreshPresence s)) !! i = Some n' /\ NodeSnapshot.id n' = NodeSnapshot.id n /\
       NodeSnapshot.metric n' = NodeSnapshot.metric n /\
       (NodeSnapshot.metric n = None -> NodeSnapshot.online n' = false) /\
       (forall m, NodeSnapshot.metric n = Some m ->
          (received m = NaN -> NodeSnapshot.online n' = false) /\
          (forall a b T, 0 <= a < 2 ^ 52 -> 0 <= b < 2 ^ 52 -> 0 <= T < 2 ^ 52 ->
             now (hs s) = #a -> received m = #b -> offlineAfterMS (st s) = #T ->
             NodeSnapshot.online n' = Z.ltb (a - b) T))) /\
  length (nodes (st (refreshPresence s))) = length (nodes (st s)) /\
  refreshPresence (refreshPresence s) = refreshPresence s.
Proof.
  split_and!.
  - intros i n Hn. exists (presence (now (hs s)) (offlineAfterMS (st s)) n).
    assert (Hp : (presence (now (hs s)) (offlineAfterMS (st s)) <$> nodes (st s)) !! i
      = Some (presence (now (hs s)) (offlineAfterMS (st s)) n)) by (by rewrite list_lookup_fmap, Hn).
    split; [exact Hp|].
    unfold presence. destruct (NodeSnapshot.metric n) as [m|] eqn:Em; split_and!; try done.
    intros m' [= <-]. exact (is_online_spec (now (hs s)) m (offlineAfterMS (st s))).
  - unfold refreshPresence. cbn. apply length_map.
  - unfold refreshPresence, set_store, set_nodes. cbn. do 2 f_equal. rewrite map_map. apply map_ext.
    intros n. unfold presence. by destruct (NodeSnapshot.metric n) eqn:E; cbn; rewrite E.
Qed.

(** A node and a sample for examples. *)
Definition a_node (id : jsstr) : NodeSnapshot.t :=
  NodeSnapshot.mk
    (PublicNode.mk id monitor false (js "edge") None None None None None [] None false (#0) (#0) (js "USD") (#30)
       None false (#0) (js "sum") (#1) None None None None None None [] [] None false) None.

Definition a_sample (received_at : jsstr) : MetricSample.t :=
  MetricSample.mk None (#1) received_at (Some received_at) None None (#0) (#0) (#0) (#0) (#1) (#0) (#0) (#0) (#1) (#0)
    (#0) (#0) (#0) (#0) None None (#0) (#0) (#0) None (#1) None None None None.

Definition two_nodes : state :=
  mkState (set_nodes [a_node (js "a"); a_node (js "b")] init_store) (mkHost 0 (#1787529600000) ∅ ∅ ∅ ∅) [].

Lemma applySample_exact_witness :
  map NodeSnapshot.id (nodes (st (@applySample utc_host (js "b") (a_sample (js "2026-08-24T00:00:00Z")) two_nodes)))
  = [js "a"; js "b"] /\
  map NodeSnapshot.online (nodes (st (@applySample utc_host (js "b") (a_sample (js "2026-08-24T00:00:00Z")) two_nodes)))
  = [false; true].
Proof.
  split; [|vm_compute; reflexivity].
  apply (@applySample_exact utc_host (js "b") (a_sample (js "2026-08-24T00:00:00Z")) two_nodes).
  apply (bool_decide_unpack _). vm_compute. exact Logic.I.
Defined.

(** The order of [sort] on strings. *)
Lemma str_leb_total a : forall b, str_leb a b = true \/ str_leb b a = true.
Proof.
  induction a as [|x a IH]; intros [|y b]; cbn; auto.
  destruct (N.lt_trichotomy x y) as [H|[->|H]].
  - left. repeat break; try done; repeat match goal with E : (_ <? _)%N = _ |- _ => apply N.ltb_lt in E || apply N.ltb_ge in E end; lia.
  - destruct (IH b) as [H|H]; [left|right]; repeat break; done.
  - right. repeat break; try done; repeat match goal with E : (_ <? _)%N = _ |- _ => apply N.ltb_lt in E || apply N.ltb_ge in E end; lia.
Qed.

Lemma str_leb_trans a : forall b c, str_leb a b = true -> str_leb b c = true -> str_leb a c = true.
Proof.
  induction a as [|x a IH]; intros [|y b] [|z c]; cbn; try done.
  destruct (N.ltb_spec x y), (N.ltb_spec y x), (N.ltb_spec y z), (N.ltb_spec z y), (N.ltb_spec x z), (N.ltb_spec z x);
    try done; try lia. apply IH.
Qed.

#[export] Instance str_le_total : Total str_le.
Proof. intros a b. apply str_leb_total. Qed.
#[export] Instance str_le_trans : Transitive str_le.
Proof. intros a b c. apply str_leb_trans. Qed.

Lemma elem_of_unique x l : x ∈ unique l <-> x ∈ l.
Proof.
  induction l as [|y l IH]; cbn; [done|]. rewrite !elem_of_cons, list_elem_of_filter, IH.
  destruct (decide (x = y)); naive_solver.
Qed.

Lemma NoDup_unique l : NoDup (unique l).
Proof.
  induction l as [|y l IH]; cbn; constructor; [|by apply NoDup_filter].
  rewrite list_elem_of_filter. by intros [? _].
Qed.

(** The group filter lists every non-empty group of the nodes exactly once,
    and nothing else, in ascending order. *)
Theorem groups_sorted_unique s :
  StronglySorted str_le (groups s) /\ NoDup (groups s) /\
  (forall g, g ∈ groups s <-> g <> [] /\ exists n, n ∈ nodes s /\ PublicNode.group (NodeSnapshot.node n) = Some g).
Proof.
  unfold groups. split_and!.
  - apply StronglySorted_merge_sort; apply _.
  - rewrite merge_sort_Permutation. apply NoDup_unique.
  - intros g. rewrite merge_sort_Permutation, elem_of_unique, list_elem_of_omap. split.
    + intros (n & Hn & Hg). destruct (PublicNode.group (NodeSnapshot.node n)) as [[|c t]|] eqn:E; try done.
      injection Hg as <-. split; [done|]. by exists n.
    + intros (Hne & n & Hn & Hg). exists n. split; [done|]. rewrite Hg. by destruct g.
Qed.
