(* ===== verification/Overview.v ===== *)
(** * Overview: the figures of the overview page (web/src/views/OverviewView.vue)

    The filter of the node list, the totals of the header and the choice of
    view; loading and connecting are in [Monitor]. *)

From Stdlib Require Import Strings.String.
From S2P Require Import Prelude JsString Binary64 JsNumber JsInteger I18n Types Latency Monitor.

Open Scope Z_scope.
Open Scope num_scope.

Inductive status_ := all | online_ | offline_.

#[export] Instance status_eq_dec : EqDecision status_.
Proof. solve_decision. Defined.

Record filters := mkFilters { group : jsstr; search : jsstr; status : status_ }.

Definition statusOptions (l : AppLocale) : list (status_ * jsstr) :=
  [(all, text l (js "全部") (js "All")); (online_, text l (js "在线") (js "Online")); (offline_, text l (js "离线") (js "Offline"))].

Section Overview.
Context `{Unicode}.

(** [[name, group, region, country_code, ...tags].join(' ')]: an absent field is
    an empty string. *)
Definition haystack (n : PublicNode.t) : jsstr :=
  join (PublicNode.name n :: nullish (PublicNode.group n) [] :: nullish (PublicNode.region n) []
        :: nullish (PublicNode.country_code n) [] :: PublicNode.tags n) (js " ").

Definition group_matches (f : filters) (n : PublicNode.t) : bool :=
  negb (truthy (group f)) || match PublicNode.group n with Some g => streq g (group f) | None => false end.

Definition status_matches (f : filters) (n : PublicNode.t) : bool :=
  bool_decide (status f = all) || Bool.eqb (bool_decide (status f = online_)) (PublicNode.online n).

Definition query (f : filters) : jsstr := toLowerCase (trim (search f)).

Definition search_matches (f : filters) (n : PublicNode.t) : bool :=
  negb (truthy (query f)) || includes (toLowerCase (haystack n)) (query f).

Definition shown (f : filters) (x : NodeSnapshot.t) : bool :=
  let n := NodeSnapshot.node x in group_matches f n && status_matches f n && search_matches f n.

Definition filtered (f : filters) (nodes : list NodeSnapshot.t) : list NodeSnapshot.t :=
  filter (fun x => shown f x = true) nodes.

End Overview.

(** ** Totals *)

Definition metric_num (x : NodeSnapshot.t) (f : MetricSample.t -> num) : num :=
  nullish (f <$> NodeSnapshot.metric x) (#0).

Definition totalMemory (nodes : list NodeSnapshot.t) : num :=
  fold_left (fun sum x => sum + metric_num x MetricSample.memory_total) nodes (#0).

Definition trafficRate (nodes : list NodeSnapshot.t) : num :=
  fold_left (fun sum x => sum + metric_num x MetricSample.net_rx_bps + metric_num x MetricSample.net_tx_bps) nodes (#0).

Definition cpu_samples (nodes : list NodeSnapshot.t) : list NodeSnapshot.t :=
  filter (fun x => NodeSnapshot.online x = true /\ is_Some (NodeSnapshot.metric x)) nodes.

Definition avgCPU (nodes : list NodeSnapshot.t) : num :=
  let samples := cpu_samples nodes in
  match samples with
  | [] => #0
  | _ => fold_left (fun sum x => sum + metric_num x MetricSample.cpu) samples (#0) / of_nat (length samples)
  end.

(** ** The choice of view: stored as [hostpin-view] *)

Inductive view_ := grid | table.

Record view_state := mkView { view : jsstr; stored_view : option jsstr }.

Definition view_str (v : view_) : jsstr := match v with grid => js "grid" | table => js "table" end.

(** [localStorage.getItem('hostpin-view') || 'grid']. *)
Definition initial_view (stored : option jsstr) : view_state := mkView (or_else stored (js "grid")) stored.

Definition setView (v : view_) (s : view_state) : view_state := mkView (view_str v) (Some (view_str v)).

(** ** Properties *)

Lemma filter_split {A} (P Q R : A -> bool) l :
  (forall x, R x = P x || Q x) -> (forall x, P x && Q x = false) ->
  length (filter (fun x => R x = true) l)
  = (length (filter (fun x => P x = true) l) + length (filter (fun x => Q x = true) l))%nat.
Proof.
  intros HR HPQ. induction l as [|x l IH]; [done|]. rewrite !filter_cons.
  specialize (HR x). specialize (HPQ x). destruct (P x), (Q x), (R x); try done;
    repeat (case_decide; try done); cbn; lia.
Qed.

(** For any group and search the online and the offline list are a
    partition of the full one, and without a group or a search every node is
    listed, in its order. *)
Theorem filtered_partition `{Unicode} g q nodes :
  length (filtered (mkFilters g q all) nodes)
  = (length (filtered (mkFilters g q online_) nodes) + length (filtered (mkFilters g q offline_) nodes))%nat /\
  Forall (fun x => NodeSnapshot.online x = true) (filtered (mkFilters g q online_) nodes) /\
  Forall (fun x => NodeSnapshot.online x = false) (filtered (mkFilters g q offline_) nodes) /\
  (toLowerCase [] = [] -> filtered (mkFilters [] [] all) nodes = nodes).
Proof.
  split_and!.
  - apply filter_split; intros x; unfold shown, status_matches; cbn; destruct (PublicNode.online (NodeSnapshot.node x));
      destruct (group_matches _ _), (search_matches _ _); done.
  - apply Forall_forall. intros x [Hs _]%list_elem_of_filter. unfold shown, status_matches in Hs. cbn in Hs.
    unfold NodeSnapshot.online. destruct (PublicNode.online _); [done|]. by rewrite andb_false_r in Hs.
  - apply Forall_forall. intros x [Hs _]%list_elem_of_filter. unfold shown, status_matches in Hs. cbn in Hs.
    unfold NodeSnapshot.online. destruct (PublicNode.online _); [|done]. by rewrite andb_false_r in Hs.
  - intros Hl. induction nodes as [|x l IH]; [done|]. unfold filtered. rewrite filter_cons.
    assert (Hs : shown (mkFilters [] [] all) x = true).
    { unfold shown, search_matches, query. cbn. by rewrite Hl. }
    case_decide; [|done]. f_equal. exact IH.
Qed.

Lemma fold_metric f l : fold_left (fun sum x => sum + metric_num x f) l (#0) = total (map (fun x => metric_num x f) l).
Proof. unfold total. generalize (#0). induction l as [|x l IH]; intros a; [done|]. cbn. by rewrite IH. Qed.

(** The average CPU of up to 2^46 nodes whose readings are percentages is
    itself in [0, 100], rounding included; it is 0 when no node is online. *)
Theorem avgCPU_range nodes :
  (Z.of_nat (length nodes) < 2 ^ 46)%Z ->
  Forall (fun x => let c := metric_num x MetricSample.cpu in
            valid c /\ is_finite c = true /\ (#0 <=? c) = true /\ (c <=? #100) = true) nodes ->
  (#0 <=? avgCPU nodes) = true /\ (avgCPU nodes <=? #100) = true /\
  (Forall (fun x => NodeSnapshot.online x = false) nodes -> avgCPU nodes = #0).
Proof.
  intros Hl Hc. pose proof (length_filter (fun x => NodeSnapshot.online x = true /\ is_Some (NodeSnapshot.metric x)) nodes) as Hf.
  fold (cpu_samples nodes) in Hf.
  assert (Hm : avgCPU nodes = mean (map (fun x => metric_num x MetricSample.cpu) (cpu_samples nodes)) (#0)).
  { unfold avgCPU. rewrite fold_metric. unfold mean. by destruct (cpu_samples nodes); cbn; rewrite ?length_map. }
  rewrite Hm. destruct (mean_range (map (fun x => metric_num x MetricSample.cpu) (cpu_samples nodes)) (#0)) as [H0 H1];
    [rewrite length_map; lia| |done..|].
  - apply Forall_fmap, Forall_forall. intros x [_ Hx]%list_elem_of_filter.
    destruct (proj1 (Forall_forall _ _) Hc x Hx) as (Hv & Hfin & Hlo & Hhi). unfold compose.
    apply leb_ival_iff in Hlo, Hhi; auto with hostpin.
  - split_and!; [done..|]. intros Hoff. assert (He : cpu_samples nodes = []).
    { clear -Hoff. unfold cpu_samples. induction Hoff as [|x l Hx _ IH]; [done|]. rewrite filter_cons.
      case_decide as Hd; [destruct Hd; congruence|]. done. }
    by rewrite He.
Qed.

Lemma avgCPU_range_witness : avgCPU [a_node (js "a")] = #0.
Proof.
  apply (avgCPU_range [a_node (js "a")]); [cbn; lia | repeat constructor | repeat constructor].
Defined.
