(* ===== verification/LatencyView.v ===== *)
(** * LatencyView: the latency matrix and the history of a path
    (web/src/views/LatencyView.vue)

    The computed values and [cellClass] are functions; [load], [loadHistory],
    [selectPath], [changeWindow] and the mount hooks are programs of [Async]
    that interleave at their requests.  [history_of] is a ghost: the path and the
    window the shown history was requested for. *)

From Stdlib Require Import Strings.String.
From S2P Require Import Prelude JsString Binary64 JsNumber JsDate Async I18n Types Latency Format.

Open Scope Z_scope.
Open Scope num_scope.
Open Scope async_scope.

(** ** State *)

Record path_ := mkPath { probeNodeID : jsstr; targetNodeID : jsstr }.

Record view := mkView {
  overview : LatencyOverview.t;
  history : list LatencyResult.t;
  historySummary : LatencyWindowSummary.t;
  selected : option path_;
  hours : num;
  loading : bool;
  historyLoading : bool;
  error : jsstr;
  refreshTimer : nat;
  historyRequestID : nat;
  history_of : option (path_ * num);
  (** The browser's intervals: the last number given out, those that run. *)
  fresh : nat;
  intervals : gset nat;
}.

Definition init : view :=
  mkView (LatencyOverview.mk [] [] [] (#90000)) [] (summarizeLatencyWindow []) None (#24) true false [] 0 0 None 0 ∅.

(** ** Computed values *)

Definition key (probe target : jsstr) : jsstr := (probe ++ js ":" ++ target)%list.

(** [new Map(entries).get(k)]: the last entry with the key. *)
Definition cell (v : view) (probe target : jsstr) : option LatencyResult.t :=
  List.find (fun item => streq (key (LatencyResult.probe_node_id item) (LatencyResult.target_node_id item)) (key probe target))
    (rev (LatencyOverview.latest (overview v))).

Definition onlineProbes (v : view) : nat :=
  length (filter (fun p => LatencyProbeNode.online p = true) (LatencyOverview.probe_nodes (overview v))).

Definition healthyPaths (v : view) : nat :=
  length (filter (fun r => LatencyResult.success r && (LatencyResult.loss_percent r <? #50) = true) (LatencyOverview.latest (overview v))).

Definition currentAverageLatency (v : view) : option num :=
  let values := LatencyResult.latency_ms <$>
    filter (fun r => LatencyResult.success r && (LatencyResult.latency_ms r >=? #0) = true) (LatencyOverview.latest (overview v)) in
  match values with [] => None | _ => Some (total values / of_nat (length values)) end.

Definition selectedProbe (v : view) : option LatencyProbeNode.t :=
  List.find (fun p => match selected v with Some s => streq (LatencyProbeNode.id p) (probeNodeID s) | None => false end)
    (LatencyOverview.probe_nodes (overview v)).

Definition selectedTarget (v : view) : option LatencyTarget.t :=
  List.find (fun t => match selected v with Some s => streq (PublicNode.id (LatencyTarget.node t)) (targetNodeID s) | None => false end)
    (LatencyOverview.targets (overview v)).

Definition latencySeries (v : view) : list num := map (fun r => latencyChartValue (sample_of r)) (history v).
Definition lossSeries (v : view) : list num := map LatencyResult.loss_percent (history v).

Inductive cell_class := empty | stale | failed | critical | warning | healthy.

Definition cellClass `{DateHost} (v : view) (now : num) (result : option LatencyResult.t) (probeOnline : bool)
    (intervalSeconds : num) : cell_class :=
  match result with
  | None => empty
  | Some r =>
      let staleAfter := max (LatencyOverview.offline_after_ms (overview v)) (intervalSeconds * #2500) in
      if negb probeOnline || (now - parse (LatencyResult.received_at r) >? staleAfter) then stale
      else if negb (LatencyResult.success r) then failed
      else if (LatencyResult.loss_percent r >? #0) || (LatencyResult.latency_ms r >=? #180) then critical
      else if LatencyResult.latency_ms r >=? #80 then warning
      else healthy
  end.

Definition targetLabel (l : AppLocale) (t : LatencyTarget.t) : jsstr :=
  let n := LatencyTarget.node t in
  or_else (PublicNode.region n) (or_else (PublicNode.country_code n) (or_else (PublicNode.group n)
    (text l (js "未设置地区") (js "No location")))).

(** ** Assignments *)

Definition set_overview (o : LatencyOverview.t) (v : view) : view :=
  mkView o (history v) (historySummary v) (selected v) (hours v) (loading v) (historyLoading v) (error v)
    (refreshTimer v) (historyRequestID v) (history_of v) (fresh v) (intervals v).
Definition set_history (h : list LatencyResult.t) (s : LatencyWindowSummary.t) (from : option (path_ * num)) (v : view) : view :=
  mkView (overview v) h s (selected v) (hours v) (loading v) (historyLoading v) (error v)
    (refreshTimer v) (historyRequestID v) from (fresh v) (intervals v).
Definition set_selected (p : option path_) (v : view) : view :=
  mkView (overview v) (history v) (historySummary v) p (hours v) (loading v) (historyLoading v) (error v)
    (refreshTimer v) (historyRequestID v) (history_of v) (fresh v) (intervals v).
Definition set_hours (x : num) (v : view) : view :=
  mkView (overview v) (history v) (historySummary v) (selected v) x (loading v) (historyLoading v) (error v)
    (refreshTimer v) (historyRequestID v) (history_of v) (fresh v) (intervals v).
Definition set_flags (loading historyLoading : bool) (e : jsstr) (v : view) : view :=
  mkView (overview v) (history v) (historySummary v) (selected v) (hours v) loading historyLoading e
    (refreshTimer v) (historyRequestID v) (history_of v) (fresh v) (intervals v).
Definition set_loading (b : bool) (v : view) : view := set_flags b (historyLoading v) (error v) v.
Definition set_historyLoading (b : bool) (v : view) : view := set_flags (loading v) b (error v) v.
Definition set_error (e : jsstr) (v : view) : view := set_flags (loading v) (historyLoading v) e v.
Definition next_request (v : view) : view :=
  mkView (overview v) (history v) (historySummary v) (selected v) (hours v) (loading v) (historyLoading v) (error v)
    (refreshTimer v) (S (historyRequestID v)) (history_of v) (fresh v) (intervals v).
Definition set_timer (timer fresh : nat) (running : gset nat) (v : view) : view :=
  mkView (overview v) (history v) (historySummary v) (selected v) (hours v) (loading v) (historyLoading v) (error v)
    timer (historyRequestID v) (history_of v) fresh running.

(** [history.value = []; historySummary.value = summarizeLatencyWindow([])]. *)
Definition clear_history (v : view) : view := set_history [] (summarizeLatencyWindow []) None v.

(** ** Programs *)

Inductive Req :=
| GetOverview                              (* GET /api/v1/public/latency *)
| GetHistory (p : path_) (hours : num).    (* GET /api/v1/public/latency/history *)

Definition Resp (r : Req) : Type :=
  match r with
  | GetOverview => LatencyOverview.t
  | GetHistory _ _ => (list LatencyResult.t * option LatencyWindowSummary.t)%type
  end.

Definition M := prog view Req Resp.
Definition send (r : Req) : M (Resp r) := await (One r).

Definition is_current (requestID : nat) (v : view) : bool := Nat.eqb requestID (historyRequestID v).

(** The part of [loadHistory] after the path, the number and the window are
    fixed. *)
Definition fetch_history (l : AppLocale) (path : path_) (requestID : nat) (requestedHours : num) : M unit :=
  finally
    (try_catch
       (let! response := (send (GetHistory path requestedHours) : M (list LatencyResult.t * option LatencyWindowSummary.t)) in
        let! v := get in
        unless (negb (is_current requestID v))
          (modify (fun v => set_error []
             (set_history response.1 (nullish response.2 (summarizeLatencyWindow (map sample_of response.1)))
                (Some (path, requestedHours)) v))))
       (fun reason =>
          let! v := get in
          unless (negb (is_current requestID v))
            (modify (set_error (reason_message reason (text l (js "无法加载链路历史。") (js "Could not load route history.")))))))
    (let! v := get in
     unless (negb (is_current requestID v)) (modify (set_historyLoading false))).

Definition loadHistory (l : AppLocale) : M unit :=
  let! v := get in
  match selected v with
  | None => Ret tt
  | Some path =>
      do! modify next_request;
      let! v := get in
      let requestID := historyRequestID v in
      let requestedHours := hours v in
      do! modify (set_historyLoading true);
      fetch_history l path requestID requestedHours
  end.

(** The selection no longer exists in the new overview. *)
Definition selection_gone (o : LatencyOverview.t) (p : path_) : bool :=
  negb (existsb (fun n => streq (LatencyProbeNode.id n) (probeNodeID p)) (LatencyOverview.probe_nodes o))
  || negb (existsb (fun t => streq (PublicNode.id (LatencyTarget.node t)) (targetNodeID p)) (LatencyOverview.targets o)).

(** The statements of [load] between its two requests. *)
Definition after_overview (o : LatencyOverview.t) (v : view) : view :=
  let v1 := set_error [] (set_overview o v) in
  let v2 := match selected v1 with
            | Some p => if selection_gone o p then clear_history (set_selected None (next_request v1)) else v1
            | None => v1
            end in
  match selected v2, LatencyOverview.latest o with
  | None, first :: _ =>
      set_selected (Some (mkPath (LatencyResult.probe_node_id first) (LatencyResult.target_node_id first))) v2
  | _, _ => v2
  end.

Definition load (l : AppLocale) : M unit :=
  finally
    (try_catch
       (let! o := (send GetOverview : M LatencyOverview.t) in
        do! modify (after_overview o);
        let! v := get in
        match selected v with Some _ => loadHistory l | None => Ret tt end)
       (fun reason =>
          modify (set_error (reason_message reason (text l (js "无法加载延迟数据。") (js "Could not load latency telemetry."))))))
    (modify (set_loading false)).

Definition selectPath (l : AppLocale) (probe target : jsstr) : M unit :=
  do! modify (fun v => clear_history (set_selected (Some (mkPath probe target)) v));
  loadHistory l.

Definition changeWindow (l : AppLocale) (value : num) : M unit :=
  do! modify (fun v => clear_history (set_hours value v));
  loadHistory l.

(** [refreshTimer = window.setInterval(load, 15_000)]. *)
Definition start_timer (v : view) : view :=
  let id := S (fresh v) in set_timer id id ({[id]} ∪ intervals v) v.

Definition mounted (l : AppLocale) : M unit :=
  do! load l;
  modify start_timer.

Definition unmounted : M unit :=
  modify (fun v => set_timer (refreshTimer v) (fresh v) (intervals v ∖ {[refreshTimer v]}) v).

Definition timer_fires (l : AppLocale) (id : nat) : M unit :=
  let! v := get in unless (negb (bool_decide (id ∈ intervals v))) (load l).

Inductive event : M unit -> Prop :=
| E_mounted l : event (mounted l)
| E_unmounted : event unmounted
| E_timer l id : event (timer_fires l id)
| E_retry l : event (load l)
| E_select l p t : event (selectPath l p t)
| E_window l h : event (changeWindow l h).

(** ** Properties: the history belongs to the selection *)

(** What is drawn was requested for the selected path and window. *)
Definition history_ok (v : view) : Prop :=
  history v = [] \/ exists p, selected v = Some p /\ history_of v = Some (p, hours v).

(** The number of the last request only grows, and as long as it stands the
    selected path and the window stand. *)
Definition request_le (v v' : view) : Prop :=
  (historyRequestID v <= historyRequestID v')%nat /\
  (historyRequestID v = historyRequestID v' -> selected v <> None ->
   selected v' = selected v /\ hours v' = hours v).

#[export] Instance request_le_preorder : PreOrder request_le.
Proof.
  split; [by intros v|]. intros a b c [H1 K1] [H2 K2]. split; [lia|]. intros E Hs.
  destruct K1 as [S1 O1]; [lia|done|]. destruct K2 as [S2 O2]; [lia|congruence|]. split; congruence.
Qed.

(** Writes that touch neither the history nor the selection. *)
Definition neutral (f : view -> view) : Prop := forall v,
  history (f v) = history v /\ history_of (f v) = history_of v /\ selected (f v) = selected v /\
  hours (f v) = hours v /\ historyRequestID (f v) = historyRequestID v.

Lemma neutral_ok f v : neutral f -> history_ok v -> history_ok (f v) /\ request_le v (f v).
Proof.
  intros Hf Hv. destruct (Hf v) as (E1 & E2 & E3 & E4 & E5). unfold history_ok, request_le.
  rewrite E1, E2, E3, E4, E5. done.
Qed.

Lemma kept_neutral f v0 v : neutral f -> history_ok v -> request_le v0 v -> history_ok (f v) /\ request_le v0 (f v).
Proof. intros Hf Hv Hle. destruct (neutral_ok f v Hf Hv). split; [done|by transitivity v]. Qed.

Lemma good_neutral f : neutral f -> good history_ok request_le (modify f : M unit).
Proof. intros Hf. apply good_modify; [apply _|]. intros v. by apply neutral_ok. Qed.

#[local] Hint Extern 1 (good _ _ (modify _)) => by apply good_neutral : good_db.

(** A write under the test that the request is the current one: the path and
    window of the request are those of the state. *)
Lemma fetch_history_keeps l path id h v :
  selected v = Some path -> hours v = h -> historyRequestID v = id ->
  forall v0, history_ok v -> request_le v0 v -> keeps history_ok request_le (fetch_history l path id h) v0 v.
Proof.
  intros Hs Hh Hid v0 Hv Hle. cbn. split_and!; [done..|]. intros res v' Hv' [Hid' Hcur].
  assert (Hc : is_current id v' = true -> selected v' = Some path /\ hours v' = h).
  { intros E%Nat.eqb_eq. destruct Hcur; [lia|congruence|]. split; congruence. }
  destruct res as [[points summary]|e]; cbn; destruct (is_current id v') eqn:E; cbn;
    rewrite ?E; cbn; unfold is_current in E |- *; cbn; rewrite ?E; cbn; split; try done.
  - right. exists path. destruct (Hc eq_refl) as [Hp Hq]. cbn. by rewrite Hp, Hq.
Qed.

(** [loadHistory] may start in the middle of a segment that has changed the
    selection or the window: it takes a new number first. *)
Lemma loadHistory_keeps l v0 v : history_ok v -> (historyRequestID v0 <= historyRequestID v)%nat ->
  (selected v = None -> request_le v0 v) -> keeps history_ok request_le (loadHistory l) v0 v.
Proof.
  intros Hv Hid Hn. unfold keeps, loadHistory. cbn [bind get holds].
  destruct (selected v) as [path|] eqn:E; [|split; [done|by apply Hn]].
  change (keeps history_ok request_le (fetch_history l path (S (historyRequestID v)) (hours v)) v0
    (set_historyLoading true (next_request v))).
  apply fetch_history_keeps; try done. split; cbn; [lia|]. intros. lia.
Qed.

Lemma good_loadHistory l : good history_ok request_le (loadHistory l).
Proof. intros v0 v Hv Hle. apply loadHistory_keeps; [done|by destruct Hle|done]. Qed.

#[local] Hint Resolve good_loadHistory : good_db.

(** After the overview: either the number, the selection and the window stand,
    or the history is cleared. *)
Lemma after_overview_cases o v : history_ok v ->
  let v' := after_overview o v in
  history_ok v' /\ (historyRequestID v <= historyRequestID v')%nat /\ (selected v' = None -> request_le v v') /\
  (selected v <> None -> historyRequestID v' = historyRequestID v -> selected v' = selected v /\ hours v' = hours v).
Proof.
  intros Hv. unfold after_overview. cbn. destruct (selected v) as [p|] eqn:E; cbn.
  - destruct (selection_gone o p); cbn.
    + destruct (LatencyOverview.latest o) as [|first rest]; cbn; split_and!; try (by left); try lia; try done.
      intros _. split; cbn; [lia|]. intros; lia.
    + rewrite E. cbn. by split_and!.
  - rewrite E. destruct (LatencyOverview.latest o) as [|first rest]; cbn.
    + by split_and!.
    + split_and!; try done. destruct Hv as [Hv|(q & Hq & _)]; [by left|congruence].
Qed.

Lemma neutral_loading b : neutral (set_loading b).
Proof. by intros v. Qed.

Lemma neutral_error e b : neutral (fun v => set_loading b (set_error e v)).
Proof. by intros v. Qed.

Lemma load_keeps l v0 v : history_ok v -> request_le v0 v -> keeps history_ok request_le (load l) v0 v.
Proof.
  intros Hv Hle. unfold keeps, load. apply holds_finally, holds_try_catch, holds_bind.
  cbn [send await holds]. split_and!; [done..|]. intros [o|e] v' Hv' Hle'; cbn [holds].
  2: { exact (kept_neutral _ v' v' (neutral_error _ false) Hv' (reflexivity v')). }
  apply holds_bind. cbn [modify holds]. destruct (after_overview_cases o v' Hv') as (H1 & H2 & H3 & _).
  apply holds_bind. cbn [get holds]. set (w := after_overview o v') in *.
  destruct (selected w) as [p|] eqn:E.
  - eapply holds_mono; [|apply (loadHistory_keeps l v' w); [done|done|by rewrite E]]. intros [a|e] s0 s [HI HR].
    + exact (kept_neutral _ s0 s (neutral_loading false) HI HR).
    + exact (kept_neutral _ s0 s (neutral_error _ false) HI HR).
  - exact (kept_neutral _ v' w (neutral_loading false) H1 (H3 eq_refl)).
Qed.

Lemma latency_good_load l : good history_ok request_le (load l).
Proof. intros v0 v. apply load_keeps. Qed.

#[local] Hint Resolve latency_good_load : good_db.

Lemma latency_event_good p : event p -> good history_ok request_le p.
Proof.
  destruct 1 as [l| |l id|l|l p t|l h].
  - unfold mounted. good_prog.
  - unfold unmounted. good_prog.
  - unfold timer_fires. good_prog.
  - good_prog.
  - intros v0 v Hv [Hid _]. unfold keeps, selectPath. apply holds_bind. cbn [modify holds].
    by apply loadHistory_keeps; [left|..].
  - intros v0 v Hv Hle. unfold keeps, changeWindow. apply holds_bind. cbn [modify holds].
    apply loadHistory_keeps; [by left|by destruct Hle|]. cbn. intros Hn. destruct Hle as [Hid Hcur].
    split; [done|]. cbn. intros E Hs. destruct (Hcur E Hs) as [Hs' _]. congruence.
Qed.

(** C4: whatever the order in which answers arrive (slow ones, failures,
    refreshes, quick clicks on other paths and windows), the history shown is
    empty or was requested for exactly the selected path and the selected
    window. *)
Theorem history_matches_selection c : reachable event init c -> history_ok (store c).
Proof.
  intros Hr. apply (rely_guarantee history_ok request_le event init c); [| |done].
  - intros p Hp. apply good_keeps; [apply _|by apply latency_event_good].
  - by left.
Qed.

(** A path, and answers that depend on the window. *)
Definition a_result (p t at_ : jsstr) : LatencyResult.t := LatencyResult.mk p t (#1) at_ at_ true (#5) (#0) None.

Definition lab : forall r, Resp r + exn := fun r =>
  match r with
  | GetOverview => inl (LatencyOverview.mk [] [] [a_result (js "p") (js "t") []] (#90000))
  | GetHistory p h => inl ([a_result (probeNodeID p) (targetNodeID p) (toString h)], None)
  end.

Lemma history_matches_selection_witness :
  history_ok (store (answer_at lab 0 (spawn (selectPath en_US (js "p") (js "t")) (Config init [])))) /\
  history (store (answer_at lab 0 (spawn (selectPath en_US (js "p") (js "t")) (Config init [])))) <> [].
Proof.
  split; [|vm_compute; discriminate]. apply history_matches_selection.
  eapply rtc_l; [apply Starts; exact (E_select en_US (js "p") (js "t"))|].
  eapply rtc_l; [apply (answer_at_step _ lab 0); eexists; reflexivity | apply rtc_refl].
Defined.

(** Leaving the latency page before its first load has been answered leaves
    its 15-second refresh running: the interval is created after the unmount
    hook has cleared the (not yet set) timer, and nothing clears it later. *)
Theorem latency_timer_leaks l :
  let left := spawn unmounted (spawn (mounted l) (Config init [])) in
  let late := answer_at lab 0 (answer_at lab 0 left) in
  reachable event init late /\ intervals (store left) = ∅ /\
  refreshTimer (store late) ∈ intervals (store late).
Proof.
  intros left late. split_and!.
  - assert (Hl : reachable event init left).
    { eapply rtc_l; [apply Starts, E_mounted|]. eapply rtc_l; [apply Starts, E_unmounted|apply rtc_refl]. }
    assert (T0 : is_Some (tasks left !! 0%nat)) by (eexists; reflexivity).
    assert (Hlen : length (tasks (answer_at lab 0 left)) = 1%nat) by (vm_compute; reflexivity).
    unfold late. clearbody left. apply (rtc_r _ (answer_at lab 0 left)).
    + apply (rtc_r _ left); [exact Hl|by apply answer_at_step].
    + apply answer_at_step, lookup_lt_is_Some. lia.
  - vm_compute. reflexivity.
  - apply (bool_decide_unpack _). vm_compute. exact Logic.I.
Qed.

(** ** Properties: the cells *)

Definition no_colon (s : jsstr) : bool := forallb (fun c => negb (N.eqb c 58)) s.

Lemma key_inj a b c d : no_colon a = true -> no_colon c = true -> key a b = key c d -> a = c /\ b = d.
Proof.
  unfold key. change (js ":") with [58%N]. revert c. induction a as [|x a IH]; intros [|y c] Ha Hc H; cbn in *.
  - by injection H.
  - apply andb_true_iff in Hc as [Hy _]. injection H as <- _. done.
  - apply andb_true_iff in Ha as [Hx _]. injection H as -> _. done.
  - apply andb_true_iff in Ha as [_ Ha], Hc as [_ Hc]. injection H as -> H. destruct (IH c Ha Hc H) as [-> ->]. done.
Qed.

(** With probe ids free of colons (the separator of the keys), the cell of a
    probe and a target shows a result of exactly that probe and that target, and
    it is empty only if there is none. *)
Theorem cell_exact v p t : no_colon p = true ->
  Forall (fun r => no_colon (LatencyResult.probe_node_id r) = true) (LatencyOverview.latest (overview v)) ->
  match cell v p t with
  | Some r => r ∈ LatencyOverview.latest (overview v) /\ LatencyResult.probe_node_id r = p /\ LatencyResult.target_node_id r = t
  | None => forall r, r ∈ LatencyOverview.latest (overview v) ->
              ~ (LatencyResult.probe_node_id r = p /\ LatencyResult.target_node_id r = t)
  end.
Proof.
  intros Hp Hall. unfold cell. destruct (List.find _ _) as [r|] eqn:E.
  - apply find_some in E as [Hin Hk]. apply streq_eq in Hk. apply in_rev, list_elem_of_In in Hin. split; [done|].
    apply key_inj in Hk; [done| |done]. by apply (proj1 (Forall_forall _ _) Hall).
  - intros r Hr [<- <-]. assert (Hin : In r (rev (LatencyOverview.latest (overview v)))).
    { apply in_rev. rewrite rev_involutive. by apply list_elem_of_In. }
    pose proof (find_none _ _ E r Hin) as Hk. cbn in Hk. by rewrite streq_refl in Hk.
Qed.

Lemma cell_exact_witness :
  let v := set_overview (LatencyOverview.mk [] [] [a_result (js "p") (js "t") []; a_result (js "q") (js "t") []] (#90000)) init in
  cell v (js "q") (js "t") = Some (a_result (js "q") (js "t") []) /\
  LatencyResult.probe_node_id (a_result (js "q") (js "t") []) = js "q".
Proof.
  split; [vm_compute; reflexivity|].
  apply (cell_exact (set_overview (LatencyOverview.mk [] [] [a_result (js "p") (js "t") []; a_result (js "q") (js "t") []] (#90000)) init)
    (js "q") (js "t")); [reflexivity | repeat constructor].
Defined.
