(* ===== verification/NodeView.v ===== *)
(** * NodeView: the detail page of a node, public or shared
    (web/src/views/NodeView.vue, views/ShareView.vue)

    The computed figures and charts are functions; [load], [changeWindow], the
    socket and the timers are programs of [Async].  [history_hours] is a ghost:
    the window the shown history was requested for. *)

From Stdlib Require Import Strings.String.
From stdpp Require Import sorting.
From S2P Require Import Prelude JsString Binary64 JsNumber JsInteger JsDate Async I18n Traffic Types Format Monitor.

Open Scope Z_scope.
Open Scope num_scope.
Open Scope async_scope.

(** ** Figures *)

Definition metric_of {A} (s : option NodeSnapshot.t) (f : MetricSample.t -> A) : option A :=
  x ← s; f <$> NodeSnapshot.metric x.

Definition memoryPercent (s : option NodeSnapshot.t) : num :=
  percent (metric_of s MetricSample.memory_used) (metric_of s MetricSample.memory_total).
Definition diskPercent (s : option NodeSnapshot.t) : num :=
  percent (metric_of s MetricSample.disk_used) (metric_of s MetricSample.disk_total).

(** A series of a chart: name, values, colour. *)
Record series := mkSeries { s_name : jsstr; s_values : list (option num); s_color : jsstr }.

Definition resourceSeries (l : AppLocale) (h : list MetricSample.t) : list series := [
  mkSeries (js "CPU") (map (fun m => Some (MetricSample.cpu m)) h) (js "#65d5c5");
  mkSeries (text l (js "内存") (js "MEM"))
    (map (fun m => Some (percent (Some (MetricSample.memory_used m)) (Some (MetricSample.memory_total m)))) h) (js "#d8b34f");
  mkSeries (text l (js "磁盘") (js "DISK"))
    (map (fun m => Some (percent (Some (MetricSample.disk_used m)) (Some (MetricSample.disk_total m)))) h) (js "#7c91ff")].

Definition networkSeries (l : AppLocale) (h : list MetricSample.t) : list series := [
  mkSeries (text l (js "下载") (js "DOWN")) (map (fun m => Some (MetricSample.net_rx_bps m / #1024 / #1024)) h) (js "#65d5c5");
  mkSeries (text l (js "上传") (js "UP")) (map (fun m => Some (MetricSample.net_tx_bps m / #1024 / #1024)) h) (js "#db7b5b")].

Definition trafficUsed (s : option NodeSnapshot.t) : num :=
  trafficUsage (metric_of s MetricSample.monthly_rx_bytes ≫= id) (metric_of s MetricSample.monthly_tx_bytes ≫= id)
    ((fun x => PublicNode.traffic_limit_type (NodeSnapshot.node x)) <$> s).

Definition trafficPercent (s : option NodeSnapshot.t) : num :=
  trafficUtilization (trafficUsed s) ((fun x => PublicNode.traffic_limit (NodeSnapshot.node x)) <$> s).

Definition trafficTone (s : option NodeSnapshot.t) : UsageBar.tone_ :=
  if trafficPercent s >=? #100 then UsageBar.critical
  else if trafficPercent s >=? #85 then UsageBar.warning else UsageBar.normal.

(** ** Probes *)

Definition latestProbe (results : list ProbeResult.t) : option ProbeResult.t := last results.

Definition probeAvailability (results : list ProbeResult.t) : num :=
  match results with
  | [] => #0
  | _ => of_nat (length (filter (fun r => ProbeResult.success r = true) results)) / of_nat (length results) * #100
  end.

(** [purpose?.split('.')[1] ?? '']. *)
Definition carrierKey (p : option ProbeTask.purpose_) : jsstr :=
  nullish (p ≫= fun p => split (ProbeTask.purpose_str p) (js ".") !! 1%nat) [].

Definition carrierName (l : AppLocale) (p : option ProbeTask.purpose_) : jsstr :=
  match p with
  | Some ProbeTask.carrier_telecom => text l (js "中国电信") (js "China Telecom")
  | Some ProbeTask.carrier_unicom => text l (js "中国联通") (js "China Unicom")
  | Some ProbeTask.carrier_mobile => text l (js "中国移动") (js "China Mobile")
  | _ => text l (js "运营商") (js "Carrier")
  end.

Definition carrierColor (p : option ProbeTask.purpose_) : jsstr :=
  match p with
  | Some ProbeTask.carrier_telecom => js "#5b8ff9"
  | Some ProbeTask.carrier_unicom => js "#e66a6a"
  | _ => js "#5fbd78"
  end.

Definition carrierLoss (p : PublicProbeSnapshot.t) : num :=
  nullish (ProbeResult.loss_percent <$> latestProbe (PublicProbeSnapshot.results p)) (#0).

(** ** The carrier chart *)

Section Chart.
Context `{DateHost}.

Definition timestamp (r : ProbeResult.t) : num :=
  parse (nullish (ProbeResult.received_at r) (ProbeResult.collected_at r)).

Definition bucket (t : num) : num := floor (t / #60000) * #60000.

(** [Set] and [Map] compare keys as [===] does, and NaN with itself. *)
Definition same_key (a b : num) : bool := eqb a b || (isNaN a && isNaN b).

Fixpoint add_key (x : num) (l : list num) : list num :=
  match l with
  | [] => [x]
  | y :: l' => if same_key x y then l else y :: add_key x l'
  end.

Definition buckets (ps : list PublicProbeSnapshot.t) : list num :=
  fold_left (fun acc p =>
    fold_left (fun acc r => if isFinite (timestamp r) then add_key (bucket (timestamp r)) acc else acc)
      (PublicProbeSnapshot.results p) acc) ps [].

(** The comparison [left - right] of finite numbers orders them by value. *)
Definition num_le (a b : num) : Prop := (ival a <= ival b)%Z.
#[export] Instance num_le_dec a b : Decision (num_le a b).
Proof. unfold num_le. apply _. Defined.

Definition timeline (ps : list PublicProbeSnapshot.t) : list num := merge_sort num_le (buckets ps).

(** The [Map] of a probe: the last result of a bucket counts. *)
Definition probe_value (r : ProbeResult.t) : option num :=
  if ProbeResult.success r && (ProbeResult.latency_ms r >=? #0) then Some (toFixed_number (ProbeResult.latency_ms r) 2) else None.

Definition value_at (results : list ProbeResult.t) (t : num) : option num :=
  (List.find (fun r => same_key (bucket (timestamp r)) t) (rev results)) ≫= probe_value.

(** [toLocaleTimeString] is the host's. *)
Definition carrierChart (label : num -> jsstr) (l : AppLocale) (ps : list PublicProbeSnapshot.t) : list jsstr * list series :=
  let line := timeline ps in
  (map label line,
   map (fun p => mkSeries (carrierName l (ProbeTask.purpose (PublicProbeSnapshot.task p)))
                   (map (value_at (PublicProbeSnapshot.results p)) line)
                   (carrierColor (ProbeTask.purpose (PublicProbeSnapshot.task p)))) ps).

End Chart.

(** ** Properties of the figures *)

#[export] Instance num_le_total : Total num_le.
Proof. intros a b. unfold num_le. lia. Qed.
#[export] Instance num_le_trans : Transitive num_le.
Proof. intros a b c. unfold num_le. lia. Qed.

Lemma add_key_elem x l : exists y, y ∈ add_key x l /\ same_key x y = true \/ same_key x x = false.
Proof.
  induction l as [|z l (y & [[Hy Hk]|Hk])]; cbn.
  - destruct (same_key x x) eqn:E; [|exists x; by right]. exists x. left. split; [apply list_elem_of_here|done].
  - destruct (same_key x z) eqn:E; [exists z; left; split; [apply list_elem_of_here|done]|].
    exists y. left. split; [by apply list_elem_of_further|done].
  - exists x. by right.
Qed.

Lemma add_key_mono x y l : y ∈ l -> y ∈ add_key x l.
Proof.
  induction l as [|z l IH]; cbn; [set_solver|]. destruct (same_key x z); [done|].
  rewrite !elem_of_cons. intros [->|Hy]; [by left|right; auto].
Qed.

Lemma same_key_refl x : same_key x x = true.
Proof.
  unfold same_key, eqb, SFeqb. destruct x as [|[]| |s m e]; try done. cbn.
  rewrite Z.compare_refl, Pos.compare_cont_refl. by destruct s.
Qed.

Lemma add_key_has x l : exists y, y ∈ add_key x l /\ same_key x y = true.
Proof. destruct (add_key_elem x l) as (y & [Hy|Hy]); [by exists y|]. by rewrite same_key_refl in Hy. Qed.

(** No key twice. *)
Fixpoint apart (l : list num) : Prop :=
  match l with
  | [] => True
  | x :: l' => Forall (fun y => same_key x y = false) l' /\ apart l'
  end.

Lemma same_key_sym a b : same_key a b = same_key b a.
Proof. unfold same_key. by rewrite eqb_comm, andb_comm. Qed.

Lemma apart_add x l : apart l -> apart (add_key x l).
Proof.
  intros Hl. enough (H : apart (add_key x l) /\ forall y, same_key y x = false -> Forall (fun z => same_key y z = false) l ->
    Forall (fun z => same_key y z = false) (add_key x l)) by tauto.
  induction l as [|z l IH]; cbn; [by repeat constructor|]. destruct Hl as [Hz Hl]. destruct (IH Hl) as [H1 H2].
  destruct (same_key x z) eqn:E; [done|]. cbn. split.
  - split; [|done]. apply H2; [by rewrite same_key_sym|done].
  - intros y Hy Hf. inversion_clear Hf. constructor; auto.
Qed.

Lemma apart_permutation l l' : Permutation l l' -> apart l -> apart l'.
Proof.
  induction 1 as [|x l l' Hp IH|x y l|l l1 l2 H1 IH1 H2 IH2]; cbn; try tauto.
  - intros [Hx Hl]. split; [by rewrite <- Hp|auto].
  - intros [Hy [Hx Hl]]. inversion_clear Hy as [|? ? Hyx Hyl]. split_and!; try done. constructor; [by rewrite same_key_sym|done].
Qed.

(** The last element that satisfies a condition. *)
Lemma find_rev_last {A} (f : A -> bool) before x after : f x = true -> Forall (fun y => f y = false) after ->
  List.find f (rev (before ++ x :: after)) = Some x.
Proof.
  intros Hx Ha. rewrite rev_app_distr. cbn [rev]. rewrite <- app_assoc. cbn [app].
  assert (Hr : Forall (fun y => f y = false) (rev after)) by (by apply Forall_rev).
  induction Hr as [|y l Hy Hl IH]; cbn; [by rewrite Hx|by rewrite Hy].
Qed.

Lemma find_rev_none {A} (f : A -> bool) l : Forall (fun y => f y = false) l -> List.find f (rev l) = None.
Proof. intros Hl. apply Forall_rev in Hl. induction Hl as [|y l' Hy Hl' IH]; cbn; [done|by rewrite Hy]. Qed.

Section ChartFacts.
Context `{DateHost}.

Definition collect (acc : list num) (r : ProbeResult.t) : list num :=
  if isFinite (timestamp r) then add_key (bucket (timestamp r)) acc else acc.

Lemma collect_mono rs : forall acc y, y ∈ acc -> y ∈ fold_left collect rs acc.
Proof.
  induction rs as [|r rs IH]; intros acc y Hy; [done|]. cbn. apply IH. unfold collect.
  destruct (isFinite _); [by apply add_key_mono|done].
Qed.

Lemma collect_has rs r : r ∈ rs -> isFinite (timestamp r) = true -> forall acc,
  exists y, y ∈ fold_left collect rs acc /\ same_key (bucket (timestamp r)) y = true.
Proof.
  induction rs as [|x rs IH]; intros Hr Hf acc; [by apply not_elem_of_nil in Hr|].
  cbn. apply elem_of_cons in Hr as [<-|Hr]; [|by apply IH].
  unfold collect at 2. rewrite Hf. destruct (add_key_has (bucket (timestamp r)) acc) as (y & Hy & Hk).
  exists y. split; [by apply collect_mono|done].
Qed.

Lemma buckets_mono ps : forall acc y, y ∈ acc ->
  y ∈ fold_left (fun acc p => fold_left collect (PublicProbeSnapshot.results p) acc) ps acc.
Proof. induction ps as [|p ps IH]; intros acc y Hy; [done|]. cbn. by apply IH, collect_mono. Qed.

Lemma buckets_has ps p r : p ∈ ps -> r ∈ PublicProbeSnapshot.results p -> isFinite (timestamp r) = true ->
  exists y, y ∈ buckets ps /\ same_key (bucket (timestamp r)) y = true.
Proof.
  intros Hp Hr Hf. unfold buckets. change (fun acc r => if isFinite (timestamp r) then _ else acc) with collect.
  generalize (@nil num). induction ps as [|q ps IH]; intros acc; [by apply not_elem_of_nil in Hp|]. cbn.
  apply elem_of_cons in Hp as [<-|Hp]; [|by apply IH].
  destruct (collect_has _ r Hr Hf acc) as (y & Hy & Hk). exists y. split; [by apply buckets_mono|done].
Qed.

Lemma collect_apart rs : forall acc, apart acc -> apart (fold_left collect rs acc).
Proof.
  induction rs as [|r rs IH]; intros acc Ha; [done|]. cbn. apply IH. unfold collect. destruct (isFinite _); [by apply apart_add|done].
Qed.

Lemma add_key_inv x l y : y ∈ add_key x l -> y = x \/ y ∈ l.
Proof.
  induction l as [|z l IH]; cbn; [set_solver|]. destruct (same_key x z); [by right|]. rewrite !elem_of_cons.
  intros [->|Hy]; [by right; left|]. destruct (IH Hy); auto.
Qed.

(** A key of the fold is the minute of a dated result, or was there before. *)
Lemma collect_inv rs y : forall acc, y ∈ fold_left collect rs acc ->
  y ∈ acc \/ exists r, r ∈ rs /\ isFinite (timestamp r) = true /\ y = bucket (timestamp r).
Proof.
  induction rs as [|r rs IH]; intros acc Hy; [by left|]. cbn in Hy. destruct (IH _ Hy) as [Hc|(r' & Hr & Hf & He)].
  - unfold collect in Hc. destruct (isFinite (timestamp r)) eqn:E; [|by left]. apply add_key_inv in Hc as [->|Hc]; [|by left].
    right. exists r. split_and!; [apply list_elem_of_here|done|done].
  - right. exists r'. split_and!; [by apply list_elem_of_further|done|done].
Qed.

Lemma buckets_spec ps : apart (buckets ps) /\
  (forall y, y ∈ buckets ps -> exists p r, p ∈ ps /\ r ∈ PublicProbeSnapshot.results p /\ isFinite (timestamp r) = true /\ y = bucket (timestamp r)).
Proof.
  unfold buckets. change (fun acc r => if isFinite (timestamp r) then _ else acc) with collect.
  enough (Hgen : forall ps acc, apart acc -> let l := fold_left (fun acc p => fold_left collect (PublicProbeSnapshot.results p) acc) ps acc in
    apart l /\ (forall y, y ∈ l -> y ∈ acc \/ exists p r, p ∈ ps /\ r ∈ PublicProbeSnapshot.results p /\ isFinite (timestamp r) = true /\ y = bucket (timestamp r))).
  { destruct (Hgen ps [] Logic.I) as [H1 H2]. split; [done|]. intros y Hy. destruct (H2 y Hy) as [Hn|Hp]; [by apply not_elem_of_nil in Hn|done]. }
  clear ps. induction ps as [|p ps IH]; intros acc Ha; cbn; [by split; [|left]|].
  destruct (IH _ (collect_apart (PublicProbeSnapshot.results p) acc Ha)) as [H1 H2]. split; [done|]. intros y Hy.
  destruct (H2 y Hy) as [Hc|(q & r & Hq & Hr)]; [|right; exists q, r; split; [by apply list_elem_of_further|done]].
  destruct (collect_inv _ y acc Hc) as [Hacc|(r & Hr & Hf & He)]; [by left|]. right. exists p, r. split_and!; try done. apply list_elem_of_here.
Qed.

(** C37: the carrier chart shows the measurements, minute by minute.  Its time line
    has, in ascending order and without repetition, exactly the minutes in which
    some probe has a dated result, one label each; there is one series per probe,
    in order, with the name and colour of its carrier and one value per minute:
    the latency, with two decimals, of the last result of that probe in that
    minute, nothing when that result failed or has a negative latency, and nothing
    when the probe has no result in that minute. *)
Theorem carrierChart_aligned label l ps :
  let chart := carrierChart label l ps in
  let time r := parse (match ProbeResult.received_at r with Some at_ => at_ | None => ProbeResult.collected_at r end) in
  let minute r := floor (time r / #60000) * #60000 in
  exists line, chart.1 = map label line /\ StronglySorted num_le line /\ apart line /\
  (forall t, t ∈ line -> exists p r, p ∈ ps /\ r ∈ PublicProbeSnapshot.results p /\ isFinite (time r) = true /\ t = minute r) /\
  (forall p r, p ∈ ps -> r ∈ PublicProbeSnapshot.results p -> isFinite (time r) = true -> exists t, t ∈ line /\ same_key (minute r) t = true) /\
  length chart.2 = length ps /\
  (forall i p, ps !! i = Some p -> exists s, chart.2 !! i = Some s /\
     s_name s = carrierName l (ProbeTask.purpose (PublicProbeSnapshot.task p)) /\
     s_color s = carrierColor (ProbeTask.purpose (PublicProbeSnapshot.task p)) /\ length (s_values s) = length line /\
     forall j t, line !! j = Some t ->
       (forall before r after, PublicProbeSnapshot.results p = (before ++ r :: after)%list -> same_key (minute r) t = true ->
          Forall (fun r' => same_key (minute r') t = false) after ->
          s_values s !! j = Some (if ProbeResult.success r && (ProbeResult.latency_ms r >=? #0)
                                  then Some (toFixed_number (ProbeResult.latency_ms r) 2) else None)) /\
       (Forall (fun r => same_key (minute r) t = false) (PublicProbeSnapshot.results p) -> s_values s !! j = Some None)).
Proof.
  cbn zeta. exists (timeline ps). destruct (buckets_spec ps) as [Ha Hi].
  assert (Hp : Permutation (timeline ps) (buckets ps)) by apply merge_sort_Permutation. split_and!.
  - done.
  - apply StronglySorted_merge_sort; apply _.
  - by apply (apart_permutation (buckets ps)).
  - intros t. rewrite Hp. apply Hi.
  - intros p r H1 H2 H3. destruct (buckets_has ps p r H1 H2 H3) as (y & Hy & Hk). exists y. by rewrite Hp.
  - apply length_map.
  - intros i p Hps. eexists. split; [cbn; by rewrite list_lookup_fmap, Hps|]. cbn. split_and!; [done|done|apply length_map|].
    intros j t Hj. split.
    + intros before r after Hr Hm Hf. rewrite list_lookup_fmap, Hj. cbn. unfold value_at. rewrite Hr.
      by rewrite (find_rev_last (fun r => same_key (bucket (timestamp r)) t)).
    + intros Hf. rewrite list_lookup_fmap, Hj. cbn. unfold value_at.
      by rewrite (find_rev_none (fun r => same_key (bucket (timestamp r)) t)).
Qed.

End ChartFacts.

(** The availability of a probe is a percentage in [0, 100] for any number of
    results, rounding of the quotient and of the product included. *)
Theorem probeAvailability_range results : (Z.of_nat (length results) < 2 ^ 53)%Z ->
  (#0 <=? probeAvailability results) = true /\ (probeAvailability results <=? #100) = true.
Proof.
  intros Hl. destruct results as [|r rs]; [done|]. unfold probeAvailability, of_nat.
  pose proof (length_filter (fun r => ProbeResult.success r = true) (r :: rs)).
  apply ratio_percent; [lia|]. cbn in *. lia.
Qed.

Definition a_probe_result (ok : bool) : ProbeResult.t := ProbeResult.mk None (#1) [] None ok (#3) (#0) None None None.

Lemma probeAvailability_range_witness :
  (probeAvailability [a_probe_result true; a_probe_result false; a_probe_result true] <=? #100) = true.
Proof. apply (probeAvailability_range [a_probe_result true; a_probe_result false; a_probe_result true]). cbn. lia. Defined.

(** ** The page as a machine *)

Record view := mkView {
  snapshot : option NodeSnapshot.t;
  history : list MetricSample.t;
  probes : list PublicProbeSnapshot.t;
  carrierProbes : list PublicProbeSnapshot.t;
  hours : num;
  loading : bool;
  error : jsstr;
  socket : option nat;
  refreshTimer : nat;
  presenceTimer : nat;
  offlineAfterMS : num;
  history_hours : option num;
  (** The browser: the last number given out, the clock, live sockets and
      running intervals. *)
  fresh : nat;
  now : num;
  open_sockets : gset nat;
  intervals : gset nat;
}.

(** The parameters of the route: the node and, on a shared page, the token. *)
Record params := mkParams { nodeID : jsstr; shareToken : option jsstr }.

Definition init (t : num) : view :=
  mkView None [] [] [] (#24) true [] None 0 0 (#90000) None 0 t ∅ ∅.

Definition set_data (s : option NodeSnapshot.t) (h : list MetricSample.t) (p c : list PublicProbeSnapshot.t) (from : option num) (v : view) : view :=
  mkView s h p c (hours v) (loading v) (error v) (socket v) (refreshTimer v) (presenceTimer v) (offlineAfterMS v)
    from (fresh v) (now v) (open_sockets v) (intervals v).
Definition set_snapshot (s : option NodeSnapshot.t) (v : view) : view :=
  set_data s (history v) (probes v) (carrierProbes v) (history_hours v) v.
Definition set_status (h : num) (l : bool) (e : jsstr) (v : view) : view :=
  mkView (snapshot v) (history v) (probes v) (carrierProbes v) h l e (socket v) (refreshTimer v) (presenceTimer v)
    (offlineAfterMS v) (history_hours v) (fresh v) (now v) (open_sockets v) (intervals v).
Definition set_loading (b : bool) (v : view) : view := set_status (hours v) b (error v) v.
Definition set_error (e : jsstr) (v : view) : view := set_status (hours v) (loading v) e v.
Definition set_hours (h : num) (v : view) : view := set_status h (loading v) (error v) v.
Definition set_threshold (t : num) (v : view) : view :=
  mkView (snapshot v) (history v) (probes v) (carrierProbes v) (hours v) (loading v) (error v) (socket v)
    (refreshTimer v) (presenceTimer v) t (history_hours v) (fresh v) (now v) (open_sockets v) (intervals v).
Definition set_live (s : option nat) (rt pt fr : nat) (os is_ : gset nat) (v : view) : view :=
  mkView (snapshot v) (history v) (probes v) (carrierProbes v) (hours v) (loading v) (error v) s rt pt
    (offlineAfterMS v) (history_hours v) fr (now v) os is_.

(** ** Requests: a failed probe request answers with no probes *)

Inductive Req :=
| GetShare (token : jsstr)                              (* /public/share/{token} *)
| GetNode (id : jsstr)                                  (* /public/nodes/{id} *)
| GetHistory (token : option jsstr) (id : jsstr) (hours : num)
| GetProbes (carrier : bool) (id : jsstr) (hours : num).

Definition Resp (r : Req) : Type :=
  match r with
  | GetShare _ => list NodeSnapshot.t
  | GetNode _ => NodeSnapshot.t
  | GetHistory _ _ _ => list MetricSample.t
  | GetProbes _ _ _ => (list PublicProbeSnapshot.t + exn)%type
  end.

Definition M := prog view Req Resp.

(** [.catch(() => ({ data: [] }))]. *)
Definition caught (r : list PublicProbeSnapshot.t + exn) : list PublicProbeSnapshot.t :=
  match r with inl l => l | inr _ => [] end.

Definition find_node (id : jsstr) (l : list NodeSnapshot.t) : option NodeSnapshot.t :=
  List.find (fun x => streq (NodeSnapshot.id x) id) l.

(** [Promise.all]: the node (or nothing), the history, the probes. *)
Definition gather (p : params) (h : num)
  : M (option NodeSnapshot.t * list MetricSample.t * list PublicProbeSnapshot.t * list PublicProbeSnapshot.t) :=
  match shareToken p with
  | Some (c :: token) =>
      let! r := (await (All2 (One (GetShare (c :: token))) (One (GetHistory (Some (c :: token)) (nodeID p) h)))
                 : M (list NodeSnapshot.t * list MetricSample.t)) in
      Ret (find_node (nodeID p) r.1, r.2, [], [])
  | _ =>
      let! r := (await (All2 (One (GetNode (nodeID p))) (All2 (One (GetHistory None (nodeID p) h))
                   (All2 (One (GetProbes false (nodeID p) h)) (One (GetProbes true (nodeID p) h)))))
                 : M (NodeSnapshot.t * (list MetricSample.t * ((list PublicProbeSnapshot.t + exn) * (list PublicProbeSnapshot.t + exn))))) in
      Ret (Some r.1, r.2.1, caught r.2.2.1, caught r.2.2.2)
  end.

Definition load (l : AppLocale) (p : params) : M unit :=
  do! modify (fun v => set_error [] (set_loading true v));
  finally
    (try_catch
       (let! v := get in
        let h := hours v in
        let! r := gather p h in
        let '(node, points, probeData, carrierData) := r in
        match node with
        | None => Throw (OtherError (text l (js "此分享链接不包含该节点。") (js "Node is not included in this share link.")))
        | Some n => modify (set_data (Some n) points probeData carrierData (Some h))
        end)
       (fun reason => modify (set_error (reason_message reason (text l (js "无法加载节点。") (js "Could not load node."))))))
    (modify (set_loading false)).

Definition changeWindow (l : AppLocale) (p : params) (value : num) : M unit :=
  do! modify (set_hours value);
  load l p.

(** The rest of [onMounted]: the socket and the two intervals. *)
Definition go_live (v : view) : view :=
  let s := S (fresh v) in let r := S s in let q := S r in
  set_live (Some s) r q q ({[s]} ∪ open_sockets v) ({[r]} ∪ ({[q]} ∪ intervals v)) v.

Definition mounted (l : AppLocale) (p : params) : M unit :=
  do! load l p;
  modify go_live.

Definition unmounted : M unit :=
  modify (fun v => set_live (socket v) (refreshTimer v) (presenceTimer v) (fresh v)
    (match socket v with Some s => open_sockets v ∖ {[s]} | None => open_sockets v end)
    ((intervals v ∖ {[refreshTimer v]}) ∖ {[presenceTimer v]}) v).

Section Live.
Context `{DateHost}.

(** [socket.onmessage]: the two tests, in order. *)
Definition on_update (p : params) (m : message) (v : view) : view :=
  let v1 := if streq (type m) (js "snapshot")
            then match new_threshold m with Some t => set_threshold t v | None => v end else v in
  match node_id m, sample m, snapshot v1 with
  | Some id, Some x, Some n =>
      if streq (type m) (js "sample") && streq id (nodeID p)
      then set_snapshot (Some (NodeSnapshot.set_online (NodeSnapshot.set_metric n x) true)) v1 else v1
  | _, _, _ => v1
  end.

Definition presence_tick (v : view) : view :=
  match snapshot v with
  | Some n => match NodeSnapshot.metric n with
              | Some m => set_snapshot (Some (NodeSnapshot.set_online n (is_online (now v) m (offlineAfterMS v)))) v
              | None => v
              end
  | None => v
  end.

Definition message_arrives (p : params) (id : nat) (m : message) : M unit :=
  let! v := get in unless (negb (bool_decide (id ∈ open_sockets v))) (modify (on_update p m)).

(** An interval fires: the refresh or the presence one. *)
Definition interval_fires (l : AppLocale) (p : params) (id : nat) : M unit :=
  let! v := get in
  unless (negb (bool_decide (id ∈ intervals v)))
    (if Nat.eqb id (refreshTimer v) then load l p
     else if Nat.eqb id (presenceTimer v) then modify presence_tick else Ret tt).

Inductive event (p : params) : M unit -> Prop :=
| E_mounted l : event p (mounted l p)
| E_unmounted : event p unmounted
| E_window l h : event p (changeWindow l p h)
| E_message id m : event p (message_arrives p id m)
| E_interval l id : event p (interval_fires l p id).

End Live.

(** ** Properties of the page *)

(** The requests of a call, in order. *)
Fixpoint requests (c : call Req) : list Req :=
  match c with One r => [r] | All2 a b => (requests a ++ requests b)%list end.

Definition Env := forall r : Req, (Resp r + exn)%type.

(** What the requests of a load amount to. *)
Definition gathered (env : Env) (p : params) (h : num)
  : (option NodeSnapshot.t * list MetricSample.t * list PublicProbeSnapshot.t * list PublicProbeSnapshot.t) + exn :=
  result (exec env (gather p h) (init (#0))).

Lemma exec_gather (env : Env) p h v :
  exec env (gather p h) v = Outcome (calls (exec env (gather p h) (init (#0)))) v (gathered env p h).
Proof.
  unfold gathered, gather. destruct (shareToken p) as [[|c token]|]; cbn;
    repeat match goal with |- context [env ?r] => destruct (env r); cbn end; done.
Qed.

Lemma exec_load (env : Env) l p v :
  let v1 := set_error [] (set_loading true v) in
  exec env (load l p) v
  = Outcome (calls (exec env (gather p (hours v)) (init (#0))))
      (set_loading false
        (match gathered env p (hours v) with
         | inl (Some n, points, pr, ca) => set_data (Some n) points pr ca (Some (hours v)) v1
         | inl (None, _, _, _) => set_error (text l (js "此分享链接不包含该节点。") (js "Node is not included in this share link.")) v1
         | inr e => set_error (reason_message e (text l (js "无法加载节点。") (js "Could not load node."))) v1
         end)) (inl tt).
Proof.
  intros v1. unfold load. rewrite exec_bind. cbn [modify exec result final calls].
  rewrite exec_finally, exec_try_catch, exec_bind. cbn [get exec result final calls].
  rewrite exec_bind. change (hours (set_error [] (set_loading true v))) with (hours v). rewrite exec_gather.
  cbn [result final calls]. fold v1. rewrite ?app_nil_l.
  destruct (gathered env p (hours v)) as [[[[[n|] points] pr] ca]|e]; cbn; by rewrite ?app_nil_r.
Qed.

(** C31: a load of the page replaces the node, its history, its probes and its
    carrier probes together, or leaves all of them as they were and shows why it
    failed; it always ends, with the loading state cleared and the window of the
    history as selected. *)
Theorem NodeView_load_outcome (env : Env) l p v :
  let o := exec env (load l p) v in
  result o = inl tt /\ loading (final o) = false /\ hours (final o) = hours v /\
  match gathered env p (hours v) with
  | inl (Some n, points, pr, ca) =>
      snapshot (final o) = Some n /\ history (final o) = points /\ probes (final o) = pr /\ carrierProbes (final o) = ca /\
      error (final o) = []
  | inl (None, _, _, _) =>
      snapshot (final o) = snapshot v /\ history (final o) = history v /\ probes (final o) = probes v /\
      carrierProbes (final o) = carrierProbes v /\ error (final o) = text l (js "此分享链接不包含该节点。") (js "Node is not included in this share link.")
  | inr e =>
      snapshot (final o) = snapshot v /\ history (final o) = history v /\ probes (final o) = probes v /\
      carrierProbes (final o) = carrierProbes v /\ error (final o) = reason_message e (text l (js "无法加载节点。") (js "Could not load node."))
  end.
Proof.
  cbn zeta. rewrite exec_load. cbn. split_and!; try done;
    destruct (gathered env p (hours v)) as [[[[[n|] points] pr] ca]|e]; done.
Qed.

(** A shared page stays inside its link: loading it asks for the share and
    for the share's history and for nothing else, whatever the server answers,
    and the node shown is one the link contains, with the id of the page. *)
Theorem share_page_scoped (env : Env) l id c token v :
  let p := mkParams id (Some (c :: token)) in
  let o := exec env (load l p) v in
  (calls o ≫= requests) = [GetShare (c :: token); GetHistory (Some (c :: token)) id (hours v)] /\
  (snapshot (final o) = snapshot v \/
   exists nodes n, env (GetShare (c :: token)) = inl nodes /\ n ∈ nodes /\ NodeSnapshot.id n = id /\ snapshot (final o) = Some n).
Proof.
  intros p o. unfold o. rewrite exec_load. cbn [calls final]. unfold gathered, gather. cbn.
  destruct (env (GetShare (c :: token))) as [nodes|e]; [|by split; [|left]].
  destruct (env (GetHistory _ _ _)) as [points|e']; [|by split; [|left]]. cbn. split; [done|].
  unfold find_node. destruct (List.find _ nodes) as [n|] eqn:E; [|by left]. right. exists nodes, n.
  apply find_some in E as [Hin Hid]. apply streq_eq in Hid. split_and!; try done. by apply list_elem_of_In.
Qed.

(** ** Properties: answers out of order *)

(** A server whose history names the window it was asked for. *)
Definition clocked : Env := fun r =>
  match r with
  | GetShare _ => inl []
  | GetNode id => inl (a_node id)
  | GetHistory _ _ h => inl [a_sample (toString h)]
  | GetProbes _ _ _ => inl (inl [])
  end.

(** Unlike the latency page, the node page does not discard late answers: a
    user who switches from 24 hours to one hour while the first load is under
    way, and whose second request is answered first, ends up with the one-hour
    window selected and the 24-hour history shown. *)
Theorem NodeView_stale_history `{DateHost} l id t :
  let p := mkParams id None in
  let c0 := spawn (changeWindow l p (#1)) (spawn (mounted l p) (Config (init t) [])) in
  let c1 := answer_at clocked 1 c0 in
  let c2 := answer_at clocked 0 c1 in
  reachable (event p) (init t) c2 /\
  (hours (Async.store c1) = #1 /\ history_hours (Async.store c1) = Some (#1)) /\
  (hours (Async.store c2) = #1 /\ history_hours (Async.store c2) = Some (#24) /\ history (Async.store c2) = [a_sample (toString (#24))]) /\
  tasks c2 = [].
Proof.
  intros p c0 c1 c2. split_and!; try (vm_compute; reflexivity).
  assert (H0 : reachable (event p) (init t) c0).
  { eapply rtc_l; [apply Starts, E_mounted|]. eapply rtc_l; [apply Starts, E_window|apply rtc_refl]. }
  assert (T0 : length (tasks c0) = 2%nat) by (vm_compute; reflexivity).
  assert (T1 : length (tasks c1) = 1%nat) by (vm_compute; reflexivity).
  unfold c2. clearbody c0. apply (rtc_r _ c1); [apply (rtc_r _ c0)|].
  - exact H0.
  - apply answer_at_step, lookup_lt_is_Some. lia.
  - apply answer_at_step, lookup_lt_is_Some. lia.
Qed.

(** Leaving the node page before its first load has been answered leaks its
    live connection: the socket and both intervals are created after the unmount
    hook has run and are never released. *)
Theorem NodeView_leaks `{DateHost} l id t :
  let p := mkParams id None in
  let left := spawn unmounted (spawn (mounted l p) (Config (init t) [])) in
  let late := answer_at clocked 0 left in
  reachable (event p) (init t) late /\ open_sockets (Async.store left) = ∅ /\ intervals (Async.store left) = ∅ /\
  (exists s, socket (Async.store late) = Some s /\ s ∈ open_sockets (Async.store late)) /\
  refreshTimer (Async.store late) ∈ intervals (Async.store late) /\ presenceTimer (Async.store late) ∈ intervals (Async.store late) /\
  tasks late = [].
Proof.
  intros p left late. split_and!; try (vm_compute; reflexivity);
    try (apply (bool_decide_unpack _); vm_compute; exact Logic.I).
  - assert (H0 : reachable (event p) (init t) left).
    { eapply rtc_l; [apply Starts, E_mounted|]. eapply rtc_l; [apply Starts, E_unmounted|apply rtc_refl]. }
    assert (T0 : length (tasks left) = 1%nat) by (vm_compute; reflexivity).
    unfold late. clearbody left. apply (rtc_r _ left); [exact H0|]. apply answer_at_step, lookup_lt_is_Some. lia.
  - exists 1%nat. split; [vm_compute; reflexivity|]. apply (bool_decide_unpack _). vm_compute. exact Logic.I.
Qed.
