(* ===== verification/ShareView.v ===== *)
(** * ShareView: the page of a share link (web/src/views/ShareView.vue)

    The list of shared nodes, its load and its live updates. *)

From Stdlib Require Import Strings.String.
From S2P Require Import Prelude JsString Binary64 JsNumber Async I18n Types Monitor.

Open Scope async_scope.

Record view := mkView {
  nodes : list NodeSnapshot.t;
  expiresAt : jsstr;
  error : jsstr;
  socket : option nat;
  (** The browser: the last socket number and the live sockets. *)
  fresh : nat;
  open_sockets : gset nat;
}.

Definition init : view := mkView [] [] [] None 0 ∅.

Inductive Req := GetShare (token : jsstr).
Definition Resp (r : Req) : Type := match r with GetShare _ => (jsstr * list NodeSnapshot.t)%type end.
Definition M := prog view Req Resp.

Definition shared (r : jsstr * list NodeSnapshot.t) (v : view) : view :=
  let id := S (fresh v) in mkView r.2 r.1 (error v) (Some id) id ({[id]} ∪ open_sockets v).

Definition set_error (e : jsstr) (v : view) : view :=
  mkView (nodes v) (expiresAt v) e (socket v) (fresh v) (open_sockets v).

Definition mounted (l : AppLocale) (token : jsstr) : M unit :=
  try_catch
    (let! r := (await (One (GetShare token)) : M (jsstr * list NodeSnapshot.t)) in
     modify (shared r))
    (fun reason => modify (set_error (reason_message reason (text l (js "分享链接不可用。") (js "Share link unavailable."))))).

Definition unmounted : M unit :=
  modify (fun v => mkView (nodes v) (expiresAt v) (error v) (socket v) (fresh v)
    (match socket v with Some s => open_sockets v ∖ {[s]} | None => open_sockets v end)).

(** [apply(id, sample)]: an update makes its node online. *)
Definition apply_ (id : jsstr) (x : MetricSample.t) (l : list NodeSnapshot.t) : list NodeSnapshot.t :=
  update_first id (fun n => NodeSnapshot.set_online (NodeSnapshot.set_metric n x) true) l.

Definition on_update (m : message) (l : list NodeSnapshot.t) : list NodeSnapshot.t :=
  let l1 := match node_id m, sample m with
            | Some (c :: id), Some x => apply_ (c :: id) x l
            | _, _ => l
            end in
  match samples m with
  | Some all => fold_left (fun acc '(id, x) => apply_ id x acc) all l1
  | None => l1
  end.

Definition message_arrives (id : nat) (m : message) : M unit :=
  let! v := get in
  unless (negb (bool_decide (id ∈ open_sockets v)))
    (modify (fun v => mkView (on_update m (nodes v)) (expiresAt v) (error v) (socket v) (fresh v) (open_sockets v))).

Inductive event (token : jsstr) : M unit -> Prop :=
| E_mounted l : event token (mounted l token)
| E_unmounted : event token unmounted
| E_message id m : event token (message_arrives id m).

(** ** Properties *)

Lemma update_first_ids id f l : (forall n, NodeSnapshot.id (f n) = NodeSnapshot.id n) ->
  map NodeSnapshot.id (update_first id f l) = map NodeSnapshot.id l.
Proof.
  intros Hf. induction l as [|n l IH]; [done|]. cbn. destruct (streq _ _); cbn; by rewrite ?Hf, ?IH.
Qed.

Lemma apply_ids id x l : map NodeSnapshot.id (apply_ id x l) = map NodeSnapshot.id l.
Proof. by apply update_first_ids. Qed.

(** Live updates cannot widen a share: whatever a message names, the nodes of
    the page, their number, ids and order, stay those the link was loaded
    with. *)
Theorem share_update_scoped m l : map NodeSnapshot.id (on_update m l) = map NodeSnapshot.id l.
Proof.
  unfold on_update. set (l1 := match node_id m with Some (_ :: _) => _ | _ => l end).
  assert (H1 : map NodeSnapshot.id l1 = map NodeSnapshot.id l).
  { subst l1. destruct (node_id m) as [[|c id]|], (sample m); try done. apply apply_ids. }
  destruct (samples m) as [xs|]; [|done]. clearbody l1. rewrite <- H1. clear H1. revert l1.
  induction xs as [|[id x] xs IH]; intros l1; [done|]. cbn. by rewrite IH, apply_ids.
Qed.
