(* ===== verification/Clone.v ===== *)
(** * Clone: objects with identity, and why edited records can be values
    (web/src/clone.ts)

    The other files of the development take a record for the value of its
    fields.  The editors of the administration rely on [clone] for that: they
    change a copy of a listed record, member by member.  Here objects have
    locations, a reactive record is Vue's proxy of an object, and
    [structuredClone] copies the graph of objects below a value, sharing and
    cycles included, or throws.  The theorems: the copy reads as the original
    at every depth, and whatever is done to either afterwards, the other reads
    as before. *)

From Stdlib Require Import Strings.String.
From stdpp Require Import fin_maps fin_sets infinite.
From S2P Require Import Prelude JsString Binary64 JsNumber.

(** ** Objects *)

Abbreviation loc := nat.

Inductive primitive := PUndefined | PNull | PBool (b : bool) | PNum (n : num) | PStr (s : jsstr).

Inductive value :=
| Prim (v : primitive)
| Ref (l : loc)            (* an object or array *)
| Proxy (l : loc)          (* Vue's reactive proxy of the object *)
| Func.                    (* a function *)

Record object_ := mkObject { is_array : bool; props : list (jsstr * value) }.

Abbreviation heap := (gmap nat object_).

(** ** Copying *)

(** The heap, and the copies made so far: [memory] of the algorithm. *)
Record state := mkState { objects : heap; memory : gmap loc loc }.

Inductive result (A : Type) := Cloned (s : state) (a : A) | DataCloneError | NoFuel.
Arguments Cloned {A}.
Arguments DataCloneError {A}.
Arguments NoFuel {A}.

Section Members.
Context (f : state -> value -> result value).

Fixpoint clone_members (s : state) (l : list (jsstr * value)) : result (list (jsstr * value)) :=
  match l with
  | [] => Cloned s []
  | (k, v) :: l =>
      match f s v with
      | Cloned s v' =>
          match clone_members s l with
          | Cloned s l' => Cloned s ((k, v') :: l')
          | DataCloneError => DataCloneError
          | NoFuel => NoFuel
          end
      | DataCloneError => DataCloneError
      | NoFuel => NoFuel
      end
  end.
End Members.

(** The algorithm of the standard: an object that has a copy is that copy; a new
    copy is remembered before the members are copied. *)
Fixpoint clone_value (fuel : nat) (s : state) (v : value) : result value :=
  match v with
  | Prim p => Cloned s (Prim p)
  | Proxy _ | Func => DataCloneError
  | Ref l =>
      match memory s !! l, objects s !! l with
      | Some l', _ => Cloned s (Ref l')
      | None, None => DataCloneError
      | None, Some o =>
          match fuel with
          | O => NoFuel
          | S fuel =>
              let l' := fresh (dom (objects s)) in
              match clone_members (clone_value fuel) (mkState (<[l' := mkObject (is_array o) []]> (objects s)) (<[l := l']> (memory s))) (props o) with
              | Cloned s members => Cloned (mkState (<[l' := mkObject (is_array o) members]> (objects s)) (memory s)) (Ref l')
              | DataCloneError => DataCloneError
              | NoFuel => NoFuel
              end
          end
      end
  end.

Definition structuredClone (h : heap) (v : value) : result value := clone_value (size h) (mkState h ∅) v.

Section Clone.
(** Vue's [toRaw]. *)
Context (toRaw : value -> value).

Definition clone (h : heap) (v : value) : result value := structuredClone h (toRaw v).
End Clone.

(** ** Reading *)

(** What a program sees of a value down to a depth; a member of a proxy is seen
    through a proxy, which makes no difference. *)
Inductive tree := Leaf (v : primitive) | Node (array : bool) (l : list (jsstr * tree)) | Deeper | Opaque.

Fixpoint read (depth : nat) (h : heap) (v : value) : tree :=
  match v with
  | Prim p => Leaf p
  | Func => Opaque
  | Ref l | Proxy l =>
      match depth with
      | O => Deeper
      | S depth => match h !! l with
                   | Some o => Node (is_array o) (map (fun kv => (kv.1, read depth h kv.2)) (props o))
                   | None => Opaque
                   end
      end
  end.

(** ** Regions *)

(** The values of a region: primitive values and its objects. *)
Definition value_in (D : gset loc) (v : value) : Prop :=
  match v with Prim _ => True | Ref l => l ∈ D | Proxy _ | Func => False end.

Definition object_in (D : gset loc) (o : object_) : Prop := Forall (fun kv => value_in D kv.2) (props o).

(** A region of plain data: its objects are there and refer to nothing else. *)
Definition region (h : heap) (D : gset loc) : Prop := forall l, l ∈ D -> exists o, h !! l = Some o /\ object_in D o.

(** What the owner of a region does: it writes its objects, and makes new ones. *)
Inductive owner_step : heap * gset loc -> heap * gset loc -> Prop :=
| Writes h D l o : l ∈ D -> object_in D o -> owner_step (h, D) (<[l := o]> h, D)
| Makes h D l o : h !! l = None -> object_in ({[l]} ∪ D) o -> owner_step (h, D) (<[l := o]> h, {[l]} ∪ D).

(** ** The copy is a copy *)

Definition copied_value (m : gmap loc loc) (v v' : value) : Prop :=
  match v, v' with Prim p, Prim q => p = q | Ref l, Ref l' => m !! l = Some l' | _, _ => False end.

Definition copied_member (m : gmap loc loc) (a b : jsstr * value) : Prop := a.1 = b.1 /\ copied_value m a.2 b.2.

Definition copied_object (m : gmap loc loc) (o o' : object_) : Prop :=
  is_array o = is_array o' /\ Forall2 (copied_member m) (props o) (props o').

Lemma copied_value_mono m m' v v' : m ⊆ m' -> copied_value m v v' -> copied_value m' v v'.
Proof. intros Hm. destruct v, v'; cbn; try done. intros H. by eapply lookup_weaken. Qed.

Lemma copied_members_mono m m' l l' : m ⊆ m' -> Forall2 (copied_member m) l l' -> Forall2 (copied_member m') l l'.
Proof. intros Hm H. eapply Forall2_impl; [done|]. intros a b [Hk Hv]. split; [done|by eapply copied_value_mono]. Qed.

(** In the middle of a copy: [O] are the objects whose members are being copied. *)
Record copying (h : heap) (O : gset loc) (s : state) : Prop := {
  originals : h ⊆ objects s;
  copies_new l l' : memory s !! l = Some l' -> (l' ∉ dom h) /\ is_Some (objects s !! l');
  copies_distinct a b l' : memory s !! a = Some l' -> memory s !! b = Some l' -> a = b;
  copies_done l l' : memory s !! l = Some l' -> l ∉ O ->
    exists o o', h !! l = Some o /\ objects s !! l' = Some o' /\ copied_object (memory s) o o';
}.

Lemma copying_start h : copying h ∅ (mkState h ∅).
Proof. by split. Qed.

(** A new copy of [l]: it is remembered and being filled. *)
Lemma copying_enter h O s l o : copying h O s -> memory s !! l = None -> objects s !! l = Some o -> l ∈ dom h ->
  let l' := fresh (dom (objects s)) in
  copying h ({[l]} ∪ O) (mkState (<[l' := mkObject (is_array o) []]> (objects s)) (<[l := l']> (memory s))).
Proof.
  intros [Ho Hn Hd Hc] Hm Hl Hh l'. assert (Hf : objects s !! l' = None) by (apply not_elem_of_dom, is_fresh). clearbody l'.
  assert (Hnew : l' ∉ dom h).
  { intros [o' Ho']%elem_of_dom. pose proof (lookup_weaken _ _ _ _ Ho' Ho) as Hw. rewrite Hf in Hw. done. }
  split; cbn.
  - etransitivity; [exact Ho|]. by apply insert_subseteq.
  - intros k k' [[<- <-]|[Hk Hk']]%lookup_insert_Some; [by rewrite lookup_insert_eq|].
    destruct (Hn _ _ Hk') as [H1 H2]. split; [done|]. rewrite lookup_insert_ne; [done|]. intros <-. rewrite Hf in H2. by destruct H2.
  - intros a b k [[<- <-]|[Ha Ha']]%lookup_insert_Some [[<- E]|[Hb Hb']]%lookup_insert_Some; [done|..].
    + destruct (Hn _ _ Hb') as [_ H2]. rewrite Hf in H2. by destruct H2.
    + subst k. destruct (Hn _ _ Ha') as [_ H2]. rewrite Hf in H2. by destruct H2.
    + by eapply Hd.
  - intros k k' [[<- <-]|[Hk Hk']]%lookup_insert_Some Hnot; [set_solver|].
    destruct (Hc k k' Hk') as (o1 & o2 & H1 & H2 & H3 & H4); [set_solver|]. exists o1, o2. split_and!; [done| |].
    + rewrite lookup_insert_ne; [done|]. intros <-. congruence.
    + split; [done|]. eapply copied_members_mono; [|done]. by apply insert_subseteq.
Qed.

(** The copy of [l] is filled with copies of its members. *)
Lemma copying_leave h O s l l' o members : copying h ({[l]} ∪ O) s -> memory s !! l = Some l' -> h !! l = Some o ->
  Forall2 (copied_member (memory s)) (props o) members ->
  copying h O (mkState (<[l' := mkObject (is_array o) members]> (objects s)) (memory s)).
Proof.
  intros [Ho Hn Hd Hc] Hm Hl Hf. destruct (Hn _ _ Hm) as [Hnew _]. split; cbn.
  - apply map_subseteq_spec. intros k x Hk. rewrite lookup_insert_ne; [by eapply lookup_weaken|].
    intros ->. apply Hnew. by eapply elem_of_dom_2.
  - intros k k' Hk. destruct (Hn _ _ Hk) as [H1 H2]. split; [done|]. destruct (decide (l' = k')) as [<-|Hne].
    + by rewrite lookup_insert_eq.
    + by rewrite lookup_insert_ne.
  - done.
  - intros k k' Hk Hnot. destruct (decide (k = l)) as [->|Hne].
    + assert (k' = l') as -> by congruence. exists o. eexists. rewrite lookup_insert_eq. by split_and!.
    + destruct (Hc k k' Hk) as (o1 & o2 & H1 & H2 & H3); [set_solver|]. exists o1, o2. split_and!; [done| |done].
      rewrite lookup_insert_ne; [done|]. intros <-. apply Hne. by eapply Hd.
Qed.

(** ** A region of plain data is copied *)

Section Region.
Context (h : heap) (E : gset loc) (plain : region h E).

(** What a copying function promises about the values of the region. *)
Definition copies (f : state -> value -> result value) : Prop := forall O s v s' v',
  copying h O s -> value_in E v -> f s v = Cloned s' v' ->
  copying h O s' /\ memory s ⊆ memory s' /\ copied_value (memory s') v v'.

Lemma clone_members_copies f : copies f -> forall l O s s' l', copying h O s -> Forall (fun kv => value_in E kv.2) l ->
  clone_members f s l = Cloned s' l' ->
  copying h O s' /\ memory s ⊆ memory s' /\ Forall2 (copied_member (memory s')) l l'.
Proof.
  intros Hf. induction l as [|[k v] l IH]; intros O s s' l' Hs Hl; cbn; [by intros [= <- <-]|].
  inversion_clear Hl as [|? ? Hv Hl']. destruct (f s v) as [s1 v1| |] eqn:E1; [|done..].
  destruct (clone_members f s1 l) as [s2 l2| |] eqn:E2; [|done..]. intros [= <- <-].
  destruct (Hf _ _ _ _ _ Hs Hv E1) as (H1 & M1 & V1). destruct (IH _ _ _ _ H1 Hl' E2) as (H2 & M2 & V2).
  split_and!; [done|by etransitivity|]. constructor; [|done]. split; [done|]. by eapply copied_value_mono.
Qed.

(** An object of the region, in the middle of a copy. *)
Lemma still_there O s l : copying h O s -> l ∈ E -> exists o, objects s !! l = Some o /\ h !! l = Some o /\ object_in E o.
Proof. intros Hs Hl. destruct (plain l Hl) as (o & Ho & Hin). exists o. split_and!; [|done..]. eapply lookup_weaken; [done|apply Hs]. Qed.

Lemma clone_value_copies fuel : copies (clone_value fuel).
Proof.
  induction fuel as [|fuel IH]; intros O s v s' v' Hs Hv; destruct v as [p|l| |]; cbn; try done;
    try (intros [= <- <-]; by split_and!);
    destruct (memory s !! l) as [l'|] eqn:El; try (intros [= <- <-]; by split_and!).
  - by destruct (objects s !! l).
  - destruct (still_there O s l Hs Hv) as (o & Eo & Ho & Hin). rewrite Eo.
    destruct (clone_members _ _ _) as [s1 members| |] eqn:Em; [|done..]. intros [= <- <-]. cbn.
    destruct (clone_members_copies _ IH _ _ _ _ _ (copying_enter h O s l o Hs El Eo (elem_of_dom_2 _ _ _ Ho)) Hin Em) as (H1 & M1 & V1).
    cbn in M1. assert (Hl : memory s1 !! l = Some (fresh (dom (objects s)))) by (eapply lookup_weaken; [apply lookup_insert_eq|done]).
    split_and!; [by eapply copying_leave| |done]. etransitivity; [|exact M1]. by apply insert_subseteq.
Qed.

(** The objects of the region without a copy: as many calls are enough. *)
Definition uncopied (s : state) : nat := size (E ∖ dom (memory s)).

Lemma uncopied_mono s s' : memory s ⊆ memory s' -> (uncopied s' <= uncopied s)%nat.
Proof. intros Hm. unfold uncopied. apply subseteq_size. apply (subseteq_dom (D := gset nat)) in Hm. set_solver. Qed.

Lemma uncopied_enter s l l' hp : l ∈ E -> memory s !! l = None -> (uncopied (mkState hp (<[l := l']> (memory s))) < uncopied s)%nat.
Proof.
  intros Hl Hm. unfold uncopied. apply subset_size. apply (not_elem_of_dom (D := gset nat)) in Hm. cbn. rewrite dom_insert_L. split; [set_solver|].
  intros Hs. specialize (Hs l). set_solver.
Qed.

Definition succeeds (bound : nat) (f : state -> value -> result value) : Prop := forall O s v,
  copying h O s -> value_in E v -> (uncopied s <= bound)%nat -> exists s' v', f s v = Cloned s' v'.

Lemma clone_members_succeed bound f : copies f -> succeeds bound f -> forall l O s, copying h O s -> Forall (fun kv => value_in E kv.2) l ->
  (uncopied s <= bound)%nat -> exists s' l', clone_members f s l = Cloned s' l'.
Proof.
  intros Hc Hf. induction l as [|[k v] l IH]; intros O s Hs Hl Hb; cbn; [eauto|].
  inversion_clear Hl as [|? ? Hv Hl']. cbn in Hv. destruct (Hf _ _ _ Hs Hv Hb) as (s1 & v1 & E1). rewrite E1.
  destruct (Hc _ _ _ _ _ Hs Hv E1) as (H1 & M1 & _). destruct (IH O s1 H1 Hl') as (s2 & l2 & ->); [|eauto].
  apply uncopied_mono in M1. lia.
Qed.

Lemma clone_value_succeeds fuel : succeeds fuel (clone_value fuel).
Proof.
  induction fuel as [|fuel IH]; intros O s v Hs Hv Hb; destruct v as [p|l| |]; cbn in *; try done; try (by eauto);
    destruct (memory s !! l) as [l'|] eqn:El; try (by eauto).
  - pose proof (uncopied_enter s l 0%nat (objects s) Hv El). lia.
  - destruct (still_there O s l Hs Hv) as (o & Eo & Ho & Hin). rewrite Eo.
    destruct (clone_members_succeed fuel _ (clone_value_copies fuel) IH _ _ _ (copying_enter h O s l o Hs El Eo (elem_of_dom_2 _ _ _ Ho)) Hin)
      as (s1 & l1 & ->); [|eauto].
    pose proof (uncopied_enter s l (fresh (dom (objects s))) (<[fresh (dom (objects s)) := mkObject (is_array o) []]> (objects s)) Hv El). lia.
Qed.

Lemma region_in_heap : E ⊆ dom h.
Proof. intros l Hl. destruct (plain l Hl) as (o & Ho & _). by apply elem_of_dom_2 in Ho. Qed.

Lemma structuredClone_succeeds v : value_in E v -> exists s v',
  structuredClone h v = Cloned s v' /\ copying h ∅ s /\ copied_value (memory s) v v'.
Proof.
  intros Hv. destruct (clone_value_succeeds (size h) ∅ (mkState h ∅) v (copying_start h) Hv) as (s & v' & Hc).
  - unfold uncopied. cbn. rewrite <- (size_dom (D := gset nat) h). apply subseteq_size. pose proof region_in_heap. set_solver.
  - exists s, v'. destruct (clone_value_copies _ _ _ _ _ _ (copying_start h) Hv Hc) as (H1 & _ & H2). by split_and!.
Qed.

(** *** Reading it *)

Lemma read_region h' : (forall l, l ∈ E -> h' !! l = h !! l) -> forall n v, value_in E v -> read n h' v = read n h v.
Proof.
  intros Ha. induction n as [|n IH]; intros [p|l| |] Hv; cbn in *; try done. rewrite (Ha l Hv).
  destruct (plain l Hv) as (o & -> & Hin). f_equal. apply map_ext_in. intros kv Hkv. f_equal. apply IH.
  unfold object_in in Hin. rewrite Forall_forall in Hin. by apply Hin, list_elem_of_In.
Qed.

End Region.

(** Whoever does not own the region leaves it alone. *)
Lemma region_kept (E D : gset loc) (h1 h2 : heap) D2 : rtc owner_step (h1, D) (h2, D2) -> (forall l, l ∈ E -> is_Some (h1 !! l)) -> E ## D ->
  forall l, l ∈ E -> h2 !! l = h1 !! l.
Proof.
  intros Hr. remember (h1, D) as x eqn:Ex. remember (h2, D2) as y eqn:Ey. revert h1 D Ex.
  induction Hr as [x|x x' y Hs Hr IH]; intros h1 D Ex He Hd l Hl; subst; [by injection Ex as <- <-|].
  inversion Hs as [h0 D0 k o Hk Ho Eq1 Eq2|h0 D0 k o Hk Ho Eq1 Eq2]; subst h0 D0 x'.
  - assert (Hne : forall l, l ∈ E -> k <> l) by set_solver.
    rewrite (IH eq_refl _ _ eq_refl); [by rewrite lookup_insert_ne by auto| |done|done].
    intros l0 Hl0. rewrite lookup_insert_ne by auto. auto.
  - assert (Hne : forall l, l ∈ E -> k <> l) by (intros l0 Hl0 ->; destruct (He l0 Hl0); congruence).
    rewrite (IH eq_refl _ _ eq_refl); [by rewrite lookup_insert_ne by auto| |set_solver|done].
    intros l0 Hl0. rewrite lookup_insert_ne by auto. auto.
Qed.

(** The members of a copy read as the members of its original. *)
Lemma read_copy h s : copying h ∅ s -> forall n v v', copied_value (memory s) v v' -> read n (objects s) v' = read n h v.
Proof.
  intros Hs. induction n as [|n IH]; intros [p|l| |] [q|l'| |] Hv; cbn in *; try done; [by subst..|].
  destruct (copies_done _ _ _ Hs l l' Hv) as (o & o' & -> & -> & Ha & Hm); [set_solver|]. rewrite Ha. f_equal.
  induction Hm as [|[k v] [k' v'] m m' [Hk Hc] Hm IHm]; [done|]. cbn in *. subst k'. by rewrite IHm, (IH v v').
Qed.

(** The copies made by a finished copy. *)
Definition made (s : state) : gset loc := map_img (memory s).

Lemma made_new h s : copying h ∅ s -> made s ## dom h.
Proof. intros Hs l [k Hk]%elem_of_map_img. by destruct (copies_new _ _ _ Hs k l Hk). Qed.

Lemma made_region h s : copying h ∅ s -> region (objects s) (made s).
Proof.
  intros Hs l' [l Hl]%elem_of_map_img. destruct (copies_done _ _ _ Hs l l' Hl) as (o & o' & _ & Ho' & _ & Hm); [set_solver|].
  exists o'. split; [done|]. unfold object_in. clear Ho'.
  induction Hm as [|[k v] [k' v'] m m' [_ Hc] Hm IHm]; constructor; [|done]. cbn in *. destruct v, v'; cbn in *; try done.
  apply elem_of_map_img. eauto.
Qed.

(** C38: an edited record can be taken for a value: [clone] of a reactive record of
    plain data (cycles and shared members included) ends with a copy, never an
    error, although [structuredClone] throws for the proxy itself.  It changes no
    object, and the copy reads as the record at every depth.  The copy's objects
    are its own: whatever is assigned to members of the copy, or of objects made
    for it, any data of before reads as before; and whatever the page does to
    its own data, the copy reads as the record did. *)
Theorem clone_detaches toRaw h E l : (forall l, toRaw (Proxy l) = Ref l) -> region h E -> l ∈ E ->
  structuredClone h (Proxy l) = DataCloneError /\
  exists s copy D, clone toRaw h (Proxy l) = Cloned s (Ref copy) /\ h ⊆ objects s /\
    (forall n, read n (objects s) (Ref copy) = read n h (Ref l)) /\
    copy ∈ D /\ D ## dom h /\ region (objects s) D /\
    (forall h2 D2, rtc owner_step (objects s, D) (h2, D2) ->
       forall F v, region h F -> value_in F v -> forall n, read n h2 v = read n h v) /\
    (forall F h2 F2, F ⊆ dom h -> rtc owner_step (objects s, F) (h2, F2) ->
       forall n, read n h2 (Ref copy) = read n h (Ref l)).
Proof.
  intros Hraw Hr Hl. split; [unfold structuredClone; by destruct (size h)|].
  destruct (structuredClone_succeeds h E Hr (Ref l) Hl) as (s & v' & Hc & Hs & Hv). destruct v' as [|copy| |]; try done.
  pose proof (made_new h s Hs) as Hnew. pose proof (made_region h s Hs) as Hmade. pose proof (originals _ _ _ Hs) as Ho.
  assert (Hin : copy ∈ made s) by (apply elem_of_map_img; eauto). pose proof (fun n => read_copy h s Hs n (Ref l) (Ref copy) Hv) as Hread.
  exists s, copy, (made s). split_and!; [unfold clone; by rewrite Hraw|done|done|done|done|done| |].
  - intros h2 D2 Ht F v HF Hv2 n.  apply (read_region h F HF); [|done].
    intros k Hk. destruct (HF k Hk) as (o & Hok & _). pose proof (lookup_weaken _ _ _ _ Hok Ho) as Hk'.
    pose proof (region_in_heap h F HF) as HFd. rewrite (region_kept F _ _ _ _ Ht); [by rewrite Hok| |set_solver|done].
    intros k0 Hk0. destruct (HF k0 Hk0) as (o0 & Hok0 & _). exists o0. by eapply lookup_weaken.
  - intros F h2 F2 HF Ht n. rewrite <- Hread. apply (read_region (objects s) (made s) Hmade); [|done].
    apply (region_kept (made s) _ _ _ _ Ht); [|set_solver]. intros k Hk. destruct (Hmade k Hk) as (o & Hok & _). eauto.
Qed.

(** A node record whose tags are an array of their own, and which refers to
    itself; its copy is emptied. *)
Definition records : heap :=
  {[ 1%nat := mkObject false [(js "id", Prim (PStr (js "node-1"))); (js "nested", Ref 2); (js "self", Ref 1)];
     2%nat := mkObject false [(js "tags", Ref 3)];
     3%nat := mkObject true [(js "0", Prim (PStr (js "edge")))] ]}.

Lemma clone_detaches_witness :
  let toRaw v := match v with Proxy l => Ref l | v => v end in
  exists s copy, clone toRaw records (Proxy 1) = Cloned s (Ref copy) /\
    read 5 (objects s) (Ref copy) = read 5 records (Ref 1) /\
    read 5 (<[copy := mkObject false []]> (objects s)) (Ref 1) = read 5 records (Ref 1).
Proof.
  intros toRaw. assert (Hr : region records {[1; 2; 3]}%nat).
  { intros l Hl. assert (l = 1 \/ l = 2 \/ l = 3)%nat as [->|[->| ->]] by set_solver;
      (eexists; split; [reflexivity|]; repeat constructor; set_solver). }
  destruct (clone_detaches toRaw records {[1; 2; 3]}%nat 1%nat (fun l => eq_refl) Hr) as (_ & s & copy & D & Hc & _ & Hread & Hin & _ & _ & Hsafe & _);
    [set_solver|].
  exists s, copy. split_and!; [done|apply Hread|].
  apply (Hsafe _ D) with (F := {[1; 2; 3]}%nat); [|done|cbn; set_solver].
  apply rtc_once. constructor; [done|constructor].
Defined.
