(* ===== verification/AdminForms.v ===== *)
(** * AdminForms: idioms the administration forms share

    Lists typed into one line ([split], [trim], [filter(Boolean)] and back with
    [join]), and the lists of records that a form edits: [findIndex] with an
    update or a [push], [map] and [filter] by id. *)

From Stdlib Require Import Strings.String.
From S2P Require Import Prelude JsString Binary64 JsNumber.

(** ** Lists typed into one line *)

(** [s.split(c).map((x) => x.trim()).filter(Boolean)]. *)
Definition items (c : N) (s : jsstr) : list jsstr := List.filter truthy (map trim (split s [c])).

Definition comma : N := 44.
Definition newline : N := 10.

(** An item as [items] returns it. *)
Definition item_ok (c : N) (x : jsstr) : Prop := x <> [] /\ trim x = x /\ c ∉ x.

Lemma startsWith_unit c d s : startsWith (d :: s) [c] = N.eqb c d.
Proof. cbn. destruct s; apply andb_true_r. Qed.

Lemma split_pieces c s : forall acc, c ∉ acc -> Forall (fun x => c ∉ x) (split_go [c] s 0 acc).
Proof.
  induction s as [|d s IH]; intros acc Ha; cbn [split_go].
  - constructor; [|constructor]. intros H. by apply list_elem_of_In, in_rev, list_elem_of_In in H.
  - rewrite startsWith_unit. destruct (N.eqb_spec c d) as [<-|Hd]; cbn.
    + constructor; [|apply IH; set_solver]. intros H. by apply list_elem_of_In, in_rev, list_elem_of_In in H.
    + apply IH. set_solver.
Qed.

Lemma split_piece c w s : forall acc, c ∉ w ->
  split_go [c] (w ++ c :: s)%list 0 acc = ((rev acc ++ w) :: split s [c])%list.
Proof.
  induction w as [|d w IH]; intros acc Hw; cbn [app split_go]; rewrite startsWith_unit.
  - rewrite N.eqb_refl. cbn. by rewrite app_nil_r.
  - destruct (N.eqb_spec c d) as [->|Hd]; [set_solver|]. cbn. rewrite IH by set_solver. cbn. by rewrite <- app_assoc.
Qed.

Lemma split_end c w : forall acc, c ∉ w -> split_go [c] w 0 acc = [(rev acc ++ w)%list].
Proof.
  induction w as [|d w IH]; intros acc Hw; cbn [split_go].
  - by rewrite app_nil_r.
  - rewrite startsWith_unit. destruct (N.eqb_spec c d) as [->|Hd]; [set_solver|]. cbn. rewrite IH by set_solver. cbn. by rewrite <- app_assoc.
Qed.

Lemma trim_subset c s : c ∈ trim s -> c ∈ s.
Proof. destruct (trim_app s) as (w & v & Hs & _ & _). rewrite Hs at 2. set_solver. Qed.

Lemma trimStart_spaces w s : Forall (fun c => isSpace c = true) w -> trimStart (w ++ s) = trimStart s.
Proof. induction 1 as [|c w Hc Hw IH]; [done|]. cbn. by rewrite Hc. Qed.

Lemma trim_spaces w s : Forall (fun c => isSpace c = true) w -> trim (w ++ s) = trim s.
Proof. intros Hw. unfold trim. by rewrite trimStart_spaces. Qed.

Lemma items_ok c s : Forall (item_ok c) (items c s).
Proof.
  unfold items. pose proof (split_pieces c s [] ltac:(set_solver)) as H. unfold split.
  induction H as [|x l Hx Hl IH]; cbn; [constructor|]. destruct (trim x) as [|d t] eqn:E; [done|].
  cbn. constructor; [|done]. split_and!; [done| |].
  - rewrite <- E. apply trim_idem.
  - rewrite <- E. intros H. by apply Hx, trim_subset.
Qed.

(** A separator with padding ([', '], ['\n']) is read back. *)
Lemma items_join c pad l : c ∉ pad -> Forall (fun c => isSpace c = true) pad -> Forall (item_ok c) l ->
  items c (join l (c :: pad)) = l.
Proof.
  intros Hp Hs Hl.
  enough (H : forall w, Forall (fun c => isSpace c = true) w -> c ∉ w -> items c (w ++ join l (c :: pad)) = l).
  { apply (H []); [constructor|set_solver]. }
  induction Hl as [|x l (Hx0 & Hxt & Hxc) Hl IH]; intros w Hw Hwc; unfold items, split.
  - cbn [join]. rewrite split_end by set_solver. cbn [rev app map]. by rewrite trim_spaces.
  - assert (Htx : trim (w ++ x) = x) by (by rewrite trim_spaces).
    destruct l as [|y l].
    + cbn [join]. rewrite split_end by set_solver. cbn [rev app map]. rewrite Htx. by destruct x.
    + cbn [join]. cbn [app]. rewrite app_assoc, split_piece by set_solver. cbn [map List.filter rev app]. rewrite Htx.
      destruct x as [|d x]; [done|]. cbn [truthy]. f_equal. by apply (IH pad).
Qed.

(** A file of the browser. *)
Record File := mkFile { file_name : jsstr; file_size : num; file_id : N }.

(** ** Lists of records edited by id *)

Fixpoint findIndex {A} (p : A -> bool) (l : list A) : option nat :=
  match l with
  | [] => None
  | x :: l' => if p x then Some O else S <$> findIndex p l'
  end.

(** [const i = l.findIndex(p); if (i >= 0) l[i] = saved; else l.push(saved)]. *)
Definition put_or_push {A} (p : A -> bool) (saved : A) (l : list A) : list A :=
  match findIndex p l with
  | Some i => <[i := saved]> l
  | None => (l ++ [saved])%list
  end.

(** [const i = l.findIndex(p); if (i >= 0) l[i] = saved]. *)
Definition put_found {A} (p : A -> bool) (saved : A) (l : list A) : list A :=
  match findIndex p l with
  | Some i => <[i := saved]> l
  | None => l
  end.

Lemma findIndex_some {A} (p : A -> bool) l i : findIndex p l = Some i ->
  exists before x after, l = (before ++ x :: after)%list /\ length before = i /\ p x = true /\
    Forall (fun y => p y = false) before.
Proof.
  revert i. induction l as [|y l IH]; intros i H; [done|]. cbn in H. destruct (p y) eqn:E.
  - injection H as <-. by exists [], y, l.
  - destruct (findIndex p l) as [k|]; [|done]. injection H as <-.
    destruct (IH k eq_refl) as (before & x & after & -> & <- & Hx & Hb).
    exists (y :: before), x, after. split_and!; try done. by constructor.
Qed.

Lemma findIndex_none {A} (p : A -> bool) l : findIndex p l = None -> Forall (fun y => p y = false) l.
Proof.
  induction l as [|y l IH]; [constructor|]. cbn. destruct (p y) eqn:E; [done|].
  destruct (findIndex p l); [done|]. intros _. constructor; auto.
Qed.

(** Either the first match is replaced in place, or there is none and the saved
    record comes last. *)
Lemma put_or_push_spec {A} (p : A -> bool) saved l :
  (exists before x after, l = (before ++ x :: after)%list /\ p x = true /\ Forall (fun y => p y = false) before /\
     put_or_push p saved l = (before ++ saved :: after)%list) \/
  (Forall (fun y => p y = false) l /\ put_or_push p saved l = (l ++ [saved])%list).
Proof.
  unfold put_or_push. destruct (findIndex p l) as [i|] eqn:E.
  - left. apply findIndex_some in E as (before & x & after & -> & <- & Hx & Hb).
    exists before, x, after. split_and!; try done. rewrite insert_app_r_alt by done. by rewrite Nat.sub_diag.
  - right. split; [by apply findIndex_none|done].
Qed.

Lemma existsb_none {A} (p : A -> bool) l : Forall (fun y => p y = false) l -> existsb p l = false.
Proof. induction 1 as [|y l Hy Hl IH]; [done|]. cbn. by rewrite Hy. Qed.

Lemma put_or_push_length {A} (p : A -> bool) saved l :
  length (put_or_push p saved l) = (length l + if existsb p l then 0 else 1)%nat.
Proof.
  destruct (put_or_push_spec p saved l) as [(before & x & after & -> & Hx & Hb & ->)|[Hf ->]].
  - rewrite existsb_app. cbn. rewrite Hx, orb_true_r, !length_app. cbn. lia.
  - rewrite (existsb_none _ _ Hf), length_app. done.
Qed.

(** A number as a condition. *)
Definition truthy_num (x : num) : bool := negb (eqb x (#0) || isNaN x).

(** ** Unique ids *)

Section Unique.
Context {A : Type} (id : A -> num).

(** No two records have equal ids. *)
Fixpoint unique_ids (l : list A) : Prop :=
  match l with
  | [] => True
  | x :: l' => Forall (fun y => eqb (id x) (id y) = false) l' /\ unique_ids l'
  end.

Definition same_id (a b : A) : bool := eqb (id a) (id b).

Lemma unique_ids_app l x : unique_ids l -> Forall (fun y => same_id y x = false) l -> unique_ids (l ++ [x]).
Proof.
  induction l as [|y l IH]; cbn; [by split|]. intros [Hy Hl] Hf. inversion_clear Hf as [|? ? Hyx Hf'].
  split; [|by apply IH]. apply Forall_app. split; [done|]. by constructor.
Qed.

Lemma unique_ids_replace before x after saved : unique_ids (before ++ x :: after) -> same_id x saved = true ->
  unique_ids (before ++ saved :: after).
Proof.
  intros H Hx. induction before as [|y before IH]; cbn in *.
  - destruct H as [Hf Hu]. split; [|done]. eapply Forall_impl; [exact Hf|]. cbn. intros z Hz.
    by rewrite <- (eqb_class _ _ (id z) Hx).
  - destruct H as [Hf Hu]. split; [|by apply IH]. apply Forall_app in Hf as [Hb Ha]. apply Forall_app. split; [done|].
    inversion_clear Ha as [|? ? Hyx Ha']. constructor; [|done]. rewrite eqb_comm.
    rewrite eqb_comm in Hyx. by rewrite <- (eqb_class _ _ (id y) Hx).
Qed.

(** Saving keeps ids unique, and the saved record is in the list. *)
Lemma put_or_push_unique saved l : unique_ids l ->
  unique_ids (put_or_push (fun x => same_id x saved) saved l) /\ saved ∈ put_or_push (fun x => same_id x saved) saved l.
Proof.
  intros Hl. destruct (put_or_push_spec (fun x => same_id x saved) saved l)
    as [(before & x & after & -> & Hx & Hb & ->)|[Hf ->]].
  - split; [by eapply unique_ids_replace|set_solver].
  - split; [by apply unique_ids_app|set_solver].
Qed.

(** Records of other ids are kept. *)
Lemma put_or_push_others saved l y : y ∈ l -> same_id y saved = false ->
  y ∈ put_or_push (fun x => same_id x saved) saved l.
Proof.
  intros Hy Hn. destruct (put_or_push_spec (fun x => same_id x saved) saved l)
    as [(before & x & after & -> & Hx & Hb & ->)|[Hf ->]]; [|set_solver].
  assert (y <> x) by (intros ->; congruence). set_solver.
Qed.

(** Where a saved record goes in a list: in the place of the one with its id, or
    at the end when there is none; nothing else moves. *)
Inductive placed (saved : A) : list A -> list A -> Prop :=
| Replaced before old after :
    Forall (fun x => eqb (id x) (id saved) = false) before -> eqb (id old) (id saved) = true ->
    placed saved (before ++ old :: after) (before ++ saved :: after)
| Appended l : Forall (fun x => eqb (id x) (id saved) = false) l -> placed saved l (l ++ [saved]).

Lemma put_or_push_placed saved l : placed saved l (put_or_push (fun x => same_id x saved) saved l).
Proof.
  destruct (put_or_push_spec (fun x => same_id x saved) saved l) as [(before & x & after & -> & Hx & Hb & ->)|[Hf ->]];
    by constructor.
Qed.

Lemma unique_ids_filter f l : unique_ids l -> unique_ids (List.filter f l).
Proof.
  induction l as [|x l IH]; [done|]. cbn. intros [Hx Hl]. destruct (f x); [|by apply IH]. cbn. split; [|by apply IH].
  apply Forall_forall. intros y Hy. rewrite Forall_forall in Hx. apply Hx.
  apply list_elem_of_In, filter_In in Hy as [Hy _]. by apply list_elem_of_In.
Qed.

End Unique.
