(* ===== verification/AdminBackups.v ===== *)
(** * AdminBackups: encrypted backup and restore
    (web/src/components/admin/AdminBackups.vue)

    The form state, the two guards and the handlers; the wait for the reload is
    the bounded loop of the source. *)

From Stdlib Require Import Strings.String.
From S2P Require Import Prelude JsString Binary64 JsNumber Async I18n Types AdminForms.

Open Scope async_scope.

Module BackupStatus.
Record t := mk {
  driver : jsstr; available : bool; encrypted : bool; format_version : num; pending_restore : bool;
  external_master_key : bool; maximum_bytes : num;
}.
End BackupStatus.

Module RestoreAccepted.
Record t := mk { accepted : bool; restart : jsstr; created_at : jsstr; source_version : jsstr; sessions_revoked : bool }.
End RestoreAccepted.

Inductive busy_ := Idle | Exporting | Importing.

#[export] Instance busy_eq_dec : EqDecision busy_.
Proof. solve_decision. Defined.

Record form := mkForm {
  backupStatus : option BackupStatus.t;
  busy : busy_;
  message : jsstr;
  error : jsstr;
  exportPassword : jsstr;
  exportPassphrase : jsstr;
  exportConfirmation : jsstr;
  importPassword : jsstr;
  importPassphrase : jsstr;
  restoreConfirmation : jsstr;
  backupFile : option File;
  dragging : bool;
  restarting : bool;
  (** The page: files saved by a download link, the location assigned last. *)
  downloads : list jsstr;
  assigned : option jsstr;
}.

(** ** Guards *)

Definition is_available (f : form) : bool :=
  match backupStatus f with Some s => BackupStatus.available s | None => false end.

Definition driverLabel `{Unicode} (f : form) : jsstr :=
  nullish ((fun s => toUpperCase (BackupStatus.driver s)) <$> backupStatus f) (js "—").

Definition canExport (f : form) : bool :=
  is_available f && truthy (exportPassword f) && Nat.leb 12 (length (exportPassphrase f))
  && streq (exportPassphrase f) (exportConfirmation f) && bool_decide (busy f = Idle).

Definition canImport (f : form) : bool :=
  is_available f && bool_decide (is_Some (backupFile f)) && truthy (importPassword f)
  && Nat.leb 12 (length (importPassphrase f)) && streq (restoreConfirmation f) (js "RESTORE")
  && bool_decide (busy f = Idle).

(** ** Assignments *)

Definition set_status (s : option BackupStatus.t) (f : form) : form :=
  mkForm s (busy f) (message f) (error f) (exportPassword f) (exportPassphrase f) (exportConfirmation f)
    (importPassword f) (importPassphrase f) (restoreConfirmation f) (backupFile f) (dragging f) (restarting f)
    (downloads f) (assigned f).
Definition set_lines (b : busy_) (m e : jsstr) (f : form) : form :=
  mkForm (backupStatus f) b m e (exportPassword f) (exportPassphrase f) (exportConfirmation f)
    (importPassword f) (importPassphrase f) (restoreConfirmation f) (backupFile f) (dragging f) (restarting f)
    (downloads f) (assigned f).
Definition set_busy (b : busy_) (f : form) : form := set_lines b (message f) (error f) f.
Definition set_message (m : jsstr) (f : form) : form := set_lines (busy f) m (error f) f.
Definition set_error (e : jsstr) (f : form) : form := set_lines (busy f) (message f) e f.
Definition clear_export (f : form) : form :=
  mkForm (backupStatus f) (busy f) (message f) (error f) [] [] []
    (importPassword f) (importPassphrase f) (restoreConfirmation f) (backupFile f) (dragging f) (restarting f)
    (downloads f) (assigned f).
Definition clear_import (f : form) : form :=
  mkForm (backupStatus f) (busy f) (message f) (error f) (exportPassword f) (exportPassphrase f) (exportConfirmation f)
    [] [] [] (backupFile f) (dragging f) (restarting f) (downloads f) (assigned f).
Definition set_file (x : option File) (d : bool) (f : form) : form :=
  mkForm (backupStatus f) (busy f) (message f) (error f) (exportPassword f) (exportPassphrase f) (exportConfirmation f)
    (importPassword f) (importPassphrase f) (restoreConfirmation f) x d (restarting f) (downloads f) (assigned f).
Definition set_restarting (b : bool) (f : form) : form :=
  mkForm (backupStatus f) (busy f) (message f) (error f) (exportPassword f) (exportPassphrase f) (exportConfirmation f)
    (importPassword f) (importPassphrase f) (restoreConfirmation f) (backupFile f) (dragging f) b (downloads f) (assigned f).
Definition set_page (d : list jsstr) (a : option jsstr) (f : form) : form :=
  mkForm (backupStatus f) (busy f) (message f) (error f) (exportPassword f) (exportPassphrase f) (exportConfirmation f)
    (importPassword f) (importPassphrase f) (restoreConfirmation f) (backupFile f) (dragging f) (restarting f) d a.

(** [selectFile] and [dropFile]: the first file, if any. *)
Definition selectFile (files : list File) (f : form) : form := set_file (head files) (dragging f) f.
Definition dropFile (files : list File) (f : form) : form := set_file (head files) false f.

(** ** Calls *)

Inductive Req :=
| GetStatus                                                        (* GET /api/v1/admin/backups/status *)
| Export (current_password passphrase : jsstr)                     (* POST .../export, a download *)
| Import (current_password passphrase confirmation : jsstr) (f : File) (* POST .../import, a form *)
| Sleep (ms : Z)                                                   (* setTimeout *)
| Readyz.                                                          (* fetch('/readyz') *)

Definition Resp (r : Req) : Type :=
  match r with
  | GetStatus => BackupStatus.t
  | Export _ _ => (N * jsstr)%type     (* blob and file name *)
  | Import _ _ _ _ => RestoreAccepted.t
  | Sleep _ => unit
  | Readyz => bool                     (* response.ok *)
  end.

Definition M := prog form Req Resp.
Definition send (r : Req) : M (Resp r) := await (One r).
Definition Env := forall r : Req, (Resp r + exn)%type.

(** ** Handlers *)

Definition load (l : AppLocale) : M unit :=
  try_catch
    (let! s := (send GetStatus : M BackupStatus.t) in modify (set_status (Some s)))
    (fun reason => modify (set_error (reason_message reason (text l (js "无法加载备份状态。") (js "Backup status could not be loaded."))))).

Definition exported_message (l : AppLocale) (filename : jsstr) : jsstr :=
  text l (js "加密备份已导出为 " ++ filename ++ js "，请单独保存备份口令。")%list
    (js "Encrypted backup exported as " ++ filename ++ js ". Keep its passphrase separately.")%list.

Definition exportBackup (l : AppLocale) : M unit :=
  let! f := get in
  unless (negb (canExport f))
    (do! modify (set_lines Exporting [] []);
     finally
       (try_catch
          (let! download := (send (Export (exportPassword f) (exportPassphrase f)) : M (N * jsstr)) in
           do! modify (fun f => set_page (downloads f ++ [download.2]) (assigned f) f);
           do! modify (set_message (exported_message l download.2));
           modify clear_export)
          (fun reason => modify (set_error (reason_message reason (text l (js "备份导出失败。") (js "Backup export failed."))))))
       (modify (set_busy Idle))).

Definition reload_timeout (l : AppLocale) : jsstr :=
  text l (js "Hostpin 在 60 秒内未恢复，请检查服务日志和恢复前保留文件。")
    (js "Hostpin has not returned after 60 seconds. Inspect the server log and retained pre-restore files.").

(** The [for] loop with [n] attempts left; the [catch] covers the request and
    the navigation. *)
Fixpoint poll (l : AppLocale) (n : nat) : M unit :=
  match n with
  | O => do! modify (set_error (reload_timeout l)); modify (set_restarting false)
  | S n' =>
      let! done_ := try_catch
        (let! up := (send Readyz : M bool) in
         if up then do! modify (fun f => set_page (downloads f) (Some (js "/login?restored=1")) f); Ret true
         else Ret false)
        (fun _ => Ret false) in
      if done_ then Ret tt
      else do! (send (Sleep 500) : M unit); poll l n'
  end.

Definition waitForReload (l : AppLocale) : M unit :=
  do! (send (Sleep 1200) : M unit);
  poll l 120.

Definition restoring_message (l : AppLocale) : jsstr :=
  text l (js "备份验证通过。Hostpin 正在替换数据并重新加载，所有浏览器会话将退出登录。")
    (js "Backup validated. Hostpin is replacing data and reloading; all browser sessions will be signed out.").

Definition importBackup (l : AppLocale) : M unit :=
  let! f := get in
  match backupFile f with
  | None => Ret tt
  | Some file =>
      unless (negb (canImport f))
        (do! modify (set_lines Importing [] []);
         finally
           (try_catch
              (let! r := (send (Import (importPassword f) (importPassphrase f) (restoreConfirmation f) file) : M RestoreAccepted.t) in
               do! modify (set_restarting (RestoreAccepted.accepted r));
               do! modify (set_message (restoring_message l));
               do! modify clear_import;
               waitForReload l)
              (fun reason =>
                 do! modify (set_error (reason_message reason (text l (js "备份导入失败。") (js "Backup import failed."))));
                 modify (set_restarting false)))
           (modify (set_busy Idle)))
  end.

(** ** Properties *)

(** An export is requested only with an available database, an administrator
    password, a passphrase of at least 12 characters entered twice and no
    operation under way; afterwards the form is idle, and the secrets are
    cleared exactly when a file was saved. *)
Theorem exportBackup_guarded (env : Env) l f :
  let o := exec env (exportBackup l) f in
  result o = inl tt /\
  match calls o with
  | [] => final o = f /\ canExport f = false
  | cs => cs = [One (Export (exportPassword f) (exportPassphrase f))] /\ is_available f = true /\
          exportPassword f <> [] /\ (12 <= length (exportPassphrase f))%nat /\ exportPassphrase f = exportConfirmation f /\
          busy f = Idle /\ busy (final o) = Idle /\
          (downloads (final o) = downloads f -> exportPassphrase (final o) = exportPassphrase f) /\
          (downloads (final o) <> downloads f -> exportPassword (final o) = [] /\ exportPassphrase (final o) = [] /\ error (final o) = [])
  end.
Proof.
  cbn zeta. unfold exportBackup. cbn [bind get exec]. destruct (canExport f) eqn:E; [|done].
  unfold canExport in E. rewrite !andb_true_iff in E. destruct E as [[[[Ha Hp] Hl] He] Hb].
  apply bool_decide_eq_true in Hb. apply streq_eq in He. apply Nat.leb_le in Hl.
  assert (Hp' : exportPassword f <> []) by (by destruct (exportPassword f)).
  cbn. destruct (env (Export _ _)) as [[blob filename]|e]; cbn; split_and!; try done.
  intros Hd. exfalso. apply (f_equal length) in Hd. rewrite length_app in Hd. cbn in Hd. lia.
Qed.

(** A server under restart: its answers to the readiness checks, one after the
    other, are a script; timers fire. *)
Definition restarting_server (checks : nat -> bool + exn) (r : Req) (made : nat) : (Resp r + exn) * nat :=
  match r return (Resp r + exn) * nat with
  | Readyz => (checks made, S made)
  | Sleep _ => (inl tt, made)
  | GetStatus | Export _ _ | Import _ _ _ _ => (inr NotAnError, made)
  end.

(** [k] checks, each followed by half a second. *)
Definition rounds (k : nat) : list (call Req) := concat (replicate k [One Readyz; One (Sleep 500)]).

Lemma poll_run checks l n : forall f made,
  let o := exec_in (restarting_server checks) (poll l n) f made in
  got o = inl tt /\
  ((exists k, (k < n)%nat /\ checks (made + k)%nat = inl true /\ (forall i, (i < k)%nat -> checks (made + i)%nat <> inl true) /\
      asked o = (rounds k ++ [One Readyz])%list /\ end_state o = set_page (downloads f) (Some (js "/login?restored=1")) f) \/
   ((forall i, (i < n)%nat -> checks (made + i)%nat <> inl true) /\
      asked o = rounds n /\ end_state o = set_restarting false (set_error (reload_timeout l) f))).
Proof.
  induction n as [|n IH]; intros f made; cbn zeta; [split; [done|right; split_and!; [lia|done..]]|].
  cbn [poll]. rewrite exec_in_bind, exec_in_try_catch, exec_in_bind. cbn [send await exec_in ask_in restarting_server fst snd].
  destruct (checks made) as [[]|e] eqn:E; cbn [exec_in bind modify got asked end_state end_world app].
  - split; [done|]. left. exists O. rewrite Nat.add_0_r. split_and!; [lia|done|lia|done|done].
  - specialize (IH f (S made)). cbn zeta in IH. cbn [exec_in ask_in restarting_server fst snd asked end_state got send bind await app].
    destruct IH as [Hg IH]. split; [done|]. destruct IH as [(k & Hk & Ht & Hf & Ha & He)|(Hf & Ha & He)]; [left; exists (S k)|right].
    + rewrite Nat.add_succ_r. split_and!; [lia|done| |by rewrite Ha|done].
      intros [|i] Hi; [by rewrite Nat.add_0_r, E|]. rewrite Nat.add_succ_r. apply Hf. lia.
    + split_and!; [|by rewrite Ha|done]. intros [|i] Hi; [by rewrite Nat.add_0_r, E|]. rewrite Nat.add_succ_r. apply Hf. lia.
  - specialize (IH f (S made)). cbn zeta in IH. cbn [exec_in ask_in restarting_server fst snd asked end_state got send bind await app].
    destruct IH as [Hg IH]. split; [done|]. destruct IH as [(k & Hk & Ht & Hf & Ha & He)|(Hf & Ha & He)]; [left; exists (S k)|right].
    + rewrite Nat.add_succ_r. split_and!; [lia|done| |by rewrite Ha|done].
      intros [|i] Hi; [by rewrite Nat.add_0_r, E|]. rewrite Nat.add_succ_r. apply Hf. lia.
    + split_and!; [|by rewrite Ha|done]. intros [|i] Hi; [by rewrite Nat.add_0_r, E|]. rewrite Nat.add_succ_r. apply Hf. lia.
Qed.

(** C29: waiting for the server after a restore ends in every case, whatever the
    readiness checks answer, one by one.  After 1.2 seconds the server is checked;
    every check that is refused or fails is followed by half a second and the
    next; the first that succeeds, if it is among the first 120, leads to the
    login page and no other call is made; if none of the 120 succeeds, the error
    is shown and the restart flag cleared.  Nothing else of the form changes. *)
Theorem waitForReload_terminates (checks : nat -> bool + exn) l f :
  let o := exec_in (restarting_server checks) (waitForReload l) f 0%nat in
  let failed_rounds k := concat (replicate k [One Readyz; One (Sleep 500)]) in
  got o = inl tt /\
  ((exists k, (k < 120)%nat /\ checks k = inl true /\ (forall i, (i < k)%nat -> checks i <> inl true) /\
      asked o = (One (Sleep 1200) :: failed_rounds k ++ [One Readyz])%list /\
      end_state o = set_page (downloads f) (Some (js "/login?restored=1")) f) \/
   ((forall i, (i < 120)%nat -> checks i <> inl true) /\
      asked o = (One (Sleep 1200) :: failed_rounds 120%nat)%list /\
      end_state o = set_restarting false (set_error (reload_timeout l) f))).
Proof.
  cbn zeta. unfold waitForReload. rewrite exec_in_bind. cbn [send await exec_in ask_in restarting_server fst snd got asked end_state end_world app].
  destruct (poll_run checks l 120 f 0%nat) as [Hg [(k & Hk & Ht & Hf & Ha & He)|(Hf & Ha & He)]]; split; try done;
    [left; exists k; by rewrite Ha|right; by rewrite Ha].
Qed.

(** The page as it is opened. *)
Definition empty_form : form := mkForm None Idle [] [] [] [] [] [] [] [] None false false [] None.

(** C30: a restore is sent only with an available database, a file, an
    administrator password, a passphrase of at least 12 characters and the word
    RESTORE typed out, while nothing else is under way, and it sends exactly
    these; a rejected restore shows why and leaves the form idle, with the file
    still chosen. *)
Theorem importBackup_guarded (env : Env) l f :
  let o := exec env (importBackup l) f in
  match calls o with
  | [] => final o = f /\ canImport f = false
  | c :: rest => exists file, backupFile f = Some file /\
      c = One (Import (importPassword f) (importPassphrase f) (js "RESTORE") file) /\
      is_available f = true /\ importPassword f <> [] /\ (12 <= length (importPassphrase f))%nat /\ busy f = Idle /\
      (forall e, env (Import (importPassword f) (importPassphrase f) (js "RESTORE") file) = inr e ->
         rest = [] /\ busy (final o) = Idle /\ restarting (final o) = false /\ backupFile (final o) = Some file /\
         error (final o) = reason_message e (text l (js "备份导入失败。") (js "Backup import failed.")))
  end.
Proof.
  cbn zeta. unfold importBackup. cbn [bind get exec]. destruct (backupFile f) as [file|] eqn:Ef.
  2: { cbn. split; [done|]. unfold canImport. rewrite Ef. by rewrite !andb_false_r. }
  destruct (canImport f) eqn:E; [|done].
  unfold canImport in E. rewrite !andb_true_iff in E. destruct E as [[[[[Ha _] Hp] Hl] Hc] Hb].
  apply bool_decide_eq_true in Hb. apply streq_eq in Hc. apply Nat.leb_le in Hl.
  assert (Hp' : importPassword f <> []) by (by destruct (importPassword f)). rewrite Hc.
  cbn -[poll]. exists file. split_and!; try done. intros e He. rewrite He. cbn. done.
Qed.
