(* ===== verification/AdminNodes.v ===== *)
(** * AdminNodes: the editor of nodes (web/src/components/admin/AdminNodes.vue)

    The refs of the component are a record, the handlers programs of [Async].
    [clone] copies the record, so the editor's node is a value of its own.  The
    answer of [confirm] is an argument of the handlers that ask; the message of
    the RangeError of an invalid date is the host's. *)

From Stdlib Require Import Strings.String.
From S2P Require Import Prelude JsString Binary64 JsNumber JsInteger JsDate Async I18n Traffic Types Format AdminForms.

Open Scope Z_scope.
Open Scope num_scope.
Open Scope async_scope.

(** ** State *)

Record page := mkPage {
  nodes : list AdminNode.t;
  editing : option AdminNode.t;
  agentConfig : option AgentConfig.t;
  tags : jsstr; expires : jsstr; includeNICs : jsstr; excludeNICs : jsstr; includeMounts : jsstr;
  trafficCorrection : option TrafficCorrectionStatus.t;
  correctionRX : num; correctionTX : num; correctionUnit : TrafficCorrectionUnit;
  correctionBusy : bool; correctionNotice : jsstr;
  trafficLimitGiB : num;
  busy : bool; error : jsstr; uninstallCopied : bool;
}.

Definition init : page :=
  mkPage [] None None [] [] [] [] [] None (#0) (#0) GiB false [] (#0) false [] false.

(** Assignments. *)
Definition set_nodes (x : list AdminNode.t) (p : page) : page :=
  mkPage x (editing p) (agentConfig p) (tags p) (expires p) (includeNICs p) (excludeNICs p) (includeMounts p)
    (trafficCorrection p) (correctionRX p) (correctionTX p) (correctionUnit p) (correctionBusy p) (correctionNotice p)
    (trafficLimitGiB p) (busy p) (error p) (uninstallCopied p).
Definition set_editor (e : option AdminNode.t) (c : option AgentConfig.t) (t x i o m : jsstr) (g : num) (p : page) : page :=
  mkPage (nodes p) e c t x i o m
    (trafficCorrection p) (correctionRX p) (correctionTX p) (correctionUnit p) (correctionBusy p) (correctionNotice p)
    g (busy p) (error p) (uninstallCopied p).
Definition set_correction (c : option TrafficCorrectionStatus.t) (rx tx : num) (u : TrafficCorrectionUnit) (p : page) : page :=
  mkPage (nodes p) (editing p) (agentConfig p) (tags p) (expires p) (includeNICs p) (excludeNICs p) (includeMounts p)
    c rx tx u (correctionBusy p) (correctionNotice p)
    (trafficLimitGiB p) (busy p) (error p) (uninstallCopied p).
Definition set_lines (cb : bool) (cn : jsstr) (b : bool) (e : jsstr) (p : page) : page :=
  mkPage (nodes p) (editing p) (agentConfig p) (tags p) (expires p) (includeNICs p) (excludeNICs p) (includeMounts p)
    (trafficCorrection p) (correctionRX p) (correctionTX p) (correctionUnit p) cb cn
    (trafficLimitGiB p) b e (uninstallCopied p).
Definition set_copied (b : bool) (p : page) : page :=
  mkPage (nodes p) (editing p) (agentConfig p) (tags p) (expires p) (includeNICs p) (excludeNICs p) (includeMounts p)
    (trafficCorrection p) (correctionRX p) (correctionTX p) (correctionUnit p) (correctionBusy p) (correctionNotice p)
    (trafficLimitGiB p) (busy p) (error p) b.

Definition set_editing (e : option AdminNode.t) (p : page) : page :=
  set_editor e (agentConfig p) (tags p) (expires p) (includeNICs p) (excludeNICs p) (includeMounts p) (trafficLimitGiB p) p.
Definition set_agentConfig (c : option AgentConfig.t) (p : page) : page :=
  set_editor (editing p) c (tags p) (expires p) (includeNICs p) (excludeNICs p) (includeMounts p) (trafficLimitGiB p) p.
Definition set_trafficCorrection (c : option TrafficCorrectionStatus.t) (p : page) : page :=
  set_correction c (correctionRX p) (correctionTX p) (correctionUnit p) p.
Definition set_correctionUnit (u : TrafficCorrectionUnit) (p : page) : page :=
  set_correction (trafficCorrection p) (correctionRX p) (correctionTX p) u p.
Definition set_correctionBusy (b : bool) (p : page) : page := set_lines b (correctionNotice p) (busy p) (error p) p.
Definition set_correctionNotice (n : jsstr) (p : page) : page := set_lines (correctionBusy p) n (busy p) (error p) p.
Definition set_busy (b : bool) (p : page) : page := set_lines (correctionBusy p) (correctionNotice p) b (error p) p.
Definition set_error (e : jsstr) (p : page) : page := set_lines (correctionBusy p) (correctionNotice p) (busy p) e p.

(** ** Calls *)

Inductive Req :=
| GetNodes                                           (* GET /api/v1/admin/nodes *)
| GetConfig (id : jsstr)                             (* GET .../nodes/ID/agent-config *)
| GetCorrection (id : jsstr)                         (* GET .../nodes/ID/traffic-correction *)
| PutCorrection (id : jsstr) (rx_bytes tx_bytes : num)
| DeleteCorrection (id : jsstr)
| PutNode (id : jsstr) (n : option AdminNode.t)      (* the JSON of the ref, null included *)
| PutConfig (id : jsstr) (c : option AgentConfig.t)
| PutLatency (id : jsstr) (enabled : bool)
| DeleteNode (id : jsstr)
| WriteClipboard (s : jsstr).

Definition Resp (r : Req) : Type :=
  match r with
  | GetNodes => list AdminNode.t
  | GetConfig _ => AgentConfig.t
  | GetCorrection _ | PutCorrection _ _ _ | DeleteCorrection _ => TrafficCorrectionStatus.t
  | PutLatency _ _ => AdminNode.t
  | PutNode _ _ | PutConfig _ _ | DeleteNode _ | WriteClipboard _ => unit
  end.

Definition M := prog page Req Resp.
Definition Env := forall r : Req, (Resp r + exn)%type.
Definition send (r : Req) : M (Resp r) := await (One r).

Definition node_id (n : AdminNode.t) : jsstr := PublicNode.id (AdminNode.base n).

(** ** Loading and opening the editor *)

Definition load : M unit := let! l := (send GetNodes : M (list AdminNode.t)) in modify (set_nodes l).

Definition syncCorrectionInputs (p : page) : page :=
  match trafficCorrection p with
  | None => p
  | Some c => set_correction (Some c) (trafficValueInUnit (TrafficCorrectionStatus.rx_bytes c) (correctionUnit p))
                (trafficValueInUnit (TrafficCorrectionStatus.tx_bytes c) (correctionUnit p)) (correctionUnit p) p
  end.

(** [list?.join(', ') ?? '']. *)
Definition shown_list (l : option (list jsstr)) : jsstr := nullish ((fun l => join l (js ", ")) <$> l) [].

Definition open_editor (n : AdminNode.t) (p : page) : page :=
  let b := AdminNode.base n in
  let p := set_editor (Some n) None (join (PublicNode.tags b) (js ", "))
             (nullish ((fun e => slice e 0 10) <$> PublicNode.expires_at b) [])
             (includeNICs p) (excludeNICs p) (includeMounts p) (trafficLimitInGiB (Some (PublicNode.traffic_limit b))) p in
  set_trafficCorrection None (set_lines (correctionBusy p) [] (busy p) [] p).

Definition loaded (a : AgentConfig.t * TrafficCorrectionStatus.t) (p : page) : page :=
  let '(c, t) := a in
  let p := set_editor (editing p) (Some c) (tags p) (expires p) (shown_list (AgentConfig.include_nics c))
             (shown_list (AgentConfig.exclude_nics c)) (shown_list (AgentConfig.include_mountpoints c)) (trafficLimitGiB p) p in
  syncCorrectionInputs (set_correctionUnit
    (suggestedTrafficUnit [TrafficCorrectionStatus.rx_bytes t; TrafficCorrectionStatus.tx_bytes t])
    (set_trafficCorrection (Some t) p)).

Definition edit (l : AppLocale) (n : AdminNode.t) : M unit :=
  do! modify (open_editor n);
  try_catch
    (let! a := (await (All2 (One (GetConfig (node_id n))) (One (GetCorrection (node_id n)))) : M (AgentConfig.t * TrafficCorrectionStatus.t)) in
     modify (loaded a))
    (fun reason => modify (set_error (reason_message reason (text l (js "无法加载探针配置。") (js "Agent configuration could not be loaded."))))).

(** The close buttons of the drawer: [editing = null]. *)
Definition close_editor : M unit := modify (set_editing None).

(** ** Traffic correction *)

Definition changeCorrectionUnit (next : TrafficCorrectionUnit) (p : page) : page :=
  let rxBytes := trafficBytesFrom (correctionRX p) (correctionUnit p) in
  let txBytes := trafficBytesFrom (correctionTX p) (correctionUnit p) in
  set_correction (trafficCorrection p) (trafficValueInUnit rxBytes next) (trafficValueInUnit txBytes next) next p.

Definition corrected (notice : jsstr) (c : TrafficCorrectionStatus.t) (p : page) : page :=
  set_correctionNotice notice (syncCorrectionInputs (set_trafficCorrection (Some c) p)).

Definition applyTrafficCorrection (l : AppLocale) : M unit :=
  let! p := get in
  match editing p, trafficCorrection p with
  | Some n, Some _ =>
      let rxBytes := trafficBytesFrom (correctionRX p) (correctionUnit p) in
      let txBytes := trafficBytesFrom (correctionTX p) (correctionUnit p) in
      if negb (isFinite rxBytes) || negb (isFinite txBytes) then
        modify (set_error (text l (js "请输入有效且不过大的非负流量值。") (js "Enter valid non-negative traffic totals within the supported range.")))
      else
        do! modify (fun p => set_lines true [] (busy p) [] p);
        finally
          (try_catch
             (let! c := (send (PutCorrection (node_id n) rxBytes txBytes) : M TrafficCorrectionStatus.t) in
              modify (corrected (text l (js "校正已应用，本周期后续流量会继续累加。") (js "Correction applied; later traffic in this period will continue accumulating.")) c))
             (fun reason => modify (set_error (reason_message reason (text l (js "流量校正失败。") (js "Traffic correction failed."))))))
          (modify (set_correctionBusy false))
  | _, _ => Ret tt
  end.

Definition clearTrafficCorrection (l : AppLocale) : M unit :=
  let! p := get in
  match editing p, trafficCorrection p with
  | Some n, Some _ =>
      do! modify (fun p => set_lines true [] (busy p) [] p);
      finally
        (try_catch
           (let! c := (send (DeleteCorrection (node_id n)) : M TrafficCorrectionStatus.t) in
            modify (corrected (text l (js "已恢复为 Agent 原始统计。") (js "Restored to the original Agent totals.")) c))
           (fun reason => modify (set_error (reason_message reason (text l (js "无法清除流量校正。") (js "Traffic correction could not be cleared."))))))
        (modify (set_correctionBusy false))
  | _, _ => Ret tt
  end.

(** ** Saving *)

Section Save.
Context `{DateHost} (invalid_time : jsstr).

Definition edited_node (limit : num) (ts : list jsstr) (e : option jsstr) (n : AdminNode.t) : AdminNode.t :=
  let b := AdminNode.base n in
  AdminNode.mk
    (PublicNode.mk (PublicNode.id b) (PublicNode.role b) (PublicNode.latency_enabled b) (PublicNode.name b)
      (PublicNode.group b) (PublicNode.region b) (PublicNode.country_code b) (PublicNode.latitude b)
      (PublicNode.longitude b) ts (PublicNode.public_remark b) (PublicNode.hidden b) (PublicNode.weight b)
      (PublicNode.price b) (PublicNode.currency b) (PublicNode.billing_cycle_days b) e
      (PublicNode.auto_renewal b) limit (PublicNode.traffic_limit_type b) (PublicNode.traffic_reset_day b)
      (PublicNode.os b) (PublicNode.arch b) (PublicNode.cpu_name b) (PublicNode.cpu_cores b)
      (PublicNode.virtualization b) (PublicNode.kernel_version b) (PublicNode.created_at b)
      (PublicNode.updated_at b) (PublicNode.last_seen_at b) (PublicNode.online b))
    (AdminNode.hostname n) (AdminNode.private_remark n) (AdminNode.agent_version n) (AdminNode.ipv4 n) (AdminNode.ipv6 n).

Definition edited_config (i o m : list jsstr) (c : AgentConfig.t) : AgentConfig.t :=
  AgentConfig.mk (AgentConfig.collect_interval_seconds c) (AgentConfig.persist_interval_seconds c)
    (Some i) (Some o) (Some m) (AgentConfig.enable_gpu c) (AgentConfig.auto_update c)
    (AgentConfig.probe_concurrency c) (AgentConfig.config_version c).

(** [expires ? new Date(`${expires}T00:00:00Z`).toISOString() : undefined];
    [inr] is the RangeError. *)
Definition expiry (e : jsstr) : option jsstr + exn :=
  if truthy e then
    match Date_toISOString (parse (e ++ js "T00:00:00Z")%list) with
    | Some s => inl (Some s)
    | None => inr (OtherError invalid_time)
    end
  else inl None.

Definition quota_message (l : AppLocale) : jsstr :=
  text l (js "请输入有效且不过大的非负 GiB 流量额度。") (js "Enter a valid non-negative GiB quota within the supported range.").

(** The assignments before the first request; [inr] leaves by an exception after
    the node has been changed, as in the source. *)
Definition prepare (p : page) (n : AdminNode.t) (c : AgentConfig.t) (limit : num) : AdminNode.t * (AgentConfig.t + exn) :=
  let ts := items comma (tags p) in
  match expiry (expires p) with
  | inl e => (edited_node limit ts e n,
              inl (edited_config (items comma (includeNICs p)) (items comma (excludeNICs p)) (items comma (includeMounts p)) c))
  | inr x => (edited_node limit ts (PublicNode.expires_at (AdminNode.base n)) n, inr x)
  end.

Definition replace_node (updated : AdminNode.t) (l : list AdminNode.t) : list AdminNode.t :=
  map (fun n => if streq (node_id n) (node_id updated) then updated else n) l.

(** The second request reads [agentConfig.value] when the first is answered. *)
Definition put_all (nodeID : jsstr) (latencyEnabled : bool) : M unit :=
  let! p := get in
  do! (send (PutNode nodeID (editing p)) : M unit);
  let! p := get in
  do! (send (PutConfig nodeID (agentConfig p)) : M unit);
  let! updated := (send (PutLatency nodeID latencyEnabled) : M AdminNode.t) in
  modify (fun p => set_editing None (set_nodes (replace_node updated (nodes p)) p)).

Definition save (l : AppLocale) : M unit :=
  let! p := get in
  match editing p, agentConfig p with
  | Some n, Some c =>
      do! modify (fun p => set_lines (correctionBusy p) (correctionNotice p) true [] p);
      finally
        (try_catch
           (let limit := trafficLimitBytesFromGiB (trafficLimitGiB p) in
            if negb (isFinite limit) then Throw (OtherError (quota_message l))
            else
              match prepare p n c limit with
              | (n', inr x) => do! modify (set_editing (Some n')); Throw x
              | (n', inl c') =>
                  do! modify (fun p => set_agentConfig (Some c') (set_editing (Some n') p));
                  put_all (node_id n') (PublicNode.latency_enabled (AdminNode.base n'))
              end)
           (fun reason => modify (set_error (reason_message reason (text l (js "保存失败。") (js "Update failed."))))))
        (modify (set_busy false))
  | _, _ => Ret tt
  end.

(** ** Removing and copying *)

Definition remove (confirmed : bool) (n : AdminNode.t) : M unit :=
  unless (negb confirmed)
    (do! (send (DeleteNode (node_id n)) : M unit);
     modify (fun p => set_nodes (List.filter (fun x => negb (streq (node_id x) (node_id n))) (nodes p)) p)).

Definition uninstallCommand (origin : jsstr) : jsstr := (js "curl -fsSL " ++ origin ++ js "/uninstall.sh | sh")%list.
Definition windowsUninstallCommand (origin : jsstr) : jsstr := (js "irm " ++ origin ++ js "/uninstall.ps1 | iex")%list.

Definition copyUninstallCommand (origin : jsstr) : M unit :=
  do! (send (WriteClipboard (uninstallCommand origin)) : M unit);
  modify (set_copied true).

(** The callback of its timeout. *)
Definition copied_expires : M unit := modify (set_copied false).

Inductive event : M unit -> Prop :=
| E_load : event load
| E_edit l n : event (edit l n)
| E_close : event close_editor
| E_unit u : event (modify (changeCorrectionUnit u))
| E_apply l : event (applyTrafficCorrection l)
| E_clear l : event (clearTrafficCorrection l)
| E_save l : event (save l)
| E_remove b n : event (remove b n)
| E_copy o : event (copyUninstallCommand o)
| E_copied : event copied_expires.

End Save.

(** ** Properties *)

Section Properties.
Context `{DateHost} (invalid_time : jsstr).

Lemma exec_put_all (env : Env) nodeID b p :
  let o := exec env (put_all nodeID b) p in
  let c1 := One (PutNode nodeID (editing p)) in
  let c2 := One (PutConfig nodeID (agentConfig p)) in
  let c3 := One (PutLatency nodeID b) in
  match env (PutNode nodeID (editing p)), env (PutConfig nodeID (agentConfig p)), env (PutLatency nodeID b) with
  | inr e, _, _ => o = Outcome [c1] p (inr e)
  | inl _, inr e, _ => o = Outcome [c1; c2] p (inr e)
  | inl _, inl _, inr e => o = Outcome [c1; c2; c3] p (inr e)
  | inl _, inl _, inl updated =>
      o = Outcome [c1; c2; c3] (set_editing None (set_nodes (replace_node updated (nodes p)) p)) (inl tt)
  end.
Proof.
  cbn. destruct (env (PutNode _ _)) as [[]|e]; cbn; [|done].
  destruct (env (PutConfig _ _)) as [[]|e]; cbn; [|done]. by destruct (env (PutLatency _ _)).
Qed.

(** C14: saving a node does nothing without a node and its configuration; sends
    nothing and says why when the quota or the date is not valid; otherwise sends
    the edited node (its quota, tags and date those of the form), then its
    configuration (with the lists of the form), then the latency switch, all to
    the node being edited: after a failure nothing more is sent, its reason is
    shown and the editor stays open on the edited node.  Only a save that succeeds
    entirely closes the editor and replaces the node in the list; in every case
    the form is idle again. *)
Theorem save_outcome (env : Env) l p :
  let o := exec env (save invalid_time l) p in
  result o = inl tt /\
  match editing p, agentConfig p with
  | Some n, Some c =>
      let limit := trafficLimitBytesFromGiB (trafficLimitGiB p) in
      let id := node_id n in
      busy (final o) = false /\
      match isFinite limit, expiry invalid_time (expires p) with
      | false, _ => calls o = [] /\ error (final o) = quota_message l /\ editing (final o) = Some n /\ nodes (final o) = nodes p
      | true, inr x => calls o = [] /\ error (final o) = reason_message x [] /\ nodes (final o) = nodes p
      | true, inl e =>
          let n' := edited_node limit (items comma (tags p)) e n in
          let c' := edited_config (items comma (includeNICs p)) (items comma (excludeNICs p)) (items comma (includeMounts p)) c in
          let put_node := One (PutNode id (Some n')) in
          let put_config := One (PutConfig id (Some c')) in
          let put_latency := One (PutLatency id (PublicNode.latency_enabled (AdminNode.base n))) in
          let failure x := editing (final o) = Some n' /\ nodes (final o) = nodes p /\
                           error (final o) = reason_message x (text l (js "保存失败。") (js "Update failed.")) in
          match env (PutNode id (Some n')), env (PutConfig id (Some c')), env (PutLatency id (PublicNode.latency_enabled (AdminNode.base n))) with
          | inr x, _, _ => calls o = [put_node] /\ failure x
          | inl _, inr x, _ => calls o = [put_node; put_config] /\ failure x
          | inl _, inl _, inr x => calls o = [put_node; put_config; put_latency] /\ failure x
          | inl _, inl _, inl updated =>
              calls o = [put_node; put_config; put_latency] /\ editing (final o) = None /\ error (final o) = [] /\
              nodes (final o) = map (fun x => if streq (node_id x) (node_id updated) then updated else x) (nodes p)
          end
      end
  | _, _ => calls o = [] /\ final o = p
  end.
Proof.
  cbn zeta. unfold save. cbn [bind get exec]. destruct (editing p) as [n|] eqn:En; [|done].
  destruct (agentConfig p) as [c|] eqn:Ec; [|done]. rewrite exec_bind. cbn [modify exec result final calls app].
  rewrite exec_finally, exec_try_catch. set (limit := trafficLimitBytesFromGiB (trafficLimitGiB p)).
  destruct (isFinite limit) eqn:El; cbn [negb]; [|cbn; by rewrite En].
  unfold prepare. destruct (expiry invalid_time (expires p)) as [e|x] eqn:Ee.
  2: { cbn. unfold expiry in Ee. destruct (truthy _); [|done]. destruct (Date_toISOString _); [done|]. by injection Ee as <-. }
  set (n' := edited_node _ _ _ _). set (c' := edited_config _ _ _ _).
  change (node_id n') with (node_id n). change (PublicNode.latency_enabled (AdminNode.base n')) with (PublicNode.latency_enabled (AdminNode.base n)).
  rewrite exec_bind. cbn [modify exec result final calls app].
  set (q := set_agentConfig _ _). pose proof (exec_put_all env (node_id n) (PublicNode.latency_enabled (AdminNode.base n)) q) as Hx.
  cbn zeta in Hx. change (editing q) with (Some n') in Hx. change (agentConfig q) with (Some c') in Hx.
  destruct (env (PutNode _ _)) as [u|e1]; [|by rewrite Hx].
  destruct (env (PutConfig _ _)) as [u'|e1]; [|by rewrite Hx].
  by destruct (env (PutLatency _ _)) as [updated|e1]; rewrite Hx.
Qed.

(** ** An unchanged node is sent back unchanged *)

Lemma Date_toISOString_of_Z t : four_digit_year t -> Date_toISOString (#t) = Some (toISOString t).
Proof.
  intros Ht. assert (Hb : (-62167219200000 <= t < 253402300800000)%Z) by exact Ht.
  unfold Date_toISOString. rewrite to_Z_of_Z by lia. by rewrite leb_true by lia.
Qed.

(** A date of the years 0 to 9999 at midnight survives the date field. *)
Lemma expiry_kept t : four_digit_year t -> (t mod msPerDay = 0)%Z ->
  expiry invalid_time (slice (toISOString t) 0 10) = inl (Some (toISOString t)).
Proof.
  intros Ht Hd. unfold expiry.
  assert (Hne : truthy (slice (toISOString t) 0 10) = true).
  { unfold toISOString. destruct (civil_from_days _) as [[y m] d]. by destruct (_ && _), (y <? 0)%Z. }
  rewrite Hne. unfold parse. rewrite parseISO_midnight by done. rewrite Hd, Z.sub_0_r. by rewrite Date_toISOString_of_Z.
Qed.

(** The date as the server writes it, at midnight without a fraction, or as the
    page sends it. *)
Definition at_midnight (t : Z) (e : jsstr) : Prop :=
  four_digit_year t /\ (t mod msPerDay = 0)%Z /\ (e = (slice (toISOString t) 0 10 ++ js "T00:00:00Z")%list \/ e = toISOString t).

Lemma at_midnight_date t e : at_midnight t e -> slice e 0 10 = slice (toISOString t) 0 10.
Proof.
  intros (_ & _ & [->| ->]); [|done]. unfold toISOString. destruct (civil_from_days _) as [[y m] d].
  destruct (_ && _); [done|]. by destruct (y <? 0)%Z.
Qed.

Lemma at_midnight_parse t e : at_midnight t e -> parse e = #t.
Proof.
  intros (Hy & Hd & [->| ->]); unfold parse; [|by rewrite parseISO_toISOString]. rewrite parseISO_midnight by done. by rewrite Hd, Z.sub_0_r.
Qed.

Lemma read_shown l : Forall (item_ok comma) (nullish l []) -> items comma (shown_list l) = nullish l [].
Proof.
  destruct l as [l|]; [|done]. intros Hl. apply (items_join comma [32%N]); [set_solver| |done]. by repeat constructor.
Qed.

(** The nodes and configurations the server stores: trimmed entries without a
    comma, in lists that may be left out; a byte count as quota; a date at
    midnight. *)
Definition storable_node (n : AdminNode.t) : Prop :=
  let b := AdminNode.base n in
  Forall (item_ok comma) (PublicNode.tags b) /\
  (exists k, (0 <= k <= MAX_SAFE_INTEGER)%Z /\ PublicNode.traffic_limit b = #k) /\
  (forall e, PublicNode.expires_at b = Some e -> exists t, at_midnight t e).

Definition storable_config (c : AgentConfig.t) : Prop :=
  Forall (item_ok comma) (nullish (AgentConfig.include_nics c) []) /\ Forall (item_ok comma) (nullish (AgentConfig.exclude_nics c) []) /\
  Forall (item_ok comma) (nullish (AgentConfig.include_mountpoints c) []).

(** A node with another expiry date and all else the same. *)
Definition with_expiry (e : option jsstr) (n : AdminNode.t) : AdminNode.t :=
  match n with
  | AdminNode.mk (PublicNode.mk id role le name group region cc lat long tags remark hidden weight price cur days _ renewal
      limit type reset os arch cpu cores virt kernel created updated seen online) h pr av i4 i6 =>
      AdminNode.mk (PublicNode.mk id role le name group region cc lat long tags remark hidden weight price cur days e renewal
        limit type reset os arch cpu cores virt kernel created updated seen online) h pr av i4 i6
  end.

(** A configuration whose lists are present. *)
Definition with_lists (c : AgentConfig.t) : AgentConfig.t :=
  match c with
  | AgentConfig.mk collect persist i o m gpu update concurrency version =>
      AgentConfig.mk collect persist (Some (nullish i [])) (Some (nullish o [])) (Some (nullish m [])) gpu update concurrency version
  end.

Lemma prepare_unchanged p n c e : storable_node n -> storable_config c ->
  tags p = join (PublicNode.tags (AdminNode.base n)) (js ", ") -> expiry invalid_time (expires p) = inl e ->
  includeNICs p = shown_list (AgentConfig.include_nics c) -> excludeNICs p = shown_list (AgentConfig.exclude_nics c) ->
  includeMounts p = shown_list (AgentConfig.include_mountpoints c) ->
  prepare invalid_time p n c (PublicNode.traffic_limit (AdminNode.base n)) = (with_expiry e n, inl (with_lists c)).
Proof.
  intros (Ht & _ & _) (Hi & Ho & Hm) H1 H2 H3 H4 H5. unfold prepare. rewrite H1, H2, H3, H4, H5, !read_shown by done.
  change (join (PublicNode.tags (AdminNode.base n)) (js ", ")) with (shown_list (Some (PublicNode.tags (AdminNode.base n)))).
  rewrite read_shown by done. by destruct n as [[] ? ? ? ? ?], c.
Qed.

Lemma expiry_of n : storable_node n -> exists e',
  expiry invalid_time (nullish ((fun e => slice e 0 10) <$> PublicNode.expires_at (AdminNode.base n)) []) = inl e' /\
  match PublicNode.expires_at (AdminNode.base n), e' with
  | None, None => True
  | Some e, Some e' => parse e' = parse e
  | _, _ => False
  end.
Proof.
  intros (_ & _ & He). destruct (PublicNode.expires_at (AdminNode.base n)) as [e|]; [|by exists None].
  destruct (He e eq_refl) as [t Ht]. exists (Some (toISOString t)). change (nullish _ []) with (slice e 0 10).
  rewrite (at_midnight_date t e Ht). pose proof (at_midnight_parse t e Ht) as Hp. destruct Ht as (Hy & Hd & _).
  split; [by apply expiry_kept|]. rewrite Hp. unfold parse. by rewrite parseISO_toISOString.
Qed.

(** C13: opening a node and saving it without a change sends back what the server
    gave.  The node (its tags trimmed, not empty and free of commas, its quota a
    byte count up to 2^53 - 1, its expiry date, if any, at midnight UTC of a year
    from 0 to 9999, written by the server or by the page) is the same in every
    member but the writing of the date, which names the same instant; the
    configuration (its lists of such entries, present or left out) is the same
    with the lists that were left out sent as empty ones; and the latency switch
    keeps its value.  These three requests are sent in this order, and nothing
    else. *)
Theorem edit_save_unchanged (env : Env) l n c t p :
  storable_node n -> storable_config c ->
  env (GetConfig (node_id n)) = inl c -> env (GetCorrection (node_id n)) = inl t ->
  exists e',
    match PublicNode.expires_at (AdminNode.base n), e' with
    | None, None => True
    | Some e, Some e' => parse e' = parse e
    | _, _ => False
    end /\
    (env (PutNode (node_id n) (Some (with_expiry e' n))) = inl tt -> env (PutConfig (node_id n) (Some (with_lists c))) = inl tt ->
     calls (exec env (save invalid_time l) (final (exec env (edit l n) p)))
     = [One (PutNode (node_id n) (Some (with_expiry e' n))); One (PutConfig (node_id n) (Some (with_lists c)));
        One (PutLatency (node_id n) (PublicNode.latency_enabled (AdminNode.base n)))]).
Proof.
  intros Hn Hc E1 E2. destruct (expiry_of n Hn) as (e' & Hx & Hs). exists e'. split; [done|]. intros E3 E4.
  assert (He : final (exec env (edit l n) p) = loaded (c, t) (open_editor n p)) by (cbn; rewrite E1, E2; done).
  rewrite He. set (q := loaded _ _).
  assert (Hl : trafficLimitBytesFromGiB (trafficLimitGiB q) = PublicNode.traffic_limit (AdminNode.base n)).
  { destruct Hn as (_ & (k & Hk & Hq) & _). change (trafficLimitGiB q) with (trafficLimitInGiB (Some (PublicNode.traffic_limit (AdminNode.base n)))).
    rewrite Hq. by apply limit_kept. }
  assert (Hf : isFinite (PublicNode.traffic_limit (AdminNode.base n)) = true).
  { destruct Hn as (_ & (k & Hk & ->) & _). unfold MAX_SAFE_INTEGER in Hk. apply of_Z_finite. lia. }
  assert (Hp : prepare invalid_time q n c (PublicNode.traffic_limit (AdminNode.base n)) = (with_expiry e' n, inl (with_lists c)))
    by (by apply prepare_unchanged).
  assert (Hi : node_id (with_expiry e' n) = node_id n /\
               PublicNode.latency_enabled (AdminNode.base (with_expiry e' n)) = PublicNode.latency_enabled (AdminNode.base n)) by (by destruct n as [[] ? ? ? ? ?]).
  unfold save. cbn [bind get exec]. change (editing q) with (Some n). change (agentConfig q) with (Some c). cbv iota.
  rewrite exec_bind. cbn [modify exec result final calls app]. rewrite exec_finally, exec_try_catch, Hl, Hf. cbn [negb].
  rewrite Hp. destruct Hi as [-> ->]. rewrite exec_bind. cbn -[q with_expiry with_lists]. rewrite E3. cbn -[q with_expiry with_lists].
  rewrite E4. cbn -[q with_expiry with_lists]. by destruct (env (PutLatency _ _)).
Qed.

End Properties.

(** ** Two nodes and their configurations *)

Definition a_node (id : jsstr) : AdminNode.t :=
  AdminNode.mk
    (PublicNode.mk id monitor false id None None None None None [js "web"; js "eu"] None false (#0) (#0) (js "USD") (#30)
      (Some (js "2027-03-01T00:00:00Z")) false (#1073741824) (js "sum") (#1) None None None None None None [] [] None true)
    None None None None None.

Definition config_of (id : jsstr) : AgentConfig.t :=
  AgentConfig.mk (#2) (#60) (Some [(id ++ js "-eth0")%list]) (Some []) (Some [js "/"]) false true (#4) (#1).

Definition no_correction : TrafficCorrectionStatus.t :=
  TrafficCorrectionStatus.mk false false [] None (#0) (#0) (#0) (#0) (#0) (#0) None.

Definition server : Env := fun r =>
  match r with
  | GetNodes => inl [a_node (js "a"); a_node (js "b")]
  | GetConfig id => inl (config_of id)
  | GetCorrection _ | PutCorrection _ _ _ | DeleteCorrection _ => inl no_correction
  | PutLatency id _ => inl (a_node id)
  | PutNode _ _ | PutConfig _ _ | DeleteNode _ | WriteClipboard _ => inl tt
  end.

(** A node as the server writes it: a date without milliseconds, a configuration
    without the lists that are empty. *)
Definition bare_config : AgentConfig.t := AgentConfig.mk (#2) (#60) None None (Some [js "/"; js "/srv"]) false true (#4) (#1).

Definition bare_server : Env := fun r => match r with GetConfig _ => inl bare_config | r => server r end.

Lemma edit_save_unchanged_witness :
  exists n', calls (exec bare_server (@save utc_host [] en_US) (final (exec bare_server (edit en_US (a_node (js "a"))) init)))
  = [One (PutNode (js "a") (Some n'));
     One (PutConfig (js "a") (Some (AgentConfig.mk (#2) (#60) (Some []) (Some []) (Some [js "/"; js "/srv"]) false true (#4) (#1))));
     One (PutLatency (js "a") false)].
Proof.
  destruct (@edit_save_unchanged utc_host [] bare_server en_US (a_node (js "a")) bare_config no_correction init) as (e' & _ & H);
    [..|eexists; exact (H eq_refl eq_refl)]; try reflexivity.
  - split_and!.
    + repeat constructor; try discriminate; apply (bool_decide_unpack _); vm_compute; exact Logic.I.
    + exists 1073741824%Z. split; [unfold MAX_SAFE_INTEGER; lia|reflexivity].
    + intros e [= <-]. exists 1803859200000%Z. split_and!; [vm_compute; split; [discriminate|reflexivity]|reflexivity|left; reflexivity].
  - split_and!; repeat constructor; try discriminate; apply (bool_decide_unpack _); vm_compute; exact Logic.I.
Defined.

(** The editor can save one node's configuration to another node.  When the
    editor of node a is closed and node b is opened before the answer for a has
    arrived, a late answer replaces the configuration shown for b, and saving
    sends the configuration of a (here its interface list) to node b. *)
Theorem stale_config_saved `{DateHost} :
  let run := fold_left (fun c f => f c) in
  let opened := run [spawn (edit en_US (a_node (js "a"))); spawn close_editor; spawn (edit en_US (a_node (js "b")));
                     answer_at server 1; answer_at server 0] (Config init []) in
  let saving := run [spawn (save [] en_US); answer_at server 0] opened in
  reachable (event []) init saving /\
  node_id <$> editing (store opened) = Some (js "b") /\ agentConfig (store opened) = Some (config_of (js "a")) /\
  map waits_for (tasks saving) = [One (PutConfig (js "b") (Some (config_of (js "a"))))].
Proof.
  intros run opened saving. split_and!; [|vm_compute; reflexivity..].
  unfold saving, opened, run. cbn [fold_left].
  eapply rtc_l; [apply Starts, (E_edit [] en_US (a_node (js "a")))|].
  eapply rtc_l; [apply Starts, (E_close [])|].
  eapply rtc_l; [apply Starts, (E_edit [] en_US (a_node (js "b")))|].
  eapply rtc_l; [apply (answer_at_step _ server 1); eexists; reflexivity|].
  eapply rtc_l; [apply (answer_at_step _ server 0); eexists; reflexivity|].
  eapply rtc_l; [apply Starts, (E_save [] en_US)|].
  eapply rtc_l; [apply (answer_at_step _ server 0); eexists; vm_compute; reflexivity|apply rtc_refl].
Qed.
