(* ===== verification/AdminSettings.v ===== *)
(** * AdminSettings: site settings, the enrollment PIN and temporary PINs
    (web/src/components/admin/AdminSettings.vue)

    [load] awaits [Promise.all] of a request and of [loadTemporaryPIN], itself a
    handler: it starts both, [load_site] waits for the request and for the end of
    the other ([PinLoaded]), whose own steps interleave with everything else.
    [plain_of] is a ghost: the id and the plaintext of the PIN issued last. *)

From Stdlib Require Import Strings.String.
From S2P Require Import Prelude JsString Binary64 JsNumber JsInteger JsDate Async I18n Types Format AdminForms.

Open Scope Z_scope.
Open Scope num_scope.
Open Scope async_scope.

#[local] Existing Instance TemporaryEnrollmentPIN.status_eq_dec.

(** ** State *)

Record page := mkPage {
  settings : option SiteSettings.t;
  newPIN : jsstr; status : jsstr; error : jsstr; sources : jsstr;
  temporaryPIN : option TemporaryEnrollmentPIN.t;
  temporaryPINPlain : jsstr;
  temporaryMinutes : num;
  temporaryBusy : bool; temporaryCopied : bool;
  clock : num;
  clockTimer : option nat; statusTimer : option nat;
  (** The host: its clock and the intervals that run. *)
  now : num; fresh : nat; intervals : gset nat;
  plain_of : option (jsstr * jsstr);
}.

Definition init (t : num) : page :=
  mkPage None [] [] [] [] None [] (#30) false false t None None t 1 ∅ None.

Definition set_texts (s : option SiteSettings.t) (n st e so : jsstr) (p : page) : page :=
  mkPage s n st e so (temporaryPIN p) (temporaryPINPlain p) (temporaryMinutes p) (temporaryBusy p) (temporaryCopied p)
    (clock p) (clockTimer p) (statusTimer p) (now p) (fresh p) (intervals p) (plain_of p).
Definition set_pin (t : option TemporaryEnrollmentPIN.t) (plain : jsstr) (owner : option (jsstr * jsstr)) (p : page) : page :=
  mkPage (settings p) (newPIN p) (status p) (error p) (sources p) t plain (temporaryMinutes p) (temporaryBusy p) (temporaryCopied p)
    (clock p) (clockTimer p) (statusTimer p) (now p) (fresh p) (intervals p) owner.
Definition set_flags (b c : bool) (p : page) : page :=
  mkPage (settings p) (newPIN p) (status p) (error p) (sources p) (temporaryPIN p) (temporaryPINPlain p) (temporaryMinutes p) b c
    (clock p) (clockTimer p) (statusTimer p) (now p) (fresh p) (intervals p) (plain_of p).
Definition set_clocks (c t : num) (p : page) : page :=
  mkPage (settings p) (newPIN p) (status p) (error p) (sources p) (temporaryPIN p) (temporaryPINPlain p) (temporaryMinutes p)
    (temporaryBusy p) (temporaryCopied p) c (clockTimer p) (statusTimer p) t (fresh p) (intervals p) (plain_of p).
Definition set_timers (c s : option nat) (f : nat) (i : gset nat) (p : page) : page :=
  mkPage (settings p) (newPIN p) (status p) (error p) (sources p) (temporaryPIN p) (temporaryPINPlain p) (temporaryMinutes p)
    (temporaryBusy p) (temporaryCopied p) (clock p) c s (now p) f i (plain_of p).

Definition set_settings (s : option SiteSettings.t) (p : page) : page := set_texts s (newPIN p) (status p) (error p) (sources p) p.
Definition set_newPIN (s : jsstr) (p : page) : page := set_texts (settings p) s (status p) (error p) (sources p) p.
Definition set_status (s : jsstr) (p : page) : page := set_texts (settings p) (newPIN p) s (error p) (sources p) p.
Definition set_error (s : jsstr) (p : page) : page := set_texts (settings p) (newPIN p) (status p) s (sources p) p.
Definition set_sources (s : jsstr) (p : page) : page := set_texts (settings p) (newPIN p) (status p) (error p) s p.
Definition set_busy (b : bool) (p : page) : page := set_flags b (temporaryCopied p) p.
Definition set_copied (b : bool) (p : page) : page := set_flags (temporaryBusy p) b p.
Definition set_minutes (m : num) (p : page) : page :=
  mkPage (settings p) (newPIN p) (status p) (error p) (sources p) (temporaryPIN p) (temporaryPINPlain p) m (temporaryBusy p)
    (temporaryCopied p) (clock p) (clockTimer p) (statusTimer p) (now p) (fresh p) (intervals p) (plain_of p).
Definition clearMessages (p : page) : page := set_texts (settings p) (newPIN p) [] [] (sources p) p.

Definition with_sources (s : SiteSettings.t) (l : option (list jsstr)) (weak : bool) : SiteSettings.t :=
  SiteSettings.mk (SiteSettings.name s) (SiteSettings.description s) (SiteSettings.private s) (SiteSettings.enrollment_enabled s)
    weak (SiteSettings.theme s) (SiteSettings.record_enabled s) (SiteSettings.raw_retention_hours s)
    (SiteSettings.five_minute_retention_hours s) (SiteSettings.hourly_retention_hours s) (SiteSettings.geoip_enabled s)
    (SiteSettings.geoip_provider s) (SiteSettings.custom_head s) (SiteSettings.custom_body s) l.

(** ** Computed values *)

Section Computed.
Context `{DateHost}.

(** [None] is the empty string. *)
Definition effectiveTemporaryStatus (p : page) : option TemporaryEnrollmentPIN.status_ :=
  match temporaryPIN p with
  | None => None
  | Some t =>
      if bool_decide (TemporaryEnrollmentPIN.status t = TemporaryEnrollmentPIN.active) && (parse (TemporaryEnrollmentPIN.expires_at t) <=? clock p) then Some TemporaryEnrollmentPIN.expired
      else Some (TemporaryEnrollmentPIN.status t)
  end.

Definition temporaryStatusLabel (l : AppLocale) (p : page) : jsstr :=
  match effectiveTemporaryStatus p with
  | Some TemporaryEnrollmentPIN.active => text l (js "可使用") (js "Active")
  | Some TemporaryEnrollmentPIN.used => text l (js "已使用") (js "Used")
  | Some TemporaryEnrollmentPIN.expired => text l (js "已过期") (js "Expired")
  | Some TemporaryEnrollmentPIN.revoked => text l (js "已撤销") (js "Revoked")
  | None => text l (js "未创建") (js "Not created")
  end.

Definition temporaryRemaining (l : AppLocale) (p : page) : jsstr :=
  match temporaryPIN p, effectiveTemporaryStatus p with
  | Some t, Some TemporaryEnrollmentPIN.active =>
      let seconds := max (#0) (ceil ((parse (TemporaryEnrollmentPIN.expires_at t) - clock p) / #1000)) in
      if seconds <? #60 then text l (js "不足 1 分钟") (js "less than 1 minute")
      else
        let minutes := ceil (seconds / #60) in
        if minutes <? #60 then
          text l (js "剩余 " ++ toString minutes ++ js " 分钟")%list (toString minutes ++ js " minutes left")%list
        else
          let hours := floor (minutes / #60) in
          let rest := rem minutes (#60) in
          text l (js "剩余 " ++ toString hours ++ js " 小时 " ++ toString rest ++ js " 分钟")%list
            (toString hours ++ js "h " ++ toString rest ++ js "m left")%list
  | _, _ => []
  end.

Definition canRevokeTemporaryPIN (p : page) : bool :=
  match effectiveTemporaryStatus p with Some TemporaryEnrollmentPIN.active | Some TemporaryEnrollmentPIN.used => true | _ => false end.

End Computed.

(** ** Calls *)

Inductive Req :=
| GetSettings                            (* GET /api/v1/admin/settings *)
| PutSettings (s : SiteSettings.t)
| SessionRefresh                         (* session.refresh() *)
| PutPIN (pin : jsstr)                   (* PUT /api/v1/admin/enrollment/pin *)
| GetTemporary                           (* GET /api/v1/admin/enrollment/temporary-pin *)
| PostTemporary (expires_in_minutes : num)
| DeleteTemporary
| PinLoaded                              (* the promise of loadTemporaryPIN() *)
| WriteClipboard (s : jsstr).

Definition Resp (r : Req) : Type :=
  match r with
  | GetSettings | PutSettings _ => SiteSettings.t
  | PutPIN _ => bool
  | GetTemporary | DeleteTemporary => option TemporaryEnrollmentPIN.t
  | PostTemporary _ => TemporaryEnrollmentPIN.t
  | SessionRefresh | PinLoaded | WriteClipboard _ => unit
  end.

Definition M := prog page Req Resp.
Definition Env := forall r : Req, (Resp r + exn)%type.
Definition send (r : Req) : M (Resp r) := await (One r).

(** ** Handlers *)

Definition same_pin (a b : option TemporaryEnrollmentPIN.t) : bool := bool_decide (TemporaryEnrollmentPIN.id <$> a = TemporaryEnrollmentPIN.id <$> b).

Definition latest_pin (latest : option TemporaryEnrollmentPIN.t) (p : page) : page :=
  if same_pin latest (temporaryPIN p) then set_pin latest (temporaryPINPlain p) (plain_of p) p
  else set_pin latest [] None p.

Definition loadTemporaryPIN (l : AppLocale) (silent : bool) : M unit :=
  try_catch
    (let! latest := (send GetTemporary : M (option TemporaryEnrollmentPIN.t)) in modify (latest_pin latest))
    (fun reason => unless silent (modify (set_error (reason_message reason
       (text l (js "临时 PIN 状态加载失败。") (js "Could not load temporary PIN status.")))))).

(** [settings.value.theme_market_sources?.join('\n') ?? '']. *)
Definition shown_sources (s : SiteSettings.t) : jsstr :=
  nullish ((fun l => join l [newline]) <$> SiteSettings.theme_market_sources s) [].

Definition load_site (l : AppLocale) : M unit :=
  do! modify clearMessages;
  try_catch
    (let! r := (await (All2 (One GetSettings) (One PinLoaded)) : M (SiteSettings.t * unit)) in
     modify (fun p => set_sources (shown_sources r.1) (set_settings (Some r.1) p)))
    (fun reason => modify (set_error (reason_message reason (text l (js "设置加载失败。") (js "Could not load settings."))))).

Definition save (l : AppLocale) : M unit :=
  let! p := get in
  match settings p with
  | None => Ret tt
  | Some s =>
      let s' := with_sources s (Some (items newline (sources p))) (SiteSettings.enrollment_pin_weak s) in
      do! modify (fun p => set_settings (Some s') (clearMessages p));
      try_catch
        (let! saved := (send (PutSettings s') : M SiteSettings.t) in
         do! modify (set_settings (Some saved));
         do! (send SessionRefresh : M unit);
         modify (set_status (text l (js "设置已保存。") (js "Settings saved."))))
        (fun reason => modify (set_error (reason_message reason (text l (js "保存失败。") (js "Save failed.")))))
  end.

Definition rotated (l : AppLocale) (weak : bool) (p : page) : page :=
  let p := match settings p with
           | Some s => set_settings (Some (with_sources s (SiteSettings.theme_market_sources s) weak)) p
           | None => p
           end in
  set_newPIN [] (set_status
    (if weak then text l (js "PIN 已更换，但当前 PIN 强度较弱。") (js "PIN changed, but it is considered weak.")
     else text l (js "注册 PIN 已更换。") (js "Enrollment PIN changed.")) p).

Definition rotatePIN (l : AppLocale) : M unit :=
  do! modify clearMessages;
  try_catch
    (let! p := get in
     let! weak := (send (PutPIN (newPIN p)) : M bool) in
     modify (rotated l weak))
    (fun reason => modify (set_error (reason_message reason (text l (js "PIN 更换失败。") (js "PIN change failed."))))).

Definition created (l : AppLocale) (t : TemporaryEnrollmentPIN.t) (p : page) : page :=
  let p := set_pin (Some t) (nullish (TemporaryEnrollmentPIN.pin t) [])
             (Some (TemporaryEnrollmentPIN.id t, nullish (TemporaryEnrollmentPIN.pin t) [])) p in
  set_status (text l (js "临时 PIN 已生成，明文仅在本页显示一次。") (js "Temporary PIN generated; its plaintext is shown only on this page."))
    (set_clocks (now p) (now p) p).

Definition createTemporaryPIN (l : AppLocale) : M unit :=
  do! modify (fun p => set_flags true false (clearMessages p));
  finally
    (try_catch
       (let! p := get in
        let! t := (send (PostTemporary (temporaryMinutes p)) : M TemporaryEnrollmentPIN.t) in
        modify (created l t))
       (fun reason => modify (set_error (reason_message reason (text l (js "临时 PIN 生成失败。") (js "Could not generate temporary PIN."))))))
    (modify (set_busy false)).

Definition copyTemporaryPIN (l : AppLocale) : M unit :=
  let! p := get in
  unless (negb (truthy (temporaryPINPlain p)))
    (try_catch
       (do! (send (WriteClipboard (temporaryPINPlain p)) : M unit);
        modify (set_copied true))
       (fun _ => modify (set_error (text l (js "浏览器不允许复制，请手动选择 PIN。") (js "Clipboard access was denied; select the PIN manually."))))).

(** The callback of its timeout. *)
Definition copied_expires : M unit := modify (set_copied false).

Definition revokeTemporaryPIN (l : AppLocale) : M unit :=
  let! p := get in
  match temporaryPIN p with
  | None => Ret tt
  | Some _ =>
      do! modify (fun p => set_busy true (clearMessages p));
      finally
        (try_catch
           (let! revoked := (send DeleteTemporary : M (option TemporaryEnrollmentPIN.t)) in
            modify (fun p => set_status (text l (js "临时 PIN 已撤销。") (js "Temporary PIN revoked.")) (set_pin revoked [] None p)))
           (fun reason => modify (set_error (reason_message reason (text l (js "临时 PIN 撤销失败。") (js "Could not revoke temporary PIN."))))))
        (modify (set_busy false))
  end.

(** [onMounted] after starting [load]; [onBeforeUnmount]; the two callbacks. *)
Definition start_timers (p : page) : page :=
  set_timers (Some (fresh p)) (Some (S (fresh p))) (S (S (fresh p))) (intervals p ∪ {[fresh p; S (fresh p)]}) p.

Definition stop_timers (p : page) : page :=
  let clear (t : option nat) (i : gset nat) := match t with Some id => i ∖ {[id]} | None => i end in
  set_timers (clockTimer p) (statusTimer p) (fresh p) (clear (statusTimer p) (clear (clockTimer p) (intervals p))) p.

Definition when_running (id : page -> option nat) (h : M unit) : M unit :=
  let! p := get in
  match id p with Some n => if bool_decide (n ∈ intervals p) then h else Ret tt | None => Ret tt end.

Definition clock_ticks : M unit := when_running clockTimer (modify (fun p => set_clocks (now p) (now p) p)).
Definition status_ticks (l : AppLocale) : M unit := when_running statusTimer (loadTemporaryPIN l true).

(** What is typed into the fields of the settings. *)
Definition edit_settings (f : SiteSettings.t -> SiteSettings.t) : M unit := modify (fun p => set_settings (f <$> settings p) p).

Inductive event : M unit -> Prop :=
| E_load_site l : event (load_site l)
| E_load_pin l silent : event (loadTemporaryPIN l silent)
| E_save l : event (save l)
| E_rotate l : event (rotatePIN l)
| E_create l : event (createTemporaryPIN l)
| E_copy l : event (copyTemporaryPIN l)
| E_copied : event copied_expires
| E_revoke l : event (revokeTemporaryPIN l)
| E_newPIN v : event (modify (set_newPIN v))
| E_sources v : event (modify (set_sources v))
| E_minutes v : event (modify (set_minutes v))
| E_edit f : event (edit_settings f)
| E_clock_ticks : event clock_ticks
| E_status_ticks l : event (status_ticks l)
| E_unmounted : event (modify stop_timers)
| E_clock t : event (modify (fun p => set_clocks (clock p) t p)).

(** The mounted page: [load] has been started and the intervals run. *)
Definition mounted (t : num) : page := start_timers (init t).

(** ** Properties: the plaintext *)

(** A plaintext on the page is the one issued for the PIN on the page, and the
    intervals that run are the two the page remembers. *)
Definition page_ok (p : page) : Prop :=
  (temporaryPINPlain p <> [] -> exists t, temporaryPIN p = Some t /\
     plain_of p = Some (TemporaryEnrollmentPIN.id t, temporaryPINPlain p)) /\
  (forall id, id ∈ intervals p -> clockTimer p = Some id \/ statusTimer p = Some id).

Definition anything (p q : page) : Prop := True.

#[export] Instance anything_preorder : PreOrder anything.
Proof. by split. Qed.

(** Changes of what the invariant does not mention. *)
Lemma good_texts (f : page -> page) : (forall p, temporaryPIN (f p) = temporaryPIN p /\ temporaryPINPlain (f p) = temporaryPINPlain p /\
  plain_of (f p) = plain_of p /\ intervals (f p) = intervals p /\ clockTimer (f p) = clockTimer p /\ statusTimer (f p) = statusTimer p) ->
  good page_ok anything (modify f : M unit).
Proof.
  intros Hf. apply good_modify; [apply _|]. intros p Hp. split; [|done]. unfold page_ok in *.
  destruct (Hf p) as (-> & -> & -> & -> & -> & ->). done.
Qed.

Lemma good_latest t : good page_ok anything (modify (latest_pin t) : M unit).
Proof.
  apply good_modify; [apply _|]. intros p [Hp Hi]. split; [|done]. unfold latest_pin, same_pin.
  case_bool_decide as E; (split; [|done]); cbn; [|done]. intros Hne. destruct (Hp Hne) as (u & Hu & Ho).
  rewrite Hu in E. destruct t as [t|]; [|done]. injection E as E. exists t. by rewrite E.
Qed.

Lemma good_created l t : good page_ok anything (modify (created l t) : M unit).
Proof. apply good_modify; [apply _|]. intros p [Hp Hi]. split; [|done]. split; [|done]. cbn. eauto. Qed.

Lemma good_revoked l t : good page_ok anything
  (modify (fun p => set_status (text l (js "临时 PIN 已撤销。") (js "Temporary PIN revoked.")) (set_pin t [] None p)) : M unit).
Proof. apply good_modify; [apply _|]. intros p [Hp Hi]. split; [|done]. by split. Qed.

Lemma good_stop : good page_ok anything (modify stop_timers : M unit).
Proof.
  apply good_modify; [apply _|]. intros p [Hp Hi]. split; [|done]. split; [done|]. intros id Hid. apply Hi.
  cbn in Hid. destruct (clockTimer p), (statusTimer p); set_solver.
Qed.

Lemma good_rotated l weak : good page_ok anything (modify (rotated l weak) : M unit).
Proof. apply good_texts. intros p. unfold rotated. by destruct (settings p). Qed.

#[export] Hint Resolve good_latest good_created good_revoked good_stop good_rotated : good_db.
#[export] Hint Extern 9 (good page_ok anything (modify _)) => (apply good_texts; intros ?; split_and!; reflexivity) : good_db.

#[local] Opaque js text latest_pin created rotated stop_timers.

Lemma settings_event_good p : event p -> good page_ok anything p.
Proof.
  destruct 1; unfold edit_settings, load_site, loadTemporaryPIN, save, rotatePIN, createTemporaryPIN, copyTemporaryPIN, copied_expires,
    revokeTemporaryPIN, clock_ticks, status_ticks, when_running, loadTemporaryPIN, send; good_prog.
Qed.

#[local] Transparent js text latest_pin created rotated stop_timers.

Lemma page_ok_reachable t c : reachable event (mounted t) c -> page_ok (store c).
Proof.
  intros Hr. apply (rely_guarantee page_ok anything event (mounted t) c); [| |done].
  - intros p Hp. apply good_keeps; [apply _|by apply settings_event_good].
  - split; [done|]. cbn. set_solver.
Qed.

(** Whatever the order of answers (of loads, of the 15-second poll, of
    creating, rotating and revoking), a plaintext is only ever shown next to the
    PIN it was issued for, and no interval but the page's two runs, so that
    unmounting stops both. *)
Theorem plaintext_belongs t c : reachable event (mounted t) c ->
  page_ok (store c) /\ intervals (stop_timers (store c)) = ∅.
Proof.
  intros Hr. pose proof (page_ok_reachable t c Hr) as Hp. split; [done|]. destruct Hp as [_ Hi]. cbn. apply set_eq. intros id. split; [|set_solver].
  intros Hid. assert (id ∈ intervals (store c)) as H by (destruct (clockTimer _), (statusTimer _); set_solver).
  destruct (Hi id H) as [E|E]; rewrite E in Hid; [destruct (statusTimer _)|destruct (clockTimer _)]; set_solver.
Qed.

(** A PIN that has been issued. *)
Definition issued : TemporaryEnrollmentPIN.t :=
  TemporaryEnrollmentPIN.mk (js "p1") (Some (js "482913")) TemporaryEnrollmentPIN.active (js "2026-01-01T00:00:00Z")
    (js "2026-01-01T00:30:00Z") None None.

(** A server that issues it; a status request may be answered as of before. *)
Definition server (stored : option TemporaryEnrollmentPIN.t) : Env := fun r =>
  match r with
  | PostTemporary _ => inl issued
  | GetTemporary | DeleteTemporary => inl stored
  | PutPIN _ => inl false
  | SessionRefresh | PinLoaded | WriteClipboard _ => inl tt
  | GetSettings | PutSettings _ => inr NotAnError
  end.

Lemma plaintext_belongs_witness :
  let c := answer_at (server None) 0 (spawn (createTemporaryPIN en_US) (Config (mounted (#0)) [])) in
  temporaryPINPlain (store c) = js "482913" /\
  exists t, temporaryPIN (store c) = Some t /\ plain_of (store c) = Some (TemporaryEnrollmentPIN.id t, js "482913").
Proof.
  split; [vm_compute; reflexivity|].
  refine (proj1 (proj1 (plaintext_belongs (#0) _ _)) _); [|vm_compute; discriminate].
  eapply rtc_l; [apply Starts, (E_create en_US)|].
  eapply rtc_l; [apply (answer_at_step _ (server None) 0); eexists; reflexivity|apply rtc_refl].
Defined.

(** The one-time plaintext can be wiped before it was read: when the poll of
    the PIN's status has been answered by the server before the PIN was created,
    but arrives after the PIN, the page forgets the new PIN and its plaintext,
    which no later poll can bring back. *)
Theorem stale_poll_wipes_plaintext t l :
  let run := fold_left (fun c f => f c) in
  let shown := run [spawn (status_ticks l); spawn (createTemporaryPIN l); answer_at (server None) 1] (Config (mounted t) []) in
  let wiped := answer_at (server None) 0 shown in
  let polled := answer_at (server (Some issued)) 0 (spawn (status_ticks l) wiped) in
  reachable event (mounted t) polled /\
  temporaryPINPlain (store shown) = js "482913" /\
  temporaryPIN (store wiped) = None /\ temporaryPINPlain (store wiped) = [] /\
  temporaryPIN (store polled) = Some issued /\ temporaryPINPlain (store polled) = [].
Proof.
  intros run shown wiped polled. split_and!; [|vm_compute; reflexivity..].
  unfold polled, wiped, shown, run. cbn [fold_left].
  eapply rtc_l; [apply Starts, (E_status_ticks l)|]. eapply rtc_l; [apply Starts, (E_create l)|].
  eapply rtc_l; [apply (answer_at_step _ (server None) 1); eexists; vm_compute; reflexivity|].
  eapply rtc_l; [apply (answer_at_step _ (server None) 0); eexists; vm_compute; reflexivity|].
  eapply rtc_l; [apply Starts, (E_status_ticks l)|].
  eapply rtc_l; [apply (answer_at_step _ (server (Some issued)) 0); eexists; vm_compute; reflexivity|apply rtc_refl].
Qed.

(** ** Properties: the remaining time *)

(** The label of a number of whole seconds. *)
Definition remaining_label (l : AppLocale) (s : Z) : jsstr :=
  let minutes := ((s + 59) / 60)%Z in
  if Z.ltb s 60 then text l (js "不足 1 分钟") (js "less than 1 minute")
  else if Z.ltb minutes 60 then
    text l (js "剩余 " ++ toString (#minutes) ++ js " 分钟")%list (toString (#minutes) ++ js " minutes left")%list
  else
    text l (js "剩余 " ++ toString (#(minutes / 60)) ++ js " 小时 " ++ toString (#(minutes mod 60)) ++ js " 分钟")%list
      (toString (#(minutes / 60)) ++ js "h " ++ toString (#(minutes mod 60)) ++ js "m left")%list.

Lemma remaining_seconds e c : 0 <= c < e -> e < 2 ^ 44 ->
  max (#0) (ceil ((#e - #c) / #1000)) = #((e - c + 999) / 1000).
Proof.
  intros Hc He. destruct (sub_of_Z e c) as [Hf Hi]; [lia..|].
  assert (Hv : valid (#e - #c)) by (apply sub_valid; auto with hostpin).
  rewrite (ival_of_Z (#e - #c) (e - c)) by (done || lia).
  replace (e - c + 999)%Z with (e - c + 1000 - 1)%Z by lia.
  assert (Hq : 1 <= (e - c + 1000 - 1) / 1000 < 2 ^ 35) by (split; [apply Z.div_le_lower_bound|apply Z.div_lt_upper_bound]; lia).
  rewrite (ceil_div (e - c) 1000 10) by lia. apply max_0_pos. rewrite ltb_of_Z by lia. apply Z.ltb_lt. lia.
Qed.

(** An active PIN counts as expired exactly from its expiry instant on, and
    can be revoked exactly while it is active or used; before that, the
    remaining time shown is the exact number of minutes, rounded up, in hours
    and minutes from an hour on (instants up to the year 2527). *)
Theorem temporaryRemaining_exact `{DateHost} l p t e c :
  temporaryPIN p = Some t -> TemporaryEnrollmentPIN.status t = TemporaryEnrollmentPIN.active ->
  parse (TemporaryEnrollmentPIN.expires_at t) = #e -> clock p = #c -> 0 <= c < 2 ^ 44 -> 0 <= e < 2 ^ 44 ->
  (c < e -> effectiveTemporaryStatus p = Some TemporaryEnrollmentPIN.active /\ canRevokeTemporaryPIN p = true /\
     temporaryRemaining l p = remaining_label l ((e - c + 999) / 1000)) /\
  (e <= c -> effectiveTemporaryStatus p = Some TemporaryEnrollmentPIN.expired /\ canRevokeTemporaryPIN p = false /\
     temporaryRemaining l p = []).
Proof.
  intros Ht Hs He Hc Bc Be. unfold temporaryRemaining, canRevokeTemporaryPIN, effectiveTemporaryStatus.
  rewrite Ht, Hs, bool_decide_eq_true_2, He, Hc, leb_of_Z by (done || lia). cbn [andb]. split; intros Hlt.
  - rewrite (proj2 (Z.leb_gt e c)) by lia. split_and!; try done. rewrite remaining_seconds by lia.
    set (s := ((e - c + 999) / 1000)%Z).
    assert (Hsb : 1 <= s < 2 ^ 35) by (unfold s; split; [apply Z.div_le_lower_bound|apply Z.div_lt_upper_bound]; lia).
    replace (s + 59)%Z with (s + 60 - 1)%Z by lia. unfold remaining_label. replace (s + 59)%Z with (s + 60 - 1)%Z by lia.
    assert (Hm : 1 <= (s + 60 - 1) / 60 < 2 ^ 35) by (split; [apply Z.div_le_lower_bound|apply Z.div_lt_upper_bound]; lia).
    rewrite ltb_of_Z, (ceil_div s 60 6), ltb_of_Z, rem_of_Z by lia.
    set (m := ((s + 60 - 1) / 60)%Z) in *.
    assert (Hh : 0 <= m / 60 < 2 ^ 35) by (split; [apply Z.div_pos|apply Z.div_lt_upper_bound]; lia).
    rewrite (floor_div m 60 6) by lia. done.
  - rewrite (proj2 (Z.leb_le e c)) by lia. done.
Qed.

Lemma temporaryRemaining_exact_witness :
  @temporaryRemaining utc_host en_US (set_pin (Some issued) [] None (init (#1767223200000))) = js "1h 10m left".
Proof.
  pose proof (@temporaryRemaining_exact utc_host en_US (set_pin (Some issued) [] None (init (#1767223200000))) issued
    1767227400000 1767223200000 eq_refl eq_refl ltac:(vm_compute; reflexivity) eq_refl ltac:(lia) ltac:(lia)) as [Hr _].
  destruct (Hr ltac:(lia)) as (_ & _ & ->). vm_compute. reflexivity.
Defined.

(** ** Properties: saving *)

(** Loading the settings and saving them unchanged sends back exactly what
    the server gave, the list of theme sources included, provided the stored
    sources are trimmed lines; the answer becomes the new settings, and the
    success is reported only after the session has been refreshed. *)
Theorem settings_save_unchanged (env : Env) l p s srcs :
  SiteSettings.theme_market_sources s = Some srcs -> Forall (item_ok newline) srcs ->
  env GetSettings = inl s -> env PinLoaded = inl tt ->
  let q := final (exec env (load_site l) p) in
  let o := exec env (save l) q in
  settings q = Some s /\ error q = [] /\
  match env (PutSettings s) with
  | inl saved =>
      calls o = [One (PutSettings s); One SessionRefresh] /\ settings (final o) = Some saved /\
      (status (final o) <> [] <-> env SessionRefresh = inl tt)
  | inr e => calls o = [One (PutSettings s)] /\ settings (final o) = Some s /\ status (final o) = [] /\
             error (final o) = reason_message e (text l (js "保存失败。") (js "Save failed."))
  end.
Proof.
  intros Hs Ho E1 E2. cbn zeta.
  assert (Hq : final (exec env (load_site l) p) = set_sources (shown_sources s) (set_settings (Some s) (clearMessages p)))
    by (cbn; by rewrite E1, E2).
  rewrite Hq. split_and!; [done..|]. set (q := set_sources _ _).
  assert (Hw : with_sources s (Some (items newline (sources q))) (SiteSettings.enrollment_pin_weak s) = s).
  { change (sources q) with (shown_sources s). unfold shown_sources. rewrite Hs. cbn [fmap option_fmap option_map nullish default].
    change (id (join srcs [newline])) with (join srcs [newline]).
    rewrite (items_join newline []) by (done || set_solver || constructor). rewrite <- Hs. by destruct s. }
  unfold save. cbn [bind get exec]. change (settings q) with (Some s). cbv iota zeta. rewrite Hw. cbn -[q js].
  destruct (env (PutSettings s)) as [saved|e]; cbn -[q js]; [|done].
  destruct (env SessionRefresh) as [[]|e]; cbn -[q js]; split_and!; try done. by destruct l.
Qed.

Lemma settings_save_unchanged_witness :
  let env : Env := fun r =>
    match r with
    | GetSettings | PutSettings _ => inl a_site
    | PinLoaded | SessionRefresh | WriteClipboard _ => inl tt
    | PutPIN _ | PostTemporary _ | GetTemporary | DeleteTemporary => inr NotAnError
    end in
  calls (exec env (save en_US) (final (exec env (load_site en_US) (init (#0))))) = [One (PutSettings a_site); One SessionRefresh].
Proof.
  intros env.
  refine (proj1 (proj2 (proj2 (settings_save_unchanged env en_US (init (#0)) a_site
    [js "https://a.example/themes.json"; js "https://b.example/themes.json"] eq_refl _ eq_refl eq_refl)))).
  repeat constructor; try discriminate; apply (bool_decide_unpack _); vm_compute; exact Logic.I.
Defined.
