(* ===== verification/AdminSecurity.v ===== *)
(** * AdminSecurity: sessions, two-factor setup, API keys and share links
    (web/src/components/admin/AdminSecurity.vue)

    Every button of the page runs a handler through [act], which shows what the
    handler throws.  The answer of [confirm] is an argument; the message of the
    RangeError of an invalid date is the host's. *)

From Stdlib Require Import Strings.String.
From S2P Require Import Prelude JsString Binary64 JsNumber JsInteger JsDate Async I18n Types Format.

Open Scope Z_scope.
Open Scope num_scope.
Open Scope async_scope.

Module LoginSession.
Record t := mk { id : jsstr; ip_address : jsstr; user_agent : jsstr; created_at : jsstr; expires_at : jsstr; current : bool }.
End LoginSession.

Module APIKey.
Record t := mk { id : jsstr; name : jsstr; scopes : list jsstr; last_used_at : option jsstr; expires_at : option jsstr; created_at : jsstr }.
End APIKey.

Module ShareLink.
Record t := mk { id : jsstr; node_ids : list jsstr; expires_at : jsstr; created_at : jsstr; revoked_at : option jsstr }.
End ShareLink.

(** ** State *)

(** The lists the server gives. *)
Record lists := mkLists {
  sessions : list LoginSession.t; keys : list APIKey.t; shares : list ShareLink.t; nodes : list AdminNode.t;
}.

(** The two-factor form. *)
Record totp := mkTotp {
  twoFactor : bool; setupToken : jsstr; totpSecret : jsstr; totpURL : jsstr; totpCode : jsstr; recoveryCodes : list jsstr;
  disablePassword : jsstr;
}.

(** The other inputs and what is revealed once. *)
Record inputs := mkInputs {
  keyName : jsstr; keyDays : num; revealedKey : jsstr; shareNodes : list jsstr; shareExpiry : jsstr; revealedShare : jsstr;
  currentPassword : jsstr; newPassword : jsstr;
}.

Record page := mkPage {
  data : lists; two : totp; form : inputs; status : jsstr; error : jsstr;
  href : option jsstr;   (* location.href, once assigned *)
}.

(** [new Date(Date.now() + 7 * 86400_000).toISOString().slice(0, 16)] at the
    instant [t]. *)
Definition initial_expiry (t : Z) : jsstr := slice (toISOString (t + 7 * 86400000)) 0 16.

Definition init (t : Z) : page :=
  mkPage (mkLists [] [] [] []) (mkTotp false [] [] [] [] [] [])
    (mkInputs (js "automation") (#365) [] [] (initial_expiry t) [] [] []) [] [] None.

Definition set_data (d : lists) (p : page) : page := mkPage d (two p) (form p) (status p) (error p) (href p).
Definition set_two (t : totp) (p : page) : page := mkPage (data p) t (form p) (status p) (error p) (href p).
Definition set_form (f : inputs) (p : page) : page := mkPage (data p) (two p) f (status p) (error p) (href p).
Definition set_lines (s e : jsstr) (p : page) : page := mkPage (data p) (two p) (form p) s e (href p).
Definition set_status (s : jsstr) (p : page) : page := set_lines s (error p) p.
Definition set_error (e : jsstr) (p : page) : page := set_lines (status p) e p.
Definition set_href (h : jsstr) (p : page) : page := mkPage (data p) (two p) (form p) (status p) (error p) (Some h).

Definition set_twoFactor (b : bool) (t : totp) : totp :=
  mkTotp b (setupToken t) (totpSecret t) (totpURL t) (totpCode t) (recoveryCodes t) (disablePassword t).

(** ** Calls *)

Inductive Req :=
| GetSessions | GetKeys | GetShares | GetNodes | GetMe      (* of load; me: two_factor_enabled *)
| SetupTOTP                                                 (* POST .../security/totp/setup *)
| ConfirmTOTP (setup_token code : jsstr)
| DisableTOTP (password : jsstr)
| PutPassword (current_password new_password : jsstr)
| CreateKey (name : jsstr) (expires_in_days : num)
| DeleteKey (id : jsstr)
| DeleteSession (id : jsstr)
| RevokeOthers
| CreateShare (node_ids : list jsstr) (expires_at : jsstr)
| DeleteShare (id : jsstr).

Definition Resp (r : Req) : Type :=
  match r with
  | GetSessions => list LoginSession.t
  | GetKeys => list APIKey.t
  | GetShares => list ShareLink.t
  | GetNodes => list AdminNode.t
  | GetMe => option bool
  | SetupTOTP => (jsstr * jsstr * jsstr)%type      (* secret, otpauth_url, setup_token *)
  | ConfirmTOTP _ _ => list jsstr                  (* recovery_codes *)
  | CreateKey _ _ | CreateShare _ _ => jsstr       (* token, url *)
  | DisableTOTP _ | PutPassword _ _ | DeleteKey _ | DeleteSession _ | RevokeOthers | DeleteShare _ => unit
  end.

Definition M := prog page Req Resp.
Definition Env := forall r : Req, (Resp r + exn)%type.
Definition send (r : Req) : M (Resp r) := await (One r).

(** ** Handlers *)

Definition load_calls : call Req :=
  All2 (One GetSessions) (All2 (One GetKeys) (All2 (One GetShares) (All2 (One GetNodes) (One GetMe)))).

Definition load : M unit :=
  let! r := (await load_calls : M (answer Resp load_calls)) in
  let '(ss, (ks, (sh, (ns, me)))) := r in
  modify (fun p => set_two (set_twoFactor (nullish me false) (two p)) (set_data (mkLists ss ks sh ns) p)).

Definition beginTOTP : M unit :=
  let! r := (send SetupTOTP : M (jsstr * jsstr * jsstr)) in
  let '(secret, url, token) := r in
  modify (fun p => set_two (mkTotp (twoFactor (two p)) token secret url (totpCode (two p)) (recoveryCodes (two p)) (disablePassword (two p))) p).

Definition confirmTOTP (l : AppLocale) : M unit :=
  let! p := get in
  let! codes := (send (ConfirmTOTP (setupToken (two p)) (totpCode (two p))) : M (list jsstr)) in
  modify (fun p =>
    set_status (text l (js "两步验证已启用，请立即保存恢复码。") (js "Two-factor authentication enabled. Save the recovery codes now."))
      (set_two (mkTotp true [] (totpSecret (two p)) (totpURL (two p)) (totpCode (two p)) codes (disablePassword (two p))) p)).

Definition disableTOTP (l : AppLocale) : M unit :=
  let! p := get in
  do! (send (DisableTOTP (disablePassword (two p))) : M unit);
  modify (fun p =>
    set_status (text l (js "两步验证已关闭。") (js "Two-factor authentication disabled."))
      (set_two (mkTotp false (setupToken (two p)) (totpSecret (two p)) (totpURL (two p)) (totpCode (two p)) (recoveryCodes (two p)) []) p)).

Definition changePassword (l : AppLocale) : M unit :=
  let! p := get in
  do! (send (PutPassword (currentPassword (form p)) (newPassword (form p))) : M unit);
  modify (fun p => let f := form p in
    set_status (text l (js "密码已更换。") (js "Password changed."))
      (set_form (mkInputs (keyName f) (keyDays f) (revealedKey f) (shareNodes f) (shareExpiry f) (revealedShare f) [] []) p)).

Definition createKey : M unit :=
  let! p := get in
  let! token := (send (CreateKey (keyName (form p)) (keyDays (form p))) : M jsstr) in
  do! modify (fun p => let f := form p in
    set_form (mkInputs (keyName f) (keyDays f) token (shareNodes f) (shareExpiry f) (revealedShare f) (currentPassword f) (newPassword f)) p);
  load.

Definition revokeKey (confirmed : bool) (k : APIKey.t) : M unit :=
  if confirmed then do! (send (DeleteKey (APIKey.id k)) : M unit); load else Ret tt.

Definition revokeSession (s : LoginSession.t) : M unit :=
  do! (send (DeleteSession (LoginSession.id s)) : M unit);
  if LoginSession.current s then modify (set_href (js "/login")) else load.

Definition revokeOthers : M unit := do! (send RevokeOthers : M unit); load.

Section Share.
Context `{DateHost} (invalid_time : jsstr).

Definition createShare : M unit :=
  let! p := get in
  match Date_toISOString (parse (shareExpiry (form p))) with
  | None => Throw (OtherError invalid_time)
  | Some expires =>
      let! url := (send (CreateShare (shareNodes (form p)) expires) : M jsstr) in
      do! modify (fun p => let f := form p in
        set_form (mkInputs (keyName f) (keyDays f) (revealedKey f) (shareNodes f) (shareExpiry f) url (currentPassword f) (newPassword f)) p);
      load
  end.

End Share.

Definition revokeShare (k : ShareLink.t) : M unit := do! (send (DeleteShare (ShareLink.id k)) : M unit); load.

Definition act (l : AppLocale) (action : M unit) : M unit :=
  do! modify (set_lines [] []);
  try_catch action
    (fun reason => modify (set_error (reason_message reason (text l (js "安全设置操作失败。") (js "Security operation failed."))))).

(** ** Properties *)

(** The handlers of the page's buttons. *)
Inductive action `{DateHost} (invalid_time : jsstr) (l : AppLocale) : M unit -> Prop :=
| A_load : action invalid_time l load
| A_begin : action invalid_time l beginTOTP
| A_confirm : action invalid_time l (confirmTOTP l)
| A_disable : action invalid_time l (disableTOTP l)
| A_password : action invalid_time l (changePassword l)
| A_createKey : action invalid_time l createKey
| A_revokeKey b k : action invalid_time l (revokeKey b k)
| A_revokeSession s : action invalid_time l (revokeSession s)
| A_revokeOthers : action invalid_time l revokeOthers
| A_createShare : action invalid_time l (createShare invalid_time)
| A_revokeShare s : action invalid_time l (revokeShare s).

Lemma security_exec_load (env : Env) p :
  let o := exec env load p in
  calls o = [load_calls] /\ error (final o) = error p /\ status (final o) = status p /\ form (final o) = form p /\
  (forall e, result o = inr e -> final o = p).
Proof.
  unfold load. cbn [await bind exec]. destruct (ask env load_calls) as [a|e]; [|cbn; split_and!; try done].
  cbn in a. destruct a as (ss & ks & sh & ns & me). cbn. split_and!; try done.
Qed.

(** An action that has run before [load]. *)
Lemma error_kept `{DateHost} invalid_time l (env : Env) a p : action invalid_time l a ->
  let o := exec env a p in
  error (final o) = error p /\ (forall e, result o = inr e -> status (final o) = status p).
Proof.
  destruct 1; cbn zeta.
  - destruct (security_exec_load env p) as (_ & -> & -> & _). done.
  - unfold beginTOTP. cbn. destruct (env SetupTOTP) as [[[? ?] ?]|e]; done.
  - unfold confirmTOTP. cbn. destruct (env (ConfirmTOTP _ _)); done.
  - unfold disableTOTP. cbn. destruct (env (DisableTOTP _)); done.
  - unfold changePassword. cbn. destruct (env (PutPassword _ _)); done.
  - unfold createKey. cbn [bind get exec]. rewrite exec_bind. cbn -[load]. destruct (env (CreateKey _ _)); cbn -[load]; [|done].
    set (q := set_form _ _). destruct (security_exec_load env q) as (_ & -> & -> & _). done.
  - destruct b; [|done]. unfold revokeKey. rewrite exec_bind. cbn -[load]. destruct (env (DeleteKey _)); cbn -[load]; [|done].
    destruct (security_exec_load env p) as (_ & -> & -> & _). done.
  - unfold revokeSession. rewrite exec_bind. cbn -[load]. destruct (env (DeleteSession _)); cbn -[load]; [|done].
    destruct (LoginSession.current s); [done|]. destruct (security_exec_load env p) as (_ & -> & -> & _). done.
  - unfold revokeOthers. rewrite exec_bind. cbn -[load]. destruct (env RevokeOthers); cbn -[load]; [|done].
    destruct (security_exec_load env p) as (_ & -> & -> & _). done.
  - unfold createShare. cbn [bind get exec]. destruct (Date_toISOString _); [|done]. rewrite exec_bind. cbn -[load].
    destruct (env (CreateShare _ _)); cbn -[load]; [|done].
    set (q := set_form _ _). destruct (security_exec_load env q) as (_ & -> & -> & _). done.
  - unfold revokeShare. rewrite exec_bind. cbn -[load]. destruct (env (DeleteShare _)); cbn -[load]; [|done].
    destruct (security_exec_load env p) as (_ & -> & -> & _). done.
Qed.

(** A button of the security page never leaves an unhandled rejection: its
    action ends normally, an error is shown exactly when the action threw (with
    its message), and then no success message remains on the page. *)
Theorem act_outcome `{DateHost} invalid_time l (env : Env) a p : action invalid_time l a ->
  let o := exec env (act l a) p in
  let inner := exec env a (set_lines [] [] p) in
  result o = inl tt /\ calls o = calls inner /\
  match result inner with
  | inl _ => error (final o) = [] /\ final o = final inner
  | inr e => error (final o) = reason_message e (text l (js "安全设置操作失败。") (js "Security operation failed.")) /\
             status (final o) = []
  end.
Proof.
  intros Ha. cbn zeta. unfold act. rewrite exec_bind. cbn [modify exec result final calls app].
  rewrite exec_try_catch. pose proof (error_kept invalid_time l env a (set_lines [] [] p) Ha) as [He Hs].
  set (inner := exec env a _) in *. destruct (result inner) as [[]|e] eqn:E; cbn; rewrite E; cbn.
  - done.
  - rewrite app_nil_r. split_and!; try done. by apply (Hs e).
Qed.

(** ** The expiry of a share link *)

Definition minute_of (t : Z) : Z := t - t mod 60000.

Lemma initial_expiry_parsed `{DateHost} t : four_digit_year (t + 7 * 86400000) ->
  parse (initial_expiry t) = #(minute_of (t + 7 * 86400000) - localTZA (minute_of (t + 7 * 86400000))).
Proof. intros Ht. unfold parse, initial_expiry. by rewrite parseISO_slice16. Qed.

(** The expiry preset for a share link is not seven days ahead: the form is
    filled with the UTC wall clock, and the wall clock is then read as local
    time, so that the link expires earlier than meant by exactly the local
    offset to UTC (and later west of Greenwich); it is right only where local
    time is UTC.  A date that is not valid sends nothing. *)
Theorem share_expiry_shifted `{DateHost} invalid_time (env : Env) t :
  let meant := minute_of (t + 7 * 86400000) in
  0 <= t < 2 ^ 44 -> - 86400000 < localTZA meant < 86400000 ->
  let o := exec env (createShare invalid_time) (init t) in
  head (calls o) = Some (One (CreateShare [] (toISOString (meant - localTZA meant)))) /\
  (toISOString (meant - localTZA meant) = toISOString meant <-> localTZA meant = 0%Z).
Proof.
  intros meant Ht Hz. cbn zeta.
  assert (Hm : 0 <= meant <= t + 7 * 86400000).
  { unfold meant, minute_of. pose proof (Z.mod_pos_bound (t + 7 * 86400000) 60000 ltac:(lia)).
    pose proof (Z.mod_le (t + 7 * 86400000) 60000 ltac:(lia) ltac:(lia)). lia. }
  assert (Hy : forall u, - 86400000 < u < 2 ^ 44 + 800000000 -> four_digit_year u).
  { intros u Hu. unfold four_digit_year. change (days_from_civil 0 1 1 * msPerDay)%Z with (-62167219200000)%Z.
    change (days_from_civil 10000 1 1 * msPerDay)%Z with 253402300800000%Z. lia. }
  split.
  - unfold createShare. cbn [bind get exec]. change (shareExpiry (form (init t))) with (initial_expiry t).
    rewrite initial_expiry_parsed by (apply Hy; lia). fold meant. unfold Date_toISOString.
    rewrite to_Z_of_Z, leb_true by lia. rewrite exec_bind. cbn -[load toISOString].
    by destruct (env (CreateShare _ _)).
  - split; [|intros ->; by rewrite Z.sub_0_r]. intros He.
    apply (f_equal parseISO) in He. rewrite !parseISO_toISOString in He by (apply Hy; lia). injection He. lia.
Qed.

(** A host one hour ahead of UTC. *)
Definition cet : DateHost := {| localTZA _ := 3600000; parse_other _ := NaN |}.

Lemma share_expiry_shifted_witness :
  let env : Env := fun r =>
    match r with
    | CreateShare _ _ => inl []
    | GetSessions | GetKeys | GetShares | GetNodes | GetMe | SetupTOTP | ConfirmTOTP _ _ | CreateKey _ _
    | DisableTOTP _ | PutPassword _ _ | DeleteKey _ | DeleteSession _ | RevokeOthers | DeleteShare _ => inr NotAnError
    end in
  head (calls (exec env (@createShare cet []) (init 1767225600000)))
  = Some (One (CreateShare [] (js "2026-01-07T23:00:00.000Z"))).
Proof.
  intros env. apply (@share_expiry_shifted cet [] env 1767225600000); cbn; lia.
Defined.

Lemma act_outcome_witness :
  let env : Env := fun r =>
    match r with
    | PutPassword _ _ => inr (OtherError (js "wrong password"))
    | GetSessions | GetKeys | GetShares | GetNodes | GetMe | SetupTOTP | ConfirmTOTP _ _ | CreateKey _ _
    | DisableTOTP _ | CreateShare _ _ | DeleteKey _ | DeleteSession _ | RevokeOthers | DeleteShare _ => inr NotAnError
    end in
  error (final (exec env (act en_US (changePassword en_US)) (init 0))) = js "wrong password".
Proof.
  intros env. apply (@act_outcome cet [] en_US env (changePassword en_US) (init 0)). apply A_password.
Defined.
