(* ===== verification/AdminProbes.v ===== *)
(** * AdminProbes: service probes and carrier probes
    (web/src/components/admin/AdminProbes.vue)

    Two lists of tasks, each with an editor of its own.  [clone] copies the
    record; the answer of [confirm] is an argument. *)

From Stdlib Require Import Strings.String.
From S2P Require Import Prelude JsString Binary64 JsNumber Async I18n Types AdminForms.

Open Scope async_scope.

(** ** State *)

Record page := mkPage {
  tasks : list ProbeTask.t;
  carrierTasks : list ProbeTask.t;
  nodes : list AdminNode.t;
  editing : option ProbeTask.t;
  carrierEditing : option ProbeTask.t;
  error : jsstr; carrierError : jsstr; busy : bool;
}.

Definition init : page := mkPage [] [] [] None None [] [] false.

Definition set_lists (t c : list ProbeTask.t) (n : list AdminNode.t) (p : page) : page :=
  mkPage t c n (editing p) (carrierEditing p) (error p) (carrierError p) (busy p).
Definition set_tasks (t : list ProbeTask.t) (p : page) : page := set_lists t (carrierTasks p) (nodes p) p.
Definition set_carrierTasks (t : list ProbeTask.t) (p : page) : page := set_lists (tasks p) t (nodes p) p.
Definition set_editing (e : option ProbeTask.t) (p : page) : page :=
  mkPage (tasks p) (carrierTasks p) (nodes p) e (carrierEditing p) (error p) (carrierError p) (busy p).
Definition set_carrierEditing (e : option ProbeTask.t) (p : page) : page :=
  mkPage (tasks p) (carrierTasks p) (nodes p) (editing p) e (error p) (carrierError p) (busy p).
Definition set_error (e : jsstr) (p : page) : page :=
  mkPage (tasks p) (carrierTasks p) (nodes p) (editing p) (carrierEditing p) e (carrierError p) (busy p).
Definition set_carrier (e : jsstr) (b : bool) (p : page) : page :=
  mkPage (tasks p) (carrierTasks p) (nodes p) (editing p) (carrierEditing p) (error p) e b.

(** ** Calls *)

Inductive Req :=
| GetTasks | GetCarrierTasks | GetNodes
| PostProbe (t : ProbeTask.t)                    (* POST /api/v1/admin/probes *)
| PutProbe (id : num) (t : ProbeTask.t)          (* PUT /api/v1/admin/probes/ID *)
| PutCarrier (key : jsstr) (t : ProbeTask.t)     (* PUT /api/v1/admin/carrier-probes/KEY *)
| DeleteProbe (id : num).

Definition Resp (r : Req) : Type :=
  match r with
  | GetTasks | GetCarrierTasks => list ProbeTask.t
  | GetNodes => list AdminNode.t
  | PostProbe _ | PutProbe _ _ | PutCarrier _ _ => ProbeTask.t
  | DeleteProbe _ => unit
  end.

Definition M := prog page Req Resp.
Definition Env := forall r : Req, (Resp r + exn)%type.
Definition send (r : Req) : M (Resp r) := await (One r).

(** ** Handlers *)

Definition blank : ProbeTask.t :=
  ProbeTask.mk (#0) [] ProbeTask.tcp [] (#60) (#5) (Some (#200)) (Some []) (Some []) (Some ProbeTask.custom)
    (Some monitor) None false (#1) true None None.

Definition edit (t : ProbeTask.t) (p : page) : page := set_editing (Some t) p.
Definition editCarrier (t : ProbeTask.t) (p : page) : page := set_carrier [] (busy p) (set_carrierEditing (Some t) p).

Definition carrierKey (t : ProbeTask.t) : jsstr :=
  nullish (ProbeTask.purpose t ≫= fun q => split (ProbeTask.purpose_str q) (js ".") !! 1%nat) [].

Definition carrierName (l : AppLocale) (t : ProbeTask.t) : jsstr :=
  match ProbeTask.purpose t with
  | Some ProbeTask.carrier_telecom => text l (js "中国电信") (js "China Telecom")
  | Some ProbeTask.carrier_unicom => text l (js "中国联通") (js "China Unicom")
  | Some ProbeTask.carrier_mobile => text l (js "中国移动") (js "China Mobile")
  | _ => ProbeTask.name t
  end.

Definition load : M unit :=
  let! r := (await (All2 (One GetTasks) (All2 (One GetCarrierTasks) (One GetNodes)))
             : M (list ProbeTask.t * (list ProbeTask.t * list AdminNode.t))) in
  modify (set_lists r.1 r.2.1 r.2.2).

Definition by_id (saved : ProbeTask.t) (t : ProbeTask.t) : bool := same_id ProbeTask.id t saved.

(** [editing.value.id ? PUT : POST]. *)
Definition save_request (t : ProbeTask.t) : M ProbeTask.t :=
  if truthy_num (ProbeTask.id t) then (send (PutProbe (ProbeTask.id t) t) : M ProbeTask.t)
  else (send (PostProbe t) : M ProbeTask.t).

Definition saved_probe (saved : ProbeTask.t) (p : page) : page :=
  set_editing None (set_tasks (put_or_push (by_id saved) saved (tasks p)) p).

Definition save (l : AppLocale) : M unit :=
  let! p := get in
  match editing p with
  | None => Ret tt
  | Some t =>
      do! modify (set_error []);
      try_catch
        (let! saved := save_request t in modify (saved_probe saved))
        (fun reason => modify (set_error (reason_message reason (text l (js "无法保存探测任务。") (js "Could not save probe.")))))
  end.

Definition saved_carrier (saved : ProbeTask.t) (p : page) : page :=
  set_carrierEditing None (set_carrierTasks (put_found (by_id saved) saved (carrierTasks p)) p).

Definition saveCarrier (l : AppLocale) : M unit :=
  let! p := get in
  match carrierEditing p with
  | None => Ret tt
  | Some t =>
      do! modify (set_carrier [] true);
      finally
        (try_catch
           (let! saved := (send (PutCarrier (carrierKey t) t) : M ProbeTask.t) in modify (saved_carrier saved))
           (fun reason => modify (fun p => set_carrier (reason_message reason
              (text l (js "无法保存三网延迟设置。") (js "Could not save carrier latency settings."))) (busy p) p)))
        (modify (fun p => set_carrier (carrierError p) false p))
  end.

Definition remove (confirmed : bool) (t : ProbeTask.t) : M unit :=
  unless (negb confirmed)
    (do! (send (DeleteProbe (ProbeTask.id t)) : M unit);
     modify (fun p => set_tasks (List.filter (fun x => negb (same_id ProbeTask.id x t)) (tasks p)) p)).

(** ** Saving, computed *)

(** The request of a save and its answer. *)
Definition requested (t : ProbeTask.t) : Req := if truthy_num (ProbeTask.id t) then PutProbe (ProbeTask.id t) t else PostProbe t.
Definition save_answer (env : Env) (t : ProbeTask.t) : ProbeTask.t + exn :=
  if truthy_num (ProbeTask.id t) then env (PutProbe (ProbeTask.id t) t) else env (PostProbe t).

Definition failed (l : AppLocale) (e : exn) (p : page) : page :=
  set_error (reason_message e (text l (js "无法保存探测任务。") (js "Could not save probe."))) p.

Lemma exec_save (env : Env) l p t : editing p = Some t ->
  exec env (save l) p
  = Outcome [One (requested t)]
      (match save_answer env t with inl saved => saved_probe saved (set_error [] p) | inr e => failed l e (set_error [] p) end) (inl tt).
Proof.
  intros He. unfold save, save_request, save_answer, requested. cbn [bind get exec]. rewrite He. cbv iota.
  destruct (truthy_num (ProbeTask.id t)); cbn -[put_or_push saved_probe].
  - by destruct (env (PutProbe _ _)).
  - by destruct (env (PostProbe _)).
Qed.

(** ** Properties *)

(** C25: Saving a probe sends one request, a creation for a new task and an update
    of its own id otherwise; the saved task replaces the one with its id in its
    place, or comes last when there was none, every other task stays where it was
    and unique ids stay unique; the editor closes only then: a failure keeps the
    editor, its contents and the list, and shows why. *)
Theorem probe_save_outcome (env : Env) l p t : editing p = Some t ->
  let o := exec env (save l) p in
  let request := if truthy_num (ProbeTask.id t) then PutProbe (ProbeTask.id t) t else PostProbe t in
  result o = inl tt /\ calls o = [One request] /\ (unique_ids ProbeTask.id (tasks p) -> unique_ids ProbeTask.id (tasks (final o))) /\
  match (if truthy_num (ProbeTask.id t) then env (PutProbe (ProbeTask.id t) t) else env (PostProbe t)) with
  | inl saved =>
      editing (final o) = None /\ error (final o) = [] /\ placed ProbeTask.id saved (tasks p) (tasks (final o))
  | inr e =>
      editing (final o) = Some t /\ tasks (final o) = tasks p /\
      error (final o) = reason_message e (text l (js "无法保存探测任务。") (js "Could not save probe."))
  end.
Proof.
  intros He. cbn zeta. rewrite (exec_save env l p t He). change (if truthy_num (ProbeTask.id t) then env _ else env _) with (save_answer env t).
  destruct (save_answer env t) as [saved|e]; cbn -[put_or_push requested]; [|done].
  split_and!; try done; [|apply (put_or_push_placed ProbeTask.id)]. intros Hu. by apply (put_or_push_unique ProbeTask.id).
Qed.

(** A list of two tasks, the second of them being edited. *)
Definition a_task (id : Z) (name : jsstr) : ProbeTask.t :=
  ProbeTask.mk (#id) name ProbeTask.http (js "https://example.org") (#60) (#5) (Some (#200)) None None None None None true (#1) true None None.

Definition two_tasks : page := mkPage [a_task 1 []; a_task 2 []] [] [] (Some (a_task 2 (js "renamed"))) None [] [] false.

Definition echo : Env := fun r =>
  match r with
  | PostProbe t | PutProbe _ t | PutCarrier _ t => inl t
  | GetTasks | GetCarrierTasks | GetNodes | DeleteProbe _ => inr NotAnError
  end.

Lemma probe_save_outcome_witness :
  let o := exec echo (save en_US) two_tasks in
  editing (final o) = None /\ placed ProbeTask.id (a_task 2 (js "renamed")) [a_task 1 []; a_task 2 []] (tasks (final o)).
Proof.
  destruct (probe_save_outcome echo en_US two_tasks (a_task 2 (js "renamed")) eq_refl) as (_ & _ & _ & H1 & _ & H2).
  split; [exact H1|exact H2].
Defined.

(** Saving a carrier probe addresses the carrier by the last part of its
    purpose, never adds a task to the list, and leaves the form idle whatever
    the answer. *)
Theorem carrier_save_outcome (env : Env) l p t : carrierEditing p = Some t ->
  let o := exec env (saveCarrier l) p in
  result o = inl tt /\ calls o = [One (PutCarrier (carrierKey t) t)] /\ busy (final o) = false /\
  tasks (final o) = tasks p /\ length (carrierTasks (final o)) = length (carrierTasks p) /\
  (is_Some (carrierEditing (final o)) <-> exists e, env (PutCarrier (carrierKey t) t) = inr e) /\
  (ProbeTask.purpose t = Some ProbeTask.carrier_unicom -> carrierKey t = js "unicom").
Proof.
  intros He. unfold saveCarrier. cbn [bind get exec]. rewrite He. cbv iota. cbn -[put_found carrierKey].
  assert (Hk : ProbeTask.purpose t = Some ProbeTask.carrier_unicom -> carrierKey t = js "unicom").
  { intros Hp. unfold carrierKey. rewrite Hp. by vm_compute. }
  destruct (env (PutCarrier _ _)) as [saved|e]; cbn -[put_found carrierKey]; split_and!; try done.
  - unfold put_found. destruct (findIndex _ _); [by rewrite length_insert|done].
  - split; [by intros [? [=]]|by intros [? [=]]].
  - split; [eauto|]. rewrite He. eauto.
Qed.

Lemma carrier_save_outcome_witness :
  let p := mkPage [] [a_task 7 []] [] None (Some (a_task 7 (js "x"))) [] [] false in
  busy (final (exec echo (saveCarrier en_US) p)) = false.
Proof. intros p. apply (carrier_save_outcome echo en_US p (a_task 7 (js "x")) eq_refl). Defined.
