(* ===== verification/AdminRules.v ===== *)
(** * AdminRules: the editor of alert rules
    (web/src/components/admin/AdminRules.vue)

    The scope of a rule is shown as one line of groups and two lists of nodes;
    [edit] copies the rule ([clone]) and fills the lists it lacks. *)

From Stdlib Require Import Strings.String.
From S2P Require Import Prelude JsString Binary64 JsNumber Async I18n Types AdminForms.

Open Scope async_scope.

(** ** State *)

Record page := mkPage {
  rules : list AlertRule.t;
  events : list AlertEvent.t;
  nodes : list AdminNode.t;
  editing : option AlertRule.t;
  groupScope : jsstr;
  error : jsstr;
}.

Definition set_lists (r : list AlertRule.t) (e : list AlertEvent.t) (n : list AdminNode.t) (p : page) : page :=
  mkPage r e n (editing p) (groupScope p) (error p).
Definition set_rules (r : list AlertRule.t) (p : page) : page := set_lists r (events p) (nodes p) p.
Definition set_editing (e : option AlertRule.t) (p : page) : page :=
  mkPage (rules p) (events p) (nodes p) e (groupScope p) (error p).
Definition set_groupScope (s : jsstr) (p : page) : page :=
  mkPage (rules p) (events p) (nodes p) (editing p) s (error p).
Definition set_error (e : jsstr) (p : page) : page :=
  mkPage (rules p) (events p) (nodes p) (editing p) (groupScope p) e.

(** ** Labels *)

Definition metrics : list jsstr :=
  [js "online"; js "cpu"; js "memory"; js "swap"; js "load1"; js "load5"; js "load15"; js "disk"; js "temperature"; js "gpu";
   js "traffic_sum"; js "traffic_up"; js "traffic_down"; js "probe_success"; js "probe_latency"; js "probe_loss"].

Definition metricNames : list (jsstr * jsstr) :=
  [(js "online", js "在线状态"); (js "cpu", js "CPU"); (js "memory", js "内存"); (js "swap", js "Swap");
   (js "load1", js "1 分钟负载"); (js "load5", js "5 分钟负载"); (js "load15", js "15 分钟负载"); (js "disk", js "磁盘");
   (js "temperature", js "温度"); (js "gpu", js "GPU"); (js "traffic_sum", js "总流量"); (js "traffic_up", js "上传流量");
   (js "traffic_down", js "下载流量"); (js "probe_success", js "探测成功率"); (js "probe_latency", js "探测延迟");
   (js "probe_loss", js "探测丢包")].

(** [metricNames[metric] ?? metric] for a metric that is not the name of a member
    of [Object.prototype]. *)
Definition metricLabel (l : AppLocale) (metric : jsstr) : jsstr :=
  text l (nullish (snd <$> List.find (fun kv => streq kv.1 metric) metricNames) metric) metric.

Definition has_items (l : option (list jsstr)) : bool := match l with Some (_ :: _) => true | _ => false end.

Definition scopeLabel (l : AppLocale) (r : AlertRule.t) : jsstr :=
  let s := AlertRule.scope r in
  if has_items (AlertScope.groups s) || has_items (AlertScope.node_ids s) || has_items (AlertScope.excluded_node_ids s)
  then text l (js "已筛选") (js "Filtered") else text l (js "全局") (js "Global").

(** ** Calls *)

Inductive Req :=
| GetRules | GetEvents | GetNodes
| PostRule (r : AlertRule.t)                 (* POST /api/v1/admin/alerts/rules *)
| PutRule (id : num) (r : AlertRule.t)       (* PUT .../rules/ID *)
| DeleteRule (id : num).

Definition Resp (r : Req) : Type :=
  match r with
  | GetRules => list AlertRule.t
  | GetEvents => list AlertEvent.t
  | GetNodes => list AdminNode.t
  | PostRule _ | PutRule _ _ => AlertRule.t
  | DeleteRule _ => unit
  end.

Definition M := prog page Req Resp.
Definition Env := forall r : Req, (Resp r + exn)%type.
Definition send (r : Req) : M (Resp r) := await (One r).

(** ** Handlers *)

Definition blank : AlertRule.t :=
  AlertRule.mk (#0) [] (js "cpu") (js ">") (#90) (#80) (#300) (#1800) AlertRule.warning
    (AlertScope.mk (Some []) (Some []) (Some [])) true None None.

Definition load : M unit :=
  let! r := (await (All2 (One GetRules) (All2 (One GetEvents) (One GetNodes)))
             : M (list AlertRule.t * (list AlertEvent.t * list AdminNode.t))) in
  modify (set_lists r.1 r.2.1 r.2.2).

Definition with_scope (s : AlertScope.t) (r : AlertRule.t) : AlertRule.t :=
  AlertRule.mk (AlertRule.id r) (AlertRule.name r) (AlertRule.metric r) (AlertRule.operator r) (AlertRule.threshold r)
    (AlertRule.recovery_threshold r) (AlertRule.duration_seconds r) (AlertRule.cooldown_seconds r) (AlertRule.severity r)
    s (AlertRule.enabled r) (AlertRule.created_at r) (AlertRule.updated_at r).

(** The three [??= []]. *)
Definition filled (s : AlertScope.t) : AlertScope.t :=
  AlertScope.mk (Some (nullish (AlertScope.groups s) [])) (Some (nullish (AlertScope.node_ids s) []))
    (Some (nullish (AlertScope.excluded_node_ids s) [])).

Definition edit (r : AlertRule.t) (p : page) : page :=
  set_groupScope (nullish ((fun g => join g (js ", ")) <$> AlertScope.groups (AlertRule.scope r)) [])
    (set_editing (Some (with_scope (filled (AlertRule.scope r)) r)) p).

Definition create (p : page) : page := set_groupScope [] (set_editing (Some blank) p).

(** [editing.value.scope.groups = ...]. *)
Definition with_groups (g : list jsstr) (r : AlertRule.t) : AlertRule.t :=
  with_scope (AlertScope.mk (Some g) (AlertScope.node_ids (AlertRule.scope r)) (AlertScope.excluded_node_ids (AlertRule.scope r))) r.

Definition by_id (saved r : AlertRule.t) : bool := same_id AlertRule.id r saved.

Definition save_request (r : AlertRule.t) : M AlertRule.t :=
  if truthy_num (AlertRule.id r) then (send (PutRule (AlertRule.id r) r) : M AlertRule.t)
  else (send (PostRule r) : M AlertRule.t).

Definition saved_rule (saved : AlertRule.t) (p : page) : page :=
  set_editing None (set_rules (put_or_push (by_id saved) saved (rules p)) p).

Definition save (l : AppLocale) : M unit :=
  let! p := get in
  match editing p with
  | None => Ret tt
  | Some r =>
      let r' := with_groups (items comma (groupScope p)) r in
      do! modify (fun p => set_editing (Some r') (set_error [] p));
      try_catch
        (let! saved := save_request r' in modify (saved_rule saved))
        (fun reason => modify (set_error (reason_message reason (text l (js "无法保存告警规则。") (js "Could not save rule.")))))
  end.

Definition remove (confirmed : bool) (r : AlertRule.t) : M unit :=
  if confirmed then
    do! (send (DeleteRule (AlertRule.id r)) : M unit);
    modify (fun p => set_rules (List.filter (fun x => negb (same_id AlertRule.id x r)) (rules p)) p)
  else Ret tt.

(** ** Properties *)

(** A rule whose groups are trimmed, not empty and without a comma. *)
Definition storable (r : AlertRule.t) : Prop :=
  Forall (item_ok comma) (nullish (AlertScope.groups (AlertRule.scope r)) []).

Lemma groups_kept r p : storable r ->
  with_groups (items comma (groupScope (edit r p))) (with_scope (filled (AlertRule.scope r)) r)
  = with_scope (filled (AlertRule.scope r)) r.
Proof.
  intros Hs. unfold with_groups, storable in *.
  assert (Hg : items comma (groupScope (edit r p)) = nullish (AlertScope.groups (AlertRule.scope r)) []).
  { unfold edit. cbn [groupScope set_groupScope]. destruct (AlertScope.groups (AlertRule.scope r)) as [g|]; [|done].
    change (items comma (join g (js ", ")) = g). apply (items_join comma [32%N]); [set_solver|by repeat constructor|exact Hs]. }
  rewrite Hg. by destruct r as [? ? ? ? ? ? ? ? ? [? ? ?] ? ? ?].
Qed.

(** C22: A rule whose groups are trimmed, not empty and free of commas (the editor
    shows them in one line, separated by commas) and that is opened and saved
    without a change is sent back as it was, with the lists its scope lacked
    filled in as empty ones, by one update of its own id; the saved rule replaces
    the one with its id in its place in the list, or comes last when there is none
    any more, every other rule stays where it was, unique ids stay unique and the
    editor closes; a failure keeps editor and list and shows why. *)
Theorem rule_edit_save (env : Env) l p r : storable r -> truthy_num (AlertRule.id r) = true ->
  let s := AlertRule.scope r in
  let r' := with_scope (AlertScope.mk (Some (nullish (AlertScope.groups s) [])) (Some (nullish (AlertScope.node_ids s) []))
                          (Some (nullish (AlertScope.excluded_node_ids s) []))) r in
  let o := exec env (save l) (edit r p) in
  result o = inl tt /\ calls o = [One (PutRule (AlertRule.id r) r')] /\
  (unique_ids AlertRule.id (rules p) -> unique_ids AlertRule.id (rules (final o))) /\
  match env (PutRule (AlertRule.id r) r') with
  | inl saved =>
      editing (final o) = None /\ error (final o) = [] /\ placed AlertRule.id saved (rules p) (rules (final o))
  | inr e =>
      editing (final o) = Some r' /\ rules (final o) = rules p /\
      error (final o) = reason_message e (text l (js "无法保存告警规则。") (js "Could not save rule."))
  end.
Proof.
  intros Hs Hid. cbn zeta. change (AlertScope.mk _ _ _) with (filled (AlertRule.scope r)). unfold save. cbn [bind get exec].
  change (editing (edit r p)) with (Some (with_scope (filled (AlertRule.scope r)) r)). cbv iota zeta.
  rewrite (groups_kept r p Hs). set (r' := with_scope _ r). unfold save_request.
  change (AlertRule.id r') with (AlertRule.id r). rewrite Hid. cbn -[put_or_push r' edit].
  destruct (env (PutRule _ _)) as [saved|e]; cbn -[put_or_push r']; [|done].
  split_and!; try done; [|apply (put_or_push_placed AlertRule.id)]. intros Hu. by apply (put_or_push_unique AlertRule.id).
Qed.

(** A rule of a group, without lists of nodes. *)
Definition a_rule : AlertRule.t :=
  AlertRule.mk (#3) (js "cpu") (js "cpu") (js ">") (#90) (#80) (#300) (#1800) AlertRule.warning
    (AlertScope.mk (Some [js "web"; js "eu west"]) None None) true None None.

Definition echo : Env := fun r =>
  match r with
  | PostRule r | PutRule _ r => inl r
  | GetRules | GetEvents | GetNodes | DeleteRule _ => inr NotAnError
  end.

Lemma rule_edit_save_witness :
  calls (exec echo (save en_US) (edit a_rule (mkPage [a_rule] [] [] None [] [])))
  = [One (PutRule (#3) (with_scope (AlertScope.mk (Some [js "web"; js "eu west"]) (Some []) (Some [])) a_rule))].
Proof.
  refine (proj1 (proj2 (rule_edit_save echo en_US (mkPage [a_rule] [] [] None [] []) a_rule _ _))).
  - repeat constructor; try discriminate; apply (bool_decide_unpack _); vm_compute; exact Logic.I.
  - reflexivity.
Defined.

(** Every metric a rule can be given has a label of its own. *)
Lemma metricLabel_total : Forall (fun m => truthy (metricLabel zh_CN m) = true /\ metricLabel en_US m = m) metrics /\
  NoDup (map (metricLabel zh_CN) metrics).
Proof. split; [by repeat constructor|]. apply (bool_decide_unpack _). vm_compute. exact Logic.I. Qed.
