(* ===== verification/AdminNotifications.v ===== *)
(** * AdminNotifications: the editor of notification channels
    (web/src/components/admin/AdminNotifications.vue)

    A channel's configuration is an object of any members; the recipients of an
    SMTP channel are shown as one line.  [clone] copies the values. *)

From Stdlib Require Import Strings.String.
From S2P Require Import Prelude JsString Binary64 JsNumber Async I18n Types Json Api AdminForms.

Open Scope async_scope.

#[local] Existing Instance NotificationChannel.type_eq_dec.

(** ** State *)

Record page := mkPage {
  channels : list NotificationChannel.t;
  editing : option NotificationChannel.t;
  config : object;
  error : jsstr; status : jsstr;
}.

Definition set_channels (c : list NotificationChannel.t) (p : page) : page := mkPage c (editing p) (config p) (error p) (status p).
Definition set_editing (e : option NotificationChannel.t) (p : page) : page := mkPage (channels p) e (config p) (error p) (status p).
Definition set_config (c : object) (p : page) : page := mkPage (channels p) (editing p) c (error p) (status p).
Definition set_error (e : jsstr) (p : page) : page := mkPage (channels p) (editing p) (config p) e (status p).
Definition set_status (s : jsstr) (p : page) : page := mkPage (channels p) (editing p) (config p) (error p) s.

(** ** Calls *)

Inductive Req :=
| GetChannels
| PostChannel (c : NotificationChannel.t)                (* POST /api/v1/admin/notifications *)
| PutChannel (id : num) (c : NotificationChannel.t)      (* PUT .../ID *)
| TestChannel (id : num)                                 (* POST .../ID/test *)
| DeleteChannel (id : num).

Definition Resp (r : Req) : Type :=
  match r with GetChannels => list NotificationChannel.t | _ => unit end.

Definition M := prog page Req Resp.
Definition Env := forall r : Req, (Resp r + exn)%type.
Definition send (r : Req) : M (Resp r) := await (One r).

(** ** Handlers *)

Definition load : M unit := let! l := (send GetChannels : M (list NotificationChannel.t)) in modify (set_channels l).

(** [blank(type)]; [create] uses the default, webhook. *)
Definition blank (t : NotificationChannel.type_) : NotificationChannel.t :=
  NotificationChannel.mk (#0) [] t (Some []) true None None.

(** [Array.prototype.join]: null is the empty string. *)
Definition join_values (l : list json) (sep : jsstr) : jsstr :=
  join (map (fun x => match x with JNull => [] | _ => json_str x end) l) sep.

Definition shown_config (c : option object) : object :=
  let o := nullish c [] in
  match member (js "to") o with
  | Some (JArr l) => assign (js "to") (JStr (join_values l (js ", "))) o
  | _ => o
  end.

Definition edit (c : NotificationChannel.t) (p : page) : page :=
  set_config (shown_config (NotificationChannel.config c)) (set_editing (Some c) p).

Definition create (p : page) : page := set_config [] (set_editing (Some (blank NotificationChannel.webhook)) p).
Definition changeType (p : page) : page := set_config [] p.

(** [s.split(/[,;]/)]: every comma and every semicolon ends a piece. *)
Definition semicolon_to_comma (s : jsstr) : jsstr := map (fun c => if N.eqb c 59 then comma else c) s.
Definition recipients (s : jsstr) : list jsstr := items comma (semicolon_to_comma s).

Definition outgoing (t : NotificationChannel.type_) (o : object) : object :=
  match member (js "to") o with
  | Some (JStr s) => if bool_decide (t = NotificationChannel.smtp) then assign (js "to") (JArr (map JStr (recipients s))) o else o
  | _ => o
  end.

(** [{ ...editing, config: outgoing }]. *)
Definition payload (c : NotificationChannel.t) (o : object) : NotificationChannel.t :=
  NotificationChannel.mk (NotificationChannel.id c) (NotificationChannel.name c) (NotificationChannel.type c) (Some o)
    (NotificationChannel.enabled c) (NotificationChannel.created_at c) (NotificationChannel.updated_at c).

Definition save (l : AppLocale) : M unit :=
  let! p := get in
  match editing p with
  | None => Ret tt
  | Some c =>
      do! modify (fun p => set_status [] (set_error [] p));
      let out := payload c (outgoing (NotificationChannel.type c) (config p)) in
      try_catch
        (do! (if truthy_num (NotificationChannel.id c) then (send (PutChannel (NotificationChannel.id c) out) : M unit)
              else (send (PostChannel out) : M unit));
         do! modify (set_editing None);
         load)
        (fun reason => modify (set_error (reason_message reason (text l (js "无法保存通知渠道。") (js "Could not save channel.")))))
  end.

Definition test (l : AppLocale) (c : NotificationChannel.t) : M unit :=
  let name := NotificationChannel.name c in
  do! modify (set_status (text l (js "正在测试 " ++ name ++ js "…")%list (js "Testing " ++ name ++ js "…")%list));
  try_catch
    (do! (send (TestChannel (NotificationChannel.id c)) : M unit);
     modify (set_status (text l (name ++ js "：已发送")%list (name ++ js ": delivered")%list)))
    (fun reason => modify (set_status (reason_message reason (text l (js "发送失败。") (js "Delivery failed."))))).

Definition remove (confirmed : bool) (c : NotificationChannel.t) : M unit :=
  if confirmed then do! (send (DeleteChannel (NotificationChannel.id c)) : M unit); load else Ret tt.

(** ** Properties *)

(** Recipients as the server stores them. *)
Definition recipient_ok (x : jsstr) : Prop := item_ok comma x /\ 59%N ∉ x.

Lemma semicolon_free s : 59%N ∉ s -> semicolon_to_comma s = s.
Proof.
  intros Hs. unfold semicolon_to_comma. induction s as [|c s IH]; [done|]. cbn. rewrite IH by set_solver.
  destruct (N.eqb_spec c 59) as [->|]; [set_solver|done].
Qed.

Lemma join_free (c : N) l sep : Forall (fun x => c ∉ x) l -> c ∉ sep -> c ∉ join l sep.
Proof.
  intros Hl Hs. induction Hl as [|x l Hx Hl IH]; [set_solver|]. cbn. destruct l; [done|].
  intros H. apply elem_of_app in H as [|H]; [done|]. by apply elem_of_app in H as [|].
Qed.

Lemma recipients_join l : Forall recipient_ok l -> recipients (join l (js ", ")) = l.
Proof.
  intros Hl. unfold recipients. rewrite semicolon_free.
  - apply (items_join comma [32%N]); [set_solver|by repeat constructor|]. eapply Forall_impl; [exact Hl|by intros x []].
  - apply join_free; [eapply Forall_impl; [exact Hl|by intros x []]|]. apply (bool_decide_unpack _). vm_compute. exact Logic.I.
Qed.

Lemma join_strings l sep : join_values (map JStr l) sep = join l sep.
Proof. unfold join_values. rewrite map_map. cbn. by rewrite map_id. Qed.


(** An SMTP channel with two recipients. *)
Definition a_channel : NotificationChannel.t :=
  NotificationChannel.mk (#4) (js "mail") NotificationChannel.smtp
    (Some [(js "host", JStr (js "smtp.example.org")); (js "to", JArr [JStr (js "a@example.org"); JStr (js "b@example.org")])]) true None None.

