(* ===== verification/AdminLatency.v ===== *)
(** * AdminLatency: latency targets and measurement nodes
    (web/src/components/admin/AdminLatency.vue)

    [latestByProbe] is a finite map; [clone] copies records; the answer of
    [confirm] is an argument. *)

From Stdlib Require Import Strings.String.
From S2P Require Import Prelude JsString Binary64 JsNumber JsInteger JsDate Async I18n Types Format AdminForms.

Open Scope Z_scope.
Open Scope num_scope.
Open Scope async_scope.

(** ** State *)

Module LatencyAdminResponse.
Record t := mk {
  nodes : list AdminNode.t; targets : list ProbeTask.t; monitored_nodes : list AdminNode.t; latest : list LatencyResult.t;
  offline_after_ms : num; install_command : jsstr; windows_installer : jsstr; windows_install_command : jsstr;
}.
End LatencyAdminResponse.

Record page := mkPage {
  data : LatencyAdminResponse.t;
  editingTarget : option ProbeTask.t;
  editingNode : option AdminNode.t;
  agentConfig : option AgentConfig.t;
  tagsText : jsstr; error : jsstr; copied : jsstr; busy : bool;
}.

Definition init : page :=
  mkPage (LatencyAdminResponse.mk [] [] [] [] (#90000) [] [] []) None None None [] [] [] false.

Definition set_data (d : LatencyAdminResponse.t) (p : page) : page :=
  mkPage d (editingTarget p) (editingNode p) (agentConfig p) (tagsText p) (error p) (copied p) (busy p).
Definition set_target (t : option ProbeTask.t) (p : page) : page :=
  mkPage (data p) t (editingNode p) (agentConfig p) (tagsText p) (error p) (copied p) (busy p).
Definition set_node (n : option AdminNode.t) (c : option AgentConfig.t) (t : jsstr) (p : page) : page :=
  mkPage (data p) (editingTarget p) n c t (error p) (copied p) (busy p).
Definition set_lines (e c : jsstr) (b : bool) (p : page) : page :=
  mkPage (data p) (editingTarget p) (editingNode p) (agentConfig p) (tagsText p) e c b.
Definition set_editingNode (n : option AdminNode.t) (p : page) : page := set_node n (agentConfig p) (tagsText p) p.
Definition set_agentConfig (c : option AgentConfig.t) (p : page) : page := set_node (editingNode p) c (tagsText p) p.
Definition set_error (e : jsstr) (p : page) : page := set_lines e (copied p) (busy p) p.
Definition set_copied (c : jsstr) (p : page) : page := set_lines (error p) c (busy p) p.
Definition set_busy (b : bool) (p : page) : page := set_lines (error p) (copied p) b p.

(** ** Computed values *)

(** The loop of [latestByProbe]. *)
Definition latest_step (m : gmap jsstr (list LatencyResult.t)) (item : LatencyResult.t) : gmap jsstr (list LatencyResult.t) :=
  <[LatencyResult.probe_node_id item := (nullish (m !! LatencyResult.probe_node_id item) [] ++ [item])%list]> m.

Definition latestByProbe (p : page) : gmap jsstr (list LatencyResult.t) :=
  fold_left latest_step (LatencyAdminResponse.latest (data p)) ∅.

Definition successRate (p : page) (nodeID : jsstr) : num :=
  let values := nullish (latestByProbe p !! nodeID) [] in
  match values with
  | [] => #0
  | _ => of_nat (length (List.filter LatencyResult.success values)) / of_nat (length values) * #100
  end.

Definition node_id (n : AdminNode.t) : jsstr := PublicNode.id (AdminNode.base n).
Definition node_name (n : AdminNode.t) : jsstr := PublicNode.name (AdminNode.base n).

(** [monitored_nodes.find((item) => item.id === id)]. *)
Definition monitored (p : page) (id : option jsstr) : option AdminNode.t :=
  List.find (fun n => bool_decide (Some (node_id n) = id)) (LatencyAdminResponse.monitored_nodes (data p)).

Definition monitorName (p : page) (id : option jsstr) : jsstr :=
  match monitored p id with Some n => node_name n | None => nullish id (js "—") end.

Definition isOnline `{DateHost} (p : page) (now : num) (n : AdminNode.t) : bool :=
  match PublicNode.last_seen_at (AdminNode.base n) with
  | Some (c :: s) => now - parse (c :: s) <=? LatencyAdminResponse.offline_after_ms (data p)
  | _ => false
  end.

(** ** Targets *)

(** [node.ipv4 || node.ipv6 || '']. *)
Definition bare_address (n : AdminNode.t) : jsstr := or_else (AdminNode.ipv4 n) (or_else (AdminNode.ipv6 n) []).

Definition address_with_port (n : AdminNode.t) : jsstr :=
  match AdminNode.ipv4 n, AdminNode.ipv6 n with
  | Some (c :: s), _ => ((c :: s) ++ js ":443")%list
  | _, Some (c :: s) => (js "[" ++ (c :: s) ++ js "]:443")%list
  | _, _ => []
  end.

Definition blankTarget (p : page) : ProbeTask.t :=
  let node := head (LatencyAdminResponse.monitored_nodes (data p)) in
  ProbeTask.mk (#0) (nullish (node_name <$> node) []) ProbeTask.icmp (nullish (bare_address <$> node) [])
    (#30) (#2) (Some (#0)) (Some []) (Some []) (Some ProbeTask.latency) (Some probe)
    (Some (nullish (node_id <$> node) [])) true (#3) true None None.

Definition with_target (name target : jsstr) (t : ProbeTask.t) : ProbeTask.t :=
  ProbeTask.mk (ProbeTask.id t) name (ProbeTask.type t) target (ProbeTask.interval_seconds t) (ProbeTask.timeout_seconds t)
    (ProbeTask.expected_status t) (ProbeTask.expected_value t) (ProbeTask.node_ids t) (ProbeTask.purpose t) (ProbeTask.run_on t)
    (ProbeTask.target_node_id t) (ProbeTask.public t) (ProbeTask.samples t) (ProbeTask.enabled t)
    (ProbeTask.created_at t) (ProbeTask.updated_at t).

#[local] Existing Instance ProbeTask.type_eq_dec.

Definition selectTargetNode (p : page) : page :=
  match editingTarget p with
  | None => p
  | Some t =>
      match monitored p (ProbeTask.target_node_id t) with
      | None => p
      | Some n =>
          set_target (Some (with_target (node_name n)
            (if bool_decide (ProbeTask.type t = ProbeTask.icmp) then bare_address n else address_with_port n) t)) p
      end
  end.

Definition changeTargetType (p : page) : page := selectTargetNode p.

(** ** Calls *)

Inductive Req :=
| GetLatency                                     (* GET /api/v1/admin/latency *)
| PostTarget (t : ProbeTask.t)                   (* POST .../latency/targets *)
| PutTarget (id : num) (t : ProbeTask.t)
| DeleteTarget (id : num)
| GetConfig (id : jsstr)                         (* GET /api/v1/admin/nodes/ID/agent-config *)
| PutNode (id : jsstr) (n : AdminNode.t)         (* PUT .../latency/nodes/ID *)
| PutConfig (id : jsstr) (c : AgentConfig.t)     (* PUT /api/v1/admin/nodes/ID/agent-config *)
| DeleteNode (id : jsstr)
| WriteClipboard (s : jsstr).

Definition Resp (r : Req) : Type :=
  match r with
  | GetLatency => LatencyAdminResponse.t
  | GetConfig _ => AgentConfig.t
  | _ => unit
  end.

Definition M := prog page Req Resp.
Definition Env := forall r : Req, (Resp r + exn)%type.
Definition send (r : Req) : M (Resp r) := await (One r).

(** ** Handlers *)

Definition load : M unit := let! d := (send GetLatency : M LatencyAdminResponse.t) in modify (set_data d).

Definition saveTarget (l : AppLocale) : M unit :=
  let! p := get in
  match editingTarget p with
  | None => Ret tt
  | Some t =>
      do! modify (set_lines [] (copied p) true);
      finally
        (try_catch
           (do! (if truthy_num (ProbeTask.id t) then (send (PutTarget (ProbeTask.id t) t) : M unit) else (send (PostTarget t) : M unit));
            do! modify (set_target None);
            load)
           (fun reason => modify (set_error (reason_message reason (text l (js "无法保存延迟目标。") (js "Could not save latency target."))))))
        (modify (set_busy false))
  end.

Definition removeTarget (confirmed : bool) (t : ProbeTask.t) : M unit :=
  unless (negb confirmed) (do! (send (DeleteTarget (ProbeTask.id t)) : M unit); load).

(** The configuration shown is not cleared before the request. *)
Definition editNode (n : AdminNode.t) : M unit :=
  do! modify (fun p => set_node (Some n) (agentConfig p) (join (PublicNode.tags (AdminNode.base n)) (js ", ")) p);
  let! c := (send (GetConfig (node_id n)) : M AgentConfig.t) in
  modify (set_agentConfig (Some c)).

(** The close buttons of the drawer: [editingNode = null]. *)
Definition close_node : M unit := modify (set_editingNode None).

Definition with_tags (ts : list jsstr) (n : AdminNode.t) : AdminNode.t :=
  let b := AdminNode.base n in
  AdminNode.mk
    (PublicNode.mk (PublicNode.id b) (PublicNode.role b) (PublicNode.latency_enabled b) (PublicNode.name b)
      (PublicNode.group b) (PublicNode.region b) (PublicNode.country_code b) (PublicNode.latitude b)
      (PublicNode.longitude b) ts (PublicNode.public_remark b) (PublicNode.hidden b) (PublicNode.weight b)
      (PublicNode.price b) (PublicNode.currency b) (PublicNode.billing_cycle_days b) (PublicNode.expires_at b)
      (PublicNode.auto_renewal b) (PublicNode.traffic_limit b) (PublicNode.traffic_limit_type b) (PublicNode.traffic_reset_day b)
      (PublicNode.os b) (PublicNode.arch b) (PublicNode.cpu_name b) (PublicNode.cpu_cores b)
      (PublicNode.virtualization b) (PublicNode.kernel_version b) (PublicNode.created_at b)
      (PublicNode.updated_at b) (PublicNode.last_seen_at b) (PublicNode.online b))
    (AdminNode.hostname n) (AdminNode.private_remark n) (AdminNode.agent_version n) (AdminNode.ipv4 n) (AdminNode.ipv6 n).

Definition saveNode (l : AppLocale) : M unit :=
  let! p := get in
  match editingNode p, agentConfig p with
  | Some n, Some c =>
      do! modify (set_lines [] (copied p) true);
      finally
        (try_catch
           (let n' := with_tags (items comma (tagsText p)) n in
            do! modify (set_editingNode (Some n'));
            do! (await (All2 (One (PutNode (node_id n') n')) (One (PutConfig (node_id n') c))) : M (unit * unit));
            do! modify (fun p => set_agentConfig None (set_editingNode None p));
            load)
           (fun reason => modify (set_error (reason_message reason (text l (js "无法保存测量节点。") (js "Could not save measurement node."))))))
        (modify (set_busy false))
  | _, _ => Ret tt
  end.

Definition removeNode (confirmed : bool) (n : AdminNode.t) : M unit :=
  unless (negb confirmed) (do! (send (DeleteNode (node_id n)) : M unit); load).

(** The question of [removeNode]. *)
Definition remove_prompt (l : AppLocale) (n : AdminNode.t) : jsstr :=
  if bool_decide (PublicNode.role (AdminNode.base n) = monitor)
  then text l (js "停用“" ++ node_name n ++ js "”的延迟测量功能？主机监控和已有历史不会被删除。")%list
         (js "Disable latency measurement for “" ++ node_name n ++ js "”? Monitoring and existing history will be kept.")%list
  else text l (js "删除测量节点“" ++ node_name n ++ js "”及其延迟历史？")%list
         (js "Delete measurement node “" ++ node_name n ++ js "” and its latency history?")%list.

Definition copy (value label : jsstr) : M unit :=
  do! (send (WriteClipboard value) : M unit); modify (set_copied label).

(** The callback of its timeout. *)
Definition copied_expires : M unit := modify (set_copied []).

(** ** Properties *)

Lemma latestByProbe_fold l : forall m id,
  nullish (fold_left latest_step l m !! id) []
  = (nullish (m !! id) [] ++ List.filter (fun r => streq (LatencyResult.probe_node_id r) id) l)%list.
Proof.
  induction l as [|r l IH]; intros m id; cbn; [by rewrite app_nil_r|]. rewrite IH. unfold latest_step, streq at 2.
  destruct (decide (LatencyResult.probe_node_id r = id)) as [<-|Hn].
  - rewrite lookup_insert_eq, bool_decide_eq_true_2 by done. cbn. by rewrite <- app_assoc.
  - rewrite lookup_insert_ne, bool_decide_eq_false_2 by done. done.
Qed.

(** The success rate of a measurement node is the share of successes among
    exactly its own results, in any order of the list, as a percentage in
    [0, 100], and 0 for a node without results. *)
Theorem successRate_exact p nodeID : (Z.of_nat (length (LatencyAdminResponse.latest (data p))) < 2 ^ 53)%Z ->
  let own := List.filter (fun r => streq (LatencyResult.probe_node_id r) nodeID) (LatencyAdminResponse.latest (data p)) in
  successRate p nodeID = (match own with
                          | [] => #0
                          | _ => of_nat (length (List.filter LatencyResult.success own)) / of_nat (length own) * #100
                          end) /\
  (#0 <=? successRate p nodeID) = true /\ (successRate p nodeID <=? #100) = true.
Proof.
  intros Hl own. unfold successRate. assert (Ho : nullish (latestByProbe p !! nodeID) [] = own).
  { unfold latestByProbe. rewrite latestByProbe_fold. by rewrite lookup_empty. }
  rewrite Ho. split; [done|]. destruct own as [|r rs] eqn:E; [done|]. apply ratio_percent.
  - pose proof (List.filter_length_le LatencyResult.success (r :: rs)). lia.
  - pose proof (List.filter_length_le (fun r => streq (LatencyResult.probe_node_id r) nodeID) (LatencyAdminResponse.latest (data p))) as H.
    fold own in H. rewrite E in H. cbn in *. lia.
Qed.

Definition a_result (probe : jsstr) (ok : bool) : LatencyResult.t := LatencyResult.mk probe [] (#1) [] [] ok (#5) (#0) None.

Lemma successRate_exact_witness :
  let p := set_data (LatencyAdminResponse.mk [] [] [] [a_result (js "x") true; a_result (js "y") false; a_result (js "x") false] (#90000) [] [] []) init in
  successRate p (js "x") = #50 /\ (successRate p (js "x") <=? #100) = true.
Proof.
  intros p. destruct (successRate_exact p (js "x") ltac:(cbn; lia)) as (-> & _ & H2). split; [vm_compute; reflexivity|].
  vm_compute. reflexivity.
Defined.

(** Choosing a node fills in its name and an address of it that fits the type
    of the measurement: bare for ICMP, with port 443 otherwise, an IPv6 address
    then in brackets; IPv4 is preferred, nothing else of the target changes, and
    a node that is no longer monitored changes nothing. *)
Theorem selectTargetNode_address p t : editingTarget p = Some t ->
  match monitored p (ProbeTask.target_node_id t) with
  | None => selectTargetNode p = p
  | Some n =>
      ProbeTask.target_node_id t = Some (node_id n) /\
      exists address, editingTarget (selectTargetNode p) = Some (with_target (node_name n) address t) /\
      forall v4 v6, AdminNode.ipv4 n = Some v4 -> AdminNode.ipv6 n = Some v6 -> v6 <> [] ->
        (v4 <> [] -> address = if bool_decide (ProbeTask.type t = ProbeTask.icmp) then v4 else (v4 ++ js ":443")%list) /\
        (v4 = [] -> address = if bool_decide (ProbeTask.type t = ProbeTask.icmp) then v6 else (js "[" ++ v6 ++ js "]:443")%list)
  end.
Proof.
  intros Ht. unfold selectTargetNode. rewrite Ht. destruct (monitored p _) as [n|] eqn:En; [|done].
  unfold monitored in En. apply List.find_some in En as [_ En]. apply bool_decide_eq_true in En.
  split; [done|]. eexists. split; [reflexivity|]. intros v4 v6 H4 H6 Hne. unfold bare_address, address_with_port.
  rewrite H4, H6. destruct v6 as [|c v6]; [done|]. split.
  - intros Hv. destruct v4; [done|]. by case_bool_decide.
  - intros ->. by case_bool_decide.
Qed.

Lemma selectTargetNode_address_witness :
  let n := AdminNode.mk
    (PublicNode.mk (js "n") monitor false (js "node") None None None None None [] None false (#0) (#0) [] (#0)
      None false (#0) [] (#0) None None None None None None [] [] None true) None None None (Some []) (Some (js "2001:db8::1")) in
  let t := ProbeTask.mk (#0) [] ProbeTask.tcp [] (#30) (#2) None None None None None (Some (js "n")) true (#3) true None None in
  let p := set_target (Some t) (set_data (LatencyAdminResponse.mk [] [] [n] [] (#90000) [] [] []) init) in
  exists address, editingTarget (selectTargetNode p) = Some (with_target (js "node") address t) /\ address = js "[2001:db8::1]:443".
Proof.
  intros n t p. destruct (selectTargetNode_address p t eq_refl) as (_ & address & Ha & Hx).
  exists address. split; [exact Ha|]. exact (proj2 (Hx [] (js "2001:db8::1") eq_refl eq_refl ltac:(discriminate)) eq_refl).
Defined.

(** The drawer can save one node's configuration to another, even without any
    overlap of answers: closing it keeps the configuration of the node edited
    before, and when the configuration of the next node cannot be loaded (or
    until it is), saving sends the former to the latter. *)
Theorem previous_config_saved (env : Env) l a b c p e :
  env (GetConfig (node_id a)) = inl c -> env (GetConfig (node_id b)) = inr e ->
  let opened := final (exec env (editNode a) p) in
  let closed := final (exec env close_node opened) in
  let failed := exec env (editNode b) closed in
  result failed = inr e /\ editingNode (final failed) = Some b /\ agentConfig (final failed) = Some c /\
  exists b', node_id b' = node_id b /\
    head (calls (exec env (saveNode l) (final failed)))
    = Some (All2 (One (PutNode (node_id b) b')) (One (PutConfig (node_id b) c))).
Proof.
  intros Ea Eb. cbn -[saveNode]. rewrite Ea. cbn -[saveNode]. rewrite Eb. cbn -[saveNode]. split_and!; try done.
  unfold saveNode. cbn -[items with_tags]. eexists. split; [|reflexivity]. done.
Qed.

Lemma previous_config_saved_witness :
  let node id := AdminNode.mk
    (PublicNode.mk id monitor false id None None None None None [] None false (#0) (#0) [] (#0)
      None false (#0) [] (#0) None None None None None None [] [] None true) None None None None None in
  let config := AgentConfig.mk (#2) (#60) None None None false true (#4) (#1) in
  let env : Env := fun r =>
    match r with
    | GetConfig id => if streq id (js "a") then inl config else inr (OtherError (js "timeout"))
    | GetLatency => inr NotAnError
    | PostTarget _ | PutTarget _ _ | DeleteTarget _ | PutNode _ _ | PutConfig _ _ | DeleteNode _ | WriteClipboard _ => inl tt
    end in
  agentConfig (final (exec env (editNode (node (js "b"))) (final (exec env close_node (final (exec env (editNode (node (js "a"))) init))))))
  = Some config.
Proof.
  intros node config env.
  exact (proj1 (proj2 (proj2 (previous_config_saved env en_US (node (js "a")) (node (js "b")) config init _ eq_refl eq_refl)))).
Defined.
