(* ===== verification/AdminOverview.v ===== *)
(** * AdminOverview: the dashboard and the audit log of the administration
    (web/src/components/admin/AdminOverview.vue, AdminAudit.vue) *)

From Stdlib Require Import Strings.String.
From S2P Require Import Prelude JsString Binary64 JsNumber JsInteger JsDate Async I18n Types Format AdminForms.

Open Scope Z_scope.
Open Scope num_scope.
Open Scope async_scope.

#[local] Existing Instance AlertEvent.status_eq_dec.

Module Dashboard.

Record page := mkPage { nodes : list AdminNode.t; events : list AlertEvent.t; copied : bool }.

(** ** Figures *)

Definition seen_recently `{DateHost} (now : num) (n : AdminNode.t) : bool :=
  match PublicNode.last_seen_at (AdminNode.base n) with
  | Some (c :: s) => now - parse (c :: s) <? #90000
  | _ => false
  end.

Definition online `{DateHost} (now : num) (p : page) : nat := length (List.filter (seen_recently now) (nodes p)).

(** [node.traffic_limit || 0]. *)
Definition limit_or_zero (n : AdminNode.t) : num :=
  let t := PublicNode.traffic_limit (AdminNode.base n) in if truthy_num t then t else #0.

Definition capacity (p : page) : num := fold_left (fun sum n => sum + limit_or_zero n) (nodes p) (#0).

Definition firing (p : page) : nat := length (List.filter (fun e => bool_decide (AlertEvent.status e = AlertEvent.firing)) (events p)).

Definition installCommand (origin : jsstr) : jsstr := (js "curl -fsSL " ++ origin ++ js "/install.sh | sh")%list.
Definition windowsInstaller (origin : jsstr) : jsstr := (origin ++ js "/install.ps1")%list.

(** ** Handlers *)

Inductive Req := GetNodes | GetEvents | WriteClipboard (s : jsstr).

Definition Resp (r : Req) : Type :=
  match r with GetNodes => list AdminNode.t | GetEvents => list AlertEvent.t | WriteClipboard _ => unit end.

Definition M := prog page Req Resp.

Definition load : M unit :=
  let! r := (await (All2 (One GetNodes) (One GetEvents)) : M (list AdminNode.t * list AlertEvent.t)) in
  modify (fun p => mkPage r.1 r.2 (copied p)).

Definition copyCommand (origin : jsstr) : M unit :=
  do! (await (One (WriteClipboard (installCommand origin))) : M unit);
  modify (fun p => mkPage (nodes p) (events p) true).

Definition copied_expires : M unit := modify (fun p => mkPage (nodes p) (events p) false).

End Dashboard.

Module Audit.

Inductive Req := GetAudit.
Definition Resp (r : Req) : Type := match r with GetAudit => list AuditEntry.t end.
Definition M := prog (list AuditEntry.t) Req Resp.

Definition load : M unit := let! l := (await (One GetAudit) : M (list AuditEntry.t)) in put l.

End Audit.

(** ** Properties *)

(** The quotas of the nodes as integers. *)
Definition quotas (limits : list Z) (p : Dashboard.page) : Prop :=
  Forall2 (fun n k => PublicNode.traffic_limit (AdminNode.base n) = #k /\ 0 <= k) (Dashboard.nodes p) limits.

Lemma limit_exact n k : PublicNode.traffic_limit (AdminNode.base n) = #k -> 0 <= k < 2 ^ 53 -> Dashboard.limit_or_zero n = #k.
Proof.
  intros Hn Hk. unfold Dashboard.limit_or_zero. rewrite Hn. unfold truthy_num. destruct (eqb (#k) (#0)) eqn:E; cbn [orb negb].
  - unfold eqb, SFeqb in E. change (SFcompare (#k) (#0)) with (SFcompare (#k) (S754_zero false)) in E.
    destruct (Z.eq_dec k 0) as [->|Hz]; [done|]. destruct (of_Z_spec k ltac:(lia)) as (_ & Hf & Hi).
    destruct (#k) as [s| | |s m e]; cbn in *; try done; [lia|by destruct s].
  - pose proof (of_Z_finite k ltac:(lia)) as Hf. by destruct (#k).
Qed.

Lemma limits_add_nonneg a b : 0 <= a -> 0 <= b -> a + b < 2 ^ 53 -> (#a + #b)%num = #(a + b).
Proof.
  intros Ha Hb Hs. destruct (add_of_Z a b) as [Hf Hi]; [lia..|].
  destruct (Z.eq_dec (a + b) 0) as [Hz|Hz].
  - assert (a = 0) as -> by lia. by assert (b = 0) as -> by lia.
  - apply ival_of_Z; try done; [|lia]. apply add_valid; auto with hostpin.
Qed.

(** The declared capacity is the exact sum of the nodes' quotas as long as it
    is a safe integer. *)
Theorem capacity_exact p limits : quotas limits p -> fold_right Z.add 0%Z limits < 2 ^ 53 ->
  Dashboard.capacity p = #(fold_right Z.add 0%Z limits).
Proof.
  intros Hq Hs. unfold Dashboard.capacity.
  enough (H : forall acc, 0 <= acc -> acc + fold_right Z.add 0 limits < 2 ^ 53 ->
    fold_left (fun sum n => (sum + Dashboard.limit_or_zero n)%num) (Dashboard.nodes p) (#acc) = #(acc + fold_right Z.add 0 limits)).
  { exact (H 0 ltac:(lia) ltac:(lia)). }
  clear Hs. induction Hq as [|n k ns ks [Hn Hk] Hq IH]; intros acc Ha Hb; cbn in *; [by rewrite Z.add_0_r|].
  assert (Hnn : 0 <= fold_right Z.add 0 ks) by (clear - Hq; induction Hq as [|? ? ? ? [_ ?] _ IH]; cbn; lia).
  rewrite (limit_exact n k) by (done || lia). rewrite limits_add_nonneg by lia. rewrite IH by lia. f_equal. lia.
Qed.

Lemma capacity_exact_witness :
  let node (k : Z) := AdminNode.mk
    (PublicNode.mk [] monitor false [] None None None None None [] None false (#0) (#0) [] (#0)
      None false (#k) [] (#0) None None None None None None [] [] None true) None None None None None in
  Dashboard.capacity (Dashboard.mkPage [node 1073741824; node 0; node 5]%Z [] false) = #1073741829.
Proof.
  intros node. apply (capacity_exact (Dashboard.mkPage [node 1073741824; node 0; node 5]%Z [] false) [1073741824; 0; 5]%Z); [|cbn; lia].
  repeat constructor; lia.
Defined.
