(* ===== verification/AdminThemes.v ===== *)
(** * AdminThemes: installing, activating and configuring themes
    (web/src/components/admin/AdminThemes.vue)

    A theme's configuration form is built from the list in its manifest; the
    interface [ManagedItem] is taken at its word (a member of another type is
    read as absent).  Lists of nodes and of probe tasks are edited as one text,
    JSON or separated by commas.  [clone] copies the values.  The resolution of a
    URL is the host's ([new URL(input, base)], [None] when it throws), and the
    answer of [confirm] is an argument. *)

From Stdlib Require Import Strings.String.
From S2P Require Import Prelude JsString Binary64 JsNumber Async I18n Types Format Api Json JsDecimal AdminForms.

Open Scope async_scope.

#[local] Existing Instance ThemeManifest.config_type_eq_dec.

Module ManagedItem.
Record t := mk {
  key : jsstr; name : option localizable; help : option localizable; type : jsstr; options : option jsstr;
  default : option json; required : bool;
}.
End ManagedItem.

Module MarketTheme.
Record t := mk {
  name : localizable; short : jsstr; description : option localizable; version : option jsstr;
  author : option localizable; download : jsstr; sha256 : jsstr;
}.
End MarketTheme.

(** ** The items of a manifest *)

Definition string_member (key : jsstr) (o : object) : option jsstr :=
  match member key o with Some (JStr s) => Some s | _ => None end.

Definition as_localizable (v : json) : option localizable :=
  match v with
  | JStr s => Some (LStr s)
  | JObj m => Some (LMap (omap (fun kv => match kv.2 with JStr s => Some (kv.1, s) | _ => None end) m))
  | _ => None
  end.
Definition localizable_member (key : jsstr) (o : object) : option localizable := member key o ≫= as_localizable.

(** [configuration.data as ManagedItem[]]. *)
Definition managed_item (v : json) : ManagedItem.t :=
  let o := match v with JObj o => o | _ => [] end in
  ManagedItem.mk (nullish (string_member (js "key") o) []) (localizable_member (js "name") o) (localizable_member (js "help") o)
    (nullish (string_member (js "type") o) []) (string_member (js "options") o) (member (js "default") o)
    (match member (js "required") o with Some (JBool b) => b | _ => false end).

(** ** State *)

(** The two install forms. *)
Record sources := mkSources { upload : option File; checksum : jsstr; sourceURL : jsstr; sourceSHA : jsstr }.

Record lines := mkLines { error : jsstr; status : jsstr; busy : bool }.

(** The configuration drawer. *)
Record drawer := mkDrawer {
  configuring : option Theme.t;
  managedItems : list ManagedItem.t;
  managedSettings : object;
  selectorText : gmap jsstr jsstr;
  rawPanel : jsstr;
}.

Record catalog := mkCatalog { marketOpen : bool; marketSearch : jsstr; market : list MarketTheme.t }.

Record page := mkPage {
  themes : list Theme.t; forms : sources; shown : lines; config : drawer; shop : catalog;
  assigned : option jsstr;   (* window.location.assign *)
}.

Definition init : page := mkPage [] (mkSources None [] [] []) (mkLines [] [] false) (mkDrawer None [] [] ∅ []) (mkCatalog false [] []) None.

Definition set_themes (l : list Theme.t) (p : page) : page := mkPage l (forms p) (shown p) (config p) (shop p) (assigned p).
Definition set_forms (f : sources) (p : page) : page := mkPage (themes p) f (shown p) (config p) (shop p) (assigned p).
Definition set_shown (s : lines) (p : page) : page := mkPage (themes p) (forms p) s (config p) (shop p) (assigned p).
Definition set_config (d : drawer) (p : page) : page := mkPage (themes p) (forms p) (shown p) d (shop p) (assigned p).
Definition set_shop (c : catalog) (p : page) : page := mkPage (themes p) (forms p) (shown p) (config p) c (assigned p).
Definition set_assigned (u : jsstr) (p : page) : page := mkPage (themes p) (forms p) (shown p) (config p) (shop p) (Some u).
Definition set_error (e : jsstr) (p : page) : page := set_shown (mkLines e (status (shown p)) (busy (shown p))) p.
Definition set_status (s : jsstr) (p : page) : page := set_shown (mkLines (error (shown p)) s (busy (shown p))) p.
Definition set_busy (b : bool) (p : page) : page := set_shown (mkLines (error (shown p)) (status (shown p)) b) p.
Definition set_configuring (t : option Theme.t) (d : drawer) : drawer :=
  mkDrawer t (managedItems d) (managedSettings d) (selectorText d) (rawPanel d).
Definition set_settings (o : object) (d : drawer) : drawer :=
  mkDrawer (configuring d) (managedItems d) o (selectorText d) (rawPanel d).

(** [busy = true; error = ''; status = '']. *)
Definition start (p : page) : page := set_shown (mkLines [] [] true) p.

(** ** Calls *)

Inductive Req :=
| GetThemes
| SessionRefresh                                  (* session.refresh() *)
| UploadTheme (f : File) (sha256 : option jsstr)  (* POST /api/v1/admin/themes/upload, a form *)
| InstallTheme (url sha256 : jsstr)               (* POST .../install *)
| ActivateTheme (short : jsstr)                   (* POST .../SHORT/activate *)
| DeleteTheme (short : jsstr)
| PutThemeSettings (short : jsstr) (o : object)   (* PUT .../SHORT/settings *)
| GetMarket.                                      (* catalog.themes, when it is an array *)

Definition Resp (r : Req) : Type :=
  match r with
  | GetThemes => list Theme.t
  | PutThemeSettings _ _ => Theme.t
  | GetMarket => option (list MarketTheme.t)
  | _ => unit
  end.

Definition M := prog page Req Resp.
Definition Env := forall r : Req, (Resp r + exn)%type.
Definition send (r : Req) : M (Resp r) := await (One r).

(** ** Installing *)

Definition load : M unit :=
  let! l := (send GetThemes : M (list Theme.t)) in
  do! modify (set_themes l);
  (send SessionRefresh : M unit).

(** [catch (reason) { error = ... } finally { busy = false }]. *)
Definition guarded (failure : jsstr) (body : M unit) : M unit :=
  finally (try_catch body (fun reason => modify (set_error (reason_message reason failure)))) (modify (set_busy false)).

Definition uploadTheme (l : AppLocale) : M unit :=
  let! p := get in
  match upload (forms p) with
  | None => Ret tt
  | Some f =>
      do! modify start;
      let sha := checksum (forms p) in
      guarded (text l (js "上传失败。") (js "Upload failed."))
        (do! (send (UploadTheme f (if truthy sha then Some sha else None)) : M unit);
         do! modify (fun p => set_status (text l (js "主题包已验证并安装。") (js "Theme package validated and installed."))
                                (set_forms (mkSources None [] (sourceURL (forms p)) (sourceSHA (forms p))) p));
         load)
  end.

Definition installURL (l : AppLocale) : M unit :=
  do! modify start;
  let! p := get in
  guarded (text l (js "安装失败。") (js "Install failed."))
    (do! (send (InstallTheme (sourceURL (forms p)) (sourceSHA (forms p))) : M unit);
     do! modify (fun p => set_status (text l (js "主题已验证并安装。") (js "Verified release installed."))
                            (set_forms (mkSources (upload (forms p)) (checksum (forms p)) [] []) p));
     load).

Definition activate (short : jsstr) : M unit :=
  do! (send (ActivateTheme short) : M unit); (send SessionRefresh : M unit).

Definition remove (confirmed : bool) (t : Theme.t) : M unit :=
  if confirmed then do! (send (DeleteTheme (ThemeManifest.short (Theme.manifest t))) : M unit); load else Ret tt.

(** The question of [remove]. *)
Definition remove_question (l : AppLocale) (t : Theme.t) : jsstr :=
  let name := localized l (Some (ThemeManifest.name (Theme.manifest t))) in
  text l (js "删除主题“" ++ name ++ js "”？")%list (js "Delete theme “" ++ name ++ js "”?")%list.

(** ** Configuring *)

Definition is_type (i : ManagedItem.t) (s : string) : bool := streq (ManagedItem.type i) (js s).
Definition is_selector (i : ManagedItem.t) : bool := is_type i "nodes" || is_type i "pingtasks".

(** The items that have a value. *)
Definition editable (i : ManagedItem.t) : bool :=
  negb (negb (truthy (ManagedItem.key i)) || is_type i "title" || is_type i "textbox").

Definition options (i : ManagedItem.t) : list jsstr := items comma (nullish (ManagedItem.options i) []).

Definition itemName (l : AppLocale) (i : ManagedItem.t) : jsstr :=
  let n := localized l (ManagedItem.name i) in if truthy n then n else ManagedItem.key i.

(** The value before editing: the setting, else the default, else one by type. *)
Definition initial (t : Theme.t) (i : ManagedItem.t) : json :=
  match member (ManagedItem.key i) (Theme.settings t) with
  | Some v => v
  | None =>
      match ManagedItem.default i with
      | Some v => v
      | None => if is_type i "switch" then JBool false
                else if is_type i "number" then JNum (#0)
                else if is_type i "select" then JStr (nullish (options i !! 0%nat) [])
                else JStr []
      end
  end.

(** [Array.isArray(value) ? JSON.stringify(value) : String(value ?? '')]. *)
Definition selector_text (v : json) : jsstr :=
  match v with JArr l => stringify (JArr l) | JNull => [] | _ => json_str v end.

(** A turn of the loop of [openConfiguration]. *)
Definition open_item (t : Theme.t) (d : drawer) (i : ManagedItem.t) : drawer :=
  if negb (editable i) then d
  else if is_selector i then
    mkDrawer (configuring d) (managedItems d) (managedSettings d)
      (<[ManagedItem.key i := selector_text (initial t i)]> (selectorText d)) (rawPanel d)
  else set_settings (assign (ManagedItem.key i) (initial t i) (managedSettings d)) d.

Definition open_managed (t : Theme.t) (l : list ManagedItem.t) (raw : jsstr) : drawer :=
  fold_left (open_item t) l (mkDrawer (Some t) l [] ∅ raw).

Definition openConfiguration (resolve : jsstr -> option jsstr) (t : Theme.t) (p : page) : page :=
  let c := ThemeManifest.configuration (Theme.manifest t) in
  let kind := nullish (c ≫= ThemeManifest.type) ThemeManifest.managed in
  let data := c ≫= ThemeManifest.data in
  match kind, data with
  | ThemeManifest.redirect, Some (JStr u) => match resolve u with Some url => set_assigned url p | None => p end
  | ThemeManifest.raw, _ =>
      let d := config p in
      set_config (mkDrawer (Some t) [] (managedSettings d) (selectorText d)
                    (match data with Some (JStr s) => s | _ => [] end)) p
  | _, _ =>
      let l := match data with Some (JArr l) => map managed_item l | _ => [] end in
      set_config (open_managed t l (rawPanel (config p))) p
  end.

(** The template's close button. *)
Definition close (p : page) : page := set_config (set_configuring None (config p)) p.

Definition parseSelector (d : drawer) (i : ManagedItem.t) : list json :=
  let raw := trim (nullish (selectorText d !! ManagedItem.key i) []) in
  if negb (truthy raw) then []
  else match parse raw with
       | Some (JArr l) => l
       | _ => let values := items comma raw in
              if is_type i "pingtasks" then map JNum (List.filter isFinite (map Number values)) else map JStr values
       end.

(** The loop of [saveConfiguration]. *)
Definition collect (d : drawer) : drawer :=
  fold_left (fun d i => if is_selector i then set_settings (assign (ManagedItem.key i) (JArr (parseSelector d i)) (managedSettings d)) d else d)
    (managedItems d) d.

Definition with_short (s : jsstr) (t : Theme.t) : bool := streq (ThemeManifest.short (Theme.manifest t)) s.

Definition saved_theme (l : AppLocale) (updated : Theme.t) (p : page) : page :=
  let short := ThemeManifest.short (Theme.manifest updated) in
  set_status (text l (js "主题设置已保存。") (js "Theme settings saved."))
    (set_config (set_configuring None (config p))
       (set_themes (map (fun t => if with_short short t then updated else t) (themes p)) p)).

Definition saveConfiguration (l : AppLocale) : M unit :=
  let! p := get in
  match configuring (config p) with
  | None => Ret tt
  | Some t =>
      do! modify start;
      guarded (text l (js "无法保存主题设置。") (js "Theme settings could not be saved."))
        (do! modify (fun p => set_config (collect (config p)) p);
         let! p := get in
         let! updated := (send (PutThemeSettings (ThemeManifest.short (Theme.manifest t)) (managedSettings (config p))) : M Theme.t) in
         modify (saved_theme l updated))
  end.

(** ** The market *)

Section Market.
Context `{Unicode} (l : AppLocale).

Definition market_text (m : MarketTheme.t) : jsstr :=
  join [localized l (Some (MarketTheme.name m)); localized l (MarketTheme.description m); localized l (MarketTheme.author m);
        MarketTheme.short m] (js " ").

Definition filteredMarket (c : catalog) : list MarketTheme.t :=
  let query := toLowerCase (trim (marketSearch c)) in
  if negb (truthy query) then market c
  else List.filter (fun m => includes (toLowerCase (market_text m)) query) (market c).

End Market.

Definition openMarket (l : AppLocale) : M unit :=
  do! modify (fun p => set_error [] (set_shop (mkCatalog true (marketSearch (shop p)) (market (shop p))) p));
  let! p := get in
  unless (negb (Nat.eqb (length (market (shop p))) 0))
    (do! modify (set_busy true);
     guarded (text l (js "无法加载主题市场。") (js "Theme market could not be loaded."))
       (let! c := (send GetMarket : M (option (list MarketTheme.t))) in
        modify (fun p => set_shop (mkCatalog (marketOpen (shop p)) (marketSearch (shop p)) (nullish c [])) p))).

Definition installedVersion (short : jsstr) (p : page) : jsstr :=
  nullish (List.find (with_short short) (themes p) ≫= fun t => ThemeManifest.version (Theme.manifest t)) [].

Definition installed_message (l : AppLocale) (m : MarketTheme.t) : jsstr :=
  let name := localized l (Some (MarketTheme.name m)) in
  let version := nullish (MarketTheme.version m) [] in
  text l (name ++ js " " ++ version ++ js " 已安装。")%list (name ++ js " " ++ version ++ js " installed.")%list.

Definition installMarket (l : AppLocale) (m : MarketTheme.t) : M unit :=
  do! modify start;
  guarded (text l (js "主题市场安装失败。") (js "Market install failed."))
    (do! (send (InstallTheme (MarketTheme.download m) (MarketTheme.sha256 m)) : M unit);
     do! modify (set_status (installed_message l m));
     load).

(** ** Properties: the configuration form *)

(** Ids as the server stores them in a setting: strings, or integers. *)
Definition id_value (v : json) : Prop := (exists s, v = JStr s) \/ (exists k, (Z.abs k < 10 ^ 15)%Z /\ v = JNum (#k)).

Definition keys (l : list ManagedItem.t) : list jsstr := map ManagedItem.key (List.filter editable l).

(** Items whose keys tell them apart. *)
Definition well_keyed (l : list ManagedItem.t) : Prop :=
  NoDup (keys l) /\ Forall (fun i => is_selector i = true -> ManagedItem.key i <> []) l.

Lemma selector_editable i : is_selector i = true -> ManagedItem.key i <> [] -> editable i = true.
Proof.
  unfold is_selector, editable, is_type. intros Hs Hk. destruct (ManagedItem.key i) as [|c k]; [done|].
  apply orb_true_iff in Hs as [Hs|Hs]; apply streq_eq in Hs; by rewrite Hs.
Qed.

Lemma id_json_ok v : id_value v -> json_ok v = true.
Proof. intros [[s ->]|(k & Hk & ->)]; [done|]. by apply num_ok_of_Z. Qed.

(** The text of an array is read back, whatever text surrounds the loop. *)
Lemma parse_selector_text d i ids : Forall id_value ids ->
  selectorText d !! ManagedItem.key i = Some (selector_text (JArr ids)) -> parseSelector d i = ids.
Proof.
  intros Hids Ht. unfold parseSelector.
  assert (E : trim (nullish (selectorText d !! ManagedItem.key i) []) = stringify (JArr ids)).
  { rewrite Ht. apply trim_fixed; [done|]. cbn. by rewrite rev_app_distr. }
  rewrite E, parse_text; [done|]. cbn. apply forallb_forall. intros v Hv. apply id_json_ok.
  rewrite Forall_forall in Hids. apply Hids. by apply list_elem_of_In.
Qed.

(** What opening leaves alone, and the value of the item itself. *)
Lemma open_item_spec t d i :
  configuring (open_item t d i) = configuring d /\ managedItems (open_item t d i) = managedItems d /\
  (forall k, k <> ManagedItem.key i \/ editable i = false ->
     member k (managedSettings (open_item t d i)) = member k (managedSettings d) /\
     selectorText (open_item t d i) !! k = selectorText d !! k) /\
  (editable i = true ->
     if is_selector i then selectorText (open_item t d i) !! ManagedItem.key i = Some (selector_text (initial t i))
     else member (ManagedItem.key i) (managedSettings (open_item t d i)) = Some (initial t i)).
Proof.
  unfold open_item. destruct (editable i); cbn [negb]; [|by split_and!].
  destruct (is_selector i); cbn -[member assign]; split_and!; try done.
  - intros k [Hk|]; [|done]. by rewrite lookup_insert_ne.
  - intros _. by rewrite lookup_insert_eq.
  - intros k [Hk|]; [|done]. by rewrite member_assign_ne.
  - intros _. apply member_assign.
Qed.

Lemma keys_elem k l : k ∈ keys l <-> exists i, i ∈ l /\ editable i = true /\ ManagedItem.key i = k.
Proof.
  unfold keys. rewrite list_elem_of_In, in_map_iff. split.
  - intros (i & <- & Hi). apply filter_In in Hi as [Hi He]. exists i. by rewrite list_elem_of_In.
  - intros (i & Hi & He & <-). exists i. split; [done|]. apply filter_In. by rewrite <- list_elem_of_In.
Qed.

Lemma keys_cons_nodup i l : NoDup (keys (i :: l)) -> NoDup (keys l) /\ (editable i = true -> ManagedItem.key i ∉ keys l).
Proof.
  unfold keys. cbn. destruct (editable i); [|done]. cbn. intros H. inversion_clear H as [|? ? Hn Hl]. by split.
Qed.

(** The drawer after the loop. *)
Lemma open_items t l : forall d, NoDup (keys l) ->
  let d' := fold_left (open_item t) l d in
  configuring d' = configuring d /\ managedItems d' = managedItems d /\
  (forall k, k ∉ keys l -> member k (managedSettings d') = member k (managedSettings d) /\ selectorText d' !! k = selectorText d !! k) /\
  (forall i, i ∈ l -> editable i = true ->
     if is_selector i then selectorText d' !! ManagedItem.key i = Some (selector_text (initial t i))
     else member (ManagedItem.key i) (managedSettings d') = Some (initial t i)).
Proof.
  induction l as [|i l IH]; intros d Hn; [split_and!; [done..|set_solver]|]. apply keys_cons_nodup in Hn as [Hl Hi].
  cbn [fold_left]. destruct (IH (open_item t d i) Hl) as (Hc & Hm & Ho & Hs). clear IH.
  destruct (open_item_spec t d i) as (Hc1 & Hm1 & Ho1 & Hs1). cbn zeta in *.
  split_and!; [congruence..| |].
  - intros k Hk. assert ((k ∉ keys l) /\ (k <> ManagedItem.key i \/ editable i = false)) as [H1 H2].
    { unfold keys in Hk. cbn in Hk. destruct (editable i); [|by split; [|right]]. cbn in Hk. set_solver. }
    destruct (Ho k H1) as [-> ->]. by apply Ho1.
  - intros j Hj He. apply elem_of_cons in Hj as [->|Hj]; [|by apply Hs].
    destruct (Ho _ (Hi He)) as [-> ->]. by apply Hs1.
Qed.

Lemma parseSelector_text d d' i : selectorText d = selectorText d' -> parseSelector d i = parseSelector d' i.
Proof. intros H. unfold parseSelector. by rewrite H. Qed.

(** The settings after the loop of [saveConfiguration]. *)
Lemma collect_items l : forall d, NoDup (keys l) -> Forall (fun i => is_selector i = true -> ManagedItem.key i <> []) l ->
  let d' := fold_left (fun d i => if is_selector i then set_settings (assign (ManagedItem.key i) (JArr (parseSelector d i)) (managedSettings d)) d else d) l d in
  configuring d' = configuring d /\ selectorText d' = selectorText d /\
  (forall k, k ∉ keys l -> member k (managedSettings d') = member k (managedSettings d)) /\
  (forall i, i ∈ l -> editable i = true ->
     member (ManagedItem.key i) (managedSettings d') =
     if is_selector i then Some (JArr (parseSelector d i)) else member (ManagedItem.key i) (managedSettings d)).
Proof.
  induction l as [|i l IH]; intros d Hn Hk; [split_and!; [done..|set_solver]|]. apply keys_cons_nodup in Hn as [Hl Hi].
  inversion_clear Hk as [|? ? Hki Hkl]. pose proof (fun E => selector_editable i E (Hki E)) as Hse. cbn [fold_left].
  set (d1 := if is_selector i then set_settings (assign (ManagedItem.key i) (JArr (parseSelector d i)) (managedSettings d)) d else d).
  destruct (IH d1 Hl Hkl) as (Hc & Ht & Ho & Hs). clear IH. cbn zeta in *.
  assert (H1 : configuring d1 = configuring d /\ selectorText d1 = selectorText d) by (unfold d1; by destruct (is_selector i)).
  destruct H1 as [Hc1 Ht1].
  assert (Ho1 : forall k, k <> ManagedItem.key i \/ editable i = false -> member k (managedSettings d1) = member k (managedSettings d)).
  { intros k Hk. unfold d1. destruct (is_selector i) eqn:E; [|done]. cbn -[member assign]. apply member_assign_ne.
    destruct Hk as [Hk|Hk]; [done|]. by rewrite Hse in Hk. }
  split_and!; [congruence..| |].
  - intros k Hk. assert ((k ∉ keys l) /\ (k <> ManagedItem.key i \/ editable i = false)) as [H1 H2].
    { unfold keys in Hk. cbn in Hk. destruct (editable i); [|by split; [|right]]. cbn in Hk. set_solver. }
    rewrite (Ho k H1). by apply Ho1.
  - intros j Hj He. apply elem_of_cons in Hj as [->|Hj].
    + rewrite (Ho _ (Hi He)). unfold d1. destruct (is_selector i); [apply member_assign|done].
    + rewrite (Hs j Hj He). destruct (is_selector j) eqn:E; [by rewrite (parseSelector_text d1 d)|].
      destruct (decide (ManagedItem.key j = ManagedItem.key i)) as [Ek|]; [|apply Ho1; by left].
      destruct (editable i) eqn:Ei; [|apply Ho1; by right]. exfalso. apply (Hi eq_refl). rewrite <- Ek. apply keys_elem. eauto.
Qed.

(** ** Lists separated by commas *)

Lemma parse_array s l : parse s = Some (JArr l) -> exists t, skip_ws s = 91%N :: t.
Proof.
  unfold parse. destruct (skip_ws s) as [|c t]; [done|]. cbn [value].
  destruct (N.eqb_spec c 34) as [->|]; [by destruct (unquote t) as [[]|]; cbn; [destruct (skip_ws _)|]|].
  destruct (N.eqb_spec c 91) as [->|]; [by eauto|].
  destruct (N.eqb_spec c 123) as [->|].
  - destruct (skip_ws t) as [|d u]; [done|]. destruct (d =? 125)%N; [by cbn; destruct (skip_ws u)|].
    destruct (members _ _ _) as [[m u']|]; cbn; [by destruct (skip_ws u')|done].
  - destruct (number_unit c).
    + destruct (span _ _) as [token u]. destruct (decimal token); cbn; [by destruct (skip_ws u)|done].
    + destruct (literal (js "null") _) as [u|]; [by cbn; destruct (skip_ws u)|].
      destruct (literal (js "true") _) as [u|]; [by cbn; destruct (skip_ws u)|].
      destruct (literal (js "false") _) as [u|]; cbn; [by destruct (skip_ws u)|done].
Qed.

Lemma join_ends l sep : l <> [] -> Forall (fun x => x <> []) l ->
  (exists x t, x ∈ l /\ join l sep = (x ++ t)%list) /\ (exists x t, x ∈ l /\ join l sep = (t ++ x)%list).
Proof.
  intros Hne Hl. destruct l as [|x l]; [done|]. clear Hne. split.
  - exists x. destruct l; cbn [join]; [exists []; rewrite app_nil_r|eexists]; (split; [set_solver|done]).
  - induction l as [|y l IH] in x, Hl |- *; [exists x, []; by split; [set_solver|]|].
    inversion_clear Hl as [|? ? Hx Hl']. destruct (IH y Hl') as (z & t & Hz & Ht). exists z, (x ++ sep ++ t)%list.
    split; [set_solver|]. rewrite join_cons, Ht, !app_assoc. done.
Qed.

(** A line of trimmed items is trimmed. *)
Lemma trim_join l sep : Forall (item_ok comma) l -> trim (join l sep) = join l sep.
Proof.
  intros Hl. destruct l as [|x l]; [done|]. set (its := x :: l) in *.
  assert (Hne : Forall (fun x => x <> []) its) by (eapply Forall_impl; [exact Hl|by intros ? []]).
  destruct (join_ends its sep ltac:(done) Hne) as [(a & t & Ha & Ea) (b & u & Hb & Eb)]. rewrite Forall_forall in Hl.
  apply trim_fixed.
  - rewrite Ea. destruct (Hl a Ha) as (Hn & Ht & _). destruct a as [|c a]; [done|]. cbn.
    pose proof (trim_ends (c :: a)) as [H _]. by rewrite Ht in H.
  - rewrite Eb. destruct (Hl b Hb) as (Hn & Ht & _). pose proof (trim_ends b) as [_ H]. rewrite Ht in H. rewrite rev_app_distr.
    destruct (rev b) as [|c r] eqn:E; [|done]. apply (f_equal (@rev N)) in E. rewrite rev_involutive in E. by subst.
Qed.

(** Items that do not look like JSON are read as a line. *)
Lemma parse_selector_line d i l : Forall (item_ok comma) l -> Forall (fun x => head x <> Some 91%N) l ->
  selectorText d !! ManagedItem.key i = Some (join l (js ", ")) ->
  parseSelector d i = if is_type i "pingtasks" then map JNum (List.filter isFinite (map Number l)) else map JStr l.
Proof.
  intros Hl Hh Ht. unfold parseSelector.
  assert (E : trim (nullish (selectorText d !! ManagedItem.key i) []) = join l (js ", ")) by (rewrite Ht; by apply trim_join).
  rewrite E. destruct l as [|x l]; [by destruct (is_type i "pingtasks")|]. set (its := x :: l) in *.
  assert (Hi : items comma (join its (js ", ")) = its) by (apply (items_join comma [32%N]); [set_solver|by repeat constructor|done]).
  assert (Hne : Forall (fun x => x <> []) its) by (eapply Forall_impl; [exact Hl|by intros ? []]).
  destruct (join_ends its (js ", ") ltac:(done) Hne) as [(a & t & Ha & Ea) _].
  rewrite Forall_forall in Hl, Hh. destruct (Hl a Ha) as (Hn & Hta & _). specialize (Hh a Ha).
  destruct a as [|c a]; [done|]. pose proof (trim_ends (c :: a)) as [Hc _]. rewrite Hta in Hc.
  assert (Hws : is_ws c = false).
  { unfold isSpace in Hc. unfold is_ws. rewrite !orb_false_iff, !andb_false_iff, !N.leb_gt, !N.eqb_neq in *. lia. }
  rewrite Hi. assert (Htr : truthy (join its (js ", ")) = true) by (by rewrite Ea). rewrite Htr. cbn [negb].
  destruct (parse (join its (js ", "))) as [v|] eqn:Ep; [|done]. destruct v as [| | | |vs|]; try done.
  apply parse_array in Ep as [w Hw]. rewrite Ea in Hw. cbn in Hw. rewrite Hws in Hw. injection Hw as -> _. done.
Qed.

Lemma integer_item k : (Z.abs k < 10 ^ 15)%Z -> item_ok comma (toString (#k)) /\ head (toString (#k)) <> Some 91%N.
Proof.
  intros Hk. pose proof (num_ok_of_Z k Hk) as H. unfold num_ok in H. rewrite !andb_true_iff in H. destruct H as [[[_ Ht] Hu] _].
  unfold item_ok. rewrite trim_number by done. destruct (toString (#k)) as [|c s]; [done|].
  rewrite forallb_forall in Hu. split_and!; try done.
  - intros Hc. apply list_elem_of_In in Hc. by apply Hu in Hc.
  - cbn. intros [= ->]. discriminate (Hu 91%N (or_introl eq_refl)).
Qed.

(** Opening a theme with a form of items and saving at once. *)
Lemma edit_collect t l raw : well_keyed l ->
  let o := managedSettings (collect (open_managed t l raw)) in
  (forall i, i ∈ l -> editable i = true -> is_selector i = false -> member (ManagedItem.key i) o = Some (initial t i)) /\
  (forall i ids, i ∈ l -> is_selector i = true -> initial t i = JArr ids -> Forall id_value ids ->
     member (ManagedItem.key i) o = Some (JArr ids)) /\
  (forall i x, i ∈ l -> is_selector i = true -> selector_text (initial t i) = join x (js ", ") ->
     Forall (item_ok comma) x -> Forall (fun x => head x <> Some 91%N) x ->
     member (ManagedItem.key i) o = Some (JArr (if is_type i "pingtasks" then map JNum (List.filter isFinite (map Number x)) else map JStr x))) /\
  (forall k, k ∉ keys l -> member k o = None).
Proof.
  intros [Hn Hk]. unfold collect, open_managed.
  destruct (open_items t l (mkDrawer (Some t) l [] ∅ raw) Hn) as (Hc & Hm & Ho & Hs). cbn zeta in *. rewrite Hm. cbn [managedItems].
  set (d := fold_left (open_item t) l _) in *. destruct (collect_items l d Hn Hk) as (Hc' & Ht' & Ho' & Hs'). cbn zeta in *.
  split_and!.
  - intros i Hi He E. rewrite (Hs' i Hi He), E. specialize (Hs i Hi He). by rewrite E in Hs.
  - intros i ids Hi E Hv Hids. rewrite Forall_forall in Hk. pose proof (selector_editable i E (Hk i Hi E)) as He.
    rewrite (Hs' i Hi He), E. do 2 f_equal. apply parse_selector_text; [done|]. specialize (Hs i Hi He). rewrite E in Hs. by rewrite Hs, Hv.
  - intros i x Hi E Hv Hx Hh. rewrite Forall_forall in Hk. pose proof (selector_editable i E (Hk i Hi E)) as He.
    rewrite (Hs' i Hi He), E. do 2 f_equal. apply parse_selector_line; [done|done|]. specialize (Hs i Hi He). rewrite E in Hs. by rewrite Hs, Hv.
  - intros k Hk'. rewrite (Ho' k Hk'). by apply Ho.
Qed.

Lemma collect_configuring d : configuring (collect d) = configuring d.
Proof.
  unfold collect. generalize (managedItems d) as l. intros l. revert d. induction l as [|i l IH]; intros d; [done|].
  cbn [fold_left]. rewrite IH. by destruct (is_selector i).
Qed.

(** The outcome of saving an open form. *)
Lemma exec_save_configuration (env : Env) loc p t : configuring (config p) = Some t ->
  let request := PutThemeSettings (ThemeManifest.short (Theme.manifest t)) (managedSettings (collect (config p))) in
  exec env (saveConfiguration loc) p =
  Outcome [One request]
    (match env request with
     | inl updated => set_busy false (saved_theme loc updated (set_config (collect (config p)) (start p)))
     | inr e => set_busy false (set_error (reason_message e (text loc (js "无法保存主题设置。") (js "Theme settings could not be saved.")))
                                  (set_config (collect (config p)) (start p)))
     end) (inl tt).
Proof.
  intros Ht request. unfold saveConfiguration. cbn [bind get exec]. rewrite Ht. cbn -[collect js text saved_theme].
  unfold request. by destruct (env (PutThemeSettings _ _)).
Qed.


(** A theme with a title, a switch, a list of nodes and a list of probe tasks. *)
Definition item_json (key type : string) : json := JObj [(js "key", JStr (js key)); (js "type", JStr (js type))].
Definition some_items : list json :=
  [item_json "about" "title"; item_json "dense" "switch"; item_json "pinned" "nodes"; item_json "charts" "pingtasks"].
Definition a_theme : Theme.t :=
  Theme.mk
    (ThemeManifest.mk (LStr (js "Night")) (js "night") None None None None None
       (Some (ThemeManifest.mkConfiguration None None None (Some (JArr some_items)))))
    [(js "pinned", JArr [JStr (js "n1"); JStr (js "n,2")]); (js "charts", JArr [JNum (#3); JNum (#(-40))])] None [] [] [].


(** ** Properties: a line of a selector *)

(** A selector that is not JSON is a line separated by commas: names are
    read as they are; integers, for a list of probe tasks, as numbers. *)
Theorem selector_commas d i :
  (forall l, Forall (item_ok comma) l -> Forall (fun x => head x <> Some 91%N) l -> is_type i "pingtasks" = false ->
     selectorText d !! ManagedItem.key i = Some (join l (js ", ")) -> parseSelector d i = map JStr l) /\
  (forall ks, Forall (fun k => Z.abs k < 10 ^ 15)%Z ks -> is_type i "pingtasks" = true ->
     selectorText d !! ManagedItem.key i = Some (join (map (fun k => toString (#k)) ks) (js ", ")) ->
     parseSelector d i = map (fun k => JNum (#k)) ks).
Proof.
  split.
  - intros l Hl Hh Hi Ht. by rewrite (parse_selector_line d i l), Hi.
  - intros ks Hks Hi Ht.
    assert (Hn : map Number (map (fun k => toString (#k)) ks) = map (fun k => #k) ks).
    { rewrite map_map. apply map_ext_in. intros k Hk. apply Number_of_Z. rewrite Forall_forall in Hks. apply Hks. by apply list_elem_of_In. }
    rewrite (parse_selector_line d i (map (fun k => toString (#k)) ks)); [|apply Forall_map..|exact Ht].
    + rewrite Hi, Hn. clear -Hks. induction Hks as [|k ks Hk Hks IH]; [done|]. cbn [map List.filter]. unfold isFinite.
      rewrite of_Z_finite by lia. cbn [map]. f_equal. exact IH.
    + eapply Forall_impl; [exact Hks|]. intros k Hk. by apply integer_item.
    + eapply Forall_impl; [exact Hks|]. intros k Hk. by apply integer_item.
Qed.

Lemma selector_commas_witness :
  let i := ManagedItem.mk (js "charts") None None (js "pingtasks") None None false in
  let d := mkDrawer None [i] [] {[ js "charts" := js "3, 14, -2" ]} [] in
  parseSelector d i = [JNum (#3); JNum (#14); JNum (#(-2))].
Proof.
  intros i d. apply (proj2 (selector_commas d i) [3; 14; -2]%Z); [repeat constructor; lia|vm_compute; reflexivity..].
Defined.
