(* ===== verification/TimeSeriesChart.v ===== *)
(** * TimeSeriesChart: the life cycle of a chart
    (web/src/components/TimeSeriesChart.vue)

    The component keeps one echarts instance up to date with its properties and
    the page's style, and gives back what it registered.  echarts and the DOM
    are seen through what the component does with them: the option last set, and
    which registrations are alive (an instance that was disposed of ignores
    [setOption]).  An event that Vue or the browser delivers is an [event]; one
    whose registration is not alive reaches nobody. *)

From Stdlib Require Import Strings.String.
From S2P Require Import Prelude JsString Binary64 JsNumber Types.

(** ** State *)

Record series_ := mkSeries { name : jsstr; values : list (option num); color : jsstr }.

#[export] Instance series_eq_dec : EqDecision series_.
Proof. solve_decision. Defined.

Record props := mkProps {
  labels : list jsstr; series : list series_; unit : option jsstr; max : option num; ariaLabel : option jsstr;
}.

(** The custom properties [render] reads, as [getPropertyValue] gives them. *)
Record style := mkStyle { text_muted : jsstr; line : jsstr; font_ui : jsstr }.

Record instance := mkInstance { shown : option json; disposed : bool }.

Inductive phase := Setup | Mounted | Unmounted.

#[export] Instance phase_eq_dec : EqDecision phase.
Proof. solve_decision. Defined.

Record component := mkComponent {
  life : phase;
  given : props;
  styles : style;
  chart : option instance;
  observer : bool;             (* the ResizeObserver observes *)
  appearanceObserver : bool;   (* the MutationObserver observes *)
  colorScheme : bool;          (* the change listener is registered *)
}.

Definition init (p : props) (st : style) : component := mkComponent Setup p st None false false false.

Definition set_chart (i : option instance) (c : component) : component :=
  mkComponent (life c) (given c) (styles c) i (observer c) (appearanceObserver c) (colorScheme c).
Definition set_given (p : props) (c : component) : component :=
  mkComponent (life c) p (styles c) (chart c) (observer c) (appearanceObserver c) (colorScheme c).
Definition set_styles (st : style) (c : component) : component :=
  mkComponent (life c) (given c) st (chart c) (observer c) (appearanceObserver c) (colorScheme c).
Definition set_life (l : phase) (c : component) : component :=
  mkComponent l (given c) (styles c) (chart c) (observer c) (appearanceObserver c) (colorScheme c).
Definition set_observers (b : bool) (c : component) : component :=
  mkComponent (life c) (given c) (styles c) (chart c) b b b.

(** ** The option *)

Definition o_str (s : string) : json := JStr (js s).
Definition o_int (n : Z) : json := JNum (of_Z n).
(** An object literal. *)
Definition obj (l : list (string * json)) : json := JObj (map (fun kv => (js kv.1, kv.2)) l).
(** [key: value] with a value that can be undefined. *)
Definition maybe (key : string) (v : option json) : list (string * json) := match v with Some v => [(key, v)] | None => [] end.

Definition series_option (x : series_) : json :=
  obj [("name", JStr (name x)); ("type", o_str "line"); ("data", JArr (map (fun v => match v with Some n => JNum n | None => JNull end) (values x)));
       ("symbol", o_str "none"); ("smooth", JNum (of_frac 18 100)); ("lineStyle", obj [("width", o_int 2); ("color", JStr (color x))]);
       ("areaStyle", obj [("color", JStr (color x)); ("opacity", JNum (of_frac 8 100))])]%string.

Definition chart_option (p : props) (st : style) : json :=
  let muted := JStr (trim (text_muted st)) in
  let grid := JStr (trim (line st)) in
  let uiFont := JStr (trim (font_ui st)) in
  obj [("animation", JBool false);
       ("backgroundColor", o_str "transparent");
       ("grid", obj [("left", o_int 54); ("right", o_int 16); ("top", o_int 18); ("bottom", o_int 34)]);
       ("tooltip", obj [("trigger", o_str "axis"); ("backgroundColor", o_str "#111619"); ("borderColor", o_str "#4b595d"); ("padding", o_int 12);
                        ("textStyle", obj [("color", o_str "#eef2ef"); ("fontFamily", uiFont); ("fontSize", o_int 13)])]);
       ("xAxis", obj [("type", o_str "category"); ("data", JArr (map JStr (labels p))); ("boundaryGap", JBool false);
                      ("axisLabel", obj [("color", muted); ("fontFamily", uiFont); ("fontSize", o_int 11); ("hideOverlap", JBool true)]);
                      ("axisLine", obj [("lineStyle", obj [("color", grid)])]); ("axisTick", obj [("show", JBool false)])]);
       ("yAxis", obj ([("type", o_str "value"); ("min", o_int 0)] ++ maybe "max" (JNum <$> max p)
                      ++ [("axisLabel", obj [("color", muted); ("fontFamily", uiFont); ("fontSize", o_int 11);
                                             ("formatter", JStr (js "{value}" ++ nullish (unit p) [])%list)]);
                          ("splitLine", obj [("lineStyle", obj [("color", grid); ("type", o_str "dashed")])])])%list);
       ("series", JArr (map series_option (series p)))]%string.

(** ** Handlers *)

Definition render (c : component) : component :=
  match chart c with
  | None => c
  | Some i => if disposed i then c else set_chart (Some (mkInstance (Some (chart_option (given c) (styles c))) false)) c
  end.

(** [onMounted]; [element] tells whether the template's element is there. *)
Definition onMounted (element : bool) (c : component) : component :=
  let c := set_life Mounted c in
  if negb element then c else set_observers true (render (set_chart (Some (mkInstance None false)) c)).

Definition onBeforeUnmount (c : component) : component :=
  let c := set_observers false (set_life Unmounted c) in
  set_chart ((fun i => mkInstance (shown i) true) <$> chart c) c.

(** The accessible name of the element. *)
Definition aria_label (p : props) : jsstr :=
  match ariaLabel p with
  | Some (c :: s) => c :: s
  | _ => (join (map name (series p)) (js ", ") ++ js " time series chart")%list
  end.

Inductive event :=
| Mount (element : bool)
| Update (p : props)          (* new properties *)
| Appearance (st : style)     (* an attribute of the root element changed *)
| Scheme (st : style)         (* the color scheme of the system changed *)
| Unmount.

(** [watch(() => [labels, series], render, { deep: true })]: the other
    properties are not watched. *)
Definition watched (p q : props) : bool := bool_decide (labels p = labels q /\ series p = series q).

Definition handle (c : component) (e : event) : component :=
  match e with
  | Mount b => if bool_decide (life c = Setup) then onMounted b c else c
  | Update p =>
      if bool_decide (life c = Unmounted) then c
      else let c' := set_given p c in if watched (given c) p then c' else render c'
  | Appearance st => let c' := set_styles st c in if appearanceObserver c then render c' else c'
  | Scheme st => let c' := set_styles st c in if colorScheme c then render c' else c'
  | Unmount => if bool_decide (life c = Mounted) then onBeforeUnmount c else c
  end.

Definition run (p : props) (st : style) (l : list event) : component := fold_left handle l (init p st).

(** ** Properties *)

(** What holds between events: [u] and [m] are the unit and the maximum the
    parent passes. *)
Definition chart_inv (u : option jsstr) (m : option num) (c : component) : Prop :=
  unit (given c) = u /\ max (given c) = m /\
  match life c with
  | Setup => chart c = None /\ observer c = false /\ appearanceObserver c = false /\ colorScheme c = false
  | Mounted => (chart c = None /\ observer c = false /\ appearanceObserver c = false /\ colorScheme c = false) \/
               (chart c = Some (mkInstance (Some (chart_option (given c) (styles c))) false) /\
                observer c = true /\ appearanceObserver c = true /\ colorScheme c = true)
  | Unmounted => observer c = false /\ appearanceObserver c = false /\ colorScheme c = false /\
                 match chart c with Some i => disposed i = true | None => True end
  end.

Definition same_scale (u : option jsstr) (m : option num) (e : event) : Prop :=
  match e with Update p => unit p = u /\ max p = m | _ => True end.

Lemma chart_option_watched p q st : watched p q = true -> unit p = unit q -> max p = max q -> chart_option p st = chart_option q st.
Proof. unfold watched, chart_option. intros [Hl Hs]%bool_decide_eq_true Hu Hm. by rewrite Hl, Hs, Hu, Hm. Qed.

(** A change of style reaches the chart through either registration. *)
Lemma restyle_inv u m c st (b : bool) : chart_inv u m c -> (b = appearanceObserver c \/ b = colorScheme c) ->
  chart_inv u m (if b then render (set_styles st c) else set_styles st c).
Proof.
  intros (Hu & Hm & H) Hb. destruct c as [ph p st0 ch ob ap co]. cbn in *.
  destruct ph; cbn in *.
  - destruct H as (-> & -> & -> & ->). by destruct Hb as [-> | ->].
  - destruct H as [(-> & -> & -> & ->)|(-> & -> & -> & ->)]; (destruct Hb as [-> | ->]); (split; [done|]); (split; [done|]); cbn; [by left..|by right|by right].
  - destruct H as (-> & -> & -> & H). by destruct Hb as [-> | ->].
Qed.

Lemma handle_inv u m c e : same_scale u m e -> chart_inv u m c -> chart_inv u m (handle c e).
Proof.
  intros He (Hu & Hm & H). destruct c as [ph p st ch ob ap co]. cbn in *.
  destruct e as [el|q|st'|st'|]; cbn [handle life].
  - destruct ph; cbn; [|done..]. destruct H as (-> & -> & -> & ->). destruct el; (split; [done|]); (split; [done|]); cbn; [by right|by left].
  - destruct He as [Hqu Hqm]. destruct (bool_decide_reflect (ph = Unmounted)) as [->|Hn]; [done|]. cbn [given].
    destruct (watched p q) eqn:W.
    + split; [done|split; [done|]]. destruct ph; cbn in *; try done. destruct H as [H|(-> & H)]; [by left|right].
      split; [|done]. by rewrite (chart_option_watched p q) by congruence.
    + destruct ph; cbn in *; try done.
      * by destruct H as (-> & H).
      * destruct H as [(-> & H)|(-> & H)]; (split; [done|split; [done|]]); cbn; [by left|by right].
  - apply (restyle_inv u m (mkComponent ph p st ch ob ap co)); [done|by left].
  - apply (restyle_inv u m (mkComponent ph p st ch ob ap co)); [done|by right].
  - destruct ph; cbn in *; try done. destruct H as [(-> & H)|(-> & H)]; by cbn.
Qed.

Lemma run_inv p st l : Forall (same_scale (unit p) (max p)) l -> chart_inv (unit p) (max p) (run p st l).
Proof.
  intros Hl. unfold run. assert (H0 : chart_inv (unit p) (max p) (init p st)) by done. revert H0. generalize (init p st).
  induction Hl as [|e l He Hl IH]; intros c Hc; [done|]. cbn. apply IH. by apply handle_inv.
Qed.

(** C20: whatever happens in whatever order, a mounted chart shows its current
    properties in the current style, provided the parent passes one unit and one
    maximum as every use does, and an unmounted component has disposed of its
    chart and given back its observers and its listener. *)
Theorem chart_shows_props p st l : Forall (same_scale (unit p) (max p)) l ->
  let c := run p st l in
  (life c = Mounted -> forall i, chart c = Some i -> shown i = Some (chart_option (given c) (styles c)) /\ disposed i = false) /\
  (life c = Unmounted -> observer c = false /\ appearanceObserver c = false /\ colorScheme c = false /\
     forall i, chart c = Some i -> disposed i = true).
Proof.
  intros Hl c. destruct (run_inv p st l Hl) as (_ & _ & H). change (run p st l) with c in H. split; intros Hp; rewrite Hp in H.
  - intros i Hi. destruct H as [[H _]|[H _]]; rewrite Hi in H; [done|]. by injection H as ->.
  - destruct H as (H1 & H2 & H3 & H4). split_and!; try done. intros i Hi. by rewrite Hi in H4.
Qed.

(** A chart that is mounted, gets new values, a dark page, and is left. *)
Definition a_chart : props := mkProps [js "10:00"] [mkSeries (js "CPU") [Some (of_Z 12); None] (js "#fff")] (Some (js "%")) (Some (of_Z 100)) None.
Definition light : style := mkStyle (js " #666") (js " #ddd") (js " sans-serif").

Lemma chart_shows_props_witness :
  colorScheme (run a_chart light [Mount true; Update (mkProps [] [] (Some (js "%")) (Some (of_Z 100)) None); Appearance light; Unmount]) = false.
Proof.
  refine (proj1 (proj2 (proj2 (proj2 (chart_shows_props a_chart light [Mount true; Update (mkProps [] [] (Some (js "%")) (Some (of_Z 100)) None); Appearance light; Unmount] _) _)))).
  - repeat constructor.
  - vm_compute. reflexivity.
Defined.
