(* ===== verification/Html.v ===== *)
(** * Html: the templates of the components

    A template is a function of the component's state to a tree of elements.
    Elements carry their attributes and the handlers bound to their events; a
    [v-model] shows a value and writes it back.  [acts P t]: every handler that
    the user can start on the tree satisfies [P] (a disabled control starts
    none, and a form is submitted only through a button of it that is enabled).
    [shown] are the texts of the tree, [keys_ok] says that Vue can tell the
    children of a [v-for] apart.  [ui_reachable] runs a page through its
    template. *)

From Stdlib Require Import Strings.String.
From S2P Require Import Prelude JsString Binary64 JsNumber Async.

(** ** Values in templates *)

(** [a || b] on strings. *)
Definition or_string (a b : jsstr) : jsstr := if truthy a then a else b.
Definition or_option (a b : option jsstr) : option jsstr := match a with Some (_ :: _) => a | _ => b end.

(** [String(b)]. *)
Definition bool_text (b : bool) : jsstr := if b then js "true" else js "false".

(** ** Trees *)

(** The value of [:key]. *)
Inductive key := KeyS (s : jsstr) | KeyN (n : num).

Section Html.
Context {H : Type}.

Inductive attr :=
| Attr (name : string) (v : jsstr)                 (* name="v" or :name="v" *)
| Flag (name : string) (b : bool)                  (* :name="b", an attribute that is there or not *)
| Cls (v : jsstr)                                  (* class="v" or :class="v" *)
| ClsIf (v : string) (b : bool)                    (* :class="{ v: b }" *)
| Style (name : string) (v : jsstr)                (* :style="{ name: v }" *)
| Key (k : key)
| On (event : string) (h : H)                      (* @event="h" *)
| OnValue (event : string) (A : Type) (h : A -> H) (* @event="h" with a value of the event *)
| Model (A : Type) (v : A) (write : A -> H).       (* v-model *)

Inductive html :=
| Text (s : jsstr)
| Raise                                             (* an expression that throws: nothing is rendered *)
| El (tag : string) (attrs : list attr) (children : list html)
| Frag (l : list html).

Definition Nothing : html := Frag [].

(** ** What the user can start *)

Fixpoint has_attr (name : string) (l : list attr) : bool :=
  match l with
  | [] => false
  | Attr n _ :: l' => String.eqb n name || has_attr name l'
  | Flag n b :: l' => String.eqb n name && b || has_attr name l'
  | _ :: l' => has_attr name l'
  end.

Definition disabled (l : list attr) : bool := has_attr "disabled" l.

(** A button of a form submits it unless it has a [type] of its own. *)
Fixpoint can_submit (t : html) : bool :=
  match t with
  | Text _ | Raise => false
  | El tag attrs kids =>
      (String.eqb tag "button" && negb (disabled attrs) && negb (has_attr "type" attrs)) || existsb can_submit kids
  | Frag l => existsb can_submit l
  end.

Definition attr_acts (P : H -> Prop) (submits : bool) (a : attr) : Prop :=
  match a with
  | On e h => if String.eqb e "submit.prevent" then submits = true -> P h else P h
  | OnValue _ A h => forall x : A, P (h x)
  | Model A _ w => forall x : A, P (w x)
  | _ => True
  end.

Fixpoint acts (P : H -> Prop) (t : html) : Prop :=
  match t with
  | Text _ | Raise => True
  | El _ attrs kids =>
      (disabled attrs = false -> List.Forall (attr_acts P (existsb can_submit kids)) attrs) /\
      (fix all (l : list html) : Prop := match l with [] => True | k :: l' => acts P k /\ all l' end) kids
  | Frag l => (fix all (l : list html) : Prop := match l with [] => True | k :: l' => acts P k /\ all l' end) l
  end.

Definition all_act (P : H -> Prop) (l : list html) : Prop := List.Forall (acts P) l.

(** The handlers on the tree. *)
Definition offered (t : html) (h : H) : Prop := forall P : H -> Prop, acts P t -> P h.

(** The handlers of clicks and submissions, in order. *)
Definition attr_click (submits : bool) (a : attr) : list H :=
  match a with On e h => if String.eqb e "submit.prevent" && negb submits then [] else [h] | _ => [] end.

Fixpoint clicks (t : html) : list H :=
  match t with
  | Text _ | Raise => []
  | El _ attrs kids =>
      (if disabled attrs then [] else flat_map (attr_click (existsb can_submit kids)) attrs) ++ flat_map clicks kids
  | Frag l => flat_map clicks l
  end.

(** The fields, in order: what they write. *)
Definition attr_field (a : attr) : list {A : Type & A -> H} :=
  match a with OnValue _ A w | Model A _ w => [existT A w] | _ => [] end.

Fixpoint fields (t : html) : list {A : Type & A -> H} :=
  match t with
  | Text _ | Raise => []
  | El _ attrs kids => (if disabled attrs then [] else flat_map attr_field attrs) ++ flat_map fields kids
  | Frag l => flat_map fields l
  end.

(** ** What the user sees *)

Fixpoint shown (t : html) : list jsstr :=
  match t with
  | Text s => [s]
  | Raise => []
  | El _ _ kids => flat_map shown kids
  | Frag l => flat_map shown l
  end.

(** The texts below the elements that have an attribute of a name. *)
Fixpoint marked (name : string) (t : html) : list (list jsstr) :=
  match t with
  | Text _ | Raise => []
  | El _ attrs kids => if has_attr name attrs then [flat_map shown kids] else flat_map (marked name) kids
  | Frag l => flat_map (marked name) l
  end.

(** The elements of a tag, outermost first. *)
Fixpoint elements (name : string) (t : html) : list html :=
  match t with
  | Text _ | Raise => []
  | El tag _ kids => if String.eqb tag name then [t] else flat_map (elements name) kids
  | Frag l => flat_map (elements name) l
  end.

(** Rendering gives a tree, not an exception. *)
Fixpoint renders (t : html) : bool :=
  match t with
  | Text _ => true
  | Raise => false
  | El _ _ kids => forallb renders kids
  | Frag l => forallb renders l
  end.

(** The text of an expression that may throw. *)
Definition text_or_raise (s : option jsstr) : html := match s with Some s => Text s | None => Raise end.

(** ** Keys *)

Definition key_eqb (a b : key) : bool :=
  match a, b with KeyS s, KeyS t => streq s t | KeyN m, KeyN n => eqb m n | _, _ => false end.

Fixpoint key_of_attrs (l : list attr) : option key :=
  match l with [] => None | Key k :: _ => Some k | _ :: l' => key_of_attrs l' end.

Definition key_of (t : html) : option key := match t with El _ attrs _ => key_of_attrs attrs | _ => None end.

Fixpoint distinct_keys (l : list key) : bool :=
  match l with [] => true | k :: l' => forallb (fun k' => negb (key_eqb k k')) l' && distinct_keys l' end.

(** The children of a fragment, which is what a [v-for] makes, have distinct
    keys where they have keys. *)
Fixpoint keys_ok (t : html) : bool :=
  match t with
  | Text _ | Raise => true
  | El _ _ kids => forallb keys_ok kids
  | Frag l => distinct_keys (omap key_of l) && forallb keys_ok l
  end.

(** ** Lemmas *)

Lemma acts_all P l : (fix all (l : list html) : Prop := match l with [] => True | k :: l' => acts P k /\ all l' end) l <-> all_act P l.
Proof.
  unfold all_act. induction l as [|k l IH]; [split; [constructor|done]|]. rewrite List.Forall_cons_iff, IH. done.
Qed.

Lemma acts_text P s : acts P (Text s).
Proof. done. Qed.

Lemma acts_text_or_raise P s : acts P (text_or_raise s).
Proof. by destruct s. Qed.

Lemma acts_frag P l : all_act P l -> acts P (Frag l).
Proof. intros Hl. by apply acts_all. Qed.

Lemma acts_el P tag attrs kids : (disabled attrs = false -> List.Forall (attr_acts P (existsb can_submit kids)) attrs) ->
  all_act P kids -> acts P (El tag attrs kids).
Proof. intros Ha Hk. split; [done|]. by apply acts_all. Qed.

Lemma all_act_map {A} P (f : A -> html) l : (forall x, In x l -> acts P (f x)) -> all_act P (map f l).
Proof. intros Hf. apply List.Forall_map. by apply List.Forall_forall. Qed.

Lemma clicks_act P t : acts P t -> List.Forall P (clicks t).
Proof.
  revert t. fix IH 1. intros [s| |tag attrs kids|l]; [constructor|constructor| |].
  - intros [Ha Hk]. cbn. apply List.Forall_app. split.
    + destruct (disabled attrs); [constructor|]. specialize (Ha eq_refl). induction Ha as [|a attrs Ha _ IHa]; [constructor|].
      cbn. apply List.Forall_app. split; [|done]. destruct a as [ | | | | | |e h|e A h|A v w]; cbn; try constructor.
      cbn in Ha. destruct (String.eqb e "submit.prevent"); [|by repeat constructor].
      destruct (existsb can_submit kids); repeat constructor. by apply Ha.
    + clear Ha. induction kids as [|k kids IHk]; [constructor|]. destruct Hk as [Hk Hks]. cbn. apply List.Forall_app. split; [by apply IH|by apply IHk].
  - intros Hk. cbn. induction l as [|k kids IHk]; [constructor|]. destruct Hk as [Hk Hks]. cbn. apply List.Forall_app. split; [by apply IH|by apply IHk].
Qed.

Lemma offered_click t n h : clicks t !! n = Some h -> offered t h.
Proof.
  intros Hn P Ha. pose proof (clicks_act P t Ha) as Hc. apply list_elem_of_lookup_2, list_elem_of_In in Hn.
  rewrite List.Forall_forall in Hc. by apply Hc.
Qed.

Lemma fields_act P t : acts P t -> List.Forall (fun w : {A : Type & A -> H} => forall x, P (projT2 w x)) (fields t).
Proof.
  revert t. fix IH 1. intros [s| |tag attrs kids|l]; [constructor|constructor| |].
  - intros [Ha Hk]. cbn. apply List.Forall_app. split.
    + destruct (disabled attrs); [constructor|]. specialize (Ha eq_refl). induction Ha as [|a attrs Ha _ IHa]; [constructor|].
      cbn. apply List.Forall_app. split; [|done]. destruct a; cbn in *; by repeat constructor.
    + clear Ha. induction kids as [|k kids IHk]; [constructor|]. destruct Hk as [Hk Hks]. cbn. apply List.Forall_app. split; [by apply IH|by apply IHk].
  - intros Hk. cbn. induction l as [|k kids IHk]; [constructor|]. destruct Hk as [Hk Hks]. cbn. apply List.Forall_app. split; [by apply IH|by apply IHk].
Qed.

Lemma offered_field t n A (w : A -> H) x : fields t !! n = Some (existT A w) -> offered t (w x).
Proof.
  intros Hn P Ha. pose proof (fields_act P t Ha) as Hc. apply list_elem_of_lookup_2, list_elem_of_In in Hn.
  rewrite List.Forall_forall in Hc. exact (Hc _ Hn x).
Qed.

Lemma acts_mono (P Q : H -> Prop) t : (forall h, P h -> Q h) -> acts P t -> acts Q t.
Proof.
  intros HPQ. revert t. fix IH 1. intros [s| |tag attrs kids|l]; [done|done| |].
  - intros [Ha Hk]. split.
    + intros Hd. specialize (Ha Hd). eapply List.Forall_impl; [|exact Ha]. intros [ | | | | | |e h|e A h|A v w]; cbn; try done; [|auto|auto].
      destruct (String.eqb e "submit.prevent"); auto.
    + clear Ha. induction kids as [|k kids IHk]; [done|]. destruct Hk as [Hk Hks]. split; [by apply IH|by apply IHk].
  - intros Hk. induction l as [|k kids IHk]; [done|]. destruct Hk as [Hk Hks]. split; [by apply IH|by apply IHk].
Qed.

Lemma elements_if (c : bool) n (a b : html) : elements n (if c then a else b) = if c then elements n a else elements n b.
Proof. by destruct c. Qed.

Lemma elements_text_or_raise n s : elements n (text_or_raise s) = [].
Proof. by destruct s. Qed.

Lemma elements_none {A} n (f : A -> html) l : (forall x, elements n (f x) = []) -> flat_map (elements n) (map f l) = [].
Proof. intros Hf. induction l as [|x l IH]; [done|]. cbn. by rewrite Hf. Qed.

Lemma elements_each {A} n (f : A -> html) l : (forall x, elements n (f x) = [f x]) -> flat_map (elements n) (map f l) = map f l.
Proof. intros Hf. induction l as [|x l IH]; [done|]. cbn. by rewrite Hf, IH. Qed.

Lemma marked_if (c : bool) n (a b : html) : marked n (if c then a else b) = if c then marked n a else marked n b.
Proof. by destruct c. Qed.

Lemma marked_text_or_raise n s : marked n (text_or_raise s) = [].
Proof. by destruct s. Qed.

Lemma marked_none {A} n (f : A -> html) l : (forall x, marked n (f x) = []) -> flat_map (marked n) (map f l) = [].
Proof. intros Hf. induction l as [|x l IH]; [done|]. cbn. by rewrite Hf. Qed.

Lemma renders_if (c : bool) (a b : html) : renders (if c then a else b) = if c then renders a else renders b.
Proof. by destruct c. Qed.

Lemma renders_text_or_raise s : renders (text_or_raise s) = bool_decide (is_Some s).
Proof. by destruct s. Qed.

Lemma renders_each {A} (f : A -> html) l : forallb renders (map f l) = forallb (fun x => renders (f x)) l.
Proof. induction l as [|x l IH]; [done|]. cbn. by rewrite IH. Qed.

End Html.

Lemma forallb_pointwise {A} (f g : A -> bool) l : (forall x, f x = g x) -> forallb f l = forallb g l.
Proof. intros Hf. induction l as [|x l IH]; [done|]. cbn. by rewrite Hf, IH. Qed.

Lemma forallb_true {A} (l : list A) : forallb (fun _ => true) l = true.
Proof. by induction l. Qed.

Lemma if_same {A} (c : bool) (x : A) : (if c then x else x) = x.
Proof. by destruct c. Qed.

Arguments attr : clear implicits.
Arguments html : clear implicits.

(** ** Proving what a tree offers, element by element *)

Create HintDb view_db.

Ltac view_step :=
  cbv beta zeta;
  lazymatch goal with
  | |- acts _ (Text _) => apply acts_text
  | |- acts _ (text_or_raise _) => apply acts_text_or_raise
  | |- acts _ (Frag _) => apply acts_frag
  | |- acts _ Nothing => apply acts_frag
  | |- acts _ (El _ _ _) => apply acts_el; [intros ?|]
  | |- acts _ (match ?x with _ => _ end) => destruct x eqn:?
  | |- all_act _ (map _ _) => apply all_act_map; intros ? ?
  | |- all_act _ (_ :: _) => apply List.Forall_cons
  | |- all_act _ [] => apply List.Forall_nil
  | |- List.Forall _ (_ :: _) => apply List.Forall_cons
  | |- List.Forall _ [] => apply List.Forall_nil
  | |- attr_acts _ _ (On _ _) => cbn [attr_acts String.eqb Ascii.eqb Bool.eqb]
  | |- attr_acts _ _ (OnValue _ _ _) => cbn [attr_acts]; intros ?
  | |- attr_acts _ _ (Model _ _ _) => cbn [attr_acts]; intros ?
  | |- attr_acts _ _ _ => exact Logic.I
  | |- _ = true -> _ => intros ?
  end.

Ltac view_acts := repeat view_step; auto with view_db.

(** Computing the marked texts of a tree whose conditions are open. *)
Ltac marked_compute :=
  repeat (progress (cbn [marked has_attr String.eqb Ascii.eqb Bool.eqb flat_map shown andb orb app Nothing];
                    rewrite ?marked_if, ?marked_text_or_raise, ?if_same, ?app_nil_r)).

Ltac renders_compute :=
  repeat (progress (cbn [renders forallb andb Nothing];
                    rewrite ?renders_if, ?renders_text_or_raise, ?renders_each, ?forallb_true, ?if_same, ?andb_true_r)).

Ltac elements_compute :=
  repeat (progress (cbn [elements String.eqb Ascii.eqb Bool.eqb flat_map app Nothing];
                    rewrite ?elements_if, ?elements_text_or_raise, ?if_same, ?app_nil_r));
  repeat (rewrite elements_none by (intros; reflexivity)).

Lemma distinct_keys_ids {A} (f : A -> jsstr) l : NoDup (map f l) -> distinct_keys (map (fun x => KeyS (f x)) l) = true.
Proof.
  induction l as [|x l IH]; [done|]. cbn. rewrite NoDup_cons. intros [Hx Hl]. rewrite (IH Hl), andb_true_r.
  apply forallb_forall. intros k Hk. apply in_map_iff in Hk as (y & <- & Hy). cbn. apply negb_true_iff.
  destruct (streq (f x) (f y)) eqn:E; [|done]. apply streq_eq in E. exfalso. apply Hx. rewrite E.
  apply list_elem_of_In, in_map_iff. eauto.
Qed.

Lemma NoDup_map_filter {A B} (f : A -> B) (P : A -> Prop) `{forall x, Decision (P x)} l : NoDup (map f l) -> NoDup (map f (filter P l)).
Proof.
  induction l as [|x l IH]; [done|]. cbn [map]. rewrite NoDup_cons, filter_cons. intros [Hx Hl]. case_decide; [|by apply IH].
  cbn [map]. apply NoDup_cons. split; [|by apply IH]. intros Hin. apply Hx.
  apply list_elem_of_In, in_map_iff in Hin as (y & <- & Hy). apply list_elem_of_In, in_map_iff. exists y. split; [done|].
  apply list_elem_of_In in Hy. apply list_elem_of_filter in Hy as [_ Hy]. by apply list_elem_of_In.
Qed.

(** ** Running a page through its template *)

Section Ui.
Context {S Req : Type} {Resp : Req -> Type}.
Context (view : S -> html (prog S Req Resp unit)) (host : prog S Req Resp unit -> Prop).

(** A handler starts when the tree of the current state offers it or when the
    host starts it (a timer, a message, a route). *)
Inductive ui_step : config S Req Resp -> config S Req Resp -> Prop :=
| Ui_offered p c : offered (view (store c)) p -> ui_step c (spawn p c)
| Ui_host p c : host p -> ui_step c (spawn p c)
| Ui_resumes before t after s res : ui_step (Config s (before ++ t :: after)) (spawn (resume t res) (Config s (before ++ after))).

Definition ui_reachable (s0 : S) : config S Req Resp -> Prop := rtc ui_step (Config s0 []).

Lemma ui_answer_at env i c : is_Some (tasks c !! i) -> ui_step c (answer_at env i c).
Proof.
  destruct c as [s ts]. intros [t Ht]. cbn in Ht. unfold answer_at. cbn. rewrite Ht, delete_take_drop.
  rewrite <- (take_drop_middle ts i t Ht) at 1. apply Ui_resumes.
Qed.

(** A page whose template offers only known handlers reaches only what they
    reach. *)
Lemma ui_reachable_reachable (handlers : prog S Req Resp unit -> Prop) s0 c :
  (forall s, acts handlers (view s)) -> (forall p, host p -> handlers p) -> ui_reachable s0 c -> reachable handlers s0 c.
Proof.
  intros Hv Hh. unfold ui_reachable, reachable. generalize (Config (Req := Req) (Resp := Resp) s0 []). intros c0 Hr. induction Hr as [c1|c1 c2 c3 Hs Hr IH]; [done|].
  eapply rtc_l; [|exact IH]. destruct Hs as [p c1 Ho|p c1 Ho|before t after s res].
  - apply Starts. by apply Ho.
  - apply Starts. by apply Hh.
  - apply Resumes.
Qed.

(** Invariants under interleaving, when a handler starts only where its control
    is. *)
Lemma ui_rely_guarantee (I : S -> Prop) (R : relation S) `{!PreOrder R} s0 c :
  (forall s, I s -> acts (fun p => keeps I R p s s) (view s)) -> (forall p, host p -> forall s, I s -> keeps I R p s s) ->
  I s0 -> ui_reachable s0 c -> I (store c) /\ R s0 (store c).
Proof.
  intros Hv Hh H0 Hr. enough (config_keeps I R c /\ R s0 (store c)) as [[HI _] HR] by done.
  unfold ui_reachable in Hr. remember (Config s0 []) as c0 eqn:E.
  assert (Hc0 : config_keeps I R c0) by (subst; split; [done|constructor]).
  assert (HR0 : R s0 (store c0)) by (subst; done). clear E H0.
  induction Hr as [c|c0 c1 c2 Hs Hr IH]; [done|].
  enough (Hc1 : config_keeps I R c1 /\ R (store c0) (store c1)) by (destruct Hc1; apply IH; [done|by etransitivity]).
  destruct Hs as [p c Ho|p c Ho|before t after s res].
  - apply spawn_keeps; [done|done|]. destruct Hc0 as [HI _]. exact (Ho _ (Hv _ HI)).
  - apply spawn_keeps; [done|done|]. destruct Hc0 as [HI _]. by apply Hh.
  - destruct Hc0 as [HI Ht]. cbn in *. apply Forall_app in Ht as [Hb Ht]. inversion_clear Ht as [|? ? Hk Ha].
    apply (spawn_keeps I R (resume t res) (Config s (before ++ after))); [split; [done|]; by apply Forall_app|by apply Hk].
Qed.

End Ui.
