(* ===== verification/Mutex.v ===== *)
(** * Mutex: one operation at a time

    Several pages keep a flag that is set before an operation's first request and
    cleared when the operation is over, and check it (in the handler, or by
    disabling the control) before another one starts.  [obeys] is what each
    handler has to do for that to work; [one_at_a_time] concludes, for every
    interleaving, that one operation is under way or none, as the flag says. *)

From S2P Require Import Prelude JsString Binary64 JsNumber Async Html.

Section Mutex.
Context {S Req : Type} {Resp : Req -> Type}.
(** The flag, and what may be waited for inside ([true]) and outside ([false])
    an operation. *)
Context (held : S -> bool) (allowed : call Req -> bool -> Prop).

(** [mine]: the program is inside an operation at its last resumption, in [s0];
    [s] is the current state.  A program takes the flag only when it is free,
    holds it while it waits inside the operation, and has given it back when it
    ends or waits outside; otherwise it leaves the flag alone. *)
Fixpoint obeying {A} (p : prog S Req Resp A) (Q : A + exn -> bool -> S -> S -> Prop) (mine : bool) (s0 s : S) : Prop :=
  match p with
  | Ret a => Q (inl a) mine s0 s
  | Throw e => Q (inr e) mine s0 s
  | Get k => obeying (k s) Q mine s0 s
  | Put s' k => obeying k Q mine s0 s'
  | Await c k => exists inside,
      allowed c inside /\ held s = inside || negb mine && held s0 /\
      (inside = true -> mine = true \/ held s0 = false) /\
      forall res s', (inside = true -> held s' = true) -> obeying (k res) Q inside s' s'
  end.

Definition returned {A} (r : A) (mine : bool) (s0 s : S) : Prop := held s = negb mine && held s0.

Definition obeys {A} (p : prog S Req Resp A) (mine : bool) (s0 s : S) : Prop := obeying p returned mine s0 s.

(** A program that leaves the flag alone. *)
Definition bystander (p : prog S Req Resp unit) : Prop := forall s, obeys p false s s.

(** ** The constructs of the language *)

Lemma obeying_mono {A} (p : prog S Req Resp A) (Q Q' : A + exn -> bool -> S -> S -> Prop) :
  (forall r m s0 s, Q r m s0 s -> Q' r m s0 s) -> forall m s0 s, obeying p Q m s0 s -> obeying p Q' m s0 s.
Proof.
  intros HQ. induction p as [a|e|k IH|s1 k IH|c k IH]; intros m s0 s; cbn; auto.
  intros (i & Ha & Hs & Hc & H). exists i. split_and!; auto.
Qed.

Lemma obeying_bind {A B} (p : prog S Req Resp A) (f : A -> prog S Req Resp B) Q : forall m s0 s,
  obeying p (fun r m s0 s => match r with inl a => obeying (f a) Q m s0 s | inr e => Q (inr e) m s0 s end) m s0 s ->
  obeying (bind p f) Q m s0 s.
Proof.
  induction p as [a|e|k IH|s1 k IH|c k IH]; intros m s0 s; cbn; auto.
  intros (i & Ha & Hs & Hc & H). exists i. split_and!; auto.
Qed.

Lemma obeying_try_catch {A} (p : prog S Req Resp A) h Q : forall m s0 s,
  obeying p (fun r m s0 s => match r with inl a => Q (inl a) m s0 s | inr e => obeying (h e) Q m s0 s end) m s0 s ->
  obeying (try_catch p h) Q m s0 s.
Proof.
  induction p as [a|e|k IH|s1 k IH|c k IH]; intros m s0 s; cbn; auto.
  intros (i & Ha & Hs & Hc & H). exists i. split_and!; auto.
Qed.

Lemma obeying_finally {A} (p : prog S Req Resp A) f Q : forall m s0 s,
  obeying p (fun r m s0 s => obeying f (fun r' m s0 s => Q (match r' with inl _ => r | inr e => inr e end) m s0 s) m s0 s) m s0 s ->
  obeying (finally p f) Q m s0 s.
Proof.
  induction p as [a|e|k IH|s1 k IH|c k IH]; intros m s0 s; cbn; auto.
  - intros H. apply obeying_bind. eapply obeying_mono; [|done]. by intros [u|e].
  - intros H. apply obeying_bind. eapply obeying_mono; [|done]. by intros [u|e'].
  - intros (i & Ha & Hs & Hc & H). exists i. split_and!; auto.
Qed.

(** A part of a program that runs while it holds the flag: from the segment that
    takes it on ([held s0] is false there) until the segment that gives it back. *)
Definition working {A} (p : prog S Req Resp A) : Prop := forall s0 s, held s = true ->
  obeying p (fun _ m s0 s => m = held s0 /\ held s = true) (held s0) s0 s.

Lemma working_ret {A} (a : A) : working (Ret a).
Proof. done. Qed.

Lemma working_throw {A} e : working (Throw e : prog S Req Resp A).
Proof. done. Qed.

Lemma working_get : working (get : prog S Req Resp S).
Proof. done. Qed.

Lemma working_modify f : (forall s, held s = true -> held (f s) = true) -> working (modify f : prog S Req Resp unit).
Proof. intros Hf s0 s Hs. cbn. auto. Qed.

Lemma working_await c : allowed c true -> working (await c : prog S Req Resp _).
Proof.
  intros Hc s0 s Hs. cbn. exists true. rewrite Hs. split_and!; [done|done|destruct (held s0); auto|].
  intros [a|e] s' Hs'; cbn; by rewrite Hs'.
Qed.

Lemma working_bind {A B} (p : prog S Req Resp A) (f : A -> prog S Req Resp B) : working p -> (forall a, working (f a)) -> working (bind p f).
Proof.
  intros Hp Hf s0 s Hs. apply obeying_bind. eapply obeying_mono; [|by apply Hp].
  intros [a|e] m s1 s2 [-> H2]; [by apply Hf|done].
Qed.

Lemma working_try_catch {A} (p : prog S Req Resp A) h : working p -> (forall e, working (h e)) -> working (try_catch p h).
Proof.
  intros Hp Hh s0 s Hs. apply obeying_try_catch. eapply obeying_mono; [|by apply Hp].
  intros [a|e] m s1 s2 [-> H2]; [done|by apply Hh].
Qed.

(** An operation: the flag is taken, the body runs, and it is given back. *)
Lemma operation_obeys {A} (p : prog S Req Resp A) f s0 s : working p -> (forall s, held (f s) = false) -> held s0 = false -> held s = true ->
  obeying (finally p (modify f)) returned false s0 s.
Proof.
  intros Hp Hf H0 Hs. apply obeying_finally. rewrite <- H0. eapply obeying_mono; [|by apply Hp].
  intros r m s1 s2 [-> H2]. cbn. unfold returned. rewrite Hf. by destruct (held s1).
Qed.

Lemma operation_starts {A} f0 (p : prog S Req Resp A) f s : working p -> (forall s, held (f s) = false) -> held s = false ->
  held (f0 s) = true -> obeys (bind (modify f0) (fun _ => finally p (modify f))) false s s.
Proof. intros Hp Hf H0 Hs. by apply operation_obeys. Qed.

Lemma obeys_get {A} (k : S -> prog S Req Resp A) m s0 s : obeys (k s) m s0 s -> obeys (bind get k) m s0 s.
Proof. done. Qed.

Lemma obeys_ret {A} (a : A) s : obeys (Ret a) false s s.
Proof. done. Qed.

(** Outside every operation. *)
Definition outside {A} (p : prog S Req Resp A) : Prop := forall s0 s, held s = held s0 ->
  obeying p (fun _ m s0 s => m = false /\ held s = held s0) false s0 s.

Lemma outside_ret {A} (a : A) : outside (Ret a).
Proof. done. Qed.

Lemma outside_throw {A} e : outside (Throw e : prog S Req Resp A).
Proof. done. Qed.

Lemma outside_get : outside (get : prog S Req Resp S).
Proof. done. Qed.

Lemma outside_modify f : (forall s, held (f s) = held s) -> outside (modify f : prog S Req Resp unit).
Proof. intros Hf s0 s Hs. cbn. by rewrite Hf. Qed.

Lemma outside_await c : allowed c false -> outside (await c : prog S Req Resp _).
Proof. intros Hc s0 s Hs. cbn. exists false. split_and!; [done|done|done|]. by intros [a|e] s' _. Qed.

Lemma outside_bind {A B} (p : prog S Req Resp A) (f : A -> prog S Req Resp B) : outside p -> (forall a, outside (f a)) -> outside (bind p f).
Proof.
  intros Hp Hf s0 s Hs. apply obeying_bind. eapply obeying_mono; [|by apply Hp].
  intros [a|e] m s1 s2 [-> H1]; [by apply Hf|done].
Qed.

Lemma outside_try_catch {A} (p : prog S Req Resp A) h : outside p -> (forall e, outside (h e)) -> outside (try_catch p h).
Proof.
  intros Hp Hh s0 s Hs. apply obeying_try_catch. eapply obeying_mono; [|by apply Hp].
  intros [a|e] m s1 s2 [-> H1]; [done|by apply Hh].
Qed.

Lemma outside_finally {A} (p : prog S Req Resp A) f : outside p -> outside f -> outside (finally p f).
Proof.
  intros Hp Hf s0 s Hs. apply obeying_finally. eapply obeying_mono; [|by apply Hp].
  intros r m s1 s2 [-> H1]. eapply obeying_mono; [|by apply Hf]. done.
Qed.

Lemma outside_bystander (p : prog S Req Resp unit) : outside p -> bystander p.
Proof. intros Hp s. eapply obeying_mono; [|by apply Hp]. intros r m s0 s1 [-> H]. exact H. Qed.

(** ** Interleaving *)

Definition task_obeys (t : task S Req Resp) (inside : bool) : Prop :=
  allowed (waits_for t) inside /\ forall res s, (inside = true -> held s = true) -> obeys (resume t res) inside s s.

Definition insiders (ms : list bool) : nat := length (List.filter id ms).

Definition config_obeys (c : config S Req Resp) : Prop := exists ms,
  Forall2 task_obeys (tasks c) ms /\ insiders ms = if held (store c) then 1%nat else 0%nat.

Lemma insiders_app l l' : insiders (l ++ l') = (insiders l + insiders l')%nat.
Proof. unfold insiders. by rewrite List.filter_app, length_app. Qed.

Lemma advance_obeys p : forall m s0 s, obeys p m s0 s -> (m = true -> held s0 = true) ->
  let '(s', t) := advance p s in exists ms,
  Forall2 task_obeys (option_list t) ms /\
  ((if held s' then 1 else 0) = insiders ms + if negb m && held s0 then 1 else 0)%nat.
Proof.
  unfold obeys, returned. induction p as [a|e|k IH|s1 k IH|c k IH]; intros m s0 s H Hm; cbn in *.
  - exists []. rewrite H. by split; [constructor|].
  - exists []. rewrite H. by split; [constructor|].
  - by apply IH.
  - by apply IH.
  - destruct H as (i & Ha & Hs & Hc & H). exists [i]. split; [by constructor; [|constructor]|]. rewrite Hs.
    destruct i; cbn; [|done]. destruct (Hc eq_refl) as [->|H0]; [done|]. by rewrite H0, andb_false_r.
Qed.

(** A segment of a program inside an operation iff [m] runs beside tasks of which
    the flag's holder is one iff it is held and not by the program. *)
Lemma spawn_obeys p m s ts ms : Forall2 task_obeys ts ms -> obeys p m s s -> (m = true -> held s = true) ->
  insiders ms = (if negb m && held s then 1 else 0)%nat -> config_obeys (spawn p (Config s ts)).
Proof.
  intros Ht Hp Hm Hl. pose proof (advance_obeys p m s s Hp Hm) as Ha. unfold spawn. cbn.
  destruct (advance p s) as [s' t]. destruct Ha as (ms' & Ht' & Hs'). exists (ms ++ ms'). cbn. split; [by apply Forall2_app|].
  rewrite insiders_app, Hl, Hs'. lia.
Qed.

Lemma resume_obeys before t after s res : config_obeys (Config s (before ++ t :: after)) ->
  config_obeys (spawn (resume t res) (Config s (before ++ after))).
Proof.
  intros (ms & Ht & Hl). cbn in *. apply Forall2_app_inv_l in Ht as (m1 & m2 & Hb & Ht & ->).
  apply Forall2_cons_inv_l in Ht as (m & m3 & [Hw Hk] & Ha & ->). rewrite insiders_app in Hl. unfold insiders in Hl at 2. cbn in Hl.
  assert (Hm : m = true -> held s = true) by (intros ->; destruct (held s); [done|]; cbn in Hl; lia).
  apply (spawn_obeys _ m s (before ++ after) (m1 ++ m3)); [by apply Forall2_app|by apply Hk|done|].
  rewrite insiders_app. unfold insiders in *. destruct m, (held s); cbn in *; lia.
Qed.

Lemma config_obeys_start s0 : held s0 = false -> config_obeys (Config s0 []).
Proof. intros H0. exists []. split; [constructor|]. cbn. by rewrite H0. Qed.

(** Handlers that check the flag themselves. *)
Lemma one_at_a_time handlers s0 c : (forall p, handlers p -> forall s, obeys p false s s) -> held s0 = false ->
  reachable handlers s0 c -> config_obeys c.
Proof.
  intros Hh H0 Hr. apply config_obeys_start in H0. unfold reachable in Hr.
  revert H0 Hr. generalize (Config (Req := Req) (Resp := Resp) s0 []). intros c0 H0 Hr.
  induction Hr as [c1|c1 c2 c3 Hs Hr IH]; [done|]. apply IH. destruct Hs as [p [s ts] Hp|before t after s res].
  - destruct H0 as (ms & Ht & Hl). by apply (spawn_obeys p false s ts ms); [|by apply Hh| |].
  - by apply resume_obeys.
Qed.

(** Handlers whose controls are disabled while the flag is set. *)
Lemma ui_one_at_a_time view host s0 c : (forall s, acts (fun p => obeys p false s s) (view s)) ->
  (forall p, host p -> bystander p) -> held s0 = false ->
  ui_reachable view host s0 c -> config_obeys c.
Proof.
  intros Hv Hh H0 Hr. apply config_obeys_start in H0. unfold ui_reachable in Hr.
  revert H0 Hr. generalize (Config (Req := Req) (Resp := Resp) s0 []). intros c0 H0 Hr.
  induction Hr as [c1|c1 c2 c3 Hs Hr IH]; [done|]. apply IH. destruct Hs as [p [s ts] Hp|p [s ts] Hp|before t after s res].
  - destruct H0 as (ms & Ht & Hl). apply (spawn_obeys p false s ts ms); [done| |done|done]. exact (Hp _ (Hv s)).
  - destruct H0 as (ms & Ht & Hl). apply (spawn_obeys p false s ts ms); [done|by apply Hh|done|done].
  - by apply resume_obeys.
Qed.

End Mutex.

(** ** Counting by the calls *)

Section Counting.
Context {S Req : Type} {Resp : Req -> Type} (held : S -> bool) (critical : call Req -> bool).

Definition under_way (ts : list (task S Req Resp)) : list (task S Req Resp) := List.filter (fun t => critical (waits_for t)) ts.

(** Either the calls tell exactly who is inside, or some calls are made inside
    only. *)
Definition exactly (c : call Req) (inside : bool) : Prop := inside = critical c.
Definition during (c : call Req) (inside : bool) : Prop := critical c = true -> inside = true.

Lemma under_way_exactly (c : config S Req Resp) : config_obeys held exactly c ->
  length (under_way (tasks c)) = if held (store c) then 1%nat else 0%nat.
Proof.
  intros (ms & Ht & <-). unfold under_way, insiders. induction Ht as [|t m ts ms [Hm _] Ht IH]; [done|]. cbn. red in Hm. rewrite Hm.
  destruct (critical (waits_for t)); cbn; by rewrite IH.
Qed.

Lemma under_way_at_most (c : config S Req Resp) : config_obeys held during c ->
  (length (under_way (tasks c)) <= if held (store c) then 1 else 0)%nat.
Proof.
  intros (ms & Ht & <-). unfold under_way, insiders. induction Ht as [|t m ts ms [Hm _] Ht IH]; [done|]. red in Hm. cbn.
  destruct (critical (waits_for t)); [rewrite Hm by done; cbn; lia|]. destruct m; cbn; lia.
Qed.

End Counting.

(** ** Proofs, construct by construct *)

Create HintDb mutex_db.

Ltac working_step :=
  cbv beta zeta;
  match goal with
  | |- working _ _ (bind _ _) => apply working_bind; [|intros ?]
  | |- working _ _ (try_catch _ _) => apply working_try_catch; [|intros ?]
  | |- working _ _ (Ret _) => apply working_ret
  | |- working _ _ (Throw _) => apply working_throw
  | |- working _ _ get => apply working_get
  | |- working _ _ (await ?c) => refine (working_await _ _ c _)
  | |- working _ _ (modify _) => apply working_modify; intros ?
  | |- working _ _ (match ?x with _ => _ end) => destruct x
  | |- working _ _ _ => solve [eauto with mutex_db]
  end.

Ltac outside_step :=
  cbv beta zeta;
  match goal with
  | |- outside _ _ (bind _ _) => apply outside_bind; [|intros ?]
  | |- outside _ _ (try_catch _ _) => apply outside_try_catch; [|intros ?]
  | |- outside _ _ (finally _ _) => apply outside_finally
  | |- outside _ _ (Ret _) => apply outside_ret
  | |- outside _ _ (Throw _) => apply outside_throw
  | |- outside _ _ get => apply outside_get
  | |- outside _ _ (await ?c) => refine (outside_await _ _ c _)
  | |- outside _ _ (modify _) => apply outside_modify; intros ?
  | |- outside _ _ (unless ?b _) => unfold unless; destruct b
  | |- outside _ _ (match ?x with _ => _ end) => destruct x
  | |- outside _ _ _ => solve [eauto with mutex_db]
  end.

Lemma can_submit_text_or_raise {H} s : can_submit (text_or_raise (H := H) s) = false.
Proof. by destruct s. Qed.

Lemma can_submit_each {H A} (f : A -> html H) l : (forall x, can_submit (f x) = false) -> existsb can_submit (map f l) = false.
Proof. intros Hf. induction l as [|x l IH]; [done|]. cbn. by rewrite Hf, IH. Qed.

(** A control that is disabled by a flag was started: the flag is not set. *)
Ltac enabled_unless flag :=
  let E := fresh "E" in
  destruct flag eqn:E; [exfalso|reflexivity];
  match goal with
  | H : existsb can_submit _ = true |- _ => revert H
  | H : disabled _ = false |- _ => revert H
  end;
  repeat (progress (cbn; rewrite ?E, ?can_submit_text_or_raise, ?orb_true_r, ?andb_false_r, ?orb_false_r;
                    repeat rewrite can_submit_each by (intros; reflexivity)));
  repeat (case_match; cbn; rewrite ?can_submit_text_or_raise, ?orb_true_r, ?andb_false_r, ?orb_false_r); discriminate.
