(* ===== verification/Updates.v ===== *)
(** * Updates: the values that inputs read and write (web/src/types.ts)

    [v-model] on a field of an edited record writes that field: one definition
    for each field that some form edits.  On a member of an object of JSON
    values it shows the member and assigns it. *)

From Stdlib Require Import Strings.String.
From S2P Require Import Prelude JsString Binary64 JsNumber Types Json Api AdminForms.

(** ** Members of an object *)

(** What a text input shows: [value == null ? '' : value]. *)
Definition text_of (key : jsstr) (o : object) : jsstr :=
  match member key o with None | Some JNull => [] | Some v => json_str v end.

(** The number a number input shows. *)
Definition number_of (key : jsstr) (o : object) : num := match member key o with Some (JNum n) => n | _ => NaN end.

(** A checkbox is checked when the value is loosely [true]. *)
Definition checked_of (key : jsstr) (o : object) : bool :=
  match member key o with Some (JBool b) => b | Some (JStr s) => streq s (js "true") | _ => false end.

(** A member in a condition. *)
Definition json_truthy (v : json) : bool :=
  match v with JNull => false | JBool b => b | JNum n => truthy_num n | JStr s => truthy s | JArr _ | JObj _ => true end.

Definition is_set (key : jsstr) (o : object) : bool := match member key o with Some v => json_truthy v | None => false end.

(** ** Fields of records *)

Definition set_PublicNode_auto_renewal (v : bool) (x : PublicNode.t) : PublicNode.t :=
  PublicNode.mk (PublicNode.id x) (PublicNode.role x) (PublicNode.latency_enabled x) (PublicNode.name x) (PublicNode.group x)
    (PublicNode.region x) (PublicNode.country_code x) (PublicNode.latitude x) (PublicNode.longitude x) (PublicNode.tags x)
    (PublicNode.public_remark x) (PublicNode.hidden x) (PublicNode.weight x) (PublicNode.price x) (PublicNode.currency x)
    (PublicNode.billing_cycle_days x) (PublicNode.expires_at x) v (PublicNode.traffic_limit x)
    (PublicNode.traffic_limit_type x) (PublicNode.traffic_reset_day x) (PublicNode.os x) (PublicNode.arch x)
    (PublicNode.cpu_name x) (PublicNode.cpu_cores x) (PublicNode.virtualization x) (PublicNode.kernel_version x)
    (PublicNode.created_at x) (PublicNode.updated_at x) (PublicNode.last_seen_at x) (PublicNode.online x).

Definition set_AdminNode_auto_renewal (v : bool) (x : AdminNode.t) : AdminNode.t :=
  AdminNode.mk (set_PublicNode_auto_renewal v (AdminNode.base x) ) (AdminNode.hostname x) (AdminNode.private_remark x)
    (AdminNode.agent_version x) (AdminNode.ipv4 x) (AdminNode.ipv6 x).

Definition set_PublicNode_billing_cycle_days (v : num) (x : PublicNode.t) : PublicNode.t :=
  PublicNode.mk (PublicNode.id x) (PublicNode.role x) (PublicNode.latency_enabled x) (PublicNode.name x) (PublicNode.group x)
    (PublicNode.region x) (PublicNode.country_code x) (PublicNode.latitude x) (PublicNode.longitude x) (PublicNode.tags x)
    (PublicNode.public_remark x) (PublicNode.hidden x) (PublicNode.weight x) (PublicNode.price x) (PublicNode.currency x) v
    (PublicNode.expires_at x) (PublicNode.auto_renewal x) (PublicNode.traffic_limit x) (PublicNode.traffic_limit_type x)
    (PublicNode.traffic_reset_day x) (PublicNode.os x) (PublicNode.arch x) (PublicNode.cpu_name x) (PublicNode.cpu_cores x)
    (PublicNode.virtualization x) (PublicNode.kernel_version x) (PublicNode.created_at x) (PublicNode.updated_at x)
    (PublicNode.last_seen_at x) (PublicNode.online x).

Definition set_AdminNode_billing_cycle_days (v : num) (x : AdminNode.t) : AdminNode.t :=
  AdminNode.mk (set_PublicNode_billing_cycle_days v (AdminNode.base x) ) (AdminNode.hostname x) (AdminNode.private_remark x)
    (AdminNode.agent_version x) (AdminNode.ipv4 x) (AdminNode.ipv6 x).

Definition set_PublicNode_country_code (v : option jsstr) (x : PublicNode.t) : PublicNode.t :=
  PublicNode.mk (PublicNode.id x) (PublicNode.role x) (PublicNode.latency_enabled x) (PublicNode.name x) (PublicNode.group x)
    (PublicNode.region x) v (PublicNode.latitude x) (PublicNode.longitude x) (PublicNode.tags x)
    (PublicNode.public_remark x) (PublicNode.hidden x) (PublicNode.weight x) (PublicNode.price x) (PublicNode.currency x)
    (PublicNode.billing_cycle_days x) (PublicNode.expires_at x) (PublicNode.auto_renewal x) (PublicNode.traffic_limit x)
    (PublicNode.traffic_limit_type x) (PublicNode.traffic_reset_day x) (PublicNode.os x) (PublicNode.arch x)
    (PublicNode.cpu_name x) (PublicNode.cpu_cores x) (PublicNode.virtualization x) (PublicNode.kernel_version x)
    (PublicNode.created_at x) (PublicNode.updated_at x) (PublicNode.last_seen_at x) (PublicNode.online x).

Definition set_AdminNode_country_code (v : option jsstr) (x : AdminNode.t) : AdminNode.t :=
  AdminNode.mk (set_PublicNode_country_code v (AdminNode.base x) ) (AdminNode.hostname x) (AdminNode.private_remark x)
    (AdminNode.agent_version x) (AdminNode.ipv4 x) (AdminNode.ipv6 x).

Definition set_PublicNode_currency (v : jsstr) (x : PublicNode.t) : PublicNode.t :=
  PublicNode.mk (PublicNode.id x) (PublicNode.role x) (PublicNode.latency_enabled x) (PublicNode.name x) (PublicNode.group x)
    (PublicNode.region x) (PublicNode.country_code x) (PublicNode.latitude x) (PublicNode.longitude x) (PublicNode.tags x)
    (PublicNode.public_remark x) (PublicNode.hidden x) (PublicNode.weight x) (PublicNode.price x) v
    (PublicNode.billing_cycle_days x) (PublicNode.expires_at x) (PublicNode.auto_renewal x) (PublicNode.traffic_limit x)
    (PublicNode.traffic_limit_type x) (PublicNode.traffic_reset_day x) (PublicNode.os x) (PublicNode.arch x)
    (PublicNode.cpu_name x) (PublicNode.cpu_cores x) (PublicNode.virtualization x) (PublicNode.kernel_version x)
    (PublicNode.created_at x) (PublicNode.updated_at x) (PublicNode.last_seen_at x) (PublicNode.online x).

Definition set_AdminNode_currency (v : jsstr) (x : AdminNode.t) : AdminNode.t :=
  AdminNode.mk (set_PublicNode_currency v (AdminNode.base x) ) (AdminNode.hostname x) (AdminNode.private_remark x)
    (AdminNode.agent_version x) (AdminNode.ipv4 x) (AdminNode.ipv6 x).

Definition set_PublicNode_group (v : option jsstr) (x : PublicNode.t) : PublicNode.t :=
  PublicNode.mk (PublicNode.id x) (PublicNode.role x) (PublicNode.latency_enabled x) (PublicNode.name x) v
    (PublicNode.region x) (PublicNode.country_code x) (PublicNode.latitude x) (PublicNode.longitude x) (PublicNode.tags x)
    (PublicNode.public_remark x) (PublicNode.hidden x) (PublicNode.weight x) (PublicNode.price x) (PublicNode.currency x)
    (PublicNode.billing_cycle_days x) (PublicNode.expires_at x) (PublicNode.auto_renewal x) (PublicNode.traffic_limit x)
    (PublicNode.traffic_limit_type x) (PublicNode.traffic_reset_day x) (PublicNode.os x) (PublicNode.arch x)
    (PublicNode.cpu_name x) (PublicNode.cpu_cores x) (PublicNode.virtualization x) (PublicNode.kernel_version x)
    (PublicNode.created_at x) (PublicNode.updated_at x) (PublicNode.last_seen_at x) (PublicNode.online x).

Definition set_AdminNode_group (v : option jsstr) (x : AdminNode.t) : AdminNode.t :=
  AdminNode.mk (set_PublicNode_group v (AdminNode.base x) ) (AdminNode.hostname x) (AdminNode.private_remark x)
    (AdminNode.agent_version x) (AdminNode.ipv4 x) (AdminNode.ipv6 x).

Definition set_PublicNode_hidden (v : bool) (x : PublicNode.t) : PublicNode.t :=
  PublicNode.mk (PublicNode.id x) (PublicNode.role x) (PublicNode.latency_enabled x) (PublicNode.name x) (PublicNode.group x)
    (PublicNode.region x) (PublicNode.country_code x) (PublicNode.latitude x) (PublicNode.longitude x) (PublicNode.tags x)
    (PublicNode.public_remark x) v (PublicNode.weight x) (PublicNode.price x) (PublicNode.currency x)
    (PublicNode.billing_cycle_days x) (PublicNode.expires_at x) (PublicNode.auto_renewal x) (PublicNode.traffic_limit x)
    (PublicNode.traffic_limit_type x) (PublicNode.traffic_reset_day x) (PublicNode.os x) (PublicNode.arch x)
    (PublicNode.cpu_name x) (PublicNode.cpu_cores x) (PublicNode.virtualization x) (PublicNode.kernel_version x)
    (PublicNode.created_at x) (PublicNode.updated_at x) (PublicNode.last_seen_at x) (PublicNode.online x).

Definition set_AdminNode_hidden (v : bool) (x : AdminNode.t) : AdminNode.t :=
  AdminNode.mk (set_PublicNode_hidden v (AdminNode.base x) ) (AdminNode.hostname x) (AdminNode.private_remark x)
    (AdminNode.agent_version x) (AdminNode.ipv4 x) (AdminNode.ipv6 x).

Definition set_PublicNode_latency_enabled (v : bool) (x : PublicNode.t) : PublicNode.t :=
  PublicNode.mk (PublicNode.id x) (PublicNode.role x) v (PublicNode.name x) (PublicNode.group x) (PublicNode.region x)
    (PublicNode.country_code x) (PublicNode.latitude x) (PublicNode.longitude x) (PublicNode.tags x)
    (PublicNode.public_remark x) (PublicNode.hidden x) (PublicNode.weight x) (PublicNode.price x) (PublicNode.currency x)
    (PublicNode.billing_cycle_days x) (PublicNode.expires_at x) (PublicNode.auto_renewal x) (PublicNode.traffic_limit x)
    (PublicNode.traffic_limit_type x) (PublicNode.traffic_reset_day x) (PublicNode.os x) (PublicNode.arch x)
    (PublicNode.cpu_name x) (PublicNode.cpu_cores x) (PublicNode.virtualization x) (PublicNode.kernel_version x)
    (PublicNode.created_at x) (PublicNode.updated_at x) (PublicNode.last_seen_at x) (PublicNode.online x).

Definition set_AdminNode_latency_enabled (v : bool) (x : AdminNode.t) : AdminNode.t :=
  AdminNode.mk (set_PublicNode_latency_enabled v (AdminNode.base x) ) (AdminNode.hostname x) (AdminNode.private_remark x)
    (AdminNode.agent_version x) (AdminNode.ipv4 x) (AdminNode.ipv6 x).

Definition set_PublicNode_name (v : jsstr) (x : PublicNode.t) : PublicNode.t :=
  PublicNode.mk (PublicNode.id x) (PublicNode.role x) (PublicNode.latency_enabled x) v (PublicNode.group x)
    (PublicNode.region x) (PublicNode.country_code x) (PublicNode.latitude x) (PublicNode.longitude x) (PublicNode.tags x)
    (PublicNode.public_remark x) (PublicNode.hidden x) (PublicNode.weight x) (PublicNode.price x) (PublicNode.currency x)
    (PublicNode.billing_cycle_days x) (PublicNode.expires_at x) (PublicNode.auto_renewal x) (PublicNode.traffic_limit x)
    (PublicNode.traffic_limit_type x) (PublicNode.traffic_reset_day x) (PublicNode.os x) (PublicNode.arch x)
    (PublicNode.cpu_name x) (PublicNode.cpu_cores x) (PublicNode.virtualization x) (PublicNode.kernel_version x)
    (PublicNode.created_at x) (PublicNode.updated_at x) (PublicNode.last_seen_at x) (PublicNode.online x).

Definition set_AdminNode_name (v : jsstr) (x : AdminNode.t) : AdminNode.t :=
  AdminNode.mk (set_PublicNode_name v (AdminNode.base x) ) (AdminNode.hostname x) (AdminNode.private_remark x)
    (AdminNode.agent_version x) (AdminNode.ipv4 x) (AdminNode.ipv6 x).

Definition set_PublicNode_price (v : num) (x : PublicNode.t) : PublicNode.t :=
  PublicNode.mk (PublicNode.id x) (PublicNode.role x) (PublicNode.latency_enabled x) (PublicNode.name x) (PublicNode.group x)
    (PublicNode.region x) (PublicNode.country_code x) (PublicNode.latitude x) (PublicNode.longitude x) (PublicNode.tags x)
    (PublicNode.public_remark x) (PublicNode.hidden x) (PublicNode.weight x) v (PublicNode.currency x)
    (PublicNode.billing_cycle_days x) (PublicNode.expires_at x) (PublicNode.auto_renewal x) (PublicNode.traffic_limit x)
    (PublicNode.traffic_limit_type x) (PublicNode.traffic_reset_day x) (PublicNode.os x) (PublicNode.arch x)
    (PublicNode.cpu_name x) (PublicNode.cpu_cores x) (PublicNode.virtualization x) (PublicNode.kernel_version x)
    (PublicNode.created_at x) (PublicNode.updated_at x) (PublicNode.last_seen_at x) (PublicNode.online x).

Definition set_AdminNode_price (v : num) (x : AdminNode.t) : AdminNode.t :=
  AdminNode.mk (set_PublicNode_price v (AdminNode.base x) ) (AdminNode.hostname x) (AdminNode.private_remark x)
    (AdminNode.agent_version x) (AdminNode.ipv4 x) (AdminNode.ipv6 x).

Definition set_AdminNode_private_remark (v : option jsstr) (x : AdminNode.t) : AdminNode.t :=
  AdminNode.mk (AdminNode.base x) (AdminNode.hostname x) v (AdminNode.agent_version x) (AdminNode.ipv4 x) (AdminNode.ipv6 x).

Definition set_PublicNode_public_remark (v : option jsstr) (x : PublicNode.t) : PublicNode.t :=
  PublicNode.mk (PublicNode.id x) (PublicNode.role x) (PublicNode.latency_enabled x) (PublicNode.name x) (PublicNode.group x)
    (PublicNode.region x) (PublicNode.country_code x) (PublicNode.latitude x) (PublicNode.longitude x) (PublicNode.tags x) v
    (PublicNode.hidden x) (PublicNode.weight x) (PublicNode.price x) (PublicNode.currency x)
    (PublicNode.billing_cycle_days x) (PublicNode.expires_at x) (PublicNode.auto_renewal x) (PublicNode.traffic_limit x)
    (PublicNode.traffic_limit_type x) (PublicNode.traffic_reset_day x) (PublicNode.os x) (PublicNode.arch x)
    (PublicNode.cpu_name x) (PublicNode.cpu_cores x) (PublicNode.virtualization x) (PublicNode.kernel_version x)
    (PublicNode.created_at x) (PublicNode.updated_at x) (PublicNode.last_seen_at x) (PublicNode.online x).

Definition set_AdminNode_public_remark (v : option jsstr) (x : AdminNode.t) : AdminNode.t :=
  AdminNode.mk (set_PublicNode_public_remark v (AdminNode.base x) ) (AdminNode.hostname x) (AdminNode.private_remark x)
    (AdminNode.agent_version x) (AdminNode.ipv4 x) (AdminNode.ipv6 x).

Definition set_PublicNode_region (v : option jsstr) (x : PublicNode.t) : PublicNode.t :=
  PublicNode.mk (PublicNode.id x) (PublicNode.role x) (PublicNode.latency_enabled x) (PublicNode.name x) (PublicNode.group x)
    v (PublicNode.country_code x) (PublicNode.latitude x) (PublicNode.longitude x) (PublicNode.tags x)
    (PublicNode.public_remark x) (PublicNode.hidden x) (PublicNode.weight x) (PublicNode.price x) (PublicNode.currency x)
    (PublicNode.billing_cycle_days x) (PublicNode.expires_at x) (PublicNode.auto_renewal x) (PublicNode.traffic_limit x)
    (PublicNode.traffic_limit_type x) (PublicNode.traffic_reset_day x) (PublicNode.os x) (PublicNode.arch x)
    (PublicNode.cpu_name x) (PublicNode.cpu_cores x) (PublicNode.virtualization x) (PublicNode.kernel_version x)
    (PublicNode.created_at x) (PublicNode.updated_at x) (PublicNode.last_seen_at x) (PublicNode.online x).

Definition set_AdminNode_region (v : option jsstr) (x : AdminNode.t) : AdminNode.t :=
  AdminNode.mk (set_PublicNode_region v (AdminNode.base x) ) (AdminNode.hostname x) (AdminNode.private_remark x)
    (AdminNode.agent_version x) (AdminNode.ipv4 x) (AdminNode.ipv6 x).

Definition set_PublicNode_traffic_limit_type (v : jsstr) (x : PublicNode.t) : PublicNode.t :=
  PublicNode.mk (PublicNode.id x) (PublicNode.role x) (PublicNode.latency_enabled x) (PublicNode.name x) (PublicNode.group x)
    (PublicNode.region x) (PublicNode.country_code x) (PublicNode.latitude x) (PublicNode.longitude x) (PublicNode.tags x)
    (PublicNode.public_remark x) (PublicNode.hidden x) (PublicNode.weight x) (PublicNode.price x) (PublicNode.currency x)
    (PublicNode.billing_cycle_days x) (PublicNode.expires_at x) (PublicNode.auto_renewal x) (PublicNode.traffic_limit x) v
    (PublicNode.traffic_reset_day x) (PublicNode.os x) (PublicNode.arch x) (PublicNode.cpu_name x) (PublicNode.cpu_cores x)
    (PublicNode.virtualization x) (PublicNode.kernel_version x) (PublicNode.created_at x) (PublicNode.updated_at x)
    (PublicNode.last_seen_at x) (PublicNode.online x).

Definition set_AdminNode_traffic_limit_type (v : jsstr) (x : AdminNode.t) : AdminNode.t :=
  AdminNode.mk (set_PublicNode_traffic_limit_type v (AdminNode.base x) ) (AdminNode.hostname x) (AdminNode.private_remark x)
    (AdminNode.agent_version x) (AdminNode.ipv4 x) (AdminNode.ipv6 x).

Definition set_PublicNode_traffic_reset_day (v : num) (x : PublicNode.t) : PublicNode.t :=
  PublicNode.mk (PublicNode.id x) (PublicNode.role x) (PublicNode.latency_enabled x) (PublicNode.name x) (PublicNode.group x)
    (PublicNode.region x) (PublicNode.country_code x) (PublicNode.latitude x) (PublicNode.longitude x) (PublicNode.tags x)
    (PublicNode.public_remark x) (PublicNode.hidden x) (PublicNode.weight x) (PublicNode.price x) (PublicNode.currency x)
    (PublicNode.billing_cycle_days x) (PublicNode.expires_at x) (PublicNode.auto_renewal x) (PublicNode.traffic_limit x)
    (PublicNode.traffic_limit_type x) v (PublicNode.os x) (PublicNode.arch x) (PublicNode.cpu_name x)
    (PublicNode.cpu_cores x) (PublicNode.virtualization x) (PublicNode.kernel_version x) (PublicNode.created_at x)
    (PublicNode.updated_at x) (PublicNode.last_seen_at x) (PublicNode.online x).

Definition set_AdminNode_traffic_reset_day (v : num) (x : AdminNode.t) : AdminNode.t :=
  AdminNode.mk (set_PublicNode_traffic_reset_day v (AdminNode.base x) ) (AdminNode.hostname x) (AdminNode.private_remark x)
    (AdminNode.agent_version x) (AdminNode.ipv4 x) (AdminNode.ipv6 x).

Definition set_PublicNode_weight (v : num) (x : PublicNode.t) : PublicNode.t :=
  PublicNode.mk (PublicNode.id x) (PublicNode.role x) (PublicNode.latency_enabled x) (PublicNode.name x) (PublicNode.group x)
    (PublicNode.region x) (PublicNode.country_code x) (PublicNode.latitude x) (PublicNode.longitude x) (PublicNode.tags x)
    (PublicNode.public_remark x) (PublicNode.hidden x) v (PublicNode.price x) (PublicNode.currency x)
    (PublicNode.billing_cycle_days x) (PublicNode.expires_at x) (PublicNode.auto_renewal x) (PublicNode.traffic_limit x)
    (PublicNode.traffic_limit_type x) (PublicNode.traffic_reset_day x) (PublicNode.os x) (PublicNode.arch x)
    (PublicNode.cpu_name x) (PublicNode.cpu_cores x) (PublicNode.virtualization x) (PublicNode.kernel_version x)
    (PublicNode.created_at x) (PublicNode.updated_at x) (PublicNode.last_seen_at x) (PublicNode.online x).

Definition set_AdminNode_weight (v : num) (x : AdminNode.t) : AdminNode.t :=
  AdminNode.mk (set_PublicNode_weight v (AdminNode.base x) ) (AdminNode.hostname x) (AdminNode.private_remark x)
    (AdminNode.agent_version x) (AdminNode.ipv4 x) (AdminNode.ipv6 x).

Definition set_AgentConfig_auto_update (v : bool) (x : AgentConfig.t) : AgentConfig.t :=
  AgentConfig.mk (AgentConfig.collect_interval_seconds x) (AgentConfig.persist_interval_seconds x)
    (AgentConfig.include_nics x) (AgentConfig.exclude_nics x) (AgentConfig.include_mountpoints x) (AgentConfig.enable_gpu x)
    v (AgentConfig.probe_concurrency x) (AgentConfig.config_version x).

Definition set_AgentConfig_collect_interval_seconds (v : num) (x : AgentConfig.t) : AgentConfig.t :=
  AgentConfig.mk v (AgentConfig.persist_interval_seconds x) (AgentConfig.include_nics x) (AgentConfig.exclude_nics x)
    (AgentConfig.include_mountpoints x) (AgentConfig.enable_gpu x) (AgentConfig.auto_update x)
    (AgentConfig.probe_concurrency x) (AgentConfig.config_version x).

Definition set_AgentConfig_enable_gpu (v : bool) (x : AgentConfig.t) : AgentConfig.t :=
  AgentConfig.mk (AgentConfig.collect_interval_seconds x) (AgentConfig.persist_interval_seconds x)
    (AgentConfig.include_nics x) (AgentConfig.exclude_nics x) (AgentConfig.include_mountpoints x) v
    (AgentConfig.auto_update x) (AgentConfig.probe_concurrency x) (AgentConfig.config_version x).

Definition set_AgentConfig_persist_interval_seconds (v : num) (x : AgentConfig.t) : AgentConfig.t :=
  AgentConfig.mk (AgentConfig.collect_interval_seconds x) v (AgentConfig.include_nics x) (AgentConfig.exclude_nics x)
    (AgentConfig.include_mountpoints x) (AgentConfig.enable_gpu x) (AgentConfig.auto_update x)
    (AgentConfig.probe_concurrency x) (AgentConfig.config_version x).

Definition set_AgentConfig_probe_concurrency (v : num) (x : AgentConfig.t) : AgentConfig.t :=
  AgentConfig.mk (AgentConfig.collect_interval_seconds x) (AgentConfig.persist_interval_seconds x)
    (AgentConfig.include_nics x) (AgentConfig.exclude_nics x) (AgentConfig.include_mountpoints x) (AgentConfig.enable_gpu x)
    (AgentConfig.auto_update x) v (AgentConfig.config_version x).

Definition set_AlertRule_cooldown_seconds (v : num) (x : AlertRule.t) : AlertRule.t :=
  AlertRule.mk (AlertRule.id x) (AlertRule.name x) (AlertRule.metric x) (AlertRule.operator x) (AlertRule.threshold x)
    (AlertRule.recovery_threshold x) (AlertRule.duration_seconds x) v (AlertRule.severity x) (AlertRule.scope x)
    (AlertRule.enabled x) (AlertRule.created_at x) (AlertRule.updated_at x).

Definition set_AlertRule_duration_seconds (v : num) (x : AlertRule.t) : AlertRule.t :=
  AlertRule.mk (AlertRule.id x) (AlertRule.name x) (AlertRule.metric x) (AlertRule.operator x) (AlertRule.threshold x)
    (AlertRule.recovery_threshold x) v (AlertRule.cooldown_seconds x) (AlertRule.severity x) (AlertRule.scope x)
    (AlertRule.enabled x) (AlertRule.created_at x) (AlertRule.updated_at x).

Definition set_AlertRule_enabled (v : bool) (x : AlertRule.t) : AlertRule.t :=
  AlertRule.mk (AlertRule.id x) (AlertRule.name x) (AlertRule.metric x) (AlertRule.operator x) (AlertRule.threshold x)
    (AlertRule.recovery_threshold x) (AlertRule.duration_seconds x) (AlertRule.cooldown_seconds x) (AlertRule.severity x)
    (AlertRule.scope x) v (AlertRule.created_at x) (AlertRule.updated_at x).

Definition set_AlertRule_metric (v : jsstr) (x : AlertRule.t) : AlertRule.t :=
  AlertRule.mk (AlertRule.id x) (AlertRule.name x) v (AlertRule.operator x) (AlertRule.threshold x)
    (AlertRule.recovery_threshold x) (AlertRule.duration_seconds x) (AlertRule.cooldown_seconds x) (AlertRule.severity x)
    (AlertRule.scope x) (AlertRule.enabled x) (AlertRule.created_at x) (AlertRule.updated_at x).

Definition set_AlertRule_name (v : jsstr) (x : AlertRule.t) : AlertRule.t :=
  AlertRule.mk (AlertRule.id x) v (AlertRule.metric x) (AlertRule.operator x) (AlertRule.threshold x)
    (AlertRule.recovery_threshold x) (AlertRule.duration_seconds x) (AlertRule.cooldown_seconds x) (AlertRule.severity x)
    (AlertRule.scope x) (AlertRule.enabled x) (AlertRule.created_at x) (AlertRule.updated_at x).

Definition set_AlertRule_operator (v : jsstr) (x : AlertRule.t) : AlertRule.t :=
  AlertRule.mk (AlertRule.id x) (AlertRule.name x) (AlertRule.metric x) v (AlertRule.threshold x)
    (AlertRule.recovery_threshold x) (AlertRule.duration_seconds x) (AlertRule.cooldown_seconds x) (AlertRule.severity x)
    (AlertRule.scope x) (AlertRule.enabled x) (AlertRule.created_at x) (AlertRule.updated_at x).

Definition set_AlertRule_recovery_threshold (v : num) (x : AlertRule.t) : AlertRule.t :=
  AlertRule.mk (AlertRule.id x) (AlertRule.name x) (AlertRule.metric x) (AlertRule.operator x) (AlertRule.threshold x) v
    (AlertRule.duration_seconds x) (AlertRule.cooldown_seconds x) (AlertRule.severity x) (AlertRule.scope x)
    (AlertRule.enabled x) (AlertRule.created_at x) (AlertRule.updated_at x).

Definition set_AlertRule_scope (v : AlertScope.t) (x : AlertRule.t) : AlertRule.t :=
  AlertRule.mk (AlertRule.id x) (AlertRule.name x) (AlertRule.metric x) (AlertRule.operator x) (AlertRule.threshold x)
    (AlertRule.recovery_threshold x) (AlertRule.duration_seconds x) (AlertRule.cooldown_seconds x) (AlertRule.severity x) v
    (AlertRule.enabled x) (AlertRule.created_at x) (AlertRule.updated_at x).

Definition set_AlertRule_severity (v : AlertRule.severity_) (x : AlertRule.t) : AlertRule.t :=
  AlertRule.mk (AlertRule.id x) (AlertRule.name x) (AlertRule.metric x) (AlertRule.operator x) (AlertRule.threshold x)
    (AlertRule.recovery_threshold x) (AlertRule.duration_seconds x) (AlertRule.cooldown_seconds x) v (AlertRule.scope x)
    (AlertRule.enabled x) (AlertRule.created_at x) (AlertRule.updated_at x).

Definition set_AlertRule_threshold (v : num) (x : AlertRule.t) : AlertRule.t :=
  AlertRule.mk (AlertRule.id x) (AlertRule.name x) (AlertRule.metric x) (AlertRule.operator x) v
    (AlertRule.recovery_threshold x) (AlertRule.duration_seconds x) (AlertRule.cooldown_seconds x) (AlertRule.severity x)
    (AlertRule.scope x) (AlertRule.enabled x) (AlertRule.created_at x) (AlertRule.updated_at x).

Definition set_AlertScope_excluded_node_ids (v : option (list jsstr)) (x : AlertScope.t) : AlertScope.t :=
  AlertScope.mk (AlertScope.groups x) (AlertScope.node_ids x) v.

Definition set_AlertScope_node_ids (v : option (list jsstr)) (x : AlertScope.t) : AlertScope.t :=
  AlertScope.mk (AlertScope.groups x) v (AlertScope.excluded_node_ids x).

Definition set_NotificationChannel_enabled (v : bool) (x : NotificationChannel.t) : NotificationChannel.t :=
  NotificationChannel.mk (NotificationChannel.id x) (NotificationChannel.name x) (NotificationChannel.type x)
    (NotificationChannel.config x) v (NotificationChannel.created_at x) (NotificationChannel.updated_at x).

Definition set_NotificationChannel_name (v : jsstr) (x : NotificationChannel.t) : NotificationChannel.t :=
  NotificationChannel.mk (NotificationChannel.id x) v (NotificationChannel.type x) (NotificationChannel.config x)
    (NotificationChannel.enabled x) (NotificationChannel.created_at x) (NotificationChannel.updated_at x).

Definition set_NotificationChannel_type (v : NotificationChannel.type_) (x : NotificationChannel.t) : NotificationChannel.t :=
  NotificationChannel.mk (NotificationChannel.id x) (NotificationChannel.name x) v (NotificationChannel.config x)
    (NotificationChannel.enabled x) (NotificationChannel.created_at x) (NotificationChannel.updated_at x).

Definition set_ProbeTask_enabled (v : bool) (x : ProbeTask.t) : ProbeTask.t :=
  ProbeTask.mk (ProbeTask.id x) (ProbeTask.name x) (ProbeTask.type x) (ProbeTask.target x) (ProbeTask.interval_seconds x)
    (ProbeTask.timeout_seconds x) (ProbeTask.expected_status x) (ProbeTask.expected_value x) (ProbeTask.node_ids x)
    (ProbeTask.purpose x) (ProbeTask.run_on x) (ProbeTask.target_node_id x) (ProbeTask.public x) (ProbeTask.samples x) v
    (ProbeTask.created_at x) (ProbeTask.updated_at x).

Definition set_ProbeTask_expected_status (v : option num) (x : ProbeTask.t) : ProbeTask.t :=
  ProbeTask.mk (ProbeTask.id x) (ProbeTask.name x) (ProbeTask.type x) (ProbeTask.target x) (ProbeTask.interval_seconds x)
    (ProbeTask.timeout_seconds x) v (ProbeTask.expected_value x) (ProbeTask.node_ids x) (ProbeTask.purpose x)
    (ProbeTask.run_on x) (ProbeTask.target_node_id x) (ProbeTask.public x) (ProbeTask.samples x) (ProbeTask.enabled x)
    (ProbeTask.created_at x) (ProbeTask.updated_at x).

Definition set_ProbeTask_expected_value (v : option jsstr) (x : ProbeTask.t) : ProbeTask.t :=
  ProbeTask.mk (ProbeTask.id x) (ProbeTask.name x) (ProbeTask.type x) (ProbeTask.target x) (ProbeTask.interval_seconds x)
    (ProbeTask.timeout_seconds x) (ProbeTask.expected_status x) v (ProbeTask.node_ids x) (ProbeTask.purpose x)
    (ProbeTask.run_on x) (ProbeTask.target_node_id x) (ProbeTask.public x) (ProbeTask.samples x) (ProbeTask.enabled x)
    (ProbeTask.created_at x) (ProbeTask.updated_at x).

Definition set_ProbeTask_id (v : num) (x : ProbeTask.t) : ProbeTask.t :=
  ProbeTask.mk v (ProbeTask.name x) (ProbeTask.type x) (ProbeTask.target x) (ProbeTask.interval_seconds x)
    (ProbeTask.timeout_seconds x) (ProbeTask.expected_status x) (ProbeTask.expected_value x) (ProbeTask.node_ids x)
    (ProbeTask.purpose x) (ProbeTask.run_on x) (ProbeTask.target_node_id x) (ProbeTask.public x) (ProbeTask.samples x)
    (ProbeTask.enabled x) (ProbeTask.created_at x) (ProbeTask.updated_at x).

Definition set_ProbeTask_interval_seconds (v : num) (x : ProbeTask.t) : ProbeTask.t :=
  ProbeTask.mk (ProbeTask.id x) (ProbeTask.name x) (ProbeTask.type x) (ProbeTask.target x) v (ProbeTask.timeout_seconds x)
    (ProbeTask.expected_status x) (ProbeTask.expected_value x) (ProbeTask.node_ids x) (ProbeTask.purpose x)
    (ProbeTask.run_on x) (ProbeTask.target_node_id x) (ProbeTask.public x) (ProbeTask.samples x) (ProbeTask.enabled x)
    (ProbeTask.created_at x) (ProbeTask.updated_at x).

Definition set_ProbeTask_name (v : jsstr) (x : ProbeTask.t) : ProbeTask.t :=
  ProbeTask.mk (ProbeTask.id x) v (ProbeTask.type x) (ProbeTask.target x) (ProbeTask.interval_seconds x)
    (ProbeTask.timeout_seconds x) (ProbeTask.expected_status x) (ProbeTask.expected_value x) (ProbeTask.node_ids x)
    (ProbeTask.purpose x) (ProbeTask.run_on x) (ProbeTask.target_node_id x) (ProbeTask.public x) (ProbeTask.samples x)
    (ProbeTask.enabled x) (ProbeTask.created_at x) (ProbeTask.updated_at x).

Definition set_ProbeTask_node_ids (v : option (list jsstr)) (x : ProbeTask.t) : ProbeTask.t :=
  ProbeTask.mk (ProbeTask.id x) (ProbeTask.name x) (ProbeTask.type x) (ProbeTask.target x) (ProbeTask.interval_seconds x)
    (ProbeTask.timeout_seconds x) (ProbeTask.expected_status x) (ProbeTask.expected_value x) v (ProbeTask.purpose x)
    (ProbeTask.run_on x) (ProbeTask.target_node_id x) (ProbeTask.public x) (ProbeTask.samples x) (ProbeTask.enabled x)
    (ProbeTask.created_at x) (ProbeTask.updated_at x).

Definition set_ProbeTask_public (v : bool) (x : ProbeTask.t) : ProbeTask.t :=
  ProbeTask.mk (ProbeTask.id x) (ProbeTask.name x) (ProbeTask.type x) (ProbeTask.target x) (ProbeTask.interval_seconds x)
    (ProbeTask.timeout_seconds x) (ProbeTask.expected_status x) (ProbeTask.expected_value x) (ProbeTask.node_ids x)
    (ProbeTask.purpose x) (ProbeTask.run_on x) (ProbeTask.target_node_id x) v (ProbeTask.samples x) (ProbeTask.enabled x)
    (ProbeTask.created_at x) (ProbeTask.updated_at x).

Definition set_ProbeTask_samples (v : num) (x : ProbeTask.t) : ProbeTask.t :=
  ProbeTask.mk (ProbeTask.id x) (ProbeTask.name x) (ProbeTask.type x) (ProbeTask.target x) (ProbeTask.interval_seconds x)
    (ProbeTask.timeout_seconds x) (ProbeTask.expected_status x) (ProbeTask.expected_value x) (ProbeTask.node_ids x)
    (ProbeTask.purpose x) (ProbeTask.run_on x) (ProbeTask.target_node_id x) (ProbeTask.public x) v (ProbeTask.enabled x)
    (ProbeTask.created_at x) (ProbeTask.updated_at x).

Definition set_ProbeTask_target (v : jsstr) (x : ProbeTask.t) : ProbeTask.t :=
  ProbeTask.mk (ProbeTask.id x) (ProbeTask.name x) (ProbeTask.type x) v (ProbeTask.interval_seconds x)
    (ProbeTask.timeout_seconds x) (ProbeTask.expected_status x) (ProbeTask.expected_value x) (ProbeTask.node_ids x)
    (ProbeTask.purpose x) (ProbeTask.run_on x) (ProbeTask.target_node_id x) (ProbeTask.public x) (ProbeTask.samples x)
    (ProbeTask.enabled x) (ProbeTask.created_at x) (ProbeTask.updated_at x).

Definition set_ProbeTask_target_node_id (v : option jsstr) (x : ProbeTask.t) : ProbeTask.t :=
  ProbeTask.mk (ProbeTask.id x) (ProbeTask.name x) (ProbeTask.type x) (ProbeTask.target x) (ProbeTask.interval_seconds x)
    (ProbeTask.timeout_seconds x) (ProbeTask.expected_status x) (ProbeTask.expected_value x) (ProbeTask.node_ids x)
    (ProbeTask.purpose x) (ProbeTask.run_on x) v (ProbeTask.public x) (ProbeTask.samples x) (ProbeTask.enabled x)
    (ProbeTask.created_at x) (ProbeTask.updated_at x).

Definition set_ProbeTask_timeout_seconds (v : num) (x : ProbeTask.t) : ProbeTask.t :=
  ProbeTask.mk (ProbeTask.id x) (ProbeTask.name x) (ProbeTask.type x) (ProbeTask.target x) (ProbeTask.interval_seconds x) v
    (ProbeTask.expected_status x) (ProbeTask.expected_value x) (ProbeTask.node_ids x) (ProbeTask.purpose x)
    (ProbeTask.run_on x) (ProbeTask.target_node_id x) (ProbeTask.public x) (ProbeTask.samples x) (ProbeTask.enabled x)
    (ProbeTask.created_at x) (ProbeTask.updated_at x).

Definition set_ProbeTask_type (v : ProbeTask.type_) (x : ProbeTask.t) : ProbeTask.t :=
  ProbeTask.mk (ProbeTask.id x) (ProbeTask.name x) v (ProbeTask.target x) (ProbeTask.interval_seconds x)
    (ProbeTask.timeout_seconds x) (ProbeTask.expected_status x) (ProbeTask.expected_value x) (ProbeTask.node_ids x)
    (ProbeTask.purpose x) (ProbeTask.run_on x) (ProbeTask.target_node_id x) (ProbeTask.public x) (ProbeTask.samples x)
    (ProbeTask.enabled x) (ProbeTask.created_at x) (ProbeTask.updated_at x).

Definition set_SiteSettings_custom_body (v : option jsstr) (x : SiteSettings.t) : SiteSettings.t :=
  SiteSettings.mk (SiteSettings.name x) (SiteSettings.description x) (SiteSettings.private x)
    (SiteSettings.enrollment_enabled x) (SiteSettings.enrollment_pin_weak x) (SiteSettings.theme x)
    (SiteSettings.record_enabled x) (SiteSettings.raw_retention_hours x) (SiteSettings.five_minute_retention_hours x)
    (SiteSettings.hourly_retention_hours x) (SiteSettings.geoip_enabled x) (SiteSettings.geoip_provider x)
    (SiteSettings.custom_head x) v (SiteSettings.theme_market_sources x).

Definition set_SiteSettings_custom_head (v : option jsstr) (x : SiteSettings.t) : SiteSettings.t :=
  SiteSettings.mk (SiteSettings.name x) (SiteSettings.description x) (SiteSettings.private x)
    (SiteSettings.enrollment_enabled x) (SiteSettings.enrollment_pin_weak x) (SiteSettings.theme x)
    (SiteSettings.record_enabled x) (SiteSettings.raw_retention_hours x) (SiteSettings.five_minute_retention_hours x)
    (SiteSettings.hourly_retention_hours x) (SiteSettings.geoip_enabled x) (SiteSettings.geoip_provider x) v
    (SiteSettings.custom_body x) (SiteSettings.theme_market_sources x).

Definition set_SiteSettings_description (v : jsstr) (x : SiteSettings.t) : SiteSettings.t :=
  SiteSettings.mk (SiteSettings.name x) v (SiteSettings.private x) (SiteSettings.enrollment_enabled x)
    (SiteSettings.enrollment_pin_weak x) (SiteSettings.theme x) (SiteSettings.record_enabled x)
    (SiteSettings.raw_retention_hours x) (SiteSettings.five_minute_retention_hours x)
    (SiteSettings.hourly_retention_hours x) (SiteSettings.geoip_enabled x) (SiteSettings.geoip_provider x)
    (SiteSettings.custom_head x) (SiteSettings.custom_body x) (SiteSettings.theme_market_sources x).

Definition set_SiteSettings_enrollment_enabled (v : bool) (x : SiteSettings.t) : SiteSettings.t :=
  SiteSettings.mk (SiteSettings.name x) (SiteSettings.description x) (SiteSettings.private x) v
    (SiteSettings.enrollment_pin_weak x) (SiteSettings.theme x) (SiteSettings.record_enabled x)
    (SiteSettings.raw_retention_hours x) (SiteSettings.five_minute_retention_hours x)
    (SiteSettings.hourly_retention_hours x) (SiteSettings.geoip_enabled x) (SiteSettings.geoip_provider x)
    (SiteSettings.custom_head x) (SiteSettings.custom_body x) (SiteSettings.theme_market_sources x).

Definition set_SiteSettings_five_minute_retention_hours (v : num) (x : SiteSettings.t) : SiteSettings.t :=
  SiteSettings.mk (SiteSettings.name x) (SiteSettings.description x) (SiteSettings.private x)
    (SiteSettings.enrollment_enabled x) (SiteSettings.enrollment_pin_weak x) (SiteSettings.theme x)
    (SiteSettings.record_enabled x) (SiteSettings.raw_retention_hours x) v (SiteSettings.hourly_retention_hours x)
    (SiteSettings.geoip_enabled x) (SiteSettings.geoip_provider x) (SiteSettings.custom_head x) (SiteSettings.custom_body x)
    (SiteSettings.theme_market_sources x).

Definition set_SiteSettings_geoip_enabled (v : bool) (x : SiteSettings.t) : SiteSettings.t :=
  SiteSettings.mk (SiteSettings.name x) (SiteSettings.description x) (SiteSettings.private x)
    (SiteSettings.enrollment_enabled x) (SiteSettings.enrollment_pin_weak x) (SiteSettings.theme x)
    (SiteSettings.record_enabled x) (SiteSettings.raw_retention_hours x) (SiteSettings.five_minute_retention_hours x)
    (SiteSettings.hourly_retention_hours x) v (SiteSettings.geoip_provider x) (SiteSettings.custom_head x)
    (SiteSettings.custom_body x) (SiteSettings.theme_market_sources x).

Definition set_SiteSettings_geoip_provider (v : jsstr) (x : SiteSettings.t) : SiteSettings.t :=
  SiteSettings.mk (SiteSettings.name x) (SiteSettings.description x) (SiteSettings.private x)
    (SiteSettings.enrollment_enabled x) (SiteSettings.enrollment_pin_weak x) (SiteSettings.theme x)
    (SiteSettings.record_enabled x) (SiteSettings.raw_retention_hours x) (SiteSettings.five_minute_retention_hours x)
    (SiteSettings.hourly_retention_hours x) (SiteSettings.geoip_enabled x) v (SiteSettings.custom_head x)
    (SiteSettings.custom_body x) (SiteSettings.theme_market_sources x).

Definition set_SiteSettings_hourly_retention_hours (v : num) (x : SiteSettings.t) : SiteSettings.t :=
  SiteSettings.mk (SiteSettings.name x) (SiteSettings.description x) (SiteSettings.private x)
    (SiteSettings.enrollment_enabled x) (SiteSettings.enrollment_pin_weak x) (SiteSettings.theme x)
    (SiteSettings.record_enabled x) (SiteSettings.raw_retention_hours x) (SiteSettings.five_minute_retention_hours x) v
    (SiteSettings.geoip_enabled x) (SiteSettings.geoip_provider x) (SiteSettings.custom_head x) (SiteSettings.custom_body x)
    (SiteSettings.theme_market_sources x).

Definition set_SiteSettings_name (v : jsstr) (x : SiteSettings.t) : SiteSettings.t :=
  SiteSettings.mk v (SiteSettings.description x) (SiteSettings.private x) (SiteSettings.enrollment_enabled x)
    (SiteSettings.enrollment_pin_weak x) (SiteSettings.theme x) (SiteSettings.record_enabled x)
    (SiteSettings.raw_retention_hours x) (SiteSettings.five_minute_retention_hours x)
    (SiteSettings.hourly_retention_hours x) (SiteSettings.geoip_enabled x) (SiteSettings.geoip_provider x)
    (SiteSettings.custom_head x) (SiteSettings.custom_body x) (SiteSettings.theme_market_sources x).

Definition set_SiteSettings_private (v : bool) (x : SiteSettings.t) : SiteSettings.t :=
  SiteSettings.mk (SiteSettings.name x) (SiteSettings.description x) v (SiteSettings.enrollment_enabled x)
    (SiteSettings.enrollment_pin_weak x) (SiteSettings.theme x) (SiteSettings.record_enabled x)
    (SiteSettings.raw_retention_hours x) (SiteSettings.five_minute_retention_hours x)
    (SiteSettings.hourly_retention_hours x) (SiteSettings.geoip_enabled x) (SiteSettings.geoip_provider x)
    (SiteSettings.custom_head x) (SiteSettings.custom_body x) (SiteSettings.theme_market_sources x).

Definition set_SiteSettings_raw_retention_hours (v : num) (x : SiteSettings.t) : SiteSettings.t :=
  SiteSettings.mk (SiteSettings.name x) (SiteSettings.description x) (SiteSettings.private x)
    (SiteSettings.enrollment_enabled x) (SiteSettings.enrollment_pin_weak x) (SiteSettings.theme x)
    (SiteSettings.record_enabled x) v (SiteSettings.five_minute_retention_hours x) (SiteSettings.hourly_retention_hours x)
    (SiteSettings.geoip_enabled x) (SiteSettings.geoip_provider x) (SiteSettings.custom_head x) (SiteSettings.custom_body x)
    (SiteSettings.theme_market_sources x).

Definition set_SiteSettings_record_enabled (v : bool) (x : SiteSettings.t) : SiteSettings.t :=
  SiteSettings.mk (SiteSettings.name x) (SiteSettings.description x) (SiteSettings.private x)
    (SiteSettings.enrollment_enabled x) (SiteSettings.enrollment_pin_weak x) (SiteSettings.theme x) v
    (SiteSettings.raw_retention_hours x) (SiteSettings.five_minute_retention_hours x)
    (SiteSettings.hourly_retention_hours x) (SiteSettings.geoip_enabled x) (SiteSettings.geoip_provider x)
    (SiteSettings.custom_head x) (SiteSettings.custom_body x) (SiteSettings.theme_market_sources x).
