(* ===== verification/Decode.v ===== *)
(** * Decode: reading the records back (web/src/types.ts)

    The client takes the type of a body for granted ([response.json() as T]);
    [decode] is that claim made explicit: the record that a JSON value is, when
    it has the members of the interface at their types.  Members the interface
    does not name are ignored.  [Decodes] is the interface between a sender and
    a reader: [decode] after [encode] is the identity. *)

From Stdlib Require Import Strings.String.
From S2P Require Import Prelude JsString Binary64 JsNumber Types Json Encode Api.

(** ** Members *)

Definition dec_str (v : json) : option jsstr := match v with JStr s => Some s | _ => None end.
Definition dec_num (v : json) : option num := match v with JNum n => Some n | _ => None end.
Definition dec_bool (v : json) : option bool := match v with JBool b => Some b | _ => None end.
Definition dec_object (v : json) : option (list (jsstr * json)) := match v with JObj m => Some m | _ => None end.
Definition dec_list {A} (d : json -> option A) (v : json) : option (list A) :=
  match v with JArr l => mapM d l | _ => None end.
Definition dec_strings : json -> option (list jsstr) := dec_list dec_str.

(** A member that must be there, and one that may be left out. *)
Definition member {A} (k : string) (d : json -> option A) (v : json) : option A := field (js k) v ≫= d.

Definition optional {A} (k : string) (d : json -> option A) (v : json) : option (option A) :=
  match field (js k) v with Some x => Some <$> d x | None => Some None end.

(** A union of literals. *)
Definition literal {A} (values : list A) (name : A -> jsstr) (v : json) : option A :=
  s ← dec_str v; List.find (fun a => streq (name a) s) values.

Class Decode (A : Type) := decode : json -> option A.

(** ** The interfaces *)

Definition dec_probe_type := literal [ProbeTask.icmp; ProbeTask.tcp; ProbeTask.http; ProbeTask.dns] type_str.
Definition dec_purpose := literal
  [ProbeTask.custom; ProbeTask.latency; ProbeTask.carrier_telecom; ProbeTask.carrier_unicom; ProbeTask.carrier_mobile] ProbeTask.purpose_str.
Definition dec_role := literal [monitor; probe] role_str.
Definition dec_severity := literal [AlertRule.info; AlertRule.warning; AlertRule.critical] severity_str.
Definition dec_channel_type := literal
  [NotificationChannel.smtp; NotificationChannel.telegram; NotificationChannel.bark; NotificationChannel.webhook] channel_str.

Definition pin_status_str (s : TemporaryEnrollmentPIN.status_) : jsstr :=
  match s with
  | TemporaryEnrollmentPIN.active => js "active" | TemporaryEnrollmentPIN.used => js "used"
  | TemporaryEnrollmentPIN.expired => js "expired" | TemporaryEnrollmentPIN.revoked => js "revoked"
  end.
Definition dec_pin_status := literal
  [TemporaryEnrollmentPIN.active; TemporaryEnrollmentPIN.used; TemporaryEnrollmentPIN.expired; TemporaryEnrollmentPIN.revoked] pin_status_str.

#[export] Instance decode_SiteSettings : Decode SiteSettings.t := fun v =>
  name0 ← member "name" dec_str v; description0 ← member "description" dec_str v; private0 ← member "private" dec_bool v;
  enrollment_enabled0 ← member "enrollment_enabled" dec_bool v; enrollment_pin_weak0 ← member "enrollment_pin_weak" dec_bool v;
  theme0 ← member "theme" dec_str v; record_enabled0 ← member "record_enabled" dec_bool v;
  raw_retention_hours0 ← member "raw_retention_hours" dec_num v;
  five_minute_retention_hours0 ← member "five_minute_retention_hours" dec_num v;
  hourly_retention_hours0 ← member "hourly_retention_hours" dec_num v; geoip_enabled0 ← member "geoip_enabled" dec_bool v;
  geoip_provider0 ← member "geoip_provider" dec_str v; custom_head0 ← optional "custom_head" dec_str v;
  custom_body0 ← optional "custom_body" dec_str v; theme_market_sources0 ← optional "theme_market_sources" dec_strings v;
  Some (SiteSettings.mk name0 description0 private0 enrollment_enabled0 enrollment_pin_weak0 theme0 record_enabled0
    raw_retention_hours0 five_minute_retention_hours0 hourly_retention_hours0 geoip_enabled0 geoip_provider0 custom_head0 custom_body0
    theme_market_sources0).

#[export] Instance decode_PublicNode : Decode PublicNode.t := fun v =>
  id0 ← member "id" dec_str v; role0 ← member "role" dec_role v; latency_enabled0 ← member "latency_enabled" dec_bool v;
  name0 ← member "name" dec_str v; group0 ← optional "group" dec_str v; region0 ← optional "region" dec_str v;
  country_code0 ← optional "country_code" dec_str v; latitude0 ← optional "latitude" dec_num v;
  longitude0 ← optional "longitude" dec_num v; tags0 ← member "tags" dec_strings v;
  public_remark0 ← optional "public_remark" dec_str v; hidden0 ← member "hidden" dec_bool v; weight0 ← member "weight" dec_num v;
  price0 ← member "price" dec_num v; currency0 ← member "currency" dec_str v;
  billing_cycle_days0 ← member "billing_cycle_days" dec_num v; expires_at0 ← optional "expires_at" dec_str v;
  auto_renewal0 ← member "auto_renewal" dec_bool v; traffic_limit0 ← member "traffic_limit" dec_num v;
  traffic_limit_type0 ← member "traffic_limit_type" dec_str v; traffic_reset_day0 ← member "traffic_reset_day" dec_num v;
  os0 ← optional "os" dec_str v; arch0 ← optional "arch" dec_str v; cpu_name0 ← optional "cpu_name" dec_str v;
  cpu_cores0 ← optional "cpu_cores" dec_num v; virtualization0 ← optional "virtualization" dec_str v;
  kernel_version0 ← optional "kernel_version" dec_str v; created_at0 ← member "created_at" dec_str v;
  updated_at0 ← member "updated_at" dec_str v; last_seen_at0 ← optional "last_seen_at" dec_str v; online0 ← member "online" dec_bool v;
  Some (PublicNode.mk id0 role0 latency_enabled0 name0 group0 region0 country_code0 latitude0 longitude0 tags0 public_remark0 hidden0
    weight0 price0 currency0 billing_cycle_days0 expires_at0 auto_renewal0 traffic_limit0 traffic_limit_type0 traffic_reset_day0 os0
    arch0 cpu_name0 cpu_cores0 virtualization0 kernel_version0 created_at0 updated_at0 last_seen_at0 online0).

#[export] Instance decode_AdminNode : Decode AdminNode.t := fun v =>
  base0 ← decode_PublicNode v;
  hostname0 ← optional "hostname" dec_str v; private_remark0 ← optional "private_remark" dec_str v;
  agent_version0 ← optional "agent_version" dec_str v; ipv40 ← optional "ipv4" dec_str v; ipv60 ← optional "ipv6" dec_str v;
  Some (AdminNode.mk base0 hostname0 private_remark0 agent_version0 ipv40 ipv60).

#[export] Instance decode_AgentConfig : Decode AgentConfig.t := fun v =>
  collect_interval_seconds0 ← member "collect_interval_seconds" dec_num v;
  persist_interval_seconds0 ← member "persist_interval_seconds" dec_num v; include_nics0 ← optional "include_nics" dec_strings v;
  exclude_nics0 ← optional "exclude_nics" dec_strings v; include_mountpoints0 ← optional "include_mountpoints" dec_strings v;
  enable_gpu0 ← member "enable_gpu" dec_bool v; auto_update0 ← member "auto_update" dec_bool v;
  probe_concurrency0 ← member "probe_concurrency" dec_num v; config_version0 ← member "config_version" dec_num v;
  Some (AgentConfig.mk collect_interval_seconds0 persist_interval_seconds0 include_nics0 exclude_nics0 include_mountpoints0 enable_gpu0
    auto_update0 probe_concurrency0 config_version0).

#[export] Instance decode_ProbeTask : Decode ProbeTask.t := fun v =>
  id0 ← member "id" dec_num v; name0 ← member "name" dec_str v; type0 ← member "type" dec_probe_type v;
  target0 ← member "target" dec_str v; interval_seconds0 ← member "interval_seconds" dec_num v;
  timeout_seconds0 ← member "timeout_seconds" dec_num v; expected_status0 ← optional "expected_status" dec_num v;
  expected_value0 ← optional "expected_value" dec_str v; node_ids0 ← optional "node_ids" dec_strings v;
  purpose0 ← optional "purpose" dec_purpose v; run_on0 ← optional "run_on" dec_role v;
  target_node_id0 ← optional "target_node_id" dec_str v; public0 ← member "public" dec_bool v; samples0 ← member "samples" dec_num v;
  enabled0 ← member "enabled" dec_bool v; created_at0 ← optional "created_at" dec_str v; updated_at0 ← optional "updated_at" dec_str v;
  Some (ProbeTask.mk id0 name0 type0 target0 interval_seconds0 timeout_seconds0 expected_status0 expected_value0 node_ids0 purpose0
    run_on0 target_node_id0 public0 samples0 enabled0 created_at0 updated_at0).

#[export] Instance decode_AlertScope : Decode AlertScope.t := fun v =>
  groups0 ← optional "groups" dec_strings v; node_ids0 ← optional "node_ids" dec_strings v;
  excluded_node_ids0 ← optional "excluded_node_ids" dec_strings v;
  Some (AlertScope.mk groups0 node_ids0 excluded_node_ids0).

#[export] Instance decode_AlertRule : Decode AlertRule.t := fun v =>
  id0 ← member "id" dec_num v; name0 ← member "name" dec_str v; metric0 ← member "metric" dec_str v;
  operator0 ← member "operator" dec_str v; threshold0 ← member "threshold" dec_num v;
  recovery_threshold0 ← member "recovery_threshold" dec_num v; duration_seconds0 ← member "duration_seconds" dec_num v;
  cooldown_seconds0 ← member "cooldown_seconds" dec_num v; severity0 ← member "severity" dec_severity v;
  scope0 ← member "scope" decode v; enabled0 ← member "enabled" dec_bool v; created_at0 ← optional "created_at" dec_str v;
  updated_at0 ← optional "updated_at" dec_str v;
  Some (AlertRule.mk id0 name0 metric0 operator0 threshold0 recovery_threshold0 duration_seconds0 cooldown_seconds0 severity0 scope0
    enabled0 created_at0 updated_at0).

#[export] Instance decode_NotificationChannel : Decode NotificationChannel.t := fun v =>
  id0 ← member "id" dec_num v; name0 ← member "name" dec_str v; type0 ← member "type" dec_channel_type v;
  config0 ← optional "config" dec_object v; enabled0 ← member "enabled" dec_bool v; created_at0 ← optional "created_at" dec_str v;
  updated_at0 ← optional "updated_at" dec_str v;
  Some (NotificationChannel.mk id0 name0 type0 config0 enabled0 created_at0 updated_at0).

#[export] Instance decode_TemporaryEnrollmentPIN : Decode TemporaryEnrollmentPIN.t := fun v =>
  id0 ← member "id" dec_str v; pin0 ← optional "pin" dec_str v; status0 ← member "status" dec_pin_status v;
  created_at0 ← member "created_at" dec_str v; expires_at0 ← member "expires_at" dec_str v; used_at0 ← optional "used_at" dec_str v;
  revoked_at0 ← optional "revoked_at" dec_str v;
  Some (TemporaryEnrollmentPIN.mk id0 pin0 status0 created_at0 expires_at0 used_at0 revoked_at0).

(** ** Reading what was written *)

(** The value of a member of a literal. *)
Lemma field_at l : forall i k o, distinct (map (fun kv => js kv.1) l) = true -> l !! i = Some (k, o) -> field (js k) (obj l) = o.
Proof.
  unfold obj, field. induction l as [|[k' o'] l IH]; intros [|i] k o Hd Hi; [done..| |].
  - injection Hi as -> ->. cbn in *. apply andb_true_iff in Hd as [Hk Hd]. destruct o as [v|]; cbn.
    + by rewrite streq_refl.
    + rewrite forallb_forall in Hk. clear IH Hd. induction l as [|[k'' o''] l IH]; [done|].
      assert (Hne : streq (js k) (js k'') = false) by (apply negb_true_iff, Hk; by left).
      assert (IH' := IH (fun x Hx => Hk x (or_intror Hx))). destruct o'' as [v|]; cbn; [|exact IH'].
      destruct (streq (js k'') (js k)) eqn:E; [|exact IH']. apply streq_eq in E. by rewrite E, streq_refl in Hne.
  - cbn in Hd, Hi. apply andb_true_iff in Hd as [Hk Hd]. specialize (IH i k o Hd Hi). destruct o' as [v|]; cbn; [|exact IH].
    destruct (streq (js k') (js k)) eqn:E; [|exact IH]. apply streq_eq in E. rewrite forallb_forall in Hk.
    assert (Hin : In (js k) (map (fun kv => js kv.1) l)).
    { apply in_map_iff. exists (k, o). split; [done|]. apply list_elem_of_In. by apply list_elem_of_lookup_2 with i. }
    apply Hk in Hin. rewrite E, streq_refl in Hin. done.
Qed.

Lemma member_at {A} (d : json -> option A) l i k o x : distinct (map (fun kv => js kv.1) l) = true -> l !! i = Some (k, o) ->
  o ≫= d = Some x -> member k d (obj l) = Some x.
Proof. intros Hd Hi Hx. unfold member. by rewrite (field_at l i k o). Qed.

Lemma optional_at {A B} (d : json -> option A) (f : B -> option json) (g : B -> A) l i k (o : option B) :
  distinct (map (fun kv => js kv.1) l) = true -> l !! i = Some (k, o ≫= f) -> (forall b, exists v, f b = Some v /\ d v = Some (g b)) ->
  optional k d (obj l) = Some (g <$> o).
Proof.
  intros Hd Hi Hf. unfold optional. rewrite (field_at l i k _ Hd Hi). destruct o as [b|]; [|done]. cbn.
  destruct (Hf b) as (v & -> & Hv). by rewrite Hv.
Qed.

Lemma dec_list_map {A} (d : json -> option A) (f : A -> json) l : (forall a, d (f a) = Some a) -> dec_list d (JArr (map f l)) = Some l.
Proof. intros Hd. cbn. induction l as [|a l IH]; [done|]. cbn. by rewrite Hd, IH. Qed.

Class Decodes (A : Type) `{Encode A, Decode A} : Prop := decode_encode : forall a : A, decode (encode a) = Some a.

(** ** The records *)

Create HintDb decode.

Lemma probe_type_back t : dec_probe_type (JStr (type_str t)) = Some t.
Proof. by destruct t. Qed.

Lemma purpose_back p : dec_purpose (JStr (ProbeTask.purpose_str p)) = Some p.
Proof. by destruct p. Qed.

Lemma role_back r : dec_role (JStr (role_str r)) = Some r.
Proof. by destruct r. Qed.

Lemma severity_back s : dec_severity (JStr (severity_str s)) = Some s.
Proof. by destruct s. Qed.

Lemma channel_type_back t : dec_channel_type (JStr (channel_str t)) = Some t.
Proof. by destruct t. Qed.

Lemma strings_back l : dec_strings (JArr (map JStr l)) = Some l.
Proof. by apply dec_list_map. Qed.

#[export] Hint Resolve probe_type_back purpose_back role_back severity_back channel_type_back strings_back : decode.
#[export] Hint Extern 0 (dec_str (JStr _) = Some _) => reflexivity : decode.
#[export] Hint Extern 0 (dec_num (JNum _) = Some _) => reflexivity : decode.
#[export] Hint Extern 0 (dec_object (JObj _) = Some _) => reflexivity : decode.
#[export] Hint Extern 0 (dec_bool (JBool _) = Some _) => reflexivity : decode.

(** The place of a name in a literal. *)
Ltac place k l :=
  lazymatch l with
  | cons (pair k _) _ => constr:(O)
  | cons _ ?l' => let n := place k l' in constr:(S n)
  end.

Lemma bind_some {A B} (x : option A) (f : A -> option B) a r : x = Some a -> f a = r -> x ≫= f = r.
Proof. by intros ->. Qed.

(** One step of reading a literal [l] whose names are distinct. *)
Ltac read_member Hd l :=
  lazymatch goal with
  | |- mbind _ (member ?k ?d ?v) = _ =>
      let i := place k l in eapply bind_some;
      [eapply (member_at d l i k); [exact Hd|reflexivity|cbn [mbind option_bind str number bool_ strings]; solve [eauto with decode]]|]
  | |- mbind _ (optional ?k ?d ?v) = _ =>
      let i := place k l in eapply bind_some;
      [first [apply (optional_at d _ id l i k _ Hd eq_refl) | apply (optional_at d (fun m => Some (JObj m)) id l i k _ Hd eq_refl)];
       intros ?; eexists; split; [reflexivity|solve [eauto with decode]]|]
  end; cbv beta.

Ltac read_record :=
  intros r; unfold encode, decode;
  lazymatch goal with |- ?d (?e r) = _ => unfold d, e end; cbv zeta;
  let Hd := fresh "Hd" in
  lazymatch goal with |- context [obj ?l] =>
    assert (Hd : distinct (map (fun kv => js kv.1) l) = true) by (vm_compute; reflexivity);
    repeat read_member Hd l
  end; rewrite ?option_fmap_id.

#[export] Instance decodes_SiteSettings : Decodes SiteSettings.t.
Proof. read_record. by destruct r. Qed.

#[export] Instance decodes_AgentConfig : Decodes AgentConfig.t.
Proof. read_record. by destruct r. Qed.

#[export] Instance decodes_ProbeTask : Decodes ProbeTask.t.
Proof. read_record. by destruct r. Qed.

#[export] Instance decodes_AlertScope : Decodes AlertScope.t.
Proof. read_record. by destruct r. Qed.

#[export] Hint Extern 1 (decode (encode _) = Some _) => apply decode_encode : decode.

#[export] Instance decodes_AlertRule : Decodes AlertRule.t.
Proof. read_record. by destruct r. Qed.

#[export] Instance decodes_NotificationChannel : Decodes NotificationChannel.t.
Proof. read_record. by destruct r. Qed.

(** The members of the interface it extends are read from the same object. *)
#[export] Instance decodes_AdminNode : Decodes AdminNode.t.
Proof.
  intros r. unfold encode, decode, decode_AdminNode, encode_AdminNode. cbv zeta.
  lazymatch goal with |- context [obj ?l] =>
    assert (Hd : distinct (map (fun kv => js kv.1) l) = true) by (vm_compute; reflexivity);
    eapply bind_some; [unfold decode_PublicNode; repeat read_member Hd l; reflexivity|];
    repeat read_member Hd l
  end.
  rewrite !option_fmap_id. by destruct r as [[] ].
Qed.
