(* ===== verification/PartsTemplate.v ===== *)
(** * PartsTemplate: the markup of the parts of the pages
    (the templates of components/MetricBar.vue, TrafficUsageBar.vue, NodeFlag.vue,
    SystemLogo.vue, TimeSeriesChart.vue, NodeCard.vue, LanguageSwitch.vue,
    PublicHeader.vue)

    A part without handlers of its own is a tree for any kind of handlers; a page
    puts it below an element of its name.  A part with a state of its own
    ([LanguageSwitch], [PublicHeader]) is a place in the page that uses it and has
    its own tree here. *)

From Stdlib Require Import Strings.String.
From S2P Require Import Prelude JsString Binary64 JsNumber JsDate I18n Traffic Types Encode Format AdminForms NodeAssets Components Html.
From S2P Require TimeSeriesChart.

#[local] Existing Instance UsageBar.state_eq_dec.

(** The strings of the unions. *)
Definition metric_tone_str (t : MetricBar.tone_) : jsstr :=
  match t with MetricBar.critical_ => js "critical" | MetricBar.warning_ => js "warning" | MetricBar.normal_ => js "normal" end.
Definition usage_tone_str (t : UsageBar.tone_) : jsstr :=
  match t with UsageBar.critical => js "critical" | UsageBar.warning => js "warning" | UsageBar.normal => js "normal" end.
Definition usage_state_str (s : UsageBar.state_) : jsstr :=
  match s with UsageBar.unavailable => js "unavailable" | UsageBar.unlimited => js "unlimited" | UsageBar.metered => js "metered" end.

Definition MetricBar_view (l : AppLocale) {H} (p : MetricBar.props) : html H :=
  El "div" [Cls (js "metric-bar"); Attr "data-tone" (metric_tone_str (MetricBar.tone p))] [
    El "div" [Cls (js "metric-bar-label")] [
      El "span" [] [Text (MetricBar.label p)];
      El "strong" [] [Text ((toFixed (MetricBar.normalized p) 1 ++ js "%")%list)]];
    El "div" [Cls (js "metric-track"); Attr "aria-hidden" (js "true")] [
      El "i" [Style "width" ((toString (MetricBar.normalized p) ++ js "%")%list)] []];
    if truthy (MetricBar.detail p) then El "small" [] [Text (MetricBar.detail p)] else Nothing].

Section UsageBarView.
Context (formatNumber : AppLocale -> num -> jsstr).

Definition TrafficUsageBar_view (l : AppLocale) {H} (compact : bool) (p : UsageBar.props) : html H :=
  El "div" [Cls (js "traffic-usage"); ClsIf "compact" compact; Attr "data-state" (usage_state_str (UsageBar.state p));
      Attr "data-tone" (usage_tone_str (UsageBar.tone p))] [
    El "div" [Cls (js "traffic-usage-head")] [
      El "span" [] [Text (text l (js "本月已用") (js "Monthly used"))];
      if bool_decide (UsageBar.state p = UsageBar.metered) then
        El "strong" [] [
          Text (UsageBar.usedLabel formatNumber l p);
          El "small" [] [Text ((toString (UsageBar.roundedPercent p) ++ js "%")%list)]]
      else if bool_decide (UsageBar.state p = UsageBar.unlimited) then
        El "strong" [] [Text (UsageBar.usedLabel formatNumber l p); El "small" [] [Text (text l (js "不限量") (js "Unlimited"))]]
      else 
        El "strong" [] [Text (text l (js "暂无数据") (js "No data"))]];
    if bool_decide (UsageBar.state p = UsageBar.metered) then
      El "div" [Cls (js "traffic-usage-track"); Attr "role" (js "meter");
          Attr "aria-label" (text l (js "本月流量使用率") (js "Monthly traffic used")); Attr "aria-valuemin" (js "0");
          Attr "aria-valuemax" (js "100"); Attr "aria-valuenow" (toString (UsageBar.roundedPercent p));
          Attr "aria-valuetext" (UsageBar.ariaValueText formatNumber l p)] [
        El "i" [Style "width" ((toString (UsageBar.usedPercent p) ++ js "%")%list)] []]
    else 
      El "div" [Cls (js "traffic-usage-track"); Attr "aria-hidden" (js "true")] [El "i" [] []]].

End UsageBarView.

Definition TimeSeriesChart_view {H} (p : TimeSeriesChart.props) : html H :=
  El "div" [Cls (js "time-series-chart"); Attr "role" (js "img");
      Attr "aria-label" (or_else (TimeSeriesChart.ariaLabel p) ((join (map TimeSeriesChart.name (TimeSeriesChart.series p)) (js ", ") ++ js " time series chart")%list))] [].

Section Assets.
Context `{Unicode}.

Definition NodeFlag_view {H} (countryCode : option jsstr) : html H :=
  if truthy (nullish (NodeFlag_src countryCode) []) then
    El "img" [Cls (js "node-flag"); Attr "src" (nullish (NodeFlag_src countryCode) []); Attr "alt" [];
        Attr "aria-hidden" (js "true"); Attr "decoding" (js "async")] []
  else Nothing.

Definition SystemLogo_view {H} (os : option jsstr) : html H :=
  El "img" [Cls (js "node-os-logo"); Attr "src" (SystemLogo_src os); Attr "alt" []; Attr "aria-hidden" (js "true");
      Attr "decoding" (js "async")] [].

End Assets.

Section NodeCardView.
Context `{Unicode} `{MathLog} `{DateHost} (formatNumber : AppLocale -> num -> jsstr).

Definition NodeCard_view (l : AppLocale) {H} (now : num) (s : NodeSnapshot.t) (to : option jsstr) : html H :=
  El "RouterLink" [Cls (js "node-card km-node-card"); ClsIf "offline" (negb (PublicNode.online (NodeSnapshot.node s)));
      Attr "to" (or_else to ((js "/nodes/" ++ PublicNode.id (NodeSnapshot.node s))%list))] [
    El "div" [Cls (js "node-card-topline")] [
      El "span" [Cls (js "status-dot"); Cls (if PublicNode.online (NodeSnapshot.node s) then js "online" else js "offline")] [];
      El "span" [Cls (js "node-region")] [
        Text (or_else (or_option (PublicNode.region (NodeSnapshot.node s)) (PublicNode.country_code (NodeSnapshot.node s)))
            (text l (js "未设置地区") (js "No location")))];
      El "NodeFlag" [] [NodeFlag_view (PublicNode.country_code (NodeSnapshot.node s))]];
    El "div" [Cls (js "node-identity")] [
      El "div" [] [
        El "h3" [Cls (js "node-name")] [
          El "SystemLogo" [] [SystemLogo_view (PublicNode.os (NodeSnapshot.node s))];
          El "span" [] [Text (PublicNode.name (NodeSnapshot.node s))]];
        El "p" [] [
          Text ((or_else (PublicNode.os (NodeSnapshot.node s)) (text l (js "未知系统") (js "Unknown OS")) ++ js " · " ++ or_else
              (PublicNode.arch (NodeSnapshot.node s)) (js "—"))%list)]];
      El "strong" [Cls (js "node-cpu-number")] [
        Text (nullish ((fun x => toFixed x 0) <$> (MetricSample.cpu <$> (NodeSnapshot.metric s))) (js "—"));
        El "small" [] [Text (js "%")]]];
    El "div" [Cls (js "node-tags")] [
      if truthy (nullish (PublicNode.group (NodeSnapshot.node s)) []) then
        El "span" [] [Text (nullish (PublicNode.group (NodeSnapshot.node s)) [])]
      else Nothing;
      Frag (map (fun tag => El "span" [Key (KeyS tag)] [Text tag]) (take 3 (PublicNode.tags (NodeSnapshot.node s))))];
    El "div" [Cls (js "node-metrics")] [
      El "MetricBar" [] [
        MetricBar_view l (Components.MetricBar.with_defaults (js "CPU") (nullish (MetricSample.cpu <$> (NodeSnapshot.metric s))
            #0) None None None)];
      El "MetricBar" [] [
        MetricBar_view l (Components.MetricBar.with_defaults (text l (js "内存") (js "MEM")) (NodeCard.memory s) (Some (if
            bool_decide (is_Some (NodeSnapshot.metric s)) then (bytes (MetricSample.memory_used <$> (NodeSnapshot.metric
            s)) 1 ++ js " / " ++ bytes (MetricSample.memory_total <$> (NodeSnapshot.metric s)) 1)%list else [])) None
            None)];
      El "MetricBar" [] [
        MetricBar_view l (Components.MetricBar.with_defaults (text l (js "磁盘") (js "DISK")) (NodeCard.disk s) (Some (if
            bool_decide (is_Some (NodeSnapshot.metric s)) then (bytes (MetricSample.disk_used <$> (NodeSnapshot.metric
            s)) 1 ++ js " / " ++ bytes (MetricSample.disk_total <$> (NodeSnapshot.metric s)) 1)%list else [])) None
            None)]];
    El "TrafficUsageBar" [] [
      TrafficUsageBar_view formatNumber l false (UsageBar.mkProps (PublicNode.traffic_limit (NodeSnapshot.node s)) (Some
          (PublicNode.traffic_limit_type (NodeSnapshot.node s))) ((NodeSnapshot.metric s) ≫=
          MetricSample.monthly_rx_bytes) ((NodeSnapshot.metric s) ≫= MetricSample.monthly_tx_bytes))];
    El "div" [Cls (js "node-io")] [
      El "span" [] [
        El "b" [] [Text (js "↓")];
        Text ((js " " ++ rate (MetricSample.net_rx_bps <$> (NodeSnapshot.metric s)))%list)];
      El "span" [] [
        El "b" [] [Text (js "↑")];
        Text ((js " " ++ rate (MetricSample.net_tx_bps <$> (NodeSnapshot.metric s)))%list)];
      El "span" [] [
        Text ((text l (js "运行") (js "UP") ++ js " " ++ duration l (MetricSample.uptime_seconds <$> (NodeSnapshot.metric
            s)))%list)]];
    El "footer" [] [
      El "span" [] [
        Text (if PublicNode.online (NodeSnapshot.node s) then text l (js "运行正常") (js "Healthy") else (text l (js "最后上报") (js
            "Last report") ++ js " " ++ relativeTime l now (or_option ((NodeSnapshot.metric s) ≫=
            MetricSample.received_at) (PublicNode.last_seen_at (NodeSnapshot.node s))))%list)];
      El "i" [Attr "aria-hidden" (js "true")] [Text (js "→")]]].

End NodeCardView.

Definition LanguageSwitch_view (l : AppLocale) : html (Page -> Page) :=
  El "div" [Cls (js "language-switch"); Attr "role" (js "group");
      Attr "aria-label" (text l (js "界面语言") (js "Interface language"))] [
    El "button" [Attr "type" (js "button"); ClsIf "active" (bool_decide (l = zh_CN));
        Attr "aria-pressed" (bool_text (bool_decide (l = zh_CN))); On "click" (setLocale zh_CN)] [
      Text (js "中")];
    El "button" [Attr "type" (js "button"); ClsIf "active" (bool_decide (l = en_US));
        Attr "aria-pressed" (bool_text (bool_decide (l = en_US))); On "click" (setLocale en_US)] [
      Text (js "EN")]].

Definition PublicHeader_view (l : AppLocale) (siteName : jsstr) (loggedIn : bool) (s : Appearance.state) : html (Appearance.state -> Appearance.state) :=
  El "header" [Cls (js "public-header")] [
    El "RouterLink" [Cls (js "wordmark"); Attr "to" (js "/"); Attr "aria-label" (text l (js "返回监控首页") (js "Hostpin overview"))] [
      El "img" [Cls (js "wordmark-icon"); Attr "src" (js "/hostpin-icon.svg?v=2"); Attr "alt" [];
          Attr "aria-hidden" (js "true")] [];
      El "span" [] [Text siteName]];
    El "nav" [Cls (js "header-actions"); Attr "aria-label" (text l (js "主导航") (js "Global navigation"))] [
      El "div" [Cls (js "header-primary-nav")] [
        El "RouterLink" [Cls (js "public-nav-link"); Attr "to" (js "/")] [Text (text l (js "节点") (js "Nodes"))];
        El "RouterLink" [Cls (js "public-nav-link"); Attr "to" (js "/latency")] [Text (text l (js "延迟") (js "Latency"))]];
      El "span" [Cls (js "header-clock")] [El "i" [] []; Text ((js " " ++ text l (js "实时") (js "Live"))%list)];
      El "LanguageSwitch" [] [];
      El "button" [Cls (js "icon-button"); Attr "type" (js "button");
          Attr "aria-label" (text l ((js "外观：" ++ Appearance.appearance s)%list) ((js "Appearance: " ++ Appearance.appearance s)%list));
          On "click" Appearance.cycleAppearance] [
        El "svg" [Attr "viewBox" (js "0 0 24 24"); Attr "aria-hidden" (js "true")] [
          El "path" [
              Attr "d" (js "M12 3v2m0 14v2M3 12h2m14 0h2M5.6 5.6 7 7m10 10 1.4 1.4M18.4 5.6 17 7M7 17l-1.4 1.4M16 12a4 4 0 1 1-8 0 4 4 0 0 1 8 0Z")] []]];
      El "RouterLink" [Cls (js "text-link"); Attr "to" (if loggedIn then js "/admin" else js "/login")] [
        Text (((if loggedIn then text l (js "管理") (js "Admin") else text l (js "登录") (js "Sign in")) ++ js " ")%list);
        El "span" [] [Text (js "↗")]]]].

(** ** Parts without handlers start nothing *)

Section Parts.
Context `{Unicode} `{MathLog} `{DateHost} (formatNumber : AppLocale -> num -> jsstr) {A : Type} (P : A -> Prop).

Lemma MetricBar_acts l p : acts P (MetricBar_view l p).
Proof. unfold MetricBar_view. view_acts. Qed.

Lemma TrafficUsageBar_acts l compact p : acts P (TrafficUsageBar_view formatNumber l compact p).
Proof. unfold TrafficUsageBar_view. view_acts. Qed.

Lemma TimeSeriesChart_acts p : acts P (TimeSeriesChart_view p).
Proof. unfold TimeSeriesChart_view. view_acts. Qed.

Lemma NodeFlag_acts code : acts P (NodeFlag_view code).
Proof. unfold NodeFlag_view. view_acts. Qed.

Lemma SystemLogo_acts os : acts P (SystemLogo_view os).
Proof. unfold SystemLogo_view. view_acts. Qed.

Lemma NodeCard_acts l now s to : acts P (NodeCard_view formatNumber l now s to).
Proof. unfold NodeCard_view. view_acts; first [apply NodeFlag_acts|apply SystemLogo_acts|apply MetricBar_acts|apply TrafficUsageBar_acts]. Qed.

End Parts.

#[export] Hint Resolve MetricBar_acts TrafficUsageBar_acts TimeSeriesChart_acts NodeFlag_acts SystemLogo_acts NodeCard_acts : view_db.
