(* ===== verification/OverviewTemplate.v ===== *)
(** * OverviewTemplate: the markup of the overview page
    (the template of web/src/views/OverviewView.vue)

    [page] puts together the parts of the page's state that [Overview] and
    [Monitor] model; [action] is what its controls do.  The theorems say what the page lists, and that it stays on its error notice for
    ever once its first load has failed. *)

From Stdlib Require Import Strings.String.
From S2P Require Monitor.
From S2P Require Import Prelude JsString Binary64 JsNumber JsDate Async I18n Traffic Types Format AdminForms Overview Html PartsTemplate.

Record page := mkPage { filters : Overview.filters; choice : Overview.view_state; monitor : Monitor.state }.

Inductive action :=
| SetSearch (s : jsstr) | SetGroup (s : jsstr) | SetStatus (s : status_)
| SetView (v : view_)
| Retry                        (* monitor.load() *)
| Push (path : jsstr).         (* $router.push(path) *)

Definition overview_status_str (s : status_) : jsstr :=
  match s with all => js "all" | online_ => js "online" | offline_ => js "offline" end.

Section View.
Context `{Unicode} `{MathLog} `{DateHost} (formatNumber : AppLocale -> num -> jsstr) (formatTime : num -> jsstr).

Definition view (l : AppLocale) (now : num) (version : jsstr) (p : page) : html action :=
  El "div" [Cls (js "public-layout km-layout")] [
    El "PublicHeader" [] [];
    El "main" [Cls (js "overview km-page-instance")] [
      El "header" [Cls (js "compact-public-head")] [
        El "h1" [] [Text (text l (js "节点") (js "Nodes"))];
        El "span" [Cls (js "update-stamp")] [
          El "i" [] [];
          Text ((js " " ++ (if bool_decide (is_Some (Monitor.lastUpdate (Monitor.st (monitor p)))) then (text l (js "更新") (js
              "Updated") ++ js " " ++ nullish (formatTime <$> Monitor.lastUpdate (Monitor.st (monitor p))) [])%list
              else text l (js "正在连接") (js "Connecting")))%list)]];
      El "section" [Cls (js "fleet-readout fleet-overview"); Attr "aria-label" (text l (js "节点概览") (js "Fleet summary"))] [
        El "div" [] [
          El "span" [] [Text (text l (js "在线节点") (js "Online"))];
          El "strong" [] [
            Text (toString (of_nat (Monitor.onlineCount (Monitor.st (monitor p)))));
            El "small" [] [Text ((js "/" ++ toString (of_nat (length (Monitor.nodes (Monitor.st (monitor p))))))%list)]];
          El "i" [
              Style "width" (((if negb (Nat.eqb (length (Monitor.nodes (Monitor.st (monitor p)))) 0) then toString (((((of_nat (Monitor.onlineCount (Monitor.st (monitor p)))) / (of_nat (length (Monitor.nodes (Monitor.st (monitor p))))))%num) * #100)%num) else toString #0) ++ js "%")%list)] []];
        El "div" [] [
          El "span" [] [Text (text l (js "平均 CPU") (js "Average CPU"))];
          El "strong" [] [Text (toFixed (avgCPU (Monitor.nodes (Monitor.st (monitor p)))) 1); El "small" [] [Text (js "%")]]];
        El "div" [] [
          El "span" [] [Text (text l (js "总内存") (js "Total memory"))];
          El "strong" [] [Text (bytes (Some (totalMemory (Monitor.nodes (Monitor.st (monitor p))))) 0)]];
        El "div" [] [
          El "span" [] [Text (text l (js "实时流量") (js "Throughput"))];
          El "strong" [] [Text (rate (Some (trafficRate (Monitor.nodes (Monitor.st (monitor p))))))]]];
      El "section" [Cls (js "fleet-section")] [
        El "div" [Cls (js "fleet-toolbar")] [
          El "label" [Cls (js "search-field")] [
            El "span" [] [Text (js "⌕")];
            El "input" [Model jsstr (Overview.search (filters p)) SetSearch;
                Attr "aria-label" (text l (js "搜索节点") (js "Search nodes"));
                Attr "placeholder" (text l (js "搜索名称、地区或标签") (js "Search name, region, or tag"))] []];
          El "div" [Cls (js "segmented"); Attr "aria-label" (text l (js "节点状态筛选") (js "Node status filter"))] [
            Frag (map (fun item =>
              El "button" [Key (KeyS (overview_status_str item.1));
                  ClsIf "active" (bool_decide (Overview.status (filters p) = item.1));
                  Attr "aria-pressed" (bool_text (bool_decide (Overview.status (filters p) = item.1)));
                  On "click" (SetStatus item.1)] [
                Text item.2]) (statusOptions l))];
          El "select" [Model jsstr (Overview.group (filters p)) SetGroup;
              Attr "aria-label" (text l (js "按分组筛选") (js "Filter by group"))] [
            El "option" [Attr "value" []] [Text (text l (js "全部分组") (js "All groups"))];
            Frag (map (fun item => El "option" [Key (KeyS item)] [Text item]) (Monitor.groups (Monitor.st (monitor p))))];
          El "div" [Cls (js "view-switch")] [
            El "button" [ClsIf "active" (streq (Overview.view (choice p)) (js "grid"));
                Attr "aria-pressed" (bool_text (streq (Overview.view (choice p)) (js "grid")));
                Attr "aria-label" (text l (js "卡片视图") (js "Grid view")); On "click" (SetView grid)] [
              Text (js "▦")];
            El "button" [ClsIf "active" (streq (Overview.view (choice p)) (js "table"));
                Attr "aria-pressed" (bool_text (streq (Overview.view (choice p)) (js "table")));
                Attr "aria-label" (text l (js "表格视图") (js "Table view")); On "click" (SetView table)] [
              Text (js "☷")]]];
        if truthy (Monitor.overview_error (monitor p)) then
          El "div" [Cls (js "notice error")] [
            El "b" [] [Text (text l (js "连接失败") (js "Connection failed"))];
            El "span" [] [Text (Monitor.overview_error (monitor p))];
            El "button" [On "click" Retry] [Text (text l (js "重试") (js "Retry"))]]
        else if (Monitor.loading (Monitor.st (monitor p))) && (Nat.eqb (length (Monitor.nodes (Monitor.st (monitor p)))) 0) then
          El "div" [Cls (js "loading-grid")] [
            Frag (map (fun n => El "i" [Key (KeyN n)] []) (map (fun k => of_nat (S k)) (seq 0 6)))]
        else if (Nat.eqb (length (filtered (filters p) (Monitor.nodes (Monitor.st (monitor p))))) 0) then
          El "div" [Cls (js "empty-state")] [
            El "span" [] [Text (js "∅")];
            El "h3" [] [Text (text l (js "没有匹配的节点") (js "No matching nodes"))];
            El "p" [] [Text (text l (js "请调整筛选条件，或注册一个新节点。") (js "Change the filters or enroll a new node."))]]
        else if streq (Overview.view (choice p)) (js "grid") then
          El "div" [Cls (js "node-grid km-instance-server-list")] [
            Frag (map (fun item =>
              El "NodeCard" [Key (KeyS (PublicNode.id (NodeSnapshot.node item)))] [NodeCard_view formatNumber l now item None]) (filtered (filters p) (Monitor.nodes (Monitor.st (monitor p)))))]
        else 
          El "div" [Cls (js "node-table-wrap")] [
            El "table" [Cls (js "node-table km-ui-table")] [
              El "thead" [] [
                El "tr" [] [
                  El "th" [] [Text (text l (js "状态 / 节点") (js "Status / node"))];
                  El "th" [] [Text (text l (js "地区") (js "Location"))];
                  El "th" [] [Text (js "CPU")];
                  El "th" [] [Text (text l (js "内存") (js "Memory"))];
                  El "th" [] [Text (text l (js "网络 ↓ / ↑") (js "Network ↓ / ↑"))];
                  El "th" [] [Text (text l (js "本月已用") (js "Monthly used"))];
                  El "th" [] [Text (text l (js "运行时间") (js "Uptime"))]]];
              El "tbody" [] [
                Frag (map (fun item =>
                  El "tr" [Key (KeyS (PublicNode.id (NodeSnapshot.node item))); Attr "tabindex" (js "0");
                      Attr "role" (js "link");
                      Attr "aria-label" (text l ((js "打开 " ++ PublicNode.name (NodeSnapshot.node item))%list) ((js "Open " ++ PublicNode.name (NodeSnapshot.node item))%list));
                      On "click" (Push ((js "/nodes/" ++ NodeSnapshot.id item)%list));
                      On "keydown.enter" (Push ((js "/nodes/" ++ NodeSnapshot.id item)%list))] [
                    El "td" [] [
                      El "span" [Cls (js "status-dot");
                          Cls (if PublicNode.online (NodeSnapshot.node item) then js "online" else js "offline")] [];
                      El "SystemLogo" [] [SystemLogo_view (PublicNode.os (NodeSnapshot.node item))];
                      El "b" [] [Text (PublicNode.name (NodeSnapshot.node item))];
                      El "small" [] [Text (nullish (PublicNode.os (NodeSnapshot.node item)) [])]];
                    El "td" [] [
                      El "span" [Cls (js "node-table-location")] [
                        El "NodeFlag" [] [NodeFlag_view (PublicNode.country_code (NodeSnapshot.node item))];
                        El "span" [] [
                          Text (or_else (or_option (PublicNode.region (NodeSnapshot.node item)) (PublicNode.country_code
                              (NodeSnapshot.node item))) (js "—"))]]];
                    El "td" [] [
                      Text ((nullish ((fun x => toFixed x 1) <$> (MetricSample.cpu <$> (NodeSnapshot.metric item))) (js "—") ++
                          js "%")%list)];
                    El "td" [] [
                      Text ((bytes (MetricSample.memory_used <$> (NodeSnapshot.metric item)) 1 ++ js " / " ++ bytes
                          (MetricSample.memory_total <$> (NodeSnapshot.metric item)) 1)%list)];
                    El "td" [] [
                      Text ((rate (MetricSample.net_rx_bps <$> (NodeSnapshot.metric item)) ++ js " / " ++ rate
                          (MetricSample.net_tx_bps <$> (NodeSnapshot.metric item)))%list)];
                    El "td" [] [
                      El "TrafficUsageBar" [] [
                        TrafficUsageBar_view formatNumber l true (UsageBar.mkProps (PublicNode.traffic_limit (NodeSnapshot.node
                            item)) (Some (PublicNode.traffic_limit_type (NodeSnapshot.node item)))
                            ((NodeSnapshot.metric item) ≫= MetricSample.monthly_rx_bytes)
                            ((NodeSnapshot.metric item) ≫= MetricSample.monthly_tx_bytes))]];
                    El "td" [] [
                      Text (if bool_decide (is_Some (NodeSnapshot.metric item)) then duration l (MetricSample.uptime_seconds <$>
                          (NodeSnapshot.metric item)) else js "—")]]) (filtered (filters p) (Monitor.nodes (Monitor.st (monitor p)))))]]]]];
    El "footer" [Cls (js "public-footer")] [El "span" [] [Text (js "HOSTPIN")]; El "span" [] [Text ((js "v" ++ version)%list)]]].

(** ** What the page lists *)

Definition listed (p : page) : list NodeSnapshot.t := filtered (filters p) (Monitor.nodes (Monitor.st (monitor p))).

(** The state of the list: the notice, the placeholder, the message, or nodes. *)
Inductive content := Notice (message : jsstr) | Waiting | NoMatch | Nodes (l : list NodeSnapshot.t).

Definition content_of (p : page) : content :=
  if truthy (Monitor.overview_error (monitor p)) then Notice (Monitor.overview_error (monitor p))
  else if Monitor.loading (Monitor.st (monitor p)) && Nat.eqb (length (Monitor.nodes (Monitor.st (monitor p)))) 0 then Waiting
  else if Nat.eqb (length (listed p)) 0 then NoMatch
  else Nodes (listed p).

Definition card (l : AppLocale) (now : num) (item : NodeSnapshot.t) : html action :=
  El "NodeCard" [Key (KeyS (PublicNode.id (NodeSnapshot.node item)))] [NodeCard_view formatNumber l now item None].

Lemma view_cards l now version p :
  elements "NodeCard" (view l now version p)
  = match content_of p with
    | Nodes items => if streq (Overview.view (choice p)) (js "grid") then map (card l now) items else []
    | _ => []
    end.
Proof.
  unfold view, content_of. elements_compute.
  destruct (truthy (Monitor.overview_error (monitor p))); elements_compute; [done|].
  destruct (Monitor.loading _ && _); elements_compute; [done|]. fold (listed p).
  destruct (Nat.eqb (length (listed p)) 0); elements_compute; [done|].
  destruct (streq _ _); elements_compute; [by apply elements_each|].
  apply elements_none. intros item. unfold TrafficUsageBar_view, NodeFlag_view, SystemLogo_view. by elements_compute.
Qed.

Lemma cards_keys l now items : omap key_of (map (card l now) items) = map (fun item => KeyS (NodeSnapshot.id item)) items.
Proof. induction items as [|x items IH]; [done|]. cbn. by rewrite IH. Qed.

Lemma listed_spec p x : x ∈ listed p <->
  x ∈ Monitor.nodes (Monitor.st (monitor p)) /\
  (Overview.group (filters p) = [] \/ PublicNode.group (NodeSnapshot.node x) = Some (Overview.group (filters p))) /\
  (Overview.status (filters p) = all \/ (Overview.status (filters p) = online_ <-> PublicNode.online (NodeSnapshot.node x) = true)) /\
  (toLowerCase (trim (Overview.search (filters p))) = [] \/
   includes (toLowerCase (haystack (NodeSnapshot.node x))) (toLowerCase (trim (Overview.search (filters p)))) = true).
Proof.
  unfold listed, filtered. rewrite list_elem_of_filter. unfold Overview.shown, group_matches, status_matches, search_matches, query.
  rewrite !andb_true_iff, !orb_true_iff, !negb_true_iff, bool_decide_eq_true, Bool.eqb_true_iff.
  assert (Ht : forall s : jsstr, truthy s = false <-> s = []) by (by intros []). rewrite !Ht.
  assert (Hg : match PublicNode.group (NodeSnapshot.node x) with Some g => streq g (Overview.group (filters p)) | None => false end = true
    <-> PublicNode.group (NodeSnapshot.node x) = Some (Overview.group (filters p))).
  { destruct (PublicNode.group _) as [g|]; [rewrite streq_eq; naive_solver|naive_solver]. }
  rewrite Hg. assert (Ho : bool_decide (Overview.status (filters p) = online_) = PublicNode.online (NodeSnapshot.node x)
    <-> (Overview.status (filters p) = online_ <-> PublicNode.online (NodeSnapshot.node x) = true)).
  { case_bool_decide; destruct (PublicNode.online _); naive_solver. }
  rewrite Ho. tauto.
Qed.

(** C23: below its toolbar the overview shows exactly one thing: the error notice
    with the error and a button to retry, when there is an error; else a
    placeholder of six bars while the first load runs; else a message when no node
    matches; else the matching nodes, in the order of the store: in the grid view
    each with a card of its own, otherwise each with a row of the table that shows
    its name.  A node matches when the group, the status and the search text that
    are chosen all fit it.  Cards and rows are keyed by the ids of the nodes, so
    that Vue keeps them apart whenever the ids are. *)
Theorem overview_lists l now version p :
  let error := Monitor.overview_error (monitor p) in
  let nodes := Monitor.nodes (Monitor.st (monitor p)) in
  exists head toolbar body items,
    elements "section" (view l now version p) = [head; El "section" [Cls (js "fleet-section")] [toolbar; body]] /\
    items `sublist_of` nodes /\
    (forall x, x ∈ items <-> x ∈ nodes /\
       (Overview.group (filters p) = [] \/ PublicNode.group (NodeSnapshot.node x) = Some (Overview.group (filters p))) /\
       (Overview.status (filters p) = all \/ (Overview.status (filters p) = online_ <-> PublicNode.online (NodeSnapshot.node x) = true)) /\
       (toLowerCase (trim (Overview.search (filters p))) = [] \/
        includes (toLowerCase (haystack (NodeSnapshot.node x))) (toLowerCase (trim (Overview.search (filters p)))) = true)) /\
    (NoDup (map NodeSnapshot.id nodes) -> distinct_keys (map (fun item => KeyS (NodeSnapshot.id item)) items) = true) /\
    (if negb (streq error []) then
       exists kids, body = El "div" [Cls (js "notice error")] kids /\ clicks body = [Retry] /\
         Html.shown body = [text l (js "连接失败") (js "Connection failed"); error; text l (js "重试") (js "Retry")]
     else if Monitor.loading (Monitor.st (monitor p)) && bool_decide (nodes = []) then
       exists kids, body = El "div" [Cls (js "loading-grid")] kids /\ length (elements "i" body) = 6%nat /\ Html.shown body = []
     else if bool_decide (items = []) then
       exists kids, body = El "div" [Cls (js "empty-state")] kids /\
         Html.shown body = [js "∅"; text l (js "没有匹配的节点") (js "No matching nodes");
                            text l (js "请调整筛选条件，或注册一个新节点。") (js "Change the filters or enroll a new node.")]
     else if streq (Overview.view (choice p)) (js "grid") then
       body = El "div" [Cls (js "node-grid km-instance-server-list")] [Frag (map (card l now) items)] /\
       omap key_of (map (card l now) items) = map (fun item => KeyS (NodeSnapshot.id item)) items
     else
       exists header rows, elements "tr" body = header :: rows /\ elements "NodeCard" body = [] /\
         omap key_of rows = map (fun item => KeyS (NodeSnapshot.id item)) items /\
         Forall2 (fun row item => PublicNode.name (NodeSnapshot.node item) ∈ Html.shown row) rows items).
Proof.
  cbn zeta. eexists _, _, _, (listed p). split; [unfold view; cbn -[js text]; reflexivity|].
  split; [apply sublist_filter|]. split; [apply listed_spec|].
  split; [intros Hn; apply distinct_keys_ids; unfold listed, filtered; by apply NoDup_map_filter|].
  destruct (Monitor.overview_error (monitor p)) as [|c e] eqn:E; cbn [truthy]; [|by eexists].
  assert (Hlen : forall A (l : list A), Nat.eqb (length l) 0 = bool_decide (l = [])) by (by intros A []). rewrite !Hlen. fold (listed p).
  change (negb (streq [] [])) with false. cbv iota.
  destruct (Monitor.loading _ && _) eqn:Hl; [eexists; split_and!; reflexivity|].
  destruct (bool_decide (listed p = [])); [eexists; split_and!; reflexivity|].
  destruct (streq _ (js "grid")); [split; [reflexivity|apply cards_keys]|].
  match goal with |- context [Frag (map ?f (listed p))] => set (row := f) end.
  eexists _, (map row (listed p)). split_and!.
  - elements_compute. rewrite elements_each; [reflexivity|]. intros x. unfold row, TrafficUsageBar_view, NodeFlag_view, SystemLogo_view. by elements_compute.
  - elements_compute. apply elements_none. intros x. unfold row, TrafficUsageBar_view, NodeFlag_view, SystemLogo_view. by elements_compute.
  - induction (listed p) as [|x items IH]; [done|]. cbn [map omap list_omap key_of]. by rewrite IH.
  - apply Forall2_fmap_l, Forall_Forall2_diag, Forall_forall. intros x _. unfold row. cbn [shown flat_map app]. set_solver.
Qed.

(** ** A first load that fails *)

(** Everything that can happen to the mounted page: messages, closed sockets,
    timers, the button of the notice, leaving. *)
Definition afterwards (q : Monitor.M unit) : Prop := Monitor.event q /\ forall l, q <> Monitor.overview_mounted l.

Definition same_error (m : jsstr) (s : Monitor.state) : Prop := Monitor.overview_error s = m.
Definition any_change (s s' : Monitor.state) : Prop := True.

#[export] Instance any_change_preorder : PreOrder any_change.
Proof. by split. Qed.

Lemma good_same_error m (f : Monitor.state -> Monitor.state) : (forall s, Monitor.overview_error (f s) = Monitor.overview_error s) ->
  good (same_error m) any_change (modify f : Monitor.M unit).
Proof. intros Hf. apply good_modify; [apply _|]. intros s Hs. split; [|done]. unfold same_error. by rewrite Hf. Qed.

Lemma load_same_error m : good (same_error m) any_change Monitor.load.
Proof. unfold Monitor.load. good_prog; by apply good_same_error. Qed.

Lemma disconnect_error s : Monitor.overview_error (Monitor.disconnect_ s) = Monitor.overview_error s.
Proof. unfold Monitor.disconnect_. cbn. by destruct (Monitor.socket (Monitor.st s)). Qed.

Lemma connect_error s : Monitor.overview_error (Monitor.connect_ s) = Monitor.overview_error s.
Proof. unfold Monitor.connect_. cbn. apply disconnect_error. Qed.

Lemma onclose_error id s : Monitor.overview_error (Monitor.onclose_ id s) = Monitor.overview_error s.
Proof. unfold Monitor.onclose_. cbn. by case_bool_decide. Qed.

Lemma fold_samples_error l : forall s,
  Monitor.overview_error (fold_left (fun acc '(id, x) => Monitor.applySample id x acc) l s) = Monitor.overview_error s.
Proof. induction l as [|[id x] l IH]; intros s; [done|]. cbn [fold_left]. by rewrite IH. Qed.

Lemma on_message_error x s : Monitor.overview_error (Monitor.on_message x s) = Monitor.overview_error s.
Proof.
  unfold Monitor.on_message. cbn zeta. cbn [Monitor.set_store Monitor.overview_error].
  destruct (if streq _ _ then _ else None) as [all|]; [rewrite fold_samples_error; by destruct (Monitor.new_threshold x)|].
  destruct (Monitor.node_id x) as [[|c id]|], (Monitor.sample x) as [y|]; try done. by destruct (streq _ _).
Qed.

Lemma afterwards_good m q : afterwards q -> good (same_error m) any_change q.
Proof.
  intros [Hq Hm]. destruct Hq as [l| |id data|id|id|id| |t].
  - by destruct (Hm l).
  - apply good_same_error, disconnect_error.
  - unfold Monitor.onmessage. good_prog. apply good_same_error, on_message_error.
  - unfold Monitor.onclose. good_prog. apply good_same_error, onclose_error.
  - unfold Monitor.reconnect, Monitor.reconnection. good_prog; try apply load_same_error; apply good_same_error; try done. apply connect_error.
  - unfold Monitor.presence_tick. good_prog. by apply good_same_error.
  - apply load_same_error.
  - by apply good_same_error.
Qed.

(** When its first load fails the overview is stuck: whatever happens to the
    page afterwards, and however often its Retry button is clicked and answered,
    the notice of the first error stays and no node is ever shown, filters and
    choice of view whatever they are, until the page is left. *)
Theorem overview_retry_useless (env : forall r, Monitor.Resp r + exn) l s e c :
  ask env (All2 (One Monitor.GetNodes) (One Monitor.GetProbes)) = inr e ->
  let m := reason_message e (text l (js "无法加载监控数据。") (js "Could not load telemetry.")) in
  truthy m = true ->
  reachable afterwards (final (exec env (Monitor.overview_mounted l) s)) c ->
  forall now version f ch, let p := mkPage f ch (Async.store c) in
  content_of p = Notice m /\ elements "NodeCard" (view l now version p) = [].
Proof.
  intros He m Hm Hr now version f ch p.
  assert (Hs : same_error m (final (exec env (Monitor.overview_mounted l) s))).
  { unfold Monitor.overview_mounted, Monitor.load. cbn [bind modify try_catch finally await exec]. rewrite He. reflexivity. }
  destruct (rely_guarantee (same_error m) any_change afterwards (final (exec env (Monitor.overview_mounted l) s)) c) as [Hc _]; [|exact Hs|exact Hr|].
  { intros q Hq. apply good_keeps; [apply _|by apply afterwards_good]. }
  assert (Hcont : content_of p = Notice m) by (unfold content_of; cbn; unfold same_error in Hc; by rewrite Hc, Hm).
  split; [done|]. by rewrite view_cards, Hcont.
Qed.

End View.

(** The server is down when the page opens and up when Retry is clicked. *)
Definition down : forall r, Monitor.Resp r + exn := fun _ => inr (OtherError (js "Failed to fetch")).
Definition up : forall r, Monitor.Resp r + exn := fun r =>
  match r with Monitor.GetNodes => inl [Monitor.a_node (js "a")] | Monitor.GetProbes => inl [] end.

Lemma overview_retry_useless_witness :
  let s := final (exec down (@Monitor.overview_mounted en_US) (Monitor.start (#0))) in
  let c := answer_at up 0 (spawn Monitor.load (Config s [])) in
  length (Monitor.nodes (Monitor.st (Async.store c))) = 1%nat /\
  @content_of small_unicode (mkPage (mkFilters [] [] all) (mkView (js "grid") None) (Async.store c)) = Notice (js "Failed to fetch").
Proof.
  intros s c. split; [vm_compute; reflexivity|].
  refine (proj1 (@overview_retry_useless small_unicode step_log utc_host (fun _ _ => []) (fun _ => []) down en_US (Monitor.start (#0))
    (OtherError (js "Failed to fetch")) c eq_refl _ _ (#0) [] (mkFilters [] [] all) (mkView (js "grid") None))); [reflexivity|].
  eapply rtc_l; [apply Starts; split; [apply Monitor.E_retry|]|].
  { intros l Hl. apply (f_equal (fun q => result (exec down q (Monitor.start (#0))))) in Hl. discriminate. }
  eapply rtc_l; [apply (answer_at_step _ up 0); eexists; reflexivity|apply rtc_refl].
Defined.
