(* ===== verification/NodeTemplate.v ===== *)
(** * NodeTemplate: the markup of a node's page
    (the template of web/src/views/NodeView.vue)

    [page_view l q now v] is the tree of the page of the route [q] in state [v];
    its sections are definitions of their own.  The theorems: it starts only the
    events of [NodeView], and what the page shows in each phase of a load. *)

From Stdlib Require Import Strings.String.
From S2P Require Import Prelude JsString Binary64 JsNumber JsDate Async I18n Traffic Types Encode Format AdminForms NodeView Html PartsTemplate.
From S2P Require TimeSeriesChart Components Monitor.

(** A series as the chart takes it. *)
Definition chart_series (s : series) : TimeSeriesChart.series_ := TimeSeriesChart.mkSeries (s_name s) (s_values s) (s_color s).

Definition node_metric (v : view) : option MetricSample.t := snapshot v ≫= NodeSnapshot.metric.

Section View.
Context `{Unicode} `{MathLog} `{DateHost} (formatDate : AppLocale -> num -> jsstr) (formatTime : num -> jsstr).

Definition history_labels (v : view) : list jsstr :=
  map (fun item => formatTime (parse (nullish (MetricSample.received_at item) (MetricSample.collected_at item)))) (history v).

Definition carrier_chart (l : AppLocale) (v : view) : list jsstr * list series := carrierChart formatTime l (carrierProbes v).

Definition title_row (l : AppLocale) (q : params) (now : num) (v : view) (snapshot0 : NodeSnapshot.t) : html (M unit) :=
  El "section" [Cls (js "node-title-row")] [
    El "div" [] [
      El "span" [Cls (js "status-pill");
          Cls (if PublicNode.online (NodeSnapshot.node snapshot0) then js "online" else js "offline")] [
        El "i" [] [];
        Text (if PublicNode.online (NodeSnapshot.node snapshot0) then text l (js "在线") (js "Online") else text l (js "离线") (js
            "Offline"))];
      El "h1" [] [Text (PublicNode.name (NodeSnapshot.node snapshot0))];
      El "p" [] [
        Text (or_else (PublicNode.public_remark (NodeSnapshot.node snapshot0)) ((or_else (PublicNode.os (NodeSnapshot.node
            snapshot0)) (text l (js "未知系统") (js "Unknown OS")) ++ js " · " ++ or_else (PublicNode.arch
            (NodeSnapshot.node snapshot0)) (js "—"))%list))]];
    El "div" [Cls (js "node-title-meta")] [
      El "span" [] [Text ((js "ID " ++ PublicNode.id (NodeSnapshot.node snapshot0))%list)];
      El "span" [] [
        Text ((text l (js "最后上报") (js "Last report") ++ js " " ++ relativeTime l now (or_option ((node_metric v) ≫=
            MetricSample.received_at) (PublicNode.last_seen_at (NodeSnapshot.node snapshot0))))%list)]]].

Definition readouts (l : AppLocale) (q : params) (now : num) (v : view) : html (M unit) :=
  El "section" [Cls (js "detail-readouts")] [
    El "div" [] [
      El "span" [] [Text (js "CPU")];
      El "strong" [] [
        Text (nullish ((fun x => toFixed x 1) <$> (MetricSample.cpu <$> (node_metric v))) (js "—"));
        El "small" [] [Text (js "%")]];
      El "MetricBar" [] [
        MetricBar_view l (Components.MetricBar.with_defaults [] (nullish (MetricSample.cpu <$> (node_metric v)) #0) None None
            None)]];
    El "div" [] [
      El "span" [] [Text (text l (js "内存") (js "Memory"))];
      El "strong" [] [Text (toFixed (memoryPercent (snapshot v)) 1); El "small" [] [Text (js "%")]];
      El "p" [] [
        Text ((bytes (MetricSample.memory_used <$> (node_metric v)) 1 ++ js " / " ++ bytes (MetricSample.memory_total <$>
            (node_metric v)) 1)%list)]];
    El "div" [] [
      El "span" [] [Text (text l (js "磁盘") (js "Storage"))];
      El "strong" [] [Text (toFixed (diskPercent (snapshot v)) 1); El "small" [] [Text (js "%")]];
      El "p" [] [
        Text ((bytes (MetricSample.disk_used <$> (node_metric v)) 1 ++ js " / " ++ bytes (MetricSample.disk_total <$>
            (node_metric v)) 1)%list)]];
    El "div" [] [
      El "span" [] [Text (text l (js "运行时间") (js "Uptime"))];
      El "strong" [Cls (js "compact")] [Text (duration l (MetricSample.uptime_seconds <$> (node_metric v)))];
      El "p" [] [
        Text (text l (((match MetricSample.processes <$> (node_metric v) with Some x => toString x | None => js "—" end) ++ js
            " 个进程")%list) (((match MetricSample.processes <$> (node_metric v) with Some x => toString x | None => js "—"
            end) ++ js " processes")%list))]]].

Definition telemetry (l : AppLocale) (q : params) (now : num) (v : view) (snapshot0 : NodeSnapshot.t) : html (M unit) :=
  El "section" [Cls (js "telemetry-grid")] [
    El "div" [Cls (js "chart-panel wide")] [
      El "div" [Cls (js "panel-label")] [
        El "span" [] [Text (text l (js "资源使用率") (js "Resource utilization"))];
        El "div" [Cls (js "legend")] [
          El "i" [Cls (js "cpu")] [];
          Text (js "CPU ");
          El "i" [Cls (js "mem")] [];
          Text ((text l (js "内存") (js "MEM") ++ js " ")%list);
          El "i" [Cls (js "disk")] [];
          Text (text l (js "磁盘") (js "DISK"))]];
      El "TimeSeriesChart" [] [
        TimeSeriesChart_view (TimeSeriesChart.mkProps (history_labels v) (map chart_series (resourceSeries l (history v))) (Some
            (js "%")) (Some #100) (Some (text l (js "CPU、内存和磁盘使用率历史") (js "CPU, memory, and disk utilization history"
            ))))]];
    El "div" [Cls (js "machine-panel")] [
      El "div" [Cls (js "panel-label")] [El "span" [] [Text (text l (js "系统信息") (js "System information"))]];
      El "dl" [] [
        El "div" [] [
          El "dt" [] [Text (js "CPU")];
          El "dd" [] [Text (or_else (PublicNode.cpu_name (NodeSnapshot.node snapshot0)) (js "—"))]];
        El "div" [] [
          El "dt" [] [Text (text l (js "核心") (js "Cores"))];
          El "dd" [] [
            Text (match PublicNode.cpu_cores (NodeSnapshot.node snapshot0) with Some x => if truthy_num x then toString x else
                js "—" | None => js "—" end)]];
        El "div" [] [
          El "dt" [] [Text (text l (js "内核") (js "Kernel"))];
          El "dd" [] [Text (or_else (PublicNode.kernel_version (NodeSnapshot.node snapshot0)) (js "—"))]];
        El "div" [] [
          El "dt" [] [Text (text l (js "虚拟化") (js "Virtualization"))];
          El "dd" [] [
            Text (or_else (PublicNode.virtualization (NodeSnapshot.node snapshot0)) (text l (js "未知") (js "Unknown")))]];
        El "div" [] [
          El "dt" [] [Text (text l (js "负载") (js "Load"))];
          El "dd" [] [
            Text (if bool_decide (is_Some (node_metric v)) then (nullish ((fun x => toFixed x 2) <$> (MetricSample.load1 <$>
                (node_metric v))) [] ++ js " / " ++ nullish ((fun x => toFixed x 2) <$> (MetricSample.load5 <$>
                (node_metric v))) [] ++ js " / " ++ nullish ((fun x => toFixed x 2) <$> (MetricSample.load15 <$>
                (node_metric v))) [])%list else js "—")]];
        El "div" [] [
          El "dt" [] [Text (text l (js "温度") (js "Temperature"))];
          El "dd" [] [
            Text (if match (node_metric v) ≫= MetricSample.temperature with Some x => truthy_num x | None => false end then
                (nullish ((fun x => toFixed x 1) <$> ((node_metric v) ≫= MetricSample.temperature)) [] ++ js "°C"
                )%list else js "—")]]]];
    El "div" [Cls (js "chart-panel wide")] [
      El "div" [Cls (js "panel-label")] [
        El "span" [] [Text (text l (js "网络吞吐") (js "Network throughput"))];
        El "b" [] [Text (js "MiB/s")]];
      El "TimeSeriesChart" [] [
        TimeSeriesChart_view (TimeSeriesChart.mkProps (history_labels v) (map chart_series (networkSeries l (history v))) None
            None (Some (text l (js "网络下载和上传历史") (js "Network download and upload history"))))]];
    El "div" [Cls (js "network-now")] [
      El "div" [] [
        El "span" [] [Text (text l (js "下载") (js "Download"))];
        El "strong" [] [Text ((js "↓ " ++ rate (MetricSample.net_rx_bps <$> (node_metric v)))%list)];
        El "small" [] [
          Text (text l ((js "累计 " ++ bytes (MetricSample.net_rx_bytes <$> (node_metric v)) 1)%list) ((bytes
              (MetricSample.net_rx_bytes <$> (node_metric v)) 1 ++ js " total")%list))]];
      El "div" [] [
        El "span" [] [Text (text l (js "上传") (js "Upload"))];
        El "strong" [] [Text ((js "↑ " ++ rate (MetricSample.net_tx_bps <$> (node_metric v)))%list)];
        El "small" [] [
          Text (text l ((js "累计 " ++ bytes (MetricSample.net_tx_bytes <$> (node_metric v)) 1)%list) ((bytes
              (MetricSample.net_tx_bytes <$> (node_metric v)) 1 ++ js " total")%list))]];
      El "div" [] [
        El "span" [] [Text (text l (js "连接数") (js "Connections"))];
        El "strong" [] [
          Text (((match MetricSample.tcp_connections <$> (node_metric v) with Some x => toString x | None => js "—" end) ++ js
              " TCP")%list)];
        El "small" [] [
          Text (((match MetricSample.udp_connections <$> (node_metric v) with Some x => toString x | None => js "—" end) ++ js
              " UDP")%list)]]]].

Definition carrier_section (l : AppLocale) (q : params) (now : num) (v : view) : html (M unit) :=
  El "section" [Cls (js "inventory-section carrier-latency-section")] [
    El "div" [Cls (js "section-heading compact-heading")] [
      El "div" [] [
        El "span" [Cls (js "section-number")] [Text (js "02")];
        El "h2" [] [Text (text l (js "三网延迟") (js "Carrier latency"))];
        El "p" [] [
          Text (text l ((js "当前服务器主动连接三网测试目标 · 最近 " ++ toString (hours v) ++ js " 小时")%list) ((js
              "Measured outbound by this server · last " ++ toString (hours v) ++ js " hours")%list))]]];
    El "div" [Cls (js "carrier-grid")] [
      Frag (map (fun probe =>
        El "article" [Key (KeyN (ProbeTask.id (PublicProbeSnapshot.task probe)));
            Attr "data-carrier" (carrierKey (ProbeTask.purpose (PublicProbeSnapshot.task probe)))] [
          El "header" [] [
            El "div" [] [
              El "span" [] [Text (carrierName l (ProbeTask.purpose (PublicProbeSnapshot.task probe)))];
              El "small" [] [
                Text ((toUpperCase (type_str (ProbeTask.type (PublicProbeSnapshot.task probe))) ++ js " · " ++ toString
                    (ProbeTask.samples (PublicProbeSnapshot.task probe)) ++ js " " ++ text l (js "次/轮") (js
                    "samples"))%list)]];
            El "i" [Cls (js "status-dot");
                Cls (if nullish (ProbeResult.success <$> (latestProbe (PublicProbeSnapshot.results probe))) false then js "online" else if bool_decide (is_Some (latestProbe (PublicProbeSnapshot.results probe))) then js "offline" else [])] []];
          El "strong" [] [
            Text (if nullish (ProbeResult.success <$> (latestProbe (PublicProbeSnapshot.results probe))) false then nullish
                ((fun x => toFixed x 1) <$> (ProbeResult.latency_ms <$> (latestProbe (PublicProbeSnapshot.results
                probe)))) [] else js "—");
            El "small" [] [Text (js " ms")]];
          El "footer" [] [
            El "span" [] [Text ((text l (js "丢包") (js "Loss") ++ js " " ++ toFixed (carrierLoss probe) 1 ++ js "%")%list)];
            El "span" [] [Text ((toString (ProbeTask.interval_seconds (PublicProbeSnapshot.task probe)) ++ js "s")%list)]]]) (carrierProbes v))];
    El "div" [Cls (js "carrier-history")] [
      El "div" [Cls (js "panel-label")] [
        El "span" [] [Text (text l (js "三网延迟历史") (js "Carrier latency history"))];
        El "div" [Cls (js "legend")] [
          Frag (map (fun probe =>
            Frag [
              El "i" [Style "background" (carrierColor (ProbeTask.purpose (PublicProbeSnapshot.task probe)));
                  Key (KeyN (ProbeTask.id (PublicProbeSnapshot.task probe)))] [];
              Text (carrierName l (ProbeTask.purpose (PublicProbeSnapshot.task probe)))]) (carrierProbes v))]];
      if negb (Nat.eqb (length ((carrier_chart l v).1)) 0) then
        El "TimeSeriesChart" [] [
          TimeSeriesChart_view (TimeSeriesChart.mkProps ((carrier_chart l v).1) (map chart_series (carrier_chart l v).2) (Some
              (js " ms")) None (Some (text l (js "中国电信、中国联通和中国移动延迟历史") (js
              "China Telecom, Unicom, and Mobile latency history"))))]
      else 
        El "div" [Cls (js "carrier-empty")] [
          Text (text l (js "等待第一轮测量结果，通常不超过 2 分钟。") (js
              "Waiting for the first measurement round; this normally takes under two minutes."))]];
    El "p" [Cls (js "carrier-note")] [
      Text (text l (js "测量由 Agent 主动发起，不要求此节点具有公网 IP，也不会向节点下发脚本。") (js
          "Measurements are initiated by the Agent; no public IP or remotely supplied script is required."))]].

Definition disks_section (l : AppLocale) (q : params) (now : num) (v : view) : html (M unit) :=
  El "section" [Cls (js "inventory-section")] [
    El "div" [Cls (js "section-heading compact-heading")] [
      El "div" [] [
        El "span" [Cls (js "section-number")] [Text (js "03")];
        El "h2" [] [Text (text l (js "磁盘卷") (js "Storage volumes"))]]];
    El "div" [Cls (js "inventory-table")] [
      El "div" [Cls (js "inventory-row heading")] [
        El "span" [] [Text (text l (js "挂载点") (js "Mount"))];
        El "span" [] [Text (text l (js "文件系统") (js "Filesystem"))];
        El "span" [] [Text (text l (js "容量") (js "Capacity"))];
        El "span" [] [Text (text l (js "读取 / 写入") (js "Read / write"))]];
      Frag (map (fun disk =>
        El "div" [Key (KeyS (DiskMetric.mountpoint disk)); Cls (js "inventory-row")] [
          El "b" [] [Text (DiskMetric.mountpoint disk)];
          El "span" [] [Text (or_else (DiskMetric.filesystem disk) (js "—"))];
          El "span" [] [
            Text ((bytes (Some (DiskMetric.used disk)) 1 ++ js " / " ++ bytes (Some (DiskMetric.total disk)) 1)%list)];
          El "span" [] [Text ((rate (DiskMetric.read_bps disk) ++ js " / " ++ rate (DiskMetric.write_bps disk))%list)]]) (nullish ((node_metric v) ≫= MetricSample.disks) []))]].

Definition gpus_section (l : AppLocale) (q : params) (now : num) (v : view) : html (M unit) :=
  El "section" [Cls (js "inventory-section")] [
    El "div" [Cls (js "section-heading compact-heading")] [
      El "div" [] [El "span" [Cls (js "section-number")] [Text (js "04")]; El "h2" [] [Text (js "GPU")]]];
    El "div" [Cls (js "gpu-grid")] [
      Frag (map (fun gpu =>
        El "article" [Key (KeyN (GPUMetric.index gpu))] [
          El "span" [] [Text ((js "GPU " ++ toString (GPUMetric.index gpu))%list)];
          El "h3" [] [Text (GPUMetric.name gpu)];
          El "strong" [] [Text (toFixed (GPUMetric.utilization gpu) 1); El "small" [] [Text (js "%")]];
          El "p" [] [
            Text ((bytes (GPUMetric.memory_used gpu) 1 ++ js " / " ++ bytes (GPUMetric.memory_total gpu) 1 ++ js " VRAM · " ++
                (if match GPUMetric.temperature gpu with Some x => truthy_num x | None => false end then (nullish
                ((fun x => toFixed x 1) <$> (GPUMetric.temperature gpu)) [] ++ js "°C")%list else text l (js
                "无温度传感器") (js "No temperature sensor")))%list)]]) (nullish ((node_metric v) ≫= MetricSample.gpus) []))]].

Definition probes_section (l : AppLocale) (q : params) (now : num) (v : view) : html (M unit) :=
  El "section" [Cls (js "inventory-section")] [
    El "div" [Cls (js "section-heading compact-heading")] [
      El "div" [] [
        El "span" [Cls (js "section-number")] [Text (js "05")];
        El "h2" [] [Text (text l (js "服务探测") (js "Service probes"))];
        El "p" [] [
          Text (text l ((js "最近 " ++ toString (hours v) ++ js " 小时")%list) ((js "Last " ++ toString (hours v) ++ js " hours"
              )%list))]]];
    El "div" [Cls (js "probe-grid")] [
      Frag (map (fun probe =>
        El "article" [Key (KeyN (ProbeTask.id (PublicProbeSnapshot.task probe)))] [
          El "header" [] [
            El "span" [Cls (js "status-dot");
                Cls (if nullish (ProbeResult.success <$> (latestProbe (PublicProbeSnapshot.results probe))) false then js "online" else js "offline")] [];
            El "div" [] [
              El "b" [] [Text (ProbeTask.name (PublicProbeSnapshot.task probe))];
              El "small" [] [
                Text ((toUpperCase (type_str (ProbeTask.type (PublicProbeSnapshot.task probe))) ++ js " · " ++ toString
                    (ProbeTask.interval_seconds (PublicProbeSnapshot.task probe)) ++ js "s")%list)]]];
          El "strong" [] [
            Text (nullish ((fun x => toFixed x 1) <$> (ProbeResult.latency_ms <$> (latestProbe (PublicProbeSnapshot.results
                probe)))) (js "—"));
            El "small" [] [Text (js " ms")]];
          El "footer" [] [
            El "span" [] [
              Text ((toFixed (probeAvailability (PublicProbeSnapshot.results probe)) 2 ++ js "% " ++ text l (js "可用") (js
                  "available"))%list)];
            El "span" [] [
              Text (text l ((toString (of_nat (length (PublicProbeSnapshot.results probe))) ++ js " 个样本")%list) ((toString
                  (of_nat (length (PublicProbeSnapshot.results probe))) ++ js " samples")%list))]]]) (probes v))]].

Definition traffic_section (l : AppLocale) (q : params) (now : num) (v : view) (snapshot0 : NodeSnapshot.t) (metric0 : MetricSample.t) : html (M unit) :=
  El "section" [Cls (js "traffic-strip"); Attr "data-tone" (usage_tone_str (trafficTone (snapshot v)))] [
    El "div" [] [
      El "span" [] [
        Text ((text l (js "本月流量") (js "Monthly traffic") ++ js " / " ++ toUpperCase (PublicNode.traffic_limit_type
            (NodeSnapshot.node snapshot0)))%list)];
      El "strong" [] [
        Text (bytes (Some (trafficUsed (snapshot v))) 1);
        if truthy_num (PublicNode.traffic_limit (NodeSnapshot.node snapshot0)) then
          El "small" [] [Text ((js " / " ++ bytes (Some (PublicNode.traffic_limit (NodeSnapshot.node snapshot0))) 1)%list)]
        else Nothing];
      El "small" [Cls (js "traffic-breakdown")] [
        Text ((js "↓ " ++ bytes (MetricSample.monthly_rx_bytes metric0) 1 ++ js " · ↑ " ++ bytes (MetricSample.monthly_tx_bytes
            metric0) 1)%list)]];
    if truthy_num (PublicNode.traffic_limit (NodeSnapshot.node snapshot0)) then
      El "div" [Cls (js "traffic-gauge"); Attr "role" (js "meter");
          Attr "aria-label" (text l (js "月流量配额使用率") (js "Monthly traffic quota used")); Attr "aria-valuemin" (js "0");
          Attr "aria-valuemax" (js "100"); Attr "aria-valuenow" (toString (round (trafficPercent (snapshot v))))] [
        El "i" [Style "width" ((toString (trafficPercent (snapshot v)) ++ js "%")%list)] []]
    else Nothing;
    El "div" [Cls (js "traffic-policy")] [
      El "span" [] [
        Text (text l ((js "每月 UTC " ++ toString (if truthy_num (PublicNode.traffic_reset_day (NodeSnapshot.node snapshot0)) then
            PublicNode.traffic_reset_day (NodeSnapshot.node snapshot0) else #1) ++ js " 日重置")%list) ((js
            "Reset on UTC day " ++ toString (if truthy_num (PublicNode.traffic_reset_day (NodeSnapshot.node snapshot0))
            then PublicNode.traffic_reset_day (NodeSnapshot.node snapshot0) else #1))%list))];
      El "b" [] [
        Text (if truthy_num (PublicNode.traffic_limit (NodeSnapshot.node snapshot0)) then text l ((js "已用 " ++ toFixed
            (trafficPercent (snapshot v)) 1 ++ js "%")%list) ((toFixed (trafficPercent (snapshot v)) 1 ++ js "% used"
            )%list) else text l (js "未设置配额") (js "No quota"))]]].

Definition billing_section (l : AppLocale) (q : params) (now : num) (v : view) (snapshot0 : NodeSnapshot.t) : html (M unit) :=
  El "section" [Cls (js "billing-strip")] [
    El "span" [] [Text (text l (js "计费") (js "Billing"))];
    if truthy_num (PublicNode.price (NodeSnapshot.node snapshot0)) then
      El "b" [] [
        Text ((PublicNode.currency (NodeSnapshot.node snapshot0) ++ js " " ++ toString (PublicNode.price (NodeSnapshot.node
            snapshot0)) ++ js " / " ++ toString (PublicNode.billing_cycle_days (NodeSnapshot.node snapshot0)) ++ text l
            (js "天") (js "d"))%list)]
    else Nothing;
    if truthy (nullish (PublicNode.expires_at (NodeSnapshot.node snapshot0)) []) then
      El "b" [] [
        Text ((text l (js "到期") (js "Expires") ++ js " ")%list);
        text_or_raise (dateTime formatDate l (PublicNode.expires_at (NodeSnapshot.node snapshot0)))]
    else Nothing;
    El "b" [] [
      Text (if PublicNode.auto_renewal (NodeSnapshot.node snapshot0) then text l (js "自动续费") (js "Auto renewal") else text l (js
          "手动续费") (js "Manual renewal"))]].

Definition page_view (l : AppLocale) (q : params) (now : num) (v : view) : html (M unit) :=
  El "div" [Cls (js "public-layout node-detail-layout")] [
    El "PublicHeader" [] [];
    match snapshot v with
    | Some snapshot0 =>
        El "main" [Cls (js "node-detail km-page-instance")] [
          El "RouterLink" [Cls (js "back-link");
              Attr "to" (if truthy (nullish (shareToken q) []) then (js "/share/" ++ nullish (shareToken q) [])%list else js "/")] [
            Text ((js "← " ++ text l (js "返回节点列表") (js "Back to nodes"))%list)];
          title_row l q now v snapshot0;
          readouts l q now v;
          telemetry l q now v snapshot0;
          if negb (Nat.eqb (length (carrierProbes v)) 0) then carrier_section l q now v else Nothing;
          if match length <$> ((node_metric v) ≫= MetricSample.disks) with Some x => negb (Nat.eqb x 0) | None => false end then
            disks_section l q now v
          else Nothing;
          if match length <$> ((node_metric v) ≫= MetricSample.gpus) with Some x => negb (Nat.eqb x 0) | None => false end then
            gpus_section l q now v
          else Nothing;
          if negb (Nat.eqb (length (probes v)) 0) then probes_section l q now v else Nothing;
          match node_metric v with Some metric0 => traffic_section l q now v snapshot0 metric0 | None => Nothing end;
          if (truthy_num (PublicNode.price (NodeSnapshot.node snapshot0))) || (truthy (nullish (PublicNode.expires_at (NodeSnapshot.node snapshot0)) [])) then
            billing_section l q now v snapshot0
          else Nothing;
          El "div" [Cls (js "window-switch")] [
            El "span" [] [Text (text l (js "历史范围") (js "History window"))];
            Frag (map (fun value =>
              El "button" [Key (KeyN value); ClsIf "active" (eqb (hours v) value); On "click" (changeWindow l q value)] [
                Text (if (value <? #24)%num then (toString value ++ text l (js "小时") (js "h"))%list else (toString ((value /
                    #24)%num) ++ text l (js "天") (js "d"))%list)]) ([ #1; #6; #24; #168; #720]))]]
    | None => El "main" [Cls (js "center-state")] [
        if loading v then
          El "div" [Cls (js "radar-loader")] []
        else 
          Frag [
            El "h1" [] [Text (text l (js "节点不可用") (js "Node unavailable"))];
            El "p" [] [Text (error v)];
            El "RouterLink" [
                Attr "to" (if truthy (nullish (shareToken q) []) then (js "/share/" ++ nullish (shareToken q) [])%list else js "/")] [
              Text (text l (js "返回节点列表") (js "Return to nodes"))]]]
    end].

(** ** What the page offers *)

Lemma node_page_events l q now v : acts (event q) (page_view l q now v).
Proof.
  unfold page_view, title_row, readouts, telemetry, carrier_section, disks_section, gpus_section, probes_section, traffic_section,
    billing_section.
  view_acts; constructor.
Qed.

(** ** A change of the window that fails *)

(** The answer to the requests of a load. *)
Definition failing (env : Env) (q : params) (h : num) (e : exn) : Prop := forall v : view, result (exec env (gather q h) v) = inr e /\ final (exec env (gather q h) v) = v.

Lemma exec_changeWindow (env : Env) l q h e v : failing env q h e ->
  final (exec env (changeWindow l q h) v)
  = set_loading false (set_error (reason_message e (text l (js "无法加载节点。") (js "Could not load node."))) (set_error [] (set_loading true (set_hours h v)))).
Proof.
  intros Hf. unfold changeWindow, load. rewrite exec_bind. cbn [exec modify result final]. cbn zeta. rewrite exec_bind. cbn [exec modify result final].
  cbn zeta. rewrite exec_finally. cbn zeta. rewrite exec_try_catch, exec_bind. cbn [exec get result final]. cbn zeta. rewrite exec_bind. cbn zeta.
  change (hours (set_error [] (set_loading true (set_hours h v)))) with h. destruct (Hf (set_error [] (set_loading true (set_hours h v)))) as [Hr Hs].
  rewrite Hr. cbn [result final]. by rewrite Hs.
Qed.

(** The buttons of the page: one for each window, the selected one active. *)
Definition window_label (l : AppLocale) (value : num) : jsstr :=
  if (value <? #24)%num then (toString value ++ text l (js "小时") (js "h"))%list else (toString (value / #24)%num ++ text l (js "天") (js "d"))%list.

Definition window_button (l : AppLocale) (q : params) (hours value : num) : html (M unit) :=
  El "button" [Key (KeyN value); ClsIf "active" (eqb hours value); On "click" (changeWindow l q value)] [Text (window_label l value)].

Lemma page_buttons l q now v s : snapshot v = Some s ->
  elements "button" (page_view l q now v) = map (window_button l q (hours v)) [ #1; #6; #24; #168; #720].
Proof.
  intros Hs. unfold page_view. rewrite Hs. elements_compute.
  unfold title_row, readouts, telemetry, carrier_section, disks_section, gpus_section, probes_section, traffic_section, billing_section,
    MetricBar_view, TimeSeriesChart_view. elements_compute.
  destruct (node_metric v); elements_compute; reflexivity.
Qed.

(** A change of the history window that fails on a page that shows its node
    is invisible: the page goes on showing the node and the history of the old
    window, marks the new window as the one selected, and does not show the error
    anywhere, since its markup has a place for it only when there is no node. *)
Theorem failed_window_looks_current (env : Env) l q now h e v s : snapshot v = Some s -> failing env q h e ->
  let v' := final (exec env (changeWindow l q h) v) in
  history v' = history v /\ history_hours v' = history_hours v /\ hours v' = h /\
  error v' = reason_message e (text l (js "无法加载节点。") (js "Could not load node.")) /\
  elements "button" (page_view l q now v') = map (window_button l q h) [ #1; #6; #24; #168; #720] /\
  page_view l q now v' = page_view l q now (set_hours h (set_loading false (set_error [] v))).
Proof.
  intros Hs Hf. cbn zeta. rewrite (exec_changeWindow env l q h e v Hf). split_and!; try done.
  - by rewrite (page_buttons l q now _ s).
  - unfold page_view. cbn [snapshot set_loading set_error set_hours set_status]. by rewrite Hs.
Qed.

End View.

(** The server answers nothing. *)
Definition offline : Env := fun r =>
  match r with
  | GetShare _ | GetNode _ | GetHistory _ _ _ => inr (OtherError (js "Failed to fetch"))
  | GetProbes _ _ _ => inl (inl [])
  end.

Lemma failed_window_looks_current_witness :
  let q := mkParams (js "a") None in
  let v := set_data (Some (Monitor.a_node (js "a"))) [Monitor.a_sample (js "24")] [] [] (Some (#24)) (init (#0)) in
  history_hours (final (exec offline (@changeWindow en_US q (#720)) v)) = Some (#24).
Proof.
  intros q v. apply (@failed_window_looks_current small_unicode step_log utc_host (fun _ _ => []) (fun _ => []) offline en_US q (#0) (#720)
    (OtherError (js "Failed to fetch")) v (Monitor.a_node (js "a")) eq_refl). intros w. split; reflexivity.
Defined.
