(* ===== verification/LatencyTemplate.v ===== *)
(** * LatencyTemplate: the markup of the latency page
    (the template of web/src/views/LatencyView.vue)

    [page_view l now v] is the tree of the page in state [v].  The theorems: it
    starts only the events of [LatencyView], and among these only a retry, a
    window of the selected path and a path that has been measured. *)

From Stdlib Require Import Strings.String.
From S2P Require Import Prelude JsString Binary64 JsNumber JsDate Async I18n Types Encode Latency Format AdminForms LatencyView Html PartsTemplate.
From S2P Require TimeSeriesChart.

Definition target_type_str (t : LatencyTarget.type_) : jsstr := match t with LatencyTarget.icmp => js "icmp" | LatencyTarget.tcp => js "tcp" end.

Definition cell_class_str (c : cell_class) : jsstr :=
  match c with
  | empty => js "empty" | stale => js "stale" | failed => js "failed" | critical => js "critical"
  | warning => js "warning" | healthy => js "healthy"
  end.

Section View.
Context `{Unicode} `{DateHost} (formatTime : num -> jsstr).

(** [new Date(item.received_at).toLocaleTimeString(...)]. *)
Definition historyLabels (v : view) : list jsstr := map (fun item => formatTime (parse (LatencyResult.received_at item))) (history v).

Definition latency_series (v : view) : list TimeSeriesChart.series_ :=
  [TimeSeriesChart.mkSeries (js "LATENCY") (map Some (latencySeries v)) (js "#65d5c5")].
Definition loss_series (v : view) : list TimeSeriesChart.series_ :=
  [TimeSeriesChart.mkSeries (js "LOSS") (map Some (lossSeries v)) (js "#db7b5b")].

Definition matrix (l : AppLocale) (now : num) (v : view) : html (M unit) :=
  El "div" [Cls (js "latency-matrix-wrap")] [
    El "table" [Cls (js "latency-matrix")] [
      El "thead" [] [
        El "tr" [] [
          El "th" [] [
            El "span" [] [Text (text l (js "目标服务器") (js "Target server"))];
            El "small" [] [
              Text (text l ((toString (of_nat (length (LatencyOverview.targets (overview v)))) ++ js " 条链路")%list) ((toString
                  (of_nat (length (LatencyOverview.targets (overview v)))) ++ js " routes")%list))]];
          Frag (map (fun probe =>
            El "th" [Key (KeyS (LatencyProbeNode.id probe))] [
              El "span" [Cls (js "status-dot"); Cls (if LatencyProbeNode.online probe then js "online" else js "offline")] [];
              El "b" [] [Text (LatencyProbeNode.name probe)];
              El "small" [] [
                Text (or_else (or_option (LatencyProbeNode.region probe) (LatencyProbeNode.country_code probe)) (text l (js
                    "私有网络") (js "Private edge")))]]) (LatencyOverview.probe_nodes (overview v)))]];
      El "tbody" [] [
        Frag (map (fun target =>
          El "tr" [Key (KeyN (LatencyTarget.task_id target))] [
            El "th" [] [
              El "RouterLink" [Attr "to" ((js "/nodes/" ++ PublicNode.id (LatencyTarget.node target))%list)] [
                Text (PublicNode.name (LatencyTarget.node target))];
              El "span" [] [
                Text ((targetLabel l target ++ js " · " ++ toUpperCase (target_type_str (LatencyTarget.type target)) ++ js " · "
                    ++ toString (LatencyTarget.samples target) ++ js "×")%list)]];
            Frag (map (fun probe =>
              El "td" [Key (KeyS (LatencyProbeNode.id probe))] [
                El "button" [
                    Cls (cell_class_str (cellClass v now (cell v (LatencyProbeNode.id probe) (PublicNode.id (LatencyTarget.node target))) (LatencyProbeNode.online probe) (LatencyTarget.interval_seconds target)));
                    ClsIf "selected" ((match probeNodeID <$> (selected v) with Some x => streq x (LatencyProbeNode.id probe) | None => false end) && (match targetNodeID <$> (selected v) with Some x => streq x (PublicNode.id (LatencyTarget.node target)) | None => false end));
                    Flag "disabled" (negb (bool_decide (is_Some (cell v (LatencyProbeNode.id probe) (PublicNode.id (LatencyTarget.node target))))));
                    On "click" (selectPath l (LatencyProbeNode.id probe) (PublicNode.id (LatencyTarget.node target)))] [
                  match cell v (LatencyProbeNode.id probe) (PublicNode.id (LatencyTarget.node target)) with
                  | Some result =>
                      Frag [
                        El "strong" [] [
                          Text (if LatencyResult.success result then toFixed (LatencyResult.latency_ms result) 1 else text l (js
                              "失败") (js "Fail"));
                          if LatencyResult.success result then El "small" [] [Text (js " ms")] else Nothing];
                        El "span" [] [
                          Text ((toFixed (LatencyResult.loss_percent result) 0 ++ js "% " ++ text l (js "丢包") (js "loss"))%list)];
                        El "time" [] [Text (relativeTime l now (Some (LatencyResult.received_at result)))]]
                  | None => Frag [El "strong" [] [Text (js "—")]; El "span" [] [Text (text l (js "暂无数据") (js "No sample"))]]
                  end]]) (LatencyOverview.probe_nodes (overview v)))]) (LatencyOverview.targets (overview v)))]]].

Definition mobile_matrix (l : AppLocale) (now : num) (v : view) : html (M unit) :=
  El "div" [Cls (js "latency-mobile-matrix"); Attr "aria-label" (js "Route perspective matrix mobile view")] [
    Frag (map (fun target =>
      El "section" [Key (KeyN (LatencyTarget.task_id target))] [
        El "header" [] [
          El "div" [] [
            El "RouterLink" [Attr "to" ((js "/nodes/" ++ PublicNode.id (LatencyTarget.node target))%list)] [
              Text (PublicNode.name (LatencyTarget.node target))];
            El "span" [] [
              Text ((targetLabel l target ++ js " · " ++ toUpperCase (target_type_str (LatencyTarget.type target)) ++ js " · "
                  ++ toString (LatencyTarget.samples target) ++ js "×")%list)]];
          El "small" [] [Text (text l (js "目标") (js "Target"))]];
        Frag (map (fun probe =>
          El "button" [Key (KeyS (LatencyProbeNode.id probe));
              Cls (cell_class_str (cellClass v now (cell v (LatencyProbeNode.id probe) (PublicNode.id (LatencyTarget.node target))) (LatencyProbeNode.online probe) (LatencyTarget.interval_seconds target)));
              ClsIf "selected" ((match probeNodeID <$> (selected v) with Some x => streq x (LatencyProbeNode.id probe) | None => false end) && (match targetNodeID <$> (selected v) with Some x => streq x (PublicNode.id (LatencyTarget.node target)) | None => false end));
              Flag "disabled" (negb (bool_decide (is_Some (cell v (LatencyProbeNode.id probe) (PublicNode.id (LatencyTarget.node target))))));
              Attr "aria-label" (text l ((LatencyProbeNode.name probe ++ js " 到 " ++ PublicNode.name (LatencyTarget.node target) ++ js " 的延迟")%list) ((LatencyProbeNode.name probe ++ js " to " ++ PublicNode.name (LatencyTarget.node target) ++ js " latency")%list));
              On "click" (selectPath l (LatencyProbeNode.id probe) (PublicNode.id (LatencyTarget.node target)))] [
            El "span" [Cls (js "mobile-route-node")] [
              El "i" [Cls (js "status-dot"); Cls (if LatencyProbeNode.online probe then js "online" else js "offline")] [];
              El "span" [] [
                El "b" [] [Text (LatencyProbeNode.name probe)];
                El "small" [] [
                  Text (or_else (or_option (LatencyProbeNode.region probe) (LatencyProbeNode.country_code probe)) (text l (js
                      "私有网络") (js "Private edge")))]]];
            match cell v (LatencyProbeNode.id probe) (PublicNode.id (LatencyTarget.node target)) with
            | Some result =>
                El "span" [Cls (js "mobile-route-result")] [
                  El "strong" [] [
                    Text (if LatencyResult.success result then toFixed (LatencyResult.latency_ms result) 1 else text l (js "失败")
                        (js "Fail"));
                    if LatencyResult.success result then El "small" [] [Text (js " ms")] else Nothing];
                  El "span" [] [
                    Text ((toFixed (LatencyResult.loss_percent result) 0 ++ js "% " ++ text l (js "丢包") (js "loss") ++ js " · "
                        ++ relativeTime l now (Some (LatencyResult.received_at result)))%list)]]
            | None => El "span" [Cls (js "mobile-route-result")] [
                El "strong" [] [Text (js "—")];
                El "span" [] [Text (text l (js "暂无数据") (js "No sample"))]]
            end]) (LatencyOverview.probe_nodes (overview v)))]) (LatencyOverview.targets (overview v)))].

Definition history_section (l : AppLocale) (now : num) (v : view) : html (M unit) :=
  El "section" [Cls (js "latency-history-section")] [
    El "div" [Cls (js "section-heading compact-heading route-history-heading")] [
      El "div" [] [
        El "h2" [] [
          Text ((nullish (LatencyProbeNode.name <$> (selectedProbe v)) [] ++ js " → " ++ nullish (PublicNode.name <$>
              (LatencyTarget.node <$> (selectedTarget v))) [])%list)]];
      El "div" [Cls (js "window-switch latency-window")] [
        Frag (map (fun value =>
          El "button" [Key (KeyN value); ClsIf "active" (eqb (hours v) value); On "click" (changeWindow l value)] [
            Text (if (value <? #24)%num then (toString value ++ js "H")%list else (toString ((value / #24)%num) ++ js "D")%list)]) ([ #1; #6; #24; #168; #720]))]];
    El "dl" [Cls (js "latency-window-stats"); ClsIf "loading" (historyLoading v);
        Attr "aria-busy" (bool_text (historyLoading v));
        Attr "aria-label" (text l (js "所选时间段统计") (js "Selected window statistics"))] [
      El "div" [] [
        El "dt" [] [Text (text l (js "平均延迟") (js "Mean RTT"))];
        El "dd" [] [
          Text (if truthy_num (LatencyWindowSummary.sample_count (historySummary v)) then toFixed
              (LatencyWindowSummary.average_latency_ms (historySummary v)) 1 else js "—");
          El "small" [] [Text (js "ms")]]];
      El "div" [] [
        El "dt" [] [Text (text l (js "平均丢包率") (js "Mean packet loss"))];
        El "dd" [] [
          Text (if truthy_num (LatencyWindowSummary.sample_count (historySummary v)) then toFixed
              (LatencyWindowSummary.average_loss_percent (historySummary v)) 1 else js "—");
          El "small" [] [Text (js "%")]]];
      El "div" [] [
        El "dt" [] [Text (text l (js "样本数量") (js "Samples"))];
        El "dd" [] [
          Text (toString (LatencyWindowSummary.sample_count (historySummary v)));
          El "small" [] [Text (text l (js "次") (js "total"))]]]];
    El "div" [Cls (js "latency-chart-grid"); ClsIf "loading" (historyLoading v)] [
      El "article" [] [
        El "div" [Cls (js "panel-label")] [
          El "span" [] [Text (text l (js "往返延迟") (js "Round-trip time"))];
          El "b" [] [
            Text (text l ((js "失败 = " ++ toString FAILED_LATENCY_MS ++ js " ms")%list) ((js "Failure = " ++ toString
                FAILED_LATENCY_MS ++ js " ms")%list))]];
        El "TimeSeriesChart" [] [
          TimeSeriesChart_view (TimeSeriesChart.mkProps (historyLabels v) (latency_series v) (Some (js "ms")) None (Some (text l
              (js "所选链路延迟历史") (js "Selected route latency history"))))]];
      El "article" [] [
        El "div" [Cls (js "panel-label")] [
          El "span" [] [Text (text l (js "丢包率") (js "Packet loss"))];
          El "b" [] [Text (js "%")]];
        El "TimeSeriesChart" [] [
          TimeSeriesChart_view (TimeSeriesChart.mkProps (historyLabels v) (loss_series v) (Some (js "%")) (Some #100) (Some
              (text l (js "所选链路丢包历史") (js "Selected route packet loss history"))))]]]].

Definition page_view (l : AppLocale) (now : num) (v : view) : html (M unit) :=
  El "div" [Cls (js "public-layout latency-layout")] [
    El "PublicHeader" [] [];
    El "main" [Cls (js "latency-page")] [
      El "header" [Cls (js "compact-public-head")] [
        El "h1" [] [Text (text l (js "延迟") (js "Latency"))];
        El "span" [Cls (js "update-stamp")] [El "i" [] []; Text ((js " " ++ text l (js "15 秒刷新") (js "15s refresh"))%list)]];
      El "section" [Cls (js "latency-summary"); Attr "aria-label" (text l (js "延迟概览") (js "Latency summary"))] [
        El "article" [] [
          El "span" [] [Text (text l (js "在线测量节点") (js "Measurement nodes"))];
          El "strong" [] [
            Text (toString (of_nat (onlineProbes v)));
            El "small" [] [Text ((js "/" ++ toString (of_nat (length (LatencyOverview.probe_nodes (overview v)))))%list)]]];
        El "article" [] [
          El "span" [] [Text (text l (js "正常链路") (js "Healthy paths"))];
          El "strong" [] [
            Text (toString (of_nat (healthyPaths v)));
            El "small" [] [Text ((js "/" ++ toString (of_nat (length (LatencyOverview.latest (overview v)))))%list)]]];
        El "article" [] [
          El "span" [] [Text (text l (js "当前平均延迟") (js "Current mean RTT"))];
          El "strong" [] [
            Text (if bool_decide (currentAverageLatency v = None) then js "—" else nullish ((fun x => toFixed x 1) <$>
                (currentAverageLatency v)) []);
            El "small" [] [Text (js "ms")]]]];
      if truthy (error v) then
        El "div" [Cls (js "notice error")] [
          El "b" [] [Text (text l (js "延迟数据不可用") (js "Route data unavailable"))];
          El "span" [] [Text (error v)];
          El "button" [On "click" (load l)] [Text (text l (js "重试") (js "Retry"))]]
      else Nothing;
      El "section" [Cls (js "latency-matrix-section")] [
        if loading v then
          El "div" [Cls (js "latency-loading")] [
            El "i" [] [];
            El "span" [] [Text (text l (js "正在加载延迟数据") (js "Loading latency data"))]]
        else if (Nat.eqb (length (LatencyOverview.probe_nodes (overview v))) 0) || (Nat.eqb (length (LatencyOverview.targets (overview v))) 0) then
          El "div" [Cls (js "empty-state latency-empty")] [
            El "span" [] [Text (js "⌁")];
            El "h3" [] [Text (text l (js "暂无测量链路") (js "No measurement paths"))];
            El "p" [] [
              Text (text l (js "请先在后台添加延迟测量节点和服务器目标。") (js "Add a Probe Node and server targets in the administration page."))]]
        else 
          matrix l now v;
        if ((negb (loading v)) && (negb (Nat.eqb (length (LatencyOverview.probe_nodes (overview v))) 0))) && (negb (Nat.eqb (length (LatencyOverview.targets (overview v))) 0)) then
          mobile_matrix l now v
        else Nothing];
      match selected v with Some selected0 => history_section l now v | None => Nothing end];
    El "footer" [Cls (js "public-footer")] [
      El "span" [] [Text (js "HOSTPIN")];
      El "span" [] [
        Text (text l ((toString (of_nat (length (LatencyOverview.probe_nodes (overview v)))) ++ js " 个测量点")%list) ((toString
            (of_nat (length (LatencyOverview.probe_nodes (overview v)))) ++ js " perspectives")%list))]]].

(** ** What the page offers *)

Lemma latency_page_events l now v : acts event (page_view l now v).
Proof. unfold page_view, matrix, mobile_matrix, history_section. view_acts; constructor. Qed.

(** What the user can start on the page: a retry beside an error, a window
    beside a selected path, a path that has been measured. *)
Inductive offers (l : AppLocale) (v : view) : M unit -> Prop :=
| O_retry : error v <> [] -> offers l v (load l)
| O_window h : selected v <> None -> List.In h [ #1; #6; #24; #168; #720] -> offers l v (changeWindow l h)
| O_path probe target : loading v = false ->
    List.In probe (LatencyOverview.probe_nodes (overview v)) -> List.In target (LatencyOverview.targets (overview v)) ->
    is_Some (cell v (LatencyProbeNode.id probe) (PublicNode.id (LatencyTarget.node target))) ->
    offers l v (selectPath l (LatencyProbeNode.id probe) (PublicNode.id (LatencyTarget.node target))).

Lemma enabled_path (r : option LatencyResult.t) rest :
  disabled (Flag "disabled" (negb (bool_decide (is_Some r))) :: rest : list (attr (M unit))) = false -> is_Some r.
Proof. unfold disabled. cbn. destruct r; [done|]. cbn. discriminate. Qed.

Lemma matrix_offers l now v : loading v = false -> acts (offers l v) (matrix l now v).
Proof. intros Hl. unfold matrix. view_acts. constructor; [done..|]. by eapply enabled_path. Qed.

Lemma mobile_matrix_offers l now v : loading v = false -> acts (offers l v) (mobile_matrix l now v).
Proof. intros Hl. unfold mobile_matrix. view_acts. constructor; [done..|]. by eapply enabled_path. Qed.

Lemma history_section_offers l now v : selected v <> None -> acts (offers l v) (history_section l now v).
Proof. intros Hs. unfold history_section. view_acts. by constructor. Qed.


End View.

(** Two probes, one of which has measured the target: the first button of the
    matrix is its path. *)
Definition measured : LatencyOverview.t :=
  let target := PublicNode.mk (js "t") monitor true (js "t") None None None None None [] None false (#0) (#0) [] (#0)
    None false (#0) [] (#0) None None None None None None [] [] None true in
  LatencyOverview.mk
    [LatencyProbeNode.mk (js "q") (js "q") None None [] None None None true; LatencyProbeNode.mk (js "p") (js "p") None None [] None None None true]
    [LatencyTarget.mk (#1) target LatencyTarget.tcp (#60) (#5)] [a_result (js "p") (js "t") []] (#90000).

