(* ===== verification/AdminSettingsTemplate.v ===== *)
(** * AdminSettingsTemplate: the markup of the settings page
    (the template of web/src/components/admin/AdminSettings.vue)

    [view l p] is the tree of the page in state [p]; its larger parts are
    definitions of their own.  The theorems say what can be started from it, that
    everything it starts is an [event] of [AdminSettings], and when it shows the
    plaintext of a temporary PIN. *)

From Stdlib Require Import Strings.String.
From S2P Require Import Prelude JsString Binary64 JsNumber JsDate Async I18n Types Format Encode Decode AdminForms AdminSettings Html Updates.

#[local] Existing Instance TemporaryEnrollmentPIN.status_eq_dec.

Section View.
Context `{DateHost} (formatDate : AppLocale -> num -> jsstr).

Definition site_section (l : AppLocale) (p : page) (settings0 : SiteSettings.t) : html (M unit) :=
  El "section" [Attr "id" (js "site"); Cls (js "settings-section")] [
    El "header" [] [
      El "b" [] [Text (js "01")];
      El "div" [] [
        El "h2" [] [Text (text l (js "站点信息") (js "Site identity"))];
        El "p" [] [Text (text l (js "公开显示的名称、说明和自定义 HTML。") (js "Public name, description, and optional custom HTML."))]]];
    El "div" [Cls (js "form-grid")] [
      El "label" [] [
        El "span" [] [Text (text l (js "站点名称") (js "Site name"))];
        El "input" [Model jsstr (SiteSettings.name settings0) (fun v => edit_settings (fun x => set_SiteSettings_name v x))] []];
      El "label" [Cls (js "wide")] [
        El "span" [] [Text (text l (js "站点说明") (js "Description"))];
        El "textarea" [
            Model jsstr (SiteSettings.description settings0) (fun v => edit_settings (fun x => set_SiteSettings_description v x));
            Attr "rows" (js "3")] []];
      El "label" [Cls (js "wide")] [
        El "span" [] [Text (text l (js "自定义 HEAD HTML") (js "Custom head HTML"))];
        El "textarea" [
            Model jsstr (nullish (SiteSettings.custom_head settings0) []) (fun v => edit_settings (fun x => set_SiteSettings_custom_head (Some v) x));
            Attr "rows" (js "4"); Attr "spellcheck" (js "false")] []];
      El "label" [Cls (js "wide")] [
        El "span" [] [Text (text l (js "自定义 BODY HTML") (js "Custom body HTML"))];
        El "textarea" [
            Model jsstr (nullish (SiteSettings.custom_body settings0) []) (fun v => edit_settings (fun x => set_SiteSettings_custom_body (Some v) x));
            Attr "rows" (js "4"); Attr "spellcheck" (js "false")] []]]].

Definition privacy_section (l : AppLocale) (p : page) (settings0 : SiteSettings.t) : html (M unit) :=
  El "section" [Attr "id" (js "privacy"); Cls (js "settings-section")] [
    El "header" [] [
      El "b" [] [Text (js "02")];
      El "div" [] [
        El "h2" [] [Text (text l (js "可见性") (js "Visibility"))];
        El "p" [] [Text (text l (js "设置公开访问和历史记录。") (js "Configure public access and history recording."))]]];
    El "div" [Cls (js "toggle-stack")] [
      El "label" [] [
        El "input" [
            Model bool (SiteSettings.private settings0) (fun v => edit_settings (fun x => set_SiteSettings_private v x));
            Attr "type" (js "checkbox")] [];
        El "span" [] [
          El "b" [] [Text (text l (js "私有站点") (js "Private site"))];
          El "small" [] [Text (text l (js "查看状态前必须登录管理员账号。") (js "Require administrator authentication for status pages."))]]];
      El "label" [] [
        El "input" [
            Model bool (SiteSettings.record_enabled settings0) (fun v => edit_settings (fun x => set_SiteSettings_record_enabled v x));
            Attr "type" (js "checkbox")] [];
        El "span" [] [
          El "b" [] [Text (text l (js "保存历史指标") (js "Persistent history"))];
          El "small" [] [Text (text l (js "按保留策略存储降采样指标。") (js "Store downsampled metrics according to retention."))]]];
      El "label" [] [
        El "input" [
            Model bool (SiteSettings.enrollment_enabled settings0) (fun v => edit_settings (fun x => set_SiteSettings_enrollment_enabled v x));
            Attr "type" (js "checkbox")] [];
        El "span" [] [
          El "b" [] [Text (text l (js "允许 PIN 注册") (js "PIN enrollment enabled"))];
          El "small" [] [Text (text l (js "关闭后，已注册节点仍可继续上报。") (js "Existing Agents continue reporting when disabled."))]]]]].

Definition retention_section (l : AppLocale) (p : page) (settings0 : SiteSettings.t) : html (M unit) :=
  El "section" [Attr "id" (js "retention"); Cls (js "settings-section")] [
    El "header" [] [
      El "b" [] [Text (js "03")];
      El "div" [] [
        El "h2" [] [Text (text l (js "历史保留") (js "Retention"))];
        El "p" [] [Text (text l (js "延长保留期不会补回已经清理的数据。") (js "Increasing retention cannot restore removed data."))]]];
    El "div" [Cls (js "retention-grid")] [
      El "label" [] [
        El "span" [] [Text (text l (js "原始数据（小时）") (js "Raw data (hours)"))];
        El "input" [
            Model num (SiteSettings.raw_retention_hours settings0) (fun v => edit_settings (fun x => set_SiteSettings_raw_retention_hours v x));
            Attr "type" (js "number"); Attr "min" (js "24")] [];
        El "small" [] [Text (text l (js "60 秒数据点") (js "60-second points"))]];
      El "label" [] [
        El "span" [] [Text (text l (js "5 分钟聚合（小时）") (js "5-minute data (hours)"))];
        El "input" [
            Model num (SiteSettings.five_minute_retention_hours settings0) (fun v => edit_settings (fun x => set_SiteSettings_five_minute_retention_hours v x));
            Attr "type" (js "number"); Attr "min" (js "24")] [];
        El "small" [] [Text (text l (js "默认 90 天") (js "Default 90 days"))]];
      El "label" [] [
        El "span" [] [Text (text l (js "1 小时聚合（小时）") (js "Hourly data (hours)"))];
        El "input" [
            Model num (SiteSettings.hourly_retention_hours settings0) (fun v => edit_settings (fun x => set_SiteSettings_hourly_retention_hours v x));
            Attr "type" (js "number"); Attr "min" (js "24")] [];
        El "small" [] [Text (text l (js "默认 365 天") (js "Default 365 days"))]]]].

Definition location_section (l : AppLocale) (p : page) (settings0 : SiteSettings.t) : html (M unit) :=
  El "section" [Attr "id" (js "location"); Cls (js "settings-section")] [
    El "header" [] [
      El "b" [] [Text (js "04")];
      El "div" [] [
        El "h2" [] [Text (text l (js "位置与主题源") (js "Location and theme sources"))];
        El "p" [] [Text (text l (js "手动设置的节点位置始终优先。") (js "Manual node location always takes priority."))]]];
    El "div" [Cls (js "form-grid")] [
      El "label" [Cls (js "switch-line")] [
        El "input" [
            Model bool (SiteSettings.geoip_enabled settings0) (fun v => edit_settings (fun x => set_SiteSettings_geoip_enabled v x));
            Attr "type" (js "checkbox")] [];
        El "span" [] [Text (text l (js "注册或公网 IP 变化时查询位置") (js "Resolve location on enrollment or public IP change"))]];
      El "label" [Cls (js "wide")] [
        El "span" [] [Text (text l (js "位置服务 URL（使用 {ip}）") (js "Provider URL (use {ip})"))];
        El "input" [
            Model jsstr (SiteSettings.geoip_provider settings0) (fun v => edit_settings (fun x => set_SiteSettings_geoip_provider v x))] []];
      El "label" [Cls (js "wide")] [
        El "span" [] [Text (text l (js "主题市场源（每行一个 URL）") (js "Theme market sources (one URL per line)"))];
        El "textarea" [Model jsstr (sources p) (fun v => modify (set_sources v)); Attr "rows" (js "3")] []]]].

Definition temporary_pin_status (l : AppLocale) (p : page) (temporaryPIN0 : TemporaryEnrollmentPIN.t) : html (M unit) :=
  El "article" [Cls (js "temporary-pin-status");
      Attr "data-status" (match effectiveTemporaryStatus p with Some x => pin_status_str x | None => [] end)] [
    El "header" [] [
      El "span" [] [Text (text l (js "当前临时凭据") (js "Current temporary credential"))];
      El "b" [] [Text (temporaryStatusLabel l p)]];
    if truthy (temporaryPINPlain p) then
      El "div" [Cls (js "temporary-pin-secret")] [
        El "code" [Attr "data-testid" (js "temporary-pin-value")] [Text (temporaryPINPlain p)];
        El "button" [Attr "type" (js "button"); On "click" (copyTemporaryPIN l)] [
          Text (if temporaryCopied p then text l (js "已复制") (js "Copied") else text l (js "复制") (js "Copy"))]]
    else if bool_decide (effectiveTemporaryStatus p = Some TemporaryEnrollmentPIN.active) then
      El "p" [] [
        Text (text l (js "明文已离开当前页面，不能再次查看；需要时请重新生成。") (js "The plaintext is no longer available; generate a new PIN if needed."
            ))]
    else Nothing;
    El "dl" [] [
      El "div" [] [
        El "dt" [] [Text (text l (js "状态") (js "Status"))];
        El "dd" [] [
          Text (temporaryStatusLabel l p);
          if truthy (temporaryRemaining l p) then El "small" [] [Text (temporaryRemaining l p)] else Nothing]];
      El "div" [] [
        El "dt" [] [Text (text l (js "到期时间") (js "Expires"))];
        El "dd" [] [text_or_raise (dateTime formatDate l (Some (TemporaryEnrollmentPIN.expires_at temporaryPIN0)))]];
      El "div" [] [
        El "dt" [] [Text (text l (js "用途") (js "Use"))];
        El "dd" [] [Text (text l (js "仅注册 1 台新节点") (js "One new node only"))]]];
    El "footer" [] [
      El "small" [] [Text ((text l (js "ID") (js "ID") ++ js " " ++ slice (TemporaryEnrollmentPIN.id temporaryPIN0) 0 8)%list)];
      if canRevokeTemporaryPIN p then
        El "button" [Attr "type" (js "button"); Flag "disabled" (temporaryBusy p); On "click" (revokeTemporaryPIN l)] [
          Text (text l (js "立即撤销") (js "Revoke now"))]
      else Nothing]].

Definition temporary_pin_block (l : AppLocale) (p : page) : html (M unit) :=
  El "section" [Cls (js "temporary-pin-block")] [
    El "header" [] [
      El "div" [] [
        El "b" [] [Text (text l (js "临时 PIN") (js "Temporary PIN"))];
        El "small" [] [
          Text (text l (js "成功注册 1 台节点后失效，明文只显示一次。") (js "Expires after one successful enrollment; plaintext is shown once."))]];
      El "span" [] [Text (js "ONE USE")]];
    El "div" [Cls (js "temporary-pin-controls")] [
      El "label" [] [
        El "span" [] [Text (text l (js "有效时间") (js "Validity"))];
        El "select" [Model num (temporaryMinutes p) (fun v => modify (set_minutes v))] [
          El "option" [Attr "value" (toString #10)] [Text ((js "10 " ++ text l (js "分钟") (js "minutes"))%list)];
          El "option" [Attr "value" (toString #30)] [Text ((js "30 " ++ text l (js "分钟") (js "minutes"))%list)];
          El "option" [Attr "value" (toString #60)] [Text ((js "1 " ++ text l (js "小时") (js "hour"))%list)];
          El "option" [Attr "value" (toString #360)] [Text ((js "6 " ++ text l (js "小时") (js "hours"))%list)];
          El "option" [Attr "value" (toString #1440)] [Text ((js "24 " ++ text l (js "小时") (js "hours"))%list)]]];
      El "button" [Attr "type" (js "button"); Cls (js "primary-action compact-action"); Flag "disabled" (temporaryBusy p);
          On "click" (createTemporaryPIN l)] [
        Text (if temporaryBusy p then text l (js "处理中…") (js "Working…") else if bool_decide (is_Some (temporaryPIN p)) then
            text l (js "重新生成") (js "Generate new") else text l (js "生成临时 PIN") (js "Generate temporary PIN"))]];
    match temporaryPIN p with
    | Some temporaryPIN0 =>
        temporary_pin_status l p temporaryPIN0
    | None => El "div" [Cls (js "temporary-pin-empty")] [Text (text l (js "当前没有临时 PIN。") (js "No temporary PIN exists."))]
    end].

Definition enrollment_section (l : AppLocale) (p : page) : html (M unit) :=
  El "section" [Attr "id" (js "enrollment"); Cls (js "settings-section enrollment-settings")] [
    El "header" [] [
      El "b" [] [Text (js "05")];
      El "div" [] [
        El "h2" [] [Text (text l (js "节点注册") (js "Node enrollment"))];
        El "p" [] [
          Text (text l (js "长期 PIN 与一次性临时 PIN 互不影响。") (js "The permanent PIN and one-use temporary PIN work independently."))]]];
    El "div" [Cls (js "enrollment-pin-tools")] [
      El "section" [Cls (js "permanent-pin-block")] [
        El "header" [] [
          El "div" [] [
            El "b" [] [Text (text l (js "长期 PIN") (js "Permanent PIN"))];
            El "small" [] [Text (text l (js "更换后不会影响已经签发的节点凭据。") (js "Rotation does not affect existing node credentials."))]];
          El "span" [] [Text (js "PRIMARY")]];
        El "form" [Cls (js "inline-pin-form"); On "submit.prevent" (rotatePIN l)] [
          El "label" [] [
            El "span" [] [Text (text l (js "新 PIN（6–64 位）") (js "New PIN (6–64 characters)"))];
            El "input" [Model jsstr (newPIN p) (fun v => modify (set_newPIN v)); Attr "type" (js "password");
                Attr "minlength" (js "6"); Attr "maxlength" (js "64"); Flag "required" true] []];
          El "button" [Cls (js "secondary-action")] [Text (text l (js "更换 PIN") (js "Rotate PIN"))]]];
      temporary_pin_block l p]].

Definition view (l : AppLocale) (p : page) : html (M unit) :=
  El "section" [Cls (js "admin-page")] [
    El "header" [Cls (js "page-title")] [
      El "div" [] [
        El "span" [Cls (js "eyebrow")] [Text (text l (js "站点设置") (js "Site settings"))];
        El "h1" [] [Text (text l (js "系统设置") (js "System settings"))];
        El "p" [] [Text (text l (js "管理站点、可见性、历史保留和节点注册。") (js "Manage the site, visibility, retention, and enrollment."))]];
      El "button" [Cls (js "primary-action compact-action"); On "click" (save l)] [
        Text (text l (js "保存设置") (js "Save settings"))]];
    if truthy (status p) then
      El "div" [Cls (js "notice success")] [El "b" [] [Text (text l (js "已保存") (js "Saved"))]; El "span" [] [Text (status p)]]
    else Nothing;
    if truthy (error p) then
      El "div" [Cls (js "notice error")] [El "b" [] [Text (text l (js "操作失败") (js "Failed"))]; El "span" [] [Text (error p)]]
    else Nothing;
    if nullish (SiteSettings.enrollment_pin_weak <$> (settings p)) false then
      El "div" [Cls (js "notice warning")] [
        El "b" [] [Text (text l (js "注册 PIN 强度较弱") (js "Weak enrollment PIN"))];
        El "span" [] [
          Text (text l (js "建议改用 12 位以上随机字符，或限制可注册的来源网段。") (js
              "Use 12 or more random characters, or restrict enrollment source networks."))]]
    else Nothing;
    match settings p with
    | Some settings0 =>
        El "div" [Cls (js "settings-layout")] [
          El "nav" [Cls (js "settings-index")] [
            El "a" [Attr "href" (js "#site")] [Text ((js "01 / " ++ text l (js "站点") (js "Site"))%list)];
            El "a" [Attr "href" (js "#privacy")] [Text ((js "02 / " ++ text l (js "可见性") (js "Privacy"))%list)];
            El "a" [Attr "href" (js "#retention")] [Text ((js "03 / " ++ text l (js "历史") (js "Retention"))%list)];
            El "a" [Attr "href" (js "#location")] [Text ((js "04 / " ++ text l (js "位置") (js "Location"))%list)];
            El "a" [Attr "href" (js "#enrollment")] [Text ((js "05 / " ++ text l (js "注册") (js "Enrollment"))%list)]];
          El "div" [Cls (js "settings-sections")] [
            site_section l p settings0;
            privacy_section l p settings0;
            retention_section l p settings0;
            location_section l p settings0;
            enrollment_section l p]]
    | None => Nothing
    end].

(** ** What the page offers *)

Lemma view_events l p : acts event (view l p).
Proof.
  unfold view, site_section, privacy_section, retention_section, location_section, enrollment_section, temporary_pin_block,
    temporary_pin_status.
  view_acts; constructor.
Qed.

(** ** The plaintext *)

Lemma status_plaintext l p t :
  marked "data-testid" (temporary_pin_status l p t) = if truthy (temporaryPINPlain p) then [[temporaryPINPlain p]] else [].
Proof. unfold temporary_pin_status. marked_compute. by destruct (truthy (temporaryPINPlain p)). Qed.

(** The texts the page shows as the value of a temporary PIN. *)
Definition shown_plaintexts (t : html (M unit)) : list (list jsstr) := marked "data-testid" t.

Lemma view_plaintext l p :
  shown_plaintexts (view l p)
  = match settings p, temporaryPIN p with
    | Some _, Some _ => if truthy (temporaryPINPlain p) then [[temporaryPINPlain p]] else []
    | _, _ => []
    end.
Proof.
  unfold shown_plaintexts, view. marked_compute. destruct (settings p) as [s|]; [|done].
  unfold site_section, privacy_section, retention_section, location_section, enrollment_section, temporary_pin_block. marked_compute.
  destruct (temporaryPIN p) as [t|]; marked_compute; [|done]. apply status_plaintext.
Qed.

(** What the host starts on its own: the load on mounting, the clock, the poll, the
    end of a copy's notice, unmounting. *)
Inductive on_its_own : M unit -> Prop :=
| Own_load l : on_its_own (load_site l)
| Own_pin l silent : on_its_own (loadTemporaryPIN l silent)
| Own_copied : on_its_own copied_expires
| Own_clock_ticks : on_its_own clock_ticks
| Own_status_ticks l : on_its_own (status_ticks l)
| Own_unmounted : on_its_own (modify stop_timers)
| Own_clock t : on_its_own (modify (fun p => set_clocks (clock p) t p)).

(** C7: through its own markup the page keeps its promise about one-time secrets:
    whatever the administrator clicks and types and whenever answers and timers
    arrive, everything the markup starts is an event of the page, and what the
    markup shows as a temporary PIN is nothing, or one text, which is the
    plaintext issued with the very PIN whose state is shown next to it. *)
Theorem plaintext_shown_for_its_pin l t c : ui_reachable (view l) on_its_own (mounted t) c ->
  reachable event (mounted t) c /\
  (shown_plaintexts (view l (store c)) = [] \/
   exists pin, temporaryPIN (store c) = Some pin /\ plain_of (store c) = Some (TemporaryEnrollmentPIN.id pin, temporaryPINPlain (store c)) /\
     shown_plaintexts (view l (store c)) = [[temporaryPINPlain (store c)]]).
Proof.
  intros Hr. assert (Hre : reachable event (mounted t) c).
  { apply (ui_reachable_reachable (view l) on_its_own event (mounted t) c); [intros s; apply view_events| |done].
    intros p []; constructor. }
  split; [done|]. destruct (page_ok_reachable t c Hre) as [Hp _]. rewrite view_plaintext.
  destruct (settings (store c)); [|by left]. destruct (temporaryPIN (store c)) as [pin|] eqn:Ep; [|by left].
  destruct (temporaryPINPlain (store c)) as [|x s] eqn:Es; [by left|]. right. exists pin. split_and!; [done| |done].
  destruct Hp as (pin' & [= <-] & ->); [done|]. done.
Qed.

End View.

(** The settings load, the button is clicked, the server answers. *)
Lemma plaintext_shown_for_its_pin_witness :
  let view := @view utc_host (fun _ _ => []) en_US in
  let loaded : Env := fun r =>
    match r with
    | GetSettings | PutSettings _ => inl a_site
    | PinLoaded | SessionRefresh | WriteClipboard _ => inl tt
    | PutPIN _ => inl false
    | PostTemporary _ => inl issued
    | GetTemporary | DeleteTemporary => inl None
    end in
  let c0 := answer_at loaded 0 (spawn (load_site en_US) (Config (mounted (#0)) [])) in
  let c := answer_at loaded 0 (spawn (createTemporaryPIN en_US) c0) in
  shown_plaintexts (view (store c)) = [[js "482913"]].
Proof.
  intros view loaded c0 c. destruct (@plaintext_shown_for_its_pin utc_host (fun _ _ => []) en_US (#0) c) as [_ [H|(pin & _ & _ & H)]].
  - eapply rtc_l; [apply Ui_host, (Own_load en_US)|].
    eapply rtc_l; [apply (ui_answer_at _ _ loaded 0); eexists; reflexivity|].
    eapply rtc_l; [apply Ui_offered, (offered_click _ 2); reflexivity|].
    eapply rtc_l; [apply (ui_answer_at _ _ loaded 0); eexists; reflexivity|apply rtc_refl].
  - vm_compute in H. discriminate.
  - refine (eq_trans H _). vm_compute. reflexivity.
Defined.
