(* ===== verification/AdminBackupsTemplate.v ===== *)
(** * AdminBackupsTemplate: the markup of the backup page
    (the template of web/src/components/admin/AdminBackups.vue)

    [view l f] is the tree of the page; the theorem says that, through it, at most
    one transfer is ever under way. *)

From Stdlib Require Import Strings.String.
From S2P Require Import Prelude JsString Binary64 JsNumber Async I18n Types Format AdminForms AdminBackups Html Mutex.

(** ** What the inputs write *)

Definition set_dragging (b : bool) (f : form) : form := set_file (backupFile f) b f.

Definition set_export (pw pp c : jsstr) (f : form) : form :=
  mkForm (backupStatus f) (busy f) (message f) (error f) pw pp c (importPassword f) (importPassphrase f) (restoreConfirmation f)
    (backupFile f) (dragging f) (restarting f) (downloads f) (assigned f).
Definition set_exportPassword (v : jsstr) (f : form) : form := set_export v (exportPassphrase f) (exportConfirmation f) f.
Definition set_exportPassphrase (v : jsstr) (f : form) : form := set_export (exportPassword f) v (exportConfirmation f) f.
Definition set_exportConfirmation (v : jsstr) (f : form) : form := set_export (exportPassword f) (exportPassphrase f) v f.

Definition set_import (pw pp c : jsstr) (f : form) : form :=
  mkForm (backupStatus f) (busy f) (message f) (error f) (exportPassword f) (exportPassphrase f) (exportConfirmation f) pw pp c
    (backupFile f) (dragging f) (restarting f) (downloads f) (assigned f).
Definition set_importPassword (v : jsstr) (f : form) : form := set_import v (importPassphrase f) (restoreConfirmation f) f.
Definition set_importPassphrase (v : jsstr) (f : form) : form := set_import (importPassword f) v (restoreConfirmation f) f.
Definition set_restoreConfirmation (v : jsstr) (f : form) : form := set_import (importPassword f) (importPassphrase f) v f.

Section View.
Context `{Unicode} `{MathLog}.

Definition status_strip (l : AppLocale) (f : form) (s : BackupStatus.t) : html (M unit) :=
  El "div" [Cls (js "backup-status-strip")] [
    El "div" [] [
      El "span" [] [Text (text l (js "数据库") (js "Database"))];
      El "b" [] [Text (driverLabel f)];
      El "small" [] [
        Text (if BackupStatus.available s then text l (js "支持在线快照") (js "Online snapshot ready") else text l (js "请使用数据库原生工具")
            (js "Use external database tools"))]];
    El "div" [] [
      El "span" [] [Text (text l (js "备份格式") (js "Backup format"))];
      El "b" [] [Text ((js "HPBK / V" ++ toString (BackupStatus.format_version s))%list)];
      El "small" [] [
        Text (if BackupStatus.encrypted s then js "ARGON2ID + AES-256-GCM" else text l (js "未加密") (js "Unencrypted"))]];
    El "div" [] [
      El "span" [] [Text (text l (js "最大导入大小") (js "Import limit"))];
      El "b" [] [Text (bytes (Some (BackupStatus.maximum_bytes s)) 1)];
      El "small" [] [Text (text l (js "解密后数据") (js "Decrypted payload"))]];
    El "div" [] [
      El "span" [] [Text (text l (js "主密钥") (js "Master key"))];
      El "b" [] [
        Text (if BackupStatus.external_master_key s then text l (js "外部提供") (js "External") else text l (js "文件保存") (js
            "File-backed"))];
      El "small" [] [
        Text (if BackupStatus.external_master_key s then text l (js "必须与备份一致") (js "Must match archive") else text l (js "随站点恢复"
            ) (js "Restored with site"))]]].

Definition postgres_guide (l : AppLocale) (f : form) : html (M unit) :=
  El "section" [Cls (js "postgres-backup-guide")] [
    El "header" [] [
      El "span" [] [Text (js "POSTGRESQL")];
      El "h2" [] [Text (text l (js "使用 PostgreSQL 原生备份") (js "Use native PostgreSQL backups"))];
      El "p" [] [
        Text (text l (js "PostgreSQL 模式不提供一键替换，请使用 pg_dump 和 pg_restore。") (js
            "One-click replacement is unavailable in PostgreSQL mode; use pg_dump and pg_restore."))]];
    El "div" [] [
      El "code" [] [Text ((js "pg_dump --format=custom --file hostpin.dump " ++ [34%N] ++ js "$HOSTPIN_DB_DSN" ++ [34%N])%list)];
      El "code" [] [
        Text ((js "pg_restore --clean --if-exists --dbname " ++ [34%N] ++ js "$HOSTPIN_DB_DSN" ++ [34%N] ++ js " hostpin.dump"
            )%list)]];
    El "p" [] [
      Text ((text l (js "同时单独备份 Hostpin 数据目录中的") (js "Also back up") ++ js " ")%list);
      El "code" [] [Text (js "master.key")];
      Text ((js " " ++ text l (js "和") (js "and") ++ js " ")%list);
      El "code" [] [Text (js "themes/")];
      Text (js "。")]].

Definition export_section (l : AppLocale) (f : form) : html (M unit) :=
  El "section" [Cls (js "backup-operation export-operation")] [
    El "header" [] [
      El "span" [] [Text ((js "01 / " ++ text l (js "导出") (js "Export"))%list)];
      El "div" [] [
        El "h2" [] [Text (text l (js "导出加密备份") (js "Export encrypted backup"))];
        El "p" [] [
          Text (text l (js "包含 SQLite 数据库、主密钥、主题文件和所有持久化设置。") (js
              "Includes the SQLite database, master key, themes, and all durable settings."))]]];
    El "div" [Cls (js "backup-payload-map"); Attr "aria-label" (text l (js "备份内容") (js "Backup contents"))] [
      El "span" [] [Text (js "SQLITE")];
      El "i" [] [Text (js "+")];
      El "span" [] [Text (js "MASTER.KEY")];
      El "i" [] [Text (js "+")];
      El "span" [] [Text (js "THEMES")];
      El "b" [] [Text ((js "→ " ++ text l (js "加密") (js "Encrypt"))%list)]];
    El "form" [Cls (js "backup-form"); On "submit.prevent" (exportBackup l)] [
      El "label" [] [
        El "span" [] [Text (text l (js "当前管理员密码") (js "Current admin password"))];
        El "input" [Model jsstr (exportPassword f) (fun v => modify (set_exportPassword v)); Attr "type" (js "password");
            Attr "autocomplete" (js "current-password"); Flag "required" true] []];
      El "label" [] [
        El "span" [] [Text (text l (js "备份口令（至少 12 位）") (js "Backup passphrase (12+)"))];
        El "input" [Model jsstr (exportPassphrase f) (fun v => modify (set_exportPassphrase v)); Attr "type" (js "password");
            Attr "autocomplete" (js "new-password"); Attr "minlength" (js "12"); Flag "required" true] [];
        El "small" [] [
          Text (text l (js "用于加密下载文件，Hostpin 不会保存此口令。") (js "This encrypts the download and is never stored by Hostpin."))]];
      El "label" [] [
        El "span" [] [Text (text l (js "再次输入备份口令") (js "Repeat backup passphrase"))];
        El "input" [Model jsstr (exportConfirmation f) (fun v => modify (set_exportConfirmation v));
            Attr "type" (js "password"); Attr "autocomplete" (js "new-password"); Attr "minlength" (js "12");
            Flag "required" true] [];
        if (truthy (exportConfirmation f)) && (negb (streq (exportPassphrase f) (exportConfirmation f))) then
          El "small" [Cls (js "field-error")] [Text (text l (js "两次口令不一致。") (js "Passphrases do not match."))]
        else Nothing];
      El "button" [Cls (js "primary-action"); Flag "disabled" (negb (canExport f))] [
        Text (if bool_decide (busy f = Exporting) then text l (js "正在生成备份…") (js "Creating backup…") else text l (js "导出加密备份")
            (js "Export encrypted backup"))]];
    El "footer" [] [
      El "b" [] [Text (text l (js "在线导出") (js "Online export"))];
      El "span" [] [Text (text l (js "导出期间探针可以继续上报。") (js "Agents continue reporting during export."))]]].

Definition restore_section (l : AppLocale) (f : form) : html (M unit) :=
  El "section" [Cls (js "backup-operation restore-operation")] [
    El "header" [] [
      El "span" [] [Text ((js "02 / " ++ text l (js "恢复") (js "Restore"))%list)];
      El "div" [] [
        El "h2" [] [Text (text l (js "导入并替换当前数据") (js "Import and replace"))];
        El "p" [] [
          Text (text l (js "替换前会验证加密、校验和、数据库结构和 SQLite 完整性。") (js
              "Encryption, checksums, schema, and SQLite integrity are verified before replacement."))]]];
    El "label" [Cls (js "file-drop backup-drop"); ClsIf "dragging" (dragging f);
        ClsIf "selected" (bool_decide (is_Some (backupFile f))); On "dragenter.prevent" (modify (set_dragging true));
        On "dragleave.prevent" (modify (set_dragging false));
        OnValue "drop.prevent" (list File) (fun files => modify (dropFile files))] [
      El "input" [Attr "type" (js "file"); Attr "accept" (js ".hostpin-backup,application/vnd.hostpin.backup");
          OnValue "change" (list File) (fun files => modify (selectFile files))] [];
      El "span" [] [
        Text (if bool_decide (is_Some (backupFile f)) then text l (js "已选择备份文件") (js "Backup loaded") else text l (js
            "拖入备份文件或点击选择") (js "Drop backup or click to select"))];
      El "b" [] [Text (or_else (file_name <$> backupFile f) (text l (js "未选择文件") (js "No file selected")))];
      El "small" [] [
        Text (if bool_decide (is_Some (backupFile f)) then bytes (file_size <$> (backupFile f)) 1 else text l (js
            "仅支持 .hostpin-backup 加密文件，不接受 ZIP") (js "Encrypted .hostpin-backup files only; ZIP is rejected"))]];
    El "form" [Cls (js "backup-form danger-form"); On "submit.prevent" (importBackup l)] [
      El "label" [] [
        El "span" [] [Text (text l (js "备份口令") (js "Backup passphrase"))];
        El "input" [Model jsstr (importPassphrase f) (fun v => modify (set_importPassphrase v)); Attr "type" (js "password");
            Attr "autocomplete" (js "off"); Attr "minlength" (js "12"); Flag "required" true] []];
      El "label" [] [
        El "span" [] [Text (text l (js "当前管理员密码") (js "Current admin password"))];
        El "input" [Model jsstr (importPassword f) (fun v => modify (set_importPassword v)); Attr "type" (js "password");
            Attr "autocomplete" (js "current-password"); Flag "required" true] []];
      El "label" [] [
        El "span" [] [Text (text l (js "输入 RESTORE 确认替换本站数据") (js "Type RESTORE to replace this site"))];
        El "input" [Model jsstr (restoreConfirmation f) (fun v => modify (set_restoreConfirmation v));
            Cls (js "restore-confirmation"); Attr "autocomplete" (js "off"); Attr "placeholder" (js "RESTORE");
            Flag "required" true] []];
      El "button" [Cls (js "primary-action danger-action"); Flag "disabled" (negb (canImport f))] [
        Text (if bool_decide (busy f = Importing) then text l (js "正在验证备份…") (js "Verifying backup…") else if restarting f then
            text l (js "正在重新加载…") (js "Reloading…") else text l (js "导入并替换") (js "Import and replace"))]];
    El "footer" [] [
      El "b" [] [Text (text l (js "保留回滚文件") (js "Rollback retained"))];
      El "span" [] [
        Text (text l (js "当前数据库、主密钥和主题会以带时间戳的恢复前文件保留。") (js
            "The current database, master key, and themes are kept as timestamped pre-restore files."))]]].

Definition transfer_grid (l : AppLocale) (f : form) : html (M unit) :=
  El "div" [Cls (js "backup-transfer-grid")] [export_section l f; restore_section l f].

Definition view (l : AppLocale) (f : form) : html (M unit) :=
  El "section" [Cls (js "admin-page backup-page")] [
    El "header" [Cls (js "page-title")] [
      El "div" [] [
        El "span" [Cls (js "eyebrow")] [Text (text l (js "数据迁移") (js "Data portability"))];
        El "h1" [] [Text (text l (js "备份与恢复") (js "Backup & restore"))];
        El "p" [] [
          Text (text l (js "导出加密备份，或从已验证的备份文件恢复整个站点。") (js
              "Export an encrypted backup or restore the entire site from a verified file."))]];
      El "span" [Cls (js "page-code")] [Text ((js "DB / " ++ driverLabel f)%list)]];
    if truthy (message f) then
      El "div" [Cls (js "notice success"); Attr "role" (js "status")] [
        El "b" [] [Text (text l (js "备份") (js "Backup"))];
        El "span" [] [Text (message f)]]
    else Nothing;
    if truthy (error f) then
      El "div" [Cls (js "notice error"); Attr "role" (js "alert")] [
        El "b" [] [Text (text l (js "备份") (js "Backup"))];
        El "span" [] [Text (error f)]]
    else Nothing;
    if nullish (BackupStatus.pending_restore <$> (backupStatus f)) false then
      El "div" [Cls (js "notice warning")] [
        El "b" [] [Text (text l (js "等待恢复") (js "Restore pending"))];
        El "span" [] [Text (text l (js "已验证的备份正在等待服务重新加载。") (js "A validated restore is waiting for the service reload."))]]
    else Nothing;
    match backupStatus f with Some s => status_strip l f s | None => Nothing end;
    if nullish (BackupStatus.available <$> (backupStatus f)) false then
      transfer_grid l f
    else match backupStatus f with Some s => postgres_guide l f | None => Nothing end;
    El "div" [Cls (js "backup-safety-ledger")] [
      El "span" [] [Text (text l (js "恢复影响") (js "Restore effects"))];
      El "b" [] [Text (text l (js "所有会话将被撤销") (js "All sessions revoked"))];
      El "b" [] [Text (text l (js "保留探针令牌") (js "Agent tokens preserved"))];
      El "b" [] [Text (text l (js "不替换配置和 TLS") (js "Config / TLS not replaced"))];
      El "b" [] [Text (text l (js "保留旧数据") (js "Previous data retained"))]]].

End View.

(** ** One transfer at a time *)

(** The calls only a transfer waits for: all but the status of the page. *)
Definition transfer (c : call Req) : bool := match c with One GetStatus => false | _ => true end.
Definition transferring (f : form) : bool := negb (bool_decide (busy f = Idle)).

Ltac working_prog := repeat first [working_step | progress unfold send]; try done; intros; assumption.

Lemma poll_working l n : working transferring (exactly transfer) (poll l n).
Proof. induction n as [|n IH]; cbn [poll]; repeat first [exact IH | working_step | progress unfold send]; try done; intros; assumption. Qed.

#[local] Hint Resolve poll_working : mutex_db.

Lemma waitForReload_working l : working transferring (exactly transfer) (waitForReload l).
Proof. unfold waitForReload. generalize 120%nat. intros n. working_prog. Qed.

#[local] Hint Resolve waitForReload_working : mutex_db.

Lemma export_obeys l f : obeys transferring (exactly transfer) (exportBackup l) false f f.
Proof.
  apply obeys_get. destruct (canExport f) eqn:E; [|apply obeys_ret].
  unfold canExport in E. rewrite !andb_true_iff, bool_decide_eq_true in E. destruct E as [_ E].
  apply operation_starts; [working_prog|done| |done]. unfold transferring. by rewrite E.
Qed.

Lemma import_obeys l f : obeys transferring (exactly transfer) (importBackup l) false f f.
Proof.
  apply obeys_get. destruct (backupFile f) as [file|]; [|apply obeys_ret]. destruct (canImport f) eqn:E; [|apply obeys_ret].
  unfold canImport in E. rewrite !andb_true_iff, bool_decide_eq_true in E. destruct E as [_ E].
  apply operation_starts; [working_prog|done| |done]. unfold transferring. by rewrite E.
Qed.

Lemma modify_bystander g : (forall f, busy (g f) = busy f) -> bystander transferring (exactly transfer) (modify g : M unit).
Proof. intros Hg. apply outside_bystander, outside_modify. intros f. unfold transferring. by rewrite Hg. Qed.

Lemma load_bystander l : bystander transferring (exactly transfer) (load l).
Proof. apply outside_bystander. unfold load. repeat first [outside_step | progress unfold send]; done. Qed.

Section Safety.
Context `{Unicode} `{MathLog}.

Lemma view_obeys l f : acts (fun p => obeys transferring (exactly transfer) p false f f) (view l f).
Proof.
  unfold view, status_strip, transfer_grid, export_section, restore_section, postgres_guide.
  view_acts; first [apply export_obeys|apply import_obeys|by apply modify_bystander].
Qed.

(** C10: within one visit of the backup page, from its opening on, whatever the
    administrator types and clicks and whenever the server and the timers answer,
    at most one transfer (an export, or an import with its wait for the reload) is
    under way, and one is exactly while the page is busy. *)
Theorem one_transfer_at_a_time l c : ui_reachable (view l) (eq (load l)) empty_form c ->
  length (under_way transfer (tasks c)) = if bool_decide (busy (store c) = Idle) then 0%nat else 1%nat.
Proof.
  intros Hr. rewrite (under_way_exactly transferring transfer).
  - unfold transferring. by destruct (bool_decide (busy (store c) = Idle)).
  - apply (ui_one_at_a_time transferring (exactly transfer) (view l) (eq (load l)) empty_form c); [apply view_obeys| |done|done].
    intros p <-. apply load_bystander.
Qed.

End Safety.

(** The status arrives, an export is filled in and started: its request is under
    way, alone. *)
Lemma one_transfer_at_a_time_witness :
  let available : BackupStatus.t := BackupStatus.mk (js "sqlite") true true (#1) false false (#1024) in
  let server : Env := fun r =>
    match r with
    | GetStatus => inl available
    | Export _ _ | Import _ _ _ _ | Readyz => inr NotAnError
    | Sleep _ => inl tt
    end in
  let c0 := answer_at server 0 (spawn (load en_US) (Config empty_form [])) in
  let c1 := spawn (modify (set_exportPassword (js "p"))) c0 in
  let c2 := spawn (modify (set_exportPassphrase (js "a long passphrase"))) c1 in
  let c3 := spawn (modify (set_exportConfirmation (js "a long passphrase"))) c2 in
  let c := spawn (exportBackup en_US) c3 in
  busy (store c) = Exporting /\ length (under_way transfer (tasks c)) = 1%nat.
Proof.
  intros available server c0 c1 c2 c3 c. split; [vm_compute; reflexivity|].
  refine (eq_trans (@one_transfer_at_a_time small_unicode step_log en_US c _) _); [|vm_compute; reflexivity].
  eapply rtc_l; [apply Ui_host; reflexivity|].
  eapply rtc_l; [apply (ui_answer_at _ _ server 0); eexists; reflexivity|].
  eapply rtc_l; [apply Ui_offered, (offered_field _ 0 jsstr (fun v => modify (set_exportPassword v)) (js "p")); reflexivity|].
  eapply rtc_l; [apply Ui_offered, (offered_field _ 1 jsstr (fun v => modify (set_exportPassphrase v)) (js "a long passphrase")); reflexivity|].
  eapply rtc_l; [apply Ui_offered, (offered_field _ 2 jsstr (fun v => modify (set_exportConfirmation v)) (js "a long passphrase")); reflexivity|].
  eapply rtc_l; [apply Ui_offered, (offered_click _ 0); reflexivity|apply rtc_refl].
Defined.
