(* ===== verification/AdminProbesTemplate.v ===== *)
(** * AdminProbesTemplate: the markup of the probe page
    (the template of web/src/components/admin/AdminProbes.vue) *)

From Stdlib Require Import Strings.String.
From S2P Require Import Prelude JsString Binary64 JsNumber Async I18n Types Encode AdminForms AdminProbes Html Updates Mutex.

#[local] Existing Instance ProbeTask.type_eq_dec.

(** A field of a drawer writes the edited task, if one is open. *)
Definition edit_editing (f : ProbeTask.t -> ProbeTask.t) : M unit := modify (fun p => set_editing (f <$> editing p) p).
Definition edit_carrierEditing (f : ProbeTask.t -> ProbeTask.t) : M unit := modify (fun p => set_carrierEditing (f <$> carrierEditing p) p).

Section View.
Context `{Unicode}.

Definition carrier_board (l : AppLocale) (p : page) : html (M unit) :=
  El "section" [Cls (js "carrier-admin-board")] [
    El "header" [] [
      El "div" [] [
        El "span" [] [Text (text l (js "内置测量") (js "Built-in measurements"))];
        El "h2" [] [Text (text l (js "三网延迟") (js "Carrier latency"))];
        El "p" [] [
          Text (text l (js "每台普通监控 Agent 主动连接电信、联通和移动测试目标；内网节点也可以测量。") (js
              "Every monitor Agent connects outward to Telecom, Unicom, and Mobile targets, including nodes behind NAT."
              ))]];
      El "b" [] [Text (js "3")]];
    El "div" [Cls (js "carrier-admin-grid")] [
      Frag (map (fun task =>
        El "article" [Key (KeyN (ProbeTask.id task)); Attr "data-carrier" (carrierKey task)] [
          El "header" [] [
            El "div" [] [
              El "span" [] [Text (carrierName l task)];
              El "small" [] [
                Text (if ProbeTask.enabled task then text l (js "正在测量") (js "Active") else text l (js "已暂停") (js "Paused"))]];
            El "i" [Cls (js "status-dot"); Cls (if ProbeTask.enabled task then js "online" else [])] []];
          El "code" [] [Text (ProbeTask.target task)];
          El "footer" [] [
            El "span" [] [
              Text ((toUpperCase (type_str (ProbeTask.type task)) ++ js " · " ++ toString (ProbeTask.samples task) ++ js " " ++
                  text l (js "次/轮") (js "samples") ++ js " · " ++ toString (ProbeTask.interval_seconds task) ++ js
                  "s")%list)];
            El "button" [On "click" (modify (editCarrier task))] [Text (text l (js "设置") (js "Configure"))]]]) (carrierTasks p))];
    El "p" [Cls (js "carrier-admin-note")] [
      Text (text l (js "默认使用 TCP 443，适合 ICMP 受限的主机；目标和协议均可修改。结果显示在每个节点的详情页。") (js
          "TCP 443 is the default for hosts where ICMP is restricted. Targets and protocols are editable, and results appear on each node detail page."
          ))]].

Definition probe_table (l : AppLocale) (p : page) : html (M unit) :=
  El "div" [Cls (js "data-table-wrap")] [
    El "table" [Cls (js "admin-table")] [
      El "thead" [] [
        El "tr" [] [
          El "th" [] [Text (text l (js "任务") (js "Check"))];
          El "th" [] [Text (text l (js "类型") (js "Type"))];
          El "th" [] [Text (text l (js "目标") (js "Target"))];
          El "th" [] [Text (text l (js "间隔") (js "Interval"))];
          El "th" [] [Text (text l (js "执行节点") (js "Assignment"))];
          El "th" [] []]];
      El "tbody" [] [
        Frag (map (fun task =>
          El "tr" [Key (KeyN (ProbeTask.id task))] [
            El "td" [] [
              El "b" [] [Text (ProbeTask.name task)];
              El "small" [] [Text ((js "#" ++ toString (ProbeTask.id task))%list)]];
            El "td" [] [El "span" [Cls (js "tag")] [Text (toUpperCase (type_str (ProbeTask.type task)))]];
            El "td" [] [El "code" [] [Text (ProbeTask.target task)]];
            El "td" [] [
              Text ((toString (ProbeTask.interval_seconds task) ++ js "s / " ++ (text l ((js "超时 " ++ toString
                  (ProbeTask.timeout_seconds task) ++ js "s")%list) ((toString (ProbeTask.timeout_seconds task) ++
                  js "s timeout")%list)))%list)];
            El "td" [] [
              Text (if match length <$> (ProbeTask.node_ids task) with Some x => negb (Nat.eqb x 0) | None => false end then
                  text l (((match length <$> (ProbeTask.node_ids task) with Some x => toString (of_nat x) | None
                  => [] end) ++ js " 个节点")%list) (((match length <$> (ProbeTask.node_ids task) with Some x =>
                  toString (of_nat x) | None => [] end) ++ js " nodes")%list) else text l (js "全部节点") (js
                  "All nodes"))];
            El "td" [Cls (js "row-actions")] [
              El "button" [On "click" (modify (edit task))] [Text (text l (js "编辑") (js "Edit"))];
              El "button" [Cls (js "danger"); OnValue "click" bool (fun confirmed => remove confirmed task)] [
                Text (text l (js "删除") (js "Delete"))]]]) (tasks p));
        if (Nat.eqb (length (tasks p)) 0) then
          El "tr" [] [
            El "td" [Attr "colspan" (js "6")] [
              El "div" [Cls (js "table-empty")] [Text (text l (js "还没有自定义服务探测。") (js "No custom service probes yet."))]]]
        else Nothing]]].

Definition carrier_drawer (l : AppLocale) (p : page) (edited : ProbeTask.t) : html (M unit) :=
  El "div" [Cls (js "modal-backdrop"); On "click.self" (modify (set_carrierEditing None))] [
    El "form" [Cls (js "drawer"); On "submit.prevent" (saveCarrier l)] [
      El "header" [] [
        El "div" [] [El "span" [] [Text (text l (js "三网延迟") (js "Carrier latency"))]; El "h2" [] [Text (carrierName l edited)]];
        El "button" [Attr "type" (js "button"); On "click" (modify (set_carrierEditing None))] [Text (js "×")]];
      El "div" [Cls (js "drawer-body")] [
        El "div" [Cls (js "form-grid")] [
          El "label" [] [
            El "span" [] [Text (text l (js "测量协议") (js "Probe protocol"))];
            El "select" [
                Model ProbeTask.type_ (ProbeTask.type edited) (fun v => edit_carrierEditing (fun x => set_ProbeTask_type v x))] [
              El "option" [Attr "value" (js "tcp")] [Text (js "TCP")];
              El "option" [Attr "value" (js "icmp")] [Text (js "ICMP")]]];
          El "label" [] [
            El "span" [] [Text (text l (js "每轮采样次数") (js "Samples per round"))];
            El "input" [
                Model num (ProbeTask.samples edited) (fun v => edit_carrierEditing (fun x => set_ProbeTask_samples v x));
                Attr "type" (js "number"); Attr "min" (js "1"); Attr "max" (js "10"); Flag "required" true] []];
          El "label" [Cls (js "wide")] [
            El "span" [] [Text (text l (js "测试目标") (js "Measurement target"))];
            El "input" [
                Model jsstr (ProbeTask.target edited) (fun v => edit_carrierEditing (fun x => set_ProbeTask_target v x));
                Flag "required" true;
                Attr "placeholder" (if bool_decide (ProbeTask.type edited = ProbeTask.tcp) then js "example.com:443" else js "example.com")] [];
            El "small" [] [
              Text (text l (js "TCP 使用 host:port；ICMP 只填写域名或 IP。") (js
                  "TCP uses host:port; ICMP uses only a hostname or IP address."))]];
          El "label" [] [
            El "span" [] [Text (text l (js "测量间隔（秒）") (js "Interval (seconds)"))];
            El "input" [
                Model num (ProbeTask.interval_seconds edited) (fun v => edit_carrierEditing (fun x => set_ProbeTask_interval_seconds v x));
                Attr "type" (js "number"); Attr "min" (js "5"); Attr "max" (js "86400"); Flag "required" true] []];
          El "label" [] [
            El "span" [] [Text (text l (js "单次超时（秒）") (js "Timeout per sample"))];
            El "input" [
                Model num (ProbeTask.timeout_seconds edited) (fun v => edit_carrierEditing (fun x => set_ProbeTask_timeout_seconds v x));
                Attr "type" (js "number"); Attr "min" (js "1"); Attr "max" (js "60"); Flag "required" true] []]];
        El "label" [Cls (js "switch-line")] [
          El "input" [
              Model bool (ProbeTask.enabled edited) (fun v => edit_carrierEditing (fun x => set_ProbeTask_enabled v x));
              Attr "type" (js "checkbox")] [];
          El "span" [] [Text (text l (js "启用这条三网测量") (js "Enable this carrier measurement"))]];
        if truthy (carrierError p) then El "div" [Cls (js "form-error")] [Text (carrierError p)] else Nothing];
      El "footer" [] [
        El "button" [Attr "type" (js "button"); On "click" (modify (set_carrierEditing None))] [
          Text (text l (js "取消") (js "Cancel"))];
        El "button" [Cls (js "primary-action"); Flag "disabled" (busy p)] [
          Text (if busy p then text l (js "正在保存…") (js "Saving…") else text l (js "保存设置") (js "Save settings"))]]]].

Definition probe_drawer (l : AppLocale) (p : page) (edited : ProbeTask.t) : html (M unit) :=
  El "div" [Cls (js "modal-backdrop"); On "click.self" (modify (set_editing None))] [
    El "form" [Cls (js "drawer"); On "submit.prevent" (save l)] [
      El "header" [] [
        El "div" [] [
          El "span" [] [Text (text l (js "服务探测") (js "Service probe"))];
          El "h2" [] [
            Text (if truthy_num (ProbeTask.id edited) then text l (js "编辑任务") (js "Edit probe") else text l (js "新建任务") (js
                "New probe"))]];
        El "button" [Attr "type" (js "button"); On "click" (modify (set_editing None))] [Text (js "×")]];
      El "div" [Cls (js "drawer-body")] [
        El "div" [Cls (js "form-grid")] [
          El "label" [Cls (js "wide")] [
            El "span" [] [Text (text l (js "名称") (js "Name"))];
            El "input" [Model jsstr (ProbeTask.name edited) (fun v => edit_editing (fun x => set_ProbeTask_name v x));
                Flag "required" true] []];
          El "label" [] [
            El "span" [] [Text (text l (js "类型") (js "Type"))];
            El "select" [
                Model ProbeTask.type_ (ProbeTask.type edited) (fun v => edit_editing (fun x => set_ProbeTask_type v x))] [
              El "option" [] [Text (js "icmp")];
              El "option" [] [Text (js "tcp")];
              El "option" [] [Text (js "http")];
              El "option" [] [Text (js "dns")]]];
          El "label" [Cls (js "wide")] [
            El "span" [] [Text (text l (js "目标") (js "Target"))];
            El "input" [Model jsstr (ProbeTask.target edited) (fun v => edit_editing (fun x => set_ProbeTask_target v x));
                Flag "required" true;
                Attr "placeholder" (if bool_decide (ProbeTask.type edited = ProbeTask.tcp) then js "host:port" else if bool_decide (ProbeTask.type edited = ProbeTask.http) then js "https://example.com/health" else js "example.com")] []];
          El "label" [] [
            El "span" [] [Text (text l (js "执行间隔（秒）") (js "Interval (seconds)"))];
            El "input" [
                Model num (ProbeTask.interval_seconds edited) (fun v => edit_editing (fun x => set_ProbeTask_interval_seconds v x));
                Attr "type" (js "number"); Attr "min" (js "5")] []];
          El "label" [] [
            El "span" [] [Text (text l (js "超时时间（秒）") (js "Timeout (seconds)"))];
            El "input" [
                Model num (ProbeTask.timeout_seconds edited) (fun v => edit_editing (fun x => set_ProbeTask_timeout_seconds v x));
                Attr "type" (js "number"); Attr "min" (js "1")] []];
          if bool_decide (ProbeTask.type edited = ProbeTask.http) then
            El "label" [] [
              El "span" [] [Text (text l (js "预期 HTTP 状态码") (js "Expected HTTP status"))];
              El "input" [
                  Model num (nullish (ProbeTask.expected_status edited) (#0)) (fun v => edit_editing (fun x => set_ProbeTask_expected_status (Some v) x));
                  Attr "type" (js "number"); Attr "min" (js "100"); Attr "max" (js "599")] []]
          else Nothing;
          El "label" [Cls (js "wide")] [
            El "span" [] [Text (text l (js "预期值（可选）") (js "Expected value (optional)"))];
            El "input" [
                Model jsstr (nullish (ProbeTask.expected_value edited) []) (fun v => edit_editing (fun x => set_ProbeTask_expected_value (Some v) x))] []];
          El "label" [Cls (js "wide")] [
            El "span" [] [Text (text l (js "执行节点") (js "Node assignment"))];
            El "select" [
                Model (list jsstr) (nullish (ProbeTask.node_ids edited) []) (fun v => edit_editing (fun x => set_ProbeTask_node_ids (Some v) x));
                Flag "multiple" true] [
              Frag (map (fun node =>
                El "option" [Key (KeyS (PublicNode.id (AdminNode.base node)));
                    Attr "value" (PublicNode.id (AdminNode.base node))] [
                  Text (PublicNode.name (AdminNode.base node))]) (nodes p))];
            El "small" [] [Text (text l (js "留空表示在全部监控节点上执行。") (js "Leave empty to assign every monitor node."))]]];
        El "label" [Cls (js "switch-line")] [
          El "input" [Model bool (ProbeTask.enabled edited) (fun v => edit_editing (fun x => set_ProbeTask_enabled v x));
              Attr "type" (js "checkbox")] [];
          El "span" [] [Text (text l (js "启用任务") (js "Probe enabled"))]];
        if truthy (error p) then El "div" [Cls (js "form-error")] [Text (error p)] else Nothing];
      El "footer" [] [
        El "button" [Attr "type" (js "button"); On "click" (modify (set_editing None))] [Text (text l (js "取消") (js "Cancel"))];
        El "button" [Cls (js "primary-action")] [Text (text l (js "保存任务") (js "Save probe"))]]]].

Definition view (l : AppLocale) (p : page) : html (M unit) :=
  El "section" [Cls (js "admin-page")] [
    El "header" [Cls (js "page-title")] [
      El "div" [] [
        El "span" [Cls (js "eyebrow")] [Text (text l (js "主动检测") (js "Active checks"))];
        El "h1" [] [Text (text l (js "服务探测") (js "Service probes"))];
        El "p" [] [
          Text (text l (js "管理三网延迟和 ICMP、TCP、HTTP(S)、DNS 服务检测；不会执行任意命令。") (js
              "Manage carrier latency and ICMP, TCP, HTTP(S), or DNS checks without arbitrary commands."))]];
      El "button" [Cls (js "primary-action compact-action"); On "click" (modify (set_editing (Some blank)))] [
        Text ((js "+ " ++ text l (js "新建任务") (js "New probe"))%list)]];
    carrier_board l p;
    El "div" [Cls (js "section-heading compact-heading admin-probe-heading")] [
      El "div" [] [
        El "span" [Cls (js "section-number")] [Text (js "02")];
        El "h2" [] [Text (text l (js "自定义服务探测") (js "Custom service probes"))]]];
    probe_table l p;
    match carrierEditing p with Some edited => carrier_drawer l p edited | None => Nothing end;
    match editing p with Some edited => probe_drawer l p edited | None => Nothing end].

End View.

(** ** Saving twice *)

Definition saving_carrier (c : call Req) : bool := match c with One (PutCarrier _ _) => true | _ => false end.

Ltac probes_prog :=
  repeat first [outside_step | working_step | progress unfold send, load, save, save_request, remove, unless, edit_editing, edit_carrierEditing];
  try done; intros; assumption.

Section Safety.
Context `{Unicode}.

Lemma saveCarrier_obeys l p : busy p = false -> obeys busy (during saving_carrier) (saveCarrier l) false p p.
Proof.
  intros Hb. apply obeys_get. destruct (carrierEditing p) as [t|]; [|apply obeys_ret].
  unfold obeys. apply (operation_starts busy (during saving_carrier) (set_carrier [] true)); [probes_prog|done..].
Qed.

Lemma probes_view_saves l p : acts (fun q => obeys busy (during saving_carrier) q false p p) (view l p).
Proof.
  unfold view, carrier_board, probe_table, carrier_drawer, probe_drawer. view_acts; first
    [ apply saveCarrier_obeys; enabled_unless (busy p) | apply outside_bystander; probes_prog ].
Qed.

(** Through the markup of the probe page the settings of the carrier tasks are
    saved one at a time: at most one such request is under way, and one only while
    the button of its drawer is disabled. *)
Theorem one_carrier_save_at_a_time l c : ui_reachable (view l) (eq load) init c ->
  (length (under_way saving_carrier (Async.tasks c)) <= if busy (store c) then 1 else 0)%nat.
Proof.
  intros Hr. apply under_way_at_most.
  refine (ui_one_at_a_time _ _ _ (eq load) init c (probes_view_saves l) _ eq_refl Hr). intros p <-. apply outside_bystander. probes_prog.
Qed.

End Safety.

(** The task of the new-task drawer, as typed, and as the server stores it. *)
Definition typed : ProbeTask.t := set_ProbeTask_target (js "https://example.org") (set_ProbeTask_name (js "site") blank).
Definition stored (id : Z) : Env := fun r =>
  match r with
  | PostProbe t | PutProbe _ t | PutCarrier _ t => inl (set_ProbeTask_id (#id) t)
  | GetTasks | GetCarrierTasks => inl []
  | GetNodes => inl []
  | DeleteProbe _ => inl tt
  end.

(** The drawer of a custom task has no such protection: its button stays
    enabled while the request is under way, so that clicking it twice sends the
    same new task twice, and the server's two answers put it in the list twice,
    under two ids. *)
Theorem task_created_twice `{Unicode} l : exists c c',
  ui_reachable (view l) (eq load) init c /\
  map waits_for (Async.tasks c) = [One (PostProbe typed); One (PostProbe typed)] /\
  rtc (ui_step (view l) (eq load)) c c' /\ Async.tasks c' = [] /\
  tasks (store c') = [set_ProbeTask_id (#1) typed; set_ProbeTask_id (#2) typed].
Proof.
  pose (c1 := spawn (modify (set_editing (Some blank))) (Config init []) : config page Req Resp).
  pose (c2 := spawn (edit_editing (set_ProbeTask_name (js "site"))) c1).
  pose (c3 := spawn (edit_editing (set_ProbeTask_target (js "https://example.org"))) c2).
  exists (spawn (save l) (spawn (save l) c3)), (answer_at (stored 2) 0 (answer_at (stored 1) 0 (spawn (save l) (spawn (save l) c3)))).
  split_and!; [|reflexivity| |reflexivity|reflexivity].
  - eapply rtc_l; [apply Ui_offered, (offered_click _ 0); reflexivity|].
    eapply rtc_l; [apply Ui_offered, (offered_field _ 0 jsstr (fun v => edit_editing (fun x => set_ProbeTask_name v x)) (js "site")); reflexivity|].
    eapply rtc_l; [apply Ui_offered, (offered_field _ 2 jsstr (fun v => edit_editing (fun x => set_ProbeTask_target v x)) (js "https://example.org")); reflexivity|].
    eapply rtc_l; [apply Ui_offered, (offered_click _ 2 (save l)); reflexivity|].
    eapply rtc_l; [apply Ui_offered, (offered_click _ 2 (save l)); reflexivity|apply rtc_refl].
  - eapply rtc_l; [apply (ui_answer_at _ _ (stored 1) 0); eexists; reflexivity|].
    eapply rtc_l; [apply (ui_answer_at _ _ (stored 2) 0); eexists; reflexivity|apply rtc_refl].
Qed.

(** A carrier task is opened and saved. *)
Lemma one_carrier_save_at_a_time_witness :
  let t := AdminProbes.a_task 1 (js "telecom") in
  let server : Env := fun r =>
    match r with
    | GetCarrierTasks => inl [t]
    | GetTasks => inl []
    | GetNodes => inl []
    | _ => inr NotAnError
    end in
  let c1 := answer_at server 0 (spawn load (Config init [])) in
  let c2 := spawn (modify (editCarrier t)) c1 in
  let c := spawn (saveCarrier en_US) c2 in
  length (under_way saving_carrier (Async.tasks c)) = 1%nat /\ (length (under_way saving_carrier (Async.tasks c)) <= 1)%nat.
Proof.
  intros t server c1 c2 c. split; [reflexivity|].
  refine (@one_carrier_save_at_a_time small_unicode en_US c _).
  eapply rtc_l; [apply Ui_host; reflexivity|].
  eapply rtc_l; [apply (ui_answer_at _ _ server 0); eexists; reflexivity|].
  eapply rtc_l; [apply Ui_offered, (offered_click _ 1); reflexivity|].
  eapply rtc_l; [apply Ui_offered, (offered_click _ 3 (saveCarrier en_US)); reflexivity|apply rtc_refl].
Defined.
