(* ===== verification/AdminRulesTemplate.v ===== *)
(** * AdminRulesTemplate: the markup of the alert rules page
    (the template of web/src/components/admin/AdminRules.vue) *)

From Stdlib Require Import Strings.String.
From S2P Require Import Prelude JsString Binary64 JsNumber JsDate Async I18n Types Encode Format AdminForms AdminRules Html Updates.

#[local] Existing Instance AlertEvent.status_eq_dec.

Definition event_status_str (s : AlertEvent.status_) : jsstr :=
  match s with AlertEvent.firing => js "firing" | AlertEvent.resolved => js "resolved" end.

(** A field of the drawer writes the edited rule, if one is open. *)
Definition edit_editing (f : AlertRule.t -> AlertRule.t) : M unit := modify (fun p => set_editing (f <$> editing p) p).

Section View.
Context `{DateHost} (formatDate : AppLocale -> num -> jsstr).

Definition rule_grid (l : AppLocale) (p : page) : html (M unit) :=
  El "div" [Cls (js "rule-grid")] [
    Frag (map (fun rule =>
      El "article" [Key (KeyN (AlertRule.id rule)); Cls (js "rule-card")] [
        El "header" [] [
          El "span" [Cls (js "severity-mark"); Cls (severity_str (AlertRule.severity rule))] [];
          Text (js " ");
          El "b" [] [Text (AlertRule.name rule)];
          El "span" [Cls (js "tag"); ClsIf "muted" (negb (AlertRule.enabled rule))] [
            Text (if AlertRule.enabled rule then text l (js "启用") (js "Enabled") else text l (js "暂停") (js "Paused"))]];
        El "div" [Cls (js "rule-expression")] [
          El "span" [] [Text (metricLabel l (AlertRule.metric rule))];
          El "strong" [] [Text ((AlertRule.operator rule ++ js " " ++ toString (AlertRule.threshold rule))%list)];
          El "small" [] [
            Text ((text l (js "恢复值") (js "Recover") ++ js " " ++ toString (AlertRule.recovery_threshold rule))%list)]];
        El "dl" [] [
          El "div" [] [
            El "dt" [] [Text (text l (js "持续") (js "For"))];
            El "dd" [] [Text ((toString (AlertRule.duration_seconds rule) ++ js "s")%list)]];
          El "div" [] [
            El "dt" [] [Text (text l (js "冷却") (js "Cooldown"))];
            El "dd" [] [Text ((toString (AlertRule.cooldown_seconds rule) ++ js "s")%list)]];
          El "div" [] [El "dt" [] [Text (text l (js "范围") (js "Scope"))]; El "dd" [] [Text (scopeLabel l rule)]]];
        El "footer" [] [
          El "button" [On "click" (modify (edit rule))] [Text (text l (js "编辑") (js "Edit"))];
          El "button" [Cls (js "danger"); OnValue "click" bool (fun confirmed => remove confirmed rule)] [
            Text (text l (js "删除") (js "Delete"))]]]) (rules p))].

Definition event_history (l : AppLocale) (p : page) : html (M unit) :=
  El "section" [Cls (js "admin-panel event-history")] [
    El "div" [Cls (js "panel-label")] [
      El "span" [] [Text (text l (js "告警事件") (js "Alert events"))];
      El "b" [] [
        Text (text l ((toString (of_nat (length (events p))) ++ js " 条")%list) ((toString (of_nat (length (events p))) ++ js
            " loaded")%list))]];
    El "div" [Cls (js "event-table")] [
      Frag (map (fun event =>
        El "div" [Key (KeyS (AlertEvent.event_id event)); Cls (js "event-row")] [
          El "i" [Cls (event_status_str (AlertEvent.status event)); Cls (AlertEvent.severity event)] [];
          El "div" [] [
            El "b" [] [Text ((PublicNode.name (AlertEvent.node event) ++ js " / " ++ AlertEvent.type event)%list)];
            El "span" [] [Text (AlertEvent.message event)]];
          El "strong" [Cls (event_status_str (AlertEvent.status event))] [
            Text (if bool_decide (AlertEvent.status event = AlertEvent.firing) then text l (js "触发") (js "Firing") else text l
                (js "恢复") (js "Resolved"))];
          El "time" [] [text_or_raise (dateTime formatDate l (Some (AlertEvent.occurred_at event)))]]) (events p));
      if (Nat.eqb (length (events p)) 0) then
        El "div" [Cls (js "panel-empty")] [Text (text l (js "暂无告警事件") (js "No events recorded"))]
      else Nothing]].

Definition rule_drawer (l : AppLocale) (p : page) (edited : AlertRule.t) : html (M unit) :=
  El "div" [Cls (js "modal-backdrop"); On "click.self" (modify (set_editing None))] [
    El "form" [Cls (js "drawer"); On "submit.prevent" (save l)] [
      El "header" [] [
        El "div" [] [
          El "span" [] [Text (text l (js "告警规则") (js "Alert rule"))];
          El "h2" [] [
            Text (if truthy_num (AlertRule.id edited) then text l (js "编辑规则") (js "Edit rule") else text l (js "新建规则") (js
                "New rule"))]];
        El "button" [Attr "type" (js "button"); On "click" (modify (set_editing None))] [Text (js "×")]];
      El "div" [Cls (js "drawer-body")] [
        El "div" [Cls (js "form-grid")] [
          El "label" [Cls (js "wide")] [
            El "span" [] [Text (text l (js "规则名称") (js "Rule name"))];
            El "input" [Model jsstr (AlertRule.name edited) (fun v => edit_editing (fun x => set_AlertRule_name v x));
                Flag "required" true] []];
          El "label" [] [
            El "span" [] [Text (text l (js "指标") (js "Metric"))];
            El "select" [Model jsstr (AlertRule.metric edited) (fun v => edit_editing (fun x => set_AlertRule_metric v x))] [
              Frag (map (fun metric =>
                El "option" [Key (KeyS metric); Attr "value" metric] [Text (metricLabel l metric)]) metrics)]];
          El "label" [] [
            El "span" [] [Text (text l (js "运算符") (js "Operator"))];
            El "select" [Model jsstr (AlertRule.operator edited) (fun v => edit_editing (fun x => set_AlertRule_operator v x))] [
              El "option" [] [Text (js ">")];
              El "option" [] [Text (js ">=")];
              El "option" [] [Text (js "<")];
              El "option" [] [Text (js "<=")];
              El "option" [] [Text (js "==")]]];
          El "label" [] [
            El "span" [] [Text (text l (js "触发阈值") (js "Threshold"))];
            El "input" [Model num (AlertRule.threshold edited) (fun v => edit_editing (fun x => set_AlertRule_threshold v x));
                Attr "type" (js "number"); Attr "step" (js "0.01")] []];
          El "label" [] [
            El "span" [] [Text (text l (js "恢复阈值") (js "Recovery threshold"))];
            El "input" [
                Model num (AlertRule.recovery_threshold edited) (fun v => edit_editing (fun x => set_AlertRule_recovery_threshold v x));
                Attr "type" (js "number"); Attr "step" (js "0.01")] []];
          El "label" [] [
            El "span" [] [Text (text l (js "持续时间（秒）") (js "Sustain for (seconds)"))];
            El "input" [
                Model num (AlertRule.duration_seconds edited) (fun v => edit_editing (fun x => set_AlertRule_duration_seconds v x));
                Attr "type" (js "number"); Attr "min" (js "0")] []];
          El "label" [] [
            El "span" [] [Text (text l (js "冷却时间（秒）") (js "Cooldown (seconds)"))];
            El "input" [
                Model num (AlertRule.cooldown_seconds edited) (fun v => edit_editing (fun x => set_AlertRule_cooldown_seconds v x));
                Attr "type" (js "number"); Attr "min" (js "0")] []];
          El "label" [] [
            El "span" [] [Text (text l (js "级别") (js "Severity"))];
            El "select" [
                Model AlertRule.severity_ (AlertRule.severity edited) (fun v => edit_editing (fun x => set_AlertRule_severity v x))] [
              El "option" [] [Text (js "info")];
              El "option" [] [Text (js "warning")];
              El "option" [] [Text (js "critical")]]];
          El "label" [Cls (js "wide")] [
            El "span" [] [Text (text l (js "分组范围（逗号分隔）") (js "Group scope (comma separated)"))];
            El "input" [Model jsstr (groupScope p) (fun v => modify (set_groupScope v));
                Attr "placeholder" (text l (js "留空表示全局") (js "Blank means global"))] []];
          El "label" [Cls (js "wide")] [
            El "span" [] [Text (text l (js "包含节点（可选）") (js "Include nodes (optional)"))];
            El "select" [
                Model (list jsstr) (nullish (AlertScope.node_ids (AlertRule.scope edited)) []) (fun v => edit_editing (fun x => set_AlertRule_scope (set_AlertScope_node_ids (Some v) (AlertRule.scope x)) x));
                Flag "multiple" true] [
              Frag (map (fun node =>
                El "option" [Key (KeyS (PublicNode.id (AdminNode.base node)));
                    Attr "value" (PublicNode.id (AdminNode.base node))] [
                  Text ((PublicNode.name (AdminNode.base node) ++ js " / " ++ or_else (PublicNode.group (AdminNode.base node))
                      (text l (js "未分组") (js "Ungrouped")))%list)]) (nodes p))];
            El "small" [] [
              Text (text l (js "分组与包含节点会合并；两者都留空表示全局规则。") (js
                  "Groups and included nodes are combined; leave both blank for a global rule."))]];
          El "label" [Cls (js "wide")] [
            El "span" [] [Text (text l (js "排除节点") (js "Exclude nodes"))];
            El "select" [
                Model (list jsstr) (nullish (AlertScope.excluded_node_ids (AlertRule.scope edited)) []) (fun v => edit_editing (fun x => set_AlertRule_scope (set_AlertScope_excluded_node_ids (Some v) (AlertRule.scope x)) x));
                Flag "multiple" true] [
              Frag (map (fun node =>
                El "option" [Key (KeyS (PublicNode.id (AdminNode.base node)));
                    Attr "value" (PublicNode.id (AdminNode.base node))] [
                  Text ((PublicNode.name (AdminNode.base node) ++ js " / " ++ or_else (PublicNode.group (AdminNode.base node))
                      (text l (js "未分组") (js "Ungrouped")))%list)]) (nodes p))];
            El "small" [] [Text (text l (js "排除项优先于全局、分组和包含节点。") (js "Exclusions override global, group, and node inclusion."))]]];
        El "label" [Cls (js "switch-line")] [
          El "input" [Model bool (AlertRule.enabled edited) (fun v => edit_editing (fun x => set_AlertRule_enabled v x));
              Attr "type" (js "checkbox")] [];
          El "span" [] [Text (text l (js "启用规则") (js "Rule enabled"))]];
        if truthy (error p) then El "div" [Cls (js "form-error")] [Text (error p)] else Nothing];
      El "footer" [] [
        El "button" [Attr "type" (js "button"); On "click" (modify (set_editing None))] [Text (text l (js "取消") (js "Cancel"))];
        El "button" [Cls (js "primary-action")] [Text (text l (js "保存规则") (js "Save rule"))]]]].

Definition view (l : AppLocale) (p : page) : html (M unit) :=
  El "section" [Cls (js "admin-page")] [
    El "header" [Cls (js "page-title")] [
      El "div" [] [
        El "span" [Cls (js "eyebrow")] [Text (text l (js "告警策略") (js "Alert policy"))];
        El "h1" [] [Text (text l (js "告警规则") (js "Alert rules"))];
        El "p" [] [Text (text l (js "设置触发阈值、持续时间、恢复阈值和冷却时间。") (js "Configure thresholds, duration, recovery, and cooldown."))]];
      El "button" [Cls (js "primary-action compact-action"); On "click" (modify create)] [
        Text ((js "+ " ++ text l (js "新建规则") (js "New rule"))%list)]];
    rule_grid l p;
    event_history l p;
    match editing p with Some edited => rule_drawer l p edited | None => Nothing end].

End View.

(** ** The lists of the drawer *)

(** [v-model] on [<select multiple>] needs an array: the lists of the scope, which
    the interface leaves optional, are there while the drawer is open. *)
Definition has_lists (r : AlertRule.t) : Prop :=
  is_Some (AlertScope.groups (AlertRule.scope r)) /\ is_Some (AlertScope.node_ids (AlertRule.scope r)) /\
  is_Some (AlertScope.excluded_node_ids (AlertRule.scope r)).

Definition drawer_ok (p : page) : Prop := forall r, editing p = Some r -> has_lists r.

Definition no_relation (p q : page) : Prop := True.

#[export] Instance no_relation_preorder : PreOrder no_relation.
Proof. by split. Qed.

Lemma good_same f : (forall p, editing (f p) = editing p) -> good drawer_ok no_relation (modify f : M unit).
Proof. intros Hf. apply good_modify; [apply _|]. intros p Hp. split; [|done]. intros r. rewrite Hf. apply Hp. Qed.

Lemma good_close f : (forall p, editing (f p) = None) -> good drawer_ok no_relation (modify f : M unit).
Proof. intros Hf. apply good_modify; [apply _|]. intros p Hp. split; [|done]. intros r. by rewrite Hf. Qed.

Lemma good_open f r : has_lists r -> (forall p, editing (f p) = Some r) -> good drawer_ok no_relation (modify f : M unit).
Proof. intros Hr Hf. apply good_modify; [apply _|]. intros p Hp. split; [|done]. intros r'. rewrite Hf. by intros [= <-]. Qed.

Lemma good_edit_editing f : (forall r, has_lists r -> has_lists (f r)) -> good drawer_ok no_relation (edit_editing f).
Proof.
  intros Hf. apply good_modify; [apply _|]. intros p Hp. split; [|done]. intros r. cbn.
  destruct (editing p) as [r0|] eqn:E; [|done]. intros [= <-]. by apply Hf, Hp.
Qed.

Lemma rules_good_load : good drawer_ok no_relation load.
Proof.
  apply good_bind; [exact (good_await drawer_ok no_relation _)|]. intros [r [e n]]. by apply good_same.
Qed.

Lemma good_save l : good drawer_ok no_relation (save l).
Proof.
  apply good_read. intros p Hp. destruct (editing p) as [r|] eqn:E; [|apply good_ret].
  assert (Hr : has_lists (with_groups (items comma (groupScope p)) r)) by (destruct (Hp r E) as (_ & H1 & H2); by split_and!).
  apply good_bind; [by eapply good_open|]. intros _. apply good_try_catch; [|intros e; by apply good_same].
  apply good_bind; [ |intros saved; by apply good_close].
  unfold save_request. case_match; exact (good_await drawer_ok no_relation _).
Qed.

Lemma good_remove b r : good drawer_ok no_relation (remove b r).
Proof.
  unfold remove. destruct b; [|apply good_ret]. apply good_bind; [exact (good_await drawer_ok no_relation _)|]. intros _. by apply good_same.
Qed.

Section Types.
Context `{DateHost} (formatDate : AppLocale -> num -> jsstr).

Lemma view_good l p : acts (good drawer_ok no_relation) (view formatDate l p).
Proof.
  unfold view, rule_grid, event_history, rule_drawer. view_acts; first
    [ by apply good_close
    | by apply good_same
    | apply good_save
    | apply good_remove
    | eapply good_open; [|reflexivity]; split_and!; eexists; reflexivity
    | apply good_edit_editing; intros r (H1 & H2 & H3); split_and!; first [done | eexists; reflexivity] ].
Qed.

(** C21: the value bound to each list of the drawer is a list: through every
    sequence of clicks and inputs, with loads, saves and removals in flight, the
    rule in the drawer has the three lists that the interface leaves optional, also
    when the rule came from the server without them. *)
Theorem drawer_has_lists l p0 c : editing p0 = None -> ui_reachable (view formatDate l) (eq load) p0 c ->
  forall r, editing (store c) = Some r -> has_lists r.
Proof.
  intros H0 Hr. refine (proj1 (ui_rely_guarantee (view formatDate l) (eq load) drawer_ok no_relation p0 c _ _ _ Hr)).
  - intros s Hs. eapply acts_mono; [|apply view_good]. intros q Hq. by apply Hq.
  - intros q <- s Hs. by apply rules_good_load.
  - intros r. by rewrite H0.
Qed.

End Types.

(** A rule without lists is opened and its nodes are chosen. *)
Lemma drawer_has_lists_witness :
  let r := AdminRules.with_scope (AlertScope.mk None None None) blank in
  let p0 := mkPage [r] [] [] None [] [] in
  let c1 := spawn (modify (edit r)) (Config p0 []) : config page Req Resp in
  let c := spawn (edit_editing (fun x => set_AlertRule_scope (set_AlertScope_node_ids (Some [js "n"]) (AlertRule.scope x)) x)) c1 in
  exists r', editing (store c) = Some r' /\ AlertScope.node_ids (AlertRule.scope r') = Some [js "n"] /\ has_lists r'.
Proof.
  intros r p0 c1 c. eexists. split_and!; [reflexivity..|].
  refine (@drawer_has_lists utc_host (fun _ _ => []) en_US p0 c eq_refl _ _ eq_refl).
  eapply rtc_l; [apply Ui_offered, (offered_click _ 1); reflexivity|].
  eapply rtc_l; [apply Ui_offered, (offered_field _ 10 (list jsstr)
    (fun v => edit_editing (fun x => set_AlertRule_scope (set_AlertScope_node_ids (Some v) (AlertRule.scope x)) x)) [js "n"]); reflexivity|apply rtc_refl].
Defined.
