(* ===== verification/AdminOverviewTemplate.v ===== *)
(** * AdminOverviewTemplate: the markup of the dashboard and of the audit log
    (the templates of web/src/components/admin/AdminOverview.vue, AdminAudit.vue) *)

From Stdlib Require Import Strings.String.
From S2P Require Import Prelude JsString Binary64 JsNumber JsDate Async I18n Types Encode Format AdminForms AdminOverview AdminRulesTemplate Html.

Section View.
Context `{MathLog} `{DateHost} (formatDate : AppLocale -> num -> jsstr).

Definition figures (l : AppLocale) (now : num) (origin : jsstr) (p : Dashboard.page) : html (Dashboard.M unit) :=
  El "div" [Cls (js "admin-stat-grid")] [
    El "div" [] [
      El "span" [] [Text (text l (js "已注册节点") (js "Enrolled nodes"))];
      El "strong" [] [Text (toString (of_nat (length (Dashboard.nodes p))))];
      El "small" [] [
        Text (text l ((toString (of_nat (Dashboard.online now p)) ++ js " 个在线")%list) ((toString (of_nat (Dashboard.online now
            p)) ++ js " currently online")%list))]];
    El "div" [] [
      El "span" [] [Text (text l (js "活动告警") (js "Active incidents"))];
      El "strong" [] [Text (toString (of_nat (Dashboard.firing p)))];
      El "small" [] [
        Text (text l ((js "最近 " ++ toString (of_nat (length (Dashboard.events p))) ++ js " 条事件")%list) ((toString (of_nat
            (length (Dashboard.events p))) ++ js " recent transitions")%list))]];
    El "div" [] [
      El "span" [] [Text (text l (js "流量配额") (js "Traffic quota"))];
      El "strong" [] [
        Text (if truthy_num (Dashboard.capacity p) then bytes (Some (Dashboard.capacity p)) 1 else text l (js "未设置") (js
            "Unbound"))];
      El "small" [] [Text (text l (js "所有节点声明的配额") (js "Declared fleet capacity"))]];
    El "div" [] [
      El "span" [] [Text (text l (js "节点注册") (js "Enrollment"))];
      El "strong" [Cls (js "word")] [Text (js "PIN")];
      El "small" [] [Text (text l (js "注册后使用独立节点凭据") (js "Independent credentials after enrollment"))]]].

Definition columns (l : AppLocale) (now : num) (origin : jsstr) (p : Dashboard.page) : html (Dashboard.M unit) :=
  El "div" [Cls (js "admin-columns")] [
    El "section" [Cls (js "admin-panel enroll-panel")] [
      El "div" [Cls (js "panel-label")] [
        El "span" [] [Text (text l (js "添加节点") (js "Enroll a node"))];
        El "b" [] [Text (js "01")]];
      El "p" [] [
        Text (text l (js "在 Linux、OpenWrt、NAS、macOS 或 FreeBSD 上运行。安装程序会在终端中询问注册 PIN 和节点信息。") (js
            "Run on Linux, OpenWrt, NAS, macOS, or FreeBSD. The installer asks for the PIN and node metadata in the terminal."
            ))];
      El "div" [Cls (js "command-line")] [
        El "code" [] [Text (Dashboard.installCommand origin)];
        El "button" [On "click" (Dashboard.copyCommand origin)] [
          Text (if Dashboard.copied p then text l (js "已复制") (js "Copied") else text l (js "复制") (js "Copy"))]];
      El "small" [] [
        Text ((text l (js "Windows：下载") (js "Windows: download") ++ js " ")%list);
        El "b" [] [Text (Dashboard.windowsInstaller origin)];
        Text ((js " " ++ text l (js "后在 PowerShell 中执行。") (js "and run it in PowerShell."))%list)]];
    El "section" [Cls (js "admin-panel event-panel")] [
      El "div" [Cls (js "panel-label")] [
        El "span" [] [Text (text l (js "最近告警") (js "Recent alerts"))];
        El "RouterLink" [Attr "to" (js "/admin/alerts")] [Text ((text l (js "查看规则") (js "View rules") ++ js " →")%list)]];
      if (Nat.eqb (length (Dashboard.events p)) 0) then
        El "div" [Cls (js "panel-empty")] [Text (text l (js "暂无告警事件") (js "No alert events"))]
      else Nothing;
      Frag (map (fun event =>
        El "div" [Key (KeyS (AlertEvent.event_id event)); Cls (js "event-row")] [
          El "i" [Cls (event_status_str (AlertEvent.status event)); Cls (AlertEvent.severity event)] [];
          El "div" [] [
            El "b" [] [Text (PublicNode.name (AlertEvent.node event))];
            El "span" [] [Text (AlertEvent.message event)]];
          El "time" [] [text_or_raise (dateTime formatDate l (Some (AlertEvent.occurred_at event)))]]) (Dashboard.events p))]].

Definition mini_list (l : AppLocale) (now : num) (origin : jsstr) (p : Dashboard.page) : html (Dashboard.M unit) :=
  El "section" [Cls (js "admin-panel")] [
    El "div" [Cls (js "panel-label")] [
      El "span" [] [Text (text l (js "节点列表") (js "Nodes"))];
      El "RouterLink" [Attr "to" (js "/admin/nodes")] [Text ((text l (js "管理节点") (js "Manage nodes") ++ js " →")%list)]];
    El "div" [Cls (js "mini-node-list")] [
      Frag (map (fun node =>
        El "div" [Key (KeyS (PublicNode.id (AdminNode.base node)))] [
          El "i" [Cls (if Dashboard.seen_recently now node then js "online" else js "offline")] [];
          El "b" [] [Text (PublicNode.name (AdminNode.base node))];
          El "span" [] [Text (or_else (PublicNode.group (AdminNode.base node)) (text l (js "未分组") (js "Ungrouped")))];
          El "small" [] [Text (or_else (PublicNode.os (AdminNode.base node)) (text l (js "未知系统") (js "Unknown")))]]) (take 12 (Dashboard.nodes p)))]].

Definition dashboard_view (l : AppLocale) (now : num) (origin : jsstr) (p : Dashboard.page) : html (Dashboard.M unit) :=
  El "section" [Cls (js "admin-page km-page-admin-dashboard")] [
    El "header" [Cls (js "page-title")] [
      El "div" [] [
        El "span" [Cls (js "eyebrow")] [Text (text l (js "系统概览") (js "System overview"))];
        El "h1" [] [Text (text l (js "概览") (js "Overview"))];
        El "p" [] [Text (text l (js "查看节点、告警和注册状态。") (js "Review nodes, alerts, and enrollment status."))]]];
    figures l now origin p;
    columns l now origin p;
    mini_list l now origin p].

Definition audit_view (l : AppLocale) (entries : list AuditEntry.t) : html (Audit.M unit) :=
  El "section" [Cls (js "admin-page")] [
    El "header" [Cls (js "page-title")] [
      El "div" [] [
        El "span" [Cls (js "eyebrow")] [Text (text l (js "操作记录") (js "Operation history"))];
        El "h1" [] [Text (text l (js "审计日志") (js "Audit log"))];
        El "p" [] [
          Text (text l (js "按时间倒序记录登录、节点注册和后台修改。") (js
              "Authentication, enrollment, and administration changes in reverse time order."))]];
      El "button" [Cls (js "secondary-action"); On "click" Audit.load] [Text (text l (js "刷新") (js "Refresh"))]];
    El "div" [Cls (js "audit-stream")] [
      El "div" [Cls (js "audit-header")] [
        El "span" [] [Text (text l (js "时间") (js "Time"))];
        El "span" [] [Text (text l (js "操作者") (js "Actor"))];
        El "span" [] [Text (text l (js "操作") (js "Action"))];
        El "span" [] [Text (text l (js "对象 / 详情") (js "Target / detail"))]];
      Frag (map (fun entry =>
        El "article" [Key (KeyN (AuditEntry.id entry))] [
          El "time" [] [text_or_raise (dateTime formatDate l (Some (AuditEntry.occurred_at entry)))];
          El "b" [] [Text (AuditEntry.actor entry)];
          El "code" [] [Text (AuditEntry.action entry)];
          El "div" [] [El "span" [] [Text (AuditEntry.target entry)]; El "small" [] [Text (AuditEntry.detail entry)]]]) entries)]].

End View.
