(* ===== verification/ShareTemplate.v ===== *)
(** * ShareTemplate: the markup of the page of a share link
    (the template of web/src/views/ShareView.vue) *)

From Stdlib Require Import Strings.String.
From S2P Require Import Prelude JsString Binary64 JsNumber JsDate Async I18n Types Format ShareView Html PartsTemplate.

Section View.
Context `{Unicode} `{MathLog} `{DateHost} (formatDate : AppLocale -> num -> jsstr) (formatNumber : AppLocale -> num -> jsstr).

Definition view_ (l : AppLocale) {H} (now : num) (token : jsstr) (v : view) : html H :=
  El "div" [Cls (js "public-layout")] [
    El "PublicHeader" [] [];
    El "main" [Cls (js "overview share-page")] [
      El "section" [Cls (js "share-heading")] [
        El "span" [Cls (js "eyebrow")] [Text (text l (js "只读分享") (js "Read-only share"))];
        El "h1" [] [Text (text l (js "节点状态") (js "Shared nodes"))];
        if truthy (expiresAt v) then
          El "p" [] [
            Text ((text l (js "有效期至") (js "Access expires") ++ js " ")%list);
            text_or_raise (dateTime formatDate l (Some (expiresAt v)))]
        else Nothing];
      if truthy (error v) then
        El "div" [Cls (js "empty-state")] [
          El "span" [] [Text (js "×")];
          El "h3" [] [Text (text l (js "分享链接不可用") (js "Share link unavailable"))];
          El "p" [] [Text (error v)]]
      else 
        El "div" [Cls (js "node-grid")] [
          Frag (map (fun item =>
            El "NodeCard" [Key (KeyS (PublicNode.id (NodeSnapshot.node item)))] [
              NodeCard_view formatNumber l now item (Some ((js "/share/" ++ token ++ js "/nodes/" ++ PublicNode.id
                  (NodeSnapshot.node item))%list))]) (nodes v))]]].

End View.
