(* ===== verification/SessionTemplate.v ===== *)
(** * SessionTemplate: the markup of the login, setup and administration shells
    (the templates of web/src/views/LoginView.vue, SetupView.vue, AdminView.vue) *)

From Stdlib Require Import Strings.String.
From S2P Require Import Prelude JsString Binary64 JsNumber JsInteger JsDate Async I18n Types Session Html Mutex.

(** ** What the inputs write *)

Definition set_login (u pw t : jsstr) (s : app) : app :=
  let f := login_form s in with_login s (mkLogin u pw t (l_busy f) (l_error f)).
Definition set_login_username (v : jsstr) (s : app) : app := set_login v (l_password (login_form s)) (l_totp (login_form s)) s.
Definition set_login_password (v : jsstr) (s : app) : app := set_login (l_username (login_form s)) v (l_totp (login_form s)) s.
Definition set_login_totp (v : jsstr) (s : app) : app := set_login (l_username (login_form s)) (l_password (login_form s)) v s.

Definition set_setup (u pw c pin n d : jsstr) (s : app) : app :=
  let f := setup_form s in with_setup s (mkSetup u pw c pin n d (s_busy f) (s_error f)).
Definition set_setup_username (v : jsstr) (s : app) : app :=
  let f := setup_form s in set_setup v (s_password f) (s_confirmation f) (s_pin f) (s_siteName f) (s_description f) s.
Definition set_setup_password (v : jsstr) (s : app) : app :=
  let f := setup_form s in set_setup (s_username f) v (s_confirmation f) (s_pin f) (s_siteName f) (s_description f) s.
Definition set_setup_confirmation (v : jsstr) (s : app) : app :=
  let f := setup_form s in set_setup (s_username f) (s_password f) v (s_pin f) (s_siteName f) (s_description f) s.
Definition set_setup_pin (v : jsstr) (s : app) : app :=
  let f := setup_form s in set_setup (s_username f) (s_password f) (s_confirmation f) v (s_siteName f) (s_description f) s.
Definition set_setup_siteName (v : jsstr) (s : app) : app :=
  let f := setup_form s in set_setup (s_username f) (s_password f) (s_confirmation f) (s_pin f) v (s_description f) s.
Definition set_setup_description (v : jsstr) (s : app) : app :=
  let f := setup_form s in set_setup (s_username f) (s_password f) (s_confirmation f) (s_pin f) (s_siteName f) v s.

Definition login_view (l : AppLocale) (s : app) : html (M unit) :=
  El "main" [Cls (js "auth-layout")] [
    El "section" [Cls (js "auth-brand")] [
      El "RouterLink" [Cls (js "wordmark"); Attr "to" (js "/")] [
        El "img" [Cls (js "wordmark-icon"); Attr "src" (js "/hostpin-icon.svg?v=2"); Attr "alt" [];
            Attr "aria-hidden" (js "true")] [];
        El "span" [] [Text (or_else (SiteSettings.name <$> (Session.site (session s))) (js "HOSTPIN"))]];
      El "div" [] [
        El "span" [Cls (js "eyebrow")] [Text (text l (js "管理后台") (js "Administration"))];
        El "h1" [] [Text (text l (js "登录 Hostpin") (js "Sign in to Hostpin"))];
        El "p" [] [Text (text l (js "管理节点、告警、探测任务、备份和站点设置。") (js "Manage nodes, alerts, probes, backups, and site settings."))]];
      El "footer" [] [Text (text l (js "安全会话 · CSRF 防护") (js "SECURE SESSION · CSRF PROTECTED"))]];
    El "section" [Cls (js "auth-form-wrap")] [
      El "div" [Cls (js "auth-utility")] [El "LanguageSwitch" [] []];
      El "form" [Cls (js "auth-form"); On "submit.prevent" (LoginView_submit l)] [
        El "header" [] [
          El "h2" [] [Text (text l (js "管理员登录") (js "Administrator sign in"))];
          El "p" [] [Text (text l (js "使用初始化时设置的管理员账号。") (js "Use the administrator account configured during setup."))]];
        El "label" [] [
          El "span" [] [Text (text l (js "用户名") (js "Username"))];
          El "input" [Model jsstr (l_username (login_form s)) (fun v => modify (set_login_username v));
              Attr "autocomplete" (js "username"); Flag "required" true; Flag "autofocus" true] []];
        El "label" [] [
          El "span" [] [Text (text l (js "密码") (js "Password"))];
          El "input" [Model jsstr (l_password (login_form s)) (fun v => modify (set_login_password v));
              Attr "type" (js "password"); Attr "autocomplete" (js "current-password"); Flag "required" true] []];
        El "label" [] [
          El "span" [] [
            Text ((text l (js "两步验证码或恢复码") (js "TOTP or recovery code") ++ js " ")%list);
            El "small" [] [Text (text l (js "可选") (js "Optional"))]];
          El "input" [Model jsstr (l_totp (login_form s)) (fun v => modify (set_login_totp v));
              Attr "inputmode" (js "numeric"); Attr "autocomplete" (js "one-time-code");
              Attr "placeholder" (js "000000")] []];
        if truthy (l_error (login_form s)) then El "div" [Cls (js "form-error")] [Text (l_error (login_form s))] else Nothing;
        El "button" [Cls (js "primary-action"); Flag "disabled" (l_busy (login_form s))] [
          Text (((if l_busy (login_form s) then text l (js "正在登录…") (js "Signing in…") else text l (js "登录") (js "Sign in")) ++
              js " ")%list);
          El "span" [] [Text (js "→")]];
        El "RouterLink" [Cls (js "back-link"); Attr "to" (js "/")] [
          Text ((js "← " ++ text l (js "返回监控首页") (js "Return to public status"))%list)]]]].

Definition setup_view (l : AppLocale) (s : app) : html (M unit) :=
  El "main" [Cls (js "setup-layout")] [
    El "aside" [Cls (js "setup-rail")] [
      El "div" [Cls (js "wordmark")] [
        El "img" [Cls (js "wordmark-icon"); Attr "src" (js "/hostpin-icon.svg?v=2"); Attr "alt" [];
            Attr "aria-hidden" (js "true")] [];
        El "span" [] [Text (js "HOSTPIN")]];
      El "ol" [] [
        El "li" [Cls (js "active")] [El "b" [] [Text (js "01")]; El "span" [] [Text (text l (js "站点") (js "Site"))]];
        El "li" [] [El "b" [] [Text (js "02")]; El "span" [] [Text (text l (js "管理员") (js "Admin"))]];
        El "li" [] [El "b" [] [Text (js "03")]; El "span" [] [Text (text l (js "注册 PIN") (js "Enrollment PIN"))]]];
      El "p" [] [Text (text l (js "首次设置") (js "First-time setup"))]];
    El "section" [Cls (js "setup-content")] [
      El "div" [Cls (js "setup-utility")] [El "LanguageSwitch" [] []];
      El "header" [] [
        El "span" [Cls (js "eyebrow")] [Text (text l (js "首次设置") (js "First-time setup"))];
        El "h1" [] [Text (text l (js "初始化 Hostpin") (js "Set up Hostpin"))];
        El "p" [] [
          Text (text l (js "设置站点信息、管理员账号和探针注册 PIN。完成后即可添加节点。") (js
              "Configure the site, administrator account, and Agent enrollment PIN."))]];
      El "form" [Cls (js "setup-form"); On "submit.prevent" (SetupView_submit l)] [
        El "fieldset" [] [
          El "legend" [] [El "b" [] [Text (js "01")]; Text ((js " " ++ text l (js "站点信息") (js "Site"))%list)];
          El "div" [Cls (js "form-grid")] [
            El "label" [] [
              El "span" [] [Text (text l (js "站点名称") (js "Site name"))];
              El "input" [Model jsstr (s_siteName (setup_form s)) (fun v => modify (set_setup_siteName v));
                  Flag "required" true; Attr "maxlength" (js "128")] []];
            El "label" [Cls (js "wide")] [
              El "span" [] [Text (text l (js "站点说明（可选）") (js "Description (optional)"))];
              El "input" [Model jsstr (s_description (setup_form s)) (fun v => modify (set_setup_description v));
                  Attr "maxlength" (js "512");
                  Attr "placeholder" (text l (js "例如：我的服务器监控") (js "For example: My server monitor"))] []]]];
        El "fieldset" [] [
          El "legend" [] [El "b" [] [Text (js "02")]; Text ((js " " ++ text l (js "管理员账号") (js "Administrator"))%list)];
          El "div" [Cls (js "form-grid")] [
            El "label" [] [
              El "span" [] [Text (text l (js "用户名") (js "Username"))];
              El "input" [Model jsstr (s_username (setup_form s)) (fun v => modify (set_setup_username v));
                  Attr "autocomplete" (js "username"); Attr "minlength" (js "3"); Flag "required" true] []];
            El "label" [] [
              El "span" [] [
                Text ((text l (js "密码") (js "Password") ++ js " ")%list);
                El "small" [] [Text (text l (js "至少 12 位") (js "12+ characters"))]];
              El "input" [Model jsstr (s_password (setup_form s)) (fun v => modify (set_setup_password v));
                  Attr "type" (js "password"); Attr "autocomplete" (js "new-password");
                  Attr "minlength" (js "12"); Flag "required" true] []];
            El "label" [] [
              El "span" [] [Text (text l (js "确认密码") (js "Confirm password"))];
              El "input" [Model jsstr (s_confirmation (setup_form s)) (fun v => modify (set_setup_confirmation v));
                  Attr "type" (js "password"); Attr "autocomplete" (js "new-password"); Flag "required" true] []]]];
        El "fieldset" [] [
          El "legend" [] [El "b" [] [Text (js "03")]; Text ((js " " ++ text l (js "探针注册") (js "Agent enrollment"))%list)];
          El "div" [Cls (js "pin-block")] [
            El "label" [] [
              El "span" [] [Text (text l (js "注册 PIN") (js "Enrollment PIN"))];
              El "input" [Model jsstr (s_pin (setup_form s)) (fun v => modify (set_setup_pin v)); Attr "type" (js "password");
                  Attr "autocomplete" (js "off"); Attr "minlength" (js "6"); Attr "maxlength" (js "64");
                  Flag "required" true;
                  Attr "placeholder" (text l (js "6–64 位数字或字符") (js "6–64 digits or characters"))] []];
            El "p" [] [
              Text (text l (js "PIN 仅用于新探针注册。注册成功后，每个节点会使用自己的独立凭据。建议使用 12 位以上随机字符。") (js
                  "The PIN is used only to enroll new Agents. Each node receives an independent credential. Use 12 or more random characters when possible."
                  ))]]];
        if truthy (s_error (setup_form s)) then El "div" [Cls (js "form-error")] [Text (s_error (setup_form s))] else Nothing;
        El "button" [Cls (js "primary-action");
            Flag "disabled" (((s_busy (setup_form s)) || (negb (passwordValid (setup_form s)))) || (negb (pinValid (setup_form s))))] [
          Text (((if s_busy (setup_form s) then text l (js "正在初始化…") (js "Setting up…") else text l (js "完成设置") (js
              "Complete setup")) ++ js " ")%list);
          El "span" [] [Text (js "→")]]]]].

Definition nav_ (l : AppLocale) (now : Z) (section : jsstr) (s : app) : html (M unit) :=
  El "nav" [Attr "aria-label" (text l (js "后台导航") (js "Administration"))] [
    Frag (map (fun item =>
      El "RouterLink" [Key (KeyS item.1.1); Attr "to" ((js "/admin/" ++ item.1.1)%list);
          ClsIf "active" (streq section item.1.1)] [
        El "i" [] [Text item.2];
        El "span" [] [Text item.1.2];
        El "b" [] [Text (js "→")]]) (nav l))].

Definition shell_view (l : AppLocale) (now : Z) (section : jsstr) (s : app) : html (M unit) :=
  El "div" [Cls (js "admin-layout km-admin-layout")] [
    El "aside" [Cls (js "admin-sidebar")] [
      El "RouterLink" [Cls (js "wordmark admin-wordmark"); Attr "to" (js "/")] [
        El "img" [Cls (js "wordmark-icon"); Attr "src" (js "/hostpin-icon.svg?v=2"); Attr "alt" [];
            Attr "aria-hidden" (js "true")] [];
        El "span" [] [Text (or_else (SiteSettings.name <$> (Session.site (session s))) (js "HOSTPIN"))]];
      El "div" [Cls (js "admin-context")] [
        El "span" [] [Text (text l (js "管理后台") (js "Administration"))];
        El "b" [] [El "i" [] []; Text ((js " " ++ text l (js "系统正常") (js "Operational"))%list)]];
      nav_ l now section s;
      El "footer" [] [
        El "div" [] [
          El "span" [] [Text (text l (js "管理员") (js "Administrator"))];
          El "b" [] [Text (Session.username (session s))]];
        El "button" [On "click" AdminView_logout] [Text ((text l (js "退出登录") (js "Sign out") ++ js " ↗")%list)];
        El "small" [] [Text ((js "HOSTPIN " ++ Session.version (session s))%list)]]];
    El "main" [Cls (js "admin-main km-main")] [
      El "header" [Cls (js "admin-topbar")] [
        El "div" [] [
          El "span" [] [Text ((js "HOSTPIN / " ++ text l (js "管理") (js "ADMIN"))%list)];
          El "b" [] [Text (currentLabel l section)]];
        El "div" [] [
          El "LanguageSwitch" [] [];
          El "RouterLink" [Attr "to" (js "/")] [Text ((text l (js "监控首页") (js "Public status") ++ js " ↗")%list)];
          El "span" [Cls (js "utc-clock")] [Text ((js "UTC " ++ slice (toISOString now) 11 19)%list)]]];
      El "component" [] []]].

(** ** One sign-in, one setup at a time *)

(** What runs beside a form: the store's refresh, the guard of a navigation, the
    sign-out of another view. *)
Inductive background : M unit -> Prop :=
| B_refresh : background refresh
| B_guard to : background (bind (beforeEach to) (fun _ => Ret tt))
| B_logout : background AdminView_logout.

Definition signing_in (c : call Req) : bool := match c with One (PostLogin _ _ _) => true | _ => false end.
Definition setting_up (c : call Req) : bool := match c with One (PostSetup _ _ _ _ _) => true | _ => false end.

Definition login_busy (s : app) : bool := l_busy (login_form s).
Definition setup_busy (s : app) : bool := s_busy (setup_form s).

Ltac mutex_prog := repeat first [outside_step | working_step | progress unfold send, refresh, login, logout]; try done; intros; assumption.

Lemma background_login p : background p -> bystander login_busy (during signing_in) p.
Proof. intros Hp. apply outside_bystander. destruct Hp; unfold AdminView_logout, beforeEach; mutex_prog. Qed.

Lemma background_setup p : background p -> bystander setup_busy (during setting_up) p.
Proof. intros Hp. apply outside_bystander. destruct Hp; unfold AdminView_logout, beforeEach; mutex_prog. Qed.

Lemma login_obeys l s : login_busy s = false -> obeys login_busy (during signing_in) (LoginView_submit l) false s s.
Proof. intros Hs. apply operation_starts; [mutex_prog|done..]. Qed.

Lemma setup_obeys l s : setup_busy s = false -> obeys setup_busy (during setting_up) (SetupView_submit l) false s s.
Proof.
  intros Hs. apply obeys_get. unfold unless. destruct (_ || _); [apply obeys_ret|]. apply operation_starts; [mutex_prog|done..].
Qed.

Lemma typing_bystander held allowed f : (forall s, held (f s) = held s) -> bystander (S := app) (Resp := Resp) held allowed (modify f).
Proof. intros Hf. by apply outside_bystander, outside_modify. Qed.

(** The button of a form that is busy is disabled. *)
Lemma login_view_obeys l s : acts (fun p => obeys login_busy (during signing_in) p false s s) (login_view l s).
Proof.
  unfold login_view. view_acts; try by apply typing_bystander.
  apply login_obeys. unfold login_busy. enabled_unless (l_busy (login_form s)).
Qed.

Lemma setup_view_obeys l s : acts (fun p => obeys setup_busy (during setting_up) p false s s) (setup_view l s).
Proof.
  unfold setup_view. view_acts; try by apply typing_bystander.
  apply setup_obeys. unfold setup_busy. enabled_unless (s_busy (setup_form s)).
Qed.

(** C11: neither form sends its request twice: from the moment the login page is
    entered, with the fresh form of that visit, and as long as the visit lasts, at
    most one of its sign-ins is under way, and one only while the form is busy,
    with navigations, refreshes and sign-outs going on beside it, although the
    handler itself does not look at the flag; the same holds of a visit of the
    setup page.  (Leaving the page and coming back is another visit, with another
    form.) *)
Theorem one_sign_in_at_a_time l query_next s0 c :
  (ui_reachable (login_view l) background (enter_login query_next s0) c ->
     (length (under_way signing_in (tasks c)) <= if login_busy (store c) then 1 else 0)%nat) /\
  (ui_reachable (setup_view l) background (enter_setup s0) c ->
     (length (under_way setting_up (tasks c)) <= if setup_busy (store c) then 1 else 0)%nat).
Proof.
  split; intros Hr; apply under_way_at_most.
  - exact (ui_one_at_a_time _ _ (login_view l) background (enter_login query_next s0) c (login_view_obeys l) background_login eq_refl Hr).
  - exact (ui_one_at_a_time _ _ (setup_view l) background (enter_setup s0) c (setup_view_obeys l) background_setup eq_refl Hr).
Qed.

Lemma one_sign_in_at_a_time_witness :
  let c := spawn (LoginView_submit en_US) (Config (enter_login QAbsent start) []) in
  length (under_way signing_in (tasks c)) = 1%nat /\ (length (under_way signing_in (tasks c)) <= 1)%nat.
Proof.
  intros c. split; [reflexivity|]. refine (proj1 (one_sign_in_at_a_time en_US QAbsent start c) _).
  eapply rtc_l; [apply Ui_offered, (offered_click _ 0); reflexivity|apply rtc_refl].
Defined.
