(* ===== verification/AdminLatencyTemplate.v ===== *)
(** * AdminLatencyTemplate: the markup of the latency administration
    (the template of web/src/components/admin/AdminLatency.vue) *)

From Stdlib Require Import Strings.String.
From S2P Require Import Prelude JsString Binary64 JsNumber JsDate Async I18n Types Encode Format AdminForms AdminLatency Html Updates Mutex.

#[local] Existing Instance ProbeTask.type_eq_dec.

(** A field of a drawer writes the edited record, if one is open. *)
Definition edit_editingTarget (f : ProbeTask.t -> ProbeTask.t) : M unit := modify (fun p => set_target (f <$> editingTarget p) p).
Definition edit_editingNode (f : AdminNode.t -> AdminNode.t) : M unit := modify (fun p => set_editingNode (f <$> editingNode p) p).
Definition edit_agentConfig (f : AgentConfig.t -> AgentConfig.t) : M unit := modify (fun p => set_agentConfig (f <$> agentConfig p) p).
Definition set_tagsText (v : jsstr) (p : page) : page := set_node (editingNode p) (agentConfig p) v p.

Section View.
Context `{Unicode} `{DateHost} (formatDate : AppLocale -> num -> jsstr).

Definition install_band (l : AppLocale) (now : num) (p : page) : html (M unit) :=
  El "section" [Cls (js "probe-install-band")] [
    El "div" [] [
      El "span" [] [Text (js "01 / UNIX · OPENWRT · NAS")];
      El "p" [] [
        Text (text l (js "下载 Hostpin Agent，并以延迟测量模式注册。") (js "Download the Hostpin Agent and enroll it in latency-only mode."))];
      El "div" [Cls (js "command-line")] [
        El "code" [] [Text (LatencyAdminResponse.install_command (data p))];
        El "button" [On "click" (copy (LatencyAdminResponse.install_command (data p)) (js "unix"))] [
          Text (if streq (copied p) (js "unix") then text l (js "已复制") (js "Copied") else text l (js "复制") (js "Copy"))]]];
    El "div" [] [
      El "span" [] [Text (js "02 / WINDOWS")];
      El "p" [] [
        Text (text l (js "下载并检查安装器，然后使用 ProbeNode 参数运行。") (js
            "Download and inspect the installer, then run it with the ProbeNode switch."))];
      El "div" [Cls (js "command-line")] [
        El "code" [] [Text (LatencyAdminResponse.windows_install_command (data p))];
        El "button" [On "click" (copy (LatencyAdminResponse.windows_install_command (data p)) (js "windows"))] [
          Text (if streq (copied p) (js "windows") then text l (js "已复制") (js "Copied") else text l (js "复制") (js "Copy"))]]];
    El "aside" [] [
      El "b" [] [Text (text l (js "仅出站连接") (js "Outbound only"))];
      El "span" [] [Text ((text l (js "测量节点") (js "Probe Node") ++ js " → HTTPS/WSS → Hostpin")%list)];
      El "small" [] [Text (text l (js "支持 NAT / CGNAT") (js "NAT / CGNAT safe"))]]].

Definition node_table (l : AppLocale) (now : num) (p : page) : html (M unit) :=
  El "div" [Cls (js "data-table-wrap")] [
    El "table" [Cls (js "admin-table latency-node-table")] [
      El "thead" [] [
        El "tr" [] [
          El "th" [] [Text (text l (js "测量点") (js "Measurement point"))];
          El "th" [] [Text (text l (js "平台") (js "Platform"))];
          El "th" [] [Text (text l (js "最后上报") (js "Last report"))];
          El "th" [] [Text (text l (js "链路健康") (js "Path health"))];
          El "th" [] [Text (text l (js "可见性") (js "Visibility"))];
          El "th" [] []]];
      El "tbody" [] [
        Frag (map (fun node =>
          El "tr" [Key (KeyS (PublicNode.id (AdminNode.base node)))] [
            El "td" [] [
              El "b" [] [
                El "span" [Cls (js "status-dot"); Cls (if isOnline p now node then js "online" else js "offline")] [];
                Text (PublicNode.name (AdminNode.base node))];
              El "small" [] [
                Text ((or_else (or_option (PublicNode.region (AdminNode.base node)) (PublicNode.country_code (AdminNode.base
                    node))) (text l (js "未设置地区") (js "No location")) ++ js " · " ++ PublicNode.id
                    (AdminNode.base node))%list)]];
            El "td" [] [
              Text (or_else (PublicNode.os (AdminNode.base node)) (js "—"));
              El "small" [] [
                Text ((or_else (PublicNode.arch (AdminNode.base node)) (js "—") ++ js " · " ++ (if bool_decide (PublicNode.role
                    (AdminNode.base node) = monitor) then text l (js "监控兼任") (js "Monitor + latency") else text
                    l (js "纯测量") (js "Probe only")))%list)]];
            El "td" [] [
              Text (relativeTime l now (PublicNode.last_seen_at (AdminNode.base node)));
              El "small" [] [text_or_raise (dateTime formatDate l (PublicNode.last_seen_at (AdminNode.base node)))]];
            El "td" [] [
              El "strong" [] [Text ((toFixed (successRate p (PublicNode.id (AdminNode.base node))) 0 ++ js "%")%list)];
              El "small" [] [
                Text (text l (((match length <$> (latestByProbe p !! node_id node) with Some x => toString (of_nat x) | None =>
                    toString #0 end) ++ js " 条当前链路")%list) (((match length <$> (latestByProbe p !! node_id node)
                    with Some x => toString (of_nat x) | None => toString #0 end) ++ js " current paths")%list))]];
            El "td" [] [
              El "span" [Cls (js "tag"); ClsIf "warning" (PublicNode.hidden (AdminNode.base node))] [
                Text (if PublicNode.hidden (AdminNode.base node) then text l (js "私有") (js "Private") else text l (js "公开") (js
                    "Public"))]];
            El "td" [Cls (js "row-actions")] [
              El "button" [On "click" (editNode node)] [Text (text l (js "编辑") (js "Edit"))];
              El "button" [ClsIf "danger" (negb (bool_decide (PublicNode.role (AdminNode.base node) = monitor)));
                  OnValue "click" bool (fun confirmed => removeNode confirmed node)] [
                Text (if bool_decide (PublicNode.role (AdminNode.base node) = monitor) then text l (js "停用延迟") (js
                    "Disable latency") else text l (js "删除") (js "Delete"))]]]) (LatencyAdminResponse.nodes (data p)));
        if (Nat.eqb (length (LatencyAdminResponse.nodes (data p))) 0) then
          El "tr" [] [
            El "td" [Attr "colspan" (js "6")] [
              El "div" [Cls (js "table-empty")] [
                Text (text l (js "请在节点管理中开启延迟测量，或运行上方命令安装纯测量节点。") (js
                    "Enable latency measurement for a monitored node, or install a probe-only node with the command above."
                    ))]]]
        else Nothing]]].

Definition target_table (l : AppLocale) (now : num) (p : page) : html (M unit) :=
  El "div" [Cls (js "data-table-wrap")] [
    El "table" [Cls (js "admin-table")] [
      El "thead" [] [
        El "tr" [] [
          El "th" [] [Text (text l (js "服务器") (js "Server"))];
          El "th" [] [Text (text l (js "方式 / 地址") (js "Method / address"))];
          El "th" [] [Text (text l (js "频率") (js "Cadence"))];
          El "th" [] [Text (text l (js "公开显示") (js "Public matrix"))];
          El "th" [] [Text (text l (js "状态") (js "State"))];
          El "th" [] []]];
      El "tbody" [] [
        Frag (map (fun task =>
          El "tr" [Key (KeyN (ProbeTask.id task))] [
            El "td" [] [
              El "b" [] [Text (monitorName p (ProbeTask.target_node_id task))];
              El "small" [] [Text ((text l (js "任务") (js "Task") ++ js " #" ++ toString (ProbeTask.id task))%list)]];
            El "td" [] [
              El "span" [Cls (js "tag")] [Text (toUpperCase (type_str (ProbeTask.type task)))];
              Text (js " ");
              El "code" [] [Text (ProbeTask.target task)]];
            El "td" [] [
              Text (text l ((js "每轮 " ++ toString (ProbeTask.samples task) ++ js " 次 / " ++ toString (ProbeTask.interval_seconds
                  task) ++ js "s")%list) ((toString (ProbeTask.samples task) ++ js " samples / " ++ toString
                  (ProbeTask.interval_seconds task) ++ js "s")%list));
              El "small" [] [
                Text (text l ((js "每次超时 " ++ toString (ProbeTask.timeout_seconds task) ++ js "s")%list) ((toString
                    (ProbeTask.timeout_seconds task) ++ js "s timeout each")%list))]];
            El "td" [] [
              El "span" [Cls (js "tag"); ClsIf "warning" (negb (ProbeTask.public task))] [
                Text (if ProbeTask.public task then text l (js "可见") (js "Visible") else text l (js "仅管理员") (js "Admin only"))]];
            El "td" [] [
              Text (if ProbeTask.enabled task then text l (js "启用") (js "Active") else text l (js "暂停") (js "Paused"))];
            El "td" [Cls (js "row-actions")] [
              El "button" [On "click" (modify (set_target (Some task)))] [Text (text l (js "编辑") (js "Edit"))];
              El "button" [Cls (js "danger"); OnValue "click" bool (fun confirmed => removeTarget confirmed task)] [
                Text (text l (js "删除") (js "Delete"))]]]) (LatencyAdminResponse.targets (data p)));
        if (Nat.eqb (length (LatencyAdminResponse.targets (data p))) 0) then
          El "tr" [] [
            El "td" [Attr "colspan" (js "6")] [
              El "div" [Cls (js "table-empty")] [
                Text (text l (js "添加一个受监控服务器以开始生成延迟矩阵。") (js "Add a monitored server to start building the latency matrix."))]]]
        else Nothing]]].

Definition target_drawer (l : AppLocale) (now : num) (p : page) (edited : ProbeTask.t) : html (M unit) :=
  El "div" [Cls (js "modal-backdrop"); On "click.self" (modify (set_target None))] [
    El "form" [Cls (js "drawer"); On "submit.prevent" (saveTarget l)] [
      El "header" [] [
        El "div" [] [
          El "span" [] [Text (text l (js "延迟目标") (js "Latency target"))];
          El "h2" [] [
            Text (if truthy_num (ProbeTask.id edited) then text l (js "编辑目标") (js "Edit target") else text l (js "新建目标") (js
                "New target"))]];
        El "button" [Attr "type" (js "button"); On "click" (modify (set_target None))] [Text (js "×")]];
      El "div" [Cls (js "drawer-body")] [
        El "div" [Cls (js "form-grid")] [
          El "label" [Cls (js "wide")] [
            El "span" [] [Text (text l (js "受监控服务器") (js "Monitored server"))];
            El "select" [
                Model jsstr (nullish (ProbeTask.target_node_id edited) []) (fun v => edit_editingTarget (fun x => set_ProbeTask_target_node_id (Some v) x));
                Flag "required" true; On "change" (modify selectTargetNode)] [
              Frag (map (fun node =>
                El "option" [Key (KeyS (PublicNode.id (AdminNode.base node)));
                    Attr "value" (PublicNode.id (AdminNode.base node))] [
                  Text ((PublicNode.name (AdminNode.base node) ++ js " · " ++ or_else (or_option (PublicNode.region
                      (AdminNode.base node)) (AdminNode.ipv4 node)) (text l (js "无地区") (js "No region"
                      )))%list)]) (LatencyAdminResponse.monitored_nodes (data p)))]];
          El "label" [] [
            El "span" [] [Text (text l (js "测量方式") (js "Measurement type"))];
            El "select" [
                Model ProbeTask.type_ (ProbeTask.type edited) (fun v => edit_editingTarget (fun x => set_ProbeTask_type v x));
                On "change" (modify changeTargetType)] [
              El "option" [Attr "value" (js "icmp")] [Text (js "ICMP Ping")];
              El "option" [Attr "value" (js "tcp")] [Text (js "TCP Connect")]]];
          El "label" [] [
            El "span" [] [Text (text l (js "每轮次数") (js "Samples per round"))];
            El "input" [
                Model num (ProbeTask.samples edited) (fun v => edit_editingTarget (fun x => set_ProbeTask_samples v x));
                Attr "type" (js "number"); Attr "min" (js "1"); Attr "max" (js "10")] []];
          El "label" [Cls (js "wide")] [
            El "span" [] [Text (text l (js "目标地址") (js "Target address"))];
            El "input" [
                Model jsstr (ProbeTask.target edited) (fun v => edit_editingTarget (fun x => set_ProbeTask_target v x));
                Flag "required" true;
                Attr "placeholder" (if bool_decide (ProbeTask.type edited = ProbeTask.tcp) then js "server.example.com:443" else js "server.example.com")] [];
            El "small" [] [
              Text (text l (js "本地路由器视角可填写局域网地址；公网测量节点请填写公网域名或 IP。") (js
                  "Use a LAN address for a private router perspective, or a public hostname/IP for global probes."
                  ))]];
          El "label" [] [
            El "span" [] [Text (text l (js "间隔（秒）") (js "Interval (seconds)"))];
            El "input" [
                Model num (ProbeTask.interval_seconds edited) (fun v => edit_editingTarget (fun x => set_ProbeTask_interval_seconds v x));
                Attr "type" (js "number"); Attr "min" (js "5"); Attr "max" (js "86400")] []];
          El "label" [] [
            El "span" [] [Text (text l (js "单次超时（秒）") (js "Timeout per attempt"))];
            El "input" [
                Model num (ProbeTask.timeout_seconds edited) (fun v => edit_editingTarget (fun x => set_ProbeTask_timeout_seconds v x));
                Attr "type" (js "number"); Attr "min" (js "1"); Attr "max" (js "60")] []]];
        El "div" [Cls (js "check-row")] [
          El "label" [] [
            El "input" [Model bool (ProbeTask.public edited) (fun v => edit_editingTarget (fun x => set_ProbeTask_public v x));
                Attr "type" (js "checkbox")] [];
            El "span" [] [Text (text l (js "在公开延迟页显示") (js "Show on public latency page"))]];
          El "label" [] [
            El "input" [
                Model bool (ProbeTask.enabled edited) (fun v => edit_editingTarget (fun x => set_ProbeTask_enabled v x));
                Attr "type" (js "checkbox")] [];
            El "span" [] [Text (text l (js "启用目标") (js "Target enabled"))]]];
        if truthy (error p) then El "div" [Cls (js "form-error")] [Text (error p)] else Nothing];
      El "footer" [] [
        El "button" [Attr "type" (js "button"); On "click" (modify (set_target None))] [Text (text l (js "取消") (js "Cancel"))];
        El "button" [Cls (js "primary-action"); Flag "disabled" (busy p)] [
          Text (if busy p then text l (js "正在保存…") (js "Saving…") else text l (js "保存目标") (js "Save target"))]]]].

Definition node_drawer (l : AppLocale) (now : num) (p : page) (edited : AdminNode.t) : html (M unit) :=
  El "div" [Cls (js "modal-backdrop"); On "click.self" close_node] [
    El "form" [Cls (js "drawer"); On "submit.prevent" (saveNode l)] [
      El "header" [] [
        El "div" [] [
          El "span" [] [
            Text ((text l (js "测量节点") (js "Measurement node") ++ js " / " ++ slice (PublicNode.id (AdminNode.base edited)) 0
                8)%list)];
          El "h2" [] [
            Text (text l ((js "编辑 " ++ PublicNode.name (AdminNode.base edited))%list) ((js "Edit " ++ PublicNode.name
                (AdminNode.base edited))%list))]];
        El "button" [Attr "type" (js "button"); On "click" close_node] [Text (js "×")]];
      El "div" [Cls (js "drawer-body")] [
        El "div" [Cls (js "form-grid")] [
          El "label" [] [
            El "span" [] [Text (text l (js "显示名称") (js "Display name"))];
            El "input" [
                Model jsstr (PublicNode.name (AdminNode.base edited)) (fun v => edit_editingNode (fun x => set_AdminNode_name v x));
                Flag "required" true; Attr "maxlength" (js "128")] []];
          El "label" [] [
            El "span" [] [Text (text l (js "地区 / 运营商") (js "Region / ISP"))];
            El "input" [
                Model jsstr (nullish (PublicNode.region (AdminNode.base edited)) []) (fun v => edit_editingNode (fun x => set_AdminNode_region (Some v) x));
                Attr "maxlength" (js "128")] []];
          El "label" [] [
            El "span" [] [Text (text l (js "国家代码") (js "Country code"))];
            El "input" [
                Model jsstr (nullish (PublicNode.country_code (AdminNode.base edited)) []) (fun v => edit_editingNode (fun x => set_AdminNode_country_code (Some v) x));
                Attr "maxlength" (js "2")] []];
          El "label" [Cls (js "wide")] [
            El "span" [] [Text (text l (js "标签（逗号分隔）") (js "Tags (comma separated)"))];
            El "input" [Model jsstr (tagsText p) (fun v => modify (set_tagsText v))] []];
          El "label" [Cls (js "wide")] [
            El "span" [] [Text (text l (js "公开备注") (js "Public remark"))];
            El "textarea" [
                Model jsstr (nullish (PublicNode.public_remark (AdminNode.base edited)) []) (fun v => edit_editingNode (fun x => set_AdminNode_public_remark (Some v) x));
                Attr "rows" (js "2")] []];
          El "label" [Cls (js "wide")] [
            El "span" [] [Text (text l (js "私有备注") (js "Private remark"))];
            El "textarea" [
                Model jsstr (nullish (AdminNode.private_remark edited) []) (fun v => edit_editingNode (fun x => set_AdminNode_private_remark (Some v) x));
                Attr "rows" (js "2")] []]];
        match agentConfig p with
        | Some c =>
            Frag [
              El "div" [Cls (js "panel-label")] [
                El "span" [] [Text (text l (js "测量配置") (js "Probe runtime"))];
                El "b" [] [Text ((js "V" ++ toString (AgentConfig.config_version c))%list)]];
              El "div" [Cls (js "form-grid")] [
                El "label" [] [
                  El "span" [] [Text (text l (js "心跳间隔（秒）") (js "Heartbeat (seconds)"))];
                  El "input" [
                      Model num (AgentConfig.collect_interval_seconds c) (fun v => edit_agentConfig (fun x => set_AgentConfig_collect_interval_seconds v x));
                      Attr "type" (js "number"); Attr "min" (js "1"); Attr "max" (js "300")] []];
                El "label" [] [
                  El "span" [] [Text (text l (js "最大并发数") (js "Max concurrency"))];
                  El "input" [
                      Model num (AgentConfig.probe_concurrency c) (fun v => edit_agentConfig (fun x => set_AgentConfig_probe_concurrency v x));
                      Attr "type" (js "number"); Attr "min" (js "1"); Attr "max" (js "32")] []]]]
        | None => Nothing
        end;
        El "div" [Cls (js "check-row")] [
          El "label" [] [
            El "input" [
                Model bool (PublicNode.hidden (AdminNode.base edited)) (fun v => edit_editingNode (fun x => set_AdminNode_hidden v x));
                Attr "type" (js "checkbox")] [];
            El "span" [] [Text (text l (js "设为私有测量点") (js "Keep this measurement point private"))]];
          match agentConfig p with
          | Some c =>
              El "label" [] [
                El "input" [
                    Model bool (AgentConfig.auto_update c) (fun v => edit_agentConfig (fun x => set_AgentConfig_auto_update v x));
                    Attr "type" (js "checkbox")] [];
                El "span" [] [Text (text l (js "启用签名自动更新") (js "Signed automatic updates"))]]
          | None => Nothing
          end];
        if truthy (error p) then El "div" [Cls (js "form-error")] [Text (error p)] else Nothing];
      El "footer" [] [
        El "button" [Attr "type" (js "button"); On "click" close_node] [Text (text l (js "取消") (js "Cancel"))];
        El "button" [Cls (js "primary-action"); Flag "disabled" ((busy p) || (negb (bool_decide (is_Some (agentConfig p)))))] [
          Text (if busy p then text l (js "正在保存…") (js "Saving…") else text l (js "保存节点") (js "Save node"))]]]].

Definition view (l : AppLocale) (now : num) (p : page) : html (M unit) :=
  El "section" [Cls (js "admin-page latency-admin-page")] [
    El "header" [Cls (js "page-title")] [
      El "div" [] [
        El "span" [Cls (js "eyebrow")] [Text (text l (js "分布式延迟测量") (js "Distributed latency measurement"))];
        El "h1" [] [Text (text l (js "延迟节点") (js "Latency nodes"))];
        El "p" [] [
          Text (text l (js "在公网地区、办公室、家庭网络或 OpenWrt 路由器部署仅出站的测量节点，无需公网 IP 或入站端口。") (js
              "Deploy outbound-only measurement points in public regions, offices, homes, or OpenWrt routers. No public IP or inbound port is required."
              ))]];
      El "RouterLink" [Cls (js "primary-action compact-action"); Attr "to" (js "/latency")] [
        Text ((text l (js "查看延迟矩阵") (js "Open matrix") ++ js " ↗")%list)]];
    install_band l now p;
    El "div" [Cls (js "section-heading compact-heading admin-section-heading")] [
      El "div" [] [
        El "span" [Cls (js "section-number")] [Text (js "01")];
        El "h2" [] [Text (text l (js "测量节点") (js "Measurement points"))];
        El "p" [] [
          Text (text l (js "普通监控节点可在“节点”编辑页开启延迟测量；纯测量节点仍可使用上方命令安装。") (js
              "Enable latency measurement while editing a regular node, or install a lightweight probe-only node with the command above."
              ))]];
      El "b" [Cls (js "page-count")] [
        Text (text l ((toString (of_nat (length (LatencyAdminResponse.nodes (data p)))) ++ js " 个")%list) ((toString (of_nat
            (length (LatencyAdminResponse.nodes (data p)))) ++ js " probes")%list))]];
    node_table l now p;
    El "div" [Cls (js "section-heading compact-heading admin-section-heading")] [
      El "div" [] [
        El "span" [Cls (js "section-number")] [Text (js "02")];
        El "h2" [] [Text (text l (js "服务器目标") (js "Server targets"))];
        El "p" [] [
          Text (text l (js "目标会自动下发到所有已连接的测量节点。") (js
              "Targets are distributed automatically to every connected measurement node."))]];
      El "button" [Cls (js "primary-action compact-action");
          Flag "disabled" (Nat.eqb (length (LatencyAdminResponse.monitored_nodes (data p))) 0);
          On "click" (modify (fun p => set_target (Some (blankTarget p)) p))] [
        Text ((js "+ " ++ text l (js "添加目标") (js "Add target"))%list)]];
    target_table l now p;
    match editingTarget p with Some edited => target_drawer l now p edited | None => Nothing end;
    match editingNode p with Some edited => node_drawer l now p edited | None => Nothing end].

End View.

(** ** One save at a time *)

(** What the host starts on its own: the load on mounting, the end of a copy's
    notice. *)
Inductive background : M unit -> Prop :=
| B_load : background load
| B_copied : background copied_expires.

(** The requests of [saveTarget] and [saveNode]. *)
Definition saving (c : call Req) : bool :=
  match c with
  | One (PostTarget _) | One (PutTarget _ _) | All2 (One (PutNode _ _)) (One (PutConfig _ _)) => true
  | _ => false
  end.

Ltac latency_prog :=
  repeat first [outside_step | working_step | progress unfold send, load, copied_expires, copy, editNode, close_node, removeNode,
                  removeTarget, unless, edit_editingTarget, edit_editingNode, edit_agentConfig, changeTargetType];
  try done; intros; try assumption; try (unfold selectTargetNode; repeat (case_match; cbn); done).

Section Safety.
Context `{Unicode} `{DateHost} (formatDate : AppLocale -> num -> jsstr).

Lemma saveTarget_obeys l p : busy p = false -> obeys busy (during saving) (saveTarget l) false p p.
Proof.
  intros Hb. apply obeys_get. destruct (editingTarget p) as [t|]; [|apply obeys_ret]. apply operation_starts; [latency_prog|done..].
Qed.

Lemma saveNode_obeys l p : busy p = false -> obeys busy (during saving) (saveNode l) false p p.
Proof.
  intros Hb. apply obeys_get. destruct (editingNode p) as [n|]; [|apply obeys_ret]. destruct (agentConfig p) as [c|]; [|apply obeys_ret].
  apply operation_starts; [latency_prog|done..].
Qed.

Lemma latency_view_saves l now p : acts (fun q => obeys busy (during saving) q false p p) (view formatDate l now p).
Proof.
  unfold view, install_band, node_table, target_table, target_drawer, node_drawer. view_acts; first
    [ apply saveTarget_obeys; enabled_unless (busy p)
    | apply saveNode_obeys; enabled_unless (busy p)
    | apply outside_bystander; latency_prog ].
Qed.

(** C34: through the markup of the latency administration at most one of the two
    drawers is being saved (a call of its save is awaited) at any time, and one
    only while the page is busy. *)
Theorem one_save_at_a_time l now c : ui_reachable (view formatDate l now) background init c ->
  (length (under_way saving (tasks c)) <= if busy (store c) then 1 else 0)%nat.
Proof.
  intros Hr. apply under_way_at_most.
  refine (ui_one_at_a_time _ _ _ background init c (latency_view_saves l now) _ eq_refl Hr).
  intros p Hp. apply outside_bystander. destruct Hp; latency_prog.
Qed.

End Safety.

(** The disabled button of the node drawer does not prevent the defect of
    [AdminLatency.previous_config_saved]: it looks at whether there is a
    configuration, not at whose it is. *)
Definition a_node (id : jsstr) : AdminNode.t :=
  AdminNode.mk (PublicNode.mk id monitor true id None None None None None [] None false (#0) (#0) [] (#0)
    None false (#0) [] (#0) None None None None None None [] [] None true) None None None None None.
Definition config_a : AgentConfig.t := AgentConfig.mk (#2) (#60) None None None false true (#4) (#1).
Definition two_nodes : Env := fun r =>
  match r with
  | GetLatency => inl (LatencyAdminResponse.mk [a_node (js "a"); a_node (js "b")] [] [] [] (#90000) [] [] [])
  | GetConfig id => if streq id (js "a") then inl config_a else inr (OtherError (js "timeout"))
  | PostTarget _ | PutTarget _ _ | DeleteTarget _ | PutNode _ _ | PutConfig _ _ | DeleteNode _ | WriteClipboard _ => inl tt
  end.

(** With six clicks on the page as it is drawn, the configuration of node a is
    sent to node b: open a, close it, open b, whose configuration fails to load,
    and save; the button is enabled, because a's configuration is still there. *)
Theorem previous_config_sent `{Unicode} `{DateHost} formatDate now : exists c,
  ui_reachable (view formatDate en_US now) background init c /\
  exists b', node_id b' = js "b" /\
    map waits_for (tasks c) = [All2 (One (PutNode (js "b") b')) (One (PutConfig (js "b") config_a))].
Proof.
  pose (c1 := answer_at two_nodes 0 (spawn load (Config init []))).
  pose (c2 := answer_at two_nodes 0 (spawn (editNode (a_node (js "a"))) c1)).
  pose (c3 := spawn close_node c2).
  pose (c4 := answer_at two_nodes 0 (spawn (editNode (a_node (js "b"))) c3)).
  exists (spawn (saveNode en_US) c4). split; [|eexists; split; [|reflexivity]; reflexivity].
  eapply rtc_l; [apply Ui_host, B_load|].
  eapply rtc_l; [apply (ui_answer_at _ _ two_nodes 0); eexists; reflexivity|].
  eapply rtc_l; [apply Ui_offered, (offered_click _ 2); reflexivity|].
  eapply rtc_l; [apply (ui_answer_at _ _ two_nodes 0); eexists; reflexivity|].
  eapply rtc_l; [apply Ui_offered, (offered_click _ 6 close_node); reflexivity|].
  eapply rtc_l; [apply Ui_offered, (offered_click _ 3 (editNode (a_node (js "b")))); reflexivity|].
  eapply rtc_l; [apply (ui_answer_at _ _ two_nodes 0); eexists; reflexivity|].
  eapply rtc_l; [apply Ui_offered, (offered_click _ 5 (saveNode en_US)); reflexivity|apply rtc_refl].
Qed.

Lemma one_save_at_a_time_witness :
  let c1 := answer_at two_nodes 0 (spawn load (Config init [])) in
  let c2 := answer_at two_nodes 0 (spawn (editNode (a_node (js "a"))) c1) in
  let c := spawn (saveNode en_US) c2 in
  length (under_way saving (tasks c)) = 1%nat /\ (length (under_way saving (tasks c)) <= 1)%nat.
Proof.
  intros c1 c2 c. split; [reflexivity|].
  refine (@one_save_at_a_time small_unicode utc_host (fun _ _ => []) en_US (#0) c _).
  eapply rtc_l; [apply Ui_host, B_load|].
  eapply rtc_l; [apply (ui_answer_at _ _ two_nodes 0); eexists; reflexivity|].
  eapply rtc_l; [apply Ui_offered, (offered_click _ 2); reflexivity|].
  eapply rtc_l; [apply (ui_answer_at _ _ two_nodes 0); eexists; reflexivity|].
  eapply rtc_l; [apply Ui_offered, (offered_click _ 5 (saveNode en_US)); reflexivity|apply rtc_refl].
Defined.
