(* ===== verification/AdminNodesTemplate.v ===== *)
(** * AdminNodesTemplate: the markup of the node administration
    (the template of web/src/components/admin/AdminNodes.vue) *)

From Stdlib Require Import Strings.String.
From S2P Require Import Prelude JsString Binary64 JsNumber JsDate Async I18n Traffic Types Encode Format AdminForms AdminNodes Html Updates Mutex.

(** The keys of [trafficCorrectionUnits]. *)
Definition unit_str (u : TrafficCorrectionUnit) : jsstr :=
  match u with B => js "B" | KiB => js "KiB" | MiB => js "MiB" | GiB => js "GiB" | TiB => js "TiB" end.
Definition correctionUnits : list TrafficCorrectionUnit := [B; KiB; MiB; GiB; TiB].

(** A field of the drawer writes the edited record, if one is open. *)
Definition edit_editing (f : AdminNode.t -> AdminNode.t) : M unit := modify (fun p => set_editing (f <$> editing p) p).
Definition edit_agentConfig (f : AgentConfig.t -> AgentConfig.t) : M unit := modify (fun p => set_agentConfig (f <$> agentConfig p) p).

(** The other inputs of the drawer. *)
Definition type_lists (t x i o m : jsstr) (g : num) (p : page) : page := set_editor (editing p) (agentConfig p) t x i o m g p.
Definition set_tags (v : jsstr) (p : page) : page :=
  type_lists v (expires p) (includeNICs p) (excludeNICs p) (includeMounts p) (trafficLimitGiB p) p.
Definition set_expires (v : jsstr) (p : page) : page :=
  type_lists (tags p) v (includeNICs p) (excludeNICs p) (includeMounts p) (trafficLimitGiB p) p.
Definition set_includeNICs (v : jsstr) (p : page) : page :=
  type_lists (tags p) (expires p) v (excludeNICs p) (includeMounts p) (trafficLimitGiB p) p.
Definition set_excludeNICs (v : jsstr) (p : page) : page :=
  type_lists (tags p) (expires p) (includeNICs p) v (includeMounts p) (trafficLimitGiB p) p.
Definition set_includeMounts (v : jsstr) (p : page) : page :=
  type_lists (tags p) (expires p) (includeNICs p) (excludeNICs p) v (trafficLimitGiB p) p.
Definition set_trafficLimitGiB (v : num) (p : page) : page :=
  type_lists (tags p) (expires p) (includeNICs p) (excludeNICs p) (includeMounts p) v p.
Definition set_correctionRX (v : num) (p : page) : page := set_correction (trafficCorrection p) v (correctionTX p) (correctionUnit p) p.
Definition set_correctionTX (v : num) (p : page) : page := set_correction (trafficCorrection p) (correctionRX p) v (correctionUnit p) p.

Section View.
Context `{MathLog} `{DateHost} (invalid_time : jsstr) (formatDate : AppLocale -> num -> jsstr).

(** The line below the corrected totals; formatting an invalid date throws. *)
Definition correction_note (l : AppLocale) (c : TrafficCorrectionStatus.t) : option jsstr :=
  if truthy (nullish (TrafficCorrectionStatus.updated_at c) []) then
    (fun d => text l (js "上次调整：" ++ d)%list (js "Last adjusted: " ++ d)%list) <$> dateTime formatDate l (TrafficCorrectionStatus.updated_at c)
  else Some (text l (js "校正只影响当前周期，下个周期自动失效。") (js "Corrections apply only to this period and expire automatically.")).

Definition view (l : AppLocale) (origin : jsstr) (p : page) : html (M unit) :=
  El "section" [Cls (js "admin-page")] [
    El "header" [Cls (js "page-title")] [
      El "div" [] [
        El "span" [Cls (js "eyebrow")] [Text (text l (js "节点管理") (js "Node management"))];
        El "h1" [] [Text (text l (js "节点") (js "Nodes"))];
        El "p" [] [Text (text l (js "编辑节点信息、可见性、计费和采集策略。") (js "Edit metadata, visibility, billing, and collection policy."))]];
      El "b" [Cls (js "page-count")] [
        Text (text l ((toString (of_nat (length (nodes p))) ++ js " 个节点")%list) ((toString (of_nat (length (nodes p))) ++ js
            " nodes")%list))]];
    El "div" [Cls (js "data-table-wrap")] [
      El "table" [Cls (js "admin-table")] [
        El "thead" [] [
          El "tr" [] [
            El "th" [] [Text (text l (js "节点") (js "Node"))];
            El "th" [] [Text (text l (js "分组 / 地区") (js "Group / region"))];
            El "th" [] [Text (text l (js "平台") (js "Platform"))];
            El "th" [] [Text (text l (js "最后上报") (js "Last report"))];
            El "th" [] [Text (text l (js "可见性") (js "Visibility"))];
            El "th" [] []]];
        El "tbody" [] [
          Frag (map (fun node =>
            El "tr" [Key (KeyS (PublicNode.id (AdminNode.base node)))] [
              El "td" [] [
                El "b" [] [Text (PublicNode.name (AdminNode.base node))];
                El "small" [] [Text (PublicNode.id (AdminNode.base node))]];
              El "td" [] [
                Text (or_else (PublicNode.group (AdminNode.base node)) (js "—"));
                El "small" [] [
                  Text (or_else (or_option (PublicNode.region (AdminNode.base node)) (PublicNode.country_code (AdminNode.base
                      node))) (js "—"))]];
              El "td" [] [
                Text (or_else (PublicNode.os (AdminNode.base node)) (js "—"));
                El "small" [] [
                  Text ((nullish (PublicNode.arch (AdminNode.base node)) [] ++ js " · " ++ (match PublicNode.cpu_cores
                      (AdminNode.base node) with Some x => toString x | None => [] end) ++ js "C")%list)]];
              El "td" [] [text_or_raise (dateTime formatDate l (PublicNode.last_seen_at (AdminNode.base node)))];
              El "td" [] [
                El "span" [Cls (js "tag"); ClsIf "warning" (PublicNode.hidden (AdminNode.base node))] [
                  Text (if PublicNode.hidden (AdminNode.base node) then text l (js "隐藏") (js "Hidden") else text l (js "公开") (js
                      "Public"))];
                Text (js " ");
                if PublicNode.latency_enabled (AdminNode.base node) then
                  El "span" [Cls (js "tag")] [Text (text l (js "延迟") (js "Latency"))]
                else Nothing];
              El "td" [Cls (js "row-actions")] [
                El "button" [On "click" (edit l node)] [Text (text l (js "编辑") (js "Edit"))];
                El "button" [Cls (js "danger"); OnValue "click" bool (fun confirmed => remove confirmed node)] [
                  Text (text l (js "删除") (js "Delete"))]]]) (nodes p))]]];
    El "section" [Cls (js "admin-panel enroll-panel agent-uninstall-panel")] [
      El "div" [Cls (js "panel-label")] [
        El "span" [] [Text (text l (js "一行卸载 Agent") (js "One-line Agent uninstall"))];
        El "b" [] [Text (text l (js "保留身份") (js "SAFE"))]];
      El "p" [] [
        Text (text l (js "请在 Agent 所在设备上，以安装时相同的用户运行。默认保留节点身份，今后重装仍可继续使用原节点。") (js
            "Run on the Agent host as the same user that installed it. The node identity is preserved for a later reinstall."
            ))];
      El "div" [Cls (js "command-line")] [
        El "code" [] [Text (uninstallCommand origin)];
        El "button" [On "click" (copyUninstallCommand origin)] [
          Text (if uninstallCopied p then text l (js "已复制") (js "Copied") else text l (js "复制") (js "Copy"))]];
      El "small" [] [
        Text ((text l (js "系统级安装请使用 sudo sh；Windows 管理员 PowerShell：") (js
            "For a system install use sudo sh. Administrator PowerShell:") ++ js " ")%list);
        El "b" [] [Text (windowsUninstallCommand origin)]]];
    match editing p with
    | Some edited =>
        El "div" [Cls (js "modal-backdrop"); On "click.self" close_editor] [
          El "form" [Cls (js "drawer"); On "submit.prevent" (save invalid_time l)] [
            El "header" [] [
              El "div" [] [
                El "span" [] [
                  Text ((text l (js "节点") (js "Node") ++ js " / " ++ slice (PublicNode.id (AdminNode.base edited)) 0 8)%list)];
                El "h2" [] [
                  Text (text l ((js "编辑 " ++ PublicNode.name (AdminNode.base edited))%list) ((js "Edit " ++ PublicNode.name
                      (AdminNode.base edited))%list))]];
              El "button" [Attr "type" (js "button"); On "click" close_editor] [Text (js "×")]];
            El "div" [Cls (js "drawer-body")] [
              El "div" [Cls (js "form-grid")] [
                El "label" [] [
                  El "span" [] [Text (text l (js "显示名称") (js "Display name"))];
                  El "input" [
                      Model jsstr (PublicNode.name (AdminNode.base edited)) (fun v => edit_editing (fun x => set_AdminNode_name v x));
                      Flag "required" true; Attr "maxlength" (js "128")] []];
                El "label" [] [
                  El "span" [] [Text (text l (js "分组") (js "Group"))];
                  El "input" [
                      Model jsstr (nullish (PublicNode.group (AdminNode.base edited)) []) (fun v => edit_editing (fun x => set_AdminNode_group (Some v) x))] []];
                El "label" [] [
                  El "span" [] [Text (text l (js "地区") (js "Region"))];
                  El "input" [
                      Model jsstr (nullish (PublicNode.region (AdminNode.base edited)) []) (fun v => edit_editing (fun x => set_AdminNode_region (Some v) x))] []];
                El "label" [] [
                  El "span" [] [Text (text l (js "国家代码") (js "Country code"))];
                  El "input" [
                      Model jsstr (nullish (PublicNode.country_code (AdminNode.base edited)) []) (fun v => edit_editing (fun x => set_AdminNode_country_code (Some v) x));
                      Attr "maxlength" (js "2")] []];
                El "label" [Cls (js "wide")] [
                  El "span" [] [Text (text l (js "标签（逗号分隔）") (js "Tags (comma separated)"))];
                  El "input" [Model jsstr (tags p) (fun v => modify (set_tags v))] []];
                El "label" [Cls (js "wide")] [
                  El "span" [] [Text (text l (js "公开备注") (js "Public remark"))];
                  El "textarea" [
                      Model jsstr (nullish (PublicNode.public_remark (AdminNode.base edited)) []) (fun v => edit_editing (fun x => set_AdminNode_public_remark (Some v) x));
                      Attr "rows" (js "3")] []];
                El "label" [Cls (js "wide")] [
                  El "span" [] [Text (text l (js "私有备注") (js "Private remark"))];
                  El "textarea" [
                      Model jsstr (nullish (AdminNode.private_remark edited) []) (fun v => edit_editing (fun x => set_AdminNode_private_remark (Some v) x));
                      Attr "rows" (js "3")] []];
                El "label" [] [
                  El "span" [] [Text (text l (js "价格") (js "Price"))];
                  El "input" [
                      Model num (PublicNode.price (AdminNode.base edited)) (fun v => edit_editing (fun x => set_AdminNode_price v x));
                      Attr "type" (js "number"); Attr "min" (js "0"); Attr "step" (js "0.01")] []];
                El "label" [] [
                  El "span" [] [Text (text l (js "币种") (js "Currency"))];
                  El "input" [
                      Model jsstr (PublicNode.currency (AdminNode.base edited)) (fun v => edit_editing (fun x => set_AdminNode_currency v x))] []];
                El "label" [] [
                  El "span" [] [Text (text l (js "计费周期（天）") (js "Billing cycle (days)"))];
                  El "input" [
                      Model num (PublicNode.billing_cycle_days (AdminNode.base edited)) (fun v => edit_editing (fun x => set_AdminNode_billing_cycle_days v x));
                      Attr "type" (js "number"); Attr "min" (js "1"); Attr "max" (js "3650")] []];
                El "label" [] [
                  El "span" [] [Text (text l (js "到期日期") (js "Expiry date"))];
                  El "input" [Model jsstr (expires p) (fun v => modify (set_expires v)); Attr "type" (js "date")] []];
                El "label" [] [
                  El "span" [] [Text (text l (js "排序权重") (js "Display weight"))];
                  El "input" [
                      Model num (PublicNode.weight (AdminNode.base edited)) (fun v => edit_editing (fun x => set_AdminNode_weight v x));
                      Attr "type" (js "number")] []];
                El "label" [] [
                  El "span" [] [
                    Text ((text l (js "每月流量额度") (js "Monthly traffic quota") ++ js " ")%list);
                    El "small" [] [Text ((js "GiB · " ++ text l (js "0 表示不限") (js "0 = unlimited"))%list)]];
                  El "input" [Model num (trafficLimitGiB p) (fun v => modify (set_trafficLimitGiB v));
                      Attr "type" (js "number"); Attr "min" (js "0");
                      Attr "max" (toString maximumTrafficLimitGiB); Attr "step" (js "0.01");
                      Attr "aria-label" (text l (js "每月流量额度（GiB）") (js "Monthly traffic quota (GiB)"))] []];
                El "label" [] [
                  El "span" [] [Text (text l (js "流量计算方式") (js "Traffic mode"))];
                  El "select" [
                      Model jsstr (PublicNode.traffic_limit_type (AdminNode.base edited)) (fun v => edit_editing (fun x => set_AdminNode_traffic_limit_type v x))] [
                    El "option" [] [Text (js "sum")];
                    El "option" [] [Text (js "max")];
                    El "option" [] [Text (js "up")];
                    El "option" [] [Text (js "down")]]];
                El "label" [] [
                  El "span" [] [Text (text l (js "每月重置日") (js "Reset day"))];
                  El "input" [
                      Model num (PublicNode.traffic_reset_day (AdminNode.base edited)) (fun v => edit_editing (fun x => set_AdminNode_traffic_reset_day v x));
                      Attr "type" (js "number"); Attr "min" (js "1"); Attr "max" (js "31")] []]];
              match trafficCorrection p with
              | Some c =>
                  El "section" [Cls (js "traffic-correction-editor")] [
                    El "header" [] [
                      El "div" [] [
                        El "span" [] [Text (text l (js "流量校正") (js "Traffic correction"))];
                        El "small" [] [
                          Text (text l ((js "当前周期始于 " ++ slice (TrafficCorrectionStatus.period_start c) 0 10 ++ js " UTC")%list)
                              ((js "Current period began " ++ slice
                              (TrafficCorrectionStatus.period_start c) 0 10 ++ js " UTC")%list))]];
                      El "b" [ClsIf "active" (TrafficCorrectionStatus.active c)] [
                        Text (if TrafficCorrectionStatus.active c then text l (js "已校正") (js "Adjusted") else text l (js "原始统计")
                            (js "Raw totals"))]];
                    El "div" [Cls (js "traffic-correction-readout")] [
                      El "div" [] [
                        El "span" [] [Text (text l (js "Agent 原始值") (js "Raw Agent totals"))];
                        El "strong" [] [
                          Text ((js "↓ " ++ bytes (Some (TrafficCorrectionStatus.raw_rx_bytes c)) 1 ++ js " · ↑ " ++ bytes (Some
                              (TrafficCorrectionStatus.raw_tx_bytes c)) 1)%list)]];
                      El "div" [] [
                        El "span" [] [Text (text l (js "当前显示值") (js "Displayed totals"))];
                        El "strong" [] [
                          Text ((js "↓ " ++ bytes (Some (TrafficCorrectionStatus.rx_bytes c)) 1 ++ js " · ↑ " ++ bytes (Some
                              (TrafficCorrectionStatus.tx_bytes c)) 1)%list)]]];
                    if TrafficCorrectionStatus.available c then
                      El "div" [Cls (js "traffic-correction-fields")] [
                        El "label" [] [
                          El "span" [] [Text (text l (js "校正后下载") (js "Corrected download"))];
                          El "input" [Model num (correctionRX p) (fun v => modify (set_correctionRX v));
                              Attr "type" (js "number"); Attr "min" (js "0");
                              Attr "step" (js "0.001")] []];
                        El "label" [] [
                          El "span" [] [Text (text l (js "校正后上传") (js "Corrected upload"))];
                          El "input" [Model num (correctionTX p) (fun v => modify (set_correctionTX v));
                              Attr "type" (js "number"); Attr "min" (js "0");
                              Attr "step" (js "0.001")] []];
                        El "label" [] [
                          El "span" [] [Text (text l (js "单位") (js "Unit"))];
                          El "select" [Attr "value" (unit_str (correctionUnit p));
                              OnValue "change" TrafficCorrectionUnit (fun u => modify (changeCorrectionUnit u))] [
                            Frag (map (fun unit =>
                              El "option" [Key (KeyS (unit_str unit)); Attr "value" (unit_str unit)] [Text (unit_str unit)]) correctionUnits)]]]
                    else 
                      El "p" [] [
                        Text (text l (js "需要当前流量周期内的新上报后才能校正。") (js
                            "A fresh report from the current traffic period is required before correction."
                            ))];
                    El "footer" [] [
                      El "small" [] [text_or_raise (correction_note l c)];
                      El "div" [] [
                        El "button" [Attr "type" (js "button");
                            Flag "disabled" ((correctionBusy p) || (negb (TrafficCorrectionStatus.active c)));
                            On "click" (clearTrafficCorrection l)] [
                          Text (text l (js "清除") (js "Clear"))];
                        El "button" [Attr "type" (js "button"); Cls (js "secondary-action compact-action");
                            Flag "disabled" ((correctionBusy p) || (negb (TrafficCorrectionStatus.available c)));
                            On "click" (applyTrafficCorrection l)] [
                          Text (if correctionBusy p then text l (js "处理中…") (js "Applying…") else text l (js "应用校正") (js
                              "Apply correction"))]]];
                    if truthy (correctionNotice p) then
                      El "div" [Cls (js "traffic-correction-notice")] [Text (correctionNotice p)]
                    else Nothing]
              | None => Nothing
              end;
              El "div" [Cls (js "check-row")] [
                El "label" [] [
                  El "input" [
                      Model bool (PublicNode.hidden (AdminNode.base edited)) (fun v => edit_editing (fun x => set_AdminNode_hidden v x));
                      Attr "type" (js "checkbox")] [];
                  El "span" [] [Text (text l (js "对访客隐藏") (js "Hide from public visitors"))]];
                El "label" [] [
                  El "input" [
                      Model bool (PublicNode.auto_renewal (AdminNode.base edited)) (fun v => edit_editing (fun x => set_AdminNode_auto_renewal v x));
                      Attr "type" (js "checkbox")] [];
                  El "span" [] [Text (text l (js "自动续费") (js "Automatic renewal"))]];
                El "label" [] [
                  El "input" [
                      Model bool (PublicNode.latency_enabled (AdminNode.base edited)) (fun v => edit_editing (fun x => set_AdminNode_latency_enabled v x));
                      Attr "type" (js "checkbox")] [];
                  El "span" [] [Text (text l (js "同时作为延迟测量节点") (js "Use as a latency measurement point"))]]];
              match agentConfig p with
              | Some a =>
                  Frag [
                    El "div" [Cls (js "panel-label")] [
                      El "span" [] [Text (text l (js "探针采集") (js "Agent collection"))];
                      El "b" [] [Text ((js "V" ++ toString (AgentConfig.config_version a))%list)]];
                    El "div" [Cls (js "form-grid")] [
                      El "label" [] [
                        El "span" [] [Text (text l (js "实时采集间隔（秒）") (js "Live interval (seconds)"))];
                        El "input" [
                            Model num (AgentConfig.collect_interval_seconds a) (fun v => edit_agentConfig (fun x => set_AgentConfig_collect_interval_seconds v x));
                            Attr "type" (js "number"); Attr "min" (js "1"); Attr "max" (js "300")] []];
                      El "label" [] [
                        El "span" [] [Text (text l (js "历史写入间隔（秒）") (js "History interval (seconds)"))];
                        El "input" [
                            Model num (AgentConfig.persist_interval_seconds a) (fun v => edit_agentConfig (fun x => set_AgentConfig_persist_interval_seconds v x));
                            Attr "type" (js "number"); Attr "min" (js "1"); Attr "max" (js "86400")] []];
                      El "label" [Cls (js "wide")] [
                        El "span" [] [Text (text l (js "包含网卡（逗号分隔）") (js "Include interfaces"))];
                        El "input" [Model jsstr (includeNICs p) (fun v => modify (set_includeNICs v))] []];
                      El "label" [Cls (js "wide")] [
                        El "span" [] [Text (text l (js "排除网卡（逗号分隔）") (js "Exclude interfaces"))];
                        El "input" [Model jsstr (excludeNICs p) (fun v => modify (set_excludeNICs v))] []];
                      El "label" [Cls (js "wide")] [
                        El "span" [] [Text (text l (js "包含挂载点（逗号分隔）") (js "Include mountpoints"))];
                        El "input" [Model jsstr (includeMounts p) (fun v => modify (set_includeMounts v))] []]];
                    El "div" [Cls (js "check-row")] [
                      El "label" [] [
                        El "input" [
                            Model bool (AgentConfig.enable_gpu a) (fun v => edit_agentConfig (fun x => set_AgentConfig_enable_gpu v x));
                            Attr "type" (js "checkbox")] [];
                        El "span" [] [Text (text l (js "采集 GPU 指标") (js "Collect GPU metrics"))]];
                      El "label" [] [
                        El "input" [
                            Model bool (AgentConfig.auto_update a) (fun v => edit_agentConfig (fun x => set_AgentConfig_auto_update v x));
                            Attr "type" (js "checkbox")] [];
                        El "span" [] [Text (text l (js "启用签名自动更新") (js "Signed automatic updates"))]]]]
              | None => Nothing
              end;
              if truthy (error p) then El "div" [Cls (js "form-error")] [Text (error p)] else Nothing];
            El "footer" [] [
              El "button" [Attr "type" (js "button"); On "click" close_editor] [Text (text l (js "取消") (js "Cancel"))];
              El "button" [Cls (js "primary-action");
                  Flag "disabled" ((busy p) || (negb (bool_decide (is_Some (agentConfig p)))))] [
                Text (if busy p then text l (js "正在保存…") (js "Saving…") else text l (js "保存节点") (js "Save node"))]]]]
    | None => Nothing
    end].

End View.

(** ** One save, one correction at a time *)

(** What the host starts on its own: the load on mounting, the end of a copy's
    notice. *)
Inductive background : M unit -> Prop :=
| B_load : background load
| B_copied : background copied_expires.

Definition saving (c : call Req) : bool :=
  match c with One (PutNode _ _) | One (PutConfig _ _) | One (PutLatency _ _) => true | _ => false end.
Definition correcting (c : call Req) : bool :=
  match c with One (PutCorrection _ _ _) | One (DeleteCorrection _) => true | _ => false end.

Lemma busy_loaded a p : busy (loaded a p) = busy p.
Proof. unfold loaded, corrected. cbn. repeat (case_match; cbn); done. Qed.
Lemma correctionBusy_loaded a p : correctionBusy (loaded a p) = correctionBusy p.
Proof. unfold loaded, corrected. cbn. repeat (case_match; cbn); done. Qed.
Lemma busy_corrected n c p : busy (corrected n c p) = busy p.
Proof. unfold loaded, corrected. cbn. repeat (case_match; cbn); done. Qed.
Lemma correctionBusy_corrected n c p : correctionBusy (corrected n c p) = correctionBusy p.
Proof. unfold loaded, corrected. cbn. repeat (case_match; cbn); done. Qed.

Ltac nodes_prog :=
  repeat first [outside_step | working_step | progress unfold send, load, copied_expires, edit, close_editor, remove, unless,
                  copyUninstallCommand, put_all, edit_editing, edit_agentConfig];
  try done; intros; try assumption;
  rewrite ?busy_loaded, ?correctionBusy_loaded, ?busy_corrected, ?correctionBusy_corrected; done.

Section Safety.
Context `{MathLog} `{DateHost} (invalid_time : jsstr) (formatDate : AppLocale -> num -> jsstr).

Lemma save_obeys l p : busy p = false -> obeys busy (during saving) (save invalid_time l) false p p.
Proof.
  intros Hb. apply obeys_get. destruct (editing p) as [n|]; [|apply obeys_ret]. destruct (agentConfig p) as [c|]; [|apply obeys_ret].
  apply operation_starts; [nodes_prog|done..].
Qed.

Lemma apply_obeys l p : correctionBusy p = false -> obeys correctionBusy (during correcting) (applyTrafficCorrection l) false p p.
Proof.
  intros Hb. apply obeys_get. destruct (editing p) as [n|]; [|apply obeys_ret]. destruct (trafficCorrection p) as [c|]; [|apply obeys_ret].
  cbv zeta. case_match; [apply outside_bystander; nodes_prog|]. apply operation_starts; [nodes_prog|done..].
Qed.

Lemma clear_obeys l p : correctionBusy p = false -> obeys correctionBusy (during correcting) (clearTrafficCorrection l) false p p.
Proof.
  intros Hb. apply obeys_get. destruct (editing p) as [n|]; [|apply obeys_ret]. destruct (trafficCorrection p) as [c|]; [|apply obeys_ret].
  apply operation_starts; [nodes_prog|done..].
Qed.

(** A correction leaves the flag of a save alone, and the other way round. *)
Lemma corrections_leave_busy l : outside busy (during saving) (applyTrafficCorrection l) /\ outside busy (during saving) (clearTrafficCorrection l).
Proof. unfold applyTrafficCorrection, clearTrafficCorrection. split; nodes_prog. Qed.

Lemma save_leaves_correctionBusy l : outside correctionBusy (during correcting) (save invalid_time l).
Proof. unfold save. nodes_prog. Qed.

Lemma background_bystander p : background p -> bystander busy (during saving) p /\ bystander correctionBusy (during correcting) p.
Proof. intros Hp. split; apply outside_bystander; destruct Hp; nodes_prog. Qed.

Lemma nodes_view_saves l origin p : acts (fun q => obeys busy (during saving) q false p p) (view invalid_time formatDate l origin p).
Proof.
  unfold view. view_acts; first
    [ apply save_obeys; enabled_unless (busy p)
    | apply outside_bystander; first [apply corrections_leave_busy | nodes_prog] ].
Qed.

Lemma view_corrections l origin p :
  acts (fun q => obeys correctionBusy (during correcting) q false p p) (view invalid_time formatDate l origin p).
Proof.
  unfold view. view_acts; first
    [ apply apply_obeys; enabled_unless (correctionBusy p)
    | apply clear_obeys; enabled_unless (correctionBusy p)
    | apply outside_bystander; first [apply save_leaves_correctionBusy | nodes_prog] ].
Qed.

(** C15: through the markup of the node page neither a save nor a traffic
    correction is ever sent twice at once: whatever is typed and clicked, at most
    one save (its three requests one after another) and at most one correction are
    under way, each only while its flag disables its buttons, although the handlers
    do not look at the flags; closing and reopening the drawer does not start a
    second one. *)
Theorem one_write_at_a_time l origin c : ui_reachable (view invalid_time formatDate l origin) background init c ->
  (length (under_way saving (tasks c)) <= if busy (store c) then 1 else 0)%nat /\
  (length (under_way correcting (tasks c)) <= if correctionBusy (store c) then 1 else 0)%nat.
Proof.
  intros Hr. split; apply under_way_at_most.
  - refine (ui_one_at_a_time _ _ _ background init c (nodes_view_saves l origin) _ eq_refl Hr). intros p Hp. by apply background_bystander.
  - refine (ui_one_at_a_time _ _ _ background init c (view_corrections l origin) _ eq_refl Hr). intros p Hp. by apply background_bystander.
Qed.

End Safety.

(** The list loads, a node is opened and saved: its first request is under way. *)
Lemma one_write_at_a_time_witness :
  let view := @view step_log utc_host [] (fun _ _ => []) en_US [] in
  let answers : Env := fun r =>
    match r with
    | GetNodes => inl [a_node (js "n")]
    | GetConfig id => inl (config_of id)
    | GetCorrection _ => inl no_correction
    | _ => inr NotAnError
    end in
  let c1 := answer_at answers 0 (spawn load (Config init [])) in
  let c2 := answer_at answers 0 (spawn (edit en_US (a_node (js "n"))) c1) in
  let c := spawn (@save utc_host [] en_US) c2 in
  length (under_way saving (tasks c)) = 1%nat /\ (length (under_way saving (tasks c)) <= 1)%nat.
Proof.
  intros view answers c1 c2 c. split; [vm_compute; reflexivity|].
  refine (proj1 (@one_write_at_a_time step_log utc_host [] (fun _ _ => []) en_US [] c _)).
  eapply rtc_l; [apply Ui_host, B_load|].
  eapply rtc_l; [apply (ui_answer_at _ _ answers 0); eexists; reflexivity|].
  eapply rtc_l; [apply Ui_offered, (offered_click _ 0); reflexivity|].
  eapply rtc_l; [apply (ui_answer_at _ _ answers 0); eexists; reflexivity|].
  eapply rtc_l; [apply Ui_offered, (offered_click _ 3 (@save utc_host [] en_US)); reflexivity|apply rtc_refl].
Defined.
