(* ===== verification/AdminNotificationsTemplate.v ===== *)
(** * AdminNotificationsTemplate: the markup of the notification channels
    (the template of web/src/components/admin/AdminNotifications.vue) *)

From Stdlib Require Import Strings.String.
From S2P Require Import Prelude JsString Binary64 JsNumber Async I18n Types Json Encode AdminForms AdminNotifications Html Updates.

#[local] Existing Instance NotificationChannel.type_eq_dec.

Definition channel_glyph (t : NotificationChannel.type_) : jsstr :=
  match t with
  | NotificationChannel.smtp => js "@" | NotificationChannel.telegram => js "↗" | NotificationChannel.bark => js "◉"
  | NotificationChannel.webhook => js "{}"
  end.

(** [channel.config?.configured]. *)
Definition configured (c : NotificationChannel.t) : bool := is_set (js "configured") (nullish (NotificationChannel.config c) []).

(** A field of the drawer writes the edited channel, if one is open, or a member
    of its configuration. *)
Definition edit_editing (f : NotificationChannel.t -> NotificationChannel.t) : M unit := modify (fun p => set_editing (f <$> editing p) p).
Definition set_member (key : jsstr) (v : json) : M unit := modify (fun p => set_config (assign key v (config p)) p).

Section View.
Context `{Unicode}.

Definition view (l : AppLocale) (p : page) : html (M unit) :=
  El "section" [Cls (js "admin-page")] [
    El "header" [Cls (js "page-title")] [
      El "div" [] [
        El "span" [Cls (js "eyebrow")] [Text (text l (js "告警通知") (js "Alert delivery"))];
        El "h1" [] [Text (text l (js "通知渠道") (js "Notifications"))];
        El "p" [] [
          Text (text l (js "配置 SMTP、Telegram、Bark 或 Webhook；失败任务会在 1、5、15 分钟后重试。") (js
              "Configure SMTP, Telegram, Bark, or Webhook with durable retries."))]];
      El "button" [Cls (js "primary-action compact-action"); On "click" (modify create)] [
        Text ((js "+ " ++ text l (js "新建渠道") (js "New channel"))%list)]];
    if truthy (status p) then
      El "div" [Cls (js "notice")] [El "b" [] [Text (text l (js "发送测试") (js "Delivery test"))]; El "span" [] [Text (status p)]]
    else Nothing;
    El "div" [Cls (js "channel-grid")] [
      Frag (map (fun channel =>
        El "article" [Key (KeyN (NotificationChannel.id channel)); Cls (js "channel-card")] [
          El "div" [Cls (js "channel-glyph")] [Text (channel_glyph (NotificationChannel.type channel))];
          El "div" [] [
            El "span" [] [Text (toUpperCase (channel_str (NotificationChannel.type channel)))];
            El "h3" [] [Text (NotificationChannel.name channel)];
            El "p" [] [
              Text (if configured channel then text l (js "凭据已加密保存") (js "Credentials encrypted") else text l (js "配置不可用") (js
                  "Configuration unavailable"))]];
          El "span" [Cls (js "tag"); ClsIf "muted" (negb (NotificationChannel.enabled channel))] [
            Text (if NotificationChannel.enabled channel then text l (js "启用") (js "Active") else text l (js "暂停") (js "Paused"
                ))];
          El "footer" [] [
            El "button" [On "click" (test l channel)] [Text (text l (js "测试") (js "Test"))];
            El "button" [On "click" (modify (edit channel))] [Text (text l (js "编辑") (js "Edit"))];
            El "button" [Cls (js "danger"); OnValue "click" bool (fun confirmed => remove confirmed channel)] [
              Text (text l (js "删除") (js "Delete"))]]]) (channels p))];
    if (Nat.eqb (length (channels p)) 0) then
      El "div" [Cls (js "empty-state admin-empty")] [
        El "span" [] [Text (js "◇")];
        El "h3" [] [Text (text l (js "暂无通知渠道") (js "No notification channels"))];
        El "p" [] [
          Text (text l (js "未配置渠道时，告警事件仍会保存在数据库中。") (js "Alert events remain persisted before a channel is configured."))]]
    else Nothing;
    match editing p with
    | Some edited =>
        El "div" [Cls (js "modal-backdrop"); On "click.self" (modify (set_editing None))] [
          El "form" [Cls (js "drawer"); On "submit.prevent" (save l)] [
            El "header" [] [
              El "div" [] [
                El "span" [] [Text (text l (js "通知渠道") (js "Notification channel"))];
                El "h2" [] [
                  Text (if truthy_num (NotificationChannel.id edited) then text l (js "编辑渠道") (js "Edit channel") else text l
                      (js "新建渠道") (js "New channel"))]];
              El "button" [Attr "type" (js "button"); On "click" (modify (set_editing None))] [Text (js "×")]];
            El "div" [Cls (js "drawer-body")] [
              El "div" [Cls (js "form-grid")] [
                El "label" [] [
                  El "span" [] [Text (text l (js "名称") (js "Name"))];
                  El "input" [
                      Model jsstr (NotificationChannel.name edited) (fun v => edit_editing (fun x => set_NotificationChannel_name v x));
                      Flag "required" true] []];
                El "label" [] [
                  El "span" [] [Text (text l (js "类型") (js "Type"))];
                  El "select" [
                      Model NotificationChannel.type_ (NotificationChannel.type edited) (fun v => edit_editing (fun x => set_NotificationChannel_type v x));
                      On "change" (modify changeType)] [
                    El "option" [] [Text (js "webhook")];
                    El "option" [] [Text (js "smtp")];
                    El "option" [] [Text (js "telegram")];
                    El "option" [] [Text (js "bark")]]];
                if bool_decide (NotificationChannel.type edited = NotificationChannel.webhook) then
                  Frag [
                    El "label" [Cls (js "wide")] [
                      El "span" [] [Text (js "Webhook URL")];
                      El "input" [Model jsstr (text_of (js "url") (config p)) (fun v => set_member (js "url") (JStr v));
                          Attr "type" (js "url"); Flag "required" true] []];
                    El "label" [Cls (js "wide")] [
                      El "span" [] [
                        Text (js "HMAC Secret ");
                        El "small" [] [
                          Text (if is_set (js "secret_configured") (config p) then text l (js "留空保持不变") (js
                              "Leave blank to keep") else text l (js "可选") (js "Optional"))]];
                      El "input" [Model jsstr (text_of (js "secret") (config p)) (fun v => set_member (js "secret") (JStr v));
                          Attr "type" (js "password")] []]]
                else if bool_decide (NotificationChannel.type edited = NotificationChannel.telegram) then
                  Frag [
                    El "label" [Cls (js "wide")] [
                      El "span" [] [
                        Text (js "Bot Token ");
                        El "small" [] [
                          Text (if is_set (js "bot_token_configured") (config p) then text l (js "留空保持不变") (js
                              "Leave blank to keep") else [])]];
                      El "input" [
                          Model jsstr (text_of (js "bot_token") (config p)) (fun v => set_member (js "bot_token") (JStr v));
                          Attr "type" (js "password"); Flag "required" true] []];
                    El "label" [] [
                      El "span" [] [Text (js "Chat ID")];
                      El "input" [
                          Model jsstr (text_of (js "chat_id") (config p)) (fun v => set_member (js "chat_id") (JStr v));
                          Flag "required" true] []];
                    El "label" [] [
                      El "span" [] [Text (js "API Base "); El "small" [] [Text (text l (js "可选") (js "Optional"))]];
                      El "input" [
                          Model jsstr (text_of (js "api_base") (config p)) (fun v => set_member (js "api_base") (JStr v));
                          Attr "placeholder" (js "https://api.telegram.org")] []]]
                else if bool_decide (NotificationChannel.type edited = NotificationChannel.bark) then
                  Frag [
                    El "label" [Cls (js "wide")] [
                      El "span" [] [
                        Text (js "Device Key ");
                        El "small" [] [
                          Text (if is_set (js "device_key_configured") (config p) then text l (js "留空保持不变") (js
                              "Leave blank to keep") else [])]];
                      El "input" [
                          Model jsstr (text_of (js "device_key") (config p)) (fun v => set_member (js "device_key") (JStr v));
                          Attr "type" (js "password"); Flag "required" true] []];
                    El "label" [] [
                      El "span" [] [Text (js "Endpoint")];
                      El "input" [
                          Model jsstr (text_of (js "endpoint") (config p)) (fun v => set_member (js "endpoint") (JStr v));
                          Attr "placeholder" (js "https://api.day.app")] []];
                    El "label" [] [
                      El "span" [] [Text (text l (js "分组") (js "Group"))];
                      El "input" [Model jsstr (text_of (js "group") (config p)) (fun v => set_member (js "group") (JStr v));
                          Attr "placeholder" (js "Hostpin")] []]]
                else 
                  Frag [
                    El "label" [] [
                      El "span" [] [Text (js "SMTP Host")];
                      El "input" [Model jsstr (text_of (js "host") (config p)) (fun v => set_member (js "host") (JStr v));
                          Flag "required" true] []];
                    El "label" [] [
                      El "span" [] [Text (text l (js "端口") (js "Port"))];
                      El "input" [Model num (number_of (js "port") (config p)) (fun v => set_member (js "port") (JNum v));
                          Attr "type" (js "number"); Attr "min" (js "1"); Attr "max" (js "65535")] []];
                    El "label" [] [
                      El "span" [] [Text (text l (js "发件人") (js "From"))];
                      El "input" [Model jsstr (text_of (js "from") (config p)) (fun v => set_member (js "from") (JStr v));
                          Attr "type" (js "email"); Flag "required" true] []];
                    El "label" [Cls (js "wide")] [
                      El "span" [] [Text (text l (js "收件人（逗号分隔）") (js "Recipients (comma separated)"))];
                      El "input" [Model jsstr (text_of (js "to") (config p)) (fun v => set_member (js "to") (JStr v));
                          Flag "required" true] []];
                    El "label" [] [
                      El "span" [] [Text (text l (js "用户名") (js "Username"))];
                      El "input" [
                          Model jsstr (text_of (js "username") (config p)) (fun v => set_member (js "username") (JStr v))] []];
                    El "label" [] [
                      El "span" [] [
                        Text ((text l (js "密码") (js "Password") ++ js " ")%list);
                        El "small" [] [
                          Text (if is_set (js "password_configured") (config p) then text l (js "留空保持不变") (js
                              "Leave blank to keep") else [])]];
                      El "input" [
                          Model jsstr (text_of (js "password") (config p)) (fun v => set_member (js "password") (JStr v));
                          Attr "type" (js "password")] []];
                    El "label" [Cls (js "switch-line")] [
                      El "input" [
                          Model bool (checked_of (js "require_tls") (config p)) (fun v => set_member (js "require_tls") (JBool v));
                          Attr "type" (js "checkbox")] [];
                      El "span" [] [Text (text l (js "要求 STARTTLS") (js "Require STARTTLS"))]];
                    El "label" [Cls (js "switch-line")] [
                      El "input" [
                          Model bool (checked_of (js "implicit_tls") (config p)) (fun v => set_member (js "implicit_tls") (JBool v));
                          Attr "type" (js "checkbox")] [];
                      El "span" [] [Text (text l (js "隐式 TLS") (js "Implicit TLS"))]]]];
              El "label" [Cls (js "switch-line")] [
                El "input" [
                    Model bool (NotificationChannel.enabled edited) (fun v => edit_editing (fun x => set_NotificationChannel_enabled v x));
                    Attr "type" (js "checkbox")] [];
                El "span" [] [Text (text l (js "启用渠道") (js "Channel enabled"))]];
              if truthy (error p) then El "div" [Cls (js "form-error")] [Text (error p)] else Nothing];
            El "footer" [] [
              El "button" [Attr "type" (js "button"); On "click" (modify (set_editing None))] [
                Text (text l (js "取消") (js "Cancel"))];
              El "button" [Cls (js "primary-action")] [Text (text l (js "保存渠道") (js "Save channel"))]]]]
    | None => Nothing
    end].

End View.

(** ** Secrets that are kept *)

(** The label of a secret that is kept when its field is left blank, with a
    required field that shows nothing. *)
Definition kept_but_required {H} (l : AppLocale) (name : string) (write : jsstr -> H) : html H :=
  El "label" [Cls (js "wide")] [
    El "span" [] [Text (js name); El "small" [] [Text (text l (js "留空保持不变") (js "Leave blank to keep"))]];
    El "input" [Model jsstr [] write; Attr "type" (js "password"); Flag "required" true] []].

(** The configuration of a stored channel as the server gives it: the secret is
    left out and marked as configured. *)
Definition withheld (secret mark : string) (c : NotificationChannel.t) : Prop :=
  text_of (js secret) (nullish (NotificationChannel.config c) []) = [] /\ is_set (js mark) (nullish (NotificationChannel.config c) []) = true.

Lemma shown_member key c : key <> js "to" -> member key (shown_config c) = member key (nullish c []).
Proof.
  intros Hk. unfold shown_config. destruct (member (js "to") (nullish c [])) as [[]|]; try done. by apply member_assign_ne.
Qed.

Lemma withheld_shown secret mark c : js secret <> js "to" -> js mark <> js "to" -> withheld secret mark c ->
  text_of (js secret) (shown_config (NotificationChannel.config c)) = [] /\ is_set (js mark) (shown_config (NotificationChannel.config c)) = true.
Proof. intros Hs Hm. unfold withheld, text_of, is_set. by rewrite !shown_member. Qed.

Section Kept.
Context `{Unicode}.

(** A stored Telegram or Bark channel cannot be edited without typing its
    secret again: the drawer opens with the secret's field empty, says that leaving
    it blank keeps it, and requires it, so that the browser does not submit the
    form as long as it is blank. *)
Theorem kept_secret_is_required l c p :
  (NotificationChannel.type c = NotificationChannel.telegram -> withheld "bot_token" "bot_token_configured" c ->
     kept_but_required l "Bot Token " (fun v => set_member (js "bot_token") (JStr v)) ∈ elements "label" (view l (edit c p))) /\
  (NotificationChannel.type c = NotificationChannel.bark -> withheld "device_key" "device_key_configured" c ->
     kept_but_required l "Device Key " (fun v => set_member (js "device_key") (JStr v)) ∈ elements "label" (view l (edit c p))).
Proof.
  split; intros Ht Hw; (apply withheld_shown in Hw as [Hs Hm]; [|discriminate..]); unfold view; elements_compute; cbn [editing edit set_config set_editing config];
    rewrite Ht; cbn; rewrite Hs, Hm; set_solver.
Qed.

End Kept.

Lemma kept_secret_is_required_witness :
  let c := NotificationChannel.mk (#3) (js "ops") NotificationChannel.telegram
    (Some [(js "chat_id", JStr (js "1")); (js "bot_token_configured", JBool true)]) true None None in
  kept_but_required en_US "Bot Token " (fun v => set_member (js "bot_token") (JStr v))
    ∈ elements "label" (@view small_unicode en_US (edit c (mkPage [c] None [] [] []))).
Proof.
  intros c. apply (proj1 (@kept_secret_is_required small_unicode en_US c (mkPage [c] None [] [] []))); [reflexivity|].
  split; vm_compute; reflexivity.
Defined.
