(* ===== verification/AdminSecurityTemplate.v ===== *)
(** * AdminSecurityTemplate: the markup of the access security page
    (the template of web/src/components/admin/AdminSecurity.vue) *)

From Stdlib Require Import Strings.String.
From S2P Require Import Prelude JsString Binary64 JsNumber JsDate Async I18n Types Encode Format AdminForms AdminSecurity Html.

(** ** What the inputs write *)

Definition on_two (f : totp -> totp) (p : page) : page := set_two (f (two p)) p.
Definition type_totpCode (v : jsstr) : page -> page := on_two (fun t =>
  mkTotp (twoFactor t) (setupToken t) (totpSecret t) (totpURL t) v (recoveryCodes t) (disablePassword t)).
Definition type_disablePassword (v : jsstr) : page -> page := on_two (fun t =>
  mkTotp (twoFactor t) (setupToken t) (totpSecret t) (totpURL t) (totpCode t) (recoveryCodes t) v).

Definition on_form (f : inputs -> inputs) (p : page) : page := set_form (f (form p)) p.
Definition type_keyName (v : jsstr) : page -> page := on_form (fun f =>
  mkInputs v (keyDays f) (revealedKey f) (shareNodes f) (shareExpiry f) (revealedShare f) (currentPassword f) (newPassword f)).
Definition type_keyDays (v : num) : page -> page := on_form (fun f =>
  mkInputs (keyName f) v (revealedKey f) (shareNodes f) (shareExpiry f) (revealedShare f) (currentPassword f) (newPassword f)).
Definition type_shareNodes (v : list jsstr) : page -> page := on_form (fun f =>
  mkInputs (keyName f) (keyDays f) (revealedKey f) v (shareExpiry f) (revealedShare f) (currentPassword f) (newPassword f)).
Definition type_shareExpiry (v : jsstr) : page -> page := on_form (fun f =>
  mkInputs (keyName f) (keyDays f) (revealedKey f) (shareNodes f) v (revealedShare f) (currentPassword f) (newPassword f)).
Definition type_currentPassword (v : jsstr) : page -> page := on_form (fun f =>
  mkInputs (keyName f) (keyDays f) (revealedKey f) (shareNodes f) (shareExpiry f) (revealedShare f) v (newPassword f)).
Definition type_newPassword (v : jsstr) : page -> page := on_form (fun f =>
  mkInputs (keyName f) (keyDays f) (revealedKey f) (shareNodes f) (shareExpiry f) (revealedShare f) (currentPassword f) v).

Section View.
Context `{DateHost} (invalid_time : jsstr) (formatDate : AppLocale -> num -> jsstr).

(** The expiry of a key and the state of a share link; formatting an invalid
    date throws. *)
Definition expires_text (l : AppLocale) (at_ : option jsstr) : option jsstr :=
  (fun d => text l (js "到期") (js "EXP") ++ js " " ++ d)%list <$> dateTime formatDate l at_.
Definition key_expiry (l : AppLocale) (k : APIKey.t) : option jsstr :=
  if truthy (nullish (APIKey.expires_at k) []) then expires_text l (APIKey.expires_at k)
  else Some (text l (js "永不过期") (js "No expiry")).
Definition share_state (l : AppLocale) (k : ShareLink.t) : option jsstr :=
  if truthy (nullish (ShareLink.revoked_at k) []) then Some (text l (js "已撤销") (js "Revoked"))
  else expires_text l (Some (ShareLink.expires_at k)).

Definition view (l : AppLocale) (p : page) : html (M unit) :=
  El "section" [Cls (js "admin-page")] [
    El "header" [Cls (js "page-title")] [
      El "div" [] [
        El "span" [Cls (js "eyebrow")] [Text (text l (js "账号与会话") (js "Identity and sessions"))];
        El "h1" [] [Text (text l (js "访问安全") (js "Access security"))];
        El "p" [] [
          Text (text l (js "管理两步验证、密码、API Key、分享链接和登录会话。") (js
              "Manage two-factor authentication, password, API keys, share links, and sessions."))]];
      El "span" [Cls (js "page-code")] [
        Text ((js "2FA / " ++ (if twoFactor (two p) then text l (js "已开启") (js "ON") else text l (js "未开启") (js "OFF")))%list)]];
    if truthy (status p) then
      El "div" [Cls (js "notice success")] [
        El "b" [] [Text (text l (js "安全设置") (js "Security"))];
        El "span" [] [Text (status p)]]
    else Nothing;
    if truthy (error p) then
      El "div" [Cls (js "notice error")] [El "b" [] [Text (text l (js "安全设置") (js "Security"))]; El "span" [] [Text (error p)]]
    else Nothing;
    El "div" [Cls (js "security-grid")] [
      El "section" [Cls (js "settings-section")] [
        El "header" [] [
          El "b" [] [Text (js "01")];
          El "div" [] [
            El "h2" [] [Text (text l (js "两步验证") (js "Two-factor authentication"))];
            El "p" [] [
              Text (text l (js "TOTP 密钥使用服务端主密钥加密保存。") (js "The TOTP secret is encrypted with the server master key."))]]];
        El "div" [Cls (js "security-body")] [
          if (negb (twoFactor (two p))) && (negb (truthy (setupToken (two p)))) then
            El "button" [Cls (js "secondary-action"); On "click" (act l beginTOTP)] [
              Text (text l (js "开始设置 TOTP") (js "Set up TOTP"))]
          else if truthy (setupToken (two p)) then
            Frag [
              El "div" [Cls (js "secret-once")] [
                El "span" [] [Text (text l (js "密钥") (js "Secret"))];
                El "code" [] [Text (totpSecret (two p))];
                El "a" [Attr "href" (totpURL (two p))] [
                  Text ((text l (js "打开验证器链接") (js "Open authenticator URI") ++ js " ↗")%list)]];
              El "form" [Cls (js "inline-pin-form"); On "submit.prevent" (act l (confirmTOTP l))] [
                El "label" [] [
                  El "span" [] [Text (text l (js "输入 6 位验证码") (js "Enter 6-digit code"))];
                  El "input" [Model jsstr (totpCode (two p)) (fun v => modify (type_totpCode v));
                      Attr "inputmode" (js "numeric"); Flag "required" true] []];
                El "button" [Cls (js "primary-action")] [Text (text l (js "确认") (js "Confirm"))]]]
          else 
            El "form" [Cls (js "inline-pin-form"); On "submit.prevent" (act l (disableTOTP l))] [
              El "label" [] [
                El "span" [] [Text (text l (js "输入密码以关闭") (js "Password to disable"))];
                El "input" [Model jsstr (disablePassword (two p)) (fun v => modify (type_disablePassword v));
                    Attr "type" (js "password"); Flag "required" true] []];
              El "button" [Cls (js "secondary-action")] [Text (text l (js "关闭 TOTP") (js "Disable TOTP"))]];
          if negb (Nat.eqb (length (recoveryCodes (two p))) 0) then
            El "div" [Cls (js "recovery-codes")] [
              El "b" [] [Text (text l (js "恢复码（仅显示一次）") (js "Recovery codes (shown once)"))];
              Frag (map (fun code => El "code" [Key (KeyS code)] [Text code]) (recoveryCodes (two p)))]
          else Nothing]];
      El "section" [Cls (js "settings-section")] [
        El "header" [] [
          El "b" [] [Text (js "02")];
          El "div" [] [
            El "h2" [] [Text (text l (js "管理员密码") (js "Password"))];
            El "p" [] [Text (text l (js "密码使用 Argon2id 哈希保存。") (js "The administrator password is protected with Argon2id."))]]];
        El "form" [Cls (js "security-body form-grid"); On "submit.prevent" (act l (changePassword l))] [
          El "label" [] [
            El "span" [] [Text (text l (js "当前密码") (js "Current password"))];
            El "input" [Model jsstr (currentPassword (form p)) (fun v => modify (type_currentPassword v));
                Attr "type" (js "password"); Flag "required" true] []];
          El "label" [] [
            El "span" [] [Text (text l (js "新密码（至少 12 位）") (js "New password (12+ characters)"))];
            El "input" [Model jsstr (newPassword (form p)) (fun v => modify (type_newPassword v)); Attr "type" (js "password");
                Attr "minlength" (js "12"); Flag "required" true] []];
          El "button" [Cls (js "secondary-action")] [Text (text l (js "更换密码") (js "Change password"))]]]];
    El "section" [Cls (js "settings-section security-wide")] [
      El "header" [] [
        El "b" [] [Text (js "03")];
        El "div" [] [
          El "h2" [] [Text (js "API Keys")];
          El "p" [] [
            Text (text l (js "用于受控的后台 API 访问，可单独撤销。") (js
                "Use for controlled admin API access; each key can be revoked independently."))]]];
      El "div" [Cls (js "security-body")] [
        El "form" [Cls (js "access-create"); On "submit.prevent" (act l createKey)] [
          El "label" [] [
            El "span" [] [Text (text l (js "名称") (js "Key name"))];
            El "input" [Model jsstr (keyName (form p)) (fun v => modify (type_keyName v)); Flag "required" true] []];
          El "label" [] [
            El "span" [] [Text (text l (js "有效天数（0 表示永久）") (js "Expiry in days (0 never)"))];
            El "input" [Model num (keyDays (form p)) (fun v => modify (type_keyDays v)); Attr "type" (js "number");
                Attr "min" (js "0"); Attr "max" (js "3650")] []];
          El "button" [Cls (js "primary-action")] [Text (text l (js "创建 Key") (js "Create key"))]];
        if truthy (revealedKey (form p)) then
          El "div" [Cls (js "secret-once")] [
            El "span" [] [Text (text l (js "新 API Key（请立即复制）") (js "New API key (copy now)"))];
            El "code" [] [Text (revealedKey (form p))]]
        else Nothing;
        El "div" [Cls (js "access-list")] [
          Frag (map (fun key =>
            El "div" [Key (KeyS (APIKey.id key))] [
              El "div" [] [
                El "b" [] [Text (APIKey.name key)];
                El "small" [] [
                  Text ((text l (js "创建") (js "Created") ++ js " ")%list);
                  text_or_raise (dateTime formatDate l (Some (APIKey.created_at key)));
                  Text ((js " · " ++ text l (js "最后使用") (js "Last used") ++ js " ")%list);
                  text_or_raise (dateTime formatDate l (APIKey.last_used_at key))]];
              El "span" [] [text_or_raise (key_expiry l key)];
              El "button" [Cls (js "danger"); OnValue "click" bool (fun confirmed => act l (revokeKey confirmed key))] [
                Text (text l (js "撤销") (js "Revoke"))]]) (keys (data p)))]]];
    El "section" [Cls (js "settings-section security-wide")] [
      El "header" [] [
        El "b" [] [Text (js "04")];
        El "div" [] [
          El "h2" [] [Text (text l (js "分享链接") (js "Share links"))];
          El "p" [] [Text (text l (js "为指定节点创建有时效的只读访问链接。") (js "Create time-limited read-only access for selected nodes."))]]];
      El "div" [Cls (js "security-body")] [
        El "form" [Cls (js "access-create share-create"); On "submit.prevent" (act l (createShare invalid_time))] [
          El "label" [] [
            El "span" [] [Text (text l (js "节点") (js "Nodes"))];
            El "select" [Model (list jsstr) (shareNodes (form p)) (fun v => modify (type_shareNodes v)); Flag "multiple" true;
                Flag "required" true] [
              Frag (map (fun node =>
                El "option" [Key (KeyS (PublicNode.id (AdminNode.base node)));
                    Attr "value" (PublicNode.id (AdminNode.base node))] [
                  Text (PublicNode.name (AdminNode.base node))]) (nodes (data p)))]];
          El "label" [] [
            El "span" [] [Text (text l (js "到期时间") (js "Expires at"))];
            El "input" [Model jsstr (shareExpiry (form p)) (fun v => modify (type_shareExpiry v));
                Attr "type" (js "datetime-local"); Flag "required" true] []];
          El "button" [Cls (js "primary-action")] [Text (text l (js "创建分享") (js "Create share"))]];
        if truthy (revealedShare (form p)) then
          El "div" [Cls (js "secret-once")] [
            El "span" [] [Text (text l (js "分享地址（请立即复制）") (js "Share URL (copy now)"))];
            El "code" [] [Text (revealedShare (form p))]]
        else Nothing;
        El "div" [Cls (js "access-list")] [
          Frag (map (fun link =>
            El "div" [Key (KeyS (ShareLink.id link))] [
              El "div" [] [
                El "b" [] [
                  Text (text l ((toString (of_nat (length (ShareLink.node_ids link))) ++ js " 个节点")%list) ((toString (of_nat
                      (length (ShareLink.node_ids link))) ++ js " nodes")%list))];
                El "small" [] [Text (ShareLink.id link)]];
              El "span" [ClsIf "danger" (truthy (nullish (ShareLink.revoked_at link) []))] [text_or_raise (share_state l link)];
              if negb (truthy (nullish (ShareLink.revoked_at link) [])) then
                El "button" [Cls (js "danger"); On "click" (act l (revokeShare link))] [Text (text l (js "撤销") (js "Revoke"))]
              else Nothing]) (shares (data p)))]]];
    El "section" [Cls (js "settings-section security-wide")] [
      El "header" [] [
        El "b" [] [Text (js "05")];
        El "div" [] [
          El "h2" [] [Text (text l (js "浏览器会话") (js "Browser sessions"))];
          El "p" [] [Text (text l (js "查看并撤销已登录的管理员会话。") (js "Review and revoke signed-in administrator sessions."))]];
        El "button" [Cls (js "secondary-action"); On "click" (act l revokeOthers)] [
          Text (text l (js "撤销其他会话") (js "Revoke others"))]];
      El "div" [Cls (js "access-list security-body")] [
        Frag (map (fun item =>
          El "div" [Key (KeyS (LoginSession.id item))] [
            El "div" [] [
              El "b" [] [
                Text (if LoginSession.current item then text l (js "当前会话") (js "This session") else LoginSession.ip_address
                    item)];
              El "small" [] [
                Text ((LoginSession.user_agent item ++ js " · ")%list);
                text_or_raise (dateTime formatDate l (Some (LoginSession.created_at item)))]];
            El "span" [] [
              Text ((text l (js "到期") (js "EXP") ++ js " ")%list);
              text_or_raise (dateTime formatDate l (Some (LoginSession.expires_at item)))];
            El "button" [Cls (js "danger"); On "click" (act l (revokeSession item))] [Text (text l (js "撤销") (js "Revoke"))]]) (sessions (data p)))]]].

End View.

(** ** Dates that cannot be shown *)

(** A date that [dateTime] can format: none, or one that parses. *)
Definition date_ok `{DateHost} (d : option jsstr) : bool :=
  match d with None | Some [] => true | Some s => negb (isNaN (parse s)) end.

Definition key_ok `{DateHost} (k : APIKey.t) : bool :=
  date_ok (Some (APIKey.created_at k)) && date_ok (APIKey.last_used_at k) && date_ok (APIKey.expires_at k).
Definition link_ok `{DateHost} (k : ShareLink.t) : bool :=
  truthy (nullish (ShareLink.revoked_at k) []) || date_ok (Some (ShareLink.expires_at k)).
Definition session_ok `{DateHost} (s : LoginSession.t) : bool :=
  date_ok (Some (LoginSession.created_at s)) && date_ok (Some (LoginSession.expires_at s)).

Section Dates.
Context `{DateHost} (invalid_time : jsstr) (formatDate : AppLocale -> num -> jsstr).

Lemma dateTime_shows l d : bool_decide (is_Some (dateTime formatDate l d)) = date_ok d.
Proof. unfold dateTime, date_ok. destruct d as [[|c s]|]; [done| |done]. cbv zeta. by destruct (isNaN _). Qed.

Lemma expires_shows l d : bool_decide (is_Some (expires_text formatDate l d)) = date_ok d.
Proof. rewrite <- (dateTime_shows l d). unfold expires_text. by destruct (dateTime formatDate l d). Qed.

Lemma key_expiry_shows l k : bool_decide (is_Some (key_expiry formatDate l k)) = date_ok (APIKey.expires_at k).
Proof. unfold key_expiry. destruct (APIKey.expires_at k) as [[|c s]|] eqn:E; [done| |done]. apply expires_shows. Qed.

Lemma share_state_shows l k : bool_decide (is_Some (share_state formatDate l k)) = link_ok k.
Proof. unfold share_state, link_ok. destruct (truthy _); [done|]. apply expires_shows. Qed.

(** C33: what makes the security page fail to render: a date of an API key, of a
    share link that is not revoked or of a browser session that does not parse;
    then the whole page is lost, with its other sections and its error line, and
    otherwise it is rendered, in every state of its forms. *)
Theorem security_page_renders l p :
  renders (view invalid_time formatDate l p)
  = forallb key_ok (keys (data p)) && forallb link_ok (shares (data p)) && forallb session_ok (sessions (data p)).
Proof.
  unfold view. renders_compute. rewrite <- !andb_assoc. f_equal; [|f_equal]; apply forallb_pointwise; intros x; unfold key_ok, session_ok;
    renders_compute; rewrite ?dateTime_shows, ?key_expiry_shows, ?share_state_shows, ?andb_assoc; done.
Qed.

End Dates.
