(* ===== verification/AdminThemesTemplate.v ===== *)
(** * AdminThemesTemplate: the markup of the theme page
    (the template of web/src/components/admin/AdminThemes.vue) *)

From Stdlib Require Import Strings.String.
From S2P Require Import Prelude JsString Binary64 JsNumber JsDate Async I18n Types Json Encode Format AdminForms Html Updates AdminThemes.

#[local] Existing Instance ThemeManifest.config_type_eq_dec.

(** ** What the inputs write *)

Definition choose_upload (files : list File) : M unit :=
  modify (fun p => let f := forms p in set_forms (mkSources (head files) (checksum f) (sourceURL f) (sourceSHA f)) p).
Definition type_checksum (v : jsstr) : M unit :=
  modify (fun p => let f := forms p in set_forms (mkSources (upload f) v (sourceURL f) (sourceSHA f)) p).
Definition type_sourceURL (v : jsstr) : M unit :=
  modify (fun p => let f := forms p in set_forms (mkSources (upload f) (checksum f) v (sourceSHA f)) p).
Definition type_sourceSHA (v : jsstr) : M unit :=
  modify (fun p => let f := forms p in set_forms (mkSources (upload f) (checksum f) (sourceURL f) v) p).
Definition type_marketSearch (v : jsstr) : M unit :=
  modify (fun p => set_shop (mkCatalog (marketOpen (shop p)) v (market (shop p))) p).
Definition close_market (p : page) : page := set_shop (mkCatalog false (marketSearch (shop p)) (market (shop p))) p.
Definition set_setting (key : jsstr) (v : json) : M unit :=
  modify (fun p => set_config (set_settings (assign key v (managedSettings (config p))) (config p)) p).
Definition set_selector (key v : jsstr) : M unit :=
  modify (fun p => let d := config p in
    set_config (mkDrawer (configuring d) (managedItems d) (managedSettings d) (<[key := v]> (selectorText d)) (rawPanel d)) p).

(** ** Expressions *)

Definition is_raw (t : Theme.t) : bool :=
  bool_decide ((ThemeManifest.configuration (Theme.manifest t) ≫= ThemeManifest.type) = Some ThemeManifest.raw).

(** [localized(configuration?.name) || localized(name)]: the configuration's name
    is any JSON value. *)
Definition configuration_name (l : AppLocale) (t : Theme.t) : jsstr :=
  localized l ((ThemeManifest.configuration (Theme.manifest t) ≫= ThemeManifest.config_name) ≫= as_localizable).

(** [String(n).padStart(2, '0')] of a number of at least one digit. *)
Definition two_digits (n : num) : jsstr := let s := toString n in (replicate (2 - length s) 48%N ++ s)%list.

Section View.
Context `{Unicode} (resolve : jsstr -> option jsstr).

Definition theme_card (l : AppLocale) (active : option SiteSettings.t) (p : page) (theme : Theme.t) : html (M unit) :=
  El "article" [Key (KeyS (ThemeManifest.short (Theme.manifest theme))); Cls (js "theme-card")] [
    El "div" [Cls (js "theme-preview")] [
      if truthy (nullish (ThemeManifest.preview (Theme.manifest theme)) []) then
        El "img" [
            Attr "src" ((js "/themes/" ++ ThemeManifest.short (Theme.manifest theme) ++ js "/" ++ nullish (ThemeManifest.preview (Theme.manifest theme)) [])%list);
            Attr "alt" []] []
      else 
        El "b" [] [Text (toUpperCase (slice (ThemeManifest.short (Theme.manifest theme)) 0 2))]];
    El "div" [] [
      El "span" [] [
        Text ((or_else (ThemeManifest.version (Theme.manifest theme)) (text l (js "无版本") (js "Unversioned")) ++ js " / " ++
            localized l (ThemeManifest.author (Theme.manifest theme)))%list)];
      El "h3" [] [Text (localized l (Some (ThemeManifest.name (Theme.manifest theme))))];
      El "p" [] [
        Text (or_string (localized l (ThemeManifest.description (Theme.manifest theme))) (ThemeManifest.short (Theme.manifest
            theme)))]];
    El "footer" [] [
      if match SiteSettings.theme <$> active with Some x => streq x (ThemeManifest.short (Theme.manifest theme)) | None => false end then
        El "span" [Cls (js "tag")] [Text (text l (js "使用中") (js "Active"))]
      else 
        El "button" [On "click" (activate (ThemeManifest.short (Theme.manifest theme)))] [
          Text (text l (js "启用") (js "Activate"))];
      match ThemeManifest.configuration (Theme.manifest theme) with
      | Some configuration0 =>
          El "button" [On "click" (modify (openConfiguration resolve theme))] [Text (text l (js "配置") (js "Configure"))]
      | None => Nothing
      end;
      El "a" [Attr "href" ((js "/?preview_theme=" ++ ThemeManifest.short (Theme.manifest theme))%list);
          Attr "target" (js "_blank")] [
        Text (text l (js "预览") (js "Preview"))];
      if negb (match SiteSettings.theme <$> active with Some x => streq x (ThemeManifest.short (Theme.manifest theme)) | None => false end) then
        El "button" [Cls (js "danger"); OnValue "click" bool (fun confirmed => remove confirmed theme)] [
          Text (text l (js "删除") (js "Delete"))]
      else Nothing]].

Definition install_forms (l : AppLocale) (active : option SiteSettings.t) (p : page) : html (M unit) :=
  El "div" [Cls (js "admin-columns install-columns")] [
    El "form" [Cls (js "admin-panel"); On "submit.prevent" (uploadTheme l)] [
      El "div" [Cls (js "panel-label")] [
        El "span" [] [Text (text l (js "上传 ZIP") (js "Upload ZIP"))];
        El "b" [] [Text (text l (js "本地主题包") (js "Local package"))]];
      El "label" [Cls (js "file-drop")] [
        El "input" [Attr "type" (js "file"); Attr "accept" (js ".zip,application/zip"); Flag "required" true;
            OnValue "change" (list File) (fun files => choose_upload files)] [];
        El "span" [] [
          Text (or_else (file_name <$> upload (forms p)) (text l (js "选择 Komari 主题 ZIP") (js "Select Komari theme ZIP")))];
        El "small" [] [Text (text l (js "压缩后最大 25 MiB，解压后最大 100 MiB") (js "25 MiB compressed / 100 MiB expanded maximum"))]];
      El "label" [] [
        El "span" [] [Text (js "SHA-256 "); El "small" [] [Text (text l (js "可选") (js "Optional"))]];
        El "input" [Model jsstr (checksum (forms p)) (fun v => type_checksum v); Attr "minlength" (js "64");
            Attr "maxlength" (js "64")] []];
      El "button" [Cls (js "primary-action");
          Flag "disabled" ((busy (shown p)) || (negb (bool_decide (is_Some (upload (forms p))))))] [
        Text (text l (js "验证并安装") (js "Validate and install"))]];
    El "form" [Cls (js "admin-panel"); On "submit.prevent" (installURL l)] [
      El "div" [Cls (js "panel-label")] [
        El "span" [] [Text (text l (js "从 URL 安装") (js "Install from URL"))];
        El "b" [] [Text (text l (js "需校验") (js "Verified URL"))]];
      El "label" [] [
        El "span" [] [Text (js "ZIP URL")];
        El "input" [Model jsstr (sourceURL (forms p)) (fun v => type_sourceURL v); Attr "type" (js "url"); Flag "required" true] []];
      El "label" [] [
        El "span" [] [Text (js "SHA-256 "); El "small" [] [Text (text l (js "必填") (js "Required"))]];
        El "input" [Model jsstr (sourceSHA (forms p)) (fun v => type_sourceSHA v); Flag "required" true;
            Attr "minlength" (js "64"); Attr "maxlength" (js "64")] []];
      El "button" [Cls (js "primary-action"); Flag "disabled" (busy (shown p))] [
        Text (text l (js "下载并安装") (js "Fetch and install"))]]].

Definition managed_form (l : AppLocale) (active : option SiteSettings.t) (p : page) : html (M unit) :=
  El "div" [Cls (js "theme-managed-form")] [
    Frag (imap (fun index item =>
      if streq (ManagedItem.type item) (js "title") then
        El "div" [Cls (js "panel-label");
            Key (if truthy (ManagedItem.key item) then KeyS (ManagedItem.key item) else KeyN (of_nat index))] [
          El "span" [] [Text (itemName l item)];
          El "b" [] [Text (two_digits (of_nat (S index)))]]
      else if streq (ManagedItem.type item) (js "textbox") then
        El "p" [Cls (js "managed-help");
            Key (if truthy (ManagedItem.key item) then KeyS (ManagedItem.key item) else KeyN (of_nat index))] [
          Text (itemName l item)]
      else if streq (ManagedItem.type item) (js "switch") then
        El "label" [Cls (js "switch-line");
            Key (if truthy (ManagedItem.key item) then KeyS (ManagedItem.key item) else KeyN (of_nat index))] [
          El "input" [
              Model bool (checked_of (ManagedItem.key item) (managedSettings (config p))) (fun v => set_setting (ManagedItem.key item) (JBool v));
              Attr "type" (js "checkbox")] [];
          El "span" [] [Text (itemName l item)]]
      else if streq (ManagedItem.type item) (js "select") then
        El "label" [Key (if truthy (ManagedItem.key item) then KeyS (ManagedItem.key item) else KeyN (of_nat index))] [
          El "span" [] [Text (itemName l item)];
          El "select" [
              Model jsstr (text_of (ManagedItem.key item) (managedSettings (config p))) (fun v => set_setting (ManagedItem.key item) (JStr v));
              Flag "required" (ManagedItem.required item)] [
            Frag (map (fun option => El "option" [Key (KeyS option)] [Text option]) (options item))];
          El "small" [] [Text (localized l (ManagedItem.help item))]]
      else if streq (ManagedItem.type item) (js "number") then
        El "label" [Key (if truthy (ManagedItem.key item) then KeyS (ManagedItem.key item) else KeyN (of_nat index))] [
          El "span" [] [Text (itemName l item)];
          El "input" [
              Model num (number_of (ManagedItem.key item) (managedSettings (config p))) (fun v => set_setting (ManagedItem.key item) (JNum v));
              Attr "type" (js "number"); Flag "required" (ManagedItem.required item)] [];
          El "small" [] [Text (localized l (ManagedItem.help item))]]
      else if streq (ManagedItem.type item) (js "richtext") then
        El "label" [Key (if truthy (ManagedItem.key item) then KeyS (ManagedItem.key item) else KeyN (of_nat index))] [
          El "span" [] [Text (itemName l item)];
          El "textarea" [
              Model jsstr (text_of (ManagedItem.key item) (managedSettings (config p))) (fun v => set_setting (ManagedItem.key item) (JStr v));
              Attr "rows" (js "6"); Flag "required" (ManagedItem.required item)] [];
          El "small" [] [Text (localized l (ManagedItem.help item))]]
      else if (streq (ManagedItem.type item) (js "nodes")) || (streq (ManagedItem.type item) (js "pingtasks")) then
        El "label" [Key (if truthy (ManagedItem.key item) then KeyS (ManagedItem.key item) else KeyN (of_nat index))] [
          El "span" [] [Text ((itemName l item ++ js " / JSON OR CSV")%list)];
          El "textarea" [
              Model jsstr (nullish (selectorText (config p) !! ManagedItem.key item) []) (fun v => set_selector (ManagedItem.key item) v);
              Attr "rows" (js "3")] [];
          El "small" [] [Text (localized l (ManagedItem.help item))]]
      else 
        El "label" [Key (if truthy (ManagedItem.key item) then KeyS (ManagedItem.key item) else KeyN (of_nat index))] [
          El "span" [] [Text (itemName l item)];
          El "input" [
              Model jsstr (text_of (ManagedItem.key item) (managedSettings (config p))) (fun v => set_setting (ManagedItem.key item) (JStr v));
              Flag "required" (ManagedItem.required item)] [];
          El "small" [] [Text (localized l (ManagedItem.help item))]]) (managedItems (config p)));
    if (Nat.eqb (length (managedItems (config p))) 0) then
      El "div" [Cls (js "empty-state admin-empty")] [
        El "span" [] [Text (js "◐")];
        El "h3" [] [Text (text l (js "没有可配置项") (js "No configurable fields"))]]
    else Nothing].

Definition config_drawer (l : AppLocale) (active : option SiteSettings.t) (p : page) (configured : Theme.t) : html (M unit) :=
  El "div" [Cls (js "modal-backdrop"); On "click.self" (modify close)] [
    El "form" [Cls (js "drawer theme-config-drawer"); On "submit.prevent" (saveConfiguration l)] [
      El "header" [] [
        El "div" [] [
          El "span" [] [Text (text l (js "主题配置") (js "Theme configuration"))];
          El "h2" [] [
            Text (or_string (configuration_name l configured) (localized l (Some (ThemeManifest.name (Theme.manifest
                configured)))))]];
        El "button" [Attr "type" (js "button"); On "click" (modify close)] [Text (js "×")]];
      El "div" [Cls (js "drawer-body")] [
        if is_raw configured then
          El "iframe" [Cls (js "raw-theme-panel"); Attr "sandbox" (js "allow-scripts allow-forms");
              Attr "srcdoc" (rawPanel (config p)); Attr "title" (js "Theme configuration")] []
        else 
          managed_form l active p];
      El "footer" [] [
        El "button" [Attr "type" (js "button"); On "click" (modify close)] [Text (text l (js "关闭") (js "Close"))];
        if negb (is_raw configured) then
          El "button" [Cls (js "primary-action"); Flag "disabled" (busy (shown p))] [
            Text (text l (js "保存设置") (js "Save settings"))]
        else Nothing]]].

Definition market_drawer (l : AppLocale) (active : option SiteSettings.t) (p : page) : html (M unit) :=
  El "div" [Cls (js "modal-backdrop"); On "click.self" (modify close_market)] [
    El "section" [Cls (js "drawer market-drawer")] [
      El "header" [] [
        El "div" [] [
          El "span" [] [Text (text l (js "已验证目录") (js "Verified catalog"))];
          El "h2" [] [Text (text l (js "主题市场") (js "Theme market"))]];
        El "button" [Attr "type" (js "button"); On "click" (modify close_market)] [Text (js "×")]];
      El "div" [Cls (js "drawer-body")] [
        El "label" [] [
          El "span" [] [Text (text l (js "搜索主题") (js "Search market"))];
          El "input" [Model jsstr (marketSearch (shop p)) (fun v => type_marketSearch v);
              Attr "placeholder" (text l (js "名称 / 作者 / 标识") (js "Name / author / short"))] []];
        El "div" [Cls (js "market-list")] [
          Frag (map (fun theme =>
            El "article" [Key (KeyS (MarketTheme.short theme))] [
              El "div" [] [
                El "span" [] [
                  Text ((or_else (MarketTheme.version theme) (text l (js "无版本") (js "Unversioned")) ++ js " / " ++ localized l
                      (MarketTheme.author theme))%list)];
                El "h3" [] [Text (localized l (Some (MarketTheme.name theme)))];
                El "p" [] [Text (or_string (localized l (MarketTheme.description theme)) (MarketTheme.short theme))]];
              El "button" [Cls (js "secondary-action"); Flag "disabled" (busy (shown p)); On "click" (installMarket l theme)] [
                Text (if truthy (installedVersion (MarketTheme.short theme) p) then if match MarketTheme.version theme with Some
                    x => streq (installedVersion (MarketTheme.short theme) p) x | None => false end then text l
                    (js "重新安装") (js "Reinstall") else text l (js "更新") (js "Update") else text l (js "安装") (js
                    "Install"))]]) (filteredMarket l (shop p)))]];
      El "footer" [] [
        El "span" [] [
          Text (text l ((toString (of_nat (length (filteredMarket l (shop p)))) ++ js " 个主题包")%list) ((toString (of_nat (length
              (filteredMarket l (shop p)))) ++ js " verified packages")%list))];
        El "button" [On "click" (modify close_market)] [Text (text l (js "关闭") (js "Close"))]]]].

Definition view (l : AppLocale) (active : option SiteSettings.t) (p : page) : html (M unit) :=
  El "section" [Cls (js "admin-page")] [
    El "header" [Cls (js "page-title")] [
      El "div" [] [
        El "span" [Cls (js "eyebrow")] [Text (text l (js "界面主题") (js "Interface themes"))];
        El "h1" [] [Text (text l (js "主题") (js "Themes"))];
        El "p" [] [Text (text l (js "安装和切换兼容 Komari 的公开页面主题。") (js "Install and switch Komari-compatible public themes."))]];
      El "div" [Cls (js "title-actions")] [
        El "span" [Cls (js "page-code")] [
          Text ((text l (js "当前") (js "Active") ++ js " / " ++ or_else (SiteSettings.theme <$> active) (js "default"))%list)];
        El "button" [Cls (js "primary-action compact-action"); On "click" (openMarket l)] [
          Text (text l (js "主题市场") (js "Theme market"))]]];
    if truthy (status (shown p)) then
      El "div" [Cls (js "notice success")] [
        El "b" [] [Text (text l (js "主题已更新") (js "Theme updated"))];
        El "span" [] [Text (status (shown p))]]
    else Nothing;
    if truthy (error (shown p)) then
      El "div" [Cls (js "notice error")] [
        El "b" [] [Text (text l (js "主题操作失败") (js "Theme rejected"))];
        El "span" [] [Text (error (shown p))]]
    else Nothing;
    El "div" [Cls (js "theme-grid")] [
      El "article" [Cls (js "theme-card default-theme")] [
        El "div" [Cls (js "theme-preview")] [
          El "div" [Cls (js "preview-rails")] [El "i" [] []; El "i" [] []; El "i" [] []];
          El "b" [] [Text (js "HP")]];
        El "div" [] [
          El "span" [] [Text (text l (js "内置") (js "Built-in"))];
          El "h3" [] [Text (text l (js "Hostpin 默认主题") (js "Hostpin default"))];
          El "p" [] [Text (text l (js "适配桌面和移动端的原生界面。") (js "Native interface for desktop and mobile."))]];
        El "footer" [] [
          if match SiteSettings.theme <$> active with Some x => streq x (js "default") | None => false end then
            El "span" [Cls (js "tag")] [Text (text l (js "使用中") (js "Active"))]
          else 
            El "button" [On "click" (activate (js "default"))] [Text (text l (js "启用") (js "Activate"))]]];
      Frag (map (fun theme => theme_card l active p theme) (themes p))];
    install_forms l active p;
    El "section" [Cls (js "security-note")] [
      El "b" [] [Text (text l (js "ZIP 安全检查") (js "ZIP safety checks"))];
      El "span" [] [
        Text (text l (js "路径穿越 · 符号链接 · 重复路径 · 压缩比 · 文件数 · 清单 · SHA-256") (js
            "Traversal · symlink · duplicate path · expansion ratio · file count · manifest · SHA-256"))];
      El "i" [] [Text (text l (js "已启用") (js "Enforced"))]];
    match configuring (config p) with Some configured => config_drawer l active p configured | None => Nothing end;
    if marketOpen (shop p) then market_drawer l active p else Nothing].

End View.

(** ** The flag shared with the market *)

(** The market's catalog and the answers of a server. *)
Definition catalog_server : Env := fun r =>
  match r with
  | GetMarket => inl (Some [])
  | _ => inr NotAnError
  end.

(** The text of the two fields of the installation from a URL. *)
Definition a_url : jsstr := js "https://example.org/theme.zip".
Definition a_sum : jsstr := replicate 64 48%N.

(** The flag that disables the page's buttons is shared with the catalog of
    the market, whose load clears it: an installation is under way, the market is
    opened, its catalog arrives, and the button of the installation is enabled
    again, so that the same installation is sent twice at once. *)
Theorem two_installs_at_once `{Unicode} resolve l : exists c,
  ui_reachable (view resolve l None) (eq load) init c /\
  map waits_for (tasks c) = [One (InstallTheme a_url a_sum); One (InstallTheme a_url a_sum)].
Proof.
  pose (c0 := spawn (type_sourceURL a_url) (Config init [])).
  pose (c1 := spawn (type_sourceSHA a_sum) c0).
  pose (c2 := spawn (openMarket l) (spawn (installURL l) c1)).
  pose (c3 := spawn (modify close_market) (answer_at catalog_server 1 c2)).
  exists (spawn (installURL l) c3). split; [|reflexivity].
  eapply rtc_l; [apply Ui_offered, (offered_field _ 2 jsstr (fun v => type_sourceURL v) a_url); reflexivity|].
  eapply rtc_l; [apply Ui_offered, (offered_field _ 3 jsstr (fun v => type_sourceSHA v) a_sum); reflexivity|].
  eapply rtc_l; [apply Ui_offered, (offered_click _ 2 (installURL l)); reflexivity|].
  eapply rtc_l; [apply Ui_offered, (offered_click _ 0 (openMarket l)); reflexivity|].
  eapply rtc_l; [apply (ui_answer_at _ _ catalog_server 1); eexists; reflexivity|].
  eapply rtc_l; [apply Ui_offered, (offered_click _ 3 (modify close_market)); reflexivity|].
  eapply rtc_l; [apply Ui_offered, (offered_click _ 2 (installURL l)); reflexivity|apply rtc_refl].
Qed.
