(* ===== verification/Wire.v ===== *)
(** * Wire: the HTTP requests behind the calls of the components

    The components' handlers make abstract calls ([Req] of each file); here each
    call is the request of the source: method, path and body.  [None] stands for
    a call that is no request to the API (the clipboard, a timer, another
    store's action) and for a path that cannot be written ([encodeURIComponent]
    throws and nothing is sent).  The requests go through [Api]. *)

From Stdlib Require Import Strings.String.
From S2P Require Import Session Monitor LatencyView NodeView ShareView AdminForms AdminBackups AdminNodes AdminSettings.
From S2P Require Import AdminSecurity AdminProbes AdminRules AdminNotifications AdminLatency AdminOverview AdminThemes.
From S2P Require Import Prelude JsString Binary64 JsNumber Uri Async Types Json JsDecimal Encode Api.

(** ** Requests *)

Inductive verb := GET | POST | PUT | DELETE.

Inductive payload := NoBody | Json (v : json) | Form (fields : list (jsstr * form_value)).

Record http := mkHttp { verb_ : verb; url : jsstr; content : payload }.

(** What the source passes to [api] with the path: no method for reading. *)
Definition options_of (h : http) : RequestInit :=
  mkInit (match verb_ h with GET => None | POST => Some (js "POST") | PUT => Some (js "PUT") | DELETE => Some (js "DELETE") end) []
    (match content h with NoBody => None | Json v => Some (TextBody (stringify v)) | Form f => Some (FormData f) end).

Definition read (path : jsstr) : option http := Some (mkHttp GET path NoBody).
Definition plain (v : verb) (path : jsstr) : option http := Some (mkHttp v path NoBody).
Definition with_json (v : verb) (path : jsstr) (b : json) : option http := Some (mkHttp v path (Json b)).

Notation "a +++ b" := (@app N a b) (at level 60, right associativity).

(** ** The serializer of URLSearchParams *)

Definition form_unit (c : N) : bool :=
  ((48 <=? c) && (c <=? 57) || (65 <=? c) && (c <=? 90) || (97 <=? c) && (c <=? 122)
   || (c =? 42) || (c =? 45) || (c =? 46) || (c =? 95))%N.

Definition form_point (c : N) : jsstr :=
  if form_unit c then [c] else if N.eqb c 32 then [43%N] else utf8_encode c ≫= pct.

(** A lone surrogate is written as U+FFFD. *)
Fixpoint form_encode (s : jsstr) : jsstr :=
  match s with
  | [] => []
  | c :: s' =>
      match s' with
      | d :: s'' => if high_surrogate c && low_surrogate d
                    then form_point ((c - 55296) * 1024 + (d - 56320) + 65536)%N +++ form_encode s''
                    else form_point (if high_surrogate c || low_surrogate c then 65533 else c)%N +++ form_encode s'
      | [] => form_point (if high_surrogate c || low_surrogate c then 65533 else c)%N
      end
  end.

Definition search_params (l : list (jsstr * jsstr)) : jsstr :=
  join (map (fun kv => form_encode kv.1 +++ js "=" +++ form_encode kv.2) l) (js "&").

(** ** The components *)

Definition admin (s : string) : jsstr := js "/api/v1/admin/" +++ js s.

Definition Session_http (r : Session.Req) : option http :=
  match r with
  | Session.GetMe => read (js "/api/v1/auth/me")
  | Session.GetSite => read (js "/api/v1/public/site")
  | Session.PostLogin username password totp_code =>
      with_json POST (js "/api/v1/auth/login")
        (obj [("username", str username); ("password", str password); ("totp_code", str totp_code)]%string)
  | Session.PostLogout => plain POST (js "/api/v1/auth/logout")
  | Session.PostSetup username password pin name description =>
      with_json POST (js "/api/v1/setup")
        (obj [("username", str username); ("password", str password); ("enrollment_pin", str pin); ("site_name", str name);
              ("site_description", str description)]%string)
  | Session.Push _ => None
  end.

Definition Monitor_http (r : Monitor.Req) : option http :=
  match r with
  | Monitor.GetNodes => read (js "/api/v1/public/nodes")
  | Monitor.GetProbes => read (js "/api/v1/public/probes")
  end.

Definition LatencyView_http (r : LatencyView.Req) : option http :=
  match r with
  | LatencyView.GetOverview => read (js "/api/v1/public/latency")
  | LatencyView.GetHistory p hours =>
      read (js "/api/v1/public/latency/history?" +++
            search_params [(js "probe_node_id", LatencyView.probeNodeID p); (js "target_node_id", LatencyView.targetNodeID p);
                           (js "hours", toString hours); (js "max_points", js "600")])
  end.

Definition NodeView_http (r : NodeView.Req) : option http :=
  match r with
  | NodeView.GetShare token => t ← encodeURIComponent token; read (js "/api/v1/public/share/" +++ t)
  | NodeView.GetNode id => read (js "/api/v1/public/nodes/" +++ id)
  | NodeView.GetHistory token id hours =>
      path ← match token with
             | Some token => t ← encodeURIComponent token; Some (js "/api/v1/public/share/" +++ t +++ js "/history")
             | None => Some (js "/api/v1/public/history")
             end;
      i ← encodeURIComponent id;
      read (path +++ js "?node_id=" +++ i +++ js "&hours=" +++ toString hours +++ js "&max_points=600")
  | NodeView.GetProbes carrier id hours =>
      i ← encodeURIComponent id;
      read (if carrier
            then js "/api/v1/public/probes?purpose=carrier&node_id=" +++ i +++ js "&hours=" +++ toString hours +++ js "&max_points=600"
            else js "/api/v1/public/probes?node_id=" +++ i +++ js "&hours=" +++ toString hours)
  end.

Definition ShareView_http (r : ShareView.Req) : option http :=
  match r with ShareView.GetShare token => t ← encodeURIComponent token; read (js "/api/v1/public/share/" +++ t) end.

Definition AdminBackups_http (r : AdminBackups.Req) : option http :=
  match r with
  | AdminBackups.GetStatus => read (admin "backups/status")
  | AdminBackups.Export current_password passphrase =>
      with_json POST (admin "backups/export") (obj [("current_password", str current_password); ("passphrase", str passphrase)]%string)
  | AdminBackups.Import current_password passphrase confirmation f =>
      Some (mkHttp POST (admin "backups/import")
        (Form [(js "current_password", FormText current_password); (js "passphrase", FormText passphrase);
               (js "confirmation", FormText confirmation); (js "backup", FormFile (file_id f))]))
  | AdminBackups.Sleep _ | AdminBackups.Readyz => None
  end.

(** [JSON.stringify] of a ref that may be null. *)
Definition or_null {A} `{Encode A} (x : option A) : json := match x with Some x => encode x | None => JNull end.

Definition AdminNodes_http (r : AdminNodes.Req) : option http :=
  match r with
  | AdminNodes.GetNodes => read (admin "nodes")
  | AdminNodes.GetConfig id => read (admin "nodes/" +++ id +++ js "/agent-config")
  | AdminNodes.GetCorrection id => read (admin "nodes/" +++ id +++ js "/traffic-correction")
  | AdminNodes.PutCorrection id rx tx =>
      with_json PUT (admin "nodes/" +++ id +++ js "/traffic-correction") (obj [("rx_bytes", number rx); ("tx_bytes", number tx)]%string)
  | AdminNodes.DeleteCorrection id => plain DELETE (admin "nodes/" +++ id +++ js "/traffic-correction")
  | AdminNodes.PutNode id n => with_json PUT (admin "nodes/" +++ id) (or_null n)
  | AdminNodes.PutConfig id c => with_json PUT (admin "nodes/" +++ id +++ js "/agent-config") (or_null c)
  | AdminNodes.PutLatency id enabled => with_json PUT (admin "nodes/" +++ id +++ js "/latency") (obj [("enabled", bool_ enabled)]%string)
  | AdminNodes.DeleteNode id => plain DELETE (admin "nodes/" +++ id)
  | AdminNodes.WriteClipboard _ => None
  end.

Definition AdminSettings_http (r : AdminSettings.Req) : option http :=
  match r with
  | AdminSettings.GetSettings => read (admin "settings")
  | AdminSettings.PutSettings s => with_json PUT (admin "settings") (encode s)
  | AdminSettings.PutPIN pin => with_json PUT (admin "enrollment/pin") (obj [("pin", str pin)]%string)
  | AdminSettings.GetTemporary => read (admin "enrollment/temporary-pin")
  | AdminSettings.PostTemporary m => with_json POST (admin "enrollment/temporary-pin") (obj [("expires_in_minutes", number m)]%string)
  | AdminSettings.DeleteTemporary => plain DELETE (admin "enrollment/temporary-pin")
  | AdminSettings.SessionRefresh | AdminSettings.PinLoaded | AdminSettings.WriteClipboard _ => None
  end.

Definition AdminSecurity_http (r : AdminSecurity.Req) : option http :=
  match r with
  | AdminSecurity.GetSessions => read (admin "security/sessions")
  | AdminSecurity.GetKeys => read (admin "api-keys")
  | AdminSecurity.GetShares => read (admin "share-links")
  | AdminSecurity.GetNodes => read (admin "nodes")
  | AdminSecurity.GetMe => read (js "/api/v1/auth/me")
  | AdminSecurity.SetupTOTP => plain POST (admin "security/totp/setup")
  | AdminSecurity.ConfirmTOTP setup_token code =>
      with_json POST (admin "security/totp/confirm") (obj [("setup_token", str setup_token); ("code", str code)]%string)
  | AdminSecurity.DisableTOTP password => with_json DELETE (admin "security/totp") (obj [("password", str password)]%string)
  | AdminSecurity.PutPassword current_password new_password =>
      with_json PUT (admin "security/password") (obj [("current_password", str current_password); ("new_password", str new_password)]%string)
  | AdminSecurity.CreateKey name days =>
      with_json POST (admin "api-keys") (obj [("name", str name); ("expires_in_days", number days)]%string)
  | AdminSecurity.DeleteKey id => plain DELETE (admin "api-keys/" +++ id)
  | AdminSecurity.DeleteSession id => i ← encodeURIComponent id; plain DELETE (admin "security/sessions/" +++ i)
  | AdminSecurity.RevokeOthers => plain POST (admin "security/sessions/revoke-others")
  | AdminSecurity.CreateShare node_ids expires_at =>
      with_json POST (admin "share-links") (obj [("node_ids", strings node_ids); ("expires_at", str expires_at)]%string)
  | AdminSecurity.DeleteShare id => plain DELETE (admin "share-links/" +++ id)
  end.

Definition AdminProbes_http (r : AdminProbes.Req) : option http :=
  match r with
  | AdminProbes.GetTasks => read (admin "probes")
  | AdminProbes.GetCarrierTasks => read (admin "carrier-probes")
  | AdminProbes.GetNodes => read (admin "nodes")
  | AdminProbes.PostProbe t => with_json POST (admin "probes") (encode t)
  | AdminProbes.PutProbe id t => with_json PUT (admin "probes/" +++ toString id) (encode t)
  | AdminProbes.PutCarrier key t => k ← encodeURIComponent key; with_json PUT (admin "carrier-probes/" +++ k) (encode t)
  | AdminProbes.DeleteProbe id => plain DELETE (admin "probes/" +++ toString id)
  end.

Definition AdminRules_http (r : AdminRules.Req) : option http :=
  match r with
  | AdminRules.GetRules => read (admin "alerts/rules")
  | AdminRules.GetEvents => read (admin "alerts/events?limit=40")
  | AdminRules.GetNodes => read (admin "nodes")
  | AdminRules.PostRule r => with_json POST (admin "alerts/rules") (encode r)
  | AdminRules.PutRule id r => with_json PUT (admin "alerts/rules/" +++ toString id) (encode r)
  | AdminRules.DeleteRule id => plain DELETE (admin "alerts/rules/" +++ toString id)
  end.

Definition AdminNotifications_http (r : AdminNotifications.Req) : option http :=
  match r with
  | AdminNotifications.GetChannels => read (admin "notifications")
  | AdminNotifications.PostChannel c => with_json POST (admin "notifications") (encode c)
  | AdminNotifications.PutChannel id c => with_json PUT (admin "notifications/" +++ toString id) (encode c)
  | AdminNotifications.TestChannel id => plain POST (admin "notifications/" +++ toString id +++ js "/test")
  | AdminNotifications.DeleteChannel id => plain DELETE (admin "notifications/" +++ toString id)
  end.

Definition AdminLatency_http (r : AdminLatency.Req) : option http :=
  match r with
  | AdminLatency.GetLatency => read (admin "latency")
  | AdminLatency.PostTarget t => with_json POST (admin "latency/targets") (encode t)
  | AdminLatency.PutTarget id t => with_json PUT (admin "latency/targets/" +++ toString id) (encode t)
  | AdminLatency.DeleteTarget id => plain DELETE (admin "latency/targets/" +++ toString id)
  | AdminLatency.GetConfig id => read (admin "nodes/" +++ id +++ js "/agent-config")
  | AdminLatency.PutNode id n => with_json PUT (admin "latency/nodes/" +++ id) (encode n)
  | AdminLatency.PutConfig id c => with_json PUT (admin "nodes/" +++ id +++ js "/agent-config") (encode c)
  | AdminLatency.DeleteNode id => plain DELETE (admin "latency/nodes/" +++ id)
  | AdminLatency.WriteClipboard _ => None
  end.

Definition Dashboard_http (r : Dashboard.Req) : option http :=
  match r with
  | Dashboard.GetNodes => read (admin "nodes")
  | Dashboard.GetEvents => read (admin "alerts/events?limit=8")
  | Dashboard.WriteClipboard _ => None
  end.

Definition Audit_http (r : Audit.Req) : option http :=
  match r with Audit.GetAudit => read (admin "audit?limit=500") end.

Definition AdminThemes_http (r : AdminThemes.Req) : option http :=
  match r with
  | AdminThemes.GetThemes => read (admin "themes")
  | AdminThemes.UploadTheme f sha =>
      Some (mkHttp POST (admin "themes/upload")
        (Form ((js "theme", FormFile (file_id f)) :: match sha with Some s => [(js "sha256", FormText s)] | None => [] end)))
  | AdminThemes.InstallTheme u sha => with_json POST (admin "themes/install") (obj [("url", str u); ("sha256", str sha)]%string)
  | AdminThemes.ActivateTheme short => plain POST (admin "themes/" +++ short +++ js "/activate")
  | AdminThemes.DeleteTheme short => plain DELETE (admin "themes/" +++ short)
  | AdminThemes.PutThemeSettings short o => with_json PUT (admin "themes/" +++ short +++ js "/settings") (JObj o)
  | AdminThemes.GetMarket => read (admin "themes/market")
  | AdminThemes.SessionRefresh => None
  end.

(** ** All of them *)

(** A kind of calls whose requests are known. *)
Class Wire (Req : Type) := wire : Req -> option http.

#[export] Instance wire_Session : Wire Session.Req := Session_http.
#[export] Instance wire_Monitor : Wire Monitor.Req := Monitor_http.
#[export] Instance wire_LatencyView : Wire LatencyView.Req := LatencyView_http.
#[export] Instance wire_NodeView : Wire NodeView.Req := NodeView_http.
#[export] Instance wire_ShareView : Wire ShareView.Req := ShareView_http.
#[export] Instance wire_AdminBackups : Wire AdminBackups.Req := AdminBackups_http.
#[export] Instance wire_AdminNodes : Wire AdminNodes.Req := AdminNodes_http.
#[export] Instance wire_AdminSettings : Wire AdminSettings.Req := AdminSettings_http.
#[export] Instance wire_AdminSecurity : Wire AdminSecurity.Req := AdminSecurity_http.
#[export] Instance wire_AdminProbes : Wire AdminProbes.Req := AdminProbes_http.
#[export] Instance wire_AdminRules : Wire AdminRules.Req := AdminRules_http.
#[export] Instance wire_AdminNotifications : Wire AdminNotifications.Req := AdminNotifications_http.
#[export] Instance wire_AdminLatency : Wire AdminLatency.Req := AdminLatency_http.
#[export] Instance wire_Dashboard : Wire Dashboard.Req := Dashboard_http.
#[export] Instance wire_Audit : Wire Audit.Req := Audit_http.
#[export] Instance wire_AdminThemes : Wire AdminThemes.Req := AdminThemes_http.

(** What the source keeps to in every request: a path of the API on the page's
    own host, no content in a reading request, and JSON that is an object (or
    null, the value of an empty ref). *)
Definition well_formed (h : http) : Prop :=
  startsWith (url h) (js "/api/v1/") = true /\ (verb_ h = GET -> content h = NoBody) /\
  match content h with Json (JObj _) | Json JNull | NoBody | Form _ => True | _ => False end.

Class LawfulWire (Req : Type) `{Wire Req} : Prop := wire_well_formed : forall (r : Req) h, wire r = Some h -> well_formed h.

Ltac endpoints :=
  intros r h Hr; destruct r; cbn in Hr; unfold read, plain, with_json in Hr;
  repeat (match type of Hr with context [encodeURIComponent ?x] => destruct (encodeURIComponent x); cbn in Hr end ||
          match type of Hr with context [or_null ?x] => destruct x; cbn in Hr end ||
          match type of Hr with context [match ?x with _ => _ end] => destruct x; cbn in Hr end);
  try discriminate Hr; injection Hr as <-; (split; [reflexivity|split; [done|exact Logic.I]]).

#[export] Instance lawful_Session : LawfulWire Session.Req. Proof. endpoints. Qed.
#[export] Instance lawful_Monitor : LawfulWire Monitor.Req. Proof. endpoints. Qed.
#[export] Instance lawful_LatencyView : LawfulWire LatencyView.Req. Proof. endpoints. Qed.
#[export] Instance lawful_NodeView : LawfulWire NodeView.Req. Proof. endpoints. Qed.
#[export] Instance lawful_ShareView : LawfulWire ShareView.Req. Proof. endpoints. Qed.
#[export] Instance lawful_AdminBackups : LawfulWire AdminBackups.Req. Proof. endpoints. Qed.
#[export] Instance lawful_AdminNodes : LawfulWire AdminNodes.Req. Proof. endpoints. Qed.
#[export] Instance lawful_AdminSettings : LawfulWire AdminSettings.Req. Proof. endpoints. Qed.
#[export] Instance lawful_AdminSecurity : LawfulWire AdminSecurity.Req. Proof. endpoints. Qed.
#[export] Instance lawful_AdminProbes : LawfulWire AdminProbes.Req. Proof. endpoints. Qed.
#[export] Instance lawful_AdminRules : LawfulWire AdminRules.Req. Proof. endpoints. Qed.
#[export] Instance lawful_AdminNotifications : LawfulWire AdminNotifications.Req. Proof. endpoints. Qed.
#[export] Instance lawful_AdminLatency : LawfulWire AdminLatency.Req. Proof. endpoints. Qed.
#[export] Instance lawful_Dashboard : LawfulWire Dashboard.Req. Proof. endpoints. Qed.
#[export] Instance lawful_Audit : LawfulWire Audit.Req. Proof. endpoints. Qed.
#[export] Instance lawful_AdminThemes : LawfulWire AdminThemes.Req. Proof. endpoints. Qed.

(** The calls of every component. *)
Inductive any_request :=
| OfSession (r : Session.Req) | OfMonitor (r : Monitor.Req) | OfLatencyView (r : LatencyView.Req) | OfNodeView (r : NodeView.Req)
| OfShareView (r : ShareView.Req) | OfBackups (r : AdminBackups.Req) | OfNodes (r : AdminNodes.Req) | OfSettings (r : AdminSettings.Req)
| OfSecurity (r : AdminSecurity.Req) | OfProbes (r : AdminProbes.Req) | OfRules (r : AdminRules.Req)
| OfNotifications (r : AdminNotifications.Req) | OfLatency (r : AdminLatency.Req) | OfDashboard (r : Dashboard.Req)
| OfAudit (r : Audit.Req) | OfThemes (r : AdminThemes.Req).

#[export] Instance any_http : Wire any_request := fun r =>
  match r with
  | OfSession r => wire r | OfMonitor r => wire r | OfLatencyView r => wire r | OfNodeView r => wire r
  | OfShareView r => wire r | OfBackups r => wire r | OfNodes r => wire r | OfSettings r => wire r
  | OfSecurity r => wire r | OfProbes r => wire r | OfRules r => wire r | OfNotifications r => wire r
  | OfLatency r => wire r | OfDashboard r => wire r | OfAudit r => wire r | OfThemes r => wire r
  end.

#[export] Instance lawful_any : LawfulWire any_request.
Proof. intros [r|r|r|r|r|r|r|r|r|r|r|r|r|r|r|r] h; exact (wire_well_formed r h). Qed.

(** ** Properties: requests through the API client *)

Lemma reads_only_verb `{U : Unicode, !UnicodeLaws U} h : reads_only (method_of (options_of h)) = match verb_ h with GET => true | _ => false end.
Proof. unfold method_of, options_of. destruct (verb_ h); cbn; by rewrite upper_ascii. Qed.

Lemma stringify_truthy v : match v with JObj _ | JNull => True | _ => False end -> truthy (stringify v) = true.
Proof. by destruct v. Qed.

(** The headers before the CSRF token. *)
Lemma content_type_of h : well_formed h ->
  default_content_type (options_of h) (newHeaders (init_headers (options_of h)))
  = match content h with Json _ => [(js "content-type", js "application/json")] | _ => [] end.
Proof.
  intros (_ & _ & Hc). unfold default_content_type, options_of. cbn [init_headers body].
  destruct (content h) as [|v|f]; [done| |done]. pose proof (stringify_truthy v) as Ht.
  destruct (stringify v) as [|c s]; [destruct v; try done; by specialize (Ht Hc)|]. done.
Qed.

(** The request of a call, described on its own: path, method, body, a content
    type for JSON only, and the token of a writing request.  [None]: the cookie
    cannot be decoded. *)
Definition http_request (doc : jsstr) (h : http) : option request :=
  let content_type := match content h with Json _ => [(js "content-type", js "application/json")] | _ => [] end in
  let request headers :=
    mkRequest (url h)
      (match verb_ h with GET => None | POST => Some (js "POST") | PUT => Some (js "PUT") | DELETE => Some (js "DELETE") end) headers
      (match content h with NoBody => None | Json v => Some (TextBody (stringify v)) | Form f => Some (FormData f) end)
      (js "same-origin") in
  match verb_ h with
  | GET => Some (request content_type)
  | _ => match cookie doc (js "hostpin_csrf") with
         | None => None
         | Some [] => Some (request content_type)
         | Some token => Some (request ((js "x-csrf-token", token) :: content_type)%list)
         end
  end.

(** It is the request that the client sends. *)
Lemma sent_http `{U : Unicode, !UnicodeLaws U} doc h : well_formed h -> sent doc (url h) (options_of h) = http_request doc h.
Proof.
  intros Hw. unfold sent. rewrite (content_type_of h Hw), (reads_only_verb h). unfold http_request.
  destruct (verb_ h) eqn:Hv; [by unfold options_of; rewrite Hv|..];
    destruct (cookie doc (js "hostpin_csrf")) as [[|c v]|]; try done; cbn -[options_of js header_set];
    unfold options_of; rewrite Hv; cbn -[js header_set]; try done; by destruct (content h).
Qed.

(** C6: whatever component makes it, a call becomes one request and no other: to a
    path of the API on the page's own host with same-origin credentials, as JSON
    exactly when its body is JSON; a reading request has no body and no token, and
    a writing one carries the CSRF token whenever the cookie is set and can be
    decoded; when the cookie cannot be decoded a writing request is not sent, nor
    anything in its place, and the call throws. *)
Theorem requests_protected `{U : Unicode, !UnicodeLaws U} {W : Type} (respond : forall r : Api.Req, W -> (Api.Resp r + exn) * W) doc w
    (r : any_request) h : wire r = Some h ->
  let o := exec_in respond (api (url h) (options_of h)) doc w in
  match (match verb_ h with
         | GET => Some None
         | _ => token ← cookie doc (js "hostpin_csrf"); Some (match token with [] => None | _ => Some token end)
         end) with
  | None => o = Trace [] doc w (inr (OtherError (js "URI malformed")))
  | Some token =>
      exists q, (asked o = [One (Fetch q)] \/ exists resp, asked o = [One (Fetch q); One (ReadJson resp)]) /\
        path q = url h /\ startsWith (path q) (js "/api/v1/") = true /\ credentials q = js "same-origin" /\
        req_method q = (match verb_ h with GET => None | POST => Some (js "POST") | PUT => Some (js "PUT") | DELETE => Some (js "DELETE") end) /\
        req_body q = (match content h with NoBody => None | Json v => Some (TextBody (stringify v)) | Form f => Some (FormData f) end) /\
        (verb_ h = GET -> req_body q = None) /\
        header_get (js "Content-Type") (req_headers q) = match content h with Json _ => Some (js "application/json") | _ => None end /\
        header_get (js "X-CSRF-Token") (req_headers q) = token
  end.
Proof.
  intros Hr. pose proof (wire_well_formed r h Hr) as Hw. cbn zeta. pose proof (sent_http doc h Hw) as Hs.
  pose proof (api_asked respond doc (url h) (options_of h) w) as Ha. pose proof (api_unsent respond doc (url h) (options_of h) w) as Hn.
  destruct Hw as (Hp & Hg & _). rewrite Hs in Ha, Hn. unfold http_request in Ha, Hn.
  destruct (verb_ h) eqn:Hv; [|destruct (cookie doc (js "hostpin_csrf")) as [[|c v]|]..]; cbn [mbind option_bind];
    try (by apply Hn); (eexists; split; [by apply Ha|]); cbn [path credentials req_method req_body req_headers];
    split_and!; try done; try (intros _; by rewrite (Hg eq_refl)); by destruct (content h).
Qed.

(** Saving a channel with the cookie set. *)
Lemma requests_protected_witness :
  let h := mkHttp POST (js "/api/v1/admin/notifications/7/test") NoBody in
  exists q, asked (exec_in (replies (mkResponse 204 [] None) (inl JNull)) (@api small_unicode (url h) (options_of h)) (js "hostpin_csrf=t%20k") tt)
            = [One (Fetch q)] /\ header_get (js "X-CSRF-Token") (req_headers q) = Some (js "t k").
Proof.
  destruct (@requests_protected small_unicode small_unicode_laws unit (replies (mkResponse 204 [] None) (inl JNull)) (js "hostpin_csrf=t%20k") tt
    (OfNotifications (AdminNotifications.TestChannel (of_Z 7))) _ eq_refl) as (q & [Ha|[resp Ha]] & _ & _ & _ & _ & _ & _ & _ & Ht);
    [exists q; split; [exact Ha|exact Ht]|vm_compute in Ha; discriminate Ha].
Defined.

(** ** Properties: bodies *)

(** The two values that are objects of their own: a theme's settings and a
    channel's configuration. *)
Definition own_objects (r : any_request) : option object :=
  match r with
  | OfThemes (AdminThemes.PutThemeSettings _ o) => Some o
  | OfNotifications (AdminNotifications.PostChannel c) | OfNotifications (AdminNotifications.PutChannel _ c) => NotificationChannel.config c
  | _ => None
  end.

Ltac bodies :=
  repeat (match goal with H : context [match ?x with Some _ => _ | None => _ end] |- _ => is_var x; destruct x; cbn in H end ||
          match goal with H : context [encodeURIComponent ?x] |- _ => destruct (encodeURIComponent x); cbn in H end ||
          match goal with H : context [or_null ?x] |- _ => destruct x; cbn in H end);
  try discriminate; simplify_eq; auto with encode; try (encoded; fail).

Lemma body_objects (r : any_request) h v : wire r = Some h -> content h = Json v ->
  opt_ok (JObj <$> own_objects r) -> objects_ok v = true.
Proof.
  intros Hr Hc Ho. destruct h as [vb u ct]. cbn in Hc. subst ct.
  destruct r as [r|r|r|r|r|r|r|r|r|r|r|r|r|r|r|r]; destruct r; cbn -[encode obj] in Hr; unfold read, plain, with_json in Hr; cbn -[encode obj] in Hr;
    bodies.
Qed.

(** The body of every JSON request is read back by a JSON parser as the
    value the source passes to [JSON.stringify]: the records with their optional
    members left out when undefined, strings of any characters included.  The
    numbers in it must be ones whose shortest decimal text is JSON for them, as
    integers below 10^15 are. *)
Theorem bodies_read_back (r : any_request) h v : wire r = Some h -> content h = Json v ->
  Forall (fun n => num_ok n = true) (numbers v) -> opt_ok (JObj <$> own_objects r) ->
  exists s, body (options_of h) = Some (TextBody s) /\ parse s = Some v.
Proof.
  intros Hr Hc Hn Ho. exists (stringify v). split; [unfold options_of; by rewrite Hc|].
  apply parse_text, json_ok_parts; [by apply (body_objects r h)|done].
Qed.

(** An SMTP channel whose name needs escapes. *)
Lemma bodies_read_back_witness :
  let c := NotificationChannel.mk (of_Z 4) [34; 92; 10; 55357]%N NotificationChannel.smtp
    (Some [(js "port", JNum (of_Z 587)); (js "to", JArr [JStr (js "a@example.org")])]) true None None in
  exists s, body (options_of (mkHttp PUT (js "/api/v1/admin/notifications/4") (Json (encode c)))) = Some (TextBody s) /\ parse s = Some (encode c).
Proof.
  intros c. apply (bodies_read_back (OfNotifications (AdminNotifications.PutChannel (of_Z 4) c))); [vm_compute; reflexivity|reflexivity| |reflexivity].
  change (numbers (encode c)) with [of_Z 4; of_Z 587]. repeat constructor; by apply num_ok_of_Z.
Defined.
