(* ===== verification/Link.v ===== *)
(** * Link: running a component's calls as programs of another

    A handler awaits abstract calls ([Req]); in the source each is an [async]
    function that does work of its own: [api] fetches and reads, an action of a
    store changes the store.  [inline] replaces every call of a handler by a
    program over a second state, as a function call does.  [inline_exec]: run
    alone against any server, the linked handler is the handler against the
    server that its callees make up, whose state is that of the callees, that of
    the real server and the calls made so far.  [embed] makes the calls of a
    program calls of a larger kind. *)

From S2P Require Import Prelude JsString Binary64 JsNumber Async.

Section Link.
Context {S1 S2 R1 R2 : Type} {P1 : R1 -> Type} {P2 : R2 -> Type}.
Context (impl : forall r : R1, prog S2 R2 P2 (P1 r)).

(** A program of the callee on the pair of states. *)
Fixpoint lift {A} (p : prog S2 R2 P2 A) : prog (S1 * S2) R2 P2 A :=
  match p with
  | Ret a => Ret a
  | Throw e => Throw e
  | Get k => Get (fun s => lift (k s.2))
  | Put s2 k => Get (fun s => Put (s.1, s2) (lift k))
  | Await c k => Await c (fun r => lift (k r))
  end.

(** The promise of a call, as a value. *)
Definition settled {A} (p : prog S2 R2 P2 A) : prog S2 R2 P2 (A + exn) :=
  try_catch (bind p (fun a => Ret (inl a))) (fun e => Ret (inr e)).

(** [Promise.all] starts both; here the first runs, then the second, one of the
    orders in which the host can answer.  (Every [Promise.all] of the source
    reads: no cookie is read when such a call starts.) *)
Fixpoint run_call (c : call R1) : prog S2 R2 P2 (answer P1 c + exn) :=
  match c with
  | One r => settled (impl r)
  | All2 a b =>
      bind (run_call a) (fun x => bind (run_call b) (fun y =>
        Ret (match x, y with
             | inl x, inl y => inl (x, y)
             | inr e, _ => inr e
             | _, inr e => inr e
             end)))
  end.

Fixpoint inline {A} (p : prog S1 R1 P1 A) : prog (S1 * S2) R2 P2 A :=
  match p with
  | Ret a => Ret a
  | Throw e => Throw e
  | Get k => Get (fun s => inline (k s.1))
  | Put s1 k => Get (fun s => Put (s1, s.2) (inline k))
  | Await c k => bind (lift (run_call c)) (fun r => inline (k r))
  end.

(** ** Run alone *)

Context {W : Type} (respond : forall r : R2, W -> (P2 r + exn) * W).

Lemma exec_lift {A} (p : prog S2 R2 P2 A) : forall s1 s2 w,
  exec_in respond (lift p) (s1, s2) w
  = let o := exec_in respond p s2 w in Trace (asked o) (s1, end_state o) (end_world o) (got o).
Proof. induction p as [a|e|k IH|s k IH|c k IH]; intros s1 s2 w; cbn; rewrite ?IH; done. Qed.

Lemma exec_settled {A} (p : prog S2 R2 P2 A) s2 w :
  exec_in respond (settled p) s2 w
  = let o := exec_in respond p s2 w in Trace (asked o) (end_state o) (end_world o) (inl (got o)).
Proof.
  unfold settled. rewrite exec_in_try_catch, exec_in_bind. cbn zeta.
  destruct (exec_in respond p s2 w) as [cs fs fw [a|e]]; cbn; by rewrite !app_nil_r.
Qed.

(** The server that the callees make up. *)
Definition derived (r : R1) (w : S2 * W * list (call R2)) : (P1 r + exn) * (S2 * W * list (call R2)) :=
  let o := exec_in respond (impl r) w.1.1 w.1.2 in (got o, (end_state o, end_world o, w.2 ++ asked o)%list).

Lemma exec_run_call c : forall s2 w log,
  let o := exec_in respond (run_call c) s2 w in
  ask_in derived c (s2, w, log)
  = (match got o with inl x => x | inr e => inr e end, (end_state o, end_world o, log ++ asked o)%list) /\
  exists x, got o = inl x.
Proof.
  induction c as [r|a IHa b IHb]; intros s2 w log; cbn zeta; cbn [run_call ask_in].
  - rewrite exec_settled. cbn. eauto.
  - destruct (IHa s2 w log) as [Ha [x Hx]]. rewrite Ha, exec_in_bind. cbn zeta in *. rewrite Hx. cbn [fst snd].
    destruct (IHb (end_state (exec_in respond (run_call a) s2 w)) (end_world (exec_in respond (run_call a) s2 w))
      (log ++ asked (exec_in respond (run_call a) s2 w))%list) as [Hb [y Hy]].
    rewrite Hb, exec_in_bind. cbn zeta in *. rewrite Hy. cbn [fst snd exec_in got end_state end_world asked].
    rewrite app_nil_r, app_assoc. eauto.
Qed.

(** A linked handler refines the handler: same result and same changes of its own
    state; the server and the callees end as they do for the calls one by one. *)
Lemma inline_exec {A} (p : prog S1 R1 P1 A) : forall s1 s2 w log,
  let o := exec_in respond (inline p) (s1, s2) w in
  let alone := exec_in derived p s1 (s2, w, log) in
  end_state o = (end_state alone, (end_world alone).1.1) /\ end_world o = (end_world alone).1.2 /\
  (log ++ asked o)%list = (end_world alone).2 /\ got o = got alone.
Proof.
  induction p as [a|e|k IH|s k IH|c k IH]; intros s1 s2 w log; cbn zeta; cbn [inline exec_in];
    try (cbn; by rewrite ?app_nil_r); try (apply IH).
  rewrite exec_in_bind, exec_lift. cbn zeta. destruct (exec_run_call c s2 w log) as [Hc [x Hx]]. cbn zeta in Hc, Hx.
  rewrite Hc, Hx. cbn [asked end_state end_world got fst snd]. rewrite app_assoc. apply IH.
Qed.

(** A step of a linked handler: its callee runs on its own state. *)
Lemma exec_call {A} (r : R1) (k : P1 r + exn -> prog (S1 * S2) R2 P2 A) s1 s2 w :
  exec_in respond (bind (lift (run_call (One r))) k) (s1, s2) w
  = let o := exec_in respond (impl r) s2 w in
    let o' := exec_in respond (k (got o)) (s1, end_state o) (end_world o) in
    Trace (asked o ++ asked o') (end_state o') (end_world o') (got o').
Proof. rewrite exec_in_bind, exec_lift. cbn [run_call]. rewrite exec_settled. done. Qed.

End Link.

(** ** Servers that answer alike *)

Lemma ask_in_ext {R W : Type} {P : R -> Type} (f g : forall r, W -> (P r + exn) * W) c : (forall r w, f r w = g r w) ->
  forall w, ask_in f c w = ask_in g c w.
Proof. intros He. induction c as [r|a IHa b IHb]; intros w; cbn; [apply He|]. by rewrite IHa, IHb. Qed.

Lemma exec_in_ext {S R W : Type} {P : R -> Type} {A} (f g : forall r, W -> (P r + exn) * W) (p : prog S R P A) :
  (forall r w, f r w = g r w) -> forall s w, exec_in f p s w = exec_in g p s w.
Proof.
  intros He. induction p as [a|e|k IH|s' k IH|c k IH]; intros s w; cbn; try done.
  by rewrite (ask_in_ext f g c He), IH.
Qed.

(** ** Calls of one kind among calls of two *)

Section Embed.
Context {S R1 R2 : Type} {P1 : R1 -> Type} {P2 : R2 -> Type} (inj : R1 -> R2) (out : forall r, P2 (inj r) -> P1 r).

Fixpoint call_map (c : call R1) : call R2 :=
  match c with
  | One r => One (inj r)
  | All2 a b => All2 (call_map a) (call_map b)
  end.

Fixpoint answer_map (c : call R1) : answer P2 (call_map c) -> answer P1 c :=
  match c return answer P2 (call_map c) -> answer P1 c with
  | One r => out r
  | All2 a b => fun x => (answer_map a x.1, answer_map b x.2)
  end.

Definition outcome_map {A B} (f : A -> B) (x : A + exn) : B + exn := match x with inl a => inl (f a) | inr e => inr e end.

Fixpoint embed {A} (p : prog S R1 P1 A) : prog S R2 P2 A :=
  match p with
  | Ret a => Ret a
  | Throw e => Throw e
  | Get k => Get (fun s => embed (k s))
  | Put s k => Put s (embed k)
  | Await c k => Await (call_map c) (fun r => embed (k (outcome_map (answer_map c) r)))
  end.

Context {W : Type} (respond : forall r, W -> (P2 r + exn) * W).

(** What the smaller kind of calls sees of a server. *)
Definition seen (r : R1) (w : W) : (P1 r + exn) * W := let x := respond (inj r) w in (outcome_map (out r) x.1, x.2).

Lemma ask_call_map c : forall w,
  ask_in seen c w = (outcome_map (answer_map c) (ask_in respond (call_map c) w).1, (ask_in respond (call_map c) w).2).
Proof.
  induction c as [r|a IHa b IHb]; intros w; [done|]. cbn. rewrite IHa. cbn [fst snd]. rewrite IHb. cbn [fst snd].
  by destruct (ask_in respond (call_map a) w) as [[x|e] w1]; cbn; destruct (ask_in respond (call_map b) w1) as [[y|e'] w2].
Qed.

Lemma exec_embed {A} (p : prog S R1 P1 A) : forall s w,
  exec_in respond (embed p) s w
  = let o := exec_in seen p s w in Trace (map call_map (asked o)) (end_state o) (end_world o) (got o).
Proof.
  induction p as [a|e|k IH|s' k IH|c k IH]; intros s w; cbn; try done. rewrite IH, ask_call_map. done.
Qed.

End Embed.
