(* ===== verification/EndToEnd.v ===== *)
(** * EndToEnd: pages, the API client, the session store and the wire together

    [Base] is what leaves the client: a request of [Api] or a call of the host
    (the clipboard, the router, a promise of the page itself).  [over_http] runs
    a component's call as the source does: the request of [Wire] through [api],
    and the body read at the type the source gives it.  With [Link] it turns the
    handlers of a page into programs over the page, the session store and the
    page's cookies, and the theorems of the parts into theorems about the whole:
    from a click to the text of the request, and from the response to what the
    page shows. *)

From Stdlib Require Import Strings.String.
From S2P Require Import Session AdminProbes AdminSettings.
From S2P Require Import Prelude JsString Binary64 JsNumber Async I18n Types Json Encode Decode Link AdminForms Api Wire.

Open Scope async_scope.

(** ** What leaves the client *)

Inductive Base := Net (r : Api.Req) | HostProbes (r : AdminProbes.Req) | HostSettings (r : AdminSettings.Req) | HostSession (r : Session.Req).

Definition Answer (b : Base) : Type :=
  match b with
  | Net r => Api.Resp r
  | HostProbes r => AdminProbes.Resp r
  | HostSettings r => AdminSettings.Resp r
  | HostSession r => Session.Resp r
  end.

(** A server and a host: every answer may change their state. *)
Definition Server (W : Type) := forall b : Base, W -> ((Answer b + exn) * W)%type.

(** A component: its calls, their place in [Base] and the reading of bodies. *)
Class Client (Req : Type) `{Wire Req} (Resp : Req -> Type) := {
  host_call : Req -> Base;
  host_answer : forall r, Answer (host_call r) -> Resp r;
  reading : forall r : Req, option json -> (Resp r + exn)%type;
}.

(** [unwrap(await api<{ data: T }>(...))]: a property of undefined is a
    TypeError; a body of another type is outside the model and read as an
    error. *)
Definition of_data {A} (d : json -> option A) (body : option json) : A + exn :=
  match body with
  | None => inr (OtherError (js "Cannot read properties of undefined (reading 'data')"))
  | Some v => match field (js "data") v ≫= d with Some a => inl a | None => inr NotAnError end
  end.

(** [await api<T>(...)]. *)
Definition of_body {A} (d : json -> option A) (body : option json) : A + exn :=
  match body ≫= d with Some a => inl a | None => inr NotAnError end.

Section Http.
Context `{U : Unicode} {Req : Type} `{WR : Wire Req} {Resp : Req -> Type} `{!Client Req Resp}.

Definition over_http (r : Req) : prog Api.page Base Answer (Resp r) :=
  match wire r with
  | Some h =>
      let! body := embed Net (fun _ x => x) (api (url h) (options_of h)) in
      match reading r body with inl a => Ret a | inr e => Throw e end
  | None => let! x := await (One (host_call r)) in Ret (host_answer r x)
  end.

(** ** What a call does, described on its own *)

(** One exchange: the request of [http_request], the cookies of the response, its
    body unless the status is 204, read when the status is a success and turned
    into an error otherwise. *)
Definition exchange {W A} (server : Server W) (h : http) (read : option json -> A + exn) (doc : jsstr) (w : W) : trace jsstr Base W A :=
  match http_request doc h with
  | None => Trace [] doc w (inr (OtherError (js "URI malformed")))
  | Some q =>
      let x := server (Net (Fetch q)) w in
      match x.1 with
      | inr e => Trace [One (Net (Fetch q))] doc x.2 (inr e)
      | inl resp =>
          let doc' := nullish (cookies_after resp) doc in
          if Z.eqb (status resp) 204 then Trace [One (Net (Fetch q))] doc' x.2 (read None)
          else
            let y := server (Net (ReadJson resp)) x.2 in
            Trace [One (Net (Fetch q)); One (Net (ReadJson resp))] doc' y.2
              (if Z.leb 200 (status resp) && Z.leb (status resp) 299
               then match y.1 with inl v => read (Some v) | inr e => inr e end
               else inr (api_error (status resp) (match y.1 with inl v => v | inr _ => JObj [] end)))
      end
  end.

(** A call of the component: an exchange, or a call of the host. *)
Definition http_call {W} (server : Server W) (r : Req) (doc : jsstr) (w : W) : trace jsstr Base W (Resp r) :=
  match wire r with
  | Some h => exchange server h (reading r) doc w
  | None => let x := server (host_call r) w in
            Trace [One (host_call r)] doc x.2 (match x.1 with inl a => inl (host_answer r a) | inr e => inr e end)
  end.

(** The calls as a server of the component: its state is the cookies, the state of
    the real server and the calls made so far. *)
Definition client {W} (server : Server W) (r : Req) (w : jsstr * W * list (call Base)) : (Resp r + exn) * (jsstr * W * list (call Base)) :=
  let o := http_call server r w.1.1 w.1.2 in (got o, (end_state o, end_world o, w.2 ++ asked o)%list).

(** ** Properties: the client implements that description *)

Lemma exec_over_http `{!UnicodeLaws U, !LawfulWire Req} {W} (server : Server W) r doc w :
  exec_in server (over_http r) doc w = http_call server r doc w.
Proof.
  unfold over_http, http_call. destruct (wire r) as [h|] eqn:Hw.
  - rewrite exec_in_bind, exec_embed, exec_api, (sent_http doc h (wire_well_formed r h Hw)). unfold exchange, seen.
    destruct (http_request doc h) as [q|]; [|done]. cbn zeta. cbn [fst snd].
    destruct (server (Net (Fetch q)) w) as [[resp|e] w1]; [|done]. cbn [fst snd outcome_map].
    destruct (Z.eqb (status resp) 204); cbn; [by destruct (reading r None)|]. unfold ok.
    destruct (Z.leb 200 (status resp) && Z.leb (status resp) 299); destruct (server (Net (ReadJson resp)) w1) as [[v|e] w2]; cbn; try done.
    change (Answer (Net (ReadJson resp))) with json in *. by destruct (reading r (Some v)).
  - cbn. by destruct (server (host_call r) w) as [[x|e] w1].
Qed.

Lemma page_over_http_eq `{!UnicodeLaws U, !LawfulWire Req} {S A W} (server : Server W) (p : prog S Req Resp A) s doc w :
  exec_in server (inline over_http p) (s, doc) w
  = let alone := exec_in (client server) p s (doc, w, []) in
    Trace (end_world alone).2 (end_state alone, (end_world alone).1.1) (end_world alone).1.2 (got alone).
Proof.
  destruct (inline_exec over_http server p s doc w []) as (H1 & H2 & H3 & H4).
  rewrite (exec_in_ext _ (client server)) in H1, H2, H3, H4 by (intros r [[d w'] log]; unfold derived, client; by rewrite exec_over_http).
  cbn zeta. destruct (exec_in server (inline over_http p) (s, doc) w) as [cs fs fw x]. cbn in *. by subst.
Qed.


End Http.

(** ** The components *)

Definition no_answer : exn := NotAnError.

#[export] Instance client_Probes : Client AdminProbes.Req AdminProbes.Resp := {|
  host_call := HostProbes;
  host_answer := fun _ x => x;
  reading := fun r body =>
    match r return AdminProbes.Resp r + exn with
    | AdminProbes.GetTasks | AdminProbes.GetCarrierTasks => of_data (dec_list decode) body
    | AdminProbes.GetNodes => of_data (dec_list decode) body
    | AdminProbes.PostProbe _ | AdminProbes.PutProbe _ _ | AdminProbes.PutCarrier _ _ => of_data decode body
    | AdminProbes.DeleteProbe _ => inl tt
    end |}.

Definition dec_null {A} (d : json -> option A) (v : json) : option (option A) :=
  match v with JNull => Some None | _ => Some <$> d v end.

#[export] Instance client_Settings : Client AdminSettings.Req AdminSettings.Resp := {|
  host_call := HostSettings;
  host_answer := fun _ x => x;
  reading := fun r body =>
    match r return AdminSettings.Resp r + exn with
    | AdminSettings.GetSettings | AdminSettings.PutSettings _ => of_data decode body
    | AdminSettings.PutPIN _ => of_body (member "weak_pin" dec_bool) body
    | AdminSettings.GetTemporary | AdminSettings.DeleteTemporary => of_data (dec_null decode) body
    | AdminSettings.PostTemporary _ => of_data decode body
    | AdminSettings.SessionRefresh | AdminSettings.PinLoaded | AdminSettings.WriteClipboard _ => inl tt
    end |}.

#[export] Instance decode_SessionResponse : Decode SessionResponse.t := fun v =>
  setup_complete0 ← member "setup_complete" dec_bool v; logged_in0 ← member "logged_in" dec_bool v;
  username0 ← optional "username" dec_str v; two_factor_enabled0 ← optional "two_factor_enabled" dec_bool v;
  csrf_token0 ← optional "csrf_token" dec_str v;
  Some (SessionResponse.mk setup_complete0 logged_in0 username0 two_factor_enabled0 csrf_token0).

#[export] Instance decode_SiteResponse : Decode SiteResponse.t := fun v =>
  setup_complete0 ← member "setup_complete" dec_bool v; authenticated0 ← member "authenticated" dec_bool v;
  settings0 ← member "settings" decode v; version0 ← member "version" (member "version" dec_str) v;
  commit0 ← member "version" (member "commit" dec_str) v; protocol0 ← member "version" (member "protocol" dec_num) v;
  Some (SiteResponse.mk setup_complete0 authenticated0 settings0 version0 commit0 protocol0).

#[export] Instance client_Session : Client Session.Req Session.Resp := {|
  host_call := HostSession;
  host_answer := fun _ x => x;
  reading := fun r body =>
    match r return Session.Resp r + exn with
    | Session.GetMe => of_body decode body
    | Session.GetSite => of_body decode body
    | Session.PostLogin _ _ _ | Session.PostLogout | Session.PostSetup _ _ _ _ _ | Session.Push _ => inl tt
    end |}.

(** ** The probes page over the wire *)

Section ProbesPage.
Context `{U : Unicode}.

Definition probes_page (p : AdminProbes.M unit) : prog (AdminProbes.page * Api.page) Base Answer unit := inline over_http p.

End ProbesPage.

(** ** Properties: a probe from the form to the server and back *)

(** The request of the source for a save. *)
Definition probe_http (t : ProbeTask.t) : http :=
  if truthy_num (ProbeTask.id t) then mkHttp PUT (admin "probes/" +++ toString (ProbeTask.id t)) (Json (encode t))
  else mkHttp POST (admin "probes") (Json (encode t)).

Lemma probe_wire t : wire (AdminProbes.requested t) = Some (probe_http t).
Proof. unfold AdminProbes.requested, probe_http. by destruct (truthy_num (ProbeTask.id t)). Qed.

Lemma probe_text t : body (options_of (probe_http t)) = Some (TextBody (stringify (encode t))).
Proof. unfold probe_http. by destruct (truthy_num _). Qed.

Lemma http_request_parts doc h q : http_request doc h = Some q ->
  path q = url h /\
  req_body q = (match content h with NoBody => None | Json v => Some (TextBody (stringify v)) | Form f => Some (FormData f) end) /\
  req_method q = (match verb_ h with GET => None | POST => Some (js "POST") | PUT => Some (js "PUT") | DELETE => Some (js "DELETE") end).
Proof.
  unfold http_request. destruct (verb_ h); [by intros [= <-]|..]; destruct (cookie doc (js "hostpin_csrf")) as [[|c k]|]; try done; by intros [= <-].
Qed.

(** A save is one exchange. *)
Lemma exec_probe_save `{U : Unicode, !UnicodeLaws U} {W} (server : Server W) l p t doc w : AdminProbes.editing p = Some t ->
  exec_in server (probes_page (AdminProbes.save l)) (p, doc) w
  = let o := exchange server (probe_http t) (of_data decode) doc w in
    Trace (asked o)
      (match got o with
       | inl saved => AdminProbes.saved_probe saved (AdminProbes.set_error [] p)
       | inr e => AdminProbes.failed l e (AdminProbes.set_error [] p)
       end, end_state o) (end_world o) (inl tt).
Proof.
  intros He. unfold probes_page, AdminProbes.save, AdminProbes.save_request. cbn [bind get inline exec_in fst snd]. rewrite He. cbv iota.
  unfold probe_http. destruct (truthy_num (ProbeTask.id t)); cbn [bind modify inline exec_in fst snd try_catch AdminProbes.send await];
    rewrite exec_call, exec_over_http; unfold http_call;
    match goal with |- context [mkHttp ?v ?u ?c] =>
      change (wire _) with (Some (mkHttp v u c)); cbv iota;
      change (exchange server (mkHttp v u c) (reading _) doc w) with (exchange server (mkHttp v u c) (@of_data ProbeTask.t decode) doc w);
      destruct (exchange server (mkHttp v u c) (@of_data ProbeTask.t decode) doc w) as [cs fs fw [saved|e']]
    end; cbn; by rewrite app_nil_r.
Qed.

(** C8: saving a probe, from the form to the text on the wire and back: one
    request leaves the page and one body is read, to the task's own address with
    its id and to the collection without; what is sent parses to the very task of
    the form, every optional field included.  When the server accepts and
    describes the task it stored, that task is in the list, in the place of the
    one with its id or at the end, all others stay where they were, the editor is
    closed and the cookies are those of the response. *)
Theorem probe_saved_end_to_end `{U : Unicode, !UnicodeLaws U} {W} (server : Server W) l doc p t q w resp w1 v saved :
  AdminProbes.editing p = Some t -> Forall (fun n => num_ok n = true) (numbers (encode t)) ->
  http_request doc (probe_http t) = Some q -> server (Net (Fetch q)) w = (inl resp, w1) ->
  200 <= status resp <= 299 -> status resp <> 204%Z ->
  (server (Net (ReadJson resp)) w1).1 = inl v -> field (js "data") v ≫= decode = Some saved ->
  let o := exec_in server (probes_page (AdminProbes.save l)) (p, doc) w in
  got o = inl tt /\ asked o = [One (Net (Fetch q)); One (Net (ReadJson resp))] /\
  (exists s, req_body q = Some (TextBody s) /\ parse s ≫= decode = Some t) /\
  path q = (if truthy_num (ProbeTask.id t) then admin "probes/" +++ toString (ProbeTask.id t) else admin "probes") /\
  req_method q = Some (if truthy_num (ProbeTask.id t) then js "PUT" else js "POST") /\
  (end_state o).2 = nullish (cookies_after resp) doc /\
  AdminProbes.editing (end_state o).1 = None /\ AdminProbes.error (end_state o).1 = [] /\
  placed ProbeTask.id saved (AdminProbes.tasks p) (AdminProbes.tasks (end_state o).1).
Proof.
  intros He Hn Hq Hf Hok H204 Hv Hd. cbn zeta. rewrite (exec_probe_save server l p t doc w He). unfold exchange. rewrite Hq. cbn zeta.
  rewrite Hf. cbn [fst snd]. rewrite (proj2 (Z.eqb_neq _ _) H204), (proj2 (Z.leb_le _ _) (proj1 Hok)), (proj2 (Z.leb_le _ _) (proj2 Hok)), Hv.
  cbn [asked end_state got andb fst snd]. unfold of_data. rewrite Hd.
  assert (Hj : json_ok (encode t) = true) by (apply json_ok_parts; [apply ProbeTask_ok|done]).
  assert (Hr : path q = url (probe_http t) /\ req_body q = Some (TextBody (stringify (encode t))) /\
               req_method q = Some (if truthy_num (ProbeTask.id t) then js "PUT" else js "POST")).
  { destruct (http_request_parts _ _ _ Hq) as (-> & -> & ->). unfold probe_http. by destruct (truthy_num (ProbeTask.id t)). }
  destruct Hr as (Hp & Hb & Hm). split_and!; try done.
  - exists (stringify (encode t)). split; [exact Hb|]. rewrite (parse_text _ Hj). pose proof (decode_encode t) as He'; exact He'.
  - rewrite Hp. unfold probe_http. by destruct (truthy_num _).
  - apply (put_or_push_placed ProbeTask.id).
Qed.

(** An example server that counts its answers and gives the text of the last
    request back, with a cookie of its own. *)
Definition echo_server : Server (nat * json) := fun b w =>
  match b with
  | Net (Fetch q) =>
      (inl (mkResponse 200 [] (Some (js "hostpin_csrf=new"))),
       (S w.1, match req_body q with Some (TextBody s) => nullish (parse s) JNull | _ => JNull end))
  | Net (ReadJson _) => (inl (JObj [(js "data", w.2)]), w)
  | Net (ReadBlob _) | HostProbes _ | HostSettings _ | HostSession _ => (inr NotAnError, w)
  end.

(** Numbers of a probe with short integers. *)
Lemma a_task_numbers id name : Z.abs id < 10 ^ 15 -> Forall (fun n => num_ok n = true) (numbers (encode (AdminProbes.a_task id name))).
Proof.
  intros Hi. change (numbers (encode (AdminProbes.a_task id name))) with [of_Z id; of_Z 60; of_Z 5; of_Z 200; of_Z 1].
  repeat constructor; by apply JsDecimal.num_ok_of_Z.
Qed.

Lemma probe_saved_end_to_end_witness :
  let t := AdminProbes.a_task 2 [34; 92; 10; 55357]%N in
  let p := AdminProbes.set_editing (Some t) AdminProbes.two_tasks in
  let o := exec_in echo_server (@probes_page small_unicode (AdminProbes.save en_US)) (p, js "hostpin_csrf=k") (0%nat, JNull) in
  placed ProbeTask.id t [AdminProbes.a_task 1 []; AdminProbes.a_task 2 []] (AdminProbes.tasks (end_state o).1) /\
  (end_state o).2 = js "hostpin_csrf=new".
Proof.
  intros t p o.
  destruct (@probe_saved_end_to_end small_unicode small_unicode_laws (nat * json) echo_server en_US (js "hostpin_csrf=k") p t
    (mkRequest (js "/api/v1/admin/probes/2") (Some (js "PUT")) [(js "x-csrf-token", js "k"); (js "content-type", js "application/json")]
       (Some (TextBody (stringify (encode t)))) (js "same-origin")) (0%nat, JNull) (mkResponse 200 [] (Some (js "hostpin_csrf=new")))
    (1%nat, encode t) (JObj [(js "data", encode t)]) t) as (_ & _ & _ & _ & _ & Hc & _ & _ & H).
  - reflexivity.
  - by apply a_task_numbers.
  - vm_compute. reflexivity.
  - vm_compute. reflexivity.
  - cbn. lia.
  - discriminate.
  - reflexivity.
  - vm_compute. reflexivity.
  - split; [exact H|exact Hc].
Defined.


(** C28: the same save when it does not succeed: a cookie that cannot be decoded
    (nothing is sent), a server that cannot be reached (one request), or one that
    refuses (one request and its body).  In every case the editor stays open with
    what was typed and the list is as it was, and the page shows why: the server's
    own message, wherever in its envelope the member error stands, or the status
    when it gives none or a body that cannot be read; and the reason of the
    failure when nothing was sent or answered. *)
Theorem probe_refused_end_to_end `{U : Unicode, !UnicodeLaws U} {W} (server : Server W) l doc p t w : AdminProbes.editing p = Some t ->
  let o := exec_in server (probes_page (AdminProbes.save l)) (p, doc) w in
  let page := (end_state o).1 in
  let kept := AdminProbes.editing page = Some t /\ AdminProbes.tasks page = AdminProbes.tasks p in
  match http_request doc (probe_http t) with
  | None => kept /\ asked o = [] /\ AdminProbes.error page = js "URI malformed"
  | Some q =>
      match server (Net (Fetch q)) w with
      | (inr e, _) =>
          kept /\ asked o = [One (Net (Fetch q))] /\
          AdminProbes.error page = reason_message e (text l (js "无法保存探测任务。") (js "Could not save probe."))
      | (inl resp, w1) =>
          ~ 200 <= status resp <= 299 ->
          let payload : json := match (server (Net (ReadJson resp)) w1).1 with inl v => v | inr _ => JObj [] end in
          kept /\ asked o = [One (Net (Fetch q)); One (Net (ReadJson resp))] /\
          (end_state o).2 = nullish (cookies_after resp) doc /\
          (forall m, in_error "message" payload = Some (JStr m) -> AdminProbes.error page = m) /\
          (payload <> JNull -> in_error "message" payload = None \/ in_error "message" payload = Some JNull ->
           AdminProbes.error page = (js "Request failed with HTTP " ++ toString (of_Z (status resp)))%list)
      end
  end.
Proof.
  intros He. cbn zeta. rewrite (exec_probe_save server l p t doc w He). unfold exchange.
  destruct (http_request doc (probe_http t)) as [q|]; [|by split_and!]. cbn zeta.
  destruct (server (Net (Fetch q)) w) as [[resp|e] w1]; [|by split_and!]. cbn [fst snd]. intros Hok.
  destruct (Z.eqb_spec (status resp) 204) as [H4|_]; [lia|].
  replace (Z.leb 200 (status resp) && Z.leb (status resp) 299) with false
    by (symmetry; apply andb_false_iff; destruct (Z.leb_spec 200 (status resp)); [right; apply Z.leb_gt; lia|by left]).
  cbn [asked got end_state fst snd].
  change (Answer (Net (ReadJson resp))) with json. set (payload := match _ with inl v => v | inr _ => JObj [] end).
  change (match (server (Net (ReadJson resp)) w1).1 return json with inl v => v | inr _ => JObj [] end) with payload. clearbody payload.
  split_and!; try done.
  - intros m Hm. destruct (api_error_parts (status resp) payload) as (c & m' & -> & _ & _ & Hm' & _); [by intros ->|]. exact (Hm' m Hm).
  - intros Hn Hm. destruct (api_error_parts (status resp) payload Hn) as (c & m' & -> & _ & _ & _ & Hm'). exact (Hm' Hm).
Qed.

(** A server that refuses every token, with the envelope of the server. *)
Definition refusing_server : Server unit := fun b w =>
  match b with
  | Net (Fetch _) => (inl (mkResponse 403 [] None), w)
  | Net (ReadJson _) => (inl forbidden, w)
  | Net (ReadBlob _) | HostProbes _ | HostSettings _ | HostSession _ => (inr NotAnError, w)
  end.

Lemma probe_refused_end_to_end_witness :
  let p := AdminProbes.set_editing (Some (AdminProbes.a_task 2 (js "renamed"))) AdminProbes.two_tasks in
  AdminProbes.error (end_state (exec_in refusing_server (@probes_page small_unicode (AdminProbes.save en_US)) (p, js "hostpin_csrf=k") tt)).1
  = js "Bad token".
Proof.
  intros p. pose proof (@probe_refused_end_to_end small_unicode small_unicode_laws unit refusing_server en_US (js "hostpin_csrf=k") p
    (AdminProbes.a_task 2 (js "renamed")) tt eq_refl) as H.
  cbv beta iota zeta delta [http_request] in H. cbn [probe_http verb_ content url] in H.
  refine (proj1 (proj2 (proj2 (proj2 (H _)))) (js "Bad token") _); [cbn; lia|reflexivity].
Defined.

(** ** The settings page with the session store *)

Section SettingsPage.
Context `{U : Unicode}.

(** An action of the session store: its calls go over the wire. *)
Definition store_action {A} (p : Session.M A) : prog (Session.app * Api.page) Base Answer A := inline over_http p.

(** The calls of the page: [session.refresh()] is the store's action. *)
Definition settings_call (r : AdminSettings.Req) : prog (Session.app * Api.page) Base Answer (AdminSettings.Resp r) :=
  match r return prog (Session.app * Api.page) Base Answer (AdminSettings.Resp r) with
  | AdminSettings.SessionRefresh => store_action refresh
  | r => lift (over_http (Resp := AdminSettings.Resp) r)
  end.

Definition settings_page (p : AdminSettings.M unit) : prog (AdminSettings.page * (Session.app * Api.page)) Base Answer unit := inline settings_call p.

(** A refresh run alone: both answers or an error. *)
Definition both {A B} (x : A + exn) (y : B + exn) : (A * B) + exn :=
  match x, y with
  | inl x, inl y => inl (x, y)
  | inr e, _ => inr e
  | _, inr e => inr e
  end.

Lemma exec_store_refresh `{!UnicodeLaws U} {W} (server : Server W) a doc w :
  exec_in server (store_action refresh) (a, doc) w
  = let me := http_call server GetMe doc w in
    let site := http_call server GetSite (end_state me) (end_world me) in
    Trace (asked me ++ asked site)
      (match both (got me) (got site) with inl b => with_session a (refreshed b.1 b.2) | inr _ => a end, end_state site) (end_world site)
      (match both (got me) (got site) with inl _ => inl tt | inr e => inr e end).
Proof.
  unfold store_action. rewrite page_over_http_eq. unfold refresh. cbn zeta. cbn [bind await get modify exec_in ask_in fst snd client].
  set (me := http_call server GetMe doc w). cbn [fst snd].
  set (site := http_call server GetSite (end_state me) (end_world me)).
  destruct (got me) as [m|e]; destruct (got site) as [x|e']; reflexivity.
Qed.

End SettingsPage.

(** C9: saving the settings, across the page, the session store and the wire: the
    settings, with the market sources of the form as a list, are sent first, and
    only their acceptance is followed by the two requests of the store's refresh;
    then the page has the settings of the answer, the store shows the site as the
    server now describes it and the page reports success.  A refusal leaves the
    store as it is, and the page keeps what was typed, the market sources as the
    list that was sent, and shows why; a refresh that fails leaves the store as it
    was, and its error is shown although the settings have been saved.  Cookies
    follow the responses. *)
Theorem settings_saved_end_to_end `{U : Unicode, !UnicodeLaws U} {W} (server : Server W) l doc p a s w : AdminSettings.settings p = Some s ->
  let s' := with_sources s (Some (items newline (sources p))) (SiteSettings.enrollment_pin_weak s) in
  let o := exec_in server (settings_page (AdminSettings.save l)) (p, (a, doc)) w in
  let page := (end_state o).1 in let store := (end_state o).2.1 in
  let put := http_call server (PutSettings s') doc w in
  let failure e := reason_message e (text l (js "保存失败。") (js "Save failed.")) in
  got o = inl tt /\
  match got put with
  | inr e => asked o = asked put /\ (end_state o).2.2 = end_state put /\ store = a /\ AdminSettings.settings page = Some s' /\
             AdminSettings.status page = [] /\ AdminSettings.error page = failure e
  | inl saved =>
      let me := http_call server GetMe (end_state put) (end_world put) in
      let site := http_call server GetSite (end_state me) (end_world me) in
      asked o = (asked put ++ asked me ++ asked site)%list /\ (end_state o).2.2 = end_state site /\
      AdminSettings.settings page = Some saved /\
      match both (got me) (got site) with
      | inl (m, x) => Session.site (session store) = Some (SiteResponse.settings x) /\
                      Session.loggedIn (session store) = SessionResponse.logged_in m /\
                      AdminSettings.status page = text l (js "设置已保存。") (js "Settings saved.") /\ AdminSettings.error page = []
      | inr e => store = a /\ AdminSettings.status page = [] /\ AdminSettings.error page = failure e
      end
  end.
Proof.
  intros Hs. cbn zeta. set (s' := with_sources s _ _). set (o := exec_in server _ _ _).
  assert (Ho : o = exec_in server (settings_page (AdminSettings.save l)) (p, (a, doc)) w) by done. clearbody o.
  unfold settings_page, AdminSettings.save in Ho. cbn [bind get inline exec_in fst snd] in Ho. rewrite Hs in Ho. cbv iota zeta in Ho.
  cbn [bind modify inline exec_in fst snd try_catch send await] in Ho. fold s' in Ho. rewrite exec_call in Ho. cbn zeta in Ho.
  cbn [settings_call] in Ho. rewrite exec_lift, exec_over_http in Ho. cbn zeta in Ho. cbn [got asked end_state end_world] in Ho.
  set (put := http_call server (PutSettings s') doc w) in *. clearbody put.
  destruct put as [cs fs fw [saved|e]]; cbn [got asked end_state end_world] in *; subst o; [|by cbn; rewrite app_nil_r].
  cbn [bind modify inline exec_in fst snd try_catch send await]. rewrite exec_call. cbn zeta. cbn [settings_call].
  rewrite exec_store_refresh. cbn zeta. cbn [got asked end_state end_world].
  set (me := http_call server GetMe _ _). set (site := http_call server GetSite _ _). clearbody site.
  destruct (both (got me) (got site)) as [[m x]|e]; cbn; by rewrite app_nil_r.
Qed.

(** A server whose answers are three bodies. *)
Definition three_bodies (me site put : json) : Server unit := fun b w =>
  match b with
  | Net (Fetch q) =>
      (inl (mkResponse (if streq (path q) (js "/api/v1/auth/me") then 200 else if streq (path q) (js "/api/v1/public/site") then 201 else 202) [] None), w)
  | Net (ReadJson resp) => (inl (if Z.eqb (status resp) 200 then me else if Z.eqb (status resp) 201 then site else put), w)
  | Net (ReadBlob _) | HostProbes _ | HostSettings _ | HostSession _ => (inr NotAnError, w)
  end.

Definition me_body : json := obj [("setup_complete", bool_ true); ("logged_in", bool_ true); ("username", str (js "root"))]%string.
Definition site_body : json :=
  obj [("setup_complete", bool_ true); ("authenticated", bool_ true); ("settings", Some (encode a_site));
       ("version", Some (obj [("version", str (js "1.0")); ("commit", str []); ("protocol", number (#1))]%string))]%string.

Lemma settings_saved_end_to_end_witness :
  let server := three_bodies me_body site_body (JObj [(js "data", encode a_site)]) in
  let p := set_settings (Some a_site) (AdminSettings.init (#0)) in
  let a := mkApp Session.init (mkLogin [] [] [] false []) (mkSetup [] [] [] [] [] [] false []) [] QAbsent in
  Session.site (session (end_state (exec_in server (@settings_page small_unicode (AdminSettings.save en_US)) (p, (a, js "hostpin_csrf=k")) tt)).2.1)
  = Some a_site.
Proof.
  intros server p a.
  destruct (@settings_saved_end_to_end small_unicode small_unicode_laws unit server en_US (js "hostpin_csrf=k") p a a_site tt eq_refl) as (_ & H).
  vm_compute in H. destruct H as (_ & _ & _ & H & _). vm_compute. exact H.
Defined.
